(* ===== verification/_CoqProject ===== *)
-Q . S2P
Prelude.v
External.v
Reference.v
Constants.v
Packet.v
PacketWriter.v
PacketReader.v
NestedReader.v
Utf8.v
Text.v
SysUtils.v
Metrics.v
Profiling.v
Proto.v
TenantKey.v
ErrorCodes.v
Charset.v
Basic.v
Writers.v
Forwarder.v
Responses.v
Server.v
Auth.v
StaticProxy.v
Runtime.v
CpResolver.v
Discovery.v
Pool.v
Router.v
BackendMgr.v
Startup.v
Shutdown.v
Rest.v
Connect.v
Termination.v
Latency.v
ActiveUsers.v
Tonic.v
Grpc.v
ControlPlane.v
System.v
