(* ===== verification/Prelude.v ===== *)
(** * Haentgl: a verification development of the MySQL proxy

    Haentgl is a MySQL proxy.  A client connects to it as to a server; the proxy sends its own
    greeting, learns the user (and the tenant in the user name) from the client's response,
    takes a backend connection from a pool, lets the backend authenticate the client through an
    authentication switch, and then relays commands and responses until the client quits, when
    the backend connection is reset for its next user.  The sources are the Rust workspace
    under [src/src/]; below, paths are relative to [src/src/proxy/src/], and those of the crates
    [common], [web_service] and [cmd] to [src/src/].  The crate also has a static proxy, a server
    without backends that hands the commands to a handler.

    ** How code is modelled

    Bytes, [u8] to [u64], [usize] and lengths are [Z], with the ranges in the statements and the
    wrap-around or panic of a machine-width sum written out ([add_width]; the class [Profile]
    says whether the build checks overflow).  Strings are their UTF-8 bytes.  Code that can fail
    returns an [outcome]: a value, an error, a panic (a failed [unwrap], index, assertion or
    checked sum), or the exhaustion of the fuel of a loop.  Code with state is in the monad
    [M S A]; [zoom] runs a computation on a component of the state.  Third-party crates (tokio's
    streams, winnow, byteorder, mysql_common, hex, sha1, ...) are the operation classes of
    [External]: arguments of the definitions that call them.  What the code relies on, from the
    crates' documentation, is a separate class of laws that only theorems assume; [Reference]
    has instances that satisfy them and on which every witness runs.

    ** Files

    - [Prelude]: outcomes, the monad, byte strings, machine integers, tactics ([ostep], [mstep],
      [mrun], [inv_bind], [len_lia], [zbool], [bounds]).
    - [External], [Reference]: the interfaces to third-party code and their instances.
    - [Constants]: [protocol/mysql/constants.rs].
    - [Packet], [PacketWriter], [PacketReader]: [protocol/mysql/packet/mod.rs],
      [packet_writer.rs], [packet_reader.rs]; framing, buffering, short reads and writes.
    - [NestedReader]: a packet reader that reads through another one, as in the static proxy.
    - [Utf8], [Text]: the UTF-8 and the text functions of Rust's standard library.
    - [SysUtils], [Metrics], [Profiling]: [common/src/]; the resources of the machine, the metrics
      of the process and its collector, the CPU and heap profilers.
    - [Proto], [TenantKey]: the protobuf messages of [prost/] and the tenant key codec of
      [backend/mod.rs].
    - [ErrorCodes], [Charset]: [protocol/mysql/error_codes.rs] and [charset.rs], row by row.
    - [Basic]: [protocol/mysql/basic.rs]; the parsers of handshake responses, commands and OK
      packets.
    - [Writers]: [protocol/mysql/packet/writers.rs]; every packet the proxy builds itself.
    - [Forwarder]: [server/forwarder/]; the trait [ComForwarder] (a class) and its five
      implementations (instances), on the record [Conn] of the four packet streams of a
      connection.
    - [Responses]: the grammar of backend responses, an abstract specification, and that the
      forwarders relay exactly the responses of the grammar.
    - [Server]: the command phase [on_com] of [server/haentgl_server.rs]; the class
      [RelayingForwarder] is what a forwarder promises it.
    - [Auth]: [server/auth/]; salts, digests and the three authentication flows; the class
      [Authenticator] is the trait, which the server is written against.
    - [StaticProxy]: [server/static_proxy.rs] and [server/cmd_handler.rs]; the class [CmdHandler]
      is the trait of the handler.
    - [Runtime]: the interfaces to tokio's channels, dashmap, rand, deadpool, tonic and TCP, with
      their instances.
    - [CpResolver]: [backend/control_plane_resolver.rs]; the channels to the control plane.
    - [Discovery]: [backend/backend_discovery.rs]; the backends of each tenant, from the control
      plane's events.
    - [Pool]: [backend/pool/]; pooled connections and their life cycle.
    - [Router]: [backend/router/]; the trait [BackendRouter] (a class), its three implementations
      (instances) and what they promise the manager.
    - [BackendMgr]: [backend/backend_mgr.rs]; the table of pools, and the tasks that change it as
      a step relation.
    - [Startup]: [server/proxy_cli_args.rs] and [cmd/src/main.rs]; from the command line to the
      router, the manager, the HTTP servers and the loop that accepts clients.
    - [Shutdown]: the shutdown of the tasks of [cmd/src/main.rs], [common/src/lib.rs] and
      [cp/mod.rs]; the class [SharedWatch] is tokio's watch channel with several receivers.
    - [Rest]: [web_service/src/]; the routes and the handlers of the REST interface.
    - [Connect]: [HaentglServer::connect] and [on_conn], which compose the server, the
      authentication, the manager and the pools.
    - [Termination]: that a connection ends whatever its peers do, component by component.
    - [Latency]: [HaentglServer] and its command phase with the metrics it records, and that they
      change nothing else.
    - [ActiveUsers]: [cp/active_users.rs] and [cp/cp_target.rs]; the users reported to the
      control plane.
    - [Tonic], [Grpc]: the interfaces to http, prost and tonic with their instances, and the
      generated clients, traits (classes) and servers of [prost/topology.rs] and
      [prost/control_plane.rs].
    - [ControlPlane]: the window of [ActiveUsers] as the implementation of the control plane's
      trait, served through [Grpc].
    - [System]: the running process, the start of [main] composed with the manager, the routers and
      discovery, as a step relation.

    ** What the theorems show

    - Framing: [next_async] and [next_read] refine one abstract step on the byte stream,
      whatever the pieces it arrives in and with a fuel that always suffices; [end_packet]
      round-trips through the parser whatever part of a write is accepted; the two cases where
      it does not (payloads ending on a frame boundary, short writes of an empty packet).
    - Parsing and writing: handshake responses are recovered field by field, parsing
      terminates, commands are classified, the greeting, OK, error and prepare packets are read
      back; error codes and charset tables are consistent up to the listed entries.
    - Tenants: the key codec round-trips, with the exact bound at which [u8] offsets overflow;
      the user name is split at its last dot.
    - Sessions: [on_com] relays any sequence of commands and complete responses byte for byte,
      in both directions, and then resets the backend; a change of user relays the whole
      dialogue; the authentication flows relay the switch, the answer and the verdict; and what
      the server does on input it does not handle.
    - Visits: [connect], from the greeting to the reset of the backend connection, sends exactly
      the specified bytes both ways, for new and for reused connections, accepted and refused
      clients; by induction on the visits of a connection, one the pool hands out again is marked
      with the last client it authenticated, and none of its clients was refused; a panic,
      however, returns a used connection as a new one.
    - Termination: [connect] ends on any finite streams, malformed or cut off, and with writes
      that fail.
    - Metrics of the command phase: the metered program does to the connection what the plain
      one does; each command sent records one latency; what becomes of the gauge of connections.
    - gRPC: a stub called on the generated server is the method of the trait.
    - Shutdown: a signal ends every task that holds a receiver, and the channel ends none of them
      before; what else ends them (a failed refresh, a failed bind) has theorems of its own.
    - Topology: discovery refines a directory of the last event per tenant and address, up to the
      first event of a tenant without an entry, which panics; every client of a tenant with an
      entry is routed to a pool of its backends; the control plane is picked round robin and its
      table follows the list of members; and where the tasks go wrong: pools that are never removed, lost
      notifications, events and failures that panic the discovery task.
    - Active users: the two maps refine one map emptied by each request, unless operations
      overlap; the control plane is sent them through the generated client, with recordings
      between its requests; and what is lost when it leaves.
    - Static proxy: a connection refines a server that works on packets, through two nested
      readers, which are equivalent to one; nobody passes the handler; which commands it answers
      itself; the first failed connection ends [on_recv].
    - Processes: the command lines that start and what they set up; with the static router every
      client is served once the pools are made, with the synchronising router none ever is.
    - Machine, metrics, profilers, REST: which limits of the container are read, what the gauge of
      processor time holds, what starts and stops of the profilers do, and the answers of the
      REST interface.

    ** Fuel

    Every loop of the source that is not structural takes a fuel: the reads ([rf]), the loops of
    the forwarders ([ff]), the loop of [on_com].  No theorem assumes that a run returns: each
    gives the fuel that is enough in terms of its input (the length of the remaining stream,
    the number of packets of a response, the number of commands) and shows the result.
    [Termination] has the bounds that hold whatever the peers send: the lengths of the streams.

    ** What is not modelled

    Logging and TLS.  Time is the readings of a clock where it is measured, and the events of
    timers elsewhere.  Tasks interleave at the granularity of the operations modelled: a message
    handled, a turn of the notifier, a client routed; [put_lost_in_switch] goes below it.  The
    runtime that [main] drops at its end, which cuts off the tasks of the clients, is tokio's.
    Which route a request matches is axum's, and the arguments come parsed from clap.  The
    sampling and the dumps of the profilers are pprof's and jemalloc's.  The encoding of the
    messages of [prost/] is derived by prost, and tonic carries the calls: both are parameters of
    [Grpc].  The clones of the generated servers, which share their service, are the servers
    themselves.  The trait [ProxyServer] has one implementation and no client of its own: its
    methods are [on_conn], [on_com_metered] and [haentgl_server_close].  [poll_write] and
    [poll_flush] of the packet writer, which nothing calls, are left out. *)
From stdpp Require Export base tactics list gmap strings.
From Stdlib Require Export ZArith Lia.
#[export] Set Default Goal Selector "!".
#[global] Open Scope Z_scope.

(** ** Results and effects *)

(** A computation returns, returns an error, panics (the task unwinds: [unwrap] on an
    error, an index out of range, a failed [assert!], an arithmetic overflow in a build
    with overflow checks), or exhausts the fuel of a modelled loop. *)
Inductive outcome (E A : Type) : Type :=
  | Ok (a : A)
  | Err (e : E)
  | Panic
  | OutOfFuel.
Arguments Ok {E A} a.
Arguments Err {E A} e.
Arguments Panic {E A}.
Arguments OutOfFuel {E A}.

#[export] Instance outcome_ret E : MRet (outcome E) := fun A a => Ok a.
#[export] Instance outcome_bind E : MBind (outcome E) := fun A B f m =>
  match m with
  | Ok a => f a
  | Err e => Err e
  | Panic => Panic
  | OutOfFuel => OutOfFuel
  end.

Definition map_err {E F A} (f : E -> F) (m : outcome E A) : outcome F A :=
  match m with
  | Ok a => Ok a
  | Err e => Err (f e)
  | Panic => Panic
  | OutOfFuel => OutOfFuel
  end.

(** [unwrap] turns an error into a panic. *)
Definition unwrap {E F A} (m : outcome E A) : outcome F A :=
  match m with
  | Ok a => Ok a
  | Err _ => Panic
  | Panic => Panic
  | OutOfFuel => OutOfFuel
  end.

Definition unwrap_option {E A} (o : option A) : outcome E A :=
  match o with Some a => Ok a | None => Panic end.

(** The kinds of [std::io::Error] the proxy builds or inspects; the message texts are not
    modelled. *)
Inductive io_error : Type :=
  | NotFound
  | PermissionDenied
  | ConnectionRefused
  | ConnectionAborted
  | NotConnected
  | InvalidData
  | UnexpectedEof
  | WriteZero
  | OtherIo.

#[export] Instance io_error_eq_dec : EqDecision io_error.
Proof. solve_decision. Defined.

(** Stateful code: the state after the call is kept on every path, errors included. *)
Definition M (S A : Type) : Type := S -> outcome io_error A * S.

#[export] Instance M_ret S : MRet (M S) := fun A a s => (Ok a, s).
#[export] Instance M_bind S : MBind (M S) := fun A B f m s =>
  match m s with
  | (Ok a, s') => f a s'
  | (Err e, s') => (Err e, s')
  | (Panic, s') => (Panic, s')
  | (OutOfFuel, s') => (OutOfFuel, s')
  end.

Definition get {S} : M S S := fun s => (Ok s, s).
Definition put {S} (s : S) : M S unit := fun _ => (Ok tt, s).
Definition modify {S} (f : S -> S) : M S unit := fun s => (Ok tt, f s).
Definition gets {S A} (f : S -> A) : M S A := fun s => (Ok (f s), s).
Definition lift {S A} (o : outcome io_error A) : M S A := fun s => (o, s).
Definition throw {S A} (e : io_error) : M S A := fun s => (Err e, s).
Definition panic {S A} : M S A := fun s => (Panic, s).

(** Run a computation on a component [T] of a larger state [S]. *)
Definition zoom {S T A} (view : S -> T) (upd : T -> S -> S) (m : M T A) : M S A :=
  fun s => let '(o, t) := m (view s) in (o, upd t s).

(** The [Result] of a call, as a value; a panic is still a panic. *)
Definition attempt {S A} (m : M S A) : M S (io_error + A) := fun s =>
  match m s with
  | (Ok a, s') => (Ok (inr a), s')
  | (Err e, s') => (Ok (inl e), s')
  | (Panic, s') => (Panic, s')
  | (OutOfFuel, s') => (OutOfFuel, s')
  end.

Lemma run_bind {S A B} (m : M S A) (f : A -> M S B) s :
  (m ≫= f) s = match m s with
               | (Ok a, s') => f a s'
               | (Err e, s') => (Err e, s')
               | (Panic, s') => (Panic, s')
               | (OutOfFuel, s') => (OutOfFuel, s')
               end.
Proof. reflexivity. Qed.

Lemma bind_ok_inv {E A B} (m : outcome E A) (f : A -> outcome E B) b :
  m ≫= f = Ok b -> exists a, m = Ok a /\ f a = Ok b.
Proof. destruct m; simpl; intros; try discriminate. eauto. Qed.

Lemma run_bind_ok {S A B} (m : M S A) (f : A -> M S B) s b s' :
  (m ≫= f) s = (Ok b, s') ->
  exists a s1, m s = (Ok a, s1) /\ f a s1 = (Ok b, s').
Proof. rewrite run_bind. destruct (m s) as [[]]; intros; try discriminate. eauto. Qed.

Lemma run_zoom {S T A} (view : S -> T) upd (m : M T A) s o t :
  m (view s) = (o, t) -> zoom view upd m s = (o, upd t s).
Proof. unfold zoom. by intros ->. Qed.

(** A computation that ends with a value, an error or a panic, in every state. *)
Definition returns {S A} (m : M S A) : Prop := forall s, fst (m s) <> OutOfFuel.

Lemma returns_ret {S A} (a : A) : returns (S := S) (mret a).
Proof. intros s. discriminate. Qed.

Lemma returns_lift {S A} (o : outcome io_error A) : o <> OutOfFuel -> returns (S := S) (lift o).
Proof. by intros H s. Qed.

Lemma returns_throw {S A} e : returns (S := S) (throw (A := A) e).
Proof. intros s. discriminate. Qed.

Lemma returns_bind {S A B} (m : M S A) (k : A -> M S B) :
  returns m -> (forall a, returns (k a)) -> returns (m ≫= k).
Proof.
  intros Hm Hk s. rewrite run_bind. specialize (Hm s).
  destruct (m s) as [[a|e| |] s']; cbn [fst] in *; try done. apply Hk.
Qed.

Lemma returns_if {S A} (b : bool) (m k : M S A) : returns m -> returns k -> returns (if b then m else k).
Proof. by destruct b. Qed.

Lemma returns_modify {S} (f : S -> S) : returns (modify f).
Proof. intros s. discriminate. Qed.

Lemma returns_gets {S A} (f : S -> A) : returns (gets f).
Proof. intros s. discriminate. Qed.

Lemma returns_zoom {S T A} (view : S -> T) upd (m : M T A) : returns m -> returns (zoom view upd m).
Proof. intros Hm s. unfold zoom. specialize (Hm (view s)). by destruct (m (view s)). Qed.

Lemma unwrap_option_ends {E A} (o : option A) : unwrap_option (E := E) o <> OutOfFuel.
Proof. by destruct o. Qed.

Lemma outcome_bind_ends {E A B} (m : outcome E A) (k : A -> outcome E B) :
  m <> OutOfFuel -> (forall a, k a <> OutOfFuel) -> m ≫= k <> OutOfFuel.
Proof. intros Hm Hk. destruct m; try done. apply Hk. Qed.

(** Reduce a bind whose first computation is known, and nothing else. *)
Ltac ostep := cbn [mbind outcome_bind mret outcome_ret].

(** The same for stateful code: run the leading primitive steps. *)
Ltac mrun := cbv beta iota delta [get gets modify put lift throw panic mret M_ret].
Ltac mstep := mrun; repeat (rewrite run_bind; mrun).

Create HintDb returns.
#[export] Hint Resolve returns_ret returns_lift returns_throw returns_bind returns_if returns_modify
  returns_gets returns_zoom unwrap_option_ends outcome_bind_ends : returns.

(** Inversion of a successful bind. *)
Ltac inv_bind H :=
  match type of H with
  | (_ ≫= _) _ = (Ok _, _) =>
      let a := fresh "a" in let s := fresh "s" in let E := fresh "E" in
      apply run_bind_ok in H as (a & s & E & H)
  | _ ≫= _ = Ok _ =>
      let a := fresh "a" in let E := fresh "E" in
      apply bind_ok_inv in H as (a & E & H)
  end.

(** ** Byte strings and lengths *)

Abbreviation bytes := (list Z).

(** [usize] lengths are kept in [Z]. *)
Definition len {A} (l : list A) : Z := Z.of_nat (length l).

Definition is_u8 (b : Z) : Prop := 0 <= b < 256.
Definition is_bytes (l : bytes) : Prop := Forall is_u8 l.

(** [take]/[drop] indexed by [Z], structural on the list so that a large bound never
    becomes a unary numeral. *)
Fixpoint ztake {A} (n : Z) (l : list A) : list A :=
  match l with
  | [] => []
  | x :: t => if n <=? 0 then [] else x :: ztake (n - 1) t
  end.

Fixpoint zdrop {A} (n : Z) (l : list A) : list A :=
  match l with
  | [] => []
  | x :: t => if n <=? 0 then l else zdrop (n - 1) t
  end.

(** A [&str]/[b"..."] literal as its bytes. *)
Fixpoint str (s : String.string) : bytes :=
  match s with
  | String.EmptyString => []
  | String.String c s' => Z.of_nat (Ascii.nat_of_ascii c) :: str s'
  end.

(** Little-endian integers of [n] bytes. *)
Fixpoint le_bytes (n : nat) (v : Z) : bytes :=
  match n with
  | O => []
  | S n' => v mod 256 :: le_bytes n' (v / 256)
  end.

Fixpoint le_value (l : bytes) : Z :=
  match l with
  | [] => 0
  | b :: t => b + 256 * le_value t
  end.

(** ** Machine arithmetic *)

(** Whether the binary is built with [overflow-checks] (the dev profile) or not (the release
    profile); the model is parametric in it. *)
Class Profile := overflow_checks : bool.

(** [a + b] at an unsigned width [w] (given as the modulus). *)
Definition add_width `{Profile} {E} (w a b : Z) : outcome E Z :=
  if a + b <? w then Ok (a + b)
  else if overflow_checks then Panic else Ok ((a + b) mod w).

Definition U8 : Z := 256.
Definition U16 : Z := 65536.
Definition U32 : Z := 4294967296.
Definition U64 : Z := 18446744073709551616.

(** ** Lemmas on lengths *)

Create HintDb haentgl.
Create Rewrite HintDb len.

Lemma len_nil {A} : len (@nil A) = 0.
Proof. reflexivity. Qed.
Lemma len_cons {A} (x : A) l : len (x :: l) = 1 + len l.
Proof. unfold len. simpl. lia. Qed.
Lemma len_app {A} (l k : list A) : len (l ++ k) = len l + len k.
Proof. unfold len. rewrite length_app. lia. Qed.
Lemma len_nonneg {A} (l : list A) : 0 <= len l.
Proof. unfold len. lia. Qed.
Lemma len_zero {A} (l : list A) : len l = 0 -> l = [].
Proof. destruct l; [done|]. rewrite len_cons. pose proof (len_nonneg l). lia. Qed.
Lemma len_replicate {A} n (x : A) : len (replicate n x) = Z.of_nat n.
Proof. unfold len. by rewrite length_replicate. Qed.

#[export] Hint Rewrite @len_nil @len_cons @len_app @len_replicate : len.

(** [len_lia]: linear arithmetic over list lengths. *)
Ltac len_lia :=
  autorewrite with len in *;
  repeat match goal with
  | |- context [len ?l] => lazymatch goal with H : 0 <= len l |- _ => fail | _ => pose proof (len_nonneg l) end
  | _ : context [len ?l] |- _ => lazymatch goal with H : 0 <= len l |- _ => fail | _ => pose proof (len_nonneg l) end
  end; lia.

(** [zbool]: decide the boolean comparisons of the goal by arithmetic. *)
Ltac zbool :=
  repeat match goal with
  | |- context [?a <=? ?b] =>
      first [rewrite (proj2 (Z.leb_le a b)) by lia | rewrite (proj2 (Z.leb_gt a b)) by lia]
  | |- context [?a <? ?b] =>
      first [rewrite (proj2 (Z.ltb_lt a b)) by lia | rewrite (proj2 (Z.ltb_ge a b)) by lia]
  | |- context [?a =? ?b] =>
      first [rewrite (proj2 (Z.eqb_eq a b)) by lia | rewrite (proj2 (Z.eqb_neq a b)) by lia]
  end; cbn [andb orb negb].

Lemma ztake_take {A} n (l : list A) : ztake n l = take (Z.to_nat n) l.
Proof.
  revert n. induction l as [|x t IH]; intros n; simpl; [by rewrite take_nil|].
  destruct (Z.leb_spec n 0).
  - by replace (Z.to_nat n) with 0%nat by lia.
  - replace (Z.to_nat n) with (S (Z.to_nat (n - 1))) by lia. simpl. by rewrite IH.
Qed.

Lemma zdrop_drop {A} n (l : list A) : zdrop n l = drop (Z.to_nat n) l.
Proof.
  revert n. induction l as [|x t IH]; intros n; simpl; [by rewrite drop_nil|].
  destruct (Z.leb_spec n 0).
  - by replace (Z.to_nat n) with 0%nat by lia.
  - replace (Z.to_nat n) with (S (Z.to_nat (n - 1))) by lia. simpl. by rewrite IH.
Qed.

Lemma ztake_zdrop {A} n (l : list A) : ztake n l ++ zdrop n l = l.
Proof. rewrite ztake_take, zdrop_drop. apply take_drop. Qed.

Lemma len_ztake {A} n (l : list A) : 0 <= n -> len (ztake n l) = Z.min n (len l).
Proof. intros. rewrite ztake_take. unfold len. rewrite length_take. lia. Qed.

Lemma len_zdrop {A} n (l : list A) : 0 <= n -> len (zdrop n l) = Z.max 0 (len l - n).
Proof. intros. rewrite zdrop_drop. unfold len. rewrite length_drop. lia. Qed.

Lemma ztake_app {A} n (l k : list A) : n = len l -> ztake n (l ++ k) = l.
Proof. intros ->. rewrite ztake_take. unfold len. rewrite Nat2Z.id. apply take_app_length. Qed.

Lemma zdrop_app {A} n (l k : list A) : n = len l -> zdrop n (l ++ k) = k.
Proof. intros ->. rewrite zdrop_drop. unfold len. rewrite Nat2Z.id. apply drop_app_length. Qed.

Lemma ztake_app_le {A} n (l k : list A) : n <= len l -> ztake n (l ++ k) = ztake n l.
Proof. intros. rewrite !ztake_take. apply take_app_le. unfold len in *. lia. Qed.

Lemma zdrop_app_le {A} n (l k : list A) : n <= len l -> zdrop n (l ++ k) = zdrop n l ++ k.
Proof. intros. rewrite !zdrop_drop. apply drop_app_le. unfold len in *. lia. Qed.

Lemma ztake_all {A} n (l : list A) : len l <= n -> ztake n l = l.
Proof. intros. rewrite ztake_take. apply take_ge. unfold len in *. lia. Qed.

Lemma zdrop_all {A} n (l : list A) : len l <= n -> zdrop n l = [].
Proof. intros. rewrite zdrop_drop. apply drop_ge. unfold len in *. lia. Qed.

Lemma zdrop_0 {A} (l : list A) : zdrop 0 l = l.
Proof. rewrite zdrop_drop. apply drop_0. Qed.

(** ** Lemmas on little-endian integers *)

Lemma le_bytes_S n v : le_bytes (S n) v = v mod 256 :: le_bytes n (v / 256).
Proof. reflexivity. Qed.

Lemma length_le_bytes n v : length (le_bytes n v) = n.
Proof. revert v. induction n; intros; simpl; auto. Qed.

Lemma len_le_bytes n v : len (le_bytes n v) = Z.of_nat n.
Proof. unfold len. by rewrite length_le_bytes. Qed.
#[export] Hint Rewrite @len_le_bytes : len.

Lemma le_value_bytes n v : 0 <= v < 256 ^ Z.of_nat n -> le_value (le_bytes n v) = v.
Proof.
  revert v. induction n as [|n IH]; intros v Hv; simpl.
  - change (256 ^ Z.of_nat 0) with 1 in Hv. lia.
  - rewrite Nat2Z.inj_succ, Z.pow_succ_r in Hv by lia.
    rewrite IH; [pose proof (Z.div_mod v 256); lia|].
    split; [apply Z.div_pos; lia|]. apply Z.div_lt_upper_bound; lia.
Qed.

Lemma le_bytes_value l : is_bytes l -> le_bytes (length l) (le_value l) = l.
Proof.
  induction 1 as [|b t Hb Ht IH]; simpl; [done|]. unfold is_u8 in Hb.
  replace (b + 256 * le_value t) with (le_value t * 256 + b) by lia.
  rewrite Z.add_comm, Z.mod_add, Z.mod_small, Z.div_add, Z.div_small by lia.
  by rewrite Z.add_0_l, IH.
Qed.

Lemma le_value_bound l : is_bytes l -> 0 <= le_value l < 256 ^ len l.
Proof.
  induction 1 as [|b t Hb Ht IH]; simpl; [by vm_compute|]. unfold is_u8 in Hb.
  rewrite len_cons, Z.add_comm, Z.pow_add_r by (pose proof (len_nonneg t); lia).
  change (256 ^ 1) with 256. lia.
Qed.

Lemma le_value_app l k : le_value (l ++ k) = le_value l + 256 ^ len l * le_value k.
Proof.
  induction l as [|b t IH]; cbn [app le_value]; [change (len (@nil Z)) with 0; lia|].
  rewrite IH, len_cons, Z.pow_add_r by (pose proof (len_nonneg t); lia).
  change (256 ^ 1) with 256. lia.
Qed.

Lemma le_value_bytes_mod n v : le_value (le_bytes n v) = v mod 256 ^ Z.of_nat n.
Proof.
  revert v. induction n as [|n IH]; intros v; [by rewrite Z.mod_1_r|].
  rewrite le_bytes_S. cbn [le_value]. rewrite IH, Nat2Z.inj_succ, Z.pow_succ_r by lia.
  by rewrite Z.rem_mul_r by lia.
Qed.

Lemma le_bytes_is_bytes n v : is_bytes (le_bytes n v).
Proof.
  revert v. induction n; intros v; simpl; constructor; [|apply IHn].
  apply Z.mod_pos_bound. lia.
Qed.

Lemma is_bytes_app l k : is_bytes (l ++ k) <-> is_bytes l /\ is_bytes k.
Proof. apply Forall_app. Qed.

#[export] Hint Resolve le_bytes_is_bytes : haentgl.

#[global] Arguments le_bytes : simpl never.

(** ** Lemmas on machine arithmetic *)

Lemma add_width_fits `{Profile} {E} w a b : a + b < w -> add_width (E := E) w a b = Ok (a + b).
Proof. intros. unfold add_width. by zbool. Qed.

Lemma add_width_overflow `{Profile} {E} w a b : overflow_checks = true -> w <= a + b ->
  add_width (E := E) w a b = Panic.
Proof. intros Ho ?. unfold add_width. zbool. by rewrite Ho. Qed.
