(* ===== verification/External.v ===== *)
(** * Third-party code the proxy calls

    Every crate function the modelled code calls is a field of an operations class here, and
    an argument of the definitions that use it.  What the code relies on is a separate class
    of laws, taken from the crate's documentation, which only theorems assume.  Each pair has
    a reference instance, so that the definitions run and the laws are known to be
    satisfiable. *)
From S2P Require Import Prelude.

(** ** winnow: byte parsers *)

(** [winnow::error::ErrorKind], as far as [client_handshake_err!] looks at it. *)
Inductive winnow_kind : Type := KEof | KOther.

(** [winnow::error::ErrMode]. *)
Inductive err_mode : Type :=
  | Incomplete
  | Backtrack (k : winnow_kind)
  | Cut (k : winnow_kind).

(** [IResult<&[u8], A>]: the remaining input and the value. *)
Abbreviation presult A := (outcome err_mode (bytes * A)).

Class Winnow : Type := {
  (** [winnow::binary::le_u8 .. le_u32] on a complete [&[u8]] *)
  le_u8 : bytes -> presult Z;
  le_u16 : bytes -> presult Z;
  le_u24 : bytes -> presult Z;
  le_u32 : bytes -> presult Z;
  (** [winnow::token::take], [literal] and [take_until(1.., pat)] on a complete [&[u8]] *)
  wtake : Z -> bytes -> presult bytes;
  wliteral : bytes -> bytes -> presult bytes;
  wtake_until1 : bytes -> bytes -> presult bytes;
  (** the same on [Partial<&[u8]>], and the combinators [from_packet] uses *)
  ple_u16 : bytes -> presult Z;
  ple_u32 : bytes -> presult Z;
  ptake : Z -> bytes -> presult bytes;
  pliteral : bytes -> bytes -> presult bytes;
  prest : bytes -> presult bytes;
  preceded : forall {A B}, (bytes -> presult A) -> (bytes -> presult B) -> bytes -> presult B;
  pmap : forall {A B}, (bytes -> presult A) -> (A -> B) -> bytes -> presult B;
  alt : forall {A}, list (bytes -> presult A) -> bytes -> presult A;
}.

(** A fixed-width little-endian reader. *)
Definition reads_le (n : Z) (p : bytes -> presult Z) : Prop :=
  (forall i, n <= len i -> p i = Ok (zdrop n i, le_value (ztake n i))) /\
  (forall i, len i < n -> exists k, p i = Err (Backtrack k)).

Class WinnowLaws (W : Winnow) : Prop := {
  le_u8_law : reads_le 1 le_u8;
  le_u16_law : reads_le 2 le_u16;
  le_u24_law : reads_le 3 le_u24;
  le_u32_law : reads_le 4 le_u32;
  wtake_ok : forall n i, 0 <= n <= len i -> wtake n i = Ok (zdrop n i, ztake n i);
  wtake_short : forall n i, len i < n -> exists k, wtake n i = Err (Backtrack k);
  wliteral_ok : forall p i, wliteral p (p ++ i) = Ok (i, p);
  wliteral_no : forall p i, ztake (len p) i <> p -> exists k, wliteral p i = Err (Backtrack k);
  wtake_until1_ok : forall c u i, u <> [] -> c ∉ u -> wtake_until1 [c] (u ++ c :: i) = Ok (c :: i, u);
  wtake_until1_empty : forall c i, exists k, wtake_until1 [c] (c :: i) = Err (Backtrack k);
  wtake_until1_none : forall c i, c ∉ i -> exists k, wtake_until1 [c] i = Err (Backtrack k);
  ple_u16_ok : forall i, 2 <= len i -> ple_u16 i = Ok (zdrop 2 i, le_value (ztake 2 i));
  ple_u16_short : forall i, len i < 2 -> ple_u16 i = Err Incomplete;
  ple_u32_ok : forall i, 4 <= len i -> ple_u32 i = Ok (zdrop 4 i, le_value (ztake 4 i));
  ple_u32_short : forall i, len i < 4 -> ple_u32 i = Err Incomplete;
  ptake_ok : forall n i, 0 <= n <= len i -> ptake n i = Ok (zdrop n i, ztake n i);
  ptake_short : forall n i, len i < n -> ptake n i = Err Incomplete;
  pliteral_ok : forall c i, pliteral [c] (c :: i) = Ok (i, [c]);
  pliteral_no : forall c d i, c <> d -> exists k, pliteral [c] (d :: i) = Err (Backtrack k);
  pliteral_short : forall c, pliteral [c] [] = Err Incomplete;
  prest_law : forall i, prest i = Ok ([], i);
  preceded_law : forall A B (p : bytes -> presult A) (q : bytes -> presult B) i,
    preceded p q i = ('(i', _) ← p i; q i');
  pmap_law : forall A B (p : bytes -> presult A) (f : A -> B) i,
    pmap p f i = ('(i', a) ← p i; Ok (i', f a));
  alt_ok : forall A (p : bytes -> presult A) ps i r, p i = Ok r -> alt (p :: ps) i = Ok r;
  alt_next : forall A (p q : bytes -> presult A) ps i k,
    p i = Err (Backtrack k) ->
    alt (p :: q :: ps) i = alt (q :: ps) i \/
    (exists k1 k2, alt (q :: ps) i = Err (Backtrack k1) /\ alt (p :: q :: ps) i = Err (Backtrack k2));
  alt_stop : forall A (p : bytes -> presult A) ps i,
    p i = Err Incomplete -> alt (p :: ps) i = Err Incomplete;
  alt_last : forall A (p : bytes -> presult A) i k,
    p i = Err (Backtrack k) -> exists k', alt [p] i = Err (Backtrack k');
}.

(** ** bitflags and mysql_common: capability and status flags *)

Class MysqlFlags : Type := {
  (** [CapabilityFlags] *)
  CLIENT_LONG_PASSWORD : Z; CLIENT_FOUND_ROWS : Z; CLIENT_LONG_FLAG : Z;
  CLIENT_CONNECT_WITH_DB : Z; CLIENT_NO_SCHEMA : Z; CLIENT_ODBC : Z; CLIENT_LOCAL_FILES : Z;
  CLIENT_IGNORE_SPACE : Z; CLIENT_PROTOCOL_41 : Z; CLIENT_INTERACTIVE : Z; CLIENT_SSL : Z;
  CLIENT_IGNORE_SIGPIPE : Z; CLIENT_TRANSACTIONS : Z; CLIENT_RESERVED : Z;
  CLIENT_SECURE_CONNECTION : Z; CLIENT_MULTI_STATEMENTS : Z; CLIENT_MULTI_RESULTS : Z;
  CLIENT_PS_MULTI_RESULTS : Z; CLIENT_PLUGIN_AUTH : Z; CLIENT_CONNECT_ATTRS : Z;
  CLIENT_PLUGIN_AUTH_LENENC_CLIENT_DATA : Z; CLIENT_CAN_HANDLE_EXPIRED_PASSWORDS : Z;
  CLIENT_SESSION_TRACK : Z; CLIENT_DEPRECATE_EOF : Z; CLIENT_OPTIONAL_RESULTSET_METADATA : Z;
  CLIENT_REMEMBER_OPTIONS : Z;
  (** [StatusFlags] *)
  SERVER_STATUS_AUTOCOMMIT : Z; SERVER_MORE_RESULTS_EXISTS : Z;
  SERVER_STATUS_CURSOR_EXISTS : Z; SERVER_SESSION_STATE_CHANGED : Z;
  (** every bit the two flag types define *)
  CAPABILITY_ALL : Z; STATUS_ALL : Z;
  (** bitflags: [a.contains(b)] and [A::from_bits_truncate] given the mask of known bits *)
  contains : Z -> Z -> bool;
  from_bits_truncate : Z -> Z -> Z;
  from_bits : Z -> Z -> option Z;
}.

(** The values of the flags in the MySQL protocol documentation, and the bitflags API. *)
Class MysqlFlagsLaws (F : MysqlFlags) : Prop := {
  capability_values :
    [CLIENT_LONG_PASSWORD; CLIENT_FOUND_ROWS; CLIENT_LONG_FLAG; CLIENT_CONNECT_WITH_DB;
     CLIENT_NO_SCHEMA; CLIENT_ODBC; CLIENT_LOCAL_FILES; CLIENT_IGNORE_SPACE;
     CLIENT_PROTOCOL_41; CLIENT_INTERACTIVE; CLIENT_SSL; CLIENT_IGNORE_SIGPIPE;
     CLIENT_TRANSACTIONS; CLIENT_RESERVED; CLIENT_SECURE_CONNECTION;
     CLIENT_MULTI_STATEMENTS; CLIENT_MULTI_RESULTS; CLIENT_PS_MULTI_RESULTS;
     CLIENT_PLUGIN_AUTH; CLIENT_CONNECT_ATTRS; CLIENT_PLUGIN_AUTH_LENENC_CLIENT_DATA;
     CLIENT_CAN_HANDLE_EXPIRED_PASSWORDS; CLIENT_SESSION_TRACK; CLIENT_DEPRECATE_EOF;
     CLIENT_OPTIONAL_RESULTSET_METADATA; CLIENT_REMEMBER_OPTIONS] =
    map (fun k => Z.shiftl 1 k)
     [0; 1; 2; 3; 4; 6; 7; 8; 9; 10; 11; 12; 13; 14; 15; 16; 17; 18; 19; 20; 21; 22; 23; 24; 25; 31];
  status_values :
    [SERVER_STATUS_AUTOCOMMIT; SERVER_MORE_RESULTS_EXISTS; SERVER_STATUS_CURSOR_EXISTS;
     SERVER_SESSION_STATE_CHANGED] = [2; 8; 64; 16384];
  contains_law : forall a b, contains a b = (Z.land a b =? b);
  from_bits_truncate_law : forall m b, from_bits_truncate m b = Z.land b m;
  from_bits_law : forall m b, from_bits m b = if Z.land b m =? b then Some b else None;
  capability_all_law : forall f, In f
    [CLIENT_CONNECT_WITH_DB; CLIENT_PROTOCOL_41; CLIENT_SSL; CLIENT_SECURE_CONNECTION;
     CLIENT_PLUGIN_AUTH; CLIENT_CONNECT_ATTRS; CLIENT_PLUGIN_AUTH_LENENC_CLIENT_DATA;
     CLIENT_SESSION_TRACK; CLIENT_DEPRECATE_EOF] -> Z.land CAPABILITY_ALL f = f;
  capability_all_u32 : 0 <= CAPABILITY_ALL < U32;
  status_all_law : forall f, In f
    [SERVER_STATUS_AUTOCOMMIT; SERVER_MORE_RESULTS_EXISTS; SERVER_STATUS_CURSOR_EXISTS;
     SERVER_SESSION_STATE_CHANGED] -> Z.land STATUS_ALL f = f;
}.

(** ** byteorder and mysql_common::io: integers and length-encoded data *)

Class MysqlIo : Type := {
  (** [byteorder::LittleEndian]; [None] where the crate documents a panic *)
  write_u16 : Z -> bytes;
  write_u24 : Z -> bytes;
  write_u32 : Z -> bytes;
  read_u16 : bytes -> option Z;
  read_u32 : bytes -> option Z;
  (** [mysql_common::io::WriteMysqlExt] *)
  write_lenenc_int : Z -> bytes;
  write_lenenc_str : bytes -> bytes;
}.

(** Length-encoded integers, as the MySQL protocol documentation defines them. *)
Definition lenenc_int (v : Z) : bytes :=
  if v <? 251 then [v]
  else if v <? 65536 then 0xfc :: le_bytes 2 v
  else if v <? 16777216 then 0xfd :: le_bytes 3 v
  else 0xfe :: le_bytes 8 v.

Class MysqlIoLaws (I : MysqlIo) : Prop := {
  write_u16_law : forall v, 0 <= v < U16 -> write_u16 v = le_bytes 2 v;
  write_u24_law : forall v, 0 <= v < 16777216 -> write_u24 v = le_bytes 3 v;
  write_u32_law : forall v, 0 <= v < U32 -> write_u32 v = le_bytes 4 v;
  read_u16_law : forall b, read_u16 b = if 2 <=? len b then Some (le_value (ztake 2 b)) else None;
  read_u32_law : forall b, read_u32 b = if 4 <=? len b then Some (le_value (ztake 4 b)) else None;
  write_lenenc_int_law : forall v, 0 <= v < U64 -> write_lenenc_int v = lenenc_int v;
  write_lenenc_str_law : forall s, write_lenenc_str s = write_lenenc_int (len s) ++ s;
}.

(** ** hex *)

Class Hex : Type := {
  hex_encode : bytes -> bytes;
  hex_decode : bytes -> option bytes;
}.

(** [hex::encode] writes two ASCII characters per byte and [hex::decode] reads them back. *)
Class HexLaws (X : Hex) : Prop := {
  hex_encode_len : forall b, len (hex_encode b) = 2 * len b;
  hex_encode_ascii : forall b, is_bytes b -> Forall (fun c => 0 <= c < 128) (hex_encode b);
  hex_decode_encode : forall b, is_bytes b -> hex_decode (hex_encode b) = Some b;
}.

(** ** tokio::io: the byte streams of a connection *)

(** [AsyncRead] with a buffer of [n] bytes: the bytes read. *)
Class AsyncRead (R : Type) : Type := read : Z -> M R bytes.

(** A stream that delivers [avail r] and then end-of-file, in pieces of any size, with no
    I/O error: [read] fills at most the buffer and returns 0 bytes only at the end. *)
Class ReadStream (R : Type) {ops : AsyncRead R} : Type := {
  avail : R -> bytes;
  read_spec : forall n r, 0 < n -> exists b r',
    read n r = (Ok b, r') /\ avail r = b ++ avail r' /\ len b <= n /\ (b = [] -> avail r = []);
}.

(** [AsyncWrite] and [AsyncWriteExt]. *)
Class AsyncWrite (W : Type) : Type := {
  write_vectored : list bytes -> M W Z;
  write_all : bytes -> M W unit;
  flush : M W unit;
  shutdown : M W unit;
}.

(** [sent w] is what the peer has been given so far: [write_vectored] accepts a prefix of the
    slices and says how long it is, [write_all] everything, [flush] and [shutdown] add
    nothing; an error leaves a prefix sent. *)
Class WriteStream (W : Type) {ops : AsyncWrite W} : Type := {
  sent : W -> bytes;
  write_vectored_spec : forall bs w n w', write_vectored bs w = (Ok n, w') ->
    0 <= n <= len (concat bs) /\ sent w' = sent w ++ ztake n (concat bs);
  write_all_spec : forall b w w', write_all b w = (Ok tt, w') -> sent w' = sent w ++ b;
  flush_spec : forall w o w', flush w = (o, w') -> sent w' = sent w;
  shutdown_spec : forall w o w', shutdown w = (o, w') -> sent w' = sent w;
}.

(** A connection without I/O errors: every call succeeds (a vectored write may still be
    short). *)
Class ReliableWrite (W : Type) {ops : AsyncWrite W} : Prop := {
  write_vectored_total : forall bs w, exists n w', write_vectored bs w = (Ok n, w');
  write_all_total : forall b w, exists w', write_all b w = (Ok tt, w');
  flush_total : forall w, exists w', flush w = (Ok tt, w');
}.

(** Calls that end, if only with an error: the peer does not stop reading for ever. *)
Class WriteReturns (W : Type) {ops : AsyncWrite W} : Prop := {
  write_vectored_returns : forall bs, returns (write_vectored bs);
  write_all_returns : forall b, returns (write_all b);
  flush_returns : returns flush;
}.

#[export] Instance reliable_returns {W} {ops : AsyncWrite W} `{!ReliableWrite W} : WriteReturns W.
Proof.
  split.
  - intros bs w. by destruct (write_vectored_total bs w) as (n & w' & ->).
  - intros b w. by destruct (write_all_total b w) as (w' & ->).
  - intros w. by destruct (flush_total w) as (w' & ->).
Qed.

(** ** mysql_common::packets *)

Class MysqlPackets : Type := {
  (** whether [ErrPacket::deserialize] accepts the packet and it holds a server error; the code
      unwraps both *)
  err_packet_parses : Z -> bytes -> bool;
  (** [ComChangeUser] and the functions that rewrite it *)
  ComChangeUser_t : Type;
  ComChangeUserMoreData_t : Type;
  com_change_user_deserialize : Z -> bytes -> option ComChangeUser_t;
  com_change_user_serialize : ComChangeUser_t -> bytes;
  with_auth_plugin_data_none : ComChangeUser_t -> ComChangeUser_t;
  with_more_data : ComChangeUserMoreData_t -> ComChangeUser_t -> ComChangeUser_t;
  (** [ComChangeUserMoreData::new(collation).with_auth_plugin(Some(Other(plugin)))] *)
  change_user_more_data : Z -> bytes -> ComChangeUserMoreData_t;
  (** [ComChangeUser::new()], [with_user] and [with_database] *)
  com_change_user_new : ComChangeUser_t;
  with_user : option bytes -> ComChangeUser_t -> ComChangeUser_t;
  with_database : option bytes -> ComChangeUser_t -> ComChangeUser_t;
  (** the message of the server error of an accepted [ErrPacket] *)
  err_packet_message : Z -> bytes -> bytes;
  (** [HandshakeResponse]: [deserialize], the accessors, [new] and [serialize] *)
  HandshakeResponse_t : Type;
  ConnectAttributes_t : Type;
  hr_deserialize : bytes -> option HandshakeResponse_t;
  hr_scramble_buf : HandshakeResponse_t -> bytes;
  hr_db_name : HandshakeResponse_t -> option bytes;
  hr_capabilities : HandshakeResponse_t -> Z;
  hr_connect_attributes : HandshakeResponse_t -> ConnectAttributes_t;
  hr_new : option bytes -> Z * Z * Z -> option bytes -> option bytes -> option bytes -> Z ->
    ConnectAttributes_t -> Z -> HandshakeResponse_t;
  hr_serialize : HandshakeResponse_t -> bytes;
}.

(** ** sha1 and sha2 *)

(** The digests; [update] twice digests the concatenation. *)
Class Digests : Type := {
  sha1_digest : bytes -> bytes;
  sha256_digest : bytes -> bytes;
}.

Class DigestsLaws (D : Digests) : Prop := {
  sha1_len : forall b, len (sha1_digest b) = 20;
  sha256_len : forall b, len (sha256_digest b) = 32;
}.
