(* ===== verification/Reference.v ===== *)
(** * Reference instances of the third-party interfaces

    Concrete functions with the documented behaviour of the crates of [External], used to run
    the definitions on concrete inputs and to show that the laws of [External] hold of
    something. *)
From S2P Require Import Prelude External.

(** ** winnow *)

Definition le_ref (bad : err_mode) (n : Z) (i : bytes) : presult Z :=
  if n <=? len i then Ok (zdrop n i, le_value (ztake n i)) else Err bad.

Definition take_ref (bad : err_mode) (n : Z) (i : bytes) : presult bytes :=
  if n <=? len i then Ok (zdrop n i, ztake n i) else Err bad.

Definition literal_ref (p i : bytes) : presult bytes :=
  if decide (ztake (len p) i = p) then Ok (zdrop (len p) i, p) else Err (Backtrack KOther).

(** Split at the first occurrence of a one-byte pattern. *)
Fixpoint split_at (c : Z) (i : bytes) : option (bytes * bytes) :=
  match i with
  | [] => None
  | b :: t => if b =? c then Some ([], i)
              else match split_at c t with
                   | Some (u, r) => Some (b :: u, r)
                   | None => None
                   end
  end.

Definition take_until1_ref (p i : bytes) : presult bytes :=
  match p with
  | [c] => match split_at c i with
           | Some ((_ :: _) as u, r) => Ok (r, u)
           | _ => Err (Backtrack KOther)
           end
  | _ => Err (Backtrack KOther)
  end.

Definition pliteral_ref (p i : bytes) : presult bytes :=
  match p, i with
  | [c], [] => Err Incomplete
  | [c], d :: t => if c =? d then Ok (t, [c]) else Err (Backtrack KOther)
  | _, _ => Err (Backtrack KOther)
  end.

Fixpoint alt_ref {A} (ps : list (bytes -> presult A)) (i : bytes) : presult A :=
  match ps with
  | [] => Err (Backtrack KOther)
  | p :: ps => match p i with
               | Err (Backtrack _) => alt_ref ps i
               | r => r
               end
  end.

#[export] Instance winnow_ref : Winnow := {|
  le_u8 := le_ref (Backtrack KOther) 1;
  le_u16 := le_ref (Backtrack KOther) 2;
  le_u24 := le_ref (Backtrack KOther) 3;
  le_u32 := le_ref (Backtrack KOther) 4;
  wtake := take_ref (Backtrack KOther);
  wliteral := literal_ref;
  wtake_until1 := take_until1_ref;
  ple_u16 := le_ref Incomplete 2;
  ple_u32 := le_ref Incomplete 4;
  ptake := take_ref Incomplete;
  pliteral := pliteral_ref;
  prest := fun i => Ok ([], i);
  preceded := fun A B p q i => '(i', _) ← p i; q i';
  pmap := fun A B p f i => '(i', a) ← p i; Ok (i', f a);
  alt := @alt_ref;
|}.

(** ** MySQL flags, integers, hex *)

#[export] Instance flags_ref : MysqlFlags := {|
  CLIENT_LONG_PASSWORD := 1; CLIENT_FOUND_ROWS := 2; CLIENT_LONG_FLAG := 4;
  CLIENT_CONNECT_WITH_DB := 8; CLIENT_NO_SCHEMA := 16; CLIENT_ODBC := 64;
  CLIENT_LOCAL_FILES := 128; CLIENT_IGNORE_SPACE := 256; CLIENT_PROTOCOL_41 := 512;
  CLIENT_INTERACTIVE := 1024; CLIENT_SSL := 2048; CLIENT_IGNORE_SIGPIPE := 4096;
  CLIENT_TRANSACTIONS := 8192; CLIENT_RESERVED := 16384; CLIENT_SECURE_CONNECTION := 32768;
  CLIENT_MULTI_STATEMENTS := 65536; CLIENT_MULTI_RESULTS := 131072;
  CLIENT_PS_MULTI_RESULTS := 262144; CLIENT_PLUGIN_AUTH := 524288;
  CLIENT_CONNECT_ATTRS := 1048576; CLIENT_PLUGIN_AUTH_LENENC_CLIENT_DATA := 2097152;
  CLIENT_CAN_HANDLE_EXPIRED_PASSWORDS := 4194304; CLIENT_SESSION_TRACK := 8388608;
  CLIENT_DEPRECATE_EOF := 16777216; CLIENT_OPTIONAL_RESULTSET_METADATA := 33554432;
  CLIENT_REMEMBER_OPTIONS := 2147483648;
  SERVER_STATUS_AUTOCOMMIT := 2; SERVER_MORE_RESULTS_EXISTS := 8;
  SERVER_STATUS_CURSOR_EXISTS := 64; SERVER_SESSION_STATE_CHANGED := 16384;
  CAPABILITY_ALL := 0xffffffff; STATUS_ALL := 0xffff;
  contains := fun a b => Z.land a b =? b;
  from_bits_truncate := fun m b => Z.land b m;
  from_bits := fun m b => if Z.land b m =? b then Some b else None;
|}.

#[export] Instance io_ref : MysqlIo := {|
  write_u16 := le_bytes 2;
  write_u24 := le_bytes 3;
  write_u32 := le_bytes 4;
  read_u16 := fun b => if 2 <=? len b then Some (le_value (ztake 2 b)) else None;
  read_u32 := fun b => if 4 <=? len b then Some (le_value (ztake 4 b)) else None;
  write_lenenc_int := lenenc_int;
  write_lenenc_str := fun s => lenenc_int (len s) ++ s;
|}.

Definition hex_digit (n : Z) : Z := if n <? 10 then 48 + n else 87 + n.

Definition hex_value (c : Z) : option Z :=
  if (48 <=? c) && (c <=? 57) then Some (c - 48)
  else if (97 <=? c) && (c <=? 102) then Some (c - 87)
  else if (65 <=? c) && (c <=? 70) then Some (c - 55)
  else None.

Fixpoint hex_encode_ref (b : bytes) : bytes :=
  match b with
  | [] => []
  | x :: t => hex_digit (x / 16) :: hex_digit (x mod 16) :: hex_encode_ref t
  end.

Fixpoint hex_decode_ref (s : bytes) : option bytes :=
  match s with
  | [] => Some []
  | [_] => None
  | c :: d :: t =>
      match hex_value c, hex_value d, hex_decode_ref t with
      | Some h, Some l, Some r => Some (16 * h + l :: r)
      | _, _, _ => None
      end
  end.

#[export] Instance hex_ref : Hex := {| hex_encode := hex_encode_ref; hex_decode := hex_decode_ref |}.

(** [ComChangeUser] as a user, the optional authentication data and the optional tail. *)
#[export] Instance packets_ref : MysqlPackets := {|
  err_packet_parses := fun _ b => 3 <=? len b;
  ComChangeUser_t := bytes * option bytes * option (Z * bytes);
  ComChangeUserMoreData_t := Z * bytes;
  com_change_user_deserialize := fun _ b =>
    match b with
    | 17 :: t => match split_at 0 t with
                 | Some (u, _ :: d) => Some (u, Some d, None)
                 | _ => None
                 end
    | _ => None
    end;
  com_change_user_serialize := fun c =>
    let '(u, d, m) := c in
    17 :: u ++ [0] ++ default [] d ++ match m with Some (_, p) => p ++ [0] | None => [] end;
  with_auth_plugin_data_none := fun c => let '(u, _, m) := c in (u, None, m);
  with_more_data := fun m c => let '(u, d, _) := c in (u, d, Some m);
  change_user_more_data := fun c p => (c, p);
  com_change_user_new := ([], None, None);
  with_user := fun u c => let '(_, d, m) := c in (default [] u, d, m);
  with_database := fun d c => c;
  err_packet_message := fun _ b => zdrop 9 b;
  HandshakeResponse_t := bytes * option bytes * option bytes * Z;
  ConnectAttributes_t := unit;
  hr_deserialize := fun b => if len b <? 32 then None
                             else Some (ztake 20 (zdrop 32 b), None, None, le_value (ztake 4 b));
  hr_scramble_buf := fun r => let '(s, _, _, _) := r in s;
  hr_db_name := fun r => let '(_, d, _, _) := r in d;
  hr_capabilities := fun r => let '(_, _, _, c) := r in c;
  hr_connect_attributes := fun _ => tt;
  hr_new := fun s _ u d p c _ _ => (default [] u ++ [0] ++ default [] p, d, u, c);
  hr_serialize := fun r => let '(s, _, _, c) := r in le_bytes 4 c ++ s;
|}.

(** Digests of the right length. *)
#[export] Instance digests_ref : Digests := {|
  sha1_digest := fun b => ztake 20 (b ++ replicate 20 0);
  sha256_digest := fun b => ztake 32 (b ++ replicate 32 0);
|}.

#[export] Instance digests_ref_laws : DigestsLaws digests_ref.
Proof.
  split; intros b; cbn [sha1_digest sha256_digest digests_ref]; pose proof (len_nonneg b);
    rewrite len_ztake, len_app, len_replicate by lia; lia.
Qed.

(** ** Streams *)

(** A stream that arrives in the given pieces. *)
Record chunked : Type := Chunked { pieces : list bytes }.

Fixpoint read_pieces (n : Z) (ps : list bytes) : bytes * list bytes :=
  match ps with
  | [] => ([], [])
  | [] :: ps => read_pieces n ps
  | p :: ps => (ztake n p, zdrop n p :: ps)
  end.

#[export] Instance chunked_read : AsyncRead chunked := fun n r =>
  let '(b, ps) := read_pieces n (pieces r) in (Ok b, Chunked ps).

(** A sink whose [write_vectored] accepts at most the scripted number of bytes per call. *)
Record sink : Type := Sink { got : bytes; limits : list Z; flushes : Z }.

#[export] Instance sink_write : AsyncWrite sink := {|
  write_vectored := fun bs w =>
    match limits w with
    | [] => (Ok (len (concat bs)), Sink (got w ++ concat bs) [] (flushes w))
    | k :: ks => let n := Z.max 0 (Z.min k (len (concat bs))) in
                 (Ok n, Sink (got w ++ ztake n (concat bs)) ks (flushes w))
    end;
  write_all := fun b w => (Ok tt, Sink (got w ++ b) (limits w) (flushes w));
  flush := fun w => (Ok tt, Sink (got w) (limits w) (flushes w + 1));
  shutdown := fun w => (Ok tt, w);
|}.

(** ** The laws hold *)

Lemma reads_le_ref n : reads_le n (le_ref (Backtrack KOther) n).
Proof.
  split; intros i Hi; unfold le_ref.
  - by rewrite (proj2 (Z.leb_le _ _) Hi).
  - exists KOther. by rewrite (proj2 (Z.leb_gt _ _) Hi).
Qed.

Lemma split_at_found c u i : c ∉ u -> split_at c (u ++ c :: i) = Some (u, c :: i).
Proof.
  induction u as [|b u IH]; intros H; simpl; [by rewrite Z.eqb_refl|].
  apply not_elem_of_cons in H as [H1 H2].
  rewrite (proj2 (Z.eqb_neq _ _)) by congruence. by rewrite IH.
Qed.

Lemma split_at_none c i : c ∉ i -> split_at c i = None.
Proof.
  induction i as [|b i IH]; intros H; simpl; [done|].
  apply not_elem_of_cons in H as [H1 H2].
  rewrite (proj2 (Z.eqb_neq _ _)) by congruence. by rewrite IH.
Qed.

Lemma split_at_none_inv c i : split_at c i = None -> c ∉ i.
Proof.
  induction i as [|b i IH]; simpl; [intros _; apply not_elem_of_nil|].
  destruct (Z.eqb_spec b c); [done|]. destruct (split_at c i) as [[]|]; [done|].
  intros _. apply not_elem_of_cons. auto.
Qed.

Lemma split_at_spec c i u r : split_at c i = Some (u, r) ->
  exists t, i = u ++ c :: t /\ (c ∉ u) /\ r = c :: t.
Proof.
  revert u. induction i as [|b i IH]; intros u; simpl; [done|].
  destruct (Z.eqb_spec b c) as [->|Hb].
  - intros [= <- <-]. exists i. split; [done|]. split; [apply not_elem_of_nil|done].
  - destruct (split_at c i) as [[v s]|]; [|done]. intros [= <- <-].
    destruct (IH v eq_refl) as (t & -> & Hv & ->). exists t. split; [done|].
    split; [|done]. apply not_elem_of_cons. auto.
Qed.

#[export] Instance winnow_ref_laws : WinnowLaws winnow_ref.
Proof.
  split; simpl; intros; try apply reads_le_ref;
    unfold le_ref, take_ref, literal_ref, take_until1_ref in *;
    repeat match goal with
    | |- context [?a <=? ?b] => destruct (Z.leb_spec a b)
    end; try lia; try done; eauto.
  - rewrite ztake_app, zdrop_app by done. by rewrite decide_True.
  - rewrite decide_False by done. eauto.
  - rewrite split_at_found by done. by destruct u.
  - rewrite Z.eqb_refl. eauto.
  - rewrite split_at_none by done. eauto.
  - by rewrite Z.eqb_refl.
  - rewrite (proj2 (Z.eqb_neq _ _)) by done. eauto.
  - by rewrite H.
  - left. by rewrite H.
  - by rewrite H.
  - rewrite H. eauto.
Qed.

#[export] Instance flags_ref_laws : MysqlFlagsLaws flags_ref.
Proof.
  split; simpl; try reflexivity.
  - intros f Hf. repeat (destruct Hf as [<-|Hf]; [reflexivity|]). destruct Hf.
  - split; [discriminate|reflexivity].
  - intros f Hf. repeat (destruct Hf as [<-|Hf]; [reflexivity|]). destruct Hf.
Qed.

#[export] Instance io_ref_laws : MysqlIoLaws io_ref.
Proof. by split. Qed.

Lemma hex_value_digit n : 0 <= n < 16 -> hex_value (hex_digit n) = Some n.
Proof.
  intros. assert (In n (map Z.of_nat (seq 0 16))) as Hin.
  { apply in_map_iff. exists (Z.to_nat n). split; [lia|]. apply in_seq. lia. }
  simpl in Hin. repeat (destruct Hin as [<-|Hin]; [reflexivity|]). destruct Hin.
Qed.

Lemma hex_digit_ascii n : 0 <= n < 16 -> 0 <= hex_digit n < 128.
Proof. unfold hex_digit. intros. destruct (Z.ltb_spec n 10); lia. Qed.

Lemma nibbles x : is_u8 x -> 0 <= x / 16 < 16 /\ 0 <= x mod 16 < 16.
Proof.
  unfold is_u8. intros. split; [|apply Z.mod_pos_bound; lia].
  split; [apply Z.div_pos|apply Z.div_lt_upper_bound]; lia.
Qed.

#[export] Instance hex_ref_laws : HexLaws hex_ref.
Proof.
  split; simpl; induction b as [|x t IH]; simpl; intros; try done.
  - len_lia.
  - apply Forall_cons in H as [Hx Ht]. destruct (nibbles x Hx).
    apply Forall_cons; split; [by apply hex_digit_ascii|].
    apply Forall_cons; split; [by apply hex_digit_ascii|auto].
  - apply Forall_cons in H as [Hx Ht]. destruct (nibbles x Hx).
    rewrite !hex_value_digit, IH by auto. do 2 f_equal. pose proof (Z.div_mod x 16). lia.
Qed.

Lemma read_pieces_spec n ps : 0 < n -> exists b qs,
  read_pieces n ps = (b, qs) /\ concat ps = b ++ concat qs /\ len b <= n /\
  (b = [] -> concat ps = []).
Proof.
  intros Hn. induction ps as [|p ps IH]; [exists [], []; repeat split; auto; len_lia|].
  destruct p as [|x p]; [done|]. exists (ztake n (x :: p)), (zdrop n (x :: p) :: ps).
  repeat split; [..|intros E].
  - rewrite !concat_cons, (app_assoc (ztake n (x :: p))). by rewrite ztake_zdrop.
  - rewrite len_ztake by lia. lia.
  - apply (f_equal len) in E. rewrite len_ztake in E by lia. len_lia.
Qed.

#[export] Instance chunked_stream : ReadStream chunked.
Proof.
  refine {| avail := fun r => concat (pieces r) |}.
  intros n [ps] Hn. destruct (read_pieces_spec n ps Hn) as (b & qs & E & ?).
  exists b, (Chunked qs). unfold read, chunked_read. simpl. by rewrite E.
Defined.

#[export] Instance sink_stream : WriteStream sink.
Proof.
  refine {| sent := got |}.
  - intros bs [g ls f] n w'. unfold write_vectored, sink_write. simpl.
    pose proof (len_nonneg (concat bs)).
    destruct ls as [|k ks]; intros [= <- <-]; simpl; split; try done; try lia.
    by rewrite ztake_all by lia.
  - by intros b w w' [= <-].
  - by intros w o w' [= <- <-].
  - by intros w o w' [= <- <-].
Defined.

#[export] Instance sink_reliable : ReliableWrite sink.
Proof.
  split.
  - intros bs [g [|k ks] f]; eexists _, _; reflexivity.
  - intros b w. by eexists.
  - intros w. by eexists.
Qed.
