(* ===== verification/Constants.v ===== *)
(** * Protocol constants ([protocol/mysql/constants.rs]) *)
From S2P Require Import Prelude.

Definition MAX_PAYLOAD_LEN : Z := 16777215.
Definition PACKET_HEADER_LEN : Z := 4.
Definition AUTH_PLUGIN_DATA_PART_1_LENGTH : Z := 8.
Definition SCRAMBLE_SIZE : Z := 20.

(** ** Authentication plugins *)

Inductive AuthPluginName : Type :=
  | AuthMySQlOldPassword
  | AuthCachingSha2Password
  | AuthSha256Password
  | AuthNativePassword
  | UnKnowPluginName.

(** The strum [AsRefStr] serialisation. *)
Definition plugin_as_ref (p : AuthPluginName) : bytes :=
  str match p with
      | AuthMySQlOldPassword => "mysql_old_password"
      | AuthCachingSha2Password => "caching_sha2_password"
      | AuthSha256Password => "sha256_password"
      | AuthNativePassword => "mysql_native_password"
      | UnKnowPluginName => "auth_unknown_plugin"
      end%string.

(** ** Packet headers *)

Inductive HeaderInfo : Type := OKHeader | ErrHeader | EOFHeader | LocalInFileHeader.

(** [HeaderInfo as u8]. *)
Definition header_u8 (h : HeaderInfo) : Z :=
  match h with
  | OKHeader => 0x00
  | ErrHeader => 0xff
  | EOFHeader => 0xfe
  | LocalInFileHeader => 0xfb
  end.

(** ** Command codes *)

Inductive CommandCode : Type :=
  | ComSleep
  | ComQuit
  | ComInitDB
  | ComQuery
  | ComFieldList
  | ComCreateDB
  | ComDropDB
  | ComRefresh
  | ComShutdown
  | ComStatistics
  | ComProcessInfo
  | ComConnect
  | ComProcessKill
  | ComDebug
  | ComPing
  | ComTime
  | ComDelayedInsert
  | ComChangeUser
  | ComBinlogDump
  | ComTableDump
  | ComConnectOut
  | ComRegisterSlave
  | ComStmtPrepare
  | ComStmtExecute
  | ComStmtSendLongData
  | ComStmtClose
  | ComStmtReset
  | ComSetOption
  | ComStmtFetch
  | ComDaemon
  | ComBinlogDumpGtid
  | ComResetConnection
  | ComEnd.

#[export] Instance CommandCode_eq_dec : EqDecision CommandCode.
Proof. solve_decision. Defined.

(** [CommandCode as u8]. *)
Definition command_u8 (c : CommandCode) : Z :=
  match c with
  | ComSleep => 0
  | ComQuit => 1
  | ComInitDB => 2
  | ComQuery => 3
  | ComFieldList => 4
  | ComCreateDB => 5
  | ComDropDB => 6
  | ComRefresh => 7
  | ComShutdown => 8
  | ComStatistics => 9
  | ComProcessInfo => 10
  | ComConnect => 11
  | ComProcessKill => 12
  | ComDebug => 13
  | ComPing => 14
  | ComTime => 15
  | ComDelayedInsert => 16
  | ComChangeUser => 17
  | ComBinlogDump => 18
  | ComTableDump => 19
  | ComConnectOut => 20
  | ComRegisterSlave => 21
  | ComStmtPrepare => 22
  | ComStmtExecute => 23
  | ComStmtSendLongData => 24
  | ComStmtClose => 25
  | ComStmtReset => 26
  | ComSetOption => 27
  | ComStmtFetch => 28
  | ComDaemon => 29
  | ComBinlogDumpGtid => 30
  | ComResetConnection => 31
  | ComEnd => 32
  end.

(** [CommandCode::from_u8] (derived [FromPrimitive]). *)
Definition command_from_u8 (b : Z) : option CommandCode :=
  match b with
  | 0 => Some ComSleep
  | 1 => Some ComQuit
  | 2 => Some ComInitDB
  | 3 => Some ComQuery
  | 4 => Some ComFieldList
  | 5 => Some ComCreateDB
  | 6 => Some ComDropDB
  | 7 => Some ComRefresh
  | 8 => Some ComShutdown
  | 9 => Some ComStatistics
  | 10 => Some ComProcessInfo
  | 11 => Some ComConnect
  | 12 => Some ComProcessKill
  | 13 => Some ComDebug
  | 14 => Some ComPing
  | 15 => Some ComTime
  | 16 => Some ComDelayedInsert
  | 17 => Some ComChangeUser
  | 18 => Some ComBinlogDump
  | 19 => Some ComTableDump
  | 20 => Some ComConnectOut
  | 21 => Some ComRegisterSlave
  | 22 => Some ComStmtPrepare
  | 23 => Some ComStmtExecute
  | 24 => Some ComStmtSendLongData
  | 25 => Some ComStmtClose
  | 26 => Some ComStmtReset
  | 27 => Some ComSetOption
  | 28 => Some ComStmtFetch
  | 29 => Some ComDaemon
  | 30 => Some ComBinlogDumpGtid
  | 31 => Some ComResetConnection
  | 32 => Some ComEnd
  | _ => None
  end.

(** ** Command names *)

(** [SqlComInfo]: each command with its code and its name. *)
Module Sql.
Inductive SqlComInfo : Type :=
  | ComSleep (code : Z) (name : bytes)
  | ComQuit (code : Z) (name : bytes)
  | ComInitDB (code : Z) (name : bytes)
  | ComQuery (code : Z) (name : bytes)
  | ComFieldList (code : Z) (name : bytes)
  | ComCreateDB (code : Z) (name : bytes)
  | ComDropDB (code : Z) (name : bytes)
  | ComRefresh (code : Z) (name : bytes)
  | ComShutdown (code : Z) (name : bytes)
  | ComStatistics (code : Z) (name : bytes)
  | ComProcessInfo (code : Z) (name : bytes)
  | ComConnect (code : Z) (name : bytes)
  | ComProcessKill (code : Z) (name : bytes)
  | ComDebug (code : Z) (name : bytes)
  | ComPing (code : Z) (name : bytes)
  | ComTime (code : Z) (name : bytes)
  | ComDelayedInsert (code : Z) (name : bytes)
  | ComChangeUser (code : Z) (name : bytes)
  | ComBinlogDump (code : Z) (name : bytes)
  | ComTableDump (code : Z) (name : bytes)
  | ComConnectOut (code : Z) (name : bytes)
  | ComRegisterSlave (code : Z) (name : bytes)
  | ComStmtPrepare (code : Z) (name : bytes)
  | ComStmtExecute (code : Z) (name : bytes)
  | ComStmtSendLongData (code : Z) (name : bytes)
  | ComStmtClose (code : Z) (name : bytes)
  | ComStmtReset (code : Z) (name : bytes)
  | ComSetOption (code : Z) (name : bytes)
  | ComStmtFetch (code : Z) (name : bytes)
  | ComDaemon (code : Z) (name : bytes)
  | ComBinlogDumpGtid (code : Z) (name : bytes)
  | ComResetConnection (code : Z) (name : bytes)
  | ComEnd (code : Z) (name : bytes).

Definition com_as_ref (s : SqlComInfo) : bytes :=
  match s with
  | ComSleep _ name => name
  | ComQuit _ name => name
  | ComInitDB _ name => name
  | ComQuery _ name => name
  | ComFieldList _ name => name
  | ComCreateDB _ name => name
  | ComDropDB _ name => name
  | ComRefresh _ name => name
  | ComShutdown _ name => name
  | ComStatistics _ name => name
  | ComProcessInfo _ name => name
  | ComConnect _ name => name
  | ComProcessKill _ name => name
  | ComDebug _ name => name
  | ComPing _ name => name
  | ComTime _ name => name
  | ComDelayedInsert _ name => name
  | ComChangeUser _ name => name
  | ComBinlogDump _ name => name
  | ComTableDump _ name => name
  | ComConnectOut _ name => name
  | ComRegisterSlave _ name => name
  | ComStmtPrepare _ name => name
  | ComStmtExecute _ name => name
  | ComStmtSendLongData _ name => name
  | ComStmtClose _ name => name
  | ComStmtReset _ name => name
  | ComSetOption _ name => name
  | ComStmtFetch _ name => name
  | ComDaemon _ name => name
  | ComBinlogDumpGtid _ name => name
  | ComResetConnection _ name => name
  | ComEnd _ name => name
  end.
End Sql.

(** The table of [SqlComInfo::all_sql_com]. *)
Definition all_sql_com : gmap Z bytes :=
  list_to_map [
    (0, str "ComSleep");
    (1, str "ComQuit");
    (2, str "ComInitDB");
    (3, str "ComQuery");
    (4, str "ComFieldList");
    (5, str "ComCreateDB");
    (6, str "ComDropDB");
    (7, str "ComRefresh");
    (8, str "ComShutdown");
    (9, str "ComStatistics");
    (10, str "ComProcessInfo");
    (11, str "ComConnect");
    (12, str "ComProcessKill");
    (13, str "ComDebug");
    (14, str "ComPing");
    (15, str "ComTime");
    (16, str "ComDelayedInsert");
    (17, str "ComChangeUser");
    (18, str "ComBinlogDump");
    (19, str "ComTableDump");
    (20, str "ComConnectOut");
    (21, str "ComRegisterSlave");
    (22, str "ComStmtPrepare");
    (23, str "ComStmtExecute");
    (24, str "ComStmtSendLongData");
    (25, str "ComStmtClose");
    (26, str "ComStmtReset");
    (27, str "ComSetOption");
    (28, str "ComStmtFetch");
    (29, str "ComDaemon");
    (30, str "ComBinlogDumpGtid");
    (31, str "ComResetConnection");
    (32, str "ComEnd")].

(** ** Properties *)

Lemma command_from_u8_code c : command_from_u8 (command_u8 c) = Some c.
Proof. by destruct c. Qed.

Lemma command_u8_range c : 0 <= command_u8 c <= 32.
Proof. destruct c; simpl; lia. Qed.

Lemma command_from_u8_sound b c : command_from_u8 b = Some c -> b = command_u8 c.
Proof.
  destruct b as [|p|p]; simpl; [by intros [= <-]| |done].
  do 6 (try destruct p as [p|p|]); simpl; intros; simplify_eq; reflexivity.
Qed.

Lemma all_sql_com_total c : is_Some (all_sql_com !! command_u8 c).
Proof. destruct c; vm_compute; eauto. Qed.
