(* ===== verification/Packet.v ===== *)
(** * MySQL wire packets ([protocol/mysql/packet/mod.rs])

    A packet on the wire is a sequence of frames: a 3-byte length, a sequence number and the
    payload; a frame of [0xffffff] bytes is continued by the next one. *)
From S2P Require Import Prelude External Constants Reference.

(** ** Definitions *)

(** [Packet(Vec<u8>)] is its payload. *)
Record Packet : Type := MkPacket { payload : bytes }.

Definition from_vec (v : bytes) : Packet := MkPacket v.
Definition extend (p : Packet) (b : bytes) : Packet := MkPacket (payload p ++ b).

Definition first_is (h : HeaderInfo) (p : Packet) : bool :=
  match payload p with
  | [] => false
  | b :: _ => b =? header_u8 h
  end.

Definition is_eof_packet (p : Packet) : bool :=
  first_is EOFHeader p && (len (payload p) <=? 5).

Definition is_result_set_eof_packet (p : Packet) : bool :=
  first_is EOFHeader p && ((7 <=? len (payload p)) && (len (payload p) <? 0xffffff)).

Definition is_ok_packet (p : Packet) : bool := first_is OKHeader p.
Definition is_err_packet (p : Packet) : bool := first_is ErrHeader p.
Definition is_local_in_file_packet (p : Packet) : bool := first_is LocalInFileHeader p.

Section parse.
Context `{Profile} `{Winnow}.

(** [seq[0]] of a one-byte slice. *)
Definition first_byte (s : bytes) : outcome err_mode Z :=
  match s with b :: _ => Ok b | [] => Panic end.

Definition full_packet (i : bytes) : presult (Z * bytes) :=
  '(i, _) ← wliteral [0xff; 0xff; 0xff] i;
  '(i, seq) ← wtake 1 i;
  '(i, b) ← wtake MAX_PAYLOAD_LEN i;
  s ← first_byte seq;
  Ok (i, (s, b)).

Definition one_packet (i : bytes) : presult (Z * bytes) :=
  '(i, length) ← le_u24 i;
  '(i, seq) ← wtake 1 i;
  '(i, b) ← wtake length i;
  s ← first_byte seq;
  Ok (i, (s, b)).

(** [while let Ok((next_input, result)) = full_packet(input)]: the frames in order and the
    input left.  Each turn consumes a frame, so the length of the input is enough fuel. *)
Fixpoint full_packets (fuel : nat) (input : bytes) : list (Z * bytes) * bytes :=
  match fuel with
  | O => ([], input)
  | S fuel =>
      match full_packet input with
      | Ok (next, r) => let '(rs, rest) := full_packets fuel next in (r :: rs, rest)
      | _ => ([], input)
      end
  end.

(** The loop over the full frames: consecutive sequence numbers are asserted, [prev_seq + 1]
    at [u8] width, and the payloads are appended. *)
Fixpoint join_frames (prev : option Z) (fs : list (Z * bytes)) (data : bytes)
  : outcome err_mode bytes :=
  match fs with
  | [] => Ok data
  | (seq, p) :: fs =>
      _ ← (match prev with
           | Some s => s' ← add_width U8 s 1; if seq =? s' then Ok tt else Panic
           | None => Ok tt
           end : outcome err_mode unit);
      join_frames (Some seq) fs (data ++ p)
  end.

Definition packet (i : bytes) : presult (Z * Packet) :=
  let '(fs, input) := full_packets (length i) i in
  '(input, (last_seq, last_p)) ← one_packet input;
  data ← join_frames None fs [];
  Ok (input, (last_seq, MkPacket (data ++ last_p))).

End parse.

(** ** Tests of the repository's test module *)

Example test_one_ping : one_packet [0x01; 0; 0; 0; 0x10] = Ok ([], (0, [0x10])).
Proof. reflexivity. Qed.

Example test_ping : @packet true _ [0x01; 0; 0; 0; 0x10] = Ok ([], (0, MkPacket [0x10])).
Proof. reflexivity. Qed.

(** ** Frames: the abstract wire format *)

(** One frame. *)
Definition frame (seq : Z) (p : bytes) : bytes := le_bytes 3 (len p) ++ [seq] ++ p.

(** A run of frames. *)
Definition frames (fs : list (Z * bytes)) : bytes := concat (map (fun f => frame f.1 f.2) fs).

Definition is_full (f : Z * bytes) : Prop := len f.2 = MAX_PAYLOAD_LEN.

Lemma len_frame s p : len (frame s p) = 4 + len p.
Proof. unfold frame. len_lia. Qed.
#[export] Hint Rewrite len_frame : len.

Lemma max_payload_bytes : le_bytes 3 MAX_PAYLOAD_LEN = [0xff; 0xff; 0xff].
Proof. reflexivity. Qed.

Lemma frames_cons f fs : frames (f :: fs) = frame f.1 f.2 ++ frames fs.
Proof. reflexivity. Qed.

Lemma frames_app fs gs : frames (fs ++ gs) = frames fs ++ frames gs.
Proof. unfold frames. by rewrite map_app, concat_app. Qed.

Lemma frame_inj_header s p r i : is_bytes i -> 3 <= len i ->
  i = frame s p ++ r -> len p < 16777216 -> le_value (ztake 3 i) = len p.
Proof.
  intros Hb Hl -> Hp. unfold frame. rewrite <- !app_assoc, ztake_app by len_lia.
  rewrite le_value_bytes; [done|]. pose proof (len_nonneg p). change (256 ^ Z.of_nat 3) with 16777216. lia.
Qed.

Lemma length_frames fs : (length fs <= length (frames fs))%nat.
Proof.
  induction fs as [|f fs IH]; [cbn [length]; lia|].
  rewrite frames_cons, length_app. pose proof (len_frame f.1 f.2). pose proof (len_nonneg f.2).
  unfold len in *. cbn [length]. lia.
Qed.

Section parse_lemmas.
Context `{Profile} {W : Winnow} {WL : WinnowLaws W}.

Lemma one_packet_frame s p r : len p < 16777216 -> one_packet (frame s p ++ r) = Ok (r, (s, p)).
Proof.
  intros Hp. unfold one_packet, frame. pose proof (len_nonneg p).
  rewrite <- !app_assoc.
  rewrite (proj1 le_u24_law) by len_lia. ostep.
  rewrite zdrop_app, ztake_app by len_lia.
  rewrite le_value_bytes by (change (256 ^ Z.of_nat 3) with 16777216; lia).
  rewrite wtake_ok by len_lia. ostep.
  rewrite (zdrop_app 1 [s]), (ztake_app 1 [s]) by done. rewrite wtake_ok by len_lia. ostep.
  by rewrite zdrop_app, ztake_app.
Qed.

(** What a parsed frame is, and when there is none. *)
Lemma one_packet_spec i : is_bytes i ->
  match one_packet i with
  | Ok (r, (s, p)) => i = frame s p ++ r /\ len p < 16777216
  | Err (Backtrack _) => len i < 4 \/ len i < 4 + le_value (ztake 3 i)
  | _ => False
  end.
Proof.
  intros Hb. unfold one_packet.
  destruct (Z.lt_ge_cases (len i) 3) as [Hlt|Hge].
  { destruct (proj2 le_u24_law i Hlt) as [k ->]. ostep. lia. }
  rewrite (proj1 le_u24_law) by done. ostep.
  rewrite <- (ztake_zdrop 3 i) in Hb. apply is_bytes_app in Hb as [Hh Ht].
  pose proof (len_ztake 3 i ltac:(lia)) as Hl. rewrite Z.min_l in Hl by done.
  pose proof (le_value_bound _ Hh) as Hv. rewrite Hl in Hv. change (256 ^ 3) with 16777216 in Hv.
  pose proof (len_zdrop 3 i ltac:(lia)) as Hd. set (n := le_value (ztake 3 i)) in *.
  destruct (Z.lt_ge_cases (len i) 4).
  { destruct (wtake_short 1 (zdrop 3 i)) as [k ->]; [lia|]. ostep. lia. }
  rewrite wtake_ok by lia. ostep.
  destruct (zdrop 3 i) as [|s t] eqn:Et; [rewrite len_nil in Hd; lia|].
  replace (zdrop 1 (s :: t)) with t by (by destruct t).
  destruct (Z.lt_ge_cases (len t) n).
  { destruct (wtake_short n t) as [k ->]; [done|]. ostep. len_lia. }
  rewrite wtake_ok by lia. cbn [mbind outcome_bind].
  replace (ztake 1 (s :: t)) with [s] by (by destruct t). cbn [first_byte mbind outcome_bind].
  split; [|rewrite len_ztake; lia].
  unfold frame. rewrite (len_ztake n), Z.min_l by lia. transitivity (ztake 3 i ++ s :: t).
  { by rewrite <- Et, ztake_zdrop. }
  rewrite <- !app_assoc, ztake_zdrop. f_equal.
  rewrite <- (le_bytes_value (ztake 3 i)) at 1 by done. f_equal. unfold len in Hl. lia.
Qed.

Lemma full_packet_frame s p r :
  len p = MAX_PAYLOAD_LEN -> full_packet (frame s p ++ r) = Ok (r, (s, p)).
Proof.
  intros Hp. unfold full_packet, frame. rewrite Hp, max_payload_bytes, <- !app_assoc.
  rewrite wliteral_ok. simpl.
  pose proof (len_nonneg r). assert (0 <= MAX_PAYLOAD_LEN) by (unfold MAX_PAYLOAD_LEN; lia).
  rewrite wtake_ok by len_lia. simpl. rewrite zdrop_0. rewrite wtake_ok by len_lia. simpl.
  rewrite ztake_app, zdrop_app by done. by destruct (p ++ r).
Qed.

(** [full_packet] succeeds exactly on a frame of the maximal length. *)
Lemma full_packet_spec i :
  match full_packet i with
  | Ok (r, (s, p)) => i = frame s p ++ r /\ len p = MAX_PAYLOAD_LEN
  | Err (Backtrack _) => True
  | _ => False
  end.
Proof.
  unfold full_packet.
  assert (0 <= MAX_PAYLOAD_LEN) as Hm by (unfold MAX_PAYLOAD_LEN; lia).
  destruct (decide (ztake 3 i = [0xff; 0xff; 0xff])) as [E|E].
  2: { destruct (wliteral_no [0xff; 0xff; 0xff] i) as [k ->]; [done|]. done. }
  rewrite <- (ztake_zdrop 3 i), E, wliteral_ok. ostep.
  destruct (zdrop 3 i) as [|s t].
  { destruct (wtake_short 1 (@nil Z)) as [k ->]; [done|]. done. }
  rewrite wtake_ok by len_lia. ostep.
  replace (zdrop 1 (s :: t)) with t by (by destruct t).
  destruct (Z.lt_ge_cases (len t) MAX_PAYLOAD_LEN).
  { destruct (wtake_short MAX_PAYLOAD_LEN t) as [k ->]; [done|]. done. }
  rewrite wtake_ok by lia. cbn [mbind outcome_bind]. replace (ztake 1 (s :: t)) with [s] by (by destruct t).
  cbn [first_byte mbind outcome_bind]. assert (len (ztake MAX_PAYLOAD_LEN t) = MAX_PAYLOAD_LEN) as Hl by (rewrite len_ztake; lia).
  split; [|done]. unfold frame. rewrite Hl, max_payload_bytes, <- !app_assoc. by rewrite ztake_zdrop.
Qed.

Lemma full_packet_ok_iff i r s p :
  full_packet i = Ok (r, (s, p)) <-> i = frame s p ++ r /\ len p = MAX_PAYLOAD_LEN.
Proof.
  split.
  - intros E. pose proof (full_packet_spec i) as Hs. by rewrite E in Hs.
  - intros [-> Hp]. by apply full_packet_frame.
Qed.

Lemma frame_app_inj s p r s' p' r' :
  len p < 16777216 -> len p' < 16777216 ->
  frame s p ++ r = frame s' p' ++ r' -> s = s' /\ p = p' /\ r = r'.
Proof.
  intros Hp Hp' E. pose proof (one_packet_frame s p r Hp) as E1.
  rewrite E, (one_packet_frame s' p' r' Hp') in E1. by simplify_eq.
Qed.

Lemma full_packet_small s p r x : len p < MAX_PAYLOAD_LEN -> full_packet (frame s p ++ r) <> Ok x.
Proof.
  destruct x as [r' [s' p']]. intros Hp [E Hp']%full_packet_ok_iff.
  unfold MAX_PAYLOAD_LEN in *.
  apply frame_app_inj in E as (_ & -> & _); lia.
Qed.

Lemma full_packets_frames fs r fuel :
  Forall is_full fs -> (forall x, full_packet r <> Ok x) -> (length fs <= fuel)%nat ->
  full_packets fuel (frames fs ++ r) = (fs, r).
Proof.
  intros Hfs Hr. revert fuel.
  induction Hfs as [|[s p] fs Hf Hfs IH]; intros fuel Hfuel.
  - destruct fuel; [done|]. simpl. destruct (full_packet r) as [[]| | |] eqn:E; try done.
    by destruct (Hr _ eq_refl).
  - destruct fuel as [|fuel]; [simpl in Hfuel; lia|].
    rewrite frames_cons, <- app_assoc. cbn [full_packets fst snd].
    rewrite full_packet_frame by done. rewrite IH; [done|simpl in Hfuel; lia].
Qed.

Lemma full_packets_spec fuel i fs r :
  (length i <= fuel)%nat -> full_packets fuel i = (fs, r) ->
  i = frames fs ++ r /\ Forall is_full fs /\ (forall x, full_packet r <> Ok x).
Proof.
  revert i fs r. induction fuel as [|fuel IH]; intros i fs r Hi.
  - intros [= <- <-]. destruct i; [|simpl in Hi; lia]. split_and!; [done..|].
    intros [r' [s p]] [E _]%full_packet_ok_iff. by apply (f_equal len) in E; len_lia.
  - cbn [full_packets]. destruct (full_packet i) as [[nxt [s p]]| | |] eqn:E;
      [|intros [= <- <-]; split_and!; [done..|]; congruence..].
    apply full_packet_ok_iff in E as [-> Hp].
    destruct (full_packets fuel nxt) as [rs rest] eqn:E. intros [= <- <-].
    apply IH in E as (-> & Hrs & Hrest).
    + rewrite frames_cons, <- app_assoc. split_and!; auto.
    + rewrite length_app in Hi. pose proof (len_frame s p). unfold len in *. lia.
Qed.

(** Sequence numbers the assertion accepts. *)
Fixpoint consecutive (prev : option Z) (fs : list (Z * bytes)) : bool :=
  match fs with
  | [] => true
  | (s, _) :: fs =>
      match prev with
      | None => true
      | Some q => match add_width (E := err_mode) U8 q 1 with Ok s' => s =? s' | _ => false end
      end && consecutive (Some s) fs
  end.

Lemma join_frames_eq prev fs d :
  join_frames prev fs d =
  if consecutive prev fs then Ok (d ++ concat (map snd fs)) else Panic.
Proof.
  revert prev d. induction fs as [|[s p] fs IH]; intros prev d; simpl; [by rewrite app_nil_r|].
  rewrite IH, <- app_assoc. destruct prev as [q|]; [|done].
  unfold add_width. destruct (q + 1 <? U8); simpl.
  - by destruct (s =? q + 1).
  - destruct overflow_checks; simpl; [done|]. by destruct (s =? _).
Qed.

(** The result of [packet] on any complete packet. *)
Lemma packet_frames fs s p r :
  Forall is_full fs -> len p < MAX_PAYLOAD_LEN ->
  packet (frames fs ++ frame s p ++ r) =
  if consecutive None fs
  then Ok (r, (s, MkPacket (concat (map snd fs) ++ p))) else Panic.
Proof.
  intros Hfs Hp. unfold packet.
  rewrite full_packets_frames; [|done|intros x; by apply full_packet_small|].
  - rewrite one_packet_frame by (unfold MAX_PAYLOAD_LEN in *; lia). ostep.
    rewrite join_frames_eq. by destruct (consecutive None fs).
  - rewrite length_app. pose proof (length_frames fs). lia.
Qed.

(** Every input either starts with a complete packet or is refused with [Backtrack]. *)
Lemma packet_cases i : is_bytes i ->
  (exists fs s p r, i = frames fs ++ frame s p ++ r /\ Forall is_full fs /\ len p < MAX_PAYLOAD_LEN) \/
  (exists k, packet i = Err (Backtrack k)).
Proof.
  intros Hb. unfold packet. destruct (full_packets (length i) i) as [fs r] eqn:E.
  apply full_packets_spec in E as (-> & Hfs & Hr); [|done].
  apply is_bytes_app in Hb as [_ Hb]. pose proof (one_packet_spec r Hb) as Ho.
  destruct (one_packet r) as [[r' [s p]]|[|k|k]| |]; simpl in *; try done; [|eauto].
  destruct Ho as [-> Hp]. left. exists fs, s, p, r'. split_and!; [done..|].
  destruct (Z.lt_ge_cases (len p) MAX_PAYLOAD_LEN); [done|].
  destruct (Hr (r', (s, p))). apply full_packet_ok_iff. split; [done|].
  unfold MAX_PAYLOAD_LEN in *. lia.
Qed.

Lemma packet_inv i r s pk : is_bytes i -> packet i = Ok (r, (s, pk)) ->
  exists fs p, i = frames fs ++ frame s p ++ r /\ Forall is_full fs /\ len p < MAX_PAYLOAD_LEN /\
               consecutive None fs = true /\ payload pk = concat (map snd fs) ++ p.
Proof.
  intros Hb E. destruct (packet_cases i Hb) as [(fs & s' & p & r' & -> & Hfs & Hp)|[k Hk]];
    [|congruence].
  rewrite packet_frames in E by done. destruct (consecutive None fs) eqn:Ec; [|done].
  simplify_eq. eauto 10.
Qed.

(** More input does not change the result of a parse that succeeded or panicked. *)
Lemma packet_extend i q : is_bytes i ->
  match packet i with
  | Ok (r, x) => packet (i ++ q) = Ok (r ++ q, x)
  | Panic => packet (i ++ q) = Panic
  | Err (Backtrack _) => True
  | _ => False
  end.
Proof.
  intros Hb. destruct (packet_cases i Hb) as [(fs & s & p & r & -> & Hfs & Hp)|[k ->]]; [|done].
  rewrite packet_frames by done. rewrite <- !app_assoc.
  rewrite packet_frames by done. by destruct (consecutive None fs).
Qed.

(** A run of full frames is never a packet: the reader waits for the closing frame. *)
Lemma packet_unfinished fs : Forall is_full fs -> exists k, packet (frames fs) = Err (Backtrack k).
Proof.
  intros Hfs. unfold packet. rewrite <- (app_nil_r (frames fs)).
  rewrite full_packets_frames; [|done| |rewrite app_nil_r; apply length_frames].
  - pose proof (one_packet_spec [] (Forall_nil_2 _)) as Ho.
    destruct (one_packet []) as [[r [s p]]|[|k|k]| |]; simpl; try done; [|eauto].
    destruct Ho as [E _]. apply (f_equal len) in E. len_lia.
  - intros [r [s p]] [E _]%full_packet_ok_iff. apply (f_equal len) in E. len_lia.
Qed.

Lemma packet_nil : exists k, packet [] = Err (Backtrack k).
Proof.
  destruct (packet_cases []) as [(fs & s & p & r & E & _)|?]; [constructor| |done].
  exfalso. apply (f_equal len) in E. len_lia.
Qed.

End parse_lemmas.
