(* ===== verification/PacketWriter.v ===== *)
(** * The packet writer ([protocol/mysql/packet/packet_writer.rs])

    [PacketWriter] buffers a payload and [end_packet] splits it into frames on the underlying
    [AsyncWrite], which may accept only part of a vectored write. *)
From S2P Require Import Prelude External Constants Packet Reference.

(** ** Definitions *)

Record PacketWriter (W : Type) : Type := MkWriter {
  pw_buf : bytes;
  pw_seq : Z;
  inner_writer : W;
}.
Arguments MkWriter {W} _ _ _.
Arguments pw_buf {W} _.
Arguments pw_seq {W} _.
Arguments inner_writer {W} _.

(** [slice::chunks]: pieces of length [n], the last one possibly shorter.  Each turn drops at
    least one element, so the length of the slice is enough fuel. *)
Fixpoint chunks_fuel {A} (fuel : nat) (n : Z) (l : list A) : list (list A) :=
  match fuel with
  | O => []
  | S fuel => match l with
              | [] => []
              | _ => ztake n l :: chunks_fuel fuel n (zdrop n l)
              end
  end.

Definition chunks {A} (n : Z) (l : list A) : list (list A) := chunks_fuel (length l) n l.

Section writer.
Context {W : Type} `{AsyncWrite W} `{MysqlIo}.

Definition pw_new (w : W) : PacketWriter W := MkWriter [] 0 w.

Definition is_empty (w : PacketWriter W) : bool :=
  match pw_buf w with [] => true | _ => false end.

Definition take_buffer : M (PacketWriter W) bytes := fun w =>
  (Ok (pw_buf w), MkWriter [] (pw_seq w) (inner_writer w)).

Definition set_seq (s : Z) : M (PacketWriter W) unit :=
  modify (fun w => MkWriter (pw_buf w) s (inner_writer w)).

(** [self.seq.wrapping_add(1)] *)
Definition increase_seq : M (PacketWriter W) unit :=
  modify (fun w => MkWriter (pw_buf w) ((pw_seq w + 1) mod U8) (inner_writer w)).

Definition reset_seq : M (PacketWriter W) unit := set_seq 0.

(** [std::io::Write::write_all] through [Write::write], which appends to the buffer. *)
Definition pw_write (b : bytes) : M (PacketWriter W) unit :=
  modify (fun w => MkWriter (pw_buf w ++ b) (pw_seq w) (inner_writer w)).

(** A call on the underlying writer. *)
Definition on_inner {A} (m : M W A) : M (PacketWriter W) A :=
  zoom inner_writer (fun i w => MkWriter (pw_buf w) (pw_seq w) i) m.

(** The body of the [for chunk in chunks] loop. *)
Definition write_chunk (chunk : bytes) : M (PacketWriter W) unit :=
  seq ← gets pw_seq;
  let header := write_u24 (len chunk) ++ [seq] in
  _ ← increase_seq;
  written ← on_inner (write_vectored [header; chunk]);
  if written =? PACKET_HEADER_LEN + len chunk then mret tt
  else on_inner (write_all (zdrop written (header ++ chunk))).

Fixpoint write_chunks (cs : list bytes) : M (PacketWriter W) unit :=
  match cs with
  | [] => mret tt
  | c :: cs => _ ← write_chunk c; write_chunks cs
  end.

Definition end_packet : M (PacketWriter W) unit :=
  empty ← gets is_empty;
  if negb empty then
    raw_packet ← take_buffer;
    write_chunks (chunks MAX_PAYLOAD_LEN raw_packet)
  else
    seq ← gets pw_seq;
    _ ← on_inner (write_vectored [write_u24 0 ++ [seq]; []]);
    mret tt.

Definition flush_all : M (PacketWriter W) unit := on_inner flush.

(** [AsyncWrite for PacketWriter]: [poll_shutdown] goes to the underlying writer. *)
Definition pw_shutdown : M (PacketWriter W) unit := on_inner shutdown.

End writer.

(** ** The abstract output: numbered frames of a payload *)

Fixpoint number (s : Z) (cs : list bytes) : list (Z * bytes) :=
  match cs with
  | [] => []
  | c :: cs => (s, c) :: number ((s + 1) mod U8) cs
  end.

Definition wire (s : Z) (p : bytes) : bytes := frames (number s (chunks MAX_PAYLOAD_LEN p)).

(** ** Lemmas on chunks *)

Lemma chunks_fuel_concat {A} fuel n (l : list A) : 0 < n -> (length l <= fuel)%nat ->
  concat (chunks_fuel fuel n l) = l.
Proof.
  intros Hn. revert l. induction fuel as [|fuel IH]; intros l Hl; destruct l as [|x l]; try done.
  { simpl in Hl. lia. }
  cbn [chunks_fuel concat]. rewrite IH.
  - apply ztake_zdrop.
  - pose proof (len_zdrop n (x :: l) ltac:(lia)). unfold len in *. simpl in *. lia.
Qed.

Lemma chunks_concat {A} n (l : list A) : 0 < n -> concat (chunks n l) = l.
Proof. intros. by apply chunks_fuel_concat. Qed.

(** All chunks but the last are full; the last one holds the remainder. *)
Lemma chunks_fuel_split {A} fuel n (l : list A) : 0 < n -> (length l <= fuel)%nat ->
  exists cs t, chunks_fuel fuel n l = cs ++ t /\ Forall (fun c => len c = n) cs /\
    ((len l mod n = 0 /\ t = []) \/ (exists c, t = [c] /\ len c = len l mod n /\ 0 < len c < n)).
Proof.
  intros Hn. revert l. induction fuel as [|fuel IH]; intros l Hl; destruct l as [|x l];
    try (exists [], []; by rewrite ?len_nil, ?Z.mod_0_l by lia; auto).
  { simpl in Hl. lia. }
  set (y := x :: l) in *. cbn [chunks_fuel].
  pose proof (len_zdrop n y ltac:(lia)) as Hd. pose proof (len_ztake n y ltac:(lia)) as Ht.
  assert (0 < len y) as Hy by (subst y; len_lia).
  destruct (Z.lt_ge_cases (len y) n) as [Hlt|Hge].
  - rewrite zdrop_all by lia. exists [], [ztake n y]. split; [by destruct fuel|]. split; [constructor|].
    right. exists (ztake n y). rewrite Z.mod_small by lia. rewrite Ht, Z.min_r by lia. done.
  - destruct (IH (zdrop n y)) as (cs & t & E & Hcs & Ht').
    { unfold len in *. lia. }
    exists (ztake n y :: cs), t. rewrite E. split; [done|]. split; [constructor; [lia|done]|].
    replace (len (zdrop n y) mod n) with (len y mod n) in Ht'; [done|].
    rewrite Hd, Z.max_r by lia. replace (len y - n) with (len y + (-1) * n) by lia.
    by rewrite Z.mod_add by lia.
Qed.

Lemma chunks_split {A} n (l : list A) : 0 < n ->
  exists cs t, chunks n l = cs ++ t /\ Forall (fun c => len c = n) cs /\
    ((len l mod n = 0 /\ t = []) \/ (exists c, t = [c] /\ len c = len l mod n /\ 0 < len c < n)).
Proof. intros. by apply chunks_fuel_split. Qed.

Lemma number_app s cs ds : 0 <= s < U8 ->
  number s (cs ++ ds) = number s cs ++ number ((s + len cs) mod U8) ds.
Proof.
  revert s. induction cs as [|c cs IH]; intros s Hs; cbn [number app].
  - rewrite len_nil, Z.add_0_r, Z.mod_small by done. done.
  - rewrite IH by (apply Z.mod_pos_bound; unfold U8; lia). rewrite len_cons.
    rewrite Z.add_mod_idemp_l by (unfold U8; lia).
    by replace (s + 1 + len cs) with (s + (1 + len cs)) by lia.
Qed.

Lemma number_snd s cs : map snd (number s cs) = cs.
Proof. revert s. induction cs; intros; simpl; [done|]. by f_equal. Qed.

Lemma number_full s cs :
  Forall (fun c => len c = MAX_PAYLOAD_LEN) cs -> Forall is_full (number s cs).
Proof. intros Hc. revert s. induction Hc; intros; simpl; constructor; auto. Qed.

(** [wrapping_add] and the reader's [prev_seq + 1] agree when overflow wraps, or while no
    overflow happens. *)
Lemma consecutive_number `{P : Profile} prev s cs :
  (overflow_checks = false \/ s + len cs <= 256) -> 0 <= s < U8 ->
  (forall q, prev = Some q -> 0 <= q < U8 /\ s = (q + 1) mod U8 /\ (overflow_checks = false \/ q < 255)) ->
  consecutive prev (number s cs) = true.
Proof.
  revert prev s. induction cs as [|c cs IH]; intros prev s Ho Hs Hprev; [done|].
  cbn [number consecutive]. apply andb_true_iff. split.
  - destruct prev as [q|]; [|done]. destruct (Hprev q eq_refl) as (Hq & -> & Hc).
    unfold add_width, U8 in *. destruct (Z.ltb_spec (q + 1) 256).
    + rewrite Z.mod_small by lia. by rewrite Z.eqb_refl.
    + destruct Hc as [->|]; [|lia]. by rewrite Z.eqb_refl.
  - rewrite len_cons in Ho. pose proof (len_nonneg cs).
    destruct (Z.eq_dec (len cs) 0) as [E%len_zero|E]; [by subst|].
    apply IH; [|apply Z.mod_pos_bound; unfold U8; lia|].
    + destruct Ho; [by left|]. right. unfold U8 in *. rewrite Z.mod_small by lia. lia.
    + intros q [= <-]. split_and!; try done; try lia. destruct Ho; [by left|right; lia].
Qed.

Lemma wire_frames s p : 0 <= s < U8 ->
  exists cs t, chunks MAX_PAYLOAD_LEN p = cs ++ t /\
    Forall (fun c => len c = MAX_PAYLOAD_LEN) cs /\
    wire s p = frames (number s cs) ++ frames (number ((s + len cs) mod U8) t) /\
    len cs = len p / MAX_PAYLOAD_LEN /\
    ((len p mod MAX_PAYLOAD_LEN = 0 /\ t = []) \/
     (exists c, t = [c] /\ len c = len p mod MAX_PAYLOAD_LEN /\ 0 < len c < MAX_PAYLOAD_LEN)).
Proof.
  intros Hs. assert (0 < MAX_PAYLOAD_LEN) as Hm by (unfold MAX_PAYLOAD_LEN; lia).
  destruct (chunks_split MAX_PAYLOAD_LEN p Hm) as (cs & t & E & Hcs & Ht). exists cs, t.
  split_and!; [done|done| | |done].
  - unfold wire. by rewrite E, number_app, frames_app.
  - assert (len (concat cs) = len cs * MAX_PAYLOAD_LEN) as Hl.
    { clear -Hcs. induction Hcs; [done|]. rewrite concat_cons, len_app, len_cons. lia. }
    pose proof (chunks_concat MAX_PAYLOAD_LEN p Hm) as Hp. rewrite E, concat_app in Hp.
    apply (f_equal len) in Hp. rewrite len_app, Hl in Hp.
    pose proof (Z.div_mod (len p) MAX_PAYLOAD_LEN ltac:(lia)) as Hdm.
    destruct Ht as [[H0 ->]|(c & -> & Hc & _)]; simpl in Hp; rewrite ?app_nil_r, ?len_nil in Hp; nia.
Qed.

Lemma wire_small s p : p <> [] -> len p < MAX_PAYLOAD_LEN -> wire s p = frame s p.
Proof.
  intros Hp Hl. unfold wire, chunks.
  destruct p as [|x p]; [done|]. cbn [length chunks_fuel].
  rewrite ztake_all, zdrop_all by lia.
  replace (chunks_fuel (length p) MAX_PAYLOAD_LEN []) with (@nil bytes) by (by destruct p).
  unfold frames. simpl. by rewrite app_nil_r.
Qed.

Section writer_lemmas.
Context {W : Type} {Wops : AsyncWrite W} {WS : WriteStream W} {I : MysqlIo} {IL : MysqlIoLaws I}.

Definition pw_sent (w : PacketWriter W) : bytes := sent (inner_writer w).

Lemma run_on_inner {A} (m : M W A) w :
  on_inner m w = let '(o, i) := m (inner_writer w) in (o, MkWriter (pw_buf w) (pw_seq w) i).
Proof. unfold on_inner, zoom. by destruct (m (inner_writer w)). Qed.

(** One chunk is one frame, whatever part of it the vectored write accepts. *)
Lemma write_chunk_spec c w w' : len c <= MAX_PAYLOAD_LEN ->
  write_chunk c w = (Ok tt, w') ->
  pw_sent w' = pw_sent w ++ frame (pw_seq w) c /\
  pw_buf w' = pw_buf w /\ pw_seq w' = (pw_seq w + 1) mod U8.
Proof.
  intros Hc. unfold write_chunk, increase_seq, PACKET_HEADER_LEN. mstep.
  pose proof (len_nonneg c). unfold MAX_PAYLOAD_LEN in Hc.
  rewrite write_u24_law by lia. rewrite run_on_inner. cbn [inner_writer pw_buf pw_seq].
  destruct (write_vectored _ (inner_writer w)) as [o i] eqn:E. destruct o as [n|e| |]; try done.
  apply write_vectored_spec in E as [Hn Hs].
  replace (concat [le_bytes 3 (len c) ++ [pw_seq w]; c]) with (frame (pw_seq w) c) in *
    by (unfold frame; cbn [concat]; by rewrite app_nil_r, <- app_assoc).
  rewrite len_frame in Hn. destruct (Z.eqb_spec n (4 + len c)) as [->|Hne].
  - intros [= <-]. split_and!; try done. unfold pw_sent. cbn [inner_writer].
    rewrite Hs, ztake_all by (rewrite len_frame; lia). done.
  - rewrite run_on_inner. cbn [inner_writer pw_buf pw_seq].
    destruct (write_all _ i) as [o' i'] eqn:E'. destruct o' as [[]|e| |]; try done.
    apply write_all_spec in E'. intros [= <-]. split_and!; try done. unfold pw_sent. cbn [inner_writer].
    rewrite E', Hs, <- app_assoc. f_equal.
    replace ((le_bytes 3 (len c) ++ [pw_seq w]) ++ c) with (frame (pw_seq w) c)
      by (unfold frame; by rewrite <- app_assoc).
    apply ztake_zdrop.
Qed.

Lemma write_chunks_spec cs w w' : Forall (fun c => len c <= MAX_PAYLOAD_LEN) cs -> 0 <= pw_seq w < U8 ->
  write_chunks cs w = (Ok tt, w') ->
  pw_sent w' = pw_sent w ++ frames (number (pw_seq w) cs) /\
  pw_buf w' = pw_buf w /\ pw_seq w' = (pw_seq w + len cs) mod U8.
Proof.
  intros Hcs. revert w. induction Hcs as [|c cs Hc Hcs IH]; intros w Hs.
  - intros [= <-]. rewrite len_nil, Z.add_0_r, Z.mod_small by done. unfold frames. simpl. by rewrite app_nil_r.
  - cbn [write_chunks]. intros E. inv_bind E. destruct a.
    apply write_chunk_spec in E0 as (Hs1 & Hb1 & Hq1); [|done].
    apply IH in E as (Hs2 & Hb2 & Hq2); [|rewrite Hq1; apply Z.mod_pos_bound; unfold U8; lia].
    rewrite Hs2, Hs1, Hb2, Hb1, Hq2, Hq1. cbn [number]. rewrite frames_cons, <- app_assoc.
    split_and!; [done..|]. rewrite Z.add_mod_idemp_l, len_cons by (unfold U8; lia).
    by replace (pw_seq w + 1 + len cs) with (pw_seq w + (1 + len cs)) by lia.
Qed.

Lemma chunks_le (p : bytes) : Forall (fun c => len c <= MAX_PAYLOAD_LEN) (chunks MAX_PAYLOAD_LEN p).
Proof.
  destruct (chunks_split MAX_PAYLOAD_LEN p) as (cs & t & -> & Hcs & Ht); [done|].
  apply Forall_app. split; [eapply Forall_impl; [done|]; simpl; lia|].
  destruct Ht as [[_ ->]|(c & -> & _ & ?)]; repeat constructor. lia.
Qed.

Lemma end_packet_spec w w' : pw_buf w <> [] -> 0 <= pw_seq w < U8 ->
  end_packet w = (Ok tt, w') ->
  pw_sent w' = pw_sent w ++ wire (pw_seq w) (pw_buf w) /\ pw_buf w' = [] /\
  pw_seq w' = (pw_seq w + len (chunks MAX_PAYLOAD_LEN (pw_buf w))) mod U8.
Proof.
  intros Hb Hs. unfold end_packet, is_empty. mstep.
  destruct (pw_buf w) as [|x b] eqn:Eb; [done|]. cbn [negb]. unfold take_buffer. mstep. rewrite Eb.
  intros E. apply write_chunks_spec in E as (E1 & E2 & E3); [|apply chunks_le|done]. done.
Qed.

(** Writing a payload and ending the packet, the way every sender of the proxy does. *)
Definition send_packet (s : Z) (p : bytes) : M (PacketWriter W) unit :=
  _ ← set_seq s; _ ← pw_write p; end_packet.

Lemma send_packet_spec s p w w' : pw_buf w = [] -> p <> [] -> 0 <= s < U8 ->
  send_packet s p w = (Ok tt, w') -> pw_sent w' = pw_sent w ++ wire s p /\ pw_buf w' = [].
Proof.
  intros Hb Hp Hs. unfold send_packet, set_seq, pw_write. mstep. cbn [pw_buf pw_seq inner_writer].
  rewrite Hb. simpl app. intros (E1 & E2 & _)%end_packet_spec; done.
Qed.

End writer_lemmas.

(** On a connection without I/O errors the writer always succeeds. *)
Section writer_total.
Context {W : Type} {Wops : AsyncWrite W} {WR : ReliableWrite W} {I : MysqlIo}.

(** [m] succeeds in every state. *)
Definition completes (m : M (PacketWriter W) unit) : Prop := forall w, exists w', m w = (Ok tt, w').

Lemma write_chunk_total c (w : PacketWriter W) : exists w', write_chunk c w = (Ok tt, w').
Proof.
  unfold write_chunk, increase_seq. mstep. rewrite run_on_inner. cbn [inner_writer pw_buf pw_seq].
  match goal with |- context [write_vectored ?b ?i] => destruct (write_vectored_total b i) as (n & i' & ->) end.
  destruct (n =? _); [by eexists|]. rewrite run_on_inner. cbn [inner_writer pw_buf pw_seq].
  match goal with |- context [write_all ?b ?i] => destruct (write_all_total b i) as (i'' & ->) end.
  by eexists.
Qed.

Lemma write_chunks_total cs (w : PacketWriter W) : exists w', write_chunks cs w = (Ok tt, w').
Proof.
  revert w. induction cs as [|c cs IH]; intros w; [by eexists|]. cbn [write_chunks].
  destruct (write_chunk_total c w) as (w1 & E). rewrite run_bind, E. apply IH.
Qed.

Lemma end_packet_total (w : PacketWriter W) : exists w', end_packet w = (Ok tt, w').
Proof.
  unfold end_packet. mstep. destruct (is_empty w); cbn [negb].
  - mstep. rewrite run_on_inner.
    match goal with |- context [write_vectored ?b ?i] => destruct (write_vectored_total b i) as (n & i' & ->) end.
    by eexists.
  - unfold take_buffer. mstep. apply write_chunks_total.
Qed.

Lemma flush_all_total (w : PacketWriter W) : exists w', flush_all w = (Ok tt, w').
Proof.
  unfold flush_all. rewrite run_on_inner. destruct (flush_total (inner_writer w)) as (i & ->). by eexists.
Qed.

Lemma completes_end : completes end_packet.
Proof. exact end_packet_total. Qed.

Lemma completes_flush : completes flush_all.
Proof. exact flush_all_total. Qed.

Lemma completes_write b : completes (pw_write b).
Proof. intros w. by eexists. Qed.

Lemma completes_ret : completes (mret tt).
Proof. intros w. by eexists. Qed.

Lemma completes_bind m k : completes m -> completes (k tt) -> completes (m ≫= k).
Proof. intros Hm Hk w. destruct (Hm w) as (w1 & E). rewrite run_bind, E. apply Hk. Qed.

Lemma completes_if (b : bool) m k : completes m -> completes k -> completes (if b then m else k).
Proof. by destruct b. Qed.

End writer_total.

Create HintDb completes.
#[export] Hint Resolve completes_end completes_flush completes_write completes_ret completes_bind
  completes_if : completes.

(** ** Properties *)

(** (C7) What [end_packet] writes for a non-empty payload is exactly one packet
    for [packet]: the payload comes back, and the sequence number returned is that of the
    last frame, provided the payload does not end on a frame boundary and the sequence
    numbers of its full frames do not overflow [u8] (or overflow wraps, as in a release
    build).  Short vectored writes do not matter. *)
Theorem end_packet_roundtrip {W} {Wops : AsyncWrite W} {WS : WriteStream W}
    {WR : ReliableWrite W} {I : MysqlIo} `{Profile} {P : Winnow} (IL : MysqlIoLaws I)
    (PL : WinnowLaws P) (w : PacketWriter W) (rest : bytes) :
  0 <= pw_seq w < U8 ->
  len (pw_buf w) mod MAX_PAYLOAD_LEN <> 0 ->
  (overflow_checks = false \/ pw_seq w + len (pw_buf w) / MAX_PAYLOAD_LEN <= 256) ->
  exists w' out, end_packet w = (Ok tt, w') /\
    sent (inner_writer w') = sent (inner_writer w) ++ out /\
    packet (out ++ rest) =
      Ok (rest, ((pw_seq w + len (pw_buf w) / MAX_PAYLOAD_LEN) mod U8, MkPacket (pw_buf w))) /\
    pw_buf w' = [].
Proof.
  intros Hs Hm Ho. assert (pw_buf w <> []) as Hb by (intros Hb; by rewrite Hb in Hm).
  destruct (end_packet_total w) as (w' & E). exists w'.
  apply end_packet_spec in E as E'; [|done..]. destruct E' as (E1 & E2 & _).
  exists (wire (pw_seq w) (pw_buf w)). split_and!; [done|done| |done].
  destruct (wire_frames (pw_seq w) (pw_buf w) Hs) as (cs & t & Ec & Hcs & -> & Hl & Ht).
  destruct Ht as [[? _]|(c & -> & Hc & Hc')]; [done|].
  rewrite <- Hl in *. cbn [number]. unfold frames at 2. cbn [map concat fst snd].
  rewrite app_nil_r, <- app_assoc, packet_frames; [|by apply number_full|lia].
  rewrite consecutive_number by done. rewrite number_snd.
  pose proof (chunks_concat MAX_PAYLOAD_LEN (pw_buf w) eq_refl) as Hp.
  rewrite Ec, concat_app in Hp. simpl in Hp. rewrite app_nil_r in Hp. by rewrite Hp.
Qed.

Definition demo_writer : PacketWriter sink := MkWriter [1; 2; 3] 255 (Sink [] [2] 0).

Lemma end_packet_roundtrip_witness :
  exists out, sent (inner_writer (end_packet demo_writer).2) = out /\
    @packet true _ (out ++ [7]) = Ok ([7], (255, MkPacket [1; 2; 3])).
Proof.
  destruct (@end_packet_roundtrip sink _ _ _ _ true _ _ _ demo_writer [7])
    as (w' & out & E & E1 & E2 & _); [done|done|right; by vm_compute|].
  exists out. rewrite E. split; [exact E1|exact E2].
Defined.

(** A payload whose length is a positive multiple of [MAX_PAYLOAD_LEN] is written
    without the closing empty frame the protocol asks for: what is written is not a packet,
    and a reader takes the next frame sent on the connection for its end, gluing the two
    payloads together. *)
Theorem end_packet_boundary {W} {Wops : AsyncWrite W} {WS : WriteStream W}
    {WR : ReliableWrite W} {I : MysqlIo} `{Profile} {P : Winnow} (IL : MysqlIoLaws I)
    (PL : WinnowLaws P) (w : PacketWriter W) (s2 : Z) (p2 rest : bytes) :
  0 <= pw_seq w < U8 -> pw_buf w <> [] -> len (pw_buf w) mod MAX_PAYLOAD_LEN = 0 ->
  (overflow_checks = false \/ pw_seq w + len (pw_buf w) / MAX_PAYLOAD_LEN <= 256) ->
  len p2 < MAX_PAYLOAD_LEN ->
  exists w' out, end_packet w = (Ok tt, w') /\
    sent (inner_writer w') = sent (inner_writer w) ++ out /\
    (exists k, packet out = Err (Backtrack k)) /\
    packet (out ++ frame s2 p2 ++ rest) = Ok (rest, (s2, MkPacket (pw_buf w ++ p2))).
Proof.
  intros Hs Hb Hm Ho Hp2.
  destruct (end_packet_total w) as (w' & E). exists w'.
  apply end_packet_spec in E as E'; [|done..]. destruct E' as (E1 & E2 & _).
  exists (wire (pw_seq w) (pw_buf w)). split; [done|]. split; [done|].
  destruct (wire_frames (pw_seq w) (pw_buf w) Hs) as (cs & t & Ec & Hcs & -> & Hl & Ht).
  destruct Ht as [[_ ->]|(c & _ & ? & ?)]; [|lia].
  cbn [number]. unfold frames at 2 4. cbn [map concat]. rewrite app_nil_r.
  split; [by apply packet_unfinished, number_full|].
  rewrite packet_frames; [|by apply number_full|done].
  rewrite <- Hl in Ho. rewrite consecutive_number, number_snd by done.
  pose proof (chunks_concat MAX_PAYLOAD_LEN (pw_buf w) eq_refl) as Hp.
  rewrite Ec, app_nil_r in Hp. by rewrite Hp.
Qed.

Definition boundary_writer : PacketWriter sink :=
  MkWriter (replicate (Z.to_nat MAX_PAYLOAD_LEN) 0) 0 (Sink [] [] 0).

Lemma boundary_writer_len : len (pw_buf boundary_writer) = MAX_PAYLOAD_LEN.
Proof. unfold boundary_writer. cbn [pw_buf]. rewrite len_replicate. by rewrite Z2Nat.id. Qed.

Lemma end_packet_boundary_witness :
  exists out, sent (inner_writer (end_packet boundary_writer).2) = out /\
    (exists k, @packet true _ out = Err (Backtrack k)) /\
    @packet true _ (out ++ frame 0 [3; 1]) =
      Ok ([], (0, MkPacket (pw_buf boundary_writer ++ [3; 1]))).
Proof.
  destruct (@end_packet_boundary sink _ _ _ _ true _ _ _ boundary_writer 0 [3; 1] [])
    as (w' & out & E & E1 & E2 & E3).
  - done.
  - intros E. pose proof boundary_writer_len as Hl. rewrite E in Hl. discriminate Hl.
  - rewrite boundary_writer_len. reflexivity.
  - right. rewrite boundary_writer_len, Z.div_same by done. unfold boundary_writer. cbn [pw_seq]. lia.
  - reflexivity.
  - exists out. rewrite E. rewrite app_nil_r in E3. split; [exact E1|split; [exact E2|exact E3]].
Defined.

(** An empty packet is one four-byte header; when the underlying vectored write
    accepts fewer than four bytes the rest of the header is dropped, the call still succeeds,
    and the sequence number is not advanced. *)
Theorem end_packet_empty {W} {Wops : AsyncWrite W} {WS : WriteStream W}
    {WR : ReliableWrite W} {I : MysqlIo} (IL : MysqlIoLaws I) (w : PacketWriter W) :
  pw_buf w = [] ->
  exists w' n i, end_packet w = (Ok tt, w') /\
    write_vectored [frame (pw_seq w) []; []] (inner_writer w) = (Ok n, i) /\
    sent (inner_writer w') = sent (inner_writer w) ++ ztake n (frame (pw_seq w) []) /\
    0 <= n <= 4 /\ pw_seq w' = pw_seq w.
Proof.
  intros Hb. unfold end_packet, is_empty. mstep. rewrite Hb. cbn [negb]. mstep.
  rewrite run_on_inner, write_u24_law by done. cbn [inner_writer pw_buf pw_seq].
  change (le_bytes 3 0 ++ [pw_seq w]) with (frame (pw_seq w) []).
  destruct (write_vectored_total [frame (pw_seq w) []; []] (inner_writer w)) as (n & i & E).
  rewrite E. eexists _, n, i. split; [done|]. split; [done|]. apply write_vectored_spec in E as E'. destruct E' as [Hn Hs].
  replace (concat [frame (pw_seq w) []; []]) with (frame (pw_seq w) []) in *
    by (cbn [concat]; by rewrite app_nil_r).
  rewrite len_frame in Hn. done.
Qed.

Lemma end_packet_empty_witness :
  got (inner_writer (end_packet (MkWriter [] 5 (Sink [] [2] 0))).2) = [0; 0].
Proof.
  destruct (@end_packet_empty sink _ _ _ _ _ (MkWriter [] 5 (Sink [] [2] 0)))
    as (w' & n & i & E & E1 & E2 & _); [reflexivity|].
  rewrite E. revert E1 E2. vm_compute. by intros [= <- _].
Defined.
