(* ===== verification/PacketReader.v ===== *)
(** * The packet reader ([protocol/mysql/packet/packet_reader.rs])

    [PacketReader] keeps a buffer with [remaining] unread bytes and reads from the stream
    until the buffer holds a whole packet.  The loops are fuelled; the theorems give a fuel
    (the length of the stream still to come) that is always enough. *)
From S2P Require Import Prelude External Constants Packet PacketWriter Reference.

(** ** Definitions *)

Definition PACKET_BUFFER_SIZE : Z := 4096.
Definition PACKET_LARGE_BUFFER_SIZE : Z := 1048576.

Record PacketReader (R : Type) : Type := MkReader {
  pr_bytes : bytes;
  pr_start : Z;
  pr_remaining : Z;
  pr_r : R;
}.
Arguments MkReader {R} _ _ _ _.
Arguments pr_bytes {R} _.
Arguments pr_start {R} _.
Arguments pr_remaining {R} _.
Arguments pr_r {R} _.

(** [Vec::resize(n, 0)] *)
Definition resize (n : Z) (l : bytes) : bytes :=
  if n <=? len l then ztake n l else l ++ replicate (Z.to_nat (n - len l)) 0.

Section reader.
Context {R : Type} `{AsyncRead R} `{Profile} `{Winnow}.

Definition pr_new (r : R) : PacketReader R := MkReader [] 0 0 r.

(** [self.start = self.bytes.len() - self.remaining] (a subtraction that underflows panics,
    at once or on the slice that follows). *)
Definition reset_start : M (PacketReader R) unit := fun s =>
  if pr_remaining s <=? len (pr_bytes s)
  then (Ok tt, MkReader (pr_bytes s) (len (pr_bytes s) - pr_remaining s) (pr_remaining s) (pr_r s))
  else (Panic, s).

(** The [n] unread bytes from [start] on, as the raw slice the code builds; a range that does
    not lie in the buffer is a panic here. *)
Definition unread_slice (n : Z) (s : PacketReader R) : outcome io_error bytes :=
  if (0 <=? pr_start s) && (pr_start s + n <=? len (pr_bytes s))
  then Ok (ztake n (zdrop (pr_start s) (pr_bytes s)))
  else Panic.

(** [self.bytes.drain(0..self.start); self.start = 0] *)
Definition drain_start : M (PacketReader R) unit := fun s =>
  if pr_start s <=? len (pr_bytes s)
  then (Ok tt, MkReader (zdrop (pr_start s) (pr_bytes s)) 0 (pr_remaining s) (pr_r s))
  else (Panic, s).

(** [self.r.read(&mut self.bytes[end..])]: the bytes read overwrite the buffer from [end]. *)
Definition read_at (e : Z) : M (PacketReader R) Z := fun s =>
  if e <=? len (pr_bytes s) then
    match read (len (pr_bytes s) - e) (pr_r s) with
    | (Ok b, r') =>
        (Ok (len b), MkReader (ztake e (pr_bytes s) ++ b ++ zdrop (e + len b) (pr_bytes s))
                              (pr_start s) (pr_remaining s) r')
    | (Err x, r') => (Err x, MkReader (pr_bytes s) (pr_start s) (pr_remaining s) r')
    | (Panic, r') => (Panic, MkReader (pr_bytes s) (pr_start s) (pr_remaining s) r')
    | (OutOfFuel, r') => (OutOfFuel, MkReader (pr_bytes s) (pr_start s) (pr_remaining s) r')
    end
  else (Panic, s).

Definition set_bytes (b : bytes) : M (PacketReader R) unit :=
  modify (fun s => MkReader b (pr_start s) (pr_remaining s) (pr_r s)).
Definition set_remaining (n : Z) : M (PacketReader R) unit :=
  modify (fun s => MkReader (pr_bytes s) (pr_start s) n (pr_r s)).
Definition truncate (n : Z) : M (PacketReader R) unit :=
  modify (fun s => MkReader (ztake n (pr_bytes s)) (pr_start s) (pr_remaining s) (pr_r s)).

(** What is returned at end-of-file, the buffer truncated to the unread bytes. *)
Definition at_eof : M (PacketReader R) (option (Z * Packet)) :=
  b ← gets pr_bytes;
  match b with
  | [] => mret None
  | _ => throw UnexpectedEof
  end.

(** The part of [next_async]'s loop body before the read: [Some] ends the call. *)
Definition async_try_parse : M (PacketReader R) (option (Z * Packet)) :=
  s ← get;
  if pr_remaining s =? 0 then mret None else
  u ← lift (unread_slice (pr_remaining s) s);
  match packet u with
  | Ok (rest, p) =>
      _ ← set_remaining (len rest);
      _ ← (if 0 <? len rest
           then modify (fun s => MkReader rest 0 (pr_remaining s) (pr_r s))
           else mret tt);
      mret (Some p)
  | Err Incomplete | Err (Backtrack _) => mret None
  | Err (Cut _) => _ ← truncate (pr_remaining s); throw InvalidData
  | Panic => panic
  | OutOfFuel => lift OutOfFuel
  end.

(** The read of one turn: the buffer is compacted, grown when less than [buffer_size] is
    free, and filled. *)
Definition async_fill (buffer_size : Z) : M (PacketReader R) Z :=
  _ ← drain_start;
  s ← get;
  let e := pr_remaining s in
  _ ← (if len (pr_bytes s) - e <? buffer_size
       then set_bytes (resize (Z.max buffer_size (e * 2)) (pr_bytes s))
       else mret tt);
  n ← read_at e;
  _ ← set_remaining (e + n);
  mret n.

Fixpoint next_async_loop (fuel : nat) (buffer_size : Z) : M (PacketReader R) (option (Z * Packet)) :=
  match fuel with
  | O => lift OutOfFuel
  | S fuel =>
      r ← async_try_parse;
      match r with
      | Some p => mret (Some p)
      | None =>
          n ← async_fill buffer_size;
          if n =? 0 then
            s ← get;
            _ ← truncate (pr_remaining s);
            at_eof
          else next_async_loop fuel PACKET_LARGE_BUFFER_SIZE
      end
  end.

Definition next_async (fuel : nat) : M (PacketReader R) (option (Z * Packet)) :=
  _ ← reset_start; next_async_loop fuel PACKET_BUFFER_SIZE.

(** The blocking variant, [next_read]. *)
Definition sync_try_parse : M (PacketReader R) (option (Z * Packet)) :=
  s ← get;
  if pr_remaining s =? 0 then mret None else
  u ← lift (unread_slice (len (pr_bytes s) - pr_start s) s);
  match packet u with
  | Ok (rest, p) => _ ← set_remaining (len rest); mret (Some p)
  | Err Incomplete | Err (Backtrack _) => mret None
  | Err (Cut _) => throw InvalidData
  | Panic => panic
  | OutOfFuel => lift OutOfFuel
  end.

Definition sync_fill : M (PacketReader R) Z :=
  _ ← drain_start;
  s ← get;
  let e := len (pr_bytes s) in
  _ ← set_bytes (resize (Z.max 4096 (e * 2)) (pr_bytes s));
  n ← read_at e;
  _ ← truncate (e + n);
  s ← get;
  _ ← set_remaining (len (pr_bytes s));
  mret n.

Fixpoint next_read_loop (fuel : nat) : M (PacketReader R) (option (Z * Packet)) :=
  match fuel with
  | O => lift OutOfFuel
  | S fuel =>
      r ← sync_try_parse;
      match r with
      | Some p => mret (Some p)
      | None =>
          n ← sync_fill;
          if n =? 0 then at_eof else next_read_loop fuel
      end
  end.

Definition next_read (fuel : nat) : M (PacketReader R) (option (Z * Packet)) :=
  _ ← reset_start; next_read_loop fuel.

(** [AsyncRead for PacketReader]: the unread bytes are handed out first, all at once
    ([put_slice] panics when they do not fit the caller's buffer of [n] bytes). *)
Definition poll_read (n : Z) : M (PacketReader R) bytes := fun s =>
  if negb (pr_remaining s =? 0) then
    if (0 <=? pr_start s) && (pr_start s <=? len (pr_bytes s)) then
      let u := zdrop (pr_start s) (pr_bytes s) in
      if len u <=? n then (Ok u, MkReader [] 0 0 (pr_r s)) else (Panic, s)
    else (Panic, s)
  else zoom pr_r (fun r s => MkReader (pr_bytes s) (pr_start s) (pr_remaining s) r) (read n) s.

(** [async_packet_read!]: end-of-file is an error. *)
Definition async_packet_read (fuel : nat) : M (PacketReader R) (Z * Packet) :=
  o ← next_async fuel;
  match o with
  | Some p => mret p
  | None => throw ConnectionAborted
  end.

End reader.

(** [basic.rs]: a reader and a writer together. *)
Record PacketIO (R W : Type) : Type := MkPacketIO { io_reader : PacketReader R; io_writer : PacketWriter W }.
Arguments MkPacketIO {R W} _ _.

Definition packet_io_new {R W} (reader : R) (writer : W) : PacketIO R W := MkPacketIO (pr_new reader) (pw_new writer).

(** ** The abstract stream and the reader's contract *)

Section contract.
Context {R : Type} {Rops : AsyncRead R} {RS : ReadStream R} `{Profile} {P : Winnow}.

(** The representation invariant between calls. *)
Definition reader_ok (s : PacketReader R) : Prop := 0 <= pr_remaining s <= len (pr_bytes s).

(** The bytes buffered and not yet consumed, and the whole stream ahead. *)
Definition unread (s : PacketReader R) : bytes :=
  zdrop (len (pr_bytes s) - pr_remaining s) (pr_bytes s).
Definition stream (s : PacketReader R) : bytes := unread s ++ avail (pr_r s).

(** What reading a packet from a stream [x] must do, in terms of the stream alone. *)
Definition reads_packet (x : bytes)
    (res : outcome io_error (option (Z * Packet)) * PacketReader R) : Prop :=
  match packet x with
  | Ok (rest, p) => exists s', res = (Ok (Some p), s') /\ reader_ok s' /\ stream s' = rest
  | Panic => res.1 = Panic
  | _ => match x with
         | [] => exists s', res = (Ok None, s') /\ reader_ok s' /\ stream s' = []
         | _ => exists s', res = (Err UnexpectedEof, s') /\ reader_ok s' /\ stream s' = x
         end
  end.

(** ** Lemmas *)

(** The state at the top of a turn of the loop, with the unread bytes [u]. *)
Definition at_loop (s : PacketReader R) (u : bytes) : Prop :=
  0 <= pr_start s /\ 0 <= pr_remaining s /\ pr_start s + pr_remaining s <= len (pr_bytes s) /\
  u = ztake (pr_remaining s) (zdrop (pr_start s) (pr_bytes s)).

Lemma at_loop_len s u : at_loop s u -> len u = pr_remaining s.
Proof.
  intros (H1 & H2 & H3 & ->). rewrite len_ztake, len_zdrop by lia. lia.
Qed.

Lemma reset_start_spec s : reader_ok s ->
  exists s', reset_start s = (Ok tt, s') /\ at_loop s' (unread s) /\ pr_r s' = pr_r s /\
             pr_start s' + pr_remaining s' = len (pr_bytes s').
Proof.
  intros [H1 H2]. unfold reset_start. zbool.
  eexists. split; [done|]. unfold at_loop, unread. cbn [pr_start pr_remaining pr_bytes pr_r].
  split_and!; try lia; try done. rewrite ztake_all; [done|]. rewrite len_zdrop; lia.
Qed.

Lemma len_resize n l : 0 <= n -> len (resize n l) = n.
Proof.
  intros. unfold resize. destruct (Z.leb_spec n (len l)).
  - rewrite len_ztake; lia.
  - rewrite len_app, len_replicate. lia.
Qed.

Lemma ztake_ztake {A} n m (l : list A) : n <= m -> ztake n (ztake m l) = ztake n l.
Proof. intros. rewrite !ztake_take, take_take. f_equal. lia. Qed.

Lemma resize_prefix e n l : e <= n -> e <= len l -> ztake e (resize n l) = ztake e l.
Proof.
  intros. unfold resize. destruct (Z.leb_spec n (len l)).
  - by apply ztake_ztake.
  - by apply ztake_app_le.
Qed.

(** A read into the free part of the buffer appends to the unread bytes. *)
Lemma read_at_spec e s : 0 <= e < len (pr_bytes s) ->
  exists b bs r', read_at e s = (Ok (len b), MkReader bs (pr_start s) (pr_remaining s) r') /\
    len bs = len (pr_bytes s) /\ e + len b <= len bs /\
    ztake (e + len b) bs = ztake e (pr_bytes s) ++ b /\
    avail (pr_r s) = b ++ avail r' /\ (b = [] -> avail (pr_r s) = []).
Proof.
  intros He. unfold read_at. zbool.
  destruct (read_spec (len (pr_bytes s) - e) (pr_r s)) as (b & r' & -> & Ha & Hb & Hn); [lia|].
  pose proof (len_nonneg b). pose proof (len_ztake e (pr_bytes s) ltac:(lia)) as Ht.
  pose proof (len_zdrop (e + len b) (pr_bytes s) ltac:(lia)) as Hd.
  eexists b, _, r'. split_and!; try done.
  - rewrite !len_app. lia.
  - rewrite !len_app. lia.
  - rewrite app_assoc. apply ztake_app. rewrite len_app. lia.
Qed.

Context {PL : WinnowLaws P}.

Lemma async_try_parse_spec s u : at_loop s u -> is_bytes u ->
  match packet u with
  | Ok (rest, p) => exists s', async_try_parse s = (Ok (Some p), s') /\ reader_ok s' /\
                               unread s' = rest /\ pr_r s' = pr_r s
  | Panic => (async_try_parse s).1 = Panic
  | Err (Backtrack _) => async_try_parse s = (Ok None, s)
  | _ => False
  end.
Proof.
  intros Hl Hb. pose proof (at_loop_len s u Hl) as Hlen. destruct Hl as (H1 & H2 & H3 & Hu).
  pose proof (packet_extend u [] Hb) as He. unfold async_try_parse. mstep.
  destruct (Z.eqb_spec (pr_remaining s) 0) as [E|E].
  { rewrite E in Hlen. apply len_zero in Hlen as ->. by destruct packet_nil as [k ->]. }
  mstep. unfold unread_slice. zbool. rewrite <- Hu.
  destruct (packet u) as [[rest p]|[|k|k]| |] eqn:Ep; try done.
  unfold set_remaining. mstep. cbn [pr_bytes pr_start pr_r pr_remaining].
  pose proof (len_nonneg rest). destruct (Z.ltb_spec 0 (len rest)).
  - mstep. eexists. split; [done|]. unfold reader_ok, unread. cbn [pr_bytes pr_start pr_r pr_remaining].
    rewrite Z.sub_diag, zdrop_0. split_and!; done || lia.
  - mstep. assert (rest = []) as -> by (apply len_zero; lia). eexists. split; [done|].
    unfold reader_ok, unread. cbn [pr_bytes pr_start pr_r pr_remaining]. change (len (@nil Z)) with 0.
    rewrite Z.sub_0_r.    rewrite zdrop_all by done. pose proof (len_nonneg (pr_bytes s)). done.
Qed.

Lemma async_fill_spec bs s u : at_loop s u -> 0 < bs ->
  exists b s', async_fill bs s = (Ok (len b), s') /\ at_loop s' (u ++ b) /\ pr_start s' = 0 /\
    avail (pr_r s) = b ++ avail (pr_r s') /\ (b = [] -> avail (pr_r s) = []).
Proof.
  intros (H1 & H2 & H3 & Hu) Hbs. unfold async_fill, drain_start. mstep.
  zbool. mstep. cbn [pr_bytes pr_start pr_r pr_remaining].
  set (e := pr_remaining s) in *. set (d := zdrop (pr_start s) (pr_bytes s)) in *.
  assert (e <= len d) as Hd by (subst d; rewrite len_zdrop; lia).
  set (b2 := if len d - e <? bs then resize (Z.max bs (e * 2)) d else d).
  assert (ztake e b2 = u /\ e < len b2) as [Hp Hl].
  { subst b2. destruct (Z.ltb_spec (len d - e) bs); [|split; [done|lia]].
    rewrite len_resize, resize_prefix by lia. split; [done|lia]. }
  destruct (read_at_spec e (MkReader b2 0 e (pr_r s))) as (b & bb & r' & E & Hl' & Hle & Ht & Ha & Hn);
    [cbn [pr_bytes]; lia|]. cbn [pr_bytes pr_start pr_r pr_remaining] in *.
  exists b, (MkReader bb 0 (e + len b) r'). pose proof (len_nonneg b). split_and!.
  - subst b2. destruct (len d - e <? bs); unfold set_bytes, set_remaining; mstep;
      cbn [pr_bytes pr_start pr_r pr_remaining]; rewrite E; by mstep.
  - unfold at_loop. cbn [pr_bytes pr_start pr_r pr_remaining]. rewrite zdrop_0, Ht, Hp.
    split_and!; try lia; done.
  - done.
  - done.
  - done.
Qed.

(** The loop, from any turn on. *)
Lemma next_async_loop_spec fuel bs s u : at_loop s u -> is_bytes (u ++ avail (pr_r s)) -> 0 < bs ->
  (length (avail (pr_r s)) < fuel)%nat ->
  reads_packet (u ++ avail (pr_r s)) (next_async_loop fuel bs s).
Proof.
  revert bs s u. induction fuel as [|fuel IH]; intros bs s u Hl Hb Hbs Hf; [lia|].
  pose proof (proj1 (proj1 (is_bytes_app _ _) Hb)) as Hbu.
  pose proof (async_try_parse_spec s u Hl Hbu) as Ht.
  pose proof (packet_extend u (avail (pr_r s)) Hbu) as He.
  cbn [next_async_loop]. rewrite run_bind. unfold reads_packet.
  destruct (packet u) as [[rest p]|[|k|k]| |] eqn:Ep; try done.
  - destruct Ht as (s' & -> & Hok & Hu' & Hr). rewrite He. exists s'. unfold stream. by rewrite Hu', Hr.
  - rewrite Ht. rewrite run_bind.
    destruct (async_fill_spec bs s u Hl Hbs) as (b & s' & -> & Hl' & Hst & Ha & Hn).
    rewrite Ha in Hb |- *. rewrite app_assoc in Hb |- *.
    pose proof (len_nonneg b). destruct (Z.eqb_spec (len b) 0) as [E|E].
    + apply len_zero in E as ->. specialize (Hn eq_refl). rewrite Hn in Ha. simpl in Ha.
      rewrite <- Ha, !app_nil_r in *. rewrite Ep. unfold truncate, at_eof. mstep.
      pose proof (at_loop_len _ _ Hl') as Hlen. destruct Hl' as (_ & _ & H3 & Hu).
      rewrite Hst, zdrop_0 in Hu. rewrite <- Hu in *. cbn [pr_bytes pr_remaining pr_r].
      assert (reader_ok (MkReader u (pr_start s') (pr_remaining s') (pr_r s')) /\
              stream (MkReader u (pr_start s') (pr_remaining s') (pr_r s')) = u) as [Hok Hstr].
      { unfold reader_ok, stream, unread. cbn [pr_bytes pr_remaining pr_r].
        rewrite Hlen, Z.sub_diag, zdrop_0, <- Ha, app_nil_r. pose proof (len_nonneg u). split; [lia|done]. }
      destruct u; eexists; eauto.
    + apply IH; [done|done|unfold PACKET_LARGE_BUFFER_SIZE; lia|].
      rewrite Ha, length_app in Hf. unfold len in *. lia.
  - rewrite He. destruct (async_try_parse s) as [o s']. simpl in Ht. by subst o.
Qed.

Lemma next_async_spec fuel s : reader_ok s -> is_bytes (stream s) ->
  (length (avail (pr_r s)) < fuel)%nat -> reads_packet (stream s) (next_async fuel s).
Proof.
  intros Hok Hb Hf. destruct (reset_start_spec s Hok) as (s1 & E & Hl & Hr & _).
  unfold next_async. rewrite run_bind, E. unfold stream in *. rewrite <- Hr in *.
  by apply next_async_loop_spec.
Qed.

Lemma packet_suffix u rest x : is_bytes u -> packet u = Ok (rest, x) -> exists c, u = c ++ rest.
Proof.
  destruct x as [q pk]. intros Hb E. apply packet_inv in E as (fs & p & -> & _); [|done].
  exists (frames fs ++ frame q p). by rewrite <- app_assoc.
Qed.

(** The state of the blocking reader at the top of a turn: nothing follows the unread bytes. *)
Definition at_sync_loop (s : PacketReader R) (u : bytes) : Prop :=
  at_loop s u /\ pr_start s + pr_remaining s = len (pr_bytes s).

Lemma sync_try_parse_spec s u : at_sync_loop s u -> is_bytes u ->
  match packet u with
  | Ok (rest, p) => exists s', sync_try_parse s = (Ok (Some p), s') /\ reader_ok s' /\
                               unread s' = rest /\ pr_r s' = pr_r s
  | Panic => (sync_try_parse s).1 = Panic
  | Err (Backtrack _) => sync_try_parse s = (Ok None, s)
  | _ => False
  end.
Proof.
  intros [Hl Hend] Hb. pose proof (at_loop_len s u Hl) as Hlen. destruct Hl as (H1 & H2 & H3 & Hu).
  pose proof (packet_extend u [] Hb) as He. unfold sync_try_parse. mstep.
  destruct (Z.eqb_spec (pr_remaining s) 0) as [E|E].
  { rewrite E in Hlen. apply len_zero in Hlen as ->. by destruct packet_nil as [k ->]. }
  mstep. replace (len (pr_bytes s) - pr_start s) with (pr_remaining s) by lia.
  unfold unread_slice. zbool. rewrite <- Hu.
  destruct (packet u) as [[rest p]|[|k|k]| |] eqn:Ep; try done.
  unfold set_remaining. mstep. eexists. split; [done|].
  unfold reader_ok, unread. cbn [pr_bytes pr_start pr_r pr_remaining].
  destruct (packet_suffix u rest p Hb Ep) as [c Hc]. pose proof (len_nonneg rest). pose proof (len_nonneg c).
  assert (pr_bytes s = (ztake (pr_start s) (pr_bytes s) ++ c) ++ rest) as Hbytes.
  { rewrite <- app_assoc, <- Hc, Hu. rewrite (ztake_all (pr_remaining s)); [by rewrite ztake_zdrop|].
    rewrite len_zdrop; lia. }
  apply (f_equal len) in Hc as Hcl. rewrite len_app in Hcl.
  split_and!; try lia; [|done].
  rewrite Hbytes at 2. apply zdrop_app. apply (f_equal len) in Hbytes. rewrite len_app in Hbytes. lia.
Qed.

Lemma sync_fill_spec s u : at_sync_loop s u ->
  exists b s', sync_fill s = (Ok (len b), s') /\ at_sync_loop s' (u ++ b) /\ pr_bytes s' = u ++ b /\
    avail (pr_r s) = b ++ avail (pr_r s') /\ (b = [] -> avail (pr_r s) = []).
Proof.
  intros [(H1 & H2 & H3 & Hu) Hend]. unfold sync_fill, drain_start. mstep. zbool. mstep.
  cbn [pr_bytes pr_start pr_r pr_remaining].
  set (d := zdrop (pr_start s) (pr_bytes s)) in *.
  assert (len d = pr_remaining s) as Hd by (subst d; rewrite len_zdrop; lia).
  assert (u = d) as -> by (rewrite Hu; apply ztake_all; lia).
  unfold set_bytes, truncate, set_remaining. mstep. cbn [pr_bytes pr_start pr_r pr_remaining].
  set (b2 := resize (4096 `max` (len d * 2)) d).
  assert (ztake (len d) b2 = d /\ len d < len b2) as [Hp Hl].
  { subst b2. rewrite len_resize, resize_prefix by lia. split; [by apply ztake_all|lia]. }
  destruct (read_at_spec (len d) (MkReader b2 0 (pr_remaining s) (pr_r s)))
    as (b & bb & r' & E & Hl' & Hle & Ht & Ha & Hn); [cbn [pr_bytes]; lia|].
  cbn [pr_bytes pr_start pr_r pr_remaining] in *. rewrite E. mstep.
  cbn [pr_bytes pr_start pr_r pr_remaining]. rewrite Ht, Hp.
  eexists b, _. split; [done|]. unfold at_sync_loop, at_loop. cbn [pr_bytes pr_start pr_r pr_remaining].
  pose proof (len_nonneg (d ++ b)). rewrite zdrop_0, ztake_all by done. split_and!; try lia; done.
Qed.

Lemma next_read_loop_spec fuel s u : at_sync_loop s u -> is_bytes (u ++ avail (pr_r s)) ->
  (length (avail (pr_r s)) < fuel)%nat ->
  reads_packet (u ++ avail (pr_r s)) (next_read_loop fuel s).
Proof.
  revert s u. induction fuel as [|fuel IH]; intros s u Hl Hb Hf; [lia|].
  pose proof (proj1 (proj1 (is_bytes_app _ _) Hb)) as Hbu.
  pose proof (sync_try_parse_spec s u Hl Hbu) as Ht.
  pose proof (packet_extend u (avail (pr_r s)) Hbu) as He.
  cbn [next_read_loop]. rewrite run_bind. unfold reads_packet.
  destruct (packet u) as [[rest p]|[|k|k]| |] eqn:Ep; try done.
  - destruct Ht as (s' & -> & Hok & Hu' & Hr). rewrite He. exists s'. unfold stream. by rewrite Hu', Hr.
  - rewrite Ht. rewrite run_bind.
    destruct (sync_fill_spec s u Hl) as (b & s' & -> & Hl' & Hbb & Ha & Hn).
    rewrite Ha in Hb |- *. rewrite app_assoc in Hb |- *.
    pose proof (len_nonneg b). destruct (Z.eqb_spec (len b) 0) as [E|E].
    + apply len_zero in E as ->. specialize (Hn eq_refl). rewrite Hn in Ha. simpl in Ha.
      rewrite <- Ha, !app_nil_r in *. rewrite Ep. unfold at_eof. mstep. rewrite Hbb.
      assert (reader_ok s' /\ stream s' = u) as [Hok Hstr].
      { destruct Hl' as [Hl' Hend]. pose proof (at_loop_len _ _ Hl').
        unfold reader_ok, stream, unread. rewrite Hbb in *. pose proof (len_nonneg u).
        replace (len u - pr_remaining s') with 0 by lia. rewrite zdrop_0, <- Ha, app_nil_r. split; [lia|done]. }
      destruct u; eexists; eauto.
    + apply IH; [done|done|]. rewrite Ha, length_app in Hf. unfold len in *. lia.
  - rewrite He. destruct (sync_try_parse s) as [o s']. simpl in Ht. by subst o.
Qed.

Lemma next_read_spec fuel s : reader_ok s -> is_bytes (stream s) ->
  (length (avail (pr_r s)) < fuel)%nat -> reads_packet (stream s) (next_read fuel s).
Proof.
  intros Hok Hb Hf. destruct (reset_start_spec s Hok) as (s1 & E & Hl & Hr & Hend).
  unfold next_read. rewrite run_bind, E. unfold stream in *. rewrite <- Hr in *.
  by apply next_read_loop_spec.
Qed.

End contract.

(** ** Properties *)

(** (C4) [next_async] implements the abstract stream parser: from any state
    between calls, whatever the sizes in which the bytes arrive, it returns the packet the
    stream starts with and leaves exactly the rest of the stream, [None] at a clean end of
    the stream, and an error when the stream ends inside a packet; it terminates with as much
    fuel as there are bytes to come, and its raw slice never leaves the buffer. *)
Theorem next_async_refines_stream {R} {Rops : AsyncRead R} {RS : ReadStream R} `{Profile}
    {P : Winnow} (PL : WinnowLaws P) (fuel : nat) (s : PacketReader R) :
  reader_ok s -> is_bytes (stream s) -> (length (avail (pr_r s)) < fuel)%nat ->
  reads_packet (stream s) (next_async fuel s).
Proof. apply next_async_spec. Qed.

(** A ping that arrives one byte at a time, and the start of the next packet. *)
Definition dribble : PacketReader chunked :=
  pr_new (Chunked [[0x01]; [0; 0]; [0]; [0x0e]; [0x05; 0]]).

Lemma next_async_refines_stream_witness :
  exists s', @next_async chunked _ true _ 8 dribble = (Ok (Some (0, MkPacket [0x0e])), s') /\
    reader_ok s' /\ stream s' = [0x05; 0].
Proof.
  refine (@next_async_refines_stream chunked _ _ true _ _ 8 dribble _ _ _).
  - by vm_compute.
  - repeat constructor; by vm_compute.
  - vm_compute. lia.
Defined.

(** The blocking [next_read] implements the same abstract stream parser. *)
Theorem next_read_refines_stream {R} {Rops : AsyncRead R} {RS : ReadStream R} `{Profile}
    {P : Winnow} (PL : WinnowLaws P) (fuel : nat) (s : PacketReader R) :
  reader_ok s -> is_bytes (stream s) -> (length (avail (pr_r s)) < fuel)%nat ->
  reads_packet (stream s) (next_read fuel s).
Proof. apply next_read_spec. Qed.

Lemma next_read_refines_stream_witness :
  exists s', @next_read chunked _ true _ 8 dribble = (Ok (Some (0, MkPacket [0x0e])), s') /\
    reader_ok s' /\ stream s' = [0x05; 0].
Proof.
  refine (@next_read_refines_stream chunked _ _ true _ _ 8 dribble _ _ _).
  - by vm_compute.
  - repeat constructor; by vm_compute.
  - vm_compute. lia.
Defined.

(** Reading the stream through the [PacketReader] itself, as a second reader
    stacked on it does after the handshake, hands out the buffered bytes before anything
    else and loses none of the stream, but panics when more bytes are buffered than the
    caller's buffer holds. *)
Theorem poll_read_buffered {R} {Rops : AsyncRead R} {RS : ReadStream R}
    (n : Z) (s : PacketReader R) :
  reader_ok s -> pr_start s + pr_remaining s = len (pr_bytes s) -> 0 < pr_remaining s ->
  if pr_remaining s <=? n
  then exists s', poll_read n s = (Ok (unread s), s') /\ reader_ok s' /\
                  stream s = unread s ++ stream s'
  else (poll_read n s).1 = Panic.
Proof.
  intros [H1 H2] Hend Hpos. unfold poll_read. zbool.
  assert (zdrop (pr_start s) (pr_bytes s) = unread s) as ->.
  { unfold unread. f_equal. lia. }
  assert (len (unread s) = pr_remaining s) as -> by (unfold unread; rewrite len_zdrop; lia).
  destruct (pr_remaining s <=? n); [|done].
  eexists. split; [done|]. split; [by split|]. unfold stream. simpl. done.
Qed.

Lemma poll_read_buffered_witness :
  (poll_read 4 (MkReader [1; 2; 3; 4; 5; 6; 7; 8] 3 5 (Chunked []))).1 = Panic.
Proof.
  apply (@poll_read_buffered chunked _ _ 4 (MkReader [1; 2; 3; 4; 5; 6; 7; 8] 3 5 (Chunked [])));
    by vm_compute.
Defined.
