(* ===== verification/NestedReader.v ===== *)
(** * Reading through a packet reader ([AsyncRead for PacketReader])

    The static proxy hands its first [PacketReader] to a second one, which reads through
    [poll_read].  Seen from the second reader, the first is the bytes it has not used yet,
    followed by its stream: [flatten] is that view, and the two readers behave the same on it
    as long as the unused bytes fit the first read. *)
From S2P Require Import Prelude External Reference Constants Packet PacketWriter PacketReader.

(** ** Definitions *)

#[export] Instance packet_reader_read {R} `{AsyncRead R} : AsyncRead (PacketReader R) := poll_read.

(** A stream behind some bytes that were read from it before. *)
Record Prefixed (R : Type) : Type := MkPrefixed {
  pending : bytes;
  source : R;
}.
Arguments MkPrefixed {R} _ _.
Arguments pending {R} _.
Arguments source {R} _.

Section prefixed.
Context {R : Type} {Rops : AsyncRead R}.

#[export] Instance prefixed_read : AsyncRead (Prefixed R) := fun n s =>
  match pending s with
  | [] => zoom source (fun r s => MkPrefixed (pending s) r) (read n) s
  | u => (Ok (ztake n u), MkPrefixed (zdrop n u) (source s))
  end.

#[export] Instance prefixed_stream {RS : ReadStream R} : ReadStream (Prefixed R).
Proof.
  refine {| avail := fun s => pending s ++ avail (source s) |}.
  intros n [[|x u] r] Hn; unfold read, prefixed_read, zoom; cbn [pending source].
  - destruct (read_spec n r) as (b & r' & E & Ha & Hb & H0); [done|].
    exists b, (MkPrefixed [] r'). by rewrite E.
  - eexists _, _. split; [done|]. cbn [pending source]. split_and!.
    + by rewrite app_assoc, ztake_zdrop.
    + rewrite len_ztake by lia. lia.
    + intros E. apply (f_equal len) in E. rewrite len_ztake in E by lia. len_lia.
Defined.

(** What [poll_read] hands out first. *)
Definition leftover (r : PacketReader R) : bytes :=
  if pr_remaining r =? 0 then [] else zdrop (pr_start r) (pr_bytes r).

Definition flatten (s : PacketReader (PacketReader R)) : PacketReader (Prefixed R) :=
  MkReader (pr_bytes s) (pr_start s) (pr_remaining s) (MkPrefixed (leftover (pr_r s)) (pr_r (pr_r s))).

(** The state [next_async] leaves a reader in. *)
Definition tidy (r : PacketReader R) : Prop :=
  pr_remaining r = 0 \/ (pr_start r = 0 /\ pr_remaining r = len (pr_bytes r)).

(** The inner reader has nothing left, or the outer one has not read yet and has room for it. *)
Definition settled (s : PacketReader (PacketReader R)) : Prop :=
  pr_remaining (pr_r s) = 0 \/
  (pr_remaining s = 0 /\ tidy (pr_r s) /\ len (leftover (pr_r s)) <= PACKET_BUFFER_SIZE).

End prefixed.

(** ** Lemmas *)

Section nested.
Context {R : Type} {Rops : AsyncRead R} `{Profile} `{Winnow}.

Abbreviation nested := (PacketReader (PacketReader R)).
Abbreviation flat := (PacketReader (Prefixed R)).

(** [m] and [m'] are the same computation, on the two views, and leave the inner reader alone. *)
Definition mirrors {A} (m : M nested A) (m' : M flat A) : Prop :=
  forall s, m' (flatten s) = ((m s).1, flatten (m s).2) /\ pr_r (m s).2 = pr_r s.

Lemma mirrors_bind {A B} (m : M nested A) m' (k : A -> M nested B) k' :
  mirrors m m' -> (forall a, mirrors (k a) (k' a)) -> mirrors (m ≫= k) (m' ≫= k').
Proof.
  intros Hm Hk s. rewrite !run_bind. destruct (Hm s) as [-> E]. destruct (m s) as [[a| | |] s1]; try done.
  cbn [fst snd] in *. destruct (Hk a s1) as [-> E1]. split; [done|congruence].
Qed.

Lemma mirrors_if {A} (b : bool) (m k : M nested A) m' k' :
  mirrors m m' -> mirrors k k' -> mirrors (if b then m else k) (if b then m' else k').
Proof. by destruct b. Qed.

Lemma mirrors_lift {A} (o : outcome io_error A) : mirrors (lift o) (lift o).
Proof. done. Qed.

Lemma mirrors_reset : mirrors reset_start reset_start.
Proof. intros s. unfold reset_start. cbn [flatten pr_remaining pr_bytes pr_r]. by case_match. Qed.

Lemma mirrors_drain : mirrors drain_start drain_start.
Proof. intros s. unfold drain_start. cbn [flatten pr_start pr_bytes pr_remaining pr_r]. by case_match. Qed.

Lemma mirrors_set_bytes b : mirrors (set_bytes b) (set_bytes b).
Proof. done. Qed.

Lemma mirrors_set_remaining n : mirrors (set_remaining n) (set_remaining n).
Proof. done. Qed.

Lemma mirrors_truncate n : mirrors (truncate n) (truncate n).
Proof. done. Qed.

Lemma mirrors_eof : mirrors at_eof at_eof.
Proof. intros s. unfold at_eof. mstep. cbn [flatten pr_bytes]. by destruct (pr_bytes s). Qed.

Lemma mirrors_parse : mirrors async_try_parse async_try_parse.
Proof.
  intros s. unfold async_try_parse. mstep. unfold unread_slice. cbn [flatten pr_remaining pr_start pr_bytes pr_r].
  destruct (pr_remaining s =? 0); [done|]. mstep. destruct ((0 <=? pr_start s) && _); [|done].
  destruct (packet _) as [[rest p]|[|k|k]| |]; try done. unfold set_remaining. mstep.
  by destruct (0 <? len rest).
Qed.

Lemma read_flat n s : tidy s -> pr_remaining s = 0 \/ len (leftover s) <= n ->
  exists o s', read n s = (o, s') /\ pr_remaining s' = 0 /\
    read n (MkPrefixed (leftover s) (pr_r s)) = (o, MkPrefixed (leftover s') (pr_r s')).
Proof.
  intros Ht Hn. unfold read at 1, packet_reader_read, poll_read.
  destruct (Z.eqb_spec (pr_remaining s) 0) as [E|E]; cbn [negb].
  - assert (leftover s = []) as -> by (unfold leftover; by rewrite E).
    unfold read at 2, prefixed_read, zoom. cbn [pending source].
    destruct (read n (pr_r s)) as [o r'] eqn:Er. eexists _, _. split; [done|]. cbn [pr_remaining pr_r].
    split; [done|]. unfold leftover. cbn [pr_remaining]. by rewrite E.
  - destruct Ht as [?|[Hs Hl]]; [done|]. destruct Hn as [?|Hn]; [done|].
    unfold leftover in *. rewrite (proj2 (Z.eqb_neq _ _) E) in *. rewrite Hs, zdrop_0 in *.
    pose proof (len_nonneg (pr_bytes s)). zbool. eexists _, _. split; [done|]. split; [done|].
    unfold read, prefixed_read. cbn [pending source pr_remaining Z.eqb pr_r].
    destruct (pr_bytes s) as [|x u] eqn:Eb; [done|]. by rewrite ztake_all, zdrop_all by lia.
Qed.

Lemma read_at_flat e (s : nested) : tidy (pr_r s) ->
  pr_remaining (pr_r s) = 0 \/ (e = 0 /\ len (leftover (pr_r s)) <= len (pr_bytes s)) ->
  exists o s', read_at e s = (o, s') /\ read_at e (flatten s) = (o, flatten s') /\
    ((exists a, o = Ok a) -> pr_remaining (pr_r s') = 0) /\
    (pr_remaining (pr_r s) = 0 -> pr_remaining (pr_r s') = 0).
Proof.
  intros Ht Hn. unfold read_at. cbn [flatten pr_bytes pr_start pr_remaining pr_r].
  destruct (e <=? len (pr_bytes s)).
  - destruct (read_flat (len (pr_bytes s) - e) (pr_r s) Ht) as (o & r' & E1 & E0 & E2).
    { destruct Hn as [?|[-> ?]]; [by left|right; lia]. }
    rewrite E1, E2. destruct o; eexists _, _; done.
  - eexists _, _. split; [done|]. split; [done|]. split; [by intros [? [=]]|done].
Qed.

Lemma settled_parse (s : nested) : settled s -> settled (async_try_parse s).2 /\
  ((async_try_parse s).1 = Ok None -> (async_try_parse s).2 = s).
Proof.
  intros Hs. pose proof (mirrors_parse s) as [_ Hr]. split.
  - destruct Hs as [Hs|(Hz & Hs)]; [left; by rewrite Hr|]. right.
    unfold async_try_parse in *. revert Hr. mstep. rewrite Hz. done.
  - unfold async_try_parse. mstep. destruct (pr_remaining s =? 0); [done|]. mstep.
    destruct (unread_slice _ s) as [u|e| |]; try done.
    destruct (packet u) as [[rest p]|[|k|k]| |]; try done. unfold set_remaining. mstep.
    by destruct (0 <? len rest).
Qed.

Lemma tidy_settled (s : nested) : settled s -> tidy (pr_r s).
Proof. intros [?|(_ & ? & _)]; [by left|done]. Qed.

Lemma fill_flat bs (s : nested) : settled s -> PACKET_BUFFER_SIZE <= bs ->
  exists o s', async_fill bs s = (o, s') /\ async_fill bs (flatten s) = (o, flatten s') /\
    ((exists a, o = Ok a) -> pr_remaining (pr_r s') = 0).
Proof.
  intros Hs Hbs. unfold async_fill. rewrite !run_bind. destruct (mirrors_drain s) as [-> Er].
  destruct (drain_start s) as [o s1] eqn:Ed. cbn [fst snd] in *.
  assert (pr_remaining s1 = pr_remaining s) as Erem.
  { revert Ed. unfold drain_start. case_match; by intros [= <- <-]. }
  destruct o; try (eexists _, _; split; [done|]; split; [done|]; by intros [? [=]]).
  mstep. cbn [flatten pr_bytes pr_remaining].
  set (grow := len (pr_bytes s1) - pr_remaining s1 <? bs).
  set (s2 := if grow then MkReader (resize (bs `max` (pr_remaining s1 * 2)) (pr_bytes s1)) (pr_start s1) (pr_remaining s1) (pr_r s1) else s1).
  assert (pr_r s2 = pr_r s) as Er2 by (subst s2; destruct grow; done).
  assert (pr_remaining (pr_r s2) = 0 \/ (pr_remaining s1 = 0 /\ len (leftover (pr_r s2)) <= len (pr_bytes s2))) as Hn.
  { rewrite Er2. destruct Hs as [Hs|(Hz & _ & Hl)]; [by left|right]. assert (pr_remaining s1 = 0) as Ez by congruence.
    split; [done|]. subst s2 grow. destruct (Z.ltb_spec (len (pr_bytes s1) - pr_remaining s1) bs); [|lia].
    cbn [pr_bytes]. rewrite len_resize; lia. }
  destruct (read_at_flat (pr_remaining s1) s2) as (o & s' & E1 & E2 & H1 & _); [rewrite Er2; by apply tidy_settled|done|].
  destruct grow eqn:Eg; subst s2; cbv iota in *; unfold set_bytes, set_remaining; mstep;
    unfold flatten in E2 |- *; cbn [pr_bytes pr_start pr_remaining pr_r] in E2 |- *; rewrite E1, E2;
    (destruct o; [mstep; eexists _, _; split; [done|]; split; [done|]; intros _; apply H1; by eexists
                 |eexists _, _; split; [done|]; split; [done|]; by intros [? [=]]..]).
Qed.

Lemma loop_flat fuel bs (s : nested) : settled s -> PACKET_BUFFER_SIZE <= bs ->
  exists o s', next_async_loop fuel bs s = (o, s') /\ next_async_loop fuel bs (flatten s) = (o, flatten s') /\
    ((exists a, o = Ok a) -> settled s').
Proof.
  revert bs s. induction fuel as [|fuel IH]; intros bs s Hs Hbs.
  { eexists _, _. split; [done|]. split; [done|]. by intros [? [=]]. }
  cbn [next_async_loop]. rewrite !run_bind. destruct (mirrors_parse s) as [-> Er].
  destruct (settled_parse s Hs) as [Hs1 Hnone].
  destruct (async_try_parse s) as [o s1]. cbn [fst snd] in *.
  destruct o as [[p|]|e| |]; try (eexists _, _; split; [done|]; split; [done|]; by intros [? [=]]).
  rewrite (Hnone eq_refl) in *. rewrite !run_bind.
  destruct (fill_flat bs s Hs Hbs) as (o & s2 & -> & -> & Hr).
  destruct o as [n|e| |]; try (eexists _, _; split; [done|]; split; [done|]; by intros [? [=]]).
  specialize (Hr ltac:(by eexists)). destruct (n =? 0).
  - mstep. cbn [flatten pr_remaining]. unfold truncate, at_eof. mstep. cbn [flatten pr_bytes].
    destruct (ztake _ _); eexists _, _; (split; [done|]; split; [done|]); intros _; left; done.
  - apply IH; [by left|by vm_compute].
Qed.

(** The two views of a nested reader agree on every call. *)
Lemma next_async_flat fuel (s : nested) : settled s ->
  exists o s', next_async fuel s = (o, s') /\ next_async fuel (flatten s) = (o, flatten s') /\
    ((exists a, o = Ok a) -> settled s').
Proof.
  intros Hs. unfold next_async. rewrite !run_bind. destruct (mirrors_reset s) as [-> Er].
  destruct (reset_start s) as [o s1] eqn:E. cbn [fst snd] in *.
  destruct o; try (eexists _, _; split; [done|]; split; [done|]; by intros [? [=]]).
  apply loop_flat; [|by vm_compute].
  assert (pr_remaining s1 = pr_remaining s) as Erem.
  { revert E. unfold reset_start. case_match; by intros [= <- <-]. }
  unfold settled in *. by rewrite Er, Erem.
Qed.

(** After a packet, a plain reader is tidy. *)
Lemma parse_tidy s p s' : async_try_parse s = (Ok (Some p), s') -> tidy (R := R) s'.
Proof.
  unfold async_try_parse. mstep. destruct (pr_remaining s =? 0); [done|]. mstep.
  destruct (unread_slice _ s) as [u|e| |]; try done.
  destruct (packet u) as [[rest x]|[|k|k]| |]; try done. unfold set_remaining. mstep.
  pose proof (len_nonneg rest). destruct (Z.ltb_spec 0 (len rest)).
  - mstep. intros [= _ <-]. by right.
  - intros [= _ <-]. left. cbn [pr_remaining]. lia.
Qed.

Lemma next_async_tidy fuel s p s' : next_async fuel s = (Ok (Some p), s') -> tidy (R := R) s'.
Proof.
  unfold next_async. intros E. inv_bind E. clear E0 s. revert E. generalize PACKET_BUFFER_SIZE. revert s0.
  induction fuel as [|fuel IH]; intros s bs; cbn [next_async_loop]; [done|]. intros E. inv_bind E.
  destruct a0 as [q|].
  - injection E as -> ->. by eapply parse_tidy.
  - inv_bind E. destruct (a0 =? 0); [|by eapply IH]. exfalso. revert E. unfold truncate, at_eof. mstep.
    cbn [pr_bytes]. by destruct (ztake _ _).
Qed.

(** The first read of a fresh reader offers exactly the small buffer. *)
Lemma first_fill (r : PacketReader R) : (read PACKET_BUFFER_SIZE r).1 = Panic ->
  (async_fill PACKET_BUFFER_SIZE (MkReader [] 0 0 r)).1 = Panic.
Proof.
  intros Hr. unfold async_fill. rewrite run_bind. change (drain_start (MkReader [] 0 0 r)) with (Ok (E := io_error) tt, MkReader [] 0 0 r).
  cbv iota beta. mstep. cbn [pr_remaining pr_bytes].
  change (len (@nil Z) - 0 <? PACKET_BUFFER_SIZE) with true. change (0 * 2) with 0.
  change (PACKET_BUFFER_SIZE `max` 0) with PACKET_BUFFER_SIZE. unfold set_bytes. mstep.
  unfold read_at. cbn [pr_remaining pr_start pr_bytes pr_r]. rewrite len_resize by by vm_compute.
  change (0 <=? PACKET_BUFFER_SIZE) with true. change (PACKET_BUFFER_SIZE - 0) with PACKET_BUFFER_SIZE.
  destruct (read PACKET_BUFFER_SIZE r) as [o r']. cbn [fst] in Hr. by subst o.
Qed.

(** More unused bytes than the first buffer holds: [put_slice] panics. *)
Lemma overfull_panics fuel (r : PacketReader R) : tidy r -> PACKET_BUFFER_SIZE < len (leftover r) ->
  (next_async (S fuel) (pr_new r)).1 = Panic.
Proof.
  intros Ht Hl. assert ((read PACKET_BUFFER_SIZE r).1 = Panic) as Hr.
  { assert (pr_remaining r <> 0) as E.
    { intros E. unfold leftover in Hl. rewrite E in Hl. by vm_compute in Hl. }
    destruct Ht as [?|[Hs Hlen]]; [done|]. unfold leftover in Hl.
    rewrite (proj2 (Z.eqb_neq _ _) E), Hs, zdrop_0 in Hl. unfold read, packet_reader_read, poll_read.
    pose proof (len_nonneg (pr_bytes r)). rewrite (proj2 (Z.eqb_neq _ _) E), Hs, zdrop_0. cbn [negb].
    by zbool. }
  unfold next_async. rewrite run_bind. change (reset_start (pr_new r)) with (Ok (E := io_error) tt, MkReader [] 0 0 r).
  cbv iota beta. cbn [next_async_loop]. rewrite run_bind.
  change (async_try_parse (MkReader [] 0 0 r)) with (Ok (E := io_error) (@None (Z * Packet)), MkReader [] 0 0 r).
  cbv iota beta. rewrite run_bind. pose proof (first_fill r Hr) as E.
  destruct (async_fill _ _) as [o s]. cbn [fst] in E. by subst o.
Qed.

End nested.

(** ** The contract of a nested reader *)

Section nested_contract.
Context {R : Type} {Rops : AsyncRead R} {RS : ReadStream R} {Pr : Profile} {P : Winnow} {PL : WinnowLaws P}.

(** All the bytes ahead: those of the outer reader, those the inner one has left, the stream. *)
Definition nested_stream (s : PacketReader (PacketReader R)) : bytes := stream (flatten s).

Definition nested_ok (fuel : nat) (s : PacketReader (PacketReader R)) : Prop :=
  settled s /\ reader_ok (flatten s) /\ is_bytes (nested_stream s) /\ (length (nested_stream s) < fuel)%nat.

Lemma nested_reads fuel s : nested_ok fuel s ->
  exists o s', next_async fuel s = (o, s') /\ reads_packet (nested_stream s) (o, flatten s') /\
    ((exists a, o = Ok a) -> settled s').
Proof.
  intros (Hs & Hok & Hb & Hf). destruct (next_async_flat fuel s Hs) as (o & s' & E & E' & Hs').
  exists o, s'. split; [done|]. split; [|done]. rewrite <- E'. apply next_async_spec; [done..|].
  unfold nested_stream, stream in Hf. rewrite length_app in Hf. lia.
Qed.

Lemma nested_frame fuel s q p rest : nested_ok fuel s -> nested_stream s = frame q p ++ rest ->
  len p < MAX_PAYLOAD_LEN ->
  exists s', next_async fuel s = (Ok (Some (q, MkPacket p)), s') /\ nested_ok fuel s' /\ nested_stream s' = rest.
Proof.
  intros Hok Hs Hp. destruct (nested_reads fuel s Hok) as (o & s' & E & Hr & Hset).
  pose proof (packet_frames [] q p rest (Forall_nil_2 _) Hp
    : packet (frame q p ++ rest) = Ok (rest, (q, MkPacket p))) as Ep.
  unfold reads_packet in Hr. rewrite Hs, Ep in Hr. destruct Hr as (f & Ef & Hok' & Hst).
  injection Ef as Eo Efl. subst o f. exists s'. split; [done|]. split; [|done].
  destruct Hok as (_ & _ & Hb & Hf). unfold nested_ok. rewrite Hs in Hb, Hf.
  apply is_bytes_app in Hb as [_ Hb]. rewrite length_app in Hf. unfold nested_stream. rewrite Hst.
  split_and!; [apply Hset; by eexists|done|done|lia].
Qed.

Lemma nested_end fuel s : nested_ok fuel s -> nested_stream s = [] ->
  exists s', next_async fuel s = (Ok None, s') /\ nested_stream s' = [].
Proof.
  intros Hok Hs. destruct (nested_reads fuel s Hok) as (o & s' & E & Hr & _).
  destruct packet_nil as [k Ek]. unfold reads_packet in Hr. rewrite Hs, Ek in Hr.
  destruct Hr as (f & Ef & _ & Hst). injection Ef as Eo Efl. subst o f. exists s'. done.
Qed.

(** A reader fresh on top of one that has read a packet. *)
Lemma nested_fresh fuel (r : PacketReader R) : tidy r -> reader_ok r -> len (leftover r) <= PACKET_BUFFER_SIZE ->
  is_bytes (stream r) -> (length (stream r) < fuel)%nat ->
  nested_ok fuel (pr_new r) /\ nested_stream (pr_new r) = stream r.
Proof.
  intros Ht Hok Hl Hb Hf.
  assert (nested_stream (pr_new r) = stream r) as Es.
  { unfold nested_stream, stream, flatten, pr_new, unread. cbn [pr_bytes pr_remaining pr_start pr_r].
    change (zdrop (len (@nil Z) - 0) []) with (@nil Z). unfold avail, prefixed_stream. cbn [pending source app].
    f_equal. unfold leftover. destruct (Z.eqb_spec (pr_remaining r) 0) as [E|E].
    - rewrite E, Z.sub_0_r, zdrop_all by lia. done.
    - destruct Ht as [?|[Hs Hr]]; [done|]. by rewrite Hs, Hr, Z.sub_diag. }
  split; [|done]. unfold nested_ok. rewrite Es. split_and!; [|done..]. by right.
Qed.

End nested_contract.

(** ** Properties *)

(** (C6) Two packet readers, one reading through the other, are one packet reader on the bytes the
    inner one has not used followed by its stream: every call of [next_async] gives the same
    outcome and leaves corresponding states, provided these bytes fit the first buffer (4096);
    otherwise the first call panics, in the [put_slice] of [poll_read]. *)
Theorem nested_reader_equiv {R} {Rops : AsyncRead R} {Pr : Profile} {P : Winnow} fuel :
  (forall s : PacketReader (PacketReader R), settled s ->
    exists o s', next_async fuel s = (o, s') /\ next_async fuel (flatten s) = (o, flatten s') /\
      ((exists a, o = Ok a) -> settled s')) /\
  (forall r : PacketReader R, tidy r -> PACKET_BUFFER_SIZE < len (leftover r) ->
    (next_async (S fuel) (pr_new r)).1 = Panic).
Proof. split; [intros s; apply next_async_flat|intros r; apply overfull_panics]. Qed.

(** A ping, read ahead by the inner reader, half of it. *)
Definition half_read : PacketReader (PacketReader chunked) :=
  pr_new (MkReader [1; 0; 0] 0 3 (Chunked [[7]; [14]])).

Lemma nested_reader_equiv_witness :
  exists s', @next_async _ _ true _ 8 half_read = (Ok (Some (7, MkPacket [14])), s').
Proof.
  destruct (@nested_reader_equiv chunked _ true _ 8) as [H _].
  destruct (H half_read) as (o & s' & E1 & E2 & _); [right; repeat split; [by right|by vm_compute]|].
  exists s'. rewrite E1. f_equal. transitivity (@next_async _ _ true _ 8 (flatten half_read)).1.
  - by rewrite E2.
  - by vm_compute.
Defined.
