(* ===== verification/Utf8.v ===== *)
(** * UTF-8 ([std::str])

    Rust's [String] and [&str] are modelled by their bytes; [chars] and [from_utf8] need the
    encoding itself. *)
From S2P Require Import Prelude.

(** ** Definitions *)

(** Unicode scalar values: what a Rust [char] can be. *)
Definition is_char (c : Z) : Prop := 0 <= c < 0xd800 \/ 0xe000 <= c < 0x110000.

(** [char::encode_utf8] *)
Definition encode_char (c : Z) : bytes :=
  if c <? 0x80 then [c]
  else if c <? 0x800 then [0xc0 + c / 64; 0x80 + c mod 64]
  else if c <? 0x10000 then [0xe0 + c / 4096; 0x80 + c / 64 mod 64; 0x80 + c mod 64]
  else [0xf0 + c / 262144; 0x80 + c / 4096 mod 64; 0x80 + c / 64 mod 64; 0x80 + c mod 64].

Definition utf8_encode (cs : list Z) : bytes := concat (map encode_char cs).

(** A continuation byte. *)
Definition is_cont (b : Z) : bool := (0x80 <=? b) && (b <? 0xc0).

(** Validation and decoding, by lead byte; overlong forms and surrogates are refused. *)
Fixpoint utf8_decode (s : bytes) : option (list Z) :=
  match s with
  | [] => Some []
  | b1 :: t1 =>
      if (0 <=? b1) && (b1 <? 0x80) then cons b1 <$> utf8_decode t1
      else if (0xc2 <=? b1) && (b1 <? 0xe0) then
        match t1 with
        | b2 :: t2 =>
            if is_cont b2 then cons ((b1 - 0xc0) * 64 + (b2 - 0x80)) <$> utf8_decode t2
            else None
        | [] => None
        end
      else if (0xe0 <=? b1) && (b1 <? 0xf0) then
        match t1 with
        | b2 :: b3 :: t3 =>
            let c := (b1 - 0xe0) * 4096 + (b2 - 0x80) * 64 + (b3 - 0x80) in
            if is_cont b2 && is_cont b3 && (0x800 <=? c) && negb ((0xd800 <=? c) && (c <? 0xe000))
            then cons c <$> utf8_decode t3 else None
        | _ => None
        end
      else if (0xf0 <=? b1) && (b1 <? 0xf5) then
        match t1 with
        | b2 :: b3 :: b4 :: t4 =>
            let c := (b1 - 0xf0) * 262144 + (b2 - 0x80) * 4096 + (b3 - 0x80) * 64 + (b4 - 0x80) in
            if is_cont b2 && is_cont b3 && is_cont b4 && (0x10000 <=? c) && (c <? 0x110000)
            then cons c <$> utf8_decode t4 else None
        | _ => None
        end
      else None
  end.

(** [std::str::from_utf8]: the bytes themselves when they are valid. *)
Definition from_utf8 (s : bytes) : option bytes :=
  match utf8_decode s with Some _ => Some s | None => None end.

(** U+FFFD, which [from_utf8_lossy] puts for each maximal invalid subsequence. *)
Definition replacement : bytes := [0xef; 0xbf; 0xbd].

(** The second bytes that may follow a lead byte of three or four bytes. *)
Definition second_ok (b1 b2 : Z) : bool :=
  is_cont b2 &&
  negb ((b1 =? 0xe0) && (b2 <? 0xa0)) && negb ((b1 =? 0xed) && (0xa0 <=? b2)) &&
  negb ((b1 =? 0xf0) && (b2 <? 0x90)) && negb ((b1 =? 0xf4) && (0x90 <=? b2)).

(** [String::from_utf8_lossy]. *)
Fixpoint from_utf8_lossy (s : bytes) : bytes :=
  match s with
  | [] => []
  | b1 :: t1 =>
      let bad := replacement ++ from_utf8_lossy t1 in
      if b1 <? 0x80 then b1 :: from_utf8_lossy t1
      else if (0xc2 <=? b1) && (b1 <? 0xe0) then
        match t1 with
        | b2 :: t2 => if is_cont b2 then b1 :: b2 :: from_utf8_lossy t2 else bad
        | [] => bad
        end
      else if (0xe0 <=? b1) && (b1 <? 0xf0) then
        match t1 with
        | b2 :: t2 =>
            if second_ok b1 b2 then
              match t2 with
              | b3 :: t3 => if is_cont b3 then b1 :: b2 :: b3 :: from_utf8_lossy t3
                            else replacement ++ from_utf8_lossy t2
              | [] => replacement
              end
            else bad
        | [] => bad
        end
      else if (0xf0 <=? b1) && (b1 <? 0xf5) then
        match t1 with
        | b2 :: t2 =>
            if second_ok b1 b2 then
              match t2 with
              | b3 :: t3 =>
                  if is_cont b3 then
                    match t3 with
                    | b4 :: t4 => if is_cont b4 then b1 :: b2 :: b3 :: b4 :: from_utf8_lossy t4
                                  else replacement ++ from_utf8_lossy t3
                    | [] => replacement
                    end
                  else replacement ++ from_utf8_lossy t2
              | [] => replacement
              end
            else bad
        | [] => bad
        end
      else bad
  end.

(** The invariant of [String]. *)
Definition is_str (s : bytes) : Prop := is_Some (utf8_decode s).

(** [str::chars], collected; on a [String] the decoding never fails. *)
Definition chars (s : bytes) : list Z := default [] (utf8_decode s).

(** [str::is_char_boundary] *)
Definition is_char_boundary (s : bytes) (i : Z) : bool :=
  match zdrop i s with
  | [] => i =? len s
  | b :: _ => negb (is_cont b)
  end.

(** [&s[a..b]] on a [str]: a range out of bounds or not on character boundaries panics. *)
Definition str_slice {E} (s : bytes) (a b : Z) : outcome E bytes :=
  if (0 <=? a) && (a <=? b) && (b <=? len s) && is_char_boundary s a && is_char_boundary s b
  then Ok (ztake (b - a) (zdrop a s))
  else Panic.

(** ** Lemmas *)

Lemma utf8_encode_cons c cs : utf8_encode (c :: cs) = encode_char c ++ utf8_encode cs.
Proof. reflexivity. Qed.

Lemma div64 c : 0 <= c -> c = 64 * (c / 64) + c mod 64 /\ 0 <= c / 64 /\ 0 <= c mod 64 < 64.
Proof.
  intros. split; [apply Z.div_mod; lia|]. split; [apply Z.div_pos; lia|apply Z.mod_pos_bound; lia].
Qed.

Lemma div4096 c : c / 4096 = c / 64 / 64.
Proof. by rewrite Z.div_div by lia. Qed.
Lemma div262144 c : c / 262144 = c / 64 / 64 / 64.
Proof. by rewrite !Z.div_div by lia. Qed.

(** Name the base-64 digits of a scalar value. *)
Ltac digits c :=
  let d := fresh "d" in let e := fresh "e" in
  destruct (div64 c) as (? & ? & ?); [lia|];
  destruct (div64 (c / 64)) as (? & ? & ?); [lia|];
  destruct (div64 (c / 64 / 64)) as (? & ? & ?); [lia|];
  rewrite ?div4096, ?div262144.

Lemma utf8_decode_encode_char c t : is_char c ->
  utf8_decode (encode_char c ++ t) = cons c <$> utf8_decode t.
Proof.
  intros Hc. assert (0 <= c < 0x110000) as Hr by (destruct Hc; lia). digits c. unfold encode_char.
  rewrite ?div4096, ?div262144.
  destruct (Z.ltb_spec c 0x80); [|destruct (Z.ltb_spec c 0x800); [|destruct (Z.ltb_spec c 0x10000)]];
    cbn [app utf8_decode]; unfold is_cont; zbool.
  - done.
  - by replace (_ + _) with c by lia.
  - replace (_ + _ + _) with c by lia. zbool.
    destruct Hc; [destruct (Z.leb_spec 0xd800 c)|]; zbool; try done; lia.
  - replace (_ + _ + _ + _) with c by lia. by zbool.
Qed.

(** Encoding then decoding gives the characters back. *)
Lemma utf8_decode_encode cs : Forall is_char cs -> utf8_decode (utf8_encode cs) = Some cs.
Proof.
  induction 1 as [|c cs Hc Hcs IH]; [done|].
  by rewrite utf8_encode_cons, utf8_decode_encode_char, IH.
Qed.

Lemma undiv64 a b : 0 <= b < 64 -> (a * 64 + b) / 64 = a /\ (a * 64 + b) mod 64 = b.
Proof.
  intros. split; [rewrite Z.div_add_l, Z.div_small by lia; lia|].
  by rewrite Z.add_comm, Z.mod_add, Z.mod_small by lia.
Qed.

Lemma encode_char2 x y : 2 <= x < 32 -> 0 <= y < 64 ->
  encode_char (x * 64 + y) = [0xc0 + x; 0x80 + y].
Proof. intros. unfold encode_char. zbool. by destruct (undiv64 x y) as [-> ->]. Qed.

Lemma encode_char3 x y z : 0 <= x < 16 -> 0 <= y < 64 -> 0 <= z < 64 ->
  0x800 <= x * 4096 + y * 64 + z ->
  encode_char (x * 4096 + y * 64 + z) = [0xe0 + x; 0x80 + y; 0x80 + z].
Proof.
  intros. unfold encode_char. zbool. rewrite div4096.
  replace (x * 4096 + y * 64 + z) with ((x * 64 + y) * 64 + z) by lia.
  destruct (undiv64 (x * 64 + y) z) as [-> ->]; [done|]. by destruct (undiv64 x y) as [-> ->].
Qed.

Lemma encode_char4 x y z v : 0 <= x < 5 -> 0 <= y < 64 -> 0 <= z < 64 -> 0 <= v < 64 ->
  0x10000 <= x * 262144 + y * 4096 + z * 64 + v ->
  encode_char (x * 262144 + y * 4096 + z * 64 + v) = [0xf0 + x; 0x80 + y; 0x80 + z; 0x80 + v].
Proof.
  intros. unfold encode_char. zbool. rewrite div4096, div262144.
  replace (x * 262144 + y * 4096 + z * 64 + v) with (((x * 64 + y) * 64 + z) * 64 + v) by lia.
  destruct (undiv64 ((x * 64 + y) * 64 + z) v) as [-> ->]; [done|].
  destruct (undiv64 (x * 64 + y) z) as [-> ->]; [done|]. by destruct (undiv64 x y) as [-> ->].
Qed.

(** Split the boolean tests of a decoding step into bounds. *)
Ltac bounds :=
  unfold is_cont in *;
  repeat match goal with
  | H : _ && _ = true |- _ => apply andb_true_iff in H as [? ?]
  | H : negb _ = true |- _ => apply negb_true_iff in H
  | H : _ && _ = false |- _ => apply andb_false_iff in H
  | H : (_ <=? _) = true |- _ => apply Z.leb_le in H
  | H : (_ <? _) = true |- _ => apply Z.ltb_lt in H
  end.

(** Decoding is injective: valid bytes are the encoding of their characters. *)
Lemma utf8_encode_chars s cs : utf8_decode s = Some cs -> utf8_encode cs = s /\ Forall is_char cs.
Proof.
  remember (length s) as n eqn:En. revert s cs En.
  induction (lt_wf n) as [n _ IH]; intros s cs ->.
  destruct s as [|b1 t1]; [by intros [= <-]|]. cbn [utf8_decode].
  assert (forall c t u cs, utf8_decode t = Some u -> cs = c :: u -> (length t < length (b1 :: t1))%nat ->
    is_char c -> b1 :: t1 = encode_char c ++ t -> utf8_encode cs = b1 :: t1 /\ Forall is_char cs) as K.
  { intros c t u cs' Hd -> Hl Hc ->. destruct (IH _ Hl t u eq_refl Hd) as [<- ?]. auto. }
  destruct ((0 <=? b1) && (b1 <? 0x80)) eqn:B1.
  { intros (u & Hu & ->)%fmap_Some. bounds. eapply K; [done..|simpl; lia|left; lia|].
    unfold encode_char. by zbool. }
  destruct ((0xc2 <=? b1) && (b1 <? 0xe0)) eqn:B2.
  { destruct t1 as [|b2 t2]; [done|]. destruct (is_cont b2) eqn:C2; [|done].
    intros (u & Hu & ->)%fmap_Some. bounds. eapply K; [done..|simpl; lia|left; lia|].
    rewrite encode_char2 by lia. cbn [app]. repeat (f_equal; try lia). }
  destruct ((0xe0 <=? b1) && (b1 <? 0xf0)) eqn:B3.
  { destruct t1 as [|b2 [|b3 t3]]; [done..|]. case_match eqn:C; [|done].
    intros (u & Hu & ->)%fmap_Some. bounds.
    eapply K; [done..|simpl; lia| |rewrite encode_char3 by lia; cbn [app]; repeat (f_equal; try lia)].
    match goal with H : _ \/ _ |- _ => destruct H as [H%Z.leb_gt|H%Z.ltb_ge] end; [left|right]; lia. }
  destruct ((0xf0 <=? b1) && (b1 <? 0xf5)) eqn:B4; [|done].
  destruct t1 as [|b2 [|b3 [|b4 t4]]]; [done..|]. case_match eqn:C; [|done].
  intros (u & Hu & ->)%fmap_Some. bounds. eapply K; [done..|simpl; lia|right; lia|].
  rewrite encode_char4 by lia. cbn [app]. repeat (f_equal; try lia).
Qed.

Lemma is_str_chars s : is_str s -> utf8_encode (chars s) = s /\ Forall is_char (chars s).
Proof. intros [cs E]. unfold chars. rewrite E. simpl. by apply utf8_encode_chars. Qed.

Lemma is_str_encode cs : Forall is_char cs -> is_str (utf8_encode cs).
Proof. intros. unfold is_str. rewrite utf8_decode_encode by done. eauto. Qed.

Lemma chars_encode cs : Forall is_char cs -> chars (utf8_encode cs) = cs.
Proof. intros. unfold chars. by rewrite utf8_decode_encode. Qed.

(** Strings concatenate. *)
Lemma utf8_encode_app cs ds : utf8_encode (cs ++ ds) = utf8_encode cs ++ utf8_encode ds.
Proof. unfold utf8_encode. by rewrite map_app, concat_app. Qed.

Lemma is_str_app s t : is_str s -> is_str t -> is_str (s ++ t).
Proof.
  intros [E1 H1]%is_str_chars [E2 H2]%is_str_chars. rewrite <- E1, <- E2, <- utf8_encode_app.
  apply is_str_encode. by apply Forall_app.
Qed.

Lemma is_str_ascii s : Forall (fun c => 0 <= c < 128) s -> is_str s.
Proof.
  intros H. assert (utf8_encode s = s) as <-.
  { induction H as [|c s Hc Hs IH]; [done|]. rewrite utf8_encode_cons, IH. unfold encode_char. by zbool. }
  apply is_str_encode. eapply Forall_impl; [done|]. simpl. intros c ?. left. lia.
Qed.

Lemma is_str_head b t : is_str (b :: t) -> is_cont b = false.
Proof.
  intros [cs E]. simpl in E. unfold is_cont.
  destruct (Z.leb_spec 0x80 b), (Z.ltb_spec b 0xc0); try done; [].
  revert E. by zbool.
Qed.

Lemma is_str_bytes s : is_str s -> is_bytes s.
Proof.
  intros [E H]%is_str_chars. rewrite <- E. clear E. induction H as [|c cs Hc Hcs IH]; [constructor|].
  rewrite utf8_encode_cons. apply is_bytes_app. split; [|done].
  assert (0 <= c < 0x110000) as Hr by (destruct Hc; lia). digits c. unfold encode_char.
  rewrite ?div4096, ?div262144. unfold is_bytes, is_u8.
  repeat case_match; bounds; repeat apply Forall_cons_2; try apply Forall_nil_2; 
    repeat match goal with H : (_ <? _) = false |- _ => apply Z.ltb_ge in H end; lia.
Qed.

(** A slice between whole strings. *)
Lemma is_char_boundary_app s t : is_str t -> is_char_boundary (s ++ t) (len s) = true.
Proof.
  intros Ht. unfold is_char_boundary. rewrite zdrop_app by done. destruct t as [|b t].
  - rewrite app_nil_r. apply Z.eqb_refl.
  - apply is_str_head in Ht. by rewrite Ht.
Qed.

Lemma str_slice_app {E} p s t : is_str s -> is_str t ->
  str_slice (E := E) (p ++ s ++ t) (len p) (len p + len s) = Ok s.
Proof.
  intros Hs Ht. unfold str_slice. pose proof (len_nonneg p). pose proof (len_nonneg s).
  pose proof (len_nonneg t). rewrite is_char_boundary_app by (by apply is_str_app).
  rewrite app_assoc at 2. rewrite <- (len_app p s), is_char_boundary_app by done.
  rewrite !len_app. zbool. rewrite zdrop_app by done. by rewrite ztake_app by lia.
Qed.

(** [from_utf8_lossy] keeps a valid string. *)
Ltac lossy_step :=
  lazymatch goal with |- context [from_utf8_lossy (?b :: ?t)] =>
    let u := fresh "u" in let E := fresh "E" in
    remember t as u eqn:E; cbn [from_utf8_lossy]; zbool; subst u; cbv iota beta zeta
  end.

Lemma lossy2 b1 b2 t : 0xc2 <= b1 < 0xe0 -> is_cont b2 = true ->
  from_utf8_lossy (b1 :: b2 :: t) = b1 :: b2 :: from_utf8_lossy t.
Proof. intros ? H2. lossy_step. by rewrite H2. Qed.

Lemma lossy3 b1 b2 b3 t : 0xe0 <= b1 < 0xf0 -> second_ok b1 b2 = true -> is_cont b3 = true ->
  from_utf8_lossy (b1 :: b2 :: b3 :: t) = b1 :: b2 :: b3 :: from_utf8_lossy t.
Proof. intros ? H2 H3. lossy_step. by rewrite H2, H3. Qed.

Lemma lossy4 b1 b2 b3 b4 t : 0xf0 <= b1 < 0xf5 -> second_ok b1 b2 = true ->
  is_cont b3 = true -> is_cont b4 = true ->
  from_utf8_lossy (b1 :: b2 :: b3 :: b4 :: t) = b1 :: b2 :: b3 :: b4 :: from_utf8_lossy t.
Proof. intros ? H2 H3 H4. lossy_step. by rewrite H2, H3, H4. Qed.

Lemma second_ok_3 x y : 0 <= x < 16 -> 0 <= y < 64 -> 0x20 <= x * 64 + y ->
  x * 64 + y < 0x360 \/ 0x380 <= x * 64 + y -> second_ok (0xe0 + x) (0x80 + y) = true.
Proof.
  intros ? ? ? Hs. unfold second_ok, is_cont. zbool.
  destruct (Z.eqb_spec (0xe0 + x) 0xe0); zbool; [done|].
  destruct (Z.eqb_spec (0xe0 + x) 0xed); by zbool.
Qed.

Lemma second_ok_4 x y : 0 <= x < 5 -> 0 <= y < 64 -> 0x10 <= x * 64 + y < 0x110 ->
  second_ok (0xf0 + x) (0x80 + y) = true.
Proof.
  intros. unfold second_ok, is_cont. zbool.
  destruct (Z.eqb_spec (0xf0 + x) 0xf0); zbool; [done|].
  destruct (Z.eqb_spec (0xf0 + x) 0xf4); by zbool.
Qed.

Lemma is_cont_low y : 0 <= y < 64 -> is_cont (0x80 + y) = true.
Proof. intros. unfold is_cont. by zbool. Qed.

Lemma lossy_encode_char c t : is_char c ->
  from_utf8_lossy (encode_char c ++ t) = encode_char c ++ from_utf8_lossy t.
Proof.
  intros Hc. assert (0 <= c < 0x110000) as Hr by (destruct Hc; lia). digits c. unfold encode_char.
  rewrite ?div4096, ?div262144.
  destruct (Z.ltb_spec c 0x80); [|destruct (Z.ltb_spec c 0x800); [|destruct (Z.ltb_spec c 0x10000)]];
    cbn [app].
  - lossy_step. done.
  - apply lossy2; [lia|]. apply is_cont_low. lia.
  - apply lossy3; [lia| |apply is_cont_low; lia]. apply second_ok_3; [lia..|]. destruct Hc; lia.
  - apply lossy4; [lia| |apply is_cont_low; lia..]. apply second_ok_4; lia.
Qed.

Lemma from_utf8_lossy_str s : is_str s -> from_utf8_lossy s = s.
Proof.
  intros [E H]%is_str_chars. rewrite <- E. clear E.
  induction H as [|c cs Hc Hcs IH]; [done|].
  by rewrite utf8_encode_cons, lossy_encode_char, IH.
Qed.

Lemma from_utf8_str s : is_str s -> from_utf8 s = Some s.
Proof. intros [cs E]. unfold from_utf8. by rewrite E. Qed.
