(* ===== verification/Text.v ===== *)
(** * Text ([std::str], [std::string])

    A text is the list of its Unicode scalar values; the literals of the code are ASCII, so [str]
    gives them too. *)
From S2P Require Import Prelude.

(** ** Definitions *)

Abbreviation text := (list Z).

(** [char::is_whitespace]: the property White_Space. *)
Definition is_whitespace (c : Z) : bool :=
  ((9 <=? c) && (c <=? 13)) || (c =? 0x20) || (c =? 0x85) || (c =? 0xa0) || (c =? 0x1680) ||
  ((0x2000 <=? c) && (c <=? 0x200a)) || (c =? 0x2028) || (c =? 0x2029) || (c =? 0x202f) ||
  (c =? 0x205f) || (c =? 0x3000).

(** [split_whitespace]: the maximal runs of other characters. *)
Fixpoint words (cur : text) (s : text) : list text :=
  match s with
  | [] => match cur with [] => [] | _ => [cur] end
  | c :: s =>
      if is_whitespace c then match cur with [] => words [] s | _ => cur :: words [] s end
      else words (cur ++ [c]) s
  end.

Definition split_whitespace (s : text) : list text := words [] s.

Fixpoint trim_start (s : text) : text :=
  match s with
  | c :: t => if is_whitespace c then trim_start t else s
  | [] => []
  end.

Definition trim (s : text) : text := reverse (trim_start (reverse (trim_start s))).

(** [split(c)]: always at least one part. *)
Fixpoint split_on (c : Z) (s : text) : list text :=
  match s with
  | [] => [[]]
  | x :: s =>
      if x =? c then [] :: split_on c s
      else match split_on c s with
           | p :: ps => (x :: p) :: ps
           | [] => [[x]]
           end
  end.

Fixpoint join (sep : text) (ps : list text) : text :=
  match ps with
  | [] => []
  | [p] => p
  | p :: ps => p ++ sep ++ join sep ps
  end.

(** [parse::<usize>()] (and [u64]): an optional plus sign, then digits, below [2^64]. *)
Fixpoint parse_digits (s : text) (acc : Z) : option Z :=
  match s with
  | [] => Some acc
  | c :: s =>
      if (48 <=? c) && (c <=? 57) && (acc * 10 + (c - 48) <? U64) then parse_digits s (acc * 10 + (c - 48))
      else None
  end.

Definition parse_usize (s : text) : option Z :=
  match s with
  | [] => None
  | c :: t => if c =? 43 then match t with [] => None | _ => parse_digits t 0 end else parse_digits s 0
  end.

(** [to_string] of an unsigned number: twenty digits are enough for 64 bits. *)
Fixpoint decimal_fuel (fuel : nat) (n : Z) (acc : text) : text :=
  match fuel with
  | O => acc
  | S fuel =>
      let acc := 48 + n mod 10 :: acc in
      if n <? 10 then acc else decimal_fuel fuel (n / 10) acc
  end.

Definition decimal (n : Z) : text := decimal_fuel 20 n [].

Definition ascii_lower (c : Z) : Z := if (65 <=? c) && (c <=? 90) then c + 32 else c.

Definition eq_ignore_ascii_case (a b : text) : bool := bool_decide (map ascii_lower a = map ascii_lower b).

(** [starts_with] *)
Fixpoint starts_with (p s : text) : bool :=
  match p, s with
  | [], _ => true
  | x :: p, y :: s => (x =? y) && starts_with p s
  | _, [] => false
  end.

(** ** Lemmas *)

Lemma parse_decimal_fuel fuel n t : 0 <= n < U64 -> n < 10 ^ Z.of_nat fuel ->
  parse_digits (decimal_fuel fuel n t) 0 = parse_digits t n.
Proof.
  revert n t. induction fuel as [|fuel IH]; intros n t Hn Hf.
  { simpl in Hf. by replace n with 0 by lia. }
  cbn [decimal_fuel]. pose proof (Z.mod_pos_bound n 10 ltac:(lia)). pose proof (Z.div_mod n 10 ltac:(lia)).
  destruct (Z.ltb_spec n 10).
  - cbn [parse_digits]. rewrite Z.mod_small by lia. rewrite (proj2 (Z.leb_le 48 _)), (proj2 (Z.leb_le _ 57)) by lia.
    rewrite (proj2 (Z.ltb_lt _ _)) by lia. cbn [andb]. f_equal. lia.
  - assert (0 <= n / 10) by (apply Z.div_pos; lia). rewrite IH.
    + cbn [parse_digits]. rewrite (proj2 (Z.leb_le 48 _)), (proj2 (Z.leb_le _ 57)) by lia.
      rewrite (proj2 (Z.ltb_lt _ _)) by lia. cbn [andb]. f_equal. lia.
    + lia.
    + rewrite Nat2Z.inj_succ, Z.pow_succ_r in Hf by lia. apply Z.div_lt_upper_bound; lia.
Qed.

Definition is_digit (c : Z) : Prop := 48 <= c <= 57.

Lemma decimal_fuel_digits fuel n t : 0 <= n -> Forall is_digit t -> Forall is_digit (decimal_fuel fuel n t).
Proof.
  revert n t. induction fuel as [|fuel IH]; intros n t Hn Ht; [done|]. cbn [decimal_fuel].
  pose proof (Z.mod_pos_bound n 10 ltac:(lia)).
  assert (Forall is_digit (48 + n mod 10 :: t)) by (constructor; [unfold is_digit; lia|done]).
  destruct (n <? 10); [done|]. apply IH; [apply Z.div_pos; lia|done].
Qed.

Lemma decimal_digits n : 0 <= n -> Forall is_digit (decimal n).
Proof. intros. by apply decimal_fuel_digits. Qed.

Lemma decimal_fuel_nonempty fuel n t : decimal_fuel (S fuel) n t <> [].
Proof.
  revert n t. induction fuel as [|fuel IH]; intros n t.
  - cbn [decimal_fuel]. by destruct (n <? 10).
  - cbn [decimal_fuel] in *. destruct (n <? 10); [done|]. apply IH.
Qed.

Lemma decimal_nonempty n : decimal n <> [].
Proof. apply decimal_fuel_nonempty. Qed.

(** Printing and parsing. *)
Lemma parse_decimal n : 0 <= n < U64 -> parse_usize (decimal n) = Some n.
Proof.
  intros Hn. assert (parse_digits (decimal n) 0 = Some n) as E.
  { unfold decimal. rewrite parse_decimal_fuel; [done|done|]. unfold U64 in Hn. simpl. lia. }
  pose proof (decimal_digits n ltac:(lia)) as Hd. pose proof (decimal_nonempty n) as Hne.
  destruct (decimal n) as [|c t]; [done|]. apply Forall_cons in Hd as [Hc _]. unfold is_digit in Hc.
  unfold parse_usize. by rewrite (proj2 (Z.eqb_neq c 43)) by lia.
Qed.

Lemma digit_not_space c : is_digit c -> is_whitespace c = false.
Proof.
  unfold is_digit, is_whitespace. intros.
  rewrite (proj2 (Z.leb_gt c 13)), (proj2 (Z.leb_gt 0x2000 c)), andb_false_r by lia.
  by rewrite !(proj2 (Z.eqb_neq c _)) by lia.
Qed.

Lemma words_run cur w s : Forall (fun c => is_whitespace c = false) w -> words cur (w ++ s) = words (cur ++ w) s.
Proof.
  intros Hw. revert cur. induction Hw as [|c w Hc Hw IH]; intros cur; [by rewrite app_nil_r|].
  cbn [app words]. by rewrite Hc, IH, <- app_assoc.
Qed.

Lemma split_word w c s : w <> [] -> Forall (fun c => is_whitespace c = false) w -> is_whitespace c = true ->
  split_whitespace (w ++ c :: s) = w :: split_whitespace s.
Proof.
  intros Hne Hw Hc. unfold split_whitespace. rewrite words_run by done. cbn [app words]. rewrite Hc.
  by destruct w.
Qed.

Lemma decimal_run n : 0 <= n -> Forall (fun c => is_whitespace c = false) (decimal n).
Proof. intros. eapply Forall_impl; [by apply decimal_digits|]. apply digit_not_space. Qed.

Lemma trim_start_run w s : w <> [] -> Forall (fun c => is_whitespace c = false) w ->
  trim_start (w ++ s) = w ++ s.
Proof. intros Hne Hw. destruct w as [|c w]; [done|]. apply Forall_cons in Hw as [Hc _]. cbn [app trim_start]. by rewrite Hc. Qed.

Lemma trim_start_spaces sp s : Forall (fun c => is_whitespace c = true) sp -> trim_start (sp ++ s) = trim_start s.
Proof. induction 1 as [|c sp Hc _ IH]; [done|]. cbn [app trim_start]. by rewrite Hc. Qed.

(** A run of other characters between spaces. *)
Lemma trim_run w sp : w <> [] -> Forall (fun c => is_whitespace c = false) w ->
  Forall (fun c => is_whitespace c = true) sp -> trim (w ++ sp) = w.
Proof.
  intros Hne Hw Hs. unfold trim. rewrite trim_start_run by done. rewrite reverse_app.
  rewrite trim_start_spaces by (by apply Forall_reverse).
  rewrite <- (app_nil_r (reverse w)), trim_start_run, app_nil_r; [apply reverse_involutive|..].
  - intros E. apply Hne. rewrite <- (reverse_involutive w), E. done.
  - by apply Forall_reverse.
Qed.

Lemma split_on_join c ps : ps <> [] -> Forall (fun p => c ∉ p) ps -> split_on c (join [c] ps) = ps.
Proof.
  intros Hne Hp. induction Hp as [|p ps Hc Hp IH]; [done|]. clear Hne.
  assert (forall s r, c ∉ p -> split_on c s = r -> r <> [] ->
    split_on c (p ++ s) = match r with x :: xs => (p ++ x) :: xs | [] => [] end) as Hrun.
  { clear. intros s r Hc <-. induction p as [|x p IHp]; intros Hr; cbn [app]; [by destruct (split_on c s)|].
    apply not_elem_of_cons in Hc as [Hx Hc]. cbn [app split_on]. rewrite (proj2 (Z.eqb_neq _ _)) by done.
    rewrite IHp by done. by destruct (split_on c s). }
  destruct ps as [|q ps].
  - cbn [join]. rewrite <- (app_nil_r p) at 1. rewrite (Hrun [] [[]]) by done. by rewrite app_nil_r.
  - change (join [c] (p :: q :: ps)) with (p ++ c :: join [c] (q :: ps)).
    rewrite (Hrun _ ([] :: q :: ps)); [by rewrite app_nil_r|done| |done].
    cbn [split_on]. by rewrite Z.eqb_refl, IH.
Qed.
