(* ===== verification/SysUtils.v ===== *)
(** * The machine ([common/src/sys_utils.rs])

    The number of processors and the host name, read from the environment, the file system and the
    operating system, which are a record here. *)
From S2P Require Import Prelude Text.

(** ** Definitions *)

(** What the code asks of the machine: [std::env::consts::OS], environment variables, the files
    it reads, [Path::exists] and [Path::is_dir], [available_parallelism], and [gethostname] with a
    buffer of the size [sysconf] gives plus one (its bytes when it succeeds). *)
Record machine : Type := MkMachine {
  os : text;
  env_var : text -> option text;
  read_to_string : text -> outcome io_error text;
  path_exists : text -> bool;
  path_is_dir : text -> bool;
  available_parallelism : outcome io_error Z;
  gethostname : option (list Z);
}.

Definition V1_CPU_QUOTA_PATH : text := str "/sys/fs/cgroup/cpu/cpu.cfs_quota_us".
Definition V1_CPU_PERIOD_PATH : text := str "/sys/fs/cgroup/cpu/cpu.cfs_period_us".
Definition V2_CPU_LIMIT_PATH : text := str "/sys/fs/cgroup/cpu.max".
Definition DEFAULT_CGROUP_MAX_INDICATOR : text := str "max".
Definition CGROUP_ROOT_HIERARCYHY : text := str "/sys/fs/cgroup".
Definition LINUX_OS : text := str "linux".
Definition DOCKER_ENV_PATH : text := str "/.dockerenv".
Definition CONTAINER_ENV : text := str "SQL_PROXY_CONTAINER".
Definition CGROUP_V2_CONTROLLER_LIST_PATH : text := str "/sys/fs/cgroup/cgroup.controllers".
Definition KUBERNETES_SECRETS_PATH : text := str "/var/run/secrets/kubernetes.io".
Definition KUBERNETES_HOSTNAME_ENV : text := str "SQL_PROXY_POD_NAME".

Inductive CollectResource : Type := Cpu | Memory.
Inductive CGroupVersion : Type := V1 | V2.

(** The [f32]s the code computes: an integer converted, and the quotient of two of them. *)
Inductive cpus : Type :=
  | Whole (n : Z)
  | Quotient (quota period : Z).

(** [Path::join] with a relative path. *)
Definition path_join (p q : text) : text := p ++ str "/" ++ q.

Section machine.
Variable m : machine.

Definition parse_controller_enable_file_for_cgroup_v2 (file_path collect_name : text) : bool :=
  match read_to_string m file_path with
  | Ok controller_string => existsb (fun c => bool_decide (c = collect_name)) (split_whitespace controller_string)
  | _ => false
  end.

Definition parsed (s : text) : outcome io_error Z :=
  match parse_usize s with Some n => Ok n | None => Err InvalidData end.

Definition read_file_usize (file_path : text) : outcome io_error Z :=
  content ← read_to_string m file_path;
  parsed (trim content).

Definition is_linux : bool := bool_decide (os m = LINUX_OS).

(** The bytes before the first NUL. *)
Fixpoint until_nul (b : list Z) : list Z :=
  match b with
  | [] => []
  | x :: b => if x =? 0 then [] else x :: until_nul b
  end.

(** [utf8] decodes the bytes of the name; [into_string().unwrap()] panics when it fails. *)
Definition hostname (utf8 : list Z -> option text) : outcome io_error text :=
  match env_var m KUBERNETES_HOSTNAME_ENV with
  | Some name => Ok name
  | None =>
      match gethostname m with
      | None => Ok (str "_NONE_HOSTNAME")
      | Some buffer => unwrap_option (utf8 (until_nul buffer))
      end
  end.

Definition has_cgroup : bool := path_is_dir m CGROUP_ROOT_HIERARCYHY.

Definition is_container : bool :=
  bool_decide (is_Some (env_var m CONTAINER_ENV)) || path_exists m DOCKER_ENV_PATH ||
  path_exists m KUBERNETES_SECRETS_PATH.

Definition cgroup_version : CGroupVersion :=
  if path_exists m CGROUP_V2_CONTROLLER_LIST_PATH then V2 else V1.

Definition controller_activated (collect_resource : CollectResource) (v : CGroupVersion) : bool :=
  let controller_name := match collect_resource with Cpu => str "cpu" | Memory => str "memory" end in
  match v with
  | V1 => path_is_dir m (path_join CGROUP_ROOT_HIERARCYHY controller_name)
  | V2 => parse_controller_enable_file_for_cgroup_v2 CGROUP_V2_CONTROLLER_LIST_PATH controller_name
  end.

Definition sys_cpu : outcome io_error cpus :=
  match available_parallelism m with Ok n => Ok (Whole n) | Err _ => Panic | Panic => Panic | OutOfFuel => OutOfFuel end.

Definition get_container_cpu_limit_v2 (limit_path : text) (max_value : cpus) : outcome io_error cpus :=
  cpu_limit_string ← read_to_string m limit_path;
  match split_whitespace cpu_limit_string with
  | quota :: period :: _ =>
      if bool_decide (quota = DEFAULT_CGROUP_MAX_INDICATOR) then Ok max_value
      else
        cpu_quota ← parsed quota;
        cpu_period ← parsed period;
        Ok (Quotient cpu_quota cpu_period)
  | _ => Err InvalidData
  end.

Definition get_container_cpu_limit_v1 (quota_path period_path : text) (max_value : cpus) : outcome io_error cpus :=
  content ← read_to_string m quota_path;
  if bool_decide (trim content = DEFAULT_CGROUP_MAX_INDICATOR) then Ok max_value
  else
    cpu_quota ← parsed (trim content);
    cpu_period ← read_file_usize period_path;
    Ok (Quotient cpu_quota cpu_period).

Definition get_container_cpu (v : CGroupVersion) : outcome io_error cpus :=
  max_cpu ← sys_cpu;
  match v with
  | V1 => get_container_cpu_limit_v1 V1_CPU_QUOTA_PATH V1_CPU_PERIOD_PATH max_cpu
  | V2 => get_container_cpu_limit_v2 V2_CPU_LIMIT_PATH max_cpu
  end.

Definition get_total_cpu : outcome io_error cpus :=
  if is_linux || is_container || has_cgroup then sys_cpu
  else
    let v := cgroup_version in
    if negb (controller_activated Cpu v) then sys_cpu
    else match get_container_cpu v with Err _ => sys_cpu | r => r end.

End machine.

(** ** Properties *)

(** What lies under a path that exists lies in a directory. *)
Definition rooted (m : machine) : Prop := forall p q,
  path_exists m (path_join p q) = true \/ path_is_dir m (path_join p q) = true -> path_is_dir m p = true.

(** (C35) The limits of the container are never read: on every machine whose file system is a tree,
    [get_total_cpu] is what [std] says of the machine, and no cgroup file is asked.  The first
    test returns it exactly when there may be a limit, and without a cgroup file system no
    controller is active. *)
Theorem total_cpu_ignores_limits m : rooted m -> get_total_cpu m = sys_cpu m.
Proof.
  intros Hr. unfold get_total_cpu. destruct (is_linux m || is_container m || has_cgroup m) eqn:E; [done|].
  apply orb_false_iff in E as [_ E]. unfold has_cgroup in E. unfold cgroup_version.
  assert (forall q, path_exists m (path_join CGROUP_ROOT_HIERARCYHY q) = false /\
                    path_is_dir m (path_join CGROUP_ROOT_HIERARCYHY q) = false) as Hno.
  { intros q. specialize (Hr CGROUP_ROOT_HIERARCYHY q). rewrite E in Hr.
    destruct (path_exists m _), (path_is_dir m (path_join _ q)); split; try done; symmetry; apply Hr; auto. }
  change CGROUP_V2_CONTROLLER_LIST_PATH with (path_join CGROUP_ROOT_HIERARCYHY (str "cgroup.controllers")).
  rewrite (proj1 (Hno _)). cbn [controller_activated]. by rewrite (proj2 (Hno _)).
Qed.

Lemma max_not_digits n : 0 <= n -> decimal n <> DEFAULT_CGROUP_MAX_INDICATOR.
Proof.
  intros Hn E. pose proof (decimal_digits n Hn) as Hd. rewrite E in Hd.
  apply Forall_cons in Hd as [[_ Hd] _]. by vm_compute in Hd.
Qed.

Lemma newline_space : is_whitespace 10 = true.
Proof. done. Qed.

Lemma cgroup_line a b : a <> [] -> b <> [] -> Forall (fun c => is_whitespace c = false) a ->
  Forall (fun c => is_whitespace c = false) b ->
  split_whitespace (a ++ str " " ++ b ++ [10]) = [a; b].
Proof.
  intros Ha Hb Fa Fb. change (a ++ str " " ++ b ++ [10]) with (a ++ 32 :: (b ++ 10 :: [])).
  by rewrite !split_word.
Qed.

(** Reading the limit itself, were it reached: [cpu.max] of version 2 gives the quotient of the
    two numbers the kernel prints, or the maximum for the word max, and anything with fewer than
    two words or with another word is invalid data; the two files of version 1 give the quotient
    of their numbers; but the quota -1, which version 1 has for no limit, is invalid data. *)
Theorem container_limits_read m path quota_path max :
  (forall q p, 0 <= q < U64 -> 0 <= p < U64 ->
    read_to_string m path = Ok (decimal q ++ str " " ++ decimal p ++ [10]) ->
    get_container_cpu_limit_v2 m path max = Ok (Quotient q p)) /\
  (forall p, 0 <= p < U64 -> read_to_string m path = Ok (str "max " ++ decimal p ++ [10]) ->
    get_container_cpu_limit_v2 m path max = Ok max) /\
  (forall w, w <> [] -> Forall (fun c => is_whitespace c = false) w -> read_to_string m path = Ok (w ++ [10]) ->
    get_container_cpu_limit_v2 m path max = Err InvalidData) /\
  (forall q p, 0 <= q < U64 -> 0 <= p < U64 ->
    read_to_string m quota_path = Ok (decimal q ++ [10]) -> read_to_string m path = Ok (decimal p ++ [10]) ->
    get_container_cpu_limit_v1 m quota_path path max = Ok (Quotient q p)) /\
  (read_to_string m quota_path = Ok (str "-1" ++ [10]) ->
    get_container_cpu_limit_v1 m quota_path path max = Err InvalidData).
Proof.
  assert (forall n, 0 <= n < U64 -> trim (decimal n ++ [10]) = decimal n) as Htrim.
  { intros n Hn. apply trim_run; [apply decimal_nonempty|apply decimal_run; lia|by repeat constructor]. }
  split_and!.
  - intros q p Hq Hp E. unfold get_container_cpu_limit_v2. rewrite E. ostep.
    rewrite cgroup_line by (apply decimal_nonempty || apply decimal_run; lia).
    rewrite bool_decide_eq_false_2 by (apply max_not_digits; lia).
    unfold parsed. by rewrite !parse_decimal.
  - intros p Hp E. unfold get_container_cpu_limit_v2. rewrite E. ostep.
    change (str "max " ++ decimal p ++ [10]) with (str "max" ++ str " " ++ decimal p ++ [10]).
    rewrite cgroup_line; [done|done|apply decimal_nonempty|by repeat constructor|apply decimal_run; lia].
  - intros w Hw Hf E. unfold get_container_cpu_limit_v2. rewrite E. ostep. by rewrite split_word.
  - intros q p Hq Hp E1 E2. unfold get_container_cpu_limit_v1, read_file_usize. rewrite E1. ostep.
    rewrite Htrim by done. rewrite bool_decide_eq_false_2 by (apply max_not_digits; lia).
    unfold parsed. rewrite parse_decimal by done. ostep. rewrite E2. ostep. rewrite Htrim by done.
    by rewrite parse_decimal.
  - intros E. unfold get_container_cpu_limit_v1. by rewrite E.
Qed.

(** The host name: the variable of the pod when it is set, otherwise what the system gives up to
    its first NUL, a fixed name when the system gives none, and a panic when it is not UTF-8. *)
Theorem hostname_cases m utf8 :
  (forall name, env_var m KUBERNETES_HOSTNAME_ENV = Some name -> hostname m utf8 = Ok name) /\
  (env_var m KUBERNETES_HOSTNAME_ENV = None ->
    (gethostname m = None -> hostname m utf8 = Ok (str "_NONE_HOSTNAME")) /\
    (forall name pad, 0 ∉ name -> gethostname m = Some (name ++ 0 :: pad) ->
      hostname m utf8 = match utf8 name with Some n => Ok n | None => Panic end)).
Proof.
  unfold hostname. split; [by intros name ->|]. intros ->. split; [by intros ->|]. intros name pad Hn ->.
  assert (until_nul (name ++ 0 :: pad) = name) as ->; [|by destruct (utf8 name)].
  induction name as [|x name IH]; [done|]. apply not_elem_of_cons in Hn as [Hx Hn]. cbn [app until_nul].
  rewrite (proj2 (Z.eqb_neq x 0)) by done. by rewrite IH.
Qed.

(** ** Witnesses *)

(** A container on Linux with half a processor out of eight. *)
Definition demo_machine : machine := {|
  os := str "linux";
  env_var := fun _ => None;
  read_to_string := fun p => if bool_decide (p = V2_CPU_LIMIT_PATH) then Ok (str "50000 100000" ++ [10]) else Err NotFound;
  path_exists := fun p => bool_decide (p = DOCKER_ENV_PATH);
  path_is_dir := fun p => true;
  available_parallelism := Ok 8;
  gethostname := Some (str "pod-1" ++ [0; 0]);
|}.

Lemma total_cpu_ignores_limits_witness :
  get_total_cpu demo_machine = Ok (Whole 8) /\ get_container_cpu demo_machine V2 = Ok (Quotient 50000 100000).
Proof. split; [|by vm_compute]. rewrite (total_cpu_ignores_limits demo_machine); [done|by intros p q _]. Defined.

Lemma container_limits_read_witness :
  get_container_cpu_limit_v2 demo_machine V2_CPU_LIMIT_PATH (Whole 8) = Ok (Quotient 50000 100000).
Proof.
  destruct (container_limits_read demo_machine V2_CPU_LIMIT_PATH [] (Whole 8)) as (H & _).
  apply (H 50000 100000); [by vm_compute|by vm_compute|vm_compute; reflexivity].
Defined.

Lemma hostname_cases_witness : hostname demo_machine Some = Ok (str "pod-1").
Proof.
  destruct (hostname_cases demo_machine Some) as [_ H]. destruct (H eq_refl) as [_ H2].
  apply (H2 (str "pod-1") [0]); [by apply (bool_decide_unpack _)|reflexivity].
Defined.
