(* ===== verification/Metrics.v ===== *)
(** * Metrics ([common/src/metrics/])

    The table of metrics, the helpers that set gauges, the timer, and the recorder of the process's
    own figures.  The registry of gauges is the metrics crate's, behind the class [Gauges]; floating
    point is the class [Float], exact on the integers the code converts. *)
From S2P Require Import Prelude Text SysUtils.

(** ** Interfaces *)

(** [f64]: the conversions and operations the code uses. *)
Class Float : Type := {
  f64 : Type;
  f64_of_Z : Z -> f64;
  f64_of_cpus : cpus -> f64;
  f64_add : f64 -> f64 -> f64;
  f64_sub : f64 -> f64 -> f64;
  f64_mul : f64 -> f64 -> f64;
  f64_div : f64 -> f64 -> f64;
}.

(** IEEE 754: integers up to [2^53] are exact, and so are sums and differences that stay there. *)
Definition exact (n : Z) : Prop := Z.abs n <= 2 ^ 53.

Class FloatLaws (F : Float) : Prop := {
  f64_add_exact : forall a b, exact a -> exact b -> exact (a + b) ->
    f64_add (f64_of_Z a) (f64_of_Z b) = f64_of_Z (a + b);
  f64_sub_exact : forall a b, exact a -> exact b -> exact (a - b) ->
    f64_sub (f64_of_Z a) (f64_of_Z b) = f64_of_Z (a - b);
}.

(** A gauge: its name and its labels. *)
Definition gauge_key : Type := text * list (text * text).

(** [metrics::GaugeValue] *)
Inductive GaugeValue `{Float} : Type :=
  | Absolute (v : f64)
  | Increment (v : f64)
  | Decrement (v : f64).

(** The gauges of the global recorder, and [GaugeValue::update_value], which takes its value by
    reference and returns a number. *)
Class Gauges `{Float} (S : Type) : Type := {
  gauge_value : gauge_key -> S -> f64;
  gauge_set : gauge_key -> f64 -> S -> S;
  gauge_increment : gauge_key -> f64 -> S -> S;
  gauge_decrement : gauge_key -> f64 -> S -> S;
  update_value : GaugeValue -> f64 -> f64;
}.

Class GaugesLaws `{Float} (S : Type) {G : Gauges S} : Prop := {
  gauge_set_law : forall k k' v s, gauge_value k (gauge_set k' v s) = if decide (k = k') then v else gauge_value k s;
  gauge_increment_law : forall k k' v s,
    gauge_value k (gauge_increment k' v s) = if decide (k = k') then f64_add (gauge_value k s) v else gauge_value k s;
  gauge_decrement_law : forall k k' v s,
    gauge_value k (gauge_decrement k' v s) = if decide (k = k') then f64_sub (gauge_value k s) v else gauge_value k s;
}.

(** ** metric_def.rs *)

Inductive MetricType : Type := Gauge | Counter | Histogram.

Inductive MetricsConsts : Type :=
  | ProcessRssMemSize
  | ProcessVirtralMemSize
  | CpuCoreNum
  | CpuTotal
  | ProxyMaxConnections
  | ProxyCurrentConnections
  | ProxyComLatency.

#[export] Instance metrics_eq_dec : EqDecision MetricsConsts.
Proof. solve_decision. Defined.

(** [get_metrics_pair]: name, description and type; the key is made of the name. *)
Definition get_metrics_pair (m : MetricsConsts) : text * text * MetricType :=
  match m with
  | ProcessRssMemSize =>
      (str "proxy_process_mem_rss_bytes", str "Process resident memory size in bytes", Gauge)
  | ProcessVirtralMemSize =>
      (str "proxy_process_mem_virtual_bytes", str "Process virtual memory size in bytes", Gauge)
  | CpuCoreNum => (str "proxy_process_cpu_core_num", str "cpu core num.", Gauge)
  | CpuTotal => (str "proxy_process_cpu_seconds_total", str "total user and system cpu time spend in seconds.", Gauge)
  | ProxyMaxConnections =>
      (str "proxy_max_connections", str "The max number of connections allowed by the Proxy.", Gauge)
  | ProxyCurrentConnections =>
      (str "proxy_curr_connections", str "The current connection count by the Proxy.", Gauge)
  | ProxyComLatency => (str "proxy_com_latency", str "Latency of command execution.", Histogram)
  end.

Definition get_name (m : MetricsConsts) : text := (get_metrics_pair m).1.1.

Definition list_all_metrics : list MetricsConsts :=
  [ProcessRssMemSize; ProcessVirtralMemSize; CpuCoreNum; CpuTotal; ProxyMaxConnections; ProxyCurrentConnections; ProxyComLatency].

Section metrics.
Context {F : Float} {S : Type} {G : Gauges S}.

(** ** metrics/mod.rs *)

Definition gauge (name : text) (value : f64) (labels : option (list (text * text))) : S -> S :=
  gauge_set (name, default [] labels) value.
Definition gauge_inc (name : text) (value : f64) (labels : option (list (text * text))) : S -> S :=
  gauge_increment (name, default [] labels) value.
Definition gauge_dec (name : text) (value : f64) (labels : option (list (text * text))) : S -> S :=
  gauge_decrement (name, default [] labels) value.

Definition common_labels (hostname : text) : list (text * text) := [(str "node_name", hostname)].

(** The context of the metrics: the handle that renders, the recorder that is installed (the crate
    keeps the first), what is described, and whether [init_metrics_context] was called. *)
Record MetricsContext (Hd : Type) : Type := MkContext {
  prometheus_handle : option Hd;
  global_recorder : option Hd;
  described : list (MetricType * text * text);
  init_called : bool;
}.
Arguments MkContext {Hd} _ _ _ _.
Arguments prometheus_handle {Hd} _.
Arguments global_recorder {Hd} _.
Arguments described {Hd} _.
Arguments init_called {Hd} _.

Definition describe_and_register_metrics {Hd} (t : MetricType) (name desc : text) (c : MetricsContext Hd) : MetricsContext Hd :=
  MkContext (prometheus_handle c) (global_recorder c) (described c ++ [(t, name, desc)]) (init_called c).

Definition init_process_metrics {Hd} (c : MetricsContext Hd) : MetricsContext Hd :=
  foldl (fun c m => let '(name, desc, t) := get_metrics_pair m in describe_and_register_metrics t name desc c) c
    [CpuTotal; ProcessVirtralMemSize; CpuCoreNum; ProcessRssMemSize].

(** [recorder] is the one that is built, with its handle. *)
Definition init_metrics {Hd} (recorder : Hd) (c : MetricsContext Hd) : MetricsContext Hd :=
  match global_recorder c with
  | None => init_process_metrics (MkContext (Some recorder) (Some recorder) (described c) (init_called c))
  | Some r => MkContext (Some recorder) (Some r) (described c) (init_called c)
  end.

Definition init_metrics_context {Hd} (recorder : Hd) (c : MetricsContext Hd) : MetricsContext Hd :=
  if init_called c then c
  else init_metrics recorder (MkContext (prometheus_handle c) (global_recorder c) (described c) true).

Definition try_handle {Hd} (c : MetricsContext Hd) : option Hd := prometheus_handle c.

(** A running timer; [discard] marks it and drops it, and a drop records the elapsed time in the
    histogram unless it is marked. *)
Record MetricsTimer : Type := MkTimer { timer_start : Z; observed : bool }.

Definition timer_new (now : Z) : MetricsTimer := MkTimer now false.

Definition timer_elapsed (now : Z) (t : MetricsTimer) : Z := now - timer_start t.

Definition timer_drop (now : Z) (t : MetricsTimer) (histogram : list Z) : list Z :=
  if observed t then histogram else histogram ++ [timer_elapsed now t].

Definition timer_discard (now : Z) (t : MetricsTimer) (histogram : list Z) : list Z :=
  timer_drop now (MkTimer (timer_start t) true) histogram.

(** ** process_unix.rs, on Linux *)

(** The four gauges, by their labels, and the field [collect] reads the last total from. *)
Record ProcessRecorder : Type := MkRecorder {
  recorder_labels : list (text * text);
  cpu_total_value : GaugeValue;
}.

Definition recorder_new (labels : list (text * text)) : ProcessRecorder :=
  MkRecorder labels (Absolute (f64_of_Z 0)).

Definition recorder_key (r : ProcessRecorder) (m : MetricsConsts) : gauge_key := (get_name m, recorder_labels r).

(** What procfs says of the process. *)
Record proc_stat : Type := MkStat { vsize : Z; rss : Z; utime : Z; stime : Z }.

(** [x as i64] *)
Definition as_i64 (x : Z) : Z := if x <? 2 ^ 63 then x else x - 2 ^ 64.

(** A product of [i64]s. *)
Definition mul_i64 `{Profile} (a b : Z) : outcome io_error Z :=
  if (- 2 ^ 63 <=? a * b) && (a * b <? 2 ^ 63) then Ok (a * b)
  else if overflow_checks then Panic
  else Ok ((a * b + 2 ^ 63) mod 2 ^ 64 - 2 ^ 63).

(** [collect]: [stat] is [None] when procfs fails.  The result of [update_value] is dropped, and
    [collect] borrows the recorder immutably: nothing is remembered. *)
Definition collect `{Profile} (r : ProcessRecorder) (page_size clock_tick : Z) (m : machine)
    (stat : option proc_stat) : M S unit :=
  match stat with
  | None => mret tt
  | Some st =>
      _ ← modify (gauge_set (recorder_key r ProcessVirtralMemSize) (f64_of_Z (vsize st)));
      bytes ← lift (mul_i64 (as_i64 (rss st)) page_size);
      _ ← modify (gauge_set (recorder_key r ProcessRssMemSize) (f64_of_Z bytes));
      ticks ← lift (add_width U64 (utime st) (stime st));
      _ ← (if clock_tick =? 0 then panic else mret tt);
      let total := f64_of_Z (ticks / clock_tick) in
      let past := match cpu_total_value r with Absolute f => f | _ => f64_of_Z 0 end in
      _ ← modify (gauge_increment (recorder_key r CpuTotal) (f64_sub total past));
      let _ := update_value (cpu_total_value r) (f64_sub total past) in
      cpu ← lift (get_total_cpu m);
      modify (gauge_set (recorder_key r CpuCoreNum) (f64_of_cpus cpu))
  end.

(** *** On macOS *)

(** What [mach_timebase_info] and [task_info] say: an error number and a fraction, and the sizes
    and times of the process. *)
Record timebase : Type := MkTimebase { tb_errno : Z; numer : Z; denom : Z }.
Record task_info : Type := MkTaskInfo {
  pti_resident_size : Z; pti_virtual_size : Z; pti_total_user : Z; pti_total_system : Z }.

(** The fraction is divided as integers, before it is converted. *)
Definition mach_clock_tick (tb : timebase) : outcome io_error f64 :=
  if negb (tb_errno tb =? 0) then Ok (f64_of_Z 1)
  else if denom tb =? 0 then Panic else Ok (f64_of_Z (numer tb / denom tb)).

Definition collect_macos `{Profile} (r : ProcessRecorder) (tb : timebase) (m : machine) (proc_info : option task_info)
  : M S unit :=
  clock_tick ← lift (mach_clock_tick tb);
  match proc_info with
  | None => mret tt
  | Some i =>
      _ ← modify (gauge_set (recorder_key r ProcessRssMemSize) (f64_of_Z (pti_resident_size i)));
      _ ← modify (gauge_set (recorder_key r ProcessVirtralMemSize) (f64_of_Z (pti_virtual_size i)));
      ticks ← lift (add_width U64 (pti_total_user i) (pti_total_system i));
      let cpu_total := f64_div (f64_mul (f64_of_Z ticks) clock_tick) (f64_of_Z 1000000000) in
      _ ← modify (gauge_increment (recorder_key r CpuTotal) cpu_total);
      cpu ← lift (get_total_cpu m);
      modify (gauge_set (recorder_key r CpuCoreNum) (f64_of_cpus cpu))
  end.

(** The branch a turn of [start_auto_collect] takes: the look at the shutdown channel, which is
    always ready ([None] when the sender is gone, else whether it changed, and to a [Cancel]), or a
    tick. *)
Inductive collector_turn : Type :=
  | Looked (changed : option bool) (cancelled : bool)
  | Ticked (stat : option proc_stat).

(** [true] when the loop has ended. *)
Fixpoint auto_collect `{Profile} (r : ProcessRecorder) (page_size clock_tick : Z) (m : machine)
    (turns : list collector_turn) : M S bool :=
  match turns with
  | [] => mret false
  | Looked None _ :: _ => panic
  | Looked (Some true) true :: _ => mret true
  | Looked _ _ :: turns => auto_collect r page_size clock_tick m turns
  | Ticked stat :: turns =>
      _ ← collect r page_size clock_tick m stat;
      auto_collect r page_size clock_tick m turns
  end.

(** ** Lemmas *)

Context {FL : FloatLaws F} {GL : GaugesLaws S} {Pr : Profile}.

(** The context is made once; the handle then renders what is recorded exactly when no recorder
    had been installed before, and is that of a recorder nobody writes to otherwise. *)
Lemma metrics_context_once {Hd} (r r' : Hd) (c : MetricsContext Hd) : init_called c = false ->
  let c1 := init_metrics_context r c in
  init_metrics_context r' c1 = c1 /\ try_handle c1 = Some r /\
  global_recorder c1 = Some (default r (global_recorder c)) /\
  (global_recorder c = None -> described c1 = described c ++
    [(Gauge, get_name CpuTotal, (get_metrics_pair CpuTotal).1.2); (Gauge, get_name ProcessVirtralMemSize, (get_metrics_pair ProcessVirtralMemSize).1.2);
     (Gauge, get_name CpuCoreNum, (get_metrics_pair CpuCoreNum).1.2); (Gauge, get_name ProcessRssMemSize, (get_metrics_pair ProcessRssMemSize).1.2)]).
Proof.
  destruct c as [h [g|] d i]; intros Hi; cbn [init_called] in Hi; subst i; unfold init_metrics_context; cbn; [done|].
  split; [done|]. split; [done|]. split; [done|]. intros _. by rewrite <- !app_assoc.
Qed.

Lemma metric_names : NoDup (map get_name list_all_metrics).
Proof. apply (bool_decide_unpack _). by vm_compute. Qed.

Lemma keys_apart r m m' : m <> m' -> recorder_key r m <> recorder_key r m'.
Proof. by destruct m, m'. Qed.

(** A reading without overflow. *)
Definition stat_ok (page_size : Z) (st : proc_stat) : Prop :=
  0 <= rss st < 2 ^ 63 /\ 0 <= rss st * page_size < 2 ^ 63 /\ 0 <= utime st /\ 0 <= stime st /\
  utime st + stime st < U64.

(** The seconds of processor time in a reading. *)
Definition cpu_seconds (clock_tick : Z) (st : proc_stat) : Z := (utime st + stime st) / clock_tick.

Lemma collect_gauges labels page_size clock_tick m st c (s : S) v : stat_ok page_size st -> 0 < clock_tick ->
  get_total_cpu m = Ok c -> exact (cpu_seconds clock_tick st) -> exact (v + cpu_seconds clock_tick st) -> exact v ->
  gauge_value (recorder_key (recorder_new labels) CpuTotal) s = f64_of_Z v ->
  exists s', collect (recorder_new labels) page_size clock_tick m (Some st) s = (Ok tt, s') /\
    gauge_value (recorder_key (recorder_new labels) CpuTotal) s' = f64_of_Z (v + cpu_seconds clock_tick st) /\
    gauge_value (recorder_key (recorder_new labels) ProcessVirtralMemSize) s' = f64_of_Z (vsize st) /\
    gauge_value (recorder_key (recorder_new labels) ProcessRssMemSize) s' = f64_of_Z (rss st * page_size) /\
    gauge_value (recorder_key (recorder_new labels) CpuCoreNum) s' = f64_of_cpus c.
Proof.
  intros (Hr & Hp & Hu & Hs & Ht) Hc Hm He Hev Hv Hval. set (r := recorder_new labels) in *.
  unfold collect. mstep. unfold as_i64, mul_i64. rewrite (proj2 (Z.ltb_lt (rss st) _)) by lia.
  rewrite (proj2 (Z.leb_le _ _)), (proj2 (Z.ltb_lt _ _)) by lia. cbn [andb]. mstep.
  rewrite add_width_fits by lia. rewrite (proj2 (Z.eqb_neq clock_tick 0)) by lia. mstep. rewrite Hm.
  eexists. split; [done|]. fold (cpu_seconds clock_tick st). cbn [cpu_total_value r recorder_new].
  rewrite f64_sub_exact, Z.sub_0_r by (rewrite ?Z.sub_0_r; done).
  split_and!; rewrite !gauge_set_law, ?gauge_increment_law, ?gauge_set_law;
    repeat (first [rewrite (decide_True (P := recorder_key r _ = recorder_key r _)) by done
                  |rewrite (decide_False (P := recorder_key r _ = recorder_key r _)) by by apply keys_apart]);
    try done.
  rewrite Hval. by apply f64_add_exact.
Qed.

Definition total_seconds (clock_tick : Z) (l : list proc_stat) : Z :=
  foldr (fun st t => cpu_seconds clock_tick st + t) 0 l.

Lemma total_nonneg page_size clock_tick l : 0 < clock_tick -> Forall (stat_ok page_size) l ->
  0 <= total_seconds clock_tick l.
Proof.
  intros Hc. induction 1 as [|st l (_ & _ & Hu & Hs & _) _ IH]; [done|]. cbn [total_seconds foldr].
  fold (total_seconds clock_tick l). assert (0 <= cpu_seconds clock_tick st) by (apply Z.div_pos; lia). lia.
Qed.

(** The gauge of processor seconds is not a total: the recorder adds the whole total of the
    process at each tick, because what it subtracts is the zero it was made with; after any ticks
    the gauge is the sum of all the totals read, not the last of them. *)
Theorem cpu_gauge_sums_totals labels page_size clock_tick m stats (s : S) v c :
  0 < clock_tick -> get_total_cpu m = Ok c -> Forall (stat_ok page_size) stats -> 0 <= v ->
  exact (v + total_seconds clock_tick stats) ->
  gauge_value (recorder_key (recorder_new labels) CpuTotal) s = f64_of_Z v ->
  exists s', auto_collect (recorder_new labels) page_size clock_tick m (map (fun st => Ticked (Some st)) stats) s
             = (Ok false, s') /\
    gauge_value (recorder_key (recorder_new labels) CpuTotal) s' = f64_of_Z (v + total_seconds clock_tick stats).
Proof.
  intros Hc Hm Hok. revert s v. induction Hok as [|st stats Hst Hok IH]; intros s v Hv He Hval; cbn [map auto_collect].
  - exists s. split; [done|]. cbn [total_seconds foldr]. by rewrite Z.add_0_r.
  - cbn [total_seconds foldr] in *. fold (total_seconds clock_tick stats) in *.
    pose proof (total_nonneg page_size clock_tick stats Hc Hok).
    assert (0 <= cpu_seconds clock_tick st) by (destruct Hst as (_ & _ & ? & ? & _); apply Z.div_pos; lia).
    unfold exact in He.
    destruct (collect_gauges labels page_size clock_tick m st c s v Hst Hc Hm) as (s1 & E & Hv1 & _);
      [unfold exact; lia..|done|]. rewrite run_bind, E.
    destruct (IH s1 (v + cpu_seconds clock_tick st)) as (s2 & E2 & Hv2); [lia|unfold exact; lia|done|].
    exists s2. split; [done|]. rewrite Hv2. f_equal. lia.
Qed.

(** On macOS too the whole time of the process is added at each collection; and the unit of that
    time is the timebase rounded down to a whole number of nanoseconds. *)
Lemma collect_macos_gauges r tb m i c (s : S) : tb_errno tb = 0 -> denom tb <> 0 ->
  pti_total_user i + pti_total_system i < U64 -> get_total_cpu m = Ok c ->
  exists s', collect_macos r tb m (Some i) s = (Ok tt, s') /\
    gauge_value (recorder_key r CpuTotal) s' =
      f64_add (gauge_value (recorder_key r CpuTotal) s)
        (f64_div (f64_mul (f64_of_Z (pti_total_user i + pti_total_system i)) (f64_of_Z (numer tb / denom tb)))
          (f64_of_Z 1000000000)) /\
    gauge_value (recorder_key r ProcessRssMemSize) s' = f64_of_Z (pti_resident_size i) /\
    gauge_value (recorder_key r ProcessVirtralMemSize) s' = f64_of_Z (pti_virtual_size i) /\
    gauge_value (recorder_key r CpuCoreNum) s' = f64_of_cpus c.
Proof.
  intros He Hd Ht Hm. unfold collect_macos, mach_clock_tick. rewrite He, (proj2 (Z.eqb_neq (denom tb) 0)) by done.
  cbn [Z.eqb negb]. mstep. rewrite add_width_fits by done. mstep. rewrite Hm. eexists. split; [done|].
  split_and!; rewrite !gauge_set_law, ?gauge_increment_law, ?gauge_set_law;
    repeat (first [rewrite (decide_True (P := recorder_key r _ = recorder_key r _)) by done
                  |rewrite (decide_False (P := recorder_key r _ = recorder_key r _)) by by apply keys_apart]);
    done.
Qed.

(** A timer records once, when it is dropped, unless it is discarded. *)
Lemma timer_records now later histogram :
  timer_drop later (timer_new now) histogram = histogram ++ [later - now] /\
  timer_discard later (timer_new now) histogram = histogram.
Proof. done. Qed.

End metrics.

(** ** Reference instances and witnesses *)

(** Integers, a quotient rounded down. *)
#[export] Instance integer_float : Float := {|
  f64 := Z;
  f64_of_Z := fun n => n;
  f64_of_cpus := fun c => match c with Whole n => n | Quotient q p => q / p end;
  f64_add := Z.add;
  f64_sub := Z.sub;
  f64_mul := Z.mul;
  f64_div := Z.div;
|}.

#[export] Instance integer_float_laws : FloatLaws integer_float.
Proof. done. Qed.

#[export] Instance map_gauges : Gauges (gmap gauge_key Z) := {|
  gauge_value := fun k s => default 0 (s !! k);
  gauge_set := fun k v s => <[k := v]> s;
  gauge_increment := fun k v s => <[k := default 0 (s !! k) + v]> s;
  gauge_decrement := fun k v s => <[k := default 0 (s !! k) - v]> s;
  update_value := fun g v => match g with Absolute x => x | Increment x => v + x | Decrement x => v - x end;
|}.

#[export] Instance map_gauges_laws : GaugesLaws (gmap gauge_key Z).
Proof.
  split; intros k k' v s; cbn [gauge_value gauge_set gauge_increment gauge_decrement map_gauges];
    (case_decide as E; [subst; by rewrite lookup_insert_eq|by rewrite lookup_insert_ne by congruence]).
Qed.

(** Three seconds, then four: the gauge says seven. *)
Lemma cpu_gauge_sums_totals_witness :
  let r := recorder_new (common_labels (str "pod-1")) in
  exists s', auto_collect (H := true) r 4096 100 demo_machine
      [Ticked (Some (MkStat 1 1 200 100)); Ticked (Some (MkStat 1 1 250 150))] (∅ : gmap gauge_key Z) = (Ok false, s') /\
    gauge_value (recorder_key r CpuTotal) s' = 7.
Proof.
  destruct (cpu_gauge_sums_totals (Pr := true) (common_labels (str "pod-1")) 4096 100 demo_machine
    [MkStat 1 1 200 100; MkStat 1 1 250 150] (∅ : gmap gauge_key Z) 0 (Whole 8)) as (s' & E & Ev).
  - done.
  - by vm_compute.
  - repeat constructor; by vm_compute.
  - done.
  - by vm_compute.
  - done.
  - exists s'. split; [exact E|]. rewrite Ev. by vm_compute.
Defined.
