(* ===== verification/Profiling.v ===== *)
(** * Profilers ([common/src/profiling/])

    The CPU profiler [Prof], whose flag is shared by the callers and the sampling threads, and the
    heap profiler, whose loop dumps the heap when the allocated memory rises over a threshold.
    The profilers themselves (pprof, jemalloc), the clock and the file system are inputs. *)
From S2P Require Import Prelude Text.

(** ** Definitions *)

(** [AtomicBool::compare_exchange]: [inr] the previous value on success, [inl] the actual one. *)
Definition compare_exchange (curr new actual : bool) : (bool + bool) * bool :=
  if Bool.eqb actual curr then (inr actual, new) else (inl actual, actual).

(** *** prof.rs *)

(** The flag, and the sampling threads that run. *)
Record Prof : Type := MkProf {
  starting : bool;
  samplers : nat;
}.

Definition prof_default : Prof := MkProf false 0.

(** [dir_ok]: whether the directory could be made; [spawned]: whether the thread was, which the
    code does not look at. *)
Definition prof_sample (dir_ok spawned : bool) : M Prof unit := fun p =>
  if dir_ok then (Ok tt, MkProf (starting p) (if spawned then S (samplers p) else samplers p))
  else (Err OtherIo, p).

Definition prof_start (dir_ok spawned : bool) : M Prof bool := fun p =>
  let '(started, flag) := compare_exchange false true (starting p) in
  let p := MkProf flag (samplers p) in
  match started with
  | inr rs =>
      if negb rs then
        match prof_sample dir_ok spawned p with
        | (Ok _, p) => (Ok true, p)
        | (Err _, p) => (Err OtherIo, p)
        | (Panic, p) => (Panic, p)
        | (OutOfFuel, p) => (OutOfFuel, p)
        end
      else (Ok false, p)
  | inl _ => (Ok false, p)
  end.

Definition prof_stop : M Prof bool := fun p =>
  let '(rs, flag) := compare_exchange true false (starting p) in
  let p := MkProf flag (samplers p) in
  match rs with
  | inr r => (Ok r, p)
  | inl _ => (Ok false, p)
  end.

(** The calls, and the turns of a sampling thread: it leaves when it finds the flag off, and
    otherwise samples for the duration it was started with. *)
Inductive prof_step : Prof -> Prof -> Prop :=
  | StepStart dir_ok spawned p : prof_step p (prof_start dir_ok spawned p).2
  | StepStop p : prof_step p (prof_stop p).2
  | StepSample n : prof_step (MkProf true (S n)) (MkProf true (S n))
  | StepExit n : prof_step (MkProf false (S n)) (MkProf false n).

(** *** head_profiler.rs *)

(** The threshold, an [f32] (0.7), is left out: it is only read for its product with the size of
    the memory, which the loop is given. *)
Record HeapProfileOpts : Type := MkHeapOpts {
  auto_profile : bool;
  tick : option Z;
  profile_dir : text;
}.

Definition heap_opts_default : HeapProfileOpts := MkHeapOpts false None (str "/tmp/sql_proxy_heap").

(** [opt_prof] is what reading jemalloc's [opt.prof] gives, [dir_ok] whether the directory could be
    made. *)
Definition new_with_opts (opt_prof : option bool) (dir_ok : bool) (opts : HeapProfileOpts)
  : outcome io_error HeapProfileOpts :=
  if default false opt_prof then Err OtherIo
  else if dir_ok then Ok opts else Err OtherIo.

Definition change_auto_profile_state (curr new : bool) (o : HeapProfileOpts) : bool * HeapProfileOpts :=
  let '(rs, flag) := compare_exchange curr new (auto_profile o) in
  let cas_rs := match rs with inr v => v | inl _ => false end in
  (Bool.eqb cas_rs curr, MkHeapOpts flag (tick o) (profile_dir o)).

(** Whether the stop signal is sent. *)
Definition stop_auto_profile (o : HeapProfileOpts) : bool * HeapProfileOpts :=
  change_auto_profile_state true false o.

(** The period of the loop that is spawned, if one is. *)
Definition start_auto_profile (o : HeapProfileOpts) : option Z * HeapProfileOpts :=
  let '(started, o) := change_auto_profile_state false true o in
  (if started then Some (default 3 (tick o)) else None, o).

(** The file name is the time and a suffix; [dumped] is what jemalloc answers. *)
Definition dump_profile (file_prefix : text) (dumped : bool) (o : HeapProfileOpts) : outcome io_error text :=
  let file_path := profile_dir o ++ str "/" ++ file_prefix ++ str ".sql_proxy" in
  if bool_decide (0 ∈ file_path) then Panic
  else if dumped then Ok (profile_dir o) else Err OtherIo.

(** What a turn of the loop finds: the stop signal, or a reading, [None] when the epoch cannot be
    advanced or the counter not be read. *)
Inductive heap_turn : Type :=
  | StopSignal
  | Reading (allocated : option Z).

(** The loop, from the allocation it last read; one entry per turn that finished tells whether it
    dumped.  [threshold_dump_heap] is the product of the memory and the threshold; a dump that
    fails panics. *)
Fixpoint heap_loop (threshold_dump_heap prev : Z) (dump_ok : bool) (turns : list heap_turn)
  : outcome io_error (list bool) :=
  match turns with
  | [] => Ok []
  | StopSignal :: _ => Ok []
  | Reading r :: turns =>
      let allocated := default prev r in
      let crossed := (threshold_dump_heap <? allocated) && (prev <=? threshold_dump_heap) in
      if crossed && negb dump_ok then Panic
      else
        ds ← heap_loop threshold_dump_heap allocated dump_ok turns;
        Ok (crossed :: ds)
  end.

(** [jeprof]'s exit, and whether its output could be written. *)
Definition heap_analysis (exe_ok dir_ok : bool) (run : option bool) (written : bool) : outcome io_error unit :=
  if negb exe_ok then Err OtherIo
  else if negb dir_ok then Err OtherIo
  else match run with
       | Some true => if written then Ok tt else Err OtherIo
       | Some false => Err OtherIo
       | None => Err OtherIo
       end.

(** ** Lemmas *)

Lemma start_fresh dir_ok spawned n : prof_start dir_ok spawned (MkProf false n)
  = if dir_ok then (Ok true, MkProf true (if spawned then S n else n)) else (Err OtherIo, MkProf true n).
Proof. by destruct dir_ok. Qed.

Lemma start_started dir_ok spawned n : prof_start dir_ok spawned (MkProf true n) = (Ok false, MkProf true n).
Proof. done. Qed.

Lemma stop_cases p : prof_stop p = (Ok (starting p), MkProf false (samplers p)).
Proof. by destruct p as [[] n]. Qed.

(** The readings that succeeded. *)
Fixpoint readings (turns : list heap_turn) : list Z :=
  match turns with
  | [] | StopSignal :: _ => []
  | Reading (Some a) :: turns => a :: readings turns
  | Reading None :: turns => readings turns
  end.

(** How often a sequence goes from at most [t] to more than [t]. *)
Fixpoint crossings (t prev : Z) (l : list Z) : nat :=
  match l with
  | [] => 0
  | a :: l => (if decide (prev <= t /\ t < a) then 1 else 0) + crossings t a l
  end.

Lemma heap_loop_counts t prev turns : exists ds, heap_loop t prev true turns = Ok ds /\
  length (filter (fun b => b = true) ds) = crossings t prev (readings turns).
Proof.
  revert prev. induction turns as [|[|[a|]] turns IH]; intros prev; cbn [heap_loop readings crossings];
    [by exists []|by exists []|..]; cbn [from_option id]; cbv zeta; rewrite andb_false_r.
  - destruct (IH a) as (ds & -> & E). ostep. eexists. split; [done|]. rewrite <- E, filter_cons.
    destruct (Z.ltb_spec t a), (Z.leb_spec prev t); cbn [andb]; repeat case_decide; try done; lia.
  - destruct (IH prev) as (ds & -> & E). ostep. eexists. split; [done|]. rewrite <- E, filter_cons.
    destruct (Z.ltb_spec t prev), (Z.leb_spec prev t); cbn [andb]; repeat case_decide; try done; lia.
Qed.

(** ** Properties *)

(** The CPU profiler: [start] and [stop] answer whether they changed the flag, and a thread
    is added exactly by a start that did and could make its directory; but a start that cannot
    leaves the flag set, so every later start is turned away until a stop. *)
Theorem prof_start_stop p :
  (forall dir_ok spawned, prof_start dir_ok spawned p =
    if starting p then (Ok false, p)
    else if dir_ok then (Ok true, MkProf true (if spawned then S (samplers p) else samplers p))
    else (Err OtherIo, MkProf true (samplers p))) /\
  prof_stop p = (Ok (starting p), MkProf false (samplers p)) /\
  (starting p = false -> forall dir_ok spawned,
    prof_start dir_ok spawned (prof_start false spawned p).2 = (Ok false, MkProf true (samplers p))).
Proof.
  destruct p as [[] n]; split_and!; try done; intros; apply start_fresh.
Qed.

(** The flag does not tell one session from the next: a stop only asks the sampling thread
    to leave after its sample, and a start before that adds another while the first stays; any
    number of them can sample at once. *)
Theorem samplers_pile_up n : exists p, rtc prof_step prof_default p /\ starting p = true /\ samplers p = S n.
Proof.
  exists (MkProf true (S n)). split; [|done]. induction n as [|n IH].
  - apply rtc_once. exact (StepStart true true prof_default).
  - eapply rtc_r; [eapply rtc_r; [exact IH|]|].
    + exact (StepStop (MkProf true (S n))).
    + exact (StepStart true true (MkProf false (S n))).
Qed.

(** The heap profiler's loop dumps once per crossing: over any turns, the number of dumps is
    the number of times the readings that succeeded rise from at most the threshold to above it;
    readings that fail change nothing. *)
Theorem heap_dumps_on_crossings t turns : exists ds, heap_loop t 0 true turns = Ok ds /\
  length (filter (fun b => b = true) ds) = crossings t 0 (readings turns).
Proof. apply heap_loop_counts. Qed.

(** Where the heap profiler's checks are the wrong way round: it refuses to run exactly when
    jemalloc's profiling is on, and a start when it is already started is taken for a success,
    which spawns another loop; a stop is right, it signals exactly when it is started. *)
Theorem heap_profiler_checks o :
  (forall opt_prof dir_ok, new_with_opts opt_prof dir_ok o = Ok o <-> opt_prof <> Some true /\ dir_ok = true) /\
  (start_auto_profile o).1 = Some (default 3 (tick o)) /\
  (start_auto_profile o).2 = MkHeapOpts true (tick o) (profile_dir o) /\
  stop_auto_profile o = (auto_profile o, MkHeapOpts false (tick o) (profile_dir o)).
Proof.
  destruct o as [[] t d]; split_and!; try done; intros [[]|] []; unfold new_with_opts; cbn [from_option id]; intuition congruence.
Qed.

(** A dump names its file in the profile directory; the directory is what it answers, and one with
    a NUL in its name panics. *)
Lemma dump_profile_cases prefix dumped o : 0 ∉ prefix ->
  dump_profile prefix dumped o
  = if bool_decide (0 ∈ profile_dir o) then Panic else if dumped then Ok (profile_dir o) else Err OtherIo.
Proof.
  intros Hp. unfold dump_profile. rewrite (bool_decide_ext _ (0 ∈ profile_dir o)); [done|].
  assert ((0 ∉ str "/") /\ (0 ∉ str ".sql_proxy")) as [H1 H2] by (split; by apply (bool_decide_unpack _)).
  rewrite !elem_of_app. tauto.
Qed.

(** ** Witnesses *)

Example sampled_turns : heap_loop 70 0 true [Reading (Some 50); Reading (Some 80); Reading None; Reading (Some 90); Reading (Some 10); Reading (Some 71); StopSignal]
  = Ok [false; true; false; false; false; true].
Proof. by vm_compute. Qed.
