(* ===== verification/Proto.v ===== *)
(** * Messages ([prost/common_proto.rs], [prost/control_plane.rs], [prost/topology.rs])

    The protobuf structs the proxy exchanges with the control plane, and the backend
    description it derives from them ([backend/mod.rs]). *)
From S2P Require Import Prelude.

(** ** common_proto *)

Record SubscribeId : Type := MkSubscribeId {
  sub_id : bytes; sub_namespace : bytes; sub_name : bytes }.

Record ClusterName : Type := MkClusterName { cn_namespace : bytes; cn_cluster_name : bytes }.

Record DBLocation : Type := MkDBLocation {
  loc_region : bytes; loc_available_zone : bytes; loc_namespace : bytes; loc_node_name : bytes }.

Record TenantKey : Type := MkTenantKey {
  tk_region : bytes; tk_available_zone : bytes; tk_namespace : bytes; tk_cluster_name : bytes }.

Record Endpoint : Type := MkEndpoint { ep_address : bytes; ep_port_name : bytes; ep_port : Z }.

Inductive ServiceStatus : Type := UnKnowStatus | NotReady | Ready | Offline.

(** [ServiceStatus as i32], and the prost accessor [status()], which maps an unknown number to
    the default. *)
Definition service_status_i32 (s : ServiceStatus) : Z :=
  match s with UnKnowStatus => 0 | NotReady => 1 | Ready => 2 | Offline => 3 end.

Definition service_status_of_i32 (n : Z) : ServiceStatus :=
  match n with 1 => NotReady | 2 => Ready | 3 => Offline | _ => UnKnowStatus end.

Definition as_str_name (s : ServiceStatus) : bytes :=
  str match s with
      | UnKnowStatus => "UnKnowStatus"
      | NotReady => "NotReady"
      | Ready => "Ready"
      | Offline => "Offline"
      end%string.

Definition from_str_name (v : bytes) : option ServiceStatus :=
  if decide (v = str "UnKnowStatus") then Some UnKnowStatus
  else if decide (v = str "NotReady") then Some NotReady
  else if decide (v = str "Ready") then Some Ready
  else if decide (v = str "Offline") then Some Offline
  else None.

Record ServiceExpose : Type := MkServiceExpose { exp_addr : bytes; exp_port : Z }.

Record ServiceSecrets : Type := MkServiceSecrets { sec_user : bytes; sec_password : bytes }.

Record DBService : Type := MkDBService {
  svc_location : option DBLocation; svc_cluster : bytes; svc_service : bytes; svc_status : Z;
  svc_expose : option ServiceExpose; svc_secrets : option ServiceSecrets;
  svc_endpoints : list Endpoint; svc_payload : gmap bytes bytes }.

(** [prost_types::Timestamp]: seconds and nanoseconds. *)
Record ServiceChangeEvent : Type := MkServiceChangeEvent {
  ev_service : option DBService; event_timestamp : option (Z * Z) }.

Inductive Payload : Type :=
  | ServiceList (l : list DBService)
  | ChangeEvent (e : ServiceChangeEvent)
  | NoData.

Record Response : Type := MkResponse {
  resp_status : Z; resp_message : bytes; resp_payload : option Payload }.

(** ** topology *)

Record SubscribeRequest : Type := MkSubscribeRequest {
  sreq_cluster_name : option ClusterName; sreq_subscribe_id : option SubscribeId; sreq_force : bool }.

Record GetTopologyRequest : Type := MkGetTopologyRequest {
  topo_locations : list DBLocation; topo_label : gmap bytes bytes }.

Record SubscribeNamespaceRequest : Type := MkSubscribeNamespaceRequest {
  req_db_location : option DBLocation; req_subscribe_id : option SubscribeId;
  req_force : bool; req_label : gmap bytes bytes }.

(** ** control_plane *)

Inductive PacketType : Type := Unspecified | ActiveUser.

Definition packet_type_i32 (t : PacketType) : Z :=
  match t with Unspecified => 0 | ActiveUser => 1 end.

Definition packet_type_as_str_name (t : PacketType) : bytes :=
  match t with Unspecified => str "PACKET_TYPE_UNSPECIFIED" | ActiveUser => str "PACKET_TYPE_ACTIVE_USER" end.

Definition packet_type_from_str_name (v : bytes) : option PacketType :=
  if decide (v = str "PACKET_TYPE_UNSPECIFIED") then Some Unspecified
  else if decide (v = str "PACKET_TYPE_ACTIVE_USER") then Some ActiveUser
  else None.

Record PacketHeader : Type := MkPacketHeader {
  packet_type : Z; package_count : Z; size_pre_package : Z; hdr_size : Z }.

Record UserCom : Type := MkUserCom {
  uc_cluster : option TenantKey; uc_user : bytes; uc_com : bytes; uc_com_ts : Z }.

Record ControlPlaneResponse : Type := MkControlPlaneResponse {
  cp_header : option PacketHeader; packet_data : option (list UserCom) }.

(** ** backend/mod.rs: the description of a backend and the life cycle of its connections *)

Record BackendInstance : Type := MkBackendInstance {
  be_location : DBLocation; be_addr : bytes; be_status : ServiceStatus; be_cluster : ClusterName }.

Definition default_location : DBLocation := MkDBLocation [] [] [] [].
Definition default_cluster : ClusterName := MkClusterName [] [].
Definition default_tenant : TenantKey := MkTenantKey [] [] [] [].
Definition default_instance : BackendInstance :=
  MkBackendInstance default_location [] UnKnowStatus default_cluster.

Inductive DbConnPhase : Type := PhaseNone | PhaseConnection | PhaseCommand.

Record DbUserConnLifeCycle : Type := MkLifeCycle {
  lc_db_user : option bytes; lc_conn_phase : option DbConnPhase }.

Definition default_life_cycle : DbUserConnLifeCycle := MkLifeCycle None None.

Definition life_cycle_is_none (l : DbUserConnLifeCycle) : bool :=
  match lc_db_user l, lc_conn_phase l with None, None => true | _, _ => false end.

Definition new_conn_life_cycle (u : bytes) (p : DbConnPhase) : DbUserConnLifeCycle :=
  MkLifeCycle (Some u) (Some p).

Definition conn_phase (l : DbUserConnLifeCycle) : option DbConnPhase := lc_conn_phase l.
Definition db_user (l : DbUserConnLifeCycle) : option bytes := lc_db_user l.

(** ** Decidability, and countability of the map keys *)

#[export] Instance ServiceStatus_eq_dec : EqDecision ServiceStatus.
Proof. solve_decision. Defined.
#[export] Instance DbConnPhase_eq_dec : EqDecision DbConnPhase.
Proof. solve_decision. Defined.
#[export] Instance ClusterName_eq_dec : EqDecision ClusterName.
Proof. solve_decision. Defined.
#[export] Instance DBLocation_eq_dec : EqDecision DBLocation.
Proof. solve_decision. Defined.
#[export] Instance TenantKey_eq_dec : EqDecision TenantKey.
Proof. solve_decision. Defined.
#[export] Instance BackendInstance_eq_dec : EqDecision BackendInstance.
Proof. solve_decision. Defined.
#[export] Instance DbUserConnLifeCycle_eq_dec : EqDecision DbUserConnLifeCycle.
Proof. solve_decision. Defined.

Lemma status_i32_inv s : service_status_of_i32 (service_status_i32 s) = s.
Proof. by destruct s. Qed.

#[export] Instance ServiceStatus_countable : Countable ServiceStatus.
Proof.
  apply (inj_countable' service_status_i32 service_status_of_i32). apply status_i32_inv.
Defined.

#[export] Instance ClusterName_countable : Countable ClusterName.
Proof.
  by apply (inj_countable' (fun c => (cn_namespace c, cn_cluster_name c))
                           (fun '(a, b) => MkClusterName a b)); intros [].
Defined.

#[export] Instance DBLocation_countable : Countable DBLocation.
Proof.
  by apply (inj_countable'
    (fun l => (loc_region l, loc_available_zone l, loc_namespace l, loc_node_name l))
    (fun '(a, b, c, d) => MkDBLocation a b c d)); intros [].
Defined.

#[export] Instance TenantKey_countable : Countable TenantKey.
Proof.
  by apply (inj_countable'
    (fun l => (tk_region l, tk_available_zone l, tk_namespace l, tk_cluster_name l))
    (fun '(a, b, c, d) => MkTenantKey a b c d)); intros [].
Defined.

#[export] Instance BackendInstance_countable : Countable BackendInstance.
Proof.
  by apply (inj_countable' (fun b => (be_location b, be_addr b, be_status b, be_cluster b))
                           (fun '(a, b, c, d) => MkBackendInstance a b c d)); intros [].
Defined.

Lemma from_str_name_roundtrip s : from_str_name (as_str_name s) = Some s.
Proof. by destruct s. Qed.

Lemma packet_type_name_roundtrip t : packet_type_from_str_name (packet_type_as_str_name t) = Some t.
Proof. by destruct t. Qed.
