(* ===== verification/TenantKey.v ===== *)
(** * Tenant keys ([backend/mod.rs])

    A client names its tenant in the user name, as a string that [encode_tenant_key] produces
    and [decode_tenant_key] parses: four length bytes in hex, then the four fields with their
    letters rotated by position. *)
From S2P Require Import Prelude External Utf8 Proto Reference.

(** ** Definitions *)

Definition test_tenant_key : TenantKey :=
  MkTenantKey (str "NONE") (str "NONE") (str "NONE") (str "NONE").

Definition is_ascii_lowercase (c : Z) : bool := (97 <=? c) && (c <=? 122).
Definition is_ascii_uppercase (c : Z) : bool := (65 <=? c) && (c <=? 90).
Definition is_ascii_alphabetic (c : Z) : bool := is_ascii_lowercase c || is_ascii_uppercase c.

Definition obfuscate_char (c : Z) (index : Z) : Z :=
  if is_ascii_alphabetic c then
    let shift := (index * 3 + 10) mod 26 in
    let base := if is_ascii_lowercase c then 97 else 65 in
    (c - base + 26 - shift) mod 26 + base
  else c.

Definition restore_char (c : Z) (index : Z) : Z :=
  if is_ascii_alphabetic c then
    let shift := (index * 3 + 10) mod 26 in
    let base := if is_ascii_lowercase c then 97 else 65 in
    (c - base + shift) mod 26 + base
  else c.

(** [.chars().enumerate().map(|(i, c)| f(c, i)).collect()] *)
Fixpoint map_indexed (f : Z -> Z -> Z) (i : Z) (cs : list Z) : list Z :=
  match cs with
  | [] => []
  | c :: cs => f c i :: map_indexed f (i + 1) cs
  end.

Definition obfuscate_string (s : bytes) : bytes := utf8_encode (map_indexed obfuscate_char 0 (chars s)).
Definition restore_string (s : bytes) : bytes := utf8_encode (map_indexed restore_char 0 (chars s)).

Section codec.
Context `{Hex} `{Profile}.

Definition encode_tenant_key (t : TenantKey) : bytes :=
  let encode_region := obfuscate_string (tk_region t) in
  let encode_az := obfuscate_string (tk_available_zone t) in
  let encode_s := obfuscate_string (tk_namespace t) in
  let encode_cluster_name := obfuscate_string (tk_cluster_name t) in
  let encode_len := [len encode_region mod U8; len encode_az mod U8;
                     len encode_s mod U8; len encode_cluster_name mod U8] in
  hex_encode encode_len ++ encode_region ++ encode_az ++ encode_s ++ encode_cluster_name.

(** [iter().sum::<u8>()] *)
Fixpoint sum_u8 {E} (acc : Z) (l : list Z) : outcome E Z :=
  match l with
  | [] => Ok acc
  | x :: l => acc' ← add_width U8 acc x; sum_u8 acc' l
  end.

Definition set_field (idx : nat) (field : bytes) (t : TenantKey) : TenantKey :=
  match idx, t with
  | 0%nat, MkTenantKey _ a n c => MkTenantKey field a n c
  | 1%nat, MkTenantKey r _ n c => MkTenantKey r field n c
  | 2%nat, MkTenantKey r a _ c => MkTenantKey r a field c
  | 3%nat, MkTenantKey r a n _ => MkTenantKey r a n field
  | _, _ => t
  end.

(** The [for_each] over the four lengths. *)
Fixpoint decode_fields (key : bytes) (all : list Z) (idx : nat) (ls : list Z) (t : TenantKey)
  : outcome io_error TenantKey :=
  match ls with
  | [] => Ok t
  | l :: ls =>
      before ← sum_u8 0 (take idx all);
      let start := 8 + before in
      let end_ := start + l in
      slice ← str_slice key start end_;
      decode_fields key all (S idx) ls (set_field idx (restore_string slice) t)
  end.

Definition decode_tenant_key (key : bytes) : outcome io_error TenantKey :=
  header ← str_slice key 0 8;
  key_len ← unwrap_option (hex_decode header);
  decode_fields key key_len 0 key_len default_tenant.

End codec.

(** ** Lemmas on the rotation *)

Lemma alphabetic_cases c : is_ascii_alphabetic c = true ->
  (is_ascii_lowercase c = true /\ 97 <= c <= 122) \/ (is_ascii_lowercase c = false /\ 65 <= c <= 90).
Proof.
  unfold is_ascii_alphabetic, is_ascii_uppercase. destruct (is_ascii_lowercase c) eqn:E; simpl.
  - intros _. left. unfold is_ascii_lowercase in E. bounds. lia.
  - intros H. right. bounds. lia.
Qed.

Lemma rotate_back a s : 0 <= a < 26 -> 0 <= s < 26 -> ((a + 26 - s) mod 26 + s) mod 26 = a.
Proof.
  intros. rewrite Z.add_mod_idemp_l by lia. replace (a + 26 - s + s) with (a + 1 * 26) by lia.
  by rewrite Z.mod_add, Z.mod_small by lia.
Qed.

Lemma obfuscate_char_class c i :
  is_ascii_alphabetic (obfuscate_char c i) = is_ascii_alphabetic c /\
  is_ascii_lowercase (obfuscate_char c i) = is_ascii_lowercase c.
Proof.
  unfold obfuscate_char. destruct (is_ascii_alphabetic c) eqn:Ea; [|done].
  pose proof (Z.mod_pos_bound (i * 3 + 10) 26 ltac:(lia)) as Hs.
  set (k := (i * 3 + 10) mod 26) in *.
  destruct (alphabetic_cases c Ea) as [[-> Hc]|[-> Hc]];
    match goal with |- context [(?x) mod 26] => pose proof (Z.mod_pos_bound x 26 ltac:(lia)) end;
    unfold is_ascii_alphabetic, is_ascii_lowercase, is_ascii_uppercase; by zbool.
Qed.

Lemma restore_obfuscate_char c i : restore_char (obfuscate_char c i) i = c.
Proof.
  unfold restore_char. destruct (obfuscate_char_class c i) as [-> ->].
  unfold obfuscate_char. destruct (is_ascii_alphabetic c) eqn:Ea; [|done].
  pose proof (Z.mod_pos_bound (i * 3 + 10) 26 ltac:(lia)) as Hs.
  set (k := (i * 3 + 10) mod 26) in *.
  destruct (alphabetic_cases c Ea) as [[-> Hc]|[-> Hc]].
  - rewrite Z.add_simpl_r, rotate_back by lia. lia.
  - rewrite Z.add_simpl_r, rotate_back by lia. lia.
Qed.

Lemma obfuscate_char_valid c i : is_char c -> is_char (obfuscate_char c i) /\
  len (encode_char (obfuscate_char c i)) = len (encode_char c).
Proof.
  intros Hc. destruct (obfuscate_char_class c i) as [Ha _].
  destruct (is_ascii_alphabetic c) eqn:E.
  - apply alphabetic_cases in E. apply alphabetic_cases in Ha.
    split; [left; lia|]. unfold encode_char. zbool. done.
  - unfold obfuscate_char. by rewrite E.
Qed.

Lemma map_indexed_restore i cs : map_indexed restore_char i (map_indexed obfuscate_char i cs) = cs.
Proof. revert i. induction cs; intros; simpl; [done|]. by rewrite restore_obfuscate_char, IHcs. Qed.

Lemma map_indexed_obfuscate i cs : Forall is_char cs ->
  Forall is_char (map_indexed obfuscate_char i cs) /\
  len (utf8_encode (map_indexed obfuscate_char i cs)) = len (utf8_encode cs).
Proof.
  intros H. revert i. induction H as [|c cs Hc Hcs IH]; intros i; [done|].
  destruct (IH (i + 1)) as [H1 H2]. destruct (obfuscate_char_valid c i Hc) as [H3 H4]. simpl.
  split; [by constructor|]. rewrite !utf8_encode_cons, !len_app. lia.
Qed.

(** Obfuscation keeps a string a string, of the same length. *)
Lemma obfuscate_string_str s : is_str s ->
  is_str (obfuscate_string s) /\ len (obfuscate_string s) = len s.
Proof.
  intros [E H]%is_str_chars. unfold obfuscate_string.
  destruct (map_indexed_obfuscate 0 (chars s) H) as [H1 H2].
  split; [by apply is_str_encode|]. by rewrite H2, E.
Qed.

Lemma restore_obfuscate_string s : is_str s -> restore_string (obfuscate_string s) = s.
Proof.
  intros [E H]%is_str_chars. unfold restore_string, obfuscate_string.
  destruct (map_indexed_obfuscate 0 (chars s) H) as [H1 _].
  by rewrite chars_encode, map_indexed_restore, E.
Qed.

(** ** Correctness of the codec *)

Section roundtrip.
Context {X : Hex} {XL : HexLaws X} {P : Profile}.

Definition fields (t : TenantKey) : list bytes :=
  [tk_region t; tk_available_zone t; tk_namespace t; tk_cluster_name t].

(** Every field is a string whose length fits its length byte. *)
Definition key_fits (t : TenantKey) : Prop :=
  Forall is_str (fields t) /\ Forall (fun f => len f < U8) (fields t).

(** The offset of the last field. *)
Definition last_offset (t : TenantKey) : Z :=
  len (tk_region t) + len (tk_available_zone t) + len (tk_namespace t).

(** Four slices of which each is one field. *)
Definition slices (hd : bytes) (fs : list bytes) : bytes :=
  hd ++ concat (map obfuscate_string fs).

Lemma slices_str fs : Forall is_str fs -> is_str (concat (map obfuscate_string fs)).
Proof.
  induction 1 as [|f fs Hf Hfs IH]; simpl; [by exists []|].
  apply is_str_app; [|done]. by apply obfuscate_string_str.
Qed.

Lemma slice_field {E} hd pre f post start end_ : Forall is_str (pre ++ f :: post) ->
  start = len hd + len (concat pre) -> end_ = start + len f ->
  str_slice (E := E) (slices hd (pre ++ f :: post)) start end_ = Ok (obfuscate_string f).
Proof.
  intros Hs -> ->. apply Forall_app in Hs as [Hpre [Hf Hpost]%Forall_cons].
  destruct (obfuscate_string_str f Hf) as [Ho <-].
  assert (len (concat pre) = len (concat (map obfuscate_string pre))) as ->.
  { clear -Hpre. induction Hpre as [|g gs Hg Hgs IH]; simpl; [done|].
    rewrite !len_app, IH. by rewrite (proj2 (obfuscate_string_str g Hg)). }
  unfold slices. rewrite map_app, concat_app, app_assoc. simpl.
  rewrite <- len_app. apply str_slice_app; [done|]. by apply slices_str.
Qed.

Lemma encode_slices t : Forall is_str (fields t) ->
  encode_tenant_key t = slices (hex_encode (map (fun f => len f mod U8) (fields t))) (fields t).
Proof.
  destruct t as [r a n c]. intros H. unfold fields in *. cbn [tk_region tk_available_zone tk_namespace tk_cluster_name] in *.
  rewrite !Forall_cons in H. destruct H as (Hr & Ha & Hn & Hc & _).
  unfold encode_tenant_key, slices. cbn [tk_region tk_available_zone tk_namespace tk_cluster_name map concat].
  rewrite app_nil_r.
  by rewrite (proj2 (obfuscate_string_str r Hr)), (proj2 (obfuscate_string_str a Ha)),
    (proj2 (obfuscate_string_str n Hn)), (proj2 (obfuscate_string_str c Hc)).
Qed.

(** Decoding an encoded key comes down to the loop over the true lengths. *)
Lemma decode_encode_fields t : key_fits t -> exists hd, len hd = 8 /\
  decode_tenant_key (encode_tenant_key t)
  = decode_fields (slices hd (fields t)) (map len (fields t)) 0 (map len (fields t)) default_tenant.
Proof.
  intros [Hs Hl]. rewrite encode_slices by done.
  assert (map (fun f => len f mod U8) (fields t) = map len (fields t)) as ->.
  { clear -Hl. induction Hl as [|f fs Hf Hfs IH]; simpl; [done|].
    rewrite IH, Z.mod_small; [done|]. pose proof (len_nonneg f). lia. }
  assert (is_bytes (map len (fields t))) as Hb.
  { clear -Hl. induction Hl as [|f fs Hf Hfs IH]; simpl; constructor; [|done].
    pose proof (len_nonneg f). unfold is_u8, U8 in *. lia. }
  exists (hex_encode (map len (fields t))). split; [by rewrite hex_encode_len|].
  pose proof (str_slice_app (E := io_error) [] (hex_encode (map len (fields t))) _
    (is_str_ascii _ (hex_encode_ascii _ Hb)) (slices_str _ Hs)) as E.
  rewrite hex_encode_len in E. change (len [] + 2 * len (map len (fields t))) with 8 in E.
  change (len []) with 0 in E. rewrite app_nil_l in E.
  unfold decode_tenant_key. fold (slices (hex_encode (map len (fields t))) (fields t)) in E.
  rewrite E. ostep. by rewrite hex_decode_encode.
Qed.

Lemma len_concat_cons (f : bytes) fs : len (concat (f :: fs)) = len f + len (concat fs).
Proof. simpl. by rewrite len_app. Qed.

(** The [u8] sum of the lengths before a field. *)
Lemma sum_u8_ok {E} acc (fs : list bytes) : acc + len (concat fs) < U8 ->
  sum_u8 (E := E) acc (map len fs) = Ok (acc + len (concat fs)).
Proof.
  revert acc. induction fs as [|f fs IH]; intros acc H; [cbn; by rewrite Z.add_0_r|].
  rewrite len_concat_cons in *. pose proof (len_nonneg (concat fs)).
  cbn [map sum_u8]. rewrite add_width_fits by lia. ostep. rewrite IH by lia. f_equal. lia.
Qed.

Lemma sum_u8_overflow {E} acc (fs : list bytes) : overflow_checks = true ->
  acc < U8 -> U8 <= acc + len (concat fs) -> sum_u8 (E := E) acc (map len fs) = Panic.
Proof.
  intros Hch. revert acc. induction fs as [|f fs IH]; intros acc Ha H; [change (len (concat (@nil bytes))) with 0 in H; lia|].
  rewrite len_concat_cons in *. cbn [map sum_u8].
  destruct (Z_lt_le_dec (acc + len f) U8).
  - rewrite add_width_fits by lia. ostep. apply IH; lia.
  - by rewrite add_width_overflow by (done || lia).
Qed.

Lemma take_lengths (pre post : list bytes) : take (length pre) (map len (pre ++ post)) = map len pre.
Proof. by rewrite map_app, <- (length_map len pre), take_app_length. Qed.

(** One round of the loop, and the round at which the offset overflows. *)
Lemma decode_fields_step hd fs pre f post t : fs = pre ++ f :: post -> Forall is_str fs ->
  len hd = 8 -> len (concat pre) < U8 ->
  decode_fields (slices hd fs) (map len fs) (length pre) (len f :: map len post) t
  = decode_fields (slices hd fs) (map len fs) (S (length pre)) (map len post) (set_field (length pre) f t).
Proof.
  intros -> Hs Hh Ho. cbn [decode_fields]. rewrite take_lengths, sum_u8_ok by lia. ostep.
  rewrite slice_field by (done || lia). ostep.
  rewrite restore_obfuscate_string; [done|].
  by apply Forall_app in Hs as [_ [Hf _]%Forall_cons].
Qed.

Lemma decode_fields_panic key (fs pre post : list bytes) l t : fs = pre ++ post ->
  overflow_checks = true -> U8 <= len (concat pre) ->
  decode_fields key (map len fs) (length pre) l t = match l with [] => Ok t | _ => Panic end.
Proof.
  intros -> Hch Ho. destruct l; cbn [decode_fields]; [done|].
  rewrite take_lengths, sum_u8_overflow by (done || unfold U8; lia). done.
Qed.

Ltac tenant_fields t :=
  destruct t as [r a n c]; unfold last_offset, fields in *;
  cbn [tk_region tk_available_zone tk_namespace tk_cluster_name] in *.

Ltac field_step hd pre f post :=
  etransitivity;
  [apply (decode_fields_step hd _ pre f post); (done || (cbn [concat]; unfold U8 in *; len_lia))|].

Lemma decode_encode_key t : key_fits t -> last_offset t < U8 ->
  decode_tenant_key (encode_tenant_key t) = Ok t.
Proof.
  intros Hk Ho. destruct (decode_encode_fields t Hk) as (hd & Hhd & ->).
  destruct Hk as [Hs Hl]. tenant_fields t.
  field_step hd (@nil bytes) r [a; n; c].
  field_step hd [r] a [n; c].
  field_step hd [r; a] n [c].
  field_step hd [r; a; n] c (@nil bytes). done.
Qed.

Lemma encode_is_str t : key_fits t -> is_str (encode_tenant_key t).
Proof.
  intros [Hs Hl]. rewrite encode_slices by done. apply is_str_app; [|by apply slices_str].
  apply is_str_ascii, hex_encode_ascii, Forall_map, Forall_true. intros f. by apply Z.mod_pos_bound.
Qed.

(** (C9) [decode_tenant_key] inverts [encode_tenant_key]: a key whose fields fit their length
    bytes and whose last field starts at an offset below 256 is restored unchanged, in both
    build profiles. *)
Theorem tenant_key_roundtrip t : key_fits t -> last_offset t < U8 ->
  decode_tenant_key (encode_tenant_key t) = Ok t.
Proof. apply decode_encode_key. Qed.

(** (C40) The offsets are summed in [u8]: with overflow checks, decoding panics on every key
    whose last field would start at offset 256 or above, although each length fits its byte. *)
Theorem tenant_key_overflow t : overflow_checks = true -> key_fits t -> U8 <= last_offset t ->
  decode_tenant_key (encode_tenant_key t) = Panic.
Proof.
  intros Hch Hk Ho. destruct (decode_encode_fields t Hk) as (hd & Hhd & ->).
  destruct Hk as [Hs Hl]. tenant_fields t.
  rewrite !Forall_cons in Hl. destruct Hl as (Lr & La & Ln & Lc & _).
  field_step hd (@nil bytes) r [a; n; c].
  field_step hd [r] a [n; c].
  destruct (Z_lt_le_dec (len r + len a) U8) as [Hlt|Hge].
  - field_step hd [r; a] n [c].
    by apply (decode_fields_panic _ _ [r; a; n] [c]); [| |cbn; len_lia].
  - by apply (decode_fields_panic _ _ [r; a] [n; c]); [| |cbn; len_lia].
Qed.

End roundtrip.

(** ** Witnesses and tests *)

Definition sample_key : TenantKey :=
  MkTenantKey (str "us-east-1") (str "use1-az2") (str "serverless") (str "Tenant-7").

Lemma tenant_key_roundtrip_witness :
  @decode_tenant_key _ false (encode_tenant_key sample_key) = Ok sample_key.
Proof.
  apply (@tenant_key_roundtrip hex_ref _ false); [|by vm_compute].
  split; repeat constructor; by eexists.
Defined.

Definition long_key : TenantKey :=
  MkTenantKey (replicate 100 97) (replicate 100 98) (replicate 100 99) [100].

Lemma tenant_key_overflow_witness :
  @decode_tenant_key _ true (encode_tenant_key long_key) = Panic.
Proof.
  apply (@tenant_key_overflow hex_ref _ true); [done| |by vm_compute].
  split; repeat constructor; by eexists.
Defined.

(** Without overflow checks the wrapped offset selects the wrong bytes. *)
Example long_key_release :
  exists c, @decode_tenant_key _ false (encode_tenant_key long_key)
            = Ok (MkTenantKey (tk_region long_key) (tk_available_zone long_key)
                              (tk_namespace long_key) c) /\ c <> tk_cluster_name long_key.
Proof. eexists. split; [vm_compute; reflexivity|]. by vm_compute. Qed.
