(* ===== verification/ErrorCodes.v ===== *)
(** * Server error codes ([protocol/mysql/error_codes.rs])

    [ErrorKind] with its discriminants, [From<u16>] and [sqlstate].  The three tables of the
    source are written in pieces that follow its lines; the tables are transcribed row by
    row. *)
From S2P Require Import Prelude.

(** ** Definitions *)

(** The first of two arms that applies. *)
Definition or_else {A} (a b : option A) : option A :=
  match a with Some _ => a | None => b end.
#[local] Infix "<|>" := or_else (at level 50, left associativity).

Inductive ErrorKind : Type :=
  | ER_HASHCHK
  | ER_NISAMCHK
  | ER_NO
  | ER_YES
  | ER_CANT_CREATE_FILE
  | ER_CANT_CREATE_TABLE
  | ER_CANT_CREATE_DB
  | ER_DB_CREATE_EXISTS
  | ER_DB_DROP_EXISTS
  | ER_DB_DROP_DELETE
  | ER_DB_DROP_RMDIR
  | ER_CANT_DELETE_FILE
  | ER_CANT_FIND_SYSTEM_REC
  | ER_CANT_GET_STAT
  | ER_CANT_GET_WD
  | ER_CANT_LOCK
  | ER_CANT_OPEN_FILE
  | ER_FILE_NOT_FOUND
  | ER_CANT_READ_DIR
  | ER_CANT_SET_WD
  | ER_CHECKREAD
  | ER_DISK_FULL
  | ER_DUP_KEY
  | ER_ERROR_ON_CLOSE
  | ER_ERROR_ON_READ
  | ER_ERROR_ON_RENAME
  | ER_ERROR_ON_WRITE
  | ER_FILE_USED
  | ER_FILSORT_ABORT
  | ER_FORM_NOT_FOUND
  | ER_GET_ERRN
  | ER_ILLEGAL_HA
  | ER_KEY_NOT_FOUND
  | ER_NOT_FORM_FILE
  | ER_NOT_KEYFILE
  | ER_OLD_KEYFILE
  | ER_OPEN_AS_READONLY
  | ER_OUTOFMEMORY
  | ER_OUT_OF_SORTMEMORY
  | ER_UNEXPECTED_EOF
  | ER_CON_COUNT_ERROR
  | ER_OUT_OF_RESOURCES
  | ER_BAD_HOST_ERROR
  | ER_HANDSHAKE_ERROR
  | ER_DBACCESS_DENIED_ERROR
  | ER_ACCESS_DENIED_ERROR
  | ER_NO_DB_ERROR
  | ER_UNKNOWN_COM_ERROR
  | ER_BAD_NULL_ERROR
  | ER_BAD_DB_ERROR
  | ER_TABLE_EXISTS_ERROR
  | ER_BAD_TABLE_ERROR
  | ER_NON_UNIQ_ERROR
  | ER_SERVER_SHUTDOWN
  | ER_BAD_FIELD_ERROR
  | ER_WRONG_FIELD_WITH_GROUP
  | ER_WRONG_GROUP_FIELD
  | ER_WRONG_SUM_SELECT
  | ER_WRONG_VALUE_COUNT
  | ER_TOO_LONG_IDENT
  | ER_DUP_FIELDNAME
  | ER_DUP_KEYNAME
  | ER_DUP_ENTRY
  | ER_WRONG_FIELD_SPEC
  | ER_PARSE_ERROR
  | ER_EMPTY_QUERY
  | ER_NONUNIQ_TABLE
  | ER_INVALID_DEFAULT
  | ER_MULTIPLE_PRI_KEY
  | ER_TOO_MANY_KEYS
  | ER_TOO_MANY_KEY_PARTS
  | ER_TOO_LONG_KEY
  | ER_KEY_COLUMN_DOES_NOT_EXITS
  | ER_BLOB_USED_AS_KEY
  | ER_TOO_BIG_FIELDLENGTH
  | ER_WRONG_AUTO_KEY
  | ER_READY
  | ER_NORMAL_SHUTDOWN
  | ER_GOT_SIGNAL
  | ER_SHUTDOWN_COMPLETE
  | ER_FORCING_CLOSE
  | ER_IPSOCK_ERROR
  | ER_NO_SUCH_INDEX
  | ER_WRONG_FIELD_TERMINATORS
  | ER_BLOBS_AND_NO_TERMINATED
  | ER_TEXTFILE_NOT_READABLE
  | ER_FILE_EXISTS_ERROR
  | ER_LOAD_INF
  | ER_ALTER_INF
  | ER_WRONG_SUB_KEY
  | ER_CANT_REMOVE_ALL_FIELDS
  | ER_CANT_DROP_FIELD_OR_KEY
  | ER_INSERT_INF
  | ER_UPDATE_TABLE_USED
  | ER_NO_SUCH_THREAD
  | ER_KILL_DENIED_ERROR
  | ER_NO_TABLES_USED
  | ER_TOO_BIG_SET
  | ER_NO_UNIQUE_LOGFILE
  | ER_TABLE_NOT_LOCKED_FOR_WRITE
  | ER_TABLE_NOT_LOCKED
  | ER_BLOB_CANT_HAVE_DEFAULT
  | ER_WRONG_DB_NAME
  | ER_WRONG_TABLE_NAME
  | ER_TOO_BIG_SELECT
  | ER_UNKNOWN_ERROR
  | ER_UNKNOWN_PROCEDURE
  | ER_WRONG_PARAMCOUNT_TO_PROCEDURE
  | ER_WRONG_PARAMETERS_TO_PROCEDURE
  | ER_UNKNOWN_TABLE
  | ER_FIELD_SPECIFIED_TWICE
  | ER_INVALID_GROUP_FUNC_USE
  | ER_UNSUPPORTED_EXTENSION
  | ER_TABLE_MUST_HAVE_COLUMNS
  | ER_RECORD_FILE_FULL
  | ER_UNKNOWN_CHARACTER_SET
  | ER_TOO_MANY_TABLES
  | ER_TOO_MANY_FIELDS
  | ER_TOO_BIG_ROWSIZE
  | ER_STACK_OVERRUN
  | ER_WRONG_OUTER_JOIN
  | ER_NULL_COLUMN_IN_INDEX
  | ER_CANT_FIND_UDF
  | ER_CANT_INITIALIZE_UDF
  | ER_UDF_NO_PATHS
  | ER_UDF_EXISTS
  | ER_CANT_OPEN_LIBRARY
  | ER_CANT_FIND_DL_ENTRY
  | ER_FUNCTION_NOT_DEFINED
  | ER_HOST_IS_BLOCKED
  | ER_HOST_NOT_PRIVILEGED
  | ER_PASSWORD_ANONYMOUS_USER
  | ER_PASSWORD_NOT_ALLOWED
  | ER_PASSWORD_NO_MATCH
  | ER_UPDATE_INF
  | ER_CANT_CREATE_THREAD
  | ER_WRONG_VALUE_COUNT_ON_ROW
  | ER_CANT_REOPEN_TABLE
  | ER_INVALID_USE_OF_NULL
  | ER_REGEXP_ERROR
  | ER_MIX_OF_GROUP_FUNC_AND_FIELDS
  | ER_NONEXISTING_GRANT
  | ER_TABLEACCESS_DENIED_ERROR
  | ER_COLUMNACCESS_DENIED_ERROR
  | ER_ILLEGAL_GRANT_FOR_TABLE
  | ER_GRANT_WRONG_HOST_OR_USER
  | ER_NO_SUCH_TABLE
  | ER_NONEXISTING_TABLE_GRANT
  | ER_NOT_ALLOWED_COMMAND
  | ER_SYNTAX_ERROR
  | ER_DELAYED_CANT_CHANGE_LOCK
  | ER_TOO_MANY_DELAYED_THREADS
  | ER_ABORTING_CONNECTION
  | ER_NET_PACKET_TOO_LARGE
  | ER_NET_READ_ERROR_FROM_PIPE
  | ER_NET_FCNTL_ERROR
  | ER_NET_PACKETS_OUT_OF_ORDER
  | ER_NET_UNCOMPRESS_ERROR
  | ER_NET_READ_ERROR
  | ER_NET_READ_INTERRUPTED
  | ER_NET_ERROR_ON_WRITE
  | ER_NET_WRITE_INTERRUPTED
  | ER_TOO_LONG_STRING
  | ER_TABLE_CANT_HANDLE_BLOB
  | ER_TABLE_CANT_HANDLE_AUTO_INCREMENT
  | ER_DELAYED_INSERT_TABLE_LOCKED
  | ER_WRONG_COLUMN_NAME
  | ER_WRONG_KEY_COLUMN
  | ER_WRONG_MRG_TABLE
  | ER_DUP_UNIQUE
  | ER_BLOB_KEY_WITHOUT_LENGTH
  | ER_PRIMARY_CANT_HAVE_NULL
  | ER_TOO_MANY_ROWS
  | ER_REQUIRES_PRIMARY_KEY
  | ER_NO_RAID_COMPILED
  | ER_UPDATE_WITHOUT_KEY_IN_SAFE_MODE
  | ER_KEY_DOES_NOT_EXITS
  | ER_CHECK_NO_SUCH_TABLE
  | ER_CHECK_NOT_IMPLEMENTED
  | ER_CANT_DO_THIS_DURING_AN_TRANSACTION
  | ER_ERROR_DURING_COMMIT
  | ER_ERROR_DURING_ROLLBACK
  | ER_ERROR_DURING_FLUSH_LOGS
  | ER_ERROR_DURING_CHECKPOINT
  | ER_NEW_ABORTING_CONNECTION
  | ER_DUMP_NOT_IMPLEMENTED
  | ER_FLUSH_MASTER_BINLOG_CLOSED
  | ER_INDEX_REBUILD
  | ER_MASTER
  | ER_MASTER_NET_READ
  | ER_MASTER_NET_WRITE
  | ER_FT_MATCHING_KEY_NOT_FOUND
  | ER_LOCK_OR_ACTIVE_TRANSACTION
  | ER_UNKNOWN_SYSTEM_VARIABLE
  | ER_CRASHED_ON_USAGE
  | ER_CRASHED_ON_REPAIR
  | ER_WARNING_NOT_COMPLETE_ROLLBACK
  | ER_TRANS_CACHE_FULL
  | ER_SLAVE_MUST_STOP
  | ER_SLAVE_NOT_RUNNING
  | ER_BAD_SLAVE
  | ER_MASTER_INF
  | ER_SLAVE_THREAD
  | ER_TOO_MANY_USER_CONNECTIONS
  | ER_SET_CONSTANTS_ONLY
  | ER_LOCK_WAIT_TIMEOUT
  | ER_LOCK_TABLE_FULL
  | ER_READ_ONLY_TRANSACTION
  | ER_DROP_DB_WITH_READ_LOCK
  | ER_CREATE_DB_WITH_READ_LOCK
  | ER_WRONG_ARGUMENTS
  | ER_NO_PERMISSION_TO_CREATE_USER
  | ER_UNION_TABLES_IN_DIFFERENT_DIR
  | ER_LOCK_DEADLOCK
  | ER_TABLE_CANT_HANDLE_FT
  | ER_CANNOT_ADD_FOREIGN
  | ER_NO_REFERENCED_ROW
  | ER_ROW_IS_REFERENCED
  | ER_CONNECT_TO_MASTER
  | ER_QUERY_ON_MASTER
  | ER_ERROR_WHEN_EXECUTING_COMMAND
  | ER_WRONG_USAGE
  | ER_WRONG_NUMBER_OF_COLUMNS_IN_SELECT
  | ER_CANT_UPDATE_WITH_READLOCK
  | ER_MIXING_NOT_ALLOWED
  | ER_DUP_ARGUMENT
  | ER_USER_LIMIT_REACHED
  | ER_SPECIFIC_ACCESS_DENIED_ERROR
  | ER_LOCAL_VARIABLE
  | ER_GLOBAL_VARIABLE
  | ER_NO_DEFAULT
  | ER_WRONG_VALUE_FOR_VAR
  | ER_WRONG_TYPE_FOR_VAR
  | ER_VAR_CANT_BE_READ
  | ER_CANT_USE_OPTION_HERE
  | ER_NOT_SUPPORTED_YET
  | ER_MASTER_FATAL_ERROR_READING_BINLOG
  | ER_SLAVE_IGNORED_TABLE
  | ER_INCORRECT_GLOBAL_LOCAL_VAR
  | ER_WRONG_FK_DEF
  | ER_KEY_REF_DO_NOT_MATCH_TABLE_REF
  | ER_OPERAND_COLUMNS
  | ER_SUBQUERY_NO_1_ROW
  | ER_UNKNOWN_STMT_HANDLER
  | ER_CORRUPT_HELP_DB
  | ER_CYCLIC_REFERENCE
  | ER_AUTO_CONVERT
  | ER_ILLEGAL_REFERENCE
  | ER_DERIVED_MUST_HAVE_ALIAS
  | ER_SELECT_REDUCED
  | ER_TABLENAME_NOT_ALLOWED_HERE
  | ER_NOT_SUPPORTED_AUTH_MODE
  | ER_SPATIAL_CANT_HAVE_NULL
  | ER_COLLATION_CHARSET_MISMATCH
  | ER_SLAVE_WAS_RUNNING
  | ER_SLAVE_WAS_NOT_RUNNING
  | ER_TOO_BIG_FOR_UNCOMPRESS
  | ER_ZLIB_Z_MEM_ERROR
  | ER_ZLIB_Z_BUF_ERROR
  | ER_ZLIB_Z_DATA_ERROR
  | ER_CUT_VALUE_GROUP_CONCAT
  | ER_WARN_TOO_FEW_RECORDS
  | ER_WARN_TOO_MANY_RECORDS
  | ER_WARN_NULL_TO_NOTNULL
  | ER_WARN_DATA_OUT_OF_RANGE
  | WARN_DATA_TRUNCATED
  | ER_WARN_USING_OTHER_HANDLER
  | ER_CANT_AGGREGATE_2COLLATIONS
  | ER_DROP_USER
  | ER_REVOKE_GRANTS
  | ER_CANT_AGGREGATE_3COLLATIONS
  | ER_CANT_AGGREGATE_NCOLLATIONS
  | ER_VARIABLE_IS_NOT_STRUCT
  | ER_UNKNOWN_COLLATION
  | ER_SLAVE_IGNORED_SSL_PARAMS
  | ER_SERVER_IS_IN_SECURE_AUTH_MODE
  | ER_WARN_FIELD_RESOLVED
  | ER_BAD_SLAVE_UNTIL_COND
  | ER_MISSING_SKIP_SLAVE
  | ER_UNTIL_COND_IGNORED
  | ER_WRONG_NAME_FOR_INDEX
  | ER_WRONG_NAME_FOR_CATALOG
  | ER_WARN_QC_RESIZE
  | ER_BAD_FT_COLUMN
  | ER_UNKNOWN_KEY_CACHE
  | ER_WARN_HOSTNAME_WONT_WORK
  | ER_UNKNOWN_STORAGE_ENGINE
  | ER_WARN_DEPRECATED_SYNTAX
  | ER_NON_UPDATABLE_TABLE
  | ER_FEATURE_DISABLED
  | ER_OPTION_PREVENTS_STATEMENT
  | ER_DUPLICATED_VALUE_IN_TYPE
  | ER_TRUNCATED_WRONG_VALUE
  | ER_TOO_MUCH_AUTO_TIMESTAMP_COLS
  | ER_INVALID_ON_UPDATE
  | ER_UNSUPPORTED_PS
  | ER_GET_ERRMSG
  | ER_GET_TEMPORARY_ERRMSG
  | ER_UNKNOWN_TIME_ZONE
  | ER_WARN_INVALID_TIMESTAMP
  | ER_INVALID_CHARACTER_STRING
  | ER_WARN_ALLOWED_PACKET_OVERFLOWED
  | ER_CONFLICTING_DECLARATIONS
  | ER_SP_NO_RECURSIVE_CREATE
  | ER_SP_ALREADY_EXISTS
  | ER_SP_DOES_NOT_EXIST
  | ER_SP_DROP_FAILED
  | ER_SP_STORE_FAILED
  | ER_SP_LILABEL_MISMATCH
  | ER_SP_LABEL_REDEFINE
  | ER_SP_LABEL_MISMATCH
  | ER_SP_UNINIT_VAR
  | ER_SP_BADSELECT
  | ER_SP_BADRETURN
  | ER_SP_BADSTATEMENT
  | ER_UPDATE_LOG_DEPRECATED_IGNORED
  | ER_UPDATE_LOG_DEPRECATED_TRANSLATED
  | ER_QUERY_INTERRUPTED
  | ER_SP_WRONG_NO_OF_ARGS
  | ER_SP_COND_MISMATCH
  | ER_SP_NORETURN
  | ER_SP_NORETURNEND
  | ER_SP_BAD_CURSOR_QUERY
  | ER_SP_BAD_CURSOR_SELECT
  | ER_SP_CURSOR_MISMATCH
  | ER_SP_CURSOR_ALREADY_OPEN
  | ER_SP_CURSOR_NOT_OPEN
  | ER_SP_UNDECLARED_VAR
  | ER_SP_WRONG_NO_OF_FETCH_ARGS
  | ER_SP_FETCH_NO_DATA
  | ER_SP_DUP_PARAM
  | ER_SP_DUP_VAR
  | ER_SP_DUP_COND
  | ER_SP_DUP_CURS
  | ER_SP_CANT_ALTER
  | ER_SP_SUBSELECT_NYI
  | ER_STMT_NOT_ALLOWED_IN_SF_OR_TRG
  | ER_SP_VARCOND_AFTER_CURSHNDLR
  | ER_SP_CURSOR_AFTER_HANDLER
  | ER_SP_CASE_NOT_FOUND
  | ER_FPARSER_TOO_BIG_FILE
  | ER_FPARSER_BAD_HEADER
  | ER_FPARSER_EOF_IN_COMMENT
  | ER_FPARSER_ERROR_IN_PARAMETER
  | ER_FPARSER_EOF_IN_UNKNOWN_PARAMETER
  | ER_VIEW_NO_EXPLAIN
  | ER_FRM_UNKNOWN_TYPE
  | ER_WRONG_OBJECT
  | ER_NONUPDATEABLE_COLUMN
  | ER_VIEW_SELECT_DERIVED
  | ER_VIEW_SELECT_CLAUSE
  | ER_VIEW_SELECT_VARIABLE
  | ER_VIEW_SELECT_TMPTABLE
  | ER_VIEW_WRONG_LIST
  | ER_WARN_VIEW_MERGE
  | ER_WARN_VIEW_WITHOUT_KEY
  | ER_VIEW_INVALID
  | ER_SP_NO_DROP_SP
  | ER_SP_GOTO_IN_HNDLR
  | ER_TRG_ALREADY_EXISTS
  | ER_TRG_DOES_NOT_EXIST
  | ER_TRG_ON_VIEW_OR_TEMP_TABLE
  | ER_TRG_CANT_CHANGE_ROW
  | ER_TRG_NO_SUCH_ROW_IN_TRG
  | ER_NO_DEFAULT_FOR_FIELD
  | ER_DIVISION_BY_ZER
  | ER_TRUNCATED_WRONG_VALUE_FOR_FIELD
  | ER_ILLEGAL_VALUE_FOR_TYPE
  | ER_VIEW_NONUPD_CHECK
  | ER_VIEW_CHECK_FAILED
  | ER_PROCACCESS_DENIED_ERROR
  | ER_RELAY_LOG_FAIL
  | ER_PASSWD_LENGTH
  | ER_UNKNOWN_TARGET_BINLOG
  | ER_IO_ERR_LOG_INDEX_READ
  | ER_BINLOG_PURGE_PROHIBITED
  | ER_FSEEK_FAIL
  | ER_BINLOG_PURGE_FATAL_ERR
  | ER_LOG_IN_USE
  | ER_LOG_PURGE_UNKNOWN_ERR
  | ER_RELAY_LOG_INIT
  | ER_NO_BINARY_LOGGING
  | ER_RESERVED_SYNTAX
  | ER_WSAS_FAILED
  | ER_DIFF_GROUPS_PROC
  | ER_NO_GROUP_FOR_PROC
  | ER_ORDER_WITH_PROC
  | ER_LOGGING_PROHIBIT_CHANGING_OF
  | ER_NO_FILE_MAPPING
  | ER_WRONG_MAGIC
  | ER_PS_MANY_PARAM
  | ER_KEY_PART_0
  | ER_VIEW_CHECKSUM
  | ER_VIEW_MULTIUPDATE
  | ER_VIEW_NO_INSERT_FIELD_LIST
  | ER_VIEW_DELETE_MERGE_VIEW
  | ER_CANNOT_USER
  | ER_XAER_NOTA
  | ER_XAER_INVAL
  | ER_XAER_RMFAIL
  | ER_XAER_OUTSIDE
  | ER_XAER_RMERR
  | ER_XA_RBROLLBACK
  | ER_NONEXISTING_PROC_GRANT
  | ER_PROC_AUTO_GRANT_FAIL
  | ER_PROC_AUTO_REVOKE_FAIL
  | ER_DATA_TOO_LONG
  | ER_SP_BAD_SQLSTATE
  | ER_STARTUP
  | ER_LOAD_FROM_FIXED_SIZE_ROWS_TO_VAR
  | ER_CANT_CREATE_USER_WITH_GRANT
  | ER_WRONG_VALUE_FOR_TYPE
  | ER_TABLE_DEF_CHANGED
  | ER_SP_DUP_HANDLER
  | ER_SP_NOT_VAR_ARG
  | ER_SP_NO_RETSET
  | ER_CANT_CREATE_GEOMETRY_OBJECT
  | ER_FAILED_ROUTINE_BREAK_BINLOG
  | ER_BINLOG_UNSAFE_ROUTINE
  | ER_BINLOG_CREATE_ROUTINE_NEED_SUPER
  | ER_EXEC_STMT_WITH_OPEN_CURSOR
  | ER_STMT_HAS_NO_OPEN_CURSOR
  | ER_COMMIT_NOT_ALLOWED_IN_SF_OR_TRG
  | ER_NO_DEFAULT_FOR_VIEW_FIELD
  | ER_SP_NO_RECURSION
  | ER_TOO_BIG_SCALE
  | ER_TOO_BIG_PRECISION
  | ER_M_BIGGER_THAN_D
  | ER_WRONG_LOCK_OF_SYSTEM_TABLE
  | ER_CONNECT_TO_FOREIGN_DATA_SOURCE
  | ER_QUERY_ON_FOREIGN_DATA_SOURCE
  | ER_FOREIGN_DATA_SOURCE_DOESNT_EXIST
  | ER_FOREIGN_DATA_STRING_INVALID_CANT_CREATE
  | ER_FOREIGN_DATA_STRING_INVALID
  | ER_CANT_CREATE_FEDERATED_TABLE
  | ER_TRG_IN_WRONG_SCHEMA
  | ER_STACK_OVERRUN_NEED_MORE
  | ER_TOO_LONG_BODY
  | ER_WARN_CANT_DROP_DEFAULT_KEYCACHE
  | ER_TOO_BIG_DISPLAYWIDTH
  | ER_XAER_DUPID
  | ER_DATETIME_FUNCTION_OVERFLOW
  | ER_CANT_UPDATE_USED_TABLE_IN_SF_OR_TRG
  | ER_VIEW_PREVENT_UPDATE
  | ER_PS_NO_RECURSION
  | ER_SP_CANT_SET_AUTOCOMMIT
  | ER_MALFORMED_DEFINER
  | ER_VIEW_FRM_NO_USER
  | ER_VIEW_OTHER_USER
  | ER_NO_SUCH_USER
  | ER_FORBID_SCHEMA_CHANGE
  | ER_ROW_IS_REFERENCED_2
  | ER_NO_REFERENCED_ROW_2
  | ER_SP_BAD_VAR_SHADOW
  | ER_TRG_NO_DEFINER
  | ER_OLD_FILE_FORMAT
  | ER_SP_RECURSION_LIMIT
  | ER_SP_PROC_TABLE_CORRUPT
  | ER_SP_WRONG_NAME
  | ER_TABLE_NEEDS_UPGRADE
  | ER_SP_NO_AGGREGATE
  | ER_MAX_PREPARED_STMT_COUNT_REACHED
  | ER_VIEW_RECURSIVE
  | ER_NON_GROUPING_FIELD_USED
  | ER_TABLE_CANT_HANDLE_SPKEYS
  | ER_NO_TRIGGERS_ON_SYSTEM_SCHEMA
  | ER_REMOVED_SPACES
  | ER_AUTOINC_READ_FAILED
  | ER_USERNAME
  | ER_HOSTNAME
  | ER_WRONG_STRING_LENGTH
  | ER_NON_INSERTABLE_TABLE
  | ER_ADMIN_WRONG_MRG_TABLE
  | ER_TOO_HIGH_LEVEL_OF_NESTING_FOR_SELECT
  | ER_NAME_BECOMES_EMPTY
  | ER_AMBIGUOUS_FIELD_TERM
  | ER_FOREIGN_SERVER_EXISTS
  | ER_FOREIGN_SERVER_DOESNT_EXIST
  | ER_ILLEGAL_HA_CREATE_OPTION
  | ER_PARTITION_REQUIRES_VALUES_ERROR
  | ER_PARTITION_WRONG_VALUES_ERROR
  | ER_PARTITION_MAXVALUE_ERROR
  | ER_PARTITION_SUBPARTITION_ERROR
  | ER_PARTITION_SUBPART_MIX_ERROR
  | ER_PARTITION_WRONG_NO_PART_ERROR
  | ER_PARTITION_WRONG_NO_SUBPART_ERROR
  | ER_WRONG_EXPR_IN_PARTITION_FUNC_ERROR
  | ER_NO_CONST_EXPR_IN_RANGE_OR_LIST_ERROR
  | ER_FIELD_NOT_FOUND_PART_ERROR
  | ER_LIST_OF_FIELDS_ONLY_IN_HASH_ERROR
  | ER_INCONSISTENT_PARTITION_INFO_ERROR
  | ER_PARTITION_FUNC_NOT_ALLOWED_ERROR
  | ER_PARTITIONS_MUST_BE_DEFINED_ERROR
  | ER_RANGE_NOT_INCREASING_ERROR
  | ER_INCONSISTENT_TYPE_OF_FUNCTIONS_ERROR
  | ER_MULTIPLE_DEF_CONST_IN_LIST_PART_ERROR
  | ER_PARTITION_ENTRY_ERROR
  | ER_MIX_HANDLER_ERROR
  | ER_PARTITION_NOT_DEFINED_ERROR
  | ER_TOO_MANY_PARTITIONS_ERROR
  | ER_SUBPARTITION_ERROR
  | ER_CANT_CREATE_HANDLER_FILE
  | ER_BLOB_FIELD_IN_PART_FUNC_ERROR
  | ER_UNIQUE_KEY_NEED_ALL_FIELDS_IN_PF
  | ER_NO_PARTS_ERROR
  | ER_PARTITION_MGMT_ON_NONPARTITIONED
  | ER_FOREIGN_KEY_ON_PARTITIONED
  | ER_DROP_PARTITION_NON_EXISTENT
  | ER_DROP_LAST_PARTITION
  | ER_COALESCE_ONLY_ON_HASH_PARTITION
  | ER_REORG_HASH_ONLY_ON_SAME_N
  | ER_REORG_NO_PARAM_ERROR
  | ER_ONLY_ON_RANGE_LIST_PARTITION
  | ER_ADD_PARTITION_SUBPART_ERROR
  | ER_ADD_PARTITION_NO_NEW_PARTITION
  | ER_COALESCE_PARTITION_NO_PARTITION
  | ER_REORG_PARTITION_NOT_EXIST
  | ER_SAME_NAME_PARTITION
  | ER_NO_BINLOG_ERROR
  | ER_CONSECUTIVE_REORG_PARTITIONS
  | ER_REORG_OUTSIDE_RANGE
  | ER_PARTITION_FUNCTION_FAILURE
  | ER_PART_STATE_ERROR
  | ER_LIMITED_PART_RANGE
  | ER_PLUGIN_IS_NOT_LOADED
  | ER_WRONG_VALUE
  | ER_NO_PARTITION_FOR_GIVEN_VALUE
  | ER_FILEGROUP_OPTION_ONLY_ONCE
  | ER_CREATE_FILEGROUP_FAILED
  | ER_DROP_FILEGROUP_FAILED
  | ER_TABLESPACE_AUTO_EXTEND_ERROR
  | ER_WRONG_SIZE_NUMBER
  | ER_SIZE_OVERFLOW_ERROR
  | ER_ALTER_FILEGROUP_FAILED
  | ER_BINLOG_ROW_LOGGING_FAILED
  | ER_BINLOG_ROW_WRONG_TABLE_DEF
  | ER_BINLOG_ROW_RBR_TO_SBR
  | ER_EVENT_ALREADY_EXISTS
  | ER_EVENT_STORE_FAILED
  | ER_EVENT_DOES_NOT_EXIST
  | ER_EVENT_CANT_ALTER
  | ER_EVENT_DROP_FAILED
  | ER_EVENT_INTERVAL_NOT_POSITIVE_OR_TOO_BIG
  | ER_EVENT_ENDS_BEFORE_STARTS
  | ER_EVENT_EXEC_TIME_IN_THE_PAST
  | ER_EVENT_OPEN_TABLE_FAILED
  | ER_EVENT_NEITHER_M_EXPR_NOR_M_AT
  | ER_COL_COUNT_DOESNT_MATCH_CORRUPTED
  | ER_CANNOT_LOAD_FROM_TABLE
  | ER_EVENT_CANNOT_DELETE
  | ER_EVENT_COMPILE_ERROR
  | ER_EVENT_SAME_NAME
  | ER_EVENT_DATA_TOO_LONG
  | ER_DROP_INDEX_FK
  | ER_WARN_DEPRECATED_SYNTAX_WITH_VER
  | ER_CANT_WRITE_LOCK_LOG_TABLE
  | ER_CANT_LOCK_LOG_TABLE
  | ER_FOREIGN_DUPLICATE_KEY
  | ER_COL_COUNT_DOESNT_MATCH_PLEASE_UPDATE
  | ER_TEMP_TABLE_PREVENTS_SWITCH_OUT_OF_RBR
  | ER_STORED_FUNCTION_PREVENTS_SWITCH_BINLOG_FORMAT
  | ER_NDB_CANT_SWITCH_BINLOG_FORMAT
  | ER_PARTITION_NO_TEMPORARY
  | ER_PARTITION_CONST_DOMAIN_ERROR
  | ER_PARTITION_FUNCTION_IS_NOT_ALLOWED
  | ER_DDL_LOG_ERROR
  | ER_NULL_IN_VALUES_LESS_THAN
  | ER_WRONG_PARTITION_NAME
  | ER_CANT_CHANGE_TX_ISOLATION
  | ER_DUP_ENTRY_AUTOINCREMENT_CASE
  | ER_EVENT_MODIFY_QUEUE_ERROR
  | ER_EVENT_SET_VAR_ERROR
  | ER_PARTITION_MERGE_ERROR
  | ER_CANT_ACTIVATE_LOG
  | ER_RBR_NOT_AVAILABLE
  | ER_BASE64_DECODE_ERROR
  | ER_EVENT_RECURSION_FORBIDDEN
  | ER_EVENTS_DB_ERROR
  | ER_ONLY_INTEGERS_ALLOWED
  | ER_UNSUPORTED_LOG_ENGINE
  | ER_BAD_LOG_STATEMENT
  | ER_CANT_RENAME_LOG_TABLE
  | ER_WRONG_PARAMCOUNT_TO_NATIVE_FCT
  | ER_WRONG_PARAMETERS_TO_NATIVE_FCT
  | ER_WRONG_PARAMETERS_TO_STORED_FCT
  | ER_NATIVE_FCT_NAME_COLLISION
  | ER_DUP_ENTRY_WITH_KEY_NAME
  | ER_BINLOG_PURGE_EMFILE
  | ER_EVENT_CANNOT_CREATE_IN_THE_PAST
  | ER_EVENT_CANNOT_ALTER_IN_THE_PAST
  | ER_SLAVE_INCIDENT
  | ER_NO_PARTITION_FOR_GIVEN_VALUE_SILENT
  | ER_BINLOG_UNSAFE_STATEMENT
  | ER_SLAVE_FATAL_ERROR
  | ER_SLAVE_RELAY_LOG_READ_FAILURE
  | ER_SLAVE_RELAY_LOG_WRITE_FAILURE
  | ER_SLAVE_CREATE_EVENT_FAILURE
  | ER_SLAVE_MASTER_COM_FAILURE
  | ER_BINLOG_LOGGING_IMPOSSIBLE
  | ER_VIEW_NO_CREATION_CTX
  | ER_VIEW_INVALID_CREATION_CTX
  | ER_SR_INVALID_CREATION_CTX
  | ER_TRG_CORRUPTED_FILE
  | ER_TRG_NO_CREATION_CTX
  | ER_TRG_INVALID_CREATION_CTX
  | ER_EVENT_INVALID_CREATION_CTX
  | ER_TRG_CANT_OPEN_TABLE
  | ER_CANT_CREATE_SROUTINE
  | ER_UNUSED_11
  | ER_NO_FORMAT_DESCRIPTION_EVENT_BEFORE_BINLOG_STATEMENT
  | ER_SLAVE_CORRUPT_EVENT
  | ER_LOAD_DATA_INVALID_COLUMN
  | ER_LOG_PURGE_NO_FILE
  | ER_XA_RBTIMEOUT
  | ER_XA_RBDEADLOCK
  | ER_NEED_REPREPARE
  | ER_DELAYED_NOT_SUPPORTED
  | WARN_NO_MASTER_INF
  | WARN_OPTION_IGNORED
  | WARN_PLUGIN_DELETE_BUILTIN
  | WARN_PLUGIN_BUSY
  | ER_VARIABLE_IS_READONLY
  | ER_WARN_ENGINE_TRANSACTION_ROLLBACK
  | ER_SLAVE_HEARTBEAT_FAILURE
  | ER_SLAVE_HEARTBEAT_VALUE_OUT_OF_RANGE
  | ER_NDB_REPLICATION_SCHEMA_ERROR
  | ER_CONFLICT_FN_PARSE_ERROR
  | ER_EXCEPTIONS_WRITE_ERROR
  | ER_TOO_LONG_TABLE_COMMENT
  | ER_TOO_LONG_FIELD_COMMENT
  | ER_FUNC_INEXISTENT_NAME_COLLISION
  | ER_DATABASE_NAME
  | ER_TABLE_NAME
  | ER_PARTITION_NAME
  | ER_SUBPARTITION_NAME
  | ER_TEMPORARY_NAME
  | ER_RENAMED_NAME
  | ER_TOO_MANY_CONCURRENT_TRXS
  | WARN_NON_ASCII_SEPARATOR_NOT_IMPLEMENTED
  | ER_DEBUG_SYNC_TIMEOUT
  | ER_DEBUG_SYNC_HIT_LIMIT
  | ER_DUP_SIGNAL_SET
  | ER_SIGNAL_WARN
  | ER_SIGNAL_NOT_FOUND
  | ER_SIGNAL_EXCEPTION
  | ER_RESIGNAL_WITHOUT_ACTIVE_HANDLER
  | ER_SIGNAL_BAD_CONDITION_TYPE
  | WARN_COND_ITEM_TRUNCATED
  | ER_COND_ITEM_TOO_LONG
  | ER_UNKNOWN_LOCALE
  | ER_SLAVE_IGNORE_SERVER_IDS
  | ER_QUERY_CACHE_DISABLED
  | ER_SAME_NAME_PARTITION_FIELD
  | ER_PARTITION_COLUMN_LIST_ERROR
  | ER_WRONG_TYPE_COLUMN_VALUE_ERROR
  | ER_TOO_MANY_PARTITION_FUNC_FIELDS_ERROR
  | ER_MAXVALUE_IN_VALUES_IN
  | ER_TOO_MANY_VALUES_ERROR
  | ER_ROW_SINGLE_PARTITION_FIELD_ERROR
  | ER_FIELD_TYPE_NOT_ALLOWED_AS_PARTITION_FIELD
  | ER_PARTITION_FIELDS_TOO_LONG
  | ER_BINLOG_ROW_ENGINE_AND_STMT_ENGINE
  | ER_BINLOG_ROW_MODE_AND_STMT_ENGINE
  | ER_BINLOG_UNSAFE_AND_STMT_ENGINE
  | ER_BINLOG_ROW_INJECTION_AND_STMT_ENGINE
  | ER_BINLOG_STMT_MODE_AND_ROW_ENGINE
  | ER_BINLOG_ROW_INJECTION_AND_STMT_MODE
  | ER_BINLOG_MULTIPLE_ENGINES_AND_SELF_LOGGING_ENGINE
  | ER_BINLOG_UNSAFE_LIMIT
  | ER_BINLOG_UNSAFE_INSERT_DELAYED
  | ER_BINLOG_UNSAFE_SYSTEM_TABLE
  | ER_BINLOG_UNSAFE_AUTOINC_COLUMNS
  | ER_BINLOG_UNSAFE_UDF
  | ER_BINLOG_UNSAFE_SYSTEM_VARIABLE
  | ER_BINLOG_UNSAFE_SYSTEM_FUNCTION
  | ER_BINLOG_UNSAFE_NONTRANS_AFTER_TRANS
  | ER_MESSAGE_AND_STATEMENT
  | ER_SLAVE_CONVERSION_FAILED
  | ER_SLAVE_CANT_CREATE_CONVERSION
  | ER_INSIDE_TRANSACTION_PREVENTS_SWITCH_BINLOG_FORMAT
  | ER_PATH_LENGTH
  | ER_WARN_DEPRECATED_SYNTAX_NO_REPLACEMENT
  | ER_WRONG_NATIVE_TABLE_STRUCTURE
  | ER_WRONG_PERFSCHEMA_USAGE
  | ER_WARN_I_S_SKIPPED_TABLE
  | ER_INSIDE_TRANSACTION_PREVENTS_SWITCH_BINLOG_DIRECT
  | ER_STORED_FUNCTION_PREVENTS_SWITCH_BINLOG_DIRECT
  | ER_SPATIAL_MUST_HAVE_GEOM_COL
  | ER_TOO_LONG_INDEX_COMMENT
  | ER_LOCK_ABORTED
  | ER_DATA_OUT_OF_RANGE
  | ER_WRONG_SPVAR_TYPE_IN_LIMIT
  | ER_BINLOG_UNSAFE_MULTIPLE_ENGINES_AND_SELF_LOGGING_ENGINE
  | ER_BINLOG_UNSAFE_MIXED_STATEMENT
  | ER_INSIDE_TRANSACTION_PREVENTS_SWITCH_SQL_LOG_BIN
  | ER_STORED_FUNCTION_PREVENTS_SWITCH_SQL_LOG_BIN
  | ER_FAILED_READ_FROM_PAR_FILE
  | ER_VALUES_IS_NOT_INT_TYPE_ERROR
  | ER_ACCESS_DENIED_NO_PASSWORD_ERROR
  | ER_SET_PASSWORD_AUTH_PLUGIN
  | ER_GRANT_PLUGIN_USER_EXISTS
  | ER_TRUNCATE_ILLEGAL_FK
  | ER_PLUGIN_IS_PERMANENT
  | ER_SLAVE_HEARTBEAT_VALUE_OUT_OF_RANGE_MIN
  | ER_SLAVE_HEARTBEAT_VALUE_OUT_OF_RANGE_MAX
  | ER_STMT_CACHE_FULL
  | ER_MULTI_UPDATE_KEY_CONFLICT
  | ER_TABLE_NEEDS_REBUILD
  | WARN_OPTION_BELOW_LIMIT
  | ER_INDEX_COLUMN_TOO_LONG
  | ER_ERROR_IN_TRIGGER_BODY
  | ER_ERROR_IN_UNKNOWN_TRIGGER_BODY
  | ER_INDEX_CORRUPT
  | ER_UNDO_RECORD_TOO_BIG
  | ER_BINLOG_UNSAFE_INSERT_IGNORE_SELECT
  | ER_BINLOG_UNSAFE_INSERT_SELECT_UPDATE
  | ER_BINLOG_UNSAFE_REPLACE_SELECT
  | ER_BINLOG_UNSAFE_CREATE_IGNORE_SELECT
  | ER_BINLOG_UNSAFE_CREATE_REPLACE_SELECT
  | ER_BINLOG_UNSAFE_UPDATE_IGNORE
  | ER_PLUGIN_NO_UNINSTALL
  | ER_PLUGIN_NO_INSTALL
  | ER_BINLOG_UNSAFE_WRITE_AUTOINC_SELECT
  | ER_BINLOG_UNSAFE_CREATE_SELECT_AUTOINC
  | ER_BINLOG_UNSAFE_INSERT_TWO_KEYS
  | ER_TABLE_IN_FK_CHECK
  | ER_UNSUPPORTED_ENGINE
  | ER_BINLOG_UNSAFE_AUTOINC_NOT_FIRST
  | ER_CANNOT_LOAD_FROM_TABLE_V2
  | ER_MASTER_DELAY_VALUE_OUT_OF_RANGE
  | ER_ONLY_FD_AND_RBR_EVENTS_ALLOWED_IN_BINLOG_STATEMENT
  | ER_PARTITION_EXCHANGE_DIFFERENT_OPTION
  | ER_PARTITION_EXCHANGE_PART_TABLE
  | ER_PARTITION_EXCHANGE_TEMP_TABLE
  | ER_PARTITION_INSTEAD_OF_SUBPARTITION
  | ER_UNKNOWN_PARTITION
  | ER_TABLES_DIFFERENT_METADATA
  | ER_ROW_DOES_NOT_MATCH_PARTITION
  | ER_BINLOG_CACHE_SIZE_GREATER_THAN_MAX
  | ER_WARN_INDEX_NOT_APPLICABLE
  | ER_PARTITION_EXCHANGE_FOREIGN_KEY
  | ER_NO_SUCH_KEY_VALUE
  | ER_RPL_INFO_DATA_TOO_LONG
  | ER_NETWORK_READ_EVENT_CHECKSUM_FAILURE
  | ER_BINLOG_READ_EVENT_CHECKSUM_FAILURE
  | ER_BINLOG_STMT_CACHE_SIZE_GREATER_THAN_MAX
  | ER_CANT_UPDATE_TABLE_IN_CREATE_TABLE_SELECT
  | ER_PARTITION_CLAUSE_ON_NONPARTITIONED
  | ER_ROW_DOES_NOT_MATCH_GIVEN_PARTITION_SET
  | ER_NO_SUCH_PARTITION_UNUSED
  | ER_CHANGE_RPL_INFO_REPOSITORY_FAILURE
  | ER_WARNING_NOT_COMPLETE_ROLLBACK_WITH_CREATED_TEMP_TABLE
  | ER_WARNING_NOT_COMPLETE_ROLLBACK_WITH_DROPPED_TEMP_TABLE
  | ER_MTS_FEATURE_IS_NOT_SUPPORTED
  | ER_MTS_UPDATED_DBS_GREATER_MAX
  | ER_MTS_CANT_PARALLEL
  | ER_MTS_INCONSISTENT_DATA
  | ER_FULLTEXT_NOT_SUPPORTED_WITH_PARTITIONING
  | ER_DA_INVALID_CONDITION_NUMBER
  | ER_INSECURE_PLAIN_TEXT
  | ER_INSECURE_CHANGE_MASTER
  | ER_FOREIGN_DUPLICATE_KEY_WITH_CHILD_INFO
  | ER_FOREIGN_DUPLICATE_KEY_WITHOUT_CHILD_INFO
  | ER_SQLTHREAD_WITH_SECURE_SLAVE
  | ER_TABLE_HAS_NO_FT
  | ER_VARIABLE_NOT_SETTABLE_IN_SF_OR_TRIGGER
  | ER_VARIABLE_NOT_SETTABLE_IN_TRANSACTION
  | ER_GTID_NEXT_IS_NOT_IN_GTID_NEXT_LIST
  | ER_CANT_CHANGE_GTID_NEXT_IN_TRANSACTION_WHEN_GTID_NEXT_LIST_IS_NULL
  | ER_SET_STATEMENT_CANNOT_INVOKE_FUNCTION
  | ER_GTID_NEXT_CANT_BE_AUTOMATIC_IF_GTID_NEXT_LIST_IS_NON_NULL
  | ER_SKIPPING_LOGGED_TRANSACTION
  | ER_MALFORMED_GTID_SET_SPECIFICATION
  | ER_MALFORMED_GTID_SET_ENCODING
  | ER_MALFORMED_GTID_SPECIFICATION
  | ER_GNO_EXHAUSTED
  | ER_BAD_SLAVE_AUTO_POSITION
  | ER_AUTO_POSITION_REQUIRES_GTID_MODE_ON
  | ER_CANT_DO_IMPLICIT_COMMIT_IN_TRX_WHEN_GTID_NEXT_IS_SET
  | ER_GTID_MODE_2_OR_3_REQUIRES_DISABLE_GTID_UNSAFE_STATEMENTS_ON
  | ER_GTID_MODE_REQUIRES_BINLOG
  | ER_CANT_SET_GTID_NEXT_TO_GTID_WHEN_GTID_MODE_IS_OFF
  | ER_CANT_SET_GTID_NEXT_TO_ANONYMOUS_WHEN_GTID_MODE_IS_ON
  | ER_CANT_SET_GTID_NEXT_LIST_TO_NON_NULL_WHEN_GTID_MODE_IS_OFF
  | ER_FOUND_GTID_EVENT_WHEN_GTID_MODE_IS_OFF
  | ER_GTID_UNSAFE_NON_TRANSACTIONAL_TABLE
  | ER_GTID_UNSAFE_CREATE_SELECT
  | ER_GTID_UNSAFE_CREATE_DROP_TEMPORARY_TABLE_IN_TRANSACTION
  | ER_GTID_MODE_CAN_ONLY_CHANGE_ONE_STEP_AT_A_TIME
  | ER_MASTER_HAS_PURGED_REQUIRED_GTIDS
  | ER_CANT_SET_GTID_NEXT_WHEN_OWNING_GTID
  | ER_UNKNOWN_EXPLAIN_FORMAT
  | ER_CANT_EXECUTE_IN_READ_ONLY_TRANSACTION
  | ER_TOO_LONG_TABLE_PARTITION_COMMENT
  | ER_SLAVE_CONFIGURATION
  | ER_INNODB_FT_LIMIT
  | ER_INNODB_NO_FT_TEMP_TABLE
  | ER_INNODB_FT_WRONG_DOCID_COLUMN
  | ER_INNODB_FT_WRONG_DOCID_INDEX
  | ER_INNODB_ONLINE_LOG_TOO_BIG
  | ER_UNKNOWN_ALTER_ALGORITHM
  | ER_UNKNOWN_ALTER_LOCK
  | ER_MTS_CHANGE_MASTER_CANT_RUN_WITH_GAPS
  | ER_MTS_RECOVERY_FAILURE
  | ER_MTS_RESET_WORKERS
  | ER_COL_COUNT_DOESNT_MATCH_CORRUPTED_V2
  | ER_SLAVE_SILENT_RETRY_TRANSACTION
  | ER_DISCARD_FK_CHECKS_RUNNING
  | ER_TABLE_SCHEMA_MISMATCH
  | ER_TABLE_IN_SYSTEM_TABLESPACE
  | ER_IO_READ_ERROR
  | ER_IO_WRITE_ERROR
  | ER_TABLESPACE_MISSING
  | ER_TABLESPACE_EXISTS
  | ER_TABLESPACE_DISCARDED
  | ER_INTERNAL_ERROR
  | ER_INNODB_IMPORT_ERROR
  | ER_INNODB_INDEX_CORRUPT
  | ER_INVALID_YEAR_COLUMN_LENGTH
  | ER_NOT_VALID_PASSWORD
  | ER_MUST_CHANGE_PASSWORD
  | ER_FK_NO_INDEX_CHILD
  | ER_FK_NO_INDEX_PARENT
  | ER_FK_FAIL_ADD_SYSTEM
  | ER_FK_CANNOT_OPEN_PARENT
  | ER_FK_INCORRECT_OPTION
  | ER_FK_DUP_NAME
  | ER_PASSWORD_FORMAT
  | ER_FK_COLUMN_CANNOT_DROP
  | ER_FK_COLUMN_CANNOT_DROP_CHILD
  | ER_FK_COLUMN_NOT_NULL
  | ER_DUP_INDEX
  | ER_FK_COLUMN_CANNOT_CHANGE
  | ER_FK_COLUMN_CANNOT_CHANGE_CHILD
  | ER_FK_CANNOT_DELETE_PARENT
  | ER_MALFORMED_PACKET
  | ER_READ_ONLY_MODE
  | ER_GTID_NEXT_TYPE_UNDEFINED_GROUP
  | ER_VARIABLE_NOT_SETTABLE_IN_SP
  | ER_CANT_SET_GTID_PURGED_WHEN_GTID_MODE_IS_OFF
  | ER_CANT_SET_GTID_PURGED_WHEN_GTID_EXECUTED_IS_NOT_EMPTY
  | ER_CANT_SET_GTID_PURGED_WHEN_OWNED_GTIDS_IS_NOT_EMPTY
  | ER_GTID_PURGED_WAS_CHANGED
  | ER_GTID_EXECUTED_WAS_CHANGED
  | ER_BINLOG_STMT_MODE_AND_NO_REPL_TABLES
  | ER_ALTER_OPERATION_NOT_SUPPORTED
  | ER_ALTER_OPERATION_NOT_SUPPORTED_REASON
  | ER_ALTER_OPERATION_NOT_SUPPORTED_REASON_COPY
  | ER_ALTER_OPERATION_NOT_SUPPORTED_REASON_PARTITION
  | ER_ALTER_OPERATION_NOT_SUPPORTED_REASON_FK_RENAME
  | ER_ALTER_OPERATION_NOT_SUPPORTED_REASON_COLUMN_TYPE
  | ER_ALTER_OPERATION_NOT_SUPPORTED_REASON_FK_CHECK
  | ER_ALTER_OPERATION_NOT_SUPPORTED_REASON_IGNORE
  | ER_ALTER_OPERATION_NOT_SUPPORTED_REASON_NOPK
  | ER_ALTER_OPERATION_NOT_SUPPORTED_REASON_AUTOINC
  | ER_ALTER_OPERATION_NOT_SUPPORTED_REASON_HIDDEN_FTS
  | ER_ALTER_OPERATION_NOT_SUPPORTED_REASON_CHANGE_FTS
  | ER_ALTER_OPERATION_NOT_SUPPORTED_REASON_FTS
  | ER_SQL_SLAVE_SKIP_COUNTER_NOT_SETTABLE_IN_GTID_MODE
  | ER_DUP_UNKNOWN_IN_INDEX
  | ER_IDENT_CAUSES_TOO_LONG_PATH
  | ER_ALTER_OPERATION_NOT_SUPPORTED_REASON_NOT_NULL
  | ER_MUST_CHANGE_PASSWORD_LOGIN
  | ER_ROW_IN_WRONG_PARTITION
  | ER_MTS_EVENT_BIGGER_PENDING_JOBS_SIZE_MAX
  | ER_INNODB_NO_FT_USES_PARSER
  | ER_BINLOG_LOGICAL_CORRUPTION
  | ER_WARN_PURGE_LOG_IN_USE
  | ER_WARN_PURGE_LOG_IS_ACTIVE
  | ER_AUTO_INCREMENT_CONFLICT
  | WARN_ON_BLOCKHOLE_IN_RBR
  | ER_SLAVE_MI_INIT_REPOSITORY
  | ER_SLAVE_RLI_INIT_REPOSITORY
  | ER_ACCESS_DENIED_CHANGE_USER_ERROR
  | ER_INNODB_READ_ONLY
  | ER_STOP_SLAVE_SQL_THREAD_TIMEOUT
  | ER_STOP_SLAVE_IO_THREAD_TIMEOUT
  | ER_TABLE_CORRUPT
  | ER_TEMP_FILE_WRITE_FAILURE
  | ER_INNODB_FT_AUX_NOT_HEX_ID
  | ER_OLD_TEMPORALS_UPGRADED
  | ER_INNODB_FORCED_RECOVERY
  | ER_AES_INVALID_IV
  | ER_PLUGIN_CANNOT_BE_UNINSTALLED
  | ER_GTID_UNSAFE_BINLOG_SPLITTABLE_STATEMENT_AND_GTID_GROUP
  | ER_SLAVE_HAS_MORE_GTIDS_THAN_MASTER.

(** The discriminants of [#[repr(u16)]], as declared. *)
Definition repr_1000 (e : ErrorKind) : option Z :=
  match e with
  | ER_HASHCHK => Some 1000 | ER_NISAMCHK => Some 1001 | ER_NO => Some 1002
  | ER_YES => Some 1003 | ER_CANT_CREATE_FILE => Some 1004 | ER_CANT_CREATE_TABLE => Some 1005
  | ER_CANT_CREATE_DB => Some 1006 | ER_DB_CREATE_EXISTS => Some 1007
  | ER_DB_DROP_EXISTS => Some 1008 | ER_DB_DROP_DELETE => Some 1009
  | ER_DB_DROP_RMDIR => Some 1010 | ER_CANT_DELETE_FILE => Some 1011
  | ER_CANT_FIND_SYSTEM_REC => Some 1012 | ER_CANT_GET_STAT => Some 1013
  | ER_CANT_GET_WD => Some 1014 | ER_CANT_LOCK => Some 1015 | ER_CANT_OPEN_FILE => Some 1016
  | ER_FILE_NOT_FOUND => Some 1017 | ER_CANT_READ_DIR => Some 1018
  | ER_CANT_SET_WD => Some 1019 | ER_CHECKREAD => Some 1020 | ER_DISK_FULL => Some 1021
  | ER_DUP_KEY => Some 1022 | ER_ERROR_ON_CLOSE => Some 1023 | ER_ERROR_ON_READ => Some 1024
  | ER_ERROR_ON_RENAME => Some 1025 | ER_ERROR_ON_WRITE => Some 1026
  | ER_FILE_USED => Some 1027 | ER_FILSORT_ABORT => Some 1028 | ER_FORM_NOT_FOUND => Some 1029
  | ER_GET_ERRN => Some 1030 | ER_ILLEGAL_HA => Some 1031 | ER_KEY_NOT_FOUND => Some 1032
  | ER_NOT_FORM_FILE => Some 1033 | ER_NOT_KEYFILE => Some 1034 | ER_OLD_KEYFILE => Some 1035
  | ER_OPEN_AS_READONLY => Some 1036 | ER_OUTOFMEMORY => Some 1037
  | ER_OUT_OF_SORTMEMORY => Some 1038 | ER_UNEXPECTED_EOF => Some 1039
  | ER_CON_COUNT_ERROR => Some 1040 | ER_OUT_OF_RESOURCES => Some 1041
  | ER_BAD_HOST_ERROR => Some 1042 | ER_HANDSHAKE_ERROR => Some 1043
  | ER_DBACCESS_DENIED_ERROR => Some 1044 | ER_ACCESS_DENIED_ERROR => Some 1045
  | ER_NO_DB_ERROR => Some 1046 | ER_UNKNOWN_COM_ERROR => Some 1047
  | ER_BAD_NULL_ERROR => Some 1048 | ER_BAD_DB_ERROR => Some 1049
  | ER_TABLE_EXISTS_ERROR => Some 1050 | ER_BAD_TABLE_ERROR => Some 1051
  | ER_NON_UNIQ_ERROR => Some 1052 | ER_SERVER_SHUTDOWN => Some 1053
  | ER_BAD_FIELD_ERROR => Some 1054 | ER_WRONG_FIELD_WITH_GROUP => Some 1055
  | ER_WRONG_GROUP_FIELD => Some 1056 | ER_WRONG_SUM_SELECT => Some 1057
  | ER_WRONG_VALUE_COUNT => Some 1058 | ER_TOO_LONG_IDENT => Some 1059
  | ER_DUP_FIELDNAME => Some 1060 | ER_DUP_KEYNAME => Some 1061 | ER_DUP_ENTRY => Some 1062
  | ER_WRONG_FIELD_SPEC => Some 1063 | ER_PARSE_ERROR => Some 1064
  | ER_EMPTY_QUERY => Some 1065 | ER_NONUNIQ_TABLE => Some 1066
  | ER_INVALID_DEFAULT => Some 1067 | ER_MULTIPLE_PRI_KEY => Some 1068
  | ER_TOO_MANY_KEYS => Some 1069 | ER_TOO_MANY_KEY_PARTS => Some 1070
  | ER_TOO_LONG_KEY => Some 1071 | ER_KEY_COLUMN_DOES_NOT_EXITS => Some 1072
  | ER_BLOB_USED_AS_KEY => Some 1073 | ER_TOO_BIG_FIELDLENGTH => Some 1074
  | _ => None
  end.

Definition repr_1075 (e : ErrorKind) : option Z :=
  match e with
  | ER_WRONG_AUTO_KEY => Some 1075 | ER_READY => Some 1076 | ER_NORMAL_SHUTDOWN => Some 1077
  | ER_GOT_SIGNAL => Some 1078 | ER_SHUTDOWN_COMPLETE => Some 1079
  | ER_FORCING_CLOSE => Some 1080 | ER_IPSOCK_ERROR => Some 1081
  | ER_NO_SUCH_INDEX => Some 1082 | ER_WRONG_FIELD_TERMINATORS => Some 1083
  | ER_BLOBS_AND_NO_TERMINATED => Some 1084 | ER_TEXTFILE_NOT_READABLE => Some 1085
  | ER_FILE_EXISTS_ERROR => Some 1086 | ER_LOAD_INF => Some 1087 | ER_ALTER_INF => Some 1088
  | ER_WRONG_SUB_KEY => Some 1089 | ER_CANT_REMOVE_ALL_FIELDS => Some 1090
  | ER_CANT_DROP_FIELD_OR_KEY => Some 1091 | ER_INSERT_INF => Some 1092
  | ER_UPDATE_TABLE_USED => Some 1093 | ER_NO_SUCH_THREAD => Some 1094
  | ER_KILL_DENIED_ERROR => Some 1095 | ER_NO_TABLES_USED => Some 1096
  | ER_TOO_BIG_SET => Some 1097 | ER_NO_UNIQUE_LOGFILE => Some 1098
  | ER_TABLE_NOT_LOCKED_FOR_WRITE => Some 1099 | ER_TABLE_NOT_LOCKED => Some 1100
  | ER_BLOB_CANT_HAVE_DEFAULT => Some 1101 | ER_WRONG_DB_NAME => Some 1102
  | ER_WRONG_TABLE_NAME => Some 1103 | ER_TOO_BIG_SELECT => Some 1104
  | ER_UNKNOWN_ERROR => Some 1105 | ER_UNKNOWN_PROCEDURE => Some 1106
  | ER_WRONG_PARAMCOUNT_TO_PROCEDURE => Some 1107
  | ER_WRONG_PARAMETERS_TO_PROCEDURE => Some 1108 | ER_UNKNOWN_TABLE => Some 1109
  | ER_FIELD_SPECIFIED_TWICE => Some 1110 | ER_INVALID_GROUP_FUNC_USE => Some 1111
  | ER_UNSUPPORTED_EXTENSION => Some 1112 | ER_TABLE_MUST_HAVE_COLUMNS => Some 1113
  | ER_RECORD_FILE_FULL => Some 1114 | ER_UNKNOWN_CHARACTER_SET => Some 1115
  | ER_TOO_MANY_TABLES => Some 1116 | ER_TOO_MANY_FIELDS => Some 1117
  | ER_TOO_BIG_ROWSIZE => Some 1118 | ER_STACK_OVERRUN => Some 1119
  | ER_WRONG_OUTER_JOIN => Some 1120 | ER_NULL_COLUMN_IN_INDEX => Some 1121
  | ER_CANT_FIND_UDF => Some 1122 | ER_CANT_INITIALIZE_UDF => Some 1123
  | ER_UDF_NO_PATHS => Some 1124 | ER_UDF_EXISTS => Some 1125
  | ER_CANT_OPEN_LIBRARY => Some 1126 | ER_CANT_FIND_DL_ENTRY => Some 1127
  | ER_FUNCTION_NOT_DEFINED => Some 1128 | ER_HOST_IS_BLOCKED => Some 1129
  | ER_HOST_NOT_PRIVILEGED => Some 1130 | ER_PASSWORD_ANONYMOUS_USER => Some 1131
  | ER_PASSWORD_NOT_ALLOWED => Some 1132 | ER_PASSWORD_NO_MATCH => Some 1133
  | ER_UPDATE_INF => Some 1134 | ER_CANT_CREATE_THREAD => Some 1135
  | ER_WRONG_VALUE_COUNT_ON_ROW => Some 1136 | ER_CANT_REOPEN_TABLE => Some 1137
  | ER_INVALID_USE_OF_NULL => Some 1138 | ER_REGEXP_ERROR => Some 1139
  | ER_MIX_OF_GROUP_FUNC_AND_FIELDS => Some 1140 | ER_NONEXISTING_GRANT => Some 1141
  | ER_TABLEACCESS_DENIED_ERROR => Some 1142 | ER_COLUMNACCESS_DENIED_ERROR => Some 1143
  | ER_ILLEGAL_GRANT_FOR_TABLE => Some 1144 | ER_GRANT_WRONG_HOST_OR_USER => Some 1145
  | ER_NO_SUCH_TABLE => Some 1146 | ER_NONEXISTING_TABLE_GRANT => Some 1147
  | ER_NOT_ALLOWED_COMMAND => Some 1148 | ER_SYNTAX_ERROR => Some 1149
  | _ => None
  end.

Definition repr_1150 (e : ErrorKind) : option Z :=
  match e with
  | ER_DELAYED_CANT_CHANGE_LOCK => Some 1150 | ER_TOO_MANY_DELAYED_THREADS => Some 1151
  | ER_ABORTING_CONNECTION => Some 1152 | ER_NET_PACKET_TOO_LARGE => Some 1153
  | ER_NET_READ_ERROR_FROM_PIPE => Some 1154 | ER_NET_FCNTL_ERROR => Some 1155
  | ER_NET_PACKETS_OUT_OF_ORDER => Some 1156 | ER_NET_UNCOMPRESS_ERROR => Some 1157
  | ER_NET_READ_ERROR => Some 1158 | ER_NET_READ_INTERRUPTED => Some 1159
  | ER_NET_ERROR_ON_WRITE => Some 1160 | ER_NET_WRITE_INTERRUPTED => Some 1161
  | ER_TOO_LONG_STRING => Some 1162 | ER_TABLE_CANT_HANDLE_BLOB => Some 1163
  | ER_TABLE_CANT_HANDLE_AUTO_INCREMENT => Some 1164
  | ER_DELAYED_INSERT_TABLE_LOCKED => Some 1165 | ER_WRONG_COLUMN_NAME => Some 1166
  | ER_WRONG_KEY_COLUMN => Some 1167 | ER_WRONG_MRG_TABLE => Some 1168
  | ER_DUP_UNIQUE => Some 1169 | ER_BLOB_KEY_WITHOUT_LENGTH => Some 1170
  | ER_PRIMARY_CANT_HAVE_NULL => Some 1171 | ER_TOO_MANY_ROWS => Some 1172
  | ER_REQUIRES_PRIMARY_KEY => Some 1173 | ER_NO_RAID_COMPILED => Some 1174
  | ER_UPDATE_WITHOUT_KEY_IN_SAFE_MODE => Some 1175 | ER_KEY_DOES_NOT_EXITS => Some 1176
  | ER_CHECK_NO_SUCH_TABLE => Some 1177 | ER_CHECK_NOT_IMPLEMENTED => Some 1178
  | ER_CANT_DO_THIS_DURING_AN_TRANSACTION => Some 1179 | ER_ERROR_DURING_COMMIT => Some 1180
  | ER_ERROR_DURING_ROLLBACK => Some 1181 | ER_ERROR_DURING_FLUSH_LOGS => Some 1182
  | ER_ERROR_DURING_CHECKPOINT => Some 1183 | ER_NEW_ABORTING_CONNECTION => Some 1184
  | ER_DUMP_NOT_IMPLEMENTED => Some 1185 | ER_FLUSH_MASTER_BINLOG_CLOSED => Some 1186
  | ER_INDEX_REBUILD => Some 1187 | ER_MASTER => Some 1188 | ER_MASTER_NET_READ => Some 1189
  | ER_MASTER_NET_WRITE => Some 1190 | ER_FT_MATCHING_KEY_NOT_FOUND => Some 1191
  | ER_LOCK_OR_ACTIVE_TRANSACTION => Some 1192 | ER_UNKNOWN_SYSTEM_VARIABLE => Some 1193
  | ER_CRASHED_ON_USAGE => Some 1194 | ER_CRASHED_ON_REPAIR => Some 1195
  | ER_WARNING_NOT_COMPLETE_ROLLBACK => Some 1196 | ER_TRANS_CACHE_FULL => Some 1197
  | ER_SLAVE_MUST_STOP => Some 1198 | ER_SLAVE_NOT_RUNNING => Some 1199
  | ER_BAD_SLAVE => Some 1200 | ER_MASTER_INF => Some 1201 | ER_SLAVE_THREAD => Some 1202
  | ER_TOO_MANY_USER_CONNECTIONS => Some 1203 | ER_SET_CONSTANTS_ONLY => Some 1204
  | ER_LOCK_WAIT_TIMEOUT => Some 1205 | ER_LOCK_TABLE_FULL => Some 1206
  | ER_READ_ONLY_TRANSACTION => Some 1207 | ER_DROP_DB_WITH_READ_LOCK => Some 1208
  | ER_CREATE_DB_WITH_READ_LOCK => Some 1209 | ER_WRONG_ARGUMENTS => Some 1210
  | ER_NO_PERMISSION_TO_CREATE_USER => Some 1211
  | ER_UNION_TABLES_IN_DIFFERENT_DIR => Some 1212 | ER_LOCK_DEADLOCK => Some 1213
  | ER_TABLE_CANT_HANDLE_FT => Some 1214 | ER_CANNOT_ADD_FOREIGN => Some 1215
  | ER_NO_REFERENCED_ROW => Some 1216 | ER_ROW_IS_REFERENCED => Some 1217
  | ER_CONNECT_TO_MASTER => Some 1218 | ER_QUERY_ON_MASTER => Some 1219
  | ER_ERROR_WHEN_EXECUTING_COMMAND => Some 1220 | ER_WRONG_USAGE => Some 1221
  | ER_WRONG_NUMBER_OF_COLUMNS_IN_SELECT => Some 1222
  | ER_CANT_UPDATE_WITH_READLOCK => Some 1223 | ER_MIXING_NOT_ALLOWED => Some 1224
  | _ => None
  end.

Definition repr_1225 (e : ErrorKind) : option Z :=
  match e with
  | ER_DUP_ARGUMENT => Some 1225 | ER_USER_LIMIT_REACHED => Some 1226
  | ER_SPECIFIC_ACCESS_DENIED_ERROR => Some 1227 | ER_LOCAL_VARIABLE => Some 1228
  | ER_GLOBAL_VARIABLE => Some 1229 | ER_NO_DEFAULT => Some 1230
  | ER_WRONG_VALUE_FOR_VAR => Some 1231 | ER_WRONG_TYPE_FOR_VAR => Some 1232
  | ER_VAR_CANT_BE_READ => Some 1233 | ER_CANT_USE_OPTION_HERE => Some 1234
  | ER_NOT_SUPPORTED_YET => Some 1235 | ER_MASTER_FATAL_ERROR_READING_BINLOG => Some 1236
  | ER_SLAVE_IGNORED_TABLE => Some 1237 | ER_INCORRECT_GLOBAL_LOCAL_VAR => Some 1238
  | ER_WRONG_FK_DEF => Some 1239 | ER_KEY_REF_DO_NOT_MATCH_TABLE_REF => Some 1240
  | ER_OPERAND_COLUMNS => Some 1241 | ER_SUBQUERY_NO_1_ROW => Some 1242
  | ER_UNKNOWN_STMT_HANDLER => Some 1243 | ER_CORRUPT_HELP_DB => Some 1244
  | ER_CYCLIC_REFERENCE => Some 1245 | ER_AUTO_CONVERT => Some 1246
  | ER_ILLEGAL_REFERENCE => Some 1247 | ER_DERIVED_MUST_HAVE_ALIAS => Some 1248
  | ER_SELECT_REDUCED => Some 1249 | ER_TABLENAME_NOT_ALLOWED_HERE => Some 1250
  | ER_NOT_SUPPORTED_AUTH_MODE => Some 1251 | ER_SPATIAL_CANT_HAVE_NULL => Some 1252
  | ER_COLLATION_CHARSET_MISMATCH => Some 1253 | ER_SLAVE_WAS_RUNNING => Some 1254
  | ER_SLAVE_WAS_NOT_RUNNING => Some 1255 | ER_TOO_BIG_FOR_UNCOMPRESS => Some 1256
  | ER_ZLIB_Z_MEM_ERROR => Some 1257 | ER_ZLIB_Z_BUF_ERROR => Some 1258
  | ER_ZLIB_Z_DATA_ERROR => Some 1259 | ER_CUT_VALUE_GROUP_CONCAT => Some 1260
  | ER_WARN_TOO_FEW_RECORDS => Some 1261 | ER_WARN_TOO_MANY_RECORDS => Some 1262
  | ER_WARN_NULL_TO_NOTNULL => Some 1263 | ER_WARN_DATA_OUT_OF_RANGE => Some 1264
  | WARN_DATA_TRUNCATED => Some 1265 | ER_WARN_USING_OTHER_HANDLER => Some 1266
  | ER_CANT_AGGREGATE_2COLLATIONS => Some 1267 | ER_DROP_USER => Some 1268
  | ER_REVOKE_GRANTS => Some 1269 | ER_CANT_AGGREGATE_3COLLATIONS => Some 1270
  | ER_CANT_AGGREGATE_NCOLLATIONS => Some 1271 | ER_VARIABLE_IS_NOT_STRUCT => Some 1272
  | ER_UNKNOWN_COLLATION => Some 1273 | ER_SLAVE_IGNORED_SSL_PARAMS => Some 1274
  | ER_SERVER_IS_IN_SECURE_AUTH_MODE => Some 1275 | ER_WARN_FIELD_RESOLVED => Some 1276
  | ER_BAD_SLAVE_UNTIL_COND => Some 1277 | ER_MISSING_SKIP_SLAVE => Some 1278
  | ER_UNTIL_COND_IGNORED => Some 1279 | ER_WRONG_NAME_FOR_INDEX => Some 1280
  | ER_WRONG_NAME_FOR_CATALOG => Some 1281 | ER_WARN_QC_RESIZE => Some 1282
  | ER_BAD_FT_COLUMN => Some 1283 | ER_UNKNOWN_KEY_CACHE => Some 1284
  | ER_WARN_HOSTNAME_WONT_WORK => Some 1285 | ER_UNKNOWN_STORAGE_ENGINE => Some 1286
  | ER_WARN_DEPRECATED_SYNTAX => Some 1287 | ER_NON_UPDATABLE_TABLE => Some 1288
  | ER_FEATURE_DISABLED => Some 1289 | ER_OPTION_PREVENTS_STATEMENT => Some 1290
  | ER_DUPLICATED_VALUE_IN_TYPE => Some 1291 | ER_TRUNCATED_WRONG_VALUE => Some 1292
  | ER_TOO_MUCH_AUTO_TIMESTAMP_COLS => Some 1293 | ER_INVALID_ON_UPDATE => Some 1294
  | ER_UNSUPPORTED_PS => Some 1295 | ER_GET_ERRMSG => Some 1296
  | ER_GET_TEMPORARY_ERRMSG => Some 1297 | ER_UNKNOWN_TIME_ZONE => Some 1298
  | ER_WARN_INVALID_TIMESTAMP => Some 1299
  | _ => None
  end.

Definition repr_1300 (e : ErrorKind) : option Z :=
  match e with
  | ER_INVALID_CHARACTER_STRING => Some 1300 | ER_WARN_ALLOWED_PACKET_OVERFLOWED => Some 1301
  | ER_CONFLICTING_DECLARATIONS => Some 1302 | ER_SP_NO_RECURSIVE_CREATE => Some 1303
  | ER_SP_ALREADY_EXISTS => Some 1304 | ER_SP_DOES_NOT_EXIST => Some 1305
  | ER_SP_DROP_FAILED => Some 1306 | ER_SP_STORE_FAILED => Some 1307
  | ER_SP_LILABEL_MISMATCH => Some 1308 | ER_SP_LABEL_REDEFINE => Some 1309
  | ER_SP_LABEL_MISMATCH => Some 1310 | ER_SP_UNINIT_VAR => Some 1311
  | ER_SP_BADSELECT => Some 1312 | ER_SP_BADRETURN => Some 1313
  | ER_SP_BADSTATEMENT => Some 1314 | ER_UPDATE_LOG_DEPRECATED_IGNORED => Some 1315
  | ER_UPDATE_LOG_DEPRECATED_TRANSLATED => Some 1316 | ER_QUERY_INTERRUPTED => Some 1317
  | ER_SP_WRONG_NO_OF_ARGS => Some 1318 | ER_SP_COND_MISMATCH => Some 1319
  | ER_SP_NORETURN => Some 1320 | ER_SP_NORETURNEND => Some 1321
  | ER_SP_BAD_CURSOR_QUERY => Some 1322 | ER_SP_BAD_CURSOR_SELECT => Some 1323
  | ER_SP_CURSOR_MISMATCH => Some 1324 | ER_SP_CURSOR_ALREADY_OPEN => Some 1325
  | ER_SP_CURSOR_NOT_OPEN => Some 1326 | ER_SP_UNDECLARED_VAR => Some 1327
  | ER_SP_WRONG_NO_OF_FETCH_ARGS => Some 1328 | ER_SP_FETCH_NO_DATA => Some 1329
  | ER_SP_DUP_PARAM => Some 1330 | ER_SP_DUP_VAR => Some 1331 | ER_SP_DUP_COND => Some 1332
  | ER_SP_DUP_CURS => Some 1333 | ER_SP_CANT_ALTER => Some 1334
  | ER_SP_SUBSELECT_NYI => Some 1335 | ER_STMT_NOT_ALLOWED_IN_SF_OR_TRG => Some 1336
  | ER_SP_VARCOND_AFTER_CURSHNDLR => Some 1337 | ER_SP_CURSOR_AFTER_HANDLER => Some 1338
  | ER_SP_CASE_NOT_FOUND => Some 1339 | ER_FPARSER_TOO_BIG_FILE => Some 1340
  | ER_FPARSER_BAD_HEADER => Some 1341 | ER_FPARSER_EOF_IN_COMMENT => Some 1342
  | ER_FPARSER_ERROR_IN_PARAMETER => Some 1343
  | ER_FPARSER_EOF_IN_UNKNOWN_PARAMETER => Some 1344 | ER_VIEW_NO_EXPLAIN => Some 1345
  | ER_FRM_UNKNOWN_TYPE => Some 1346 | ER_WRONG_OBJECT => Some 1347
  | ER_NONUPDATEABLE_COLUMN => Some 1348 | ER_VIEW_SELECT_DERIVED => Some 1349
  | ER_VIEW_SELECT_CLAUSE => Some 1350 | ER_VIEW_SELECT_VARIABLE => Some 1351
  | ER_VIEW_SELECT_TMPTABLE => Some 1352 | ER_VIEW_WRONG_LIST => Some 1353
  | ER_WARN_VIEW_MERGE => Some 1354 | ER_WARN_VIEW_WITHOUT_KEY => Some 1355
  | ER_VIEW_INVALID => Some 1356 | ER_SP_NO_DROP_SP => Some 1357
  | ER_SP_GOTO_IN_HNDLR => Some 1358 | ER_TRG_ALREADY_EXISTS => Some 1359
  | ER_TRG_DOES_NOT_EXIST => Some 1360 | ER_TRG_ON_VIEW_OR_TEMP_TABLE => Some 1361
  | ER_TRG_CANT_CHANGE_ROW => Some 1362 | ER_TRG_NO_SUCH_ROW_IN_TRG => Some 1363
  | ER_NO_DEFAULT_FOR_FIELD => Some 1364 | ER_DIVISION_BY_ZER => Some 1365
  | ER_TRUNCATED_WRONG_VALUE_FOR_FIELD => Some 1366 | ER_ILLEGAL_VALUE_FOR_TYPE => Some 1367
  | ER_VIEW_NONUPD_CHECK => Some 1368 | ER_VIEW_CHECK_FAILED => Some 1369
  | ER_PROCACCESS_DENIED_ERROR => Some 1370 | ER_RELAY_LOG_FAIL => Some 1371
  | ER_PASSWD_LENGTH => Some 1372 | ER_UNKNOWN_TARGET_BINLOG => Some 1373
  | ER_IO_ERR_LOG_INDEX_READ => Some 1374
  | _ => None
  end.

Definition repr_1375 (e : ErrorKind) : option Z :=
  match e with
  | ER_BINLOG_PURGE_PROHIBITED => Some 1375 | ER_FSEEK_FAIL => Some 1376
  | ER_BINLOG_PURGE_FATAL_ERR => Some 1377 | ER_LOG_IN_USE => Some 1378
  | ER_LOG_PURGE_UNKNOWN_ERR => Some 1379 | ER_RELAY_LOG_INIT => Some 1380
  | ER_NO_BINARY_LOGGING => Some 1381 | ER_RESERVED_SYNTAX => Some 1382
  | ER_WSAS_FAILED => Some 1383 | ER_DIFF_GROUPS_PROC => Some 1384
  | ER_NO_GROUP_FOR_PROC => Some 1385 | ER_ORDER_WITH_PROC => Some 1386
  | ER_LOGGING_PROHIBIT_CHANGING_OF => Some 1387 | ER_NO_FILE_MAPPING => Some 1388
  | ER_WRONG_MAGIC => Some 1389 | ER_PS_MANY_PARAM => Some 1390 | ER_KEY_PART_0 => Some 1391
  | ER_VIEW_CHECKSUM => Some 1392 | ER_VIEW_MULTIUPDATE => Some 1393
  | ER_VIEW_NO_INSERT_FIELD_LIST => Some 1394 | ER_VIEW_DELETE_MERGE_VIEW => Some 1395
  | ER_CANNOT_USER => Some 1396 | ER_XAER_NOTA => Some 1397 | ER_XAER_INVAL => Some 1398
  | ER_XAER_RMFAIL => Some 1399 | ER_XAER_OUTSIDE => Some 1400 | ER_XAER_RMERR => Some 1401
  | ER_XA_RBROLLBACK => Some 1402 | ER_NONEXISTING_PROC_GRANT => Some 1403
  | ER_PROC_AUTO_GRANT_FAIL => Some 1404 | ER_PROC_AUTO_REVOKE_FAIL => Some 1405
  | ER_DATA_TOO_LONG => Some 1406 | ER_SP_BAD_SQLSTATE => Some 1407 | ER_STARTUP => Some 1408
  | ER_LOAD_FROM_FIXED_SIZE_ROWS_TO_VAR => Some 1409
  | ER_CANT_CREATE_USER_WITH_GRANT => Some 1410 | ER_WRONG_VALUE_FOR_TYPE => Some 1411
  | ER_TABLE_DEF_CHANGED => Some 1412 | ER_SP_DUP_HANDLER => Some 1413
  | ER_SP_NOT_VAR_ARG => Some 1414 | ER_SP_NO_RETSET => Some 1415
  | ER_CANT_CREATE_GEOMETRY_OBJECT => Some 1416 | ER_FAILED_ROUTINE_BREAK_BINLOG => Some 1417
  | ER_BINLOG_UNSAFE_ROUTINE => Some 1418 | ER_BINLOG_CREATE_ROUTINE_NEED_SUPER => Some 1419
  | ER_EXEC_STMT_WITH_OPEN_CURSOR => Some 1420 | ER_STMT_HAS_NO_OPEN_CURSOR => Some 1421
  | ER_COMMIT_NOT_ALLOWED_IN_SF_OR_TRG => Some 1422 | ER_NO_DEFAULT_FOR_VIEW_FIELD => Some 1423
  | ER_SP_NO_RECURSION => Some 1424 | ER_TOO_BIG_SCALE => Some 1425
  | ER_TOO_BIG_PRECISION => Some 1426 | ER_M_BIGGER_THAN_D => Some 1427
  | ER_WRONG_LOCK_OF_SYSTEM_TABLE => Some 1428 | ER_CONNECT_TO_FOREIGN_DATA_SOURCE => Some 1429
  | ER_QUERY_ON_FOREIGN_DATA_SOURCE => Some 1430
  | ER_FOREIGN_DATA_SOURCE_DOESNT_EXIST => Some 1431
  | ER_FOREIGN_DATA_STRING_INVALID_CANT_CREATE => Some 1432
  | ER_FOREIGN_DATA_STRING_INVALID => Some 1433 | ER_CANT_CREATE_FEDERATED_TABLE => Some 1434
  | ER_TRG_IN_WRONG_SCHEMA => Some 1435 | ER_STACK_OVERRUN_NEED_MORE => Some 1436
  | ER_TOO_LONG_BODY => Some 1437 | ER_WARN_CANT_DROP_DEFAULT_KEYCACHE => Some 1438
  | ER_TOO_BIG_DISPLAYWIDTH => Some 1439 | ER_XAER_DUPID => Some 1440
  | ER_DATETIME_FUNCTION_OVERFLOW => Some 1441
  | ER_CANT_UPDATE_USED_TABLE_IN_SF_OR_TRG => Some 1442 | ER_VIEW_PREVENT_UPDATE => Some 1443
  | ER_PS_NO_RECURSION => Some 1444 | ER_SP_CANT_SET_AUTOCOMMIT => Some 1445
  | ER_MALFORMED_DEFINER => Some 1446 | ER_VIEW_FRM_NO_USER => Some 1447
  | ER_VIEW_OTHER_USER => Some 1448 | ER_NO_SUCH_USER => Some 1449
  | _ => None
  end.

Definition repr_1450 (e : ErrorKind) : option Z :=
  match e with
  | ER_FORBID_SCHEMA_CHANGE => Some 1450 | ER_ROW_IS_REFERENCED_2 => Some 1451
  | ER_NO_REFERENCED_ROW_2 => Some 1452 | ER_SP_BAD_VAR_SHADOW => Some 1453
  | ER_TRG_NO_DEFINER => Some 1454 | ER_OLD_FILE_FORMAT => Some 1455
  | ER_SP_RECURSION_LIMIT => Some 1456 | ER_SP_PROC_TABLE_CORRUPT => Some 1457
  | ER_SP_WRONG_NAME => Some 1458 | ER_TABLE_NEEDS_UPGRADE => Some 1459
  | ER_SP_NO_AGGREGATE => Some 1460 | ER_MAX_PREPARED_STMT_COUNT_REACHED => Some 1461
  | ER_VIEW_RECURSIVE => Some 1462 | ER_NON_GROUPING_FIELD_USED => Some 1463
  | ER_TABLE_CANT_HANDLE_SPKEYS => Some 1464 | ER_NO_TRIGGERS_ON_SYSTEM_SCHEMA => Some 1465
  | ER_REMOVED_SPACES => Some 1466 | ER_AUTOINC_READ_FAILED => Some 1467
  | ER_USERNAME => Some 1468 | ER_HOSTNAME => Some 1469 | ER_WRONG_STRING_LENGTH => Some 1470
  | ER_NON_INSERTABLE_TABLE => Some 1471 | ER_ADMIN_WRONG_MRG_TABLE => Some 1472
  | ER_TOO_HIGH_LEVEL_OF_NESTING_FOR_SELECT => Some 1473 | ER_NAME_BECOMES_EMPTY => Some 1474
  | ER_AMBIGUOUS_FIELD_TERM => Some 1475 | ER_FOREIGN_SERVER_EXISTS => Some 1476
  | ER_FOREIGN_SERVER_DOESNT_EXIST => Some 1477 | ER_ILLEGAL_HA_CREATE_OPTION => Some 1478
  | ER_PARTITION_REQUIRES_VALUES_ERROR => Some 1479
  | ER_PARTITION_WRONG_VALUES_ERROR => Some 1480 | ER_PARTITION_MAXVALUE_ERROR => Some 1481
  | ER_PARTITION_SUBPARTITION_ERROR => Some 1482 | ER_PARTITION_SUBPART_MIX_ERROR => Some 1483
  | ER_PARTITION_WRONG_NO_PART_ERROR => Some 1484
  | ER_PARTITION_WRONG_NO_SUBPART_ERROR => Some 1485
  | ER_WRONG_EXPR_IN_PARTITION_FUNC_ERROR => Some 1486
  | ER_NO_CONST_EXPR_IN_RANGE_OR_LIST_ERROR => Some 1487
  | ER_FIELD_NOT_FOUND_PART_ERROR => Some 1488
  | ER_LIST_OF_FIELDS_ONLY_IN_HASH_ERROR => Some 1489
  | ER_INCONSISTENT_PARTITION_INFO_ERROR => Some 1490
  | ER_PARTITION_FUNC_NOT_ALLOWED_ERROR => Some 1491
  | ER_PARTITIONS_MUST_BE_DEFINED_ERROR => Some 1492
  | ER_RANGE_NOT_INCREASING_ERROR => Some 1493
  | ER_INCONSISTENT_TYPE_OF_FUNCTIONS_ERROR => Some 1494
  | ER_MULTIPLE_DEF_CONST_IN_LIST_PART_ERROR => Some 1495
  | ER_PARTITION_ENTRY_ERROR => Some 1496 | ER_MIX_HANDLER_ERROR => Some 1497
  | ER_PARTITION_NOT_DEFINED_ERROR => Some 1498 | ER_TOO_MANY_PARTITIONS_ERROR => Some 1499
  | ER_SUBPARTITION_ERROR => Some 1500 | ER_CANT_CREATE_HANDLER_FILE => Some 1501
  | ER_BLOB_FIELD_IN_PART_FUNC_ERROR => Some 1502
  | ER_UNIQUE_KEY_NEED_ALL_FIELDS_IN_PF => Some 1503 | ER_NO_PARTS_ERROR => Some 1504
  | ER_PARTITION_MGMT_ON_NONPARTITIONED => Some 1505
  | ER_FOREIGN_KEY_ON_PARTITIONED => Some 1506 | ER_DROP_PARTITION_NON_EXISTENT => Some 1507
  | ER_DROP_LAST_PARTITION => Some 1508 | ER_COALESCE_ONLY_ON_HASH_PARTITION => Some 1509
  | ER_REORG_HASH_ONLY_ON_SAME_N => Some 1510 | ER_REORG_NO_PARAM_ERROR => Some 1511
  | ER_ONLY_ON_RANGE_LIST_PARTITION => Some 1512 | ER_ADD_PARTITION_SUBPART_ERROR => Some 1513
  | ER_ADD_PARTITION_NO_NEW_PARTITION => Some 1514
  | ER_COALESCE_PARTITION_NO_PARTITION => Some 1515 | ER_REORG_PARTITION_NOT_EXIST => Some 1516
  | ER_SAME_NAME_PARTITION => Some 1517 | ER_NO_BINLOG_ERROR => Some 1518
  | ER_CONSECUTIVE_REORG_PARTITIONS => Some 1519 | ER_REORG_OUTSIDE_RANGE => Some 1520
  | ER_PARTITION_FUNCTION_FAILURE => Some 1521 | ER_PART_STATE_ERROR => Some 1522
  | ER_LIMITED_PART_RANGE => Some 1523 | ER_PLUGIN_IS_NOT_LOADED => Some 1524
  | _ => None
  end.

Definition repr_1525 (e : ErrorKind) : option Z :=
  match e with
  | ER_WRONG_VALUE => Some 1525 | ER_NO_PARTITION_FOR_GIVEN_VALUE => Some 1526
  | ER_FILEGROUP_OPTION_ONLY_ONCE => Some 1527 | ER_CREATE_FILEGROUP_FAILED => Some 1528
  | ER_DROP_FILEGROUP_FAILED => Some 1529 | ER_TABLESPACE_AUTO_EXTEND_ERROR => Some 1530
  | ER_WRONG_SIZE_NUMBER => Some 1531 | ER_SIZE_OVERFLOW_ERROR => Some 1532
  | ER_ALTER_FILEGROUP_FAILED => Some 1533 | ER_BINLOG_ROW_LOGGING_FAILED => Some 1534
  | ER_BINLOG_ROW_WRONG_TABLE_DEF => Some 1535 | ER_BINLOG_ROW_RBR_TO_SBR => Some 1536
  | ER_EVENT_ALREADY_EXISTS => Some 1537 | ER_EVENT_STORE_FAILED => Some 1538
  | ER_EVENT_DOES_NOT_EXIST => Some 1539 | ER_EVENT_CANT_ALTER => Some 1540
  | ER_EVENT_DROP_FAILED => Some 1541 | ER_EVENT_INTERVAL_NOT_POSITIVE_OR_TOO_BIG => Some 1542
  | ER_EVENT_ENDS_BEFORE_STARTS => Some 1543 | ER_EVENT_EXEC_TIME_IN_THE_PAST => Some 1544
  | ER_EVENT_OPEN_TABLE_FAILED => Some 1545 | ER_EVENT_NEITHER_M_EXPR_NOR_M_AT => Some 1546
  | ER_COL_COUNT_DOESNT_MATCH_CORRUPTED => Some 1547 | ER_CANNOT_LOAD_FROM_TABLE => Some 1548
  | ER_EVENT_CANNOT_DELETE => Some 1549 | ER_EVENT_COMPILE_ERROR => Some 1550
  | ER_EVENT_SAME_NAME => Some 1551 | ER_EVENT_DATA_TOO_LONG => Some 1552
  | ER_DROP_INDEX_FK => Some 1553 | ER_WARN_DEPRECATED_SYNTAX_WITH_VER => Some 1554
  | ER_CANT_WRITE_LOCK_LOG_TABLE => Some 1555 | ER_CANT_LOCK_LOG_TABLE => Some 1556
  | ER_FOREIGN_DUPLICATE_KEY => Some 1557
  | ER_COL_COUNT_DOESNT_MATCH_PLEASE_UPDATE => Some 1558
  | ER_TEMP_TABLE_PREVENTS_SWITCH_OUT_OF_RBR => Some 1559
  | ER_STORED_FUNCTION_PREVENTS_SWITCH_BINLOG_FORMAT => Some 1560
  | ER_NDB_CANT_SWITCH_BINLOG_FORMAT => Some 1561 | ER_PARTITION_NO_TEMPORARY => Some 1562
  | ER_PARTITION_CONST_DOMAIN_ERROR => Some 1563
  | ER_PARTITION_FUNCTION_IS_NOT_ALLOWED => Some 1564 | ER_DDL_LOG_ERROR => Some 1565
  | ER_NULL_IN_VALUES_LESS_THAN => Some 1566 | ER_WRONG_PARTITION_NAME => Some 1567
  | ER_CANT_CHANGE_TX_ISOLATION => Some 1568 | ER_DUP_ENTRY_AUTOINCREMENT_CASE => Some 1569
  | ER_EVENT_MODIFY_QUEUE_ERROR => Some 1570 | ER_EVENT_SET_VAR_ERROR => Some 1571
  | ER_PARTITION_MERGE_ERROR => Some 1572 | ER_CANT_ACTIVATE_LOG => Some 1573
  | ER_RBR_NOT_AVAILABLE => Some 1574 | ER_BASE64_DECODE_ERROR => Some 1575
  | ER_EVENT_RECURSION_FORBIDDEN => Some 1576 | ER_EVENTS_DB_ERROR => Some 1577
  | ER_ONLY_INTEGERS_ALLOWED => Some 1578 | ER_UNSUPORTED_LOG_ENGINE => Some 1579
  | ER_BAD_LOG_STATEMENT => Some 1580 | ER_CANT_RENAME_LOG_TABLE => Some 1581
  | ER_WRONG_PARAMCOUNT_TO_NATIVE_FCT => Some 1582
  | ER_WRONG_PARAMETERS_TO_NATIVE_FCT => Some 1583
  | ER_WRONG_PARAMETERS_TO_STORED_FCT => Some 1584 | ER_NATIVE_FCT_NAME_COLLISION => Some 1585
  | ER_DUP_ENTRY_WITH_KEY_NAME => Some 1586 | ER_BINLOG_PURGE_EMFILE => Some 1587
  | ER_EVENT_CANNOT_CREATE_IN_THE_PAST => Some 1588
  | ER_EVENT_CANNOT_ALTER_IN_THE_PAST => Some 1589 | ER_SLAVE_INCIDENT => Some 1590
  | ER_NO_PARTITION_FOR_GIVEN_VALUE_SILENT => Some 1591
  | ER_BINLOG_UNSAFE_STATEMENT => Some 1592 | ER_SLAVE_FATAL_ERROR => Some 1593
  | ER_SLAVE_RELAY_LOG_READ_FAILURE => Some 1594
  | ER_SLAVE_RELAY_LOG_WRITE_FAILURE => Some 1595 | ER_SLAVE_CREATE_EVENT_FAILURE => Some 1596
  | ER_SLAVE_MASTER_COM_FAILURE => Some 1597 | ER_BINLOG_LOGGING_IMPOSSIBLE => Some 1598
  | ER_VIEW_NO_CREATION_CTX => Some 1599
  | _ => None
  end.

Definition repr_1600 (e : ErrorKind) : option Z :=
  match e with
  | ER_VIEW_INVALID_CREATION_CTX => Some 1600 | ER_SR_INVALID_CREATION_CTX => Some 1601
  | ER_TRG_CORRUPTED_FILE => Some 1602 | ER_TRG_NO_CREATION_CTX => Some 1603
  | ER_TRG_INVALID_CREATION_CTX => Some 1604 | ER_EVENT_INVALID_CREATION_CTX => Some 1605
  | ER_TRG_CANT_OPEN_TABLE => Some 1606 | ER_CANT_CREATE_SROUTINE => Some 1607
  | ER_UNUSED_11 => Some 1608
  | ER_NO_FORMAT_DESCRIPTION_EVENT_BEFORE_BINLOG_STATEMENT => Some 1609
  | ER_SLAVE_CORRUPT_EVENT => Some 1610 | ER_LOAD_DATA_INVALID_COLUMN => Some 1611
  | ER_LOG_PURGE_NO_FILE => Some 1612 | ER_XA_RBTIMEOUT => Some 1613
  | ER_XA_RBDEADLOCK => Some 1614 | ER_NEED_REPREPARE => Some 1615
  | ER_DELAYED_NOT_SUPPORTED => Some 1616 | WARN_NO_MASTER_INF => Some 1617
  | WARN_OPTION_IGNORED => Some 1618 | WARN_PLUGIN_DELETE_BUILTIN => Some 1619
  | WARN_PLUGIN_BUSY => Some 1620 | ER_VARIABLE_IS_READONLY => Some 1621
  | ER_WARN_ENGINE_TRANSACTION_ROLLBACK => Some 1622 | ER_SLAVE_HEARTBEAT_FAILURE => Some 1623
  | ER_SLAVE_HEARTBEAT_VALUE_OUT_OF_RANGE => Some 1624
  | ER_NDB_REPLICATION_SCHEMA_ERROR => Some 1625 | ER_CONFLICT_FN_PARSE_ERROR => Some 1626
  | ER_EXCEPTIONS_WRITE_ERROR => Some 1627 | ER_TOO_LONG_TABLE_COMMENT => Some 1628
  | ER_TOO_LONG_FIELD_COMMENT => Some 1629 | ER_FUNC_INEXISTENT_NAME_COLLISION => Some 1630
  | ER_DATABASE_NAME => Some 1631 | ER_TABLE_NAME => Some 1632 | ER_PARTITION_NAME => Some 1633
  | ER_SUBPARTITION_NAME => Some 1634 | ER_TEMPORARY_NAME => Some 1635
  | ER_RENAMED_NAME => Some 1636 | ER_TOO_MANY_CONCURRENT_TRXS => Some 1637
  | WARN_NON_ASCII_SEPARATOR_NOT_IMPLEMENTED => Some 1638 | ER_DEBUG_SYNC_TIMEOUT => Some 1639
  | ER_DEBUG_SYNC_HIT_LIMIT => Some 1640 | ER_DUP_SIGNAL_SET => Some 1641
  | ER_SIGNAL_WARN => Some 1642 | ER_SIGNAL_NOT_FOUND => Some 1643
  | ER_SIGNAL_EXCEPTION => Some 1644 | ER_RESIGNAL_WITHOUT_ACTIVE_HANDLER => Some 1645
  | ER_SIGNAL_BAD_CONDITION_TYPE => Some 1646 | WARN_COND_ITEM_TRUNCATED => Some 1647
  | ER_COND_ITEM_TOO_LONG => Some 1648 | ER_UNKNOWN_LOCALE => Some 1649
  | ER_SLAVE_IGNORE_SERVER_IDS => Some 1650 | ER_QUERY_CACHE_DISABLED => Some 1651
  | ER_SAME_NAME_PARTITION_FIELD => Some 1652 | ER_PARTITION_COLUMN_LIST_ERROR => Some 1653
  | ER_WRONG_TYPE_COLUMN_VALUE_ERROR => Some 1654
  | ER_TOO_MANY_PARTITION_FUNC_FIELDS_ERROR => Some 1655
  | ER_MAXVALUE_IN_VALUES_IN => Some 1656 | ER_TOO_MANY_VALUES_ERROR => Some 1657
  | ER_ROW_SINGLE_PARTITION_FIELD_ERROR => Some 1658
  | ER_FIELD_TYPE_NOT_ALLOWED_AS_PARTITION_FIELD => Some 1659
  | ER_PARTITION_FIELDS_TOO_LONG => Some 1660
  | ER_BINLOG_ROW_ENGINE_AND_STMT_ENGINE => Some 1661
  | ER_BINLOG_ROW_MODE_AND_STMT_ENGINE => Some 1662
  | ER_BINLOG_UNSAFE_AND_STMT_ENGINE => Some 1663
  | ER_BINLOG_ROW_INJECTION_AND_STMT_ENGINE => Some 1664
  | ER_BINLOG_STMT_MODE_AND_ROW_ENGINE => Some 1665
  | ER_BINLOG_ROW_INJECTION_AND_STMT_MODE => Some 1666
  | ER_BINLOG_MULTIPLE_ENGINES_AND_SELF_LOGGING_ENGINE => Some 1667
  | ER_BINLOG_UNSAFE_LIMIT => Some 1668 | ER_BINLOG_UNSAFE_INSERT_DELAYED => Some 1669
  | ER_BINLOG_UNSAFE_SYSTEM_TABLE => Some 1670 | ER_BINLOG_UNSAFE_AUTOINC_COLUMNS => Some 1671
  | ER_BINLOG_UNSAFE_UDF => Some 1672 | ER_BINLOG_UNSAFE_SYSTEM_VARIABLE => Some 1673
  | ER_BINLOG_UNSAFE_SYSTEM_FUNCTION => Some 1674
  | _ => None
  end.

Definition repr_1675 (e : ErrorKind) : option Z :=
  match e with
  | ER_BINLOG_UNSAFE_NONTRANS_AFTER_TRANS => Some 1675 | ER_MESSAGE_AND_STATEMENT => Some 1676
  | ER_SLAVE_CONVERSION_FAILED => Some 1677 | ER_SLAVE_CANT_CREATE_CONVERSION => Some 1678
  | ER_INSIDE_TRANSACTION_PREVENTS_SWITCH_BINLOG_FORMAT => Some 1679
  | ER_PATH_LENGTH => Some 1680 | ER_WARN_DEPRECATED_SYNTAX_NO_REPLACEMENT => Some 1681
  | ER_WRONG_NATIVE_TABLE_STRUCTURE => Some 1682 | ER_WRONG_PERFSCHEMA_USAGE => Some 1683
  | ER_WARN_I_S_SKIPPED_TABLE => Some 1684
  | ER_INSIDE_TRANSACTION_PREVENTS_SWITCH_BINLOG_DIRECT => Some 1685
  | ER_STORED_FUNCTION_PREVENTS_SWITCH_BINLOG_DIRECT => Some 1686
  | ER_SPATIAL_MUST_HAVE_GEOM_COL => Some 1687 | ER_TOO_LONG_INDEX_COMMENT => Some 1688
  | ER_LOCK_ABORTED => Some 1689 | ER_DATA_OUT_OF_RANGE => Some 1690
  | ER_WRONG_SPVAR_TYPE_IN_LIMIT => Some 1691
  | ER_BINLOG_UNSAFE_MULTIPLE_ENGINES_AND_SELF_LOGGING_ENGINE => Some 1692
  | ER_BINLOG_UNSAFE_MIXED_STATEMENT => Some 1693
  | ER_INSIDE_TRANSACTION_PREVENTS_SWITCH_SQL_LOG_BIN => Some 1694
  | ER_STORED_FUNCTION_PREVENTS_SWITCH_SQL_LOG_BIN => Some 1695
  | ER_FAILED_READ_FROM_PAR_FILE => Some 1696 | ER_VALUES_IS_NOT_INT_TYPE_ERROR => Some 1697
  | ER_ACCESS_DENIED_NO_PASSWORD_ERROR => Some 1698 | ER_SET_PASSWORD_AUTH_PLUGIN => Some 1699
  | ER_GRANT_PLUGIN_USER_EXISTS => Some 1700 | ER_TRUNCATE_ILLEGAL_FK => Some 1701
  | ER_PLUGIN_IS_PERMANENT => Some 1702
  | ER_SLAVE_HEARTBEAT_VALUE_OUT_OF_RANGE_MIN => Some 1703
  | ER_SLAVE_HEARTBEAT_VALUE_OUT_OF_RANGE_MAX => Some 1704 | ER_STMT_CACHE_FULL => Some 1705
  | ER_MULTI_UPDATE_KEY_CONFLICT => Some 1706 | ER_TABLE_NEEDS_REBUILD => Some 1707
  | WARN_OPTION_BELOW_LIMIT => Some 1708 | ER_INDEX_COLUMN_TOO_LONG => Some 1709
  | ER_ERROR_IN_TRIGGER_BODY => Some 1710 | ER_ERROR_IN_UNKNOWN_TRIGGER_BODY => Some 1711
  | ER_INDEX_CORRUPT => Some 1712 | ER_UNDO_RECORD_TOO_BIG => Some 1713
  | ER_BINLOG_UNSAFE_INSERT_IGNORE_SELECT => Some 1714
  | ER_BINLOG_UNSAFE_INSERT_SELECT_UPDATE => Some 1715
  | ER_BINLOG_UNSAFE_REPLACE_SELECT => Some 1716
  | ER_BINLOG_UNSAFE_CREATE_IGNORE_SELECT => Some 1717
  | ER_BINLOG_UNSAFE_CREATE_REPLACE_SELECT => Some 1718
  | ER_BINLOG_UNSAFE_UPDATE_IGNORE => Some 1719 | ER_PLUGIN_NO_UNINSTALL => Some 1720
  | ER_PLUGIN_NO_INSTALL => Some 1721 | ER_BINLOG_UNSAFE_WRITE_AUTOINC_SELECT => Some 1722
  | ER_BINLOG_UNSAFE_CREATE_SELECT_AUTOINC => Some 1723
  | ER_BINLOG_UNSAFE_INSERT_TWO_KEYS => Some 1724 | ER_TABLE_IN_FK_CHECK => Some 1725
  | ER_UNSUPPORTED_ENGINE => Some 1726 | ER_BINLOG_UNSAFE_AUTOINC_NOT_FIRST => Some 1727
  | ER_CANNOT_LOAD_FROM_TABLE_V2 => Some 1728 | ER_MASTER_DELAY_VALUE_OUT_OF_RANGE => Some 1729
  | ER_ONLY_FD_AND_RBR_EVENTS_ALLOWED_IN_BINLOG_STATEMENT => Some 1730
  | ER_PARTITION_EXCHANGE_DIFFERENT_OPTION => Some 1731
  | ER_PARTITION_EXCHANGE_PART_TABLE => Some 1732
  | ER_PARTITION_EXCHANGE_TEMP_TABLE => Some 1733
  | ER_PARTITION_INSTEAD_OF_SUBPARTITION => Some 1734 | ER_UNKNOWN_PARTITION => Some 1735
  | ER_TABLES_DIFFERENT_METADATA => Some 1736 | ER_ROW_DOES_NOT_MATCH_PARTITION => Some 1737
  | ER_BINLOG_CACHE_SIZE_GREATER_THAN_MAX => Some 1738
  | ER_WARN_INDEX_NOT_APPLICABLE => Some 1739 | ER_PARTITION_EXCHANGE_FOREIGN_KEY => Some 1740
  | ER_NO_SUCH_KEY_VALUE => Some 1741 | ER_RPL_INFO_DATA_TOO_LONG => Some 1742
  | ER_NETWORK_READ_EVENT_CHECKSUM_FAILURE => Some 1743
  | ER_BINLOG_READ_EVENT_CHECKSUM_FAILURE => Some 1744
  | ER_BINLOG_STMT_CACHE_SIZE_GREATER_THAN_MAX => Some 1745
  | ER_CANT_UPDATE_TABLE_IN_CREATE_TABLE_SELECT => Some 1746
  | ER_PARTITION_CLAUSE_ON_NONPARTITIONED => Some 1747
  | ER_ROW_DOES_NOT_MATCH_GIVEN_PARTITION_SET => Some 1748
  | ER_NO_SUCH_PARTITION_UNUSED => Some 1749
  | _ => None
  end.

Definition repr_1750 (e : ErrorKind) : option Z :=
  match e with
  | ER_CHANGE_RPL_INFO_REPOSITORY_FAILURE => Some 1750
  | ER_WARNING_NOT_COMPLETE_ROLLBACK_WITH_CREATED_TEMP_TABLE => Some 1751
  | ER_WARNING_NOT_COMPLETE_ROLLBACK_WITH_DROPPED_TEMP_TABLE => Some 1752
  | ER_MTS_FEATURE_IS_NOT_SUPPORTED => Some 1753 | ER_MTS_UPDATED_DBS_GREATER_MAX => Some 1754
  | ER_MTS_CANT_PARALLEL => Some 1755 | ER_MTS_INCONSISTENT_DATA => Some 1756
  | ER_FULLTEXT_NOT_SUPPORTED_WITH_PARTITIONING => Some 1757
  | ER_DA_INVALID_CONDITION_NUMBER => Some 1758 | ER_INSECURE_PLAIN_TEXT => Some 1759
  | ER_INSECURE_CHANGE_MASTER => Some 1760
  | ER_FOREIGN_DUPLICATE_KEY_WITH_CHILD_INFO => Some 1761
  | ER_FOREIGN_DUPLICATE_KEY_WITHOUT_CHILD_INFO => Some 1762
  | ER_SQLTHREAD_WITH_SECURE_SLAVE => Some 1763 | ER_TABLE_HAS_NO_FT => Some 1764
  | ER_VARIABLE_NOT_SETTABLE_IN_SF_OR_TRIGGER => Some 1765
  | ER_VARIABLE_NOT_SETTABLE_IN_TRANSACTION => Some 1766
  | ER_GTID_NEXT_IS_NOT_IN_GTID_NEXT_LIST => Some 1767
  | ER_CANT_CHANGE_GTID_NEXT_IN_TRANSACTION_WHEN_GTID_NEXT_LIST_IS_NULL => Some 1768
  | ER_SET_STATEMENT_CANNOT_INVOKE_FUNCTION => Some 1769
  | ER_GTID_NEXT_CANT_BE_AUTOMATIC_IF_GTID_NEXT_LIST_IS_NON_NULL => Some 1770
  | ER_SKIPPING_LOGGED_TRANSACTION => Some 1771
  | ER_MALFORMED_GTID_SET_SPECIFICATION => Some 1772
  | ER_MALFORMED_GTID_SET_ENCODING => Some 1773 | ER_MALFORMED_GTID_SPECIFICATION => Some 1774
  | ER_GNO_EXHAUSTED => Some 1775 | ER_BAD_SLAVE_AUTO_POSITION => Some 1776
  | ER_AUTO_POSITION_REQUIRES_GTID_MODE_ON => Some 1777
  | ER_CANT_DO_IMPLICIT_COMMIT_IN_TRX_WHEN_GTID_NEXT_IS_SET => Some 1778
  | ER_GTID_MODE_2_OR_3_REQUIRES_DISABLE_GTID_UNSAFE_STATEMENTS_ON => Some 1779
  | ER_GTID_MODE_REQUIRES_BINLOG => Some 1780
  | ER_CANT_SET_GTID_NEXT_TO_GTID_WHEN_GTID_MODE_IS_OFF => Some 1781
  | ER_CANT_SET_GTID_NEXT_TO_ANONYMOUS_WHEN_GTID_MODE_IS_ON => Some 1782
  | ER_CANT_SET_GTID_NEXT_LIST_TO_NON_NULL_WHEN_GTID_MODE_IS_OFF => Some 1783
  | ER_FOUND_GTID_EVENT_WHEN_GTID_MODE_IS_OFF => Some 1784
  | ER_GTID_UNSAFE_NON_TRANSACTIONAL_TABLE => Some 1785
  | ER_GTID_UNSAFE_CREATE_SELECT => Some 1786
  | ER_GTID_UNSAFE_CREATE_DROP_TEMPORARY_TABLE_IN_TRANSACTION => Some 1787
  | ER_GTID_MODE_CAN_ONLY_CHANGE_ONE_STEP_AT_A_TIME => Some 1788
  | ER_MASTER_HAS_PURGED_REQUIRED_GTIDS => Some 1789
  | ER_CANT_SET_GTID_NEXT_WHEN_OWNING_GTID => Some 1790
  | ER_UNKNOWN_EXPLAIN_FORMAT => Some 1791
  | ER_CANT_EXECUTE_IN_READ_ONLY_TRANSACTION => Some 1792
  | ER_TOO_LONG_TABLE_PARTITION_COMMENT => Some 1793 | ER_SLAVE_CONFIGURATION => Some 1794
  | ER_INNODB_FT_LIMIT => Some 1795 | ER_INNODB_NO_FT_TEMP_TABLE => Some 1796
  | ER_INNODB_FT_WRONG_DOCID_COLUMN => Some 1797 | ER_INNODB_FT_WRONG_DOCID_INDEX => Some 1798
  | ER_INNODB_ONLINE_LOG_TOO_BIG => Some 1799 | ER_UNKNOWN_ALTER_ALGORITHM => Some 1800
  | ER_UNKNOWN_ALTER_LOCK => Some 1801 | ER_MTS_CHANGE_MASTER_CANT_RUN_WITH_GAPS => Some 1802
  | ER_MTS_RECOVERY_FAILURE => Some 1803 | ER_MTS_RESET_WORKERS => Some 1804
  | ER_COL_COUNT_DOESNT_MATCH_CORRUPTED_V2 => Some 1805
  | ER_SLAVE_SILENT_RETRY_TRANSACTION => Some 1806 | ER_DISCARD_FK_CHECKS_RUNNING => Some 1807
  | ER_TABLE_SCHEMA_MISMATCH => Some 1808 | ER_TABLE_IN_SYSTEM_TABLESPACE => Some 1809
  | ER_IO_READ_ERROR => Some 1810 | ER_IO_WRITE_ERROR => Some 1811
  | ER_TABLESPACE_MISSING => Some 1812 | ER_TABLESPACE_EXISTS => Some 1813
  | ER_TABLESPACE_DISCARDED => Some 1814 | ER_INTERNAL_ERROR => Some 1815
  | ER_INNODB_IMPORT_ERROR => Some 1816 | ER_INNODB_INDEX_CORRUPT => Some 1817
  | ER_INVALID_YEAR_COLUMN_LENGTH => Some 1818 | ER_NOT_VALID_PASSWORD => Some 1819
  | ER_MUST_CHANGE_PASSWORD => Some 1820 | ER_FK_NO_INDEX_CHILD => Some 1821
  | ER_FK_NO_INDEX_PARENT => Some 1822 | ER_FK_FAIL_ADD_SYSTEM => Some 1823
  | ER_FK_CANNOT_OPEN_PARENT => Some 1824
  | _ => None
  end.

Definition repr_1825 (e : ErrorKind) : option Z :=
  match e with
  | ER_FK_INCORRECT_OPTION => Some 1825 | ER_FK_DUP_NAME => Some 1826
  | ER_PASSWORD_FORMAT => Some 1827 | ER_FK_COLUMN_CANNOT_DROP => Some 1828
  | ER_FK_COLUMN_CANNOT_DROP_CHILD => Some 1829 | ER_FK_COLUMN_NOT_NULL => Some 1830
  | ER_DUP_INDEX => Some 1831 | ER_FK_COLUMN_CANNOT_CHANGE => Some 1832
  | ER_FK_COLUMN_CANNOT_CHANGE_CHILD => Some 1833 | ER_FK_CANNOT_DELETE_PARENT => Some 1834
  | ER_MALFORMED_PACKET => Some 1835 | ER_READ_ONLY_MODE => Some 1836
  | ER_GTID_NEXT_TYPE_UNDEFINED_GROUP => Some 1837
  | ER_VARIABLE_NOT_SETTABLE_IN_SP => Some 1838
  | ER_CANT_SET_GTID_PURGED_WHEN_GTID_MODE_IS_OFF => Some 1839
  | ER_CANT_SET_GTID_PURGED_WHEN_GTID_EXECUTED_IS_NOT_EMPTY => Some 1840
  | ER_CANT_SET_GTID_PURGED_WHEN_OWNED_GTIDS_IS_NOT_EMPTY => Some 1841
  | ER_GTID_PURGED_WAS_CHANGED => Some 1842 | ER_GTID_EXECUTED_WAS_CHANGED => Some 1843
  | ER_BINLOG_STMT_MODE_AND_NO_REPL_TABLES => Some 1844
  | ER_ALTER_OPERATION_NOT_SUPPORTED => Some 1845
  | ER_ALTER_OPERATION_NOT_SUPPORTED_REASON => Some 1846
  | ER_ALTER_OPERATION_NOT_SUPPORTED_REASON_COPY => Some 1847
  | ER_ALTER_OPERATION_NOT_SUPPORTED_REASON_PARTITION => Some 1848
  | ER_ALTER_OPERATION_NOT_SUPPORTED_REASON_FK_RENAME => Some 1849
  | ER_ALTER_OPERATION_NOT_SUPPORTED_REASON_COLUMN_TYPE => Some 1850
  | ER_ALTER_OPERATION_NOT_SUPPORTED_REASON_FK_CHECK => Some 1851
  | ER_ALTER_OPERATION_NOT_SUPPORTED_REASON_IGNORE => Some 1852
  | ER_ALTER_OPERATION_NOT_SUPPORTED_REASON_NOPK => Some 1853
  | ER_ALTER_OPERATION_NOT_SUPPORTED_REASON_AUTOINC => Some 1854
  | ER_ALTER_OPERATION_NOT_SUPPORTED_REASON_HIDDEN_FTS => Some 1855
  | ER_ALTER_OPERATION_NOT_SUPPORTED_REASON_CHANGE_FTS => Some 1856
  | ER_ALTER_OPERATION_NOT_SUPPORTED_REASON_FTS => Some 1857
  | ER_SQL_SLAVE_SKIP_COUNTER_NOT_SETTABLE_IN_GTID_MODE => Some 1858
  | ER_DUP_UNKNOWN_IN_INDEX => Some 1859 | ER_IDENT_CAUSES_TOO_LONG_PATH => Some 1860
  | ER_ALTER_OPERATION_NOT_SUPPORTED_REASON_NOT_NULL => Some 1861
  | ER_MUST_CHANGE_PASSWORD_LOGIN => Some 1862 | ER_ROW_IN_WRONG_PARTITION => Some 1863
  | ER_MTS_EVENT_BIGGER_PENDING_JOBS_SIZE_MAX => Some 1864
  | ER_INNODB_NO_FT_USES_PARSER => Some 1865 | ER_BINLOG_LOGICAL_CORRUPTION => Some 1866
  | ER_WARN_PURGE_LOG_IN_USE => Some 1867 | ER_WARN_PURGE_LOG_IS_ACTIVE => Some 1868
  | ER_AUTO_INCREMENT_CONFLICT => Some 1869 | WARN_ON_BLOCKHOLE_IN_RBR => Some 1870
  | ER_SLAVE_MI_INIT_REPOSITORY => Some 1871 | ER_SLAVE_RLI_INIT_REPOSITORY => Some 1872
  | ER_ACCESS_DENIED_CHANGE_USER_ERROR => Some 1873 | ER_INNODB_READ_ONLY => Some 1874
  | ER_STOP_SLAVE_SQL_THREAD_TIMEOUT => Some 1875
  | ER_STOP_SLAVE_IO_THREAD_TIMEOUT => Some 1876 | ER_TABLE_CORRUPT => Some 1877
  | ER_TEMP_FILE_WRITE_FAILURE => Some 1878 | ER_INNODB_FT_AUX_NOT_HEX_ID => Some 1879
  | ER_OLD_TEMPORALS_UPGRADED => Some 1880 | ER_INNODB_FORCED_RECOVERY => Some 1881
  | ER_AES_INVALID_IV => Some 1882 | ER_PLUGIN_CANNOT_BE_UNINSTALLED => Some 1883
  | ER_GTID_UNSAFE_BINLOG_SPLITTABLE_STATEMENT_AND_GTID_GROUP => Some 1884
  | ER_SLAVE_HAS_MORE_GTIDS_THAN_MASTER => Some 1885
  | _ => None
  end.

(** [e as u16] *)
Definition error_u16 (e : ErrorKind) : Z :=
  default 0 (
    repr_1000 e <|> repr_1075 e <|> repr_1150 e <|> repr_1225 e <|> repr_1300 e
    <|> repr_1375 e <|> repr_1450 e <|> repr_1525 e <|> repr_1600 e <|> repr_1675 e
    <|> repr_1750 e <|> repr_1825 e).

(** The arms of [From<u16>]. *)
Definition from_1000 : list (Z * ErrorKind) :=
  [(1000, ER_HASHCHK); (1001, ER_NISAMCHK); (1002, ER_NO); (1003, ER_YES);
   (1004, ER_CANT_CREATE_FILE); (1005, ER_CANT_CREATE_TABLE); (1006, ER_CANT_CREATE_DB);
   (1007, ER_DB_CREATE_EXISTS); (1008, ER_DB_DROP_EXISTS); (1009, ER_DB_DROP_DELETE);
   (1010, ER_DB_DROP_RMDIR); (1011, ER_CANT_DELETE_FILE); (1012, ER_CANT_FIND_SYSTEM_REC);
   (1013, ER_CANT_GET_STAT); (1014, ER_CANT_GET_WD); (1015, ER_CANT_LOCK);
   (1016, ER_CANT_OPEN_FILE); (1017, ER_FILE_NOT_FOUND); (1018, ER_CANT_READ_DIR);
   (1019, ER_CANT_SET_WD); (1020, ER_CHECKREAD); (1021, ER_DISK_FULL); (1022, ER_DUP_KEY);
   (1023, ER_ERROR_ON_CLOSE); (1024, ER_ERROR_ON_READ); (1025, ER_ERROR_ON_RENAME);
   (1026, ER_ERROR_ON_WRITE); (1027, ER_FILE_USED); (1028, ER_FILSORT_ABORT);
   (1029, ER_FORM_NOT_FOUND); (1030, ER_GET_ERRN); (1031, ER_ILLEGAL_HA);
   (1032, ER_KEY_NOT_FOUND); (1033, ER_NOT_FORM_FILE); (1034, ER_NOT_KEYFILE);
   (1035, ER_OLD_KEYFILE); (1036, ER_OPEN_AS_READONLY); (1037, ER_OUTOFMEMORY);
   (1038, ER_OUT_OF_SORTMEMORY); (1039, ER_UNEXPECTED_EOF); (1040, ER_CON_COUNT_ERROR);
   (1041, ER_OUT_OF_RESOURCES); (1042, ER_BAD_HOST_ERROR); (1043, ER_HANDSHAKE_ERROR);
   (1044, ER_DBACCESS_DENIED_ERROR); (1045, ER_ACCESS_DENIED_ERROR); (1046, ER_NO_DB_ERROR);
   (1047, ER_UNKNOWN_COM_ERROR); (1048, ER_BAD_NULL_ERROR); (1049, ER_BAD_DB_ERROR);
   (1050, ER_TABLE_EXISTS_ERROR); (1051, ER_BAD_TABLE_ERROR); (1052, ER_NON_UNIQ_ERROR);
   (1053, ER_SERVER_SHUTDOWN); (1054, ER_BAD_FIELD_ERROR); (1055, ER_WRONG_FIELD_WITH_GROUP);
   (1056, ER_WRONG_GROUP_FIELD); (1057, ER_WRONG_SUM_SELECT); (1058, ER_WRONG_VALUE_COUNT);
   (1059, ER_TOO_LONG_IDENT); (1060, ER_DUP_FIELDNAME); (1061, ER_DUP_KEYNAME);
   (1062, ER_DUP_ENTRY); (1063, ER_WRONG_FIELD_SPEC); (1064, ER_PARSE_ERROR);
   (1065, ER_EMPTY_QUERY); (1066, ER_NONUNIQ_TABLE); (1067, ER_INVALID_DEFAULT);
   (1068, ER_MULTIPLE_PRI_KEY); (1069, ER_TOO_MANY_KEYS); (1070, ER_TOO_MANY_KEY_PARTS);
   (1071, ER_TOO_LONG_KEY); (1072, ER_KEY_COLUMN_DOES_NOT_EXITS); (1073, ER_BLOB_USED_AS_KEY);
   (1074, ER_TOO_BIG_FIELDLENGTH); (1075, ER_WRONG_AUTO_KEY); (1076, ER_READY);
   (1077, ER_NORMAL_SHUTDOWN); (1078, ER_GOT_SIGNAL); (1079, ER_SHUTDOWN_COMPLETE);
   (1080, ER_FORCING_CLOSE); (1081, ER_IPSOCK_ERROR); (1082, ER_NO_SUCH_INDEX);
   (1083, ER_WRONG_FIELD_TERMINATORS); (1084, ER_BLOBS_AND_NO_TERMINATED);
   (1085, ER_TEXTFILE_NOT_READABLE); (1086, ER_FILE_EXISTS_ERROR); (1087, ER_LOAD_INF);
   (1088, ER_ALTER_INF); (1089, ER_WRONG_SUB_KEY); (1090, ER_CANT_REMOVE_ALL_FIELDS);
   (1091, ER_CANT_DROP_FIELD_OR_KEY); (1092, ER_INSERT_INF); (1093, ER_UPDATE_TABLE_USED);
   (1094, ER_NO_SUCH_THREAD); (1095, ER_KILL_DENIED_ERROR); (1096, ER_NO_TABLES_USED);
   (1097, ER_TOO_BIG_SET); (1098, ER_NO_UNIQUE_LOGFILE); (1099, ER_TABLE_NOT_LOCKED_FOR_WRITE)].

Definition from_1100 : list (Z * ErrorKind) :=
  [(1100, ER_TABLE_NOT_LOCKED); (1101, ER_BLOB_CANT_HAVE_DEFAULT); (1102, ER_WRONG_DB_NAME);
   (1103, ER_WRONG_TABLE_NAME); (1104, ER_TOO_BIG_SELECT); (1105, ER_UNKNOWN_ERROR);
   (1106, ER_UNKNOWN_PROCEDURE); (1107, ER_WRONG_PARAMCOUNT_TO_PROCEDURE);
   (1108, ER_WRONG_PARAMETERS_TO_PROCEDURE); (1109, ER_UNKNOWN_TABLE);
   (1110, ER_FIELD_SPECIFIED_TWICE); (1111, ER_INVALID_GROUP_FUNC_USE);
   (1112, ER_UNSUPPORTED_EXTENSION); (1113, ER_TABLE_MUST_HAVE_COLUMNS);
   (1114, ER_RECORD_FILE_FULL); (1115, ER_UNKNOWN_CHARACTER_SET); (1116, ER_TOO_MANY_TABLES);
   (1117, ER_TOO_MANY_FIELDS); (1118, ER_TOO_BIG_ROWSIZE); (1119, ER_STACK_OVERRUN);
   (1120, ER_WRONG_OUTER_JOIN); (1121, ER_NULL_COLUMN_IN_INDEX); (1122, ER_CANT_FIND_UDF);
   (1123, ER_CANT_INITIALIZE_UDF); (1124, ER_UDF_NO_PATHS); (1125, ER_UDF_EXISTS);
   (1126, ER_CANT_OPEN_LIBRARY); (1127, ER_CANT_FIND_DL_ENTRY);
   (1128, ER_FUNCTION_NOT_DEFINED); (1129, ER_HOST_IS_BLOCKED); (1130, ER_HOST_NOT_PRIVILEGED);
   (1131, ER_PASSWORD_ANONYMOUS_USER); (1132, ER_PASSWORD_NOT_ALLOWED);
   (1133, ER_PASSWORD_NO_MATCH); (1134, ER_UPDATE_INF); (1135, ER_CANT_CREATE_THREAD);
   (1136, ER_WRONG_VALUE_COUNT_ON_ROW); (1137, ER_CANT_REOPEN_TABLE);
   (1138, ER_INVALID_USE_OF_NULL); (1139, ER_REGEXP_ERROR);
   (1140, ER_MIX_OF_GROUP_FUNC_AND_FIELDS); (1141, ER_NONEXISTING_GRANT);
   (1142, ER_TABLEACCESS_DENIED_ERROR); (1143, ER_COLUMNACCESS_DENIED_ERROR);
   (1144, ER_ILLEGAL_GRANT_FOR_TABLE); (1145, ER_GRANT_WRONG_HOST_OR_USER);
   (1146, ER_NO_SUCH_TABLE); (1147, ER_NONEXISTING_TABLE_GRANT);
   (1148, ER_NOT_ALLOWED_COMMAND); (1149, ER_SYNTAX_ERROR);
   (1150, ER_DELAYED_CANT_CHANGE_LOCK); (1151, ER_TOO_MANY_DELAYED_THREADS);
   (1152, ER_ABORTING_CONNECTION); (1153, ER_NET_PACKET_TOO_LARGE);
   (1154, ER_NET_READ_ERROR_FROM_PIPE); (1155, ER_NET_FCNTL_ERROR);
   (1156, ER_NET_PACKETS_OUT_OF_ORDER); (1157, ER_NET_UNCOMPRESS_ERROR);
   (1158, ER_NET_READ_ERROR); (1159, ER_NET_READ_INTERRUPTED); (1160, ER_NET_ERROR_ON_WRITE);
   (1161, ER_NET_WRITE_INTERRUPTED); (1162, ER_TOO_LONG_STRING);
   (1163, ER_TABLE_CANT_HANDLE_BLOB); (1164, ER_TABLE_CANT_HANDLE_AUTO_INCREMENT);
   (1165, ER_DELAYED_INSERT_TABLE_LOCKED); (1166, ER_WRONG_COLUMN_NAME);
   (1167, ER_WRONG_KEY_COLUMN); (1168, ER_WRONG_MRG_TABLE); (1169, ER_DUP_UNIQUE);
   (1170, ER_BLOB_KEY_WITHOUT_LENGTH); (1171, ER_PRIMARY_CANT_HAVE_NULL);
   (1172, ER_TOO_MANY_ROWS); (1173, ER_REQUIRES_PRIMARY_KEY); (1174, ER_NO_RAID_COMPILED);
   (1175, ER_UPDATE_WITHOUT_KEY_IN_SAFE_MODE); (1176, ER_KEY_DOES_NOT_EXITS);
   (1177, ER_CHECK_NO_SUCH_TABLE); (1178, ER_CHECK_NOT_IMPLEMENTED);
   (1179, ER_CANT_DO_THIS_DURING_AN_TRANSACTION); (1180, ER_ERROR_DURING_COMMIT);
   (1181, ER_ERROR_DURING_ROLLBACK); (1182, ER_ERROR_DURING_FLUSH_LOGS);
   (1183, ER_ERROR_DURING_CHECKPOINT); (1184, ER_NEW_ABORTING_CONNECTION);
   (1185, ER_DUMP_NOT_IMPLEMENTED); (1186, ER_FLUSH_MASTER_BINLOG_CLOSED);
   (1187, ER_INDEX_REBUILD); (1188, ER_MASTER); (1189, ER_MASTER_NET_READ);
   (1190, ER_MASTER_NET_WRITE); (1191, ER_FT_MATCHING_KEY_NOT_FOUND);
   (1192, ER_LOCK_OR_ACTIVE_TRANSACTION); (1193, ER_UNKNOWN_SYSTEM_VARIABLE);
   (1194, ER_CRASHED_ON_USAGE); (1195, ER_CRASHED_ON_REPAIR);
   (1196, ER_WARNING_NOT_COMPLETE_ROLLBACK); (1197, ER_TRANS_CACHE_FULL);
   (1198, ER_SLAVE_MUST_STOP); (1199, ER_SLAVE_NOT_RUNNING)].

Definition from_1200 : list (Z * ErrorKind) :=
  [(1200, ER_BAD_SLAVE); (1201, ER_MASTER_INF); (1202, ER_SLAVE_THREAD);
   (1203, ER_TOO_MANY_USER_CONNECTIONS); (1204, ER_SET_CONSTANTS_ONLY);
   (1205, ER_LOCK_WAIT_TIMEOUT); (1206, ER_LOCK_TABLE_FULL); (1207, ER_READ_ONLY_TRANSACTION);
   (1208, ER_DROP_DB_WITH_READ_LOCK); (1209, ER_CREATE_DB_WITH_READ_LOCK);
   (1210, ER_WRONG_ARGUMENTS); (1211, ER_NO_PERMISSION_TO_CREATE_USER);
   (1212, ER_UNION_TABLES_IN_DIFFERENT_DIR); (1213, ER_LOCK_DEADLOCK);
   (1214, ER_TABLE_CANT_HANDLE_FT); (1215, ER_CANNOT_ADD_FOREIGN);
   (1216, ER_NO_REFERENCED_ROW); (1217, ER_ROW_IS_REFERENCED); (1218, ER_CONNECT_TO_MASTER);
   (1219, ER_QUERY_ON_MASTER); (1220, ER_ERROR_WHEN_EXECUTING_COMMAND); (1221, ER_WRONG_USAGE);
   (1222, ER_WRONG_NUMBER_OF_COLUMNS_IN_SELECT); (1223, ER_CANT_UPDATE_WITH_READLOCK);
   (1224, ER_MIXING_NOT_ALLOWED); (1225, ER_DUP_ARGUMENT); (1226, ER_USER_LIMIT_REACHED);
   (1227, ER_SPECIFIC_ACCESS_DENIED_ERROR); (1228, ER_LOCAL_VARIABLE);
   (1229, ER_GLOBAL_VARIABLE); (1230, ER_NO_DEFAULT); (1231, ER_WRONG_VALUE_FOR_VAR);
   (1232, ER_WRONG_TYPE_FOR_VAR); (1233, ER_VAR_CANT_BE_READ); (1234, ER_CANT_USE_OPTION_HERE);
   (1235, ER_NOT_SUPPORTED_YET); (1236, ER_MASTER_FATAL_ERROR_READING_BINLOG);
   (1237, ER_SLAVE_IGNORED_TABLE); (1238, ER_INCORRECT_GLOBAL_LOCAL_VAR);
   (1239, ER_WRONG_FK_DEF); (1240, ER_KEY_REF_DO_NOT_MATCH_TABLE_REF);
   (1241, ER_OPERAND_COLUMNS); (1242, ER_SUBQUERY_NO_1_ROW); (1243, ER_UNKNOWN_STMT_HANDLER);
   (1244, ER_CORRUPT_HELP_DB); (1245, ER_CYCLIC_REFERENCE); (1246, ER_AUTO_CONVERT);
   (1247, ER_ILLEGAL_REFERENCE); (1248, ER_DERIVED_MUST_HAVE_ALIAS); (1249, ER_SELECT_REDUCED);
   (1250, ER_TABLENAME_NOT_ALLOWED_HERE); (1251, ER_NOT_SUPPORTED_AUTH_MODE);
   (1252, ER_SPATIAL_CANT_HAVE_NULL); (1253, ER_COLLATION_CHARSET_MISMATCH);
   (1254, ER_SLAVE_WAS_RUNNING); (1255, ER_SLAVE_WAS_NOT_RUNNING);
   (1256, ER_TOO_BIG_FOR_UNCOMPRESS); (1257, ER_ZLIB_Z_MEM_ERROR); (1258, ER_ZLIB_Z_BUF_ERROR);
   (1259, ER_ZLIB_Z_DATA_ERROR); (1260, ER_CUT_VALUE_GROUP_CONCAT);
   (1261, ER_WARN_TOO_FEW_RECORDS); (1262, ER_WARN_TOO_MANY_RECORDS);
   (1263, ER_WARN_NULL_TO_NOTNULL); (1264, ER_WARN_DATA_OUT_OF_RANGE);
   (1265, WARN_DATA_TRUNCATED); (1266, ER_WARN_USING_OTHER_HANDLER);
   (1267, ER_CANT_AGGREGATE_2COLLATIONS); (1268, ER_DROP_USER); (1269, ER_REVOKE_GRANTS);
   (1270, ER_CANT_AGGREGATE_3COLLATIONS); (1271, ER_CANT_AGGREGATE_NCOLLATIONS);
   (1272, ER_VARIABLE_IS_NOT_STRUCT); (1273, ER_UNKNOWN_COLLATION);
   (1274, ER_SLAVE_IGNORED_SSL_PARAMS); (1275, ER_SERVER_IS_IN_SECURE_AUTH_MODE);
   (1276, ER_WARN_FIELD_RESOLVED); (1277, ER_BAD_SLAVE_UNTIL_COND);
   (1278, ER_MISSING_SKIP_SLAVE); (1279, ER_UNTIL_COND_IGNORED);
   (1280, ER_WRONG_NAME_FOR_INDEX); (1281, ER_WRONG_NAME_FOR_CATALOG);
   (1282, ER_WARN_QC_RESIZE); (1283, ER_BAD_FT_COLUMN); (1284, ER_UNKNOWN_KEY_CACHE);
   (1285, ER_WARN_HOSTNAME_WONT_WORK); (1286, ER_UNKNOWN_STORAGE_ENGINE);
   (1287, ER_WARN_DEPRECATED_SYNTAX); (1288, ER_NON_UPDATABLE_TABLE);
   (1289, ER_FEATURE_DISABLED); (1290, ER_OPTION_PREVENTS_STATEMENT);
   (1291, ER_DUPLICATED_VALUE_IN_TYPE); (1292, ER_TRUNCATED_WRONG_VALUE);
   (1293, ER_TOO_MUCH_AUTO_TIMESTAMP_COLS); (1294, ER_INVALID_ON_UPDATE);
   (1295, ER_UNSUPPORTED_PS); (1296, ER_GET_ERRMSG); (1297, ER_GET_TEMPORARY_ERRMSG);
   (1298, ER_UNKNOWN_TIME_ZONE); (1299, ER_WARN_INVALID_TIMESTAMP)].

Definition from_1300 : list (Z * ErrorKind) :=
  [(1300, ER_INVALID_CHARACTER_STRING); (1301, ER_WARN_ALLOWED_PACKET_OVERFLOWED);
   (1302, ER_CONFLICTING_DECLARATIONS); (1303, ER_SP_NO_RECURSIVE_CREATE);
   (1304, ER_SP_ALREADY_EXISTS); (1305, ER_SP_DOES_NOT_EXIST); (1306, ER_SP_DROP_FAILED);
   (1307, ER_SP_STORE_FAILED); (1308, ER_SP_LILABEL_MISMATCH); (1309, ER_SP_LABEL_REDEFINE);
   (1310, ER_SP_LABEL_MISMATCH); (1311, ER_SP_UNINIT_VAR); (1312, ER_SP_BADSELECT);
   (1313, ER_SP_BADRETURN); (1314, ER_SP_BADSTATEMENT);
   (1315, ER_UPDATE_LOG_DEPRECATED_IGNORED); (1316, ER_UPDATE_LOG_DEPRECATED_TRANSLATED);
   (1317, ER_QUERY_INTERRUPTED); (1318, ER_SP_WRONG_NO_OF_ARGS); (1319, ER_SP_COND_MISMATCH);
   (1320, ER_SP_NORETURN); (1321, ER_SP_NORETURNEND); (1322, ER_SP_BAD_CURSOR_QUERY);
   (1323, ER_SP_BAD_CURSOR_SELECT); (1324, ER_SP_CURSOR_MISMATCH);
   (1325, ER_SP_CURSOR_ALREADY_OPEN); (1326, ER_SP_CURSOR_NOT_OPEN);
   (1327, ER_SP_UNDECLARED_VAR); (1328, ER_SP_WRONG_NO_OF_FETCH_ARGS);
   (1329, ER_SP_FETCH_NO_DATA); (1330, ER_SP_DUP_PARAM); (1331, ER_SP_DUP_VAR);
   (1332, ER_SP_DUP_COND); (1333, ER_SP_DUP_CURS); (1334, ER_SP_CANT_ALTER);
   (1335, ER_SP_SUBSELECT_NYI); (1336, ER_STMT_NOT_ALLOWED_IN_SF_OR_TRG);
   (1337, ER_SP_VARCOND_AFTER_CURSHNDLR); (1338, ER_SP_CURSOR_AFTER_HANDLER);
   (1339, ER_SP_CASE_NOT_FOUND); (1340, ER_FPARSER_TOO_BIG_FILE);
   (1341, ER_FPARSER_BAD_HEADER); (1342, ER_FPARSER_EOF_IN_COMMENT);
   (1343, ER_FPARSER_ERROR_IN_PARAMETER); (1344, ER_FPARSER_EOF_IN_UNKNOWN_PARAMETER);
   (1345, ER_VIEW_NO_EXPLAIN); (1346, ER_FRM_UNKNOWN_TYPE); (1347, ER_WRONG_OBJECT);
   (1348, ER_NONUPDATEABLE_COLUMN); (1349, ER_VIEW_SELECT_DERIVED);
   (1350, ER_VIEW_SELECT_CLAUSE); (1351, ER_VIEW_SELECT_VARIABLE);
   (1352, ER_VIEW_SELECT_TMPTABLE); (1353, ER_VIEW_WRONG_LIST); (1354, ER_WARN_VIEW_MERGE);
   (1355, ER_WARN_VIEW_WITHOUT_KEY); (1356, ER_VIEW_INVALID); (1357, ER_SP_NO_DROP_SP);
   (1358, ER_SP_GOTO_IN_HNDLR); (1359, ER_TRG_ALREADY_EXISTS); (1360, ER_TRG_DOES_NOT_EXIST);
   (1361, ER_TRG_ON_VIEW_OR_TEMP_TABLE); (1362, ER_TRG_CANT_CHANGE_ROW);
   (1363, ER_TRG_NO_SUCH_ROW_IN_TRG); (1364, ER_NO_DEFAULT_FOR_FIELD);
   (1365, ER_DIVISION_BY_ZER); (1366, ER_TRUNCATED_WRONG_VALUE_FOR_FIELD);
   (1367, ER_ILLEGAL_VALUE_FOR_TYPE); (1368, ER_VIEW_NONUPD_CHECK);
   (1369, ER_VIEW_CHECK_FAILED); (1370, ER_PROCACCESS_DENIED_ERROR); (1371, ER_RELAY_LOG_FAIL);
   (1372, ER_PASSWD_LENGTH); (1373, ER_UNKNOWN_TARGET_BINLOG);
   (1374, ER_IO_ERR_LOG_INDEX_READ); (1375, ER_BINLOG_PURGE_PROHIBITED); (1376, ER_FSEEK_FAIL);
   (1377, ER_BINLOG_PURGE_FATAL_ERR); (1378, ER_LOG_IN_USE); (1379, ER_LOG_PURGE_UNKNOWN_ERR);
   (1380, ER_RELAY_LOG_INIT); (1381, ER_NO_BINARY_LOGGING); (1382, ER_RESERVED_SYNTAX);
   (1383, ER_WSAS_FAILED); (1384, ER_DIFF_GROUPS_PROC); (1385, ER_NO_GROUP_FOR_PROC);
   (1386, ER_ORDER_WITH_PROC); (1387, ER_LOGGING_PROHIBIT_CHANGING_OF);
   (1388, ER_NO_FILE_MAPPING); (1389, ER_WRONG_MAGIC); (1390, ER_PS_MANY_PARAM);
   (1391, ER_KEY_PART_0); (1392, ER_VIEW_CHECKSUM); (1393, ER_VIEW_MULTIUPDATE);
   (1394, ER_VIEW_NO_INSERT_FIELD_LIST); (1395, ER_VIEW_DELETE_MERGE_VIEW);
   (1396, ER_CANNOT_USER); (1397, ER_XAER_NOTA); (1398, ER_XAER_INVAL); (1399, ER_XAER_RMFAIL)].

Definition from_1400 : list (Z * ErrorKind) :=
  [(1400, ER_XAER_OUTSIDE); (1401, ER_XAER_RMERR); (1402, ER_XA_RBROLLBACK);
   (1403, ER_NONEXISTING_PROC_GRANT); (1404, ER_PROC_AUTO_GRANT_FAIL);
   (1405, ER_PROC_AUTO_REVOKE_FAIL); (1406, ER_DATA_TOO_LONG); (1407, ER_SP_BAD_SQLSTATE);
   (1408, ER_STARTUP); (1409, ER_LOAD_FROM_FIXED_SIZE_ROWS_TO_VAR);
   (1410, ER_CANT_CREATE_USER_WITH_GRANT); (1411, ER_WRONG_VALUE_FOR_TYPE);
   (1412, ER_TABLE_DEF_CHANGED); (1413, ER_SP_DUP_HANDLER); (1414, ER_SP_NOT_VAR_ARG);
   (1415, ER_SP_NO_RETSET); (1416, ER_CANT_CREATE_GEOMETRY_OBJECT);
   (1417, ER_FAILED_ROUTINE_BREAK_BINLOG); (1418, ER_BINLOG_UNSAFE_ROUTINE);
   (1419, ER_BINLOG_CREATE_ROUTINE_NEED_SUPER); (1420, ER_EXEC_STMT_WITH_OPEN_CURSOR);
   (1421, ER_STMT_HAS_NO_OPEN_CURSOR); (1422, ER_COMMIT_NOT_ALLOWED_IN_SF_OR_TRG);
   (1423, ER_NO_DEFAULT_FOR_VIEW_FIELD); (1424, ER_SP_NO_RECURSION); (1425, ER_TOO_BIG_SCALE);
   (1426, ER_TOO_BIG_PRECISION); (1427, ER_M_BIGGER_THAN_D);
   (1428, ER_WRONG_LOCK_OF_SYSTEM_TABLE); (1429, ER_CONNECT_TO_FOREIGN_DATA_SOURCE);
   (1430, ER_QUERY_ON_FOREIGN_DATA_SOURCE); (1431, ER_FOREIGN_DATA_SOURCE_DOESNT_EXIST);
   (1432, ER_FOREIGN_DATA_STRING_INVALID_CANT_CREATE); (1433, ER_FOREIGN_DATA_STRING_INVALID);
   (1434, ER_CANT_CREATE_FEDERATED_TABLE); (1435, ER_TRG_IN_WRONG_SCHEMA);
   (1436, ER_STACK_OVERRUN_NEED_MORE); (1437, ER_TOO_LONG_BODY);
   (1438, ER_WARN_CANT_DROP_DEFAULT_KEYCACHE); (1439, ER_TOO_BIG_DISPLAYWIDTH);
   (1440, ER_XAER_DUPID); (1441, ER_DATETIME_FUNCTION_OVERFLOW);
   (1442, ER_CANT_UPDATE_USED_TABLE_IN_SF_OR_TRG); (1443, ER_VIEW_PREVENT_UPDATE);
   (1444, ER_PS_NO_RECURSION); (1445, ER_SP_CANT_SET_AUTOCOMMIT); (1446, ER_MALFORMED_DEFINER);
   (1447, ER_VIEW_FRM_NO_USER); (1448, ER_VIEW_OTHER_USER); (1449, ER_NO_SUCH_USER);
   (1450, ER_FORBID_SCHEMA_CHANGE); (1451, ER_ROW_IS_REFERENCED_2);
   (1452, ER_NO_REFERENCED_ROW_2); (1453, ER_SP_BAD_VAR_SHADOW); (1454, ER_TRG_NO_DEFINER);
   (1455, ER_OLD_FILE_FORMAT); (1456, ER_SP_RECURSION_LIMIT); (1457, ER_SP_PROC_TABLE_CORRUPT);
   (1458, ER_SP_WRONG_NAME); (1459, ER_TABLE_NEEDS_UPGRADE); (1460, ER_SP_NO_AGGREGATE);
   (1461, ER_MAX_PREPARED_STMT_COUNT_REACHED); (1462, ER_VIEW_RECURSIVE);
   (1463, ER_NON_GROUPING_FIELD_USED); (1464, ER_TABLE_CANT_HANDLE_SPKEYS);
   (1465, ER_NO_TRIGGERS_ON_SYSTEM_SCHEMA); (1466, ER_REMOVED_SPACES);
   (1467, ER_AUTOINC_READ_FAILED); (1468, ER_USERNAME); (1469, ER_HOSTNAME);
   (1470, ER_WRONG_STRING_LENGTH); (1471, ER_NON_INSERTABLE_TABLE);
   (1472, ER_ADMIN_WRONG_MRG_TABLE); (1473, ER_TOO_HIGH_LEVEL_OF_NESTING_FOR_SELECT);
   (1474, ER_NAME_BECOMES_EMPTY); (1475, ER_AMBIGUOUS_FIELD_TERM);
   (1476, ER_FOREIGN_SERVER_EXISTS); (1477, ER_FOREIGN_SERVER_DOESNT_EXIST);
   (1478, ER_ILLEGAL_HA_CREATE_OPTION); (1479, ER_PARTITION_REQUIRES_VALUES_ERROR);
   (1480, ER_PARTITION_WRONG_VALUES_ERROR); (1481, ER_PARTITION_MAXVALUE_ERROR);
   (1482, ER_PARTITION_SUBPARTITION_ERROR); (1483, ER_PARTITION_SUBPART_MIX_ERROR);
   (1484, ER_PARTITION_WRONG_NO_PART_ERROR); (1485, ER_PARTITION_WRONG_NO_SUBPART_ERROR);
   (1486, ER_WRONG_EXPR_IN_PARTITION_FUNC_ERROR);
   (1487, ER_NO_CONST_EXPR_IN_RANGE_OR_LIST_ERROR); (1488, ER_FIELD_NOT_FOUND_PART_ERROR);
   (1489, ER_LIST_OF_FIELDS_ONLY_IN_HASH_ERROR); (1490, ER_INCONSISTENT_PARTITION_INFO_ERROR);
   (1491, ER_PARTITION_FUNC_NOT_ALLOWED_ERROR); (1492, ER_PARTITIONS_MUST_BE_DEFINED_ERROR);
   (1493, ER_RANGE_NOT_INCREASING_ERROR); (1494, ER_INCONSISTENT_TYPE_OF_FUNCTIONS_ERROR);
   (1495, ER_MULTIPLE_DEF_CONST_IN_LIST_PART_ERROR); (1496, ER_PARTITION_ENTRY_ERROR);
   (1497, ER_MIX_HANDLER_ERROR); (1498, ER_PARTITION_NOT_DEFINED_ERROR);
   (1499, ER_TOO_MANY_PARTITIONS_ERROR)].

Definition from_1500 : list (Z * ErrorKind) :=
  [(1500, ER_SUBPARTITION_ERROR); (1501, ER_CANT_CREATE_HANDLER_FILE);
   (1502, ER_BLOB_FIELD_IN_PART_FUNC_ERROR); (1503, ER_UNIQUE_KEY_NEED_ALL_FIELDS_IN_PF);
   (1504, ER_NO_PARTS_ERROR); (1505, ER_PARTITION_MGMT_ON_NONPARTITIONED);
   (1506, ER_FOREIGN_KEY_ON_PARTITIONED); (1507, ER_DROP_PARTITION_NON_EXISTENT);
   (1508, ER_DROP_LAST_PARTITION); (1509, ER_COALESCE_ONLY_ON_HASH_PARTITION);
   (1510, ER_REORG_HASH_ONLY_ON_SAME_N); (1511, ER_REORG_NO_PARAM_ERROR);
   (1512, ER_ONLY_ON_RANGE_LIST_PARTITION); (1513, ER_ADD_PARTITION_SUBPART_ERROR);
   (1514, ER_ADD_PARTITION_NO_NEW_PARTITION); (1515, ER_COALESCE_PARTITION_NO_PARTITION);
   (1516, ER_REORG_PARTITION_NOT_EXIST); (1517, ER_SAME_NAME_PARTITION);
   (1518, ER_NO_BINLOG_ERROR); (1519, ER_CONSECUTIVE_REORG_PARTITIONS);
   (1520, ER_REORG_OUTSIDE_RANGE); (1521, ER_PARTITION_FUNCTION_FAILURE);
   (1522, ER_PART_STATE_ERROR); (1523, ER_LIMITED_PART_RANGE); (1524, ER_PLUGIN_IS_NOT_LOADED);
   (1525, ER_WRONG_VALUE); (1526, ER_NO_PARTITION_FOR_GIVEN_VALUE);
   (1527, ER_FILEGROUP_OPTION_ONLY_ONCE); (1528, ER_CREATE_FILEGROUP_FAILED);
   (1529, ER_DROP_FILEGROUP_FAILED); (1530, ER_TABLESPACE_AUTO_EXTEND_ERROR);
   (1531, ER_WRONG_SIZE_NUMBER); (1532, ER_SIZE_OVERFLOW_ERROR);
   (1533, ER_ALTER_FILEGROUP_FAILED); (1534, ER_BINLOG_ROW_LOGGING_FAILED);
   (1535, ER_BINLOG_ROW_WRONG_TABLE_DEF); (1536, ER_BINLOG_ROW_RBR_TO_SBR);
   (1537, ER_EVENT_ALREADY_EXISTS); (1538, ER_EVENT_STORE_FAILED);
   (1539, ER_EVENT_DOES_NOT_EXIST); (1540, ER_EVENT_CANT_ALTER); (1541, ER_EVENT_DROP_FAILED);
   (1542, ER_EVENT_INTERVAL_NOT_POSITIVE_OR_TOO_BIG); (1543, ER_EVENT_ENDS_BEFORE_STARTS);
   (1544, ER_EVENT_EXEC_TIME_IN_THE_PAST); (1545, ER_EVENT_OPEN_TABLE_FAILED);
   (1546, ER_EVENT_NEITHER_M_EXPR_NOR_M_AT); (1547, ER_COL_COUNT_DOESNT_MATCH_CORRUPTED);
   (1548, ER_CANNOT_LOAD_FROM_TABLE); (1549, ER_EVENT_CANNOT_DELETE);
   (1550, ER_EVENT_COMPILE_ERROR); (1551, ER_EVENT_SAME_NAME); (1552, ER_EVENT_DATA_TOO_LONG);
   (1553, ER_DROP_INDEX_FK); (1554, ER_WARN_DEPRECATED_SYNTAX_WITH_VER);
   (1555, ER_CANT_WRITE_LOCK_LOG_TABLE); (1556, ER_CANT_LOCK_LOG_TABLE);
   (1557, ER_FOREIGN_DUPLICATE_KEY); (1558, ER_COL_COUNT_DOESNT_MATCH_PLEASE_UPDATE);
   (1559, ER_TEMP_TABLE_PREVENTS_SWITCH_OUT_OF_RBR);
   (1560, ER_STORED_FUNCTION_PREVENTS_SWITCH_BINLOG_FORMAT);
   (1561, ER_NDB_CANT_SWITCH_BINLOG_FORMAT); (1562, ER_PARTITION_NO_TEMPORARY);
   (1563, ER_PARTITION_CONST_DOMAIN_ERROR); (1564, ER_PARTITION_FUNCTION_IS_NOT_ALLOWED);
   (1565, ER_DDL_LOG_ERROR); (1566, ER_NULL_IN_VALUES_LESS_THAN);
   (1567, ER_WRONG_PARTITION_NAME); (1568, ER_CANT_CHANGE_TX_ISOLATION);
   (1569, ER_DUP_ENTRY_AUTOINCREMENT_CASE); (1570, ER_EVENT_MODIFY_QUEUE_ERROR);
   (1571, ER_EVENT_SET_VAR_ERROR); (1572, ER_PARTITION_MERGE_ERROR);
   (1573, ER_CANT_ACTIVATE_LOG); (1574, ER_RBR_NOT_AVAILABLE); (1575, ER_BASE64_DECODE_ERROR);
   (1576, ER_EVENT_RECURSION_FORBIDDEN); (1577, ER_EVENTS_DB_ERROR);
   (1578, ER_ONLY_INTEGERS_ALLOWED); (1579, ER_UNSUPORTED_LOG_ENGINE);
   (1580, ER_BAD_LOG_STATEMENT); (1581, ER_CANT_RENAME_LOG_TABLE);
   (1582, ER_WRONG_PARAMCOUNT_TO_NATIVE_FCT); (1583, ER_WRONG_PARAMETERS_TO_NATIVE_FCT);
   (1584, ER_WRONG_PARAMETERS_TO_STORED_FCT); (1585, ER_NATIVE_FCT_NAME_COLLISION);
   (1586, ER_DUP_ENTRY_WITH_KEY_NAME); (1587, ER_BINLOG_PURGE_EMFILE);
   (1588, ER_EVENT_CANNOT_CREATE_IN_THE_PAST); (1589, ER_EVENT_CANNOT_ALTER_IN_THE_PAST);
   (1590, ER_SLAVE_INCIDENT); (1591, ER_NO_PARTITION_FOR_GIVEN_VALUE_SILENT);
   (1592, ER_BINLOG_UNSAFE_STATEMENT); (1593, ER_SLAVE_FATAL_ERROR);
   (1594, ER_SLAVE_RELAY_LOG_READ_FAILURE); (1595, ER_SLAVE_RELAY_LOG_WRITE_FAILURE);
   (1596, ER_SLAVE_CREATE_EVENT_FAILURE); (1597, ER_SLAVE_MASTER_COM_FAILURE);
   (1598, ER_BINLOG_LOGGING_IMPOSSIBLE); (1599, ER_VIEW_NO_CREATION_CTX)].

Definition from_1600 : list (Z * ErrorKind) :=
  [(1600, ER_VIEW_INVALID_CREATION_CTX); (1601, ER_SR_INVALID_CREATION_CTX);
   (1602, ER_TRG_CORRUPTED_FILE); (1603, ER_TRG_NO_CREATION_CTX);
   (1604, ER_TRG_INVALID_CREATION_CTX); (1605, ER_EVENT_INVALID_CREATION_CTX);
   (1606, ER_TRG_CANT_OPEN_TABLE); (1607, ER_CANT_CREATE_SROUTINE); (1608, ER_UNUSED_11);
   (1609, ER_NO_FORMAT_DESCRIPTION_EVENT_BEFORE_BINLOG_STATEMENT);
   (1610, ER_SLAVE_CORRUPT_EVENT); (1611, ER_LOAD_DATA_INVALID_COLUMN);
   (1612, ER_LOG_PURGE_NO_FILE); (1613, ER_XA_RBTIMEOUT); (1614, ER_XA_RBDEADLOCK);
   (1615, ER_NEED_REPREPARE); (1616, ER_DELAYED_NOT_SUPPORTED); (1617, WARN_NO_MASTER_INF);
   (1618, WARN_OPTION_IGNORED); (1619, WARN_PLUGIN_DELETE_BUILTIN); (1620, WARN_PLUGIN_BUSY);
   (1621, ER_VARIABLE_IS_READONLY); (1622, ER_WARN_ENGINE_TRANSACTION_ROLLBACK);
   (1623, ER_SLAVE_HEARTBEAT_FAILURE); (1624, ER_SLAVE_HEARTBEAT_VALUE_OUT_OF_RANGE);
   (1625, ER_NDB_REPLICATION_SCHEMA_ERROR); (1626, ER_CONFLICT_FN_PARSE_ERROR);
   (1627, ER_EXCEPTIONS_WRITE_ERROR); (1628, ER_TOO_LONG_TABLE_COMMENT);
   (1629, ER_TOO_LONG_FIELD_COMMENT); (1630, ER_FUNC_INEXISTENT_NAME_COLLISION);
   (1631, ER_DATABASE_NAME); (1632, ER_TABLE_NAME); (1633, ER_PARTITION_NAME);
   (1634, ER_SUBPARTITION_NAME); (1635, ER_TEMPORARY_NAME); (1636, ER_RENAMED_NAME);
   (1637, ER_TOO_MANY_CONCURRENT_TRXS); (1638, WARN_NON_ASCII_SEPARATOR_NOT_IMPLEMENTED);
   (1639, ER_DEBUG_SYNC_TIMEOUT); (1640, ER_DEBUG_SYNC_HIT_LIMIT); (1641, ER_DUP_SIGNAL_SET);
   (1642, ER_SIGNAL_WARN); (1643, ER_SIGNAL_NOT_FOUND); (1644, ER_SIGNAL_EXCEPTION);
   (1645, ER_RESIGNAL_WITHOUT_ACTIVE_HANDLER); (1646, ER_SIGNAL_BAD_CONDITION_TYPE);
   (1647, WARN_COND_ITEM_TRUNCATED); (1648, ER_COND_ITEM_TOO_LONG); (1649, ER_UNKNOWN_LOCALE);
   (1650, ER_SLAVE_IGNORE_SERVER_IDS); (1651, ER_QUERY_CACHE_DISABLED);
   (1652, ER_SAME_NAME_PARTITION_FIELD); (1653, ER_PARTITION_COLUMN_LIST_ERROR);
   (1654, ER_WRONG_TYPE_COLUMN_VALUE_ERROR); (1655, ER_TOO_MANY_PARTITION_FUNC_FIELDS_ERROR);
   (1656, ER_MAXVALUE_IN_VALUES_IN); (1657, ER_TOO_MANY_VALUES_ERROR);
   (1658, ER_ROW_SINGLE_PARTITION_FIELD_ERROR);
   (1659, ER_FIELD_TYPE_NOT_ALLOWED_AS_PARTITION_FIELD); (1660, ER_PARTITION_FIELDS_TOO_LONG);
   (1661, ER_BINLOG_ROW_ENGINE_AND_STMT_ENGINE); (1662, ER_BINLOG_ROW_MODE_AND_STMT_ENGINE);
   (1663, ER_BINLOG_UNSAFE_AND_STMT_ENGINE); (1664, ER_BINLOG_ROW_INJECTION_AND_STMT_ENGINE);
   (1665, ER_BINLOG_STMT_MODE_AND_ROW_ENGINE); (1666, ER_BINLOG_ROW_INJECTION_AND_STMT_MODE);
   (1667, ER_BINLOG_MULTIPLE_ENGINES_AND_SELF_LOGGING_ENGINE); (1668, ER_BINLOG_UNSAFE_LIMIT);
   (1669, ER_BINLOG_UNSAFE_INSERT_DELAYED); (1670, ER_BINLOG_UNSAFE_SYSTEM_TABLE);
   (1671, ER_BINLOG_UNSAFE_AUTOINC_COLUMNS); (1672, ER_BINLOG_UNSAFE_UDF);
   (1673, ER_BINLOG_UNSAFE_SYSTEM_VARIABLE); (1674, ER_BINLOG_UNSAFE_SYSTEM_FUNCTION);
   (1675, ER_BINLOG_UNSAFE_NONTRANS_AFTER_TRANS); (1676, ER_MESSAGE_AND_STATEMENT);
   (1677, ER_SLAVE_CONVERSION_FAILED); (1678, ER_SLAVE_CANT_CREATE_CONVERSION);
   (1679, ER_INSIDE_TRANSACTION_PREVENTS_SWITCH_BINLOG_FORMAT); (1680, ER_PATH_LENGTH);
   (1681, ER_WARN_DEPRECATED_SYNTAX_NO_REPLACEMENT); (1682, ER_WRONG_NATIVE_TABLE_STRUCTURE);
   (1683, ER_WRONG_PERFSCHEMA_USAGE); (1684, ER_WARN_I_S_SKIPPED_TABLE);
   (1685, ER_INSIDE_TRANSACTION_PREVENTS_SWITCH_BINLOG_DIRECT);
   (1686, ER_STORED_FUNCTION_PREVENTS_SWITCH_BINLOG_DIRECT);
   (1687, ER_SPATIAL_MUST_HAVE_GEOM_COL); (1688, ER_TOO_LONG_INDEX_COMMENT);
   (1689, ER_LOCK_ABORTED); (1690, ER_DATA_OUT_OF_RANGE); (1691, ER_WRONG_SPVAR_TYPE_IN_LIMIT);
   (1692, ER_BINLOG_UNSAFE_MULTIPLE_ENGINES_AND_SELF_LOGGING_ENGINE);
   (1693, ER_BINLOG_UNSAFE_MIXED_STATEMENT);
   (1694, ER_INSIDE_TRANSACTION_PREVENTS_SWITCH_SQL_LOG_BIN);
   (1695, ER_STORED_FUNCTION_PREVENTS_SWITCH_SQL_LOG_BIN);
   (1696, ER_FAILED_READ_FROM_PAR_FILE); (1697, ER_VALUES_IS_NOT_INT_TYPE_ERROR);
   (1698, ER_ACCESS_DENIED_NO_PASSWORD_ERROR); (1699, ER_SET_PASSWORD_AUTH_PLUGIN)].

Definition from_1700 : list (Z * ErrorKind) :=
  [(1700, ER_GRANT_PLUGIN_USER_EXISTS); (1701, ER_TRUNCATE_ILLEGAL_FK);
   (1702, ER_PLUGIN_IS_PERMANENT); (1703, ER_SLAVE_HEARTBEAT_VALUE_OUT_OF_RANGE_MIN);
   (1704, ER_SLAVE_HEARTBEAT_VALUE_OUT_OF_RANGE_MAX); (1705, ER_STMT_CACHE_FULL);
   (1706, ER_MULTI_UPDATE_KEY_CONFLICT); (1707, ER_TABLE_NEEDS_REBUILD);
   (1708, WARN_OPTION_BELOW_LIMIT); (1709, ER_INDEX_COLUMN_TOO_LONG);
   (1710, ER_ERROR_IN_TRIGGER_BODY); (1711, ER_ERROR_IN_UNKNOWN_TRIGGER_BODY);
   (1712, ER_INDEX_CORRUPT); (1713, ER_UNDO_RECORD_TOO_BIG);
   (1714, ER_BINLOG_UNSAFE_INSERT_IGNORE_SELECT);
   (1715, ER_BINLOG_UNSAFE_INSERT_SELECT_UPDATE); (1716, ER_BINLOG_UNSAFE_REPLACE_SELECT);
   (1717, ER_BINLOG_UNSAFE_CREATE_IGNORE_SELECT);
   (1718, ER_BINLOG_UNSAFE_CREATE_REPLACE_SELECT); (1719, ER_BINLOG_UNSAFE_UPDATE_IGNORE);
   (1720, ER_PLUGIN_NO_UNINSTALL); (1721, ER_PLUGIN_NO_INSTALL);
   (1722, ER_BINLOG_UNSAFE_WRITE_AUTOINC_SELECT);
   (1723, ER_BINLOG_UNSAFE_CREATE_SELECT_AUTOINC); (1724, ER_BINLOG_UNSAFE_INSERT_TWO_KEYS);
   (1725, ER_TABLE_IN_FK_CHECK); (1726, ER_UNSUPPORTED_ENGINE);
   (1727, ER_BINLOG_UNSAFE_AUTOINC_NOT_FIRST); (1728, ER_CANNOT_LOAD_FROM_TABLE_V2);
   (1729, ER_MASTER_DELAY_VALUE_OUT_OF_RANGE);
   (1730, ER_ONLY_FD_AND_RBR_EVENTS_ALLOWED_IN_BINLOG_STATEMENT);
   (1731, ER_PARTITION_EXCHANGE_DIFFERENT_OPTION); (1732, ER_PARTITION_EXCHANGE_PART_TABLE);
   (1733, ER_PARTITION_EXCHANGE_TEMP_TABLE); (1734, ER_PARTITION_INSTEAD_OF_SUBPARTITION);
   (1735, ER_UNKNOWN_PARTITION); (1736, ER_TABLES_DIFFERENT_METADATA);
   (1737, ER_ROW_DOES_NOT_MATCH_PARTITION); (1738, ER_BINLOG_CACHE_SIZE_GREATER_THAN_MAX);
   (1739, ER_WARN_INDEX_NOT_APPLICABLE); (1740, ER_PARTITION_EXCHANGE_FOREIGN_KEY);
   (1741, ER_NO_SUCH_KEY_VALUE); (1742, ER_RPL_INFO_DATA_TOO_LONG);
   (1743, ER_NETWORK_READ_EVENT_CHECKSUM_FAILURE);
   (1744, ER_BINLOG_READ_EVENT_CHECKSUM_FAILURE);
   (1745, ER_BINLOG_STMT_CACHE_SIZE_GREATER_THAN_MAX);
   (1746, ER_CANT_UPDATE_TABLE_IN_CREATE_TABLE_SELECT);
   (1747, ER_PARTITION_CLAUSE_ON_NONPARTITIONED);
   (1748, ER_ROW_DOES_NOT_MATCH_GIVEN_PARTITION_SET); (1749, ER_NO_SUCH_PARTITION_UNUSED);
   (1750, ER_CHANGE_RPL_INFO_REPOSITORY_FAILURE);
   (1751, ER_WARNING_NOT_COMPLETE_ROLLBACK_WITH_CREATED_TEMP_TABLE);
   (1752, ER_WARNING_NOT_COMPLETE_ROLLBACK_WITH_DROPPED_TEMP_TABLE);
   (1753, ER_MTS_FEATURE_IS_NOT_SUPPORTED); (1754, ER_MTS_UPDATED_DBS_GREATER_MAX);
   (1755, ER_MTS_CANT_PARALLEL); (1756, ER_MTS_INCONSISTENT_DATA);
   (1757, ER_FULLTEXT_NOT_SUPPORTED_WITH_PARTITIONING); (1758, ER_DA_INVALID_CONDITION_NUMBER);
   (1759, ER_INSECURE_PLAIN_TEXT); (1760, ER_INSECURE_CHANGE_MASTER);
   (1761, ER_FOREIGN_DUPLICATE_KEY_WITH_CHILD_INFO);
   (1762, ER_FOREIGN_DUPLICATE_KEY_WITHOUT_CHILD_INFO); (1763, ER_SQLTHREAD_WITH_SECURE_SLAVE);
   (1764, ER_TABLE_HAS_NO_FT); (1765, ER_VARIABLE_NOT_SETTABLE_IN_SF_OR_TRIGGER);
   (1766, ER_VARIABLE_NOT_SETTABLE_IN_TRANSACTION);
   (1767, ER_GTID_NEXT_IS_NOT_IN_GTID_NEXT_LIST);
   (1768, ER_CANT_CHANGE_GTID_NEXT_IN_TRANSACTION_WHEN_GTID_NEXT_LIST_IS_NULL);
   (1769, ER_SET_STATEMENT_CANNOT_INVOKE_FUNCTION);
   (1770, ER_GTID_NEXT_CANT_BE_AUTOMATIC_IF_GTID_NEXT_LIST_IS_NON_NULL);
   (1771, ER_SKIPPING_LOGGED_TRANSACTION); (1772, ER_MALFORMED_GTID_SET_SPECIFICATION);
   (1773, ER_MALFORMED_GTID_SET_ENCODING); (1774, ER_MALFORMED_GTID_SPECIFICATION);
   (1775, ER_GNO_EXHAUSTED); (1776, ER_BAD_SLAVE_AUTO_POSITION);
   (1777, ER_AUTO_POSITION_REQUIRES_GTID_MODE_ON);
   (1778, ER_CANT_DO_IMPLICIT_COMMIT_IN_TRX_WHEN_GTID_NEXT_IS_SET);
   (1779, ER_GTID_MODE_2_OR_3_REQUIRES_DISABLE_GTID_UNSAFE_STATEMENTS_ON);
   (1780, ER_GTID_MODE_REQUIRES_BINLOG);
   (1781, ER_CANT_SET_GTID_NEXT_TO_GTID_WHEN_GTID_MODE_IS_OFF);
   (1782, ER_CANT_SET_GTID_NEXT_TO_ANONYMOUS_WHEN_GTID_MODE_IS_ON);
   (1783, ER_CANT_SET_GTID_NEXT_LIST_TO_NON_NULL_WHEN_GTID_MODE_IS_OFF);
   (1784, ER_FOUND_GTID_EVENT_WHEN_GTID_MODE_IS_OFF);
   (1785, ER_GTID_UNSAFE_NON_TRANSACTIONAL_TABLE); (1786, ER_GTID_UNSAFE_CREATE_SELECT);
   (1787, ER_GTID_UNSAFE_CREATE_DROP_TEMPORARY_TABLE_IN_TRANSACTION);
   (1788, ER_GTID_MODE_CAN_ONLY_CHANGE_ONE_STEP_AT_A_TIME);
   (1789, ER_MASTER_HAS_PURGED_REQUIRED_GTIDS); (1790, ER_CANT_SET_GTID_NEXT_WHEN_OWNING_GTID);
   (1791, ER_UNKNOWN_EXPLAIN_FORMAT); (1792, ER_CANT_EXECUTE_IN_READ_ONLY_TRANSACTION);
   (1793, ER_TOO_LONG_TABLE_PARTITION_COMMENT); (1794, ER_SLAVE_CONFIGURATION);
   (1795, ER_INNODB_FT_LIMIT); (1796, ER_INNODB_NO_FT_TEMP_TABLE);
   (1797, ER_INNODB_FT_WRONG_DOCID_COLUMN); (1798, ER_INNODB_FT_WRONG_DOCID_INDEX);
   (1799, ER_INNODB_ONLINE_LOG_TOO_BIG)].

Definition from_1800 : list (Z * ErrorKind) :=
  [(1800, ER_UNKNOWN_ALTER_ALGORITHM); (1801, ER_UNKNOWN_ALTER_LOCK);
   (1802, ER_MTS_CHANGE_MASTER_CANT_RUN_WITH_GAPS); (1803, ER_MTS_RECOVERY_FAILURE);
   (1804, ER_MTS_RESET_WORKERS); (1805, ER_COL_COUNT_DOESNT_MATCH_CORRUPTED_V2);
   (1806, ER_SLAVE_SILENT_RETRY_TRANSACTION); (1807, ER_DISCARD_FK_CHECKS_RUNNING);
   (1808, ER_TABLE_SCHEMA_MISMATCH); (1809, ER_TABLE_IN_SYSTEM_TABLESPACE);
   (1810, ER_IO_READ_ERROR); (1811, ER_IO_WRITE_ERROR); (1812, ER_TABLESPACE_MISSING);
   (1813, ER_TABLESPACE_EXISTS); (1814, ER_TABLESPACE_DISCARDED); (1815, ER_INTERNAL_ERROR);
   (1816, ER_INNODB_IMPORT_ERROR); (1817, ER_INNODB_INDEX_CORRUPT);
   (1818, ER_INVALID_YEAR_COLUMN_LENGTH); (1819, ER_NOT_VALID_PASSWORD);
   (1820, ER_MUST_CHANGE_PASSWORD); (1821, ER_FK_NO_INDEX_CHILD);
   (1822, ER_FK_NO_INDEX_PARENT); (1823, ER_FK_FAIL_ADD_SYSTEM);
   (1824, ER_FK_CANNOT_OPEN_PARENT); (1825, ER_FK_INCORRECT_OPTION); (1826, ER_FK_DUP_NAME);
   (1827, ER_PASSWORD_FORMAT); (1828, ER_FK_COLUMN_CANNOT_DROP);
   (1829, ER_FK_COLUMN_CANNOT_DROP_CHILD); (1830, ER_FK_COLUMN_NOT_NULL); (1831, ER_DUP_INDEX);
   (1832, ER_FK_COLUMN_CANNOT_CHANGE); (1833, ER_FK_COLUMN_CANNOT_CHANGE_CHILD);
   (1834, ER_FK_CANNOT_DELETE_PARENT); (1835, ER_MALFORMED_PACKET); (1836, ER_READ_ONLY_MODE);
   (1837, ER_GTID_NEXT_TYPE_UNDEFINED_GROUP); (1838, ER_VARIABLE_NOT_SETTABLE_IN_SP);
   (1839, ER_CANT_SET_GTID_PURGED_WHEN_GTID_MODE_IS_OFF);
   (1840, ER_CANT_SET_GTID_PURGED_WHEN_GTID_EXECUTED_IS_NOT_EMPTY);
   (1841, ER_CANT_SET_GTID_PURGED_WHEN_OWNED_GTIDS_IS_NOT_EMPTY);
   (1842, ER_GTID_PURGED_WAS_CHANGED); (1843, ER_GTID_EXECUTED_WAS_CHANGED);
   (1844, ER_BINLOG_STMT_MODE_AND_NO_REPL_TABLES); (1845, ER_ALTER_OPERATION_NOT_SUPPORTED);
   (1846, ER_ALTER_OPERATION_NOT_SUPPORTED_REASON);
   (1847, ER_ALTER_OPERATION_NOT_SUPPORTED_REASON_COPY);
   (1848, ER_ALTER_OPERATION_NOT_SUPPORTED_REASON_PARTITION);
   (1849, ER_ALTER_OPERATION_NOT_SUPPORTED_REASON_FK_RENAME);
   (1850, ER_ALTER_OPERATION_NOT_SUPPORTED_REASON_COLUMN_TYPE);
   (1851, ER_ALTER_OPERATION_NOT_SUPPORTED_REASON_FK_CHECK);
   (1852, ER_ALTER_OPERATION_NOT_SUPPORTED_REASON_IGNORE);
   (1853, ER_ALTER_OPERATION_NOT_SUPPORTED_REASON_NOPK);
   (1854, ER_ALTER_OPERATION_NOT_SUPPORTED_REASON_AUTOINC);
   (1855, ER_ALTER_OPERATION_NOT_SUPPORTED_REASON_HIDDEN_FTS);
   (1856, ER_ALTER_OPERATION_NOT_SUPPORTED_REASON_CHANGE_FTS);
   (1857, ER_ALTER_OPERATION_NOT_SUPPORTED_REASON_FTS);
   (1858, ER_SQL_SLAVE_SKIP_COUNTER_NOT_SETTABLE_IN_GTID_MODE);
   (1859, ER_DUP_UNKNOWN_IN_INDEX); (1860, ER_IDENT_CAUSES_TOO_LONG_PATH);
   (1861, ER_ALTER_OPERATION_NOT_SUPPORTED_REASON_NOT_NULL);
   (1862, ER_MUST_CHANGE_PASSWORD_LOGIN); (1863, ER_ROW_IN_WRONG_PARTITION);
   (1864, ER_MTS_EVENT_BIGGER_PENDING_JOBS_SIZE_MAX); (1865, ER_INNODB_NO_FT_USES_PARSER);
   (1866, ER_BINLOG_LOGICAL_CORRUPTION); (1867, ER_WARN_PURGE_LOG_IN_USE);
   (1868, ER_WARN_PURGE_LOG_IS_ACTIVE); (1869, ER_AUTO_INCREMENT_CONFLICT);
   (1870, WARN_ON_BLOCKHOLE_IN_RBR); (1871, ER_SLAVE_MI_INIT_REPOSITORY);
   (1872, ER_SLAVE_RLI_INIT_REPOSITORY); (1873, ER_ACCESS_DENIED_CHANGE_USER_ERROR);
   (1874, ER_INNODB_READ_ONLY); (1875, ER_STOP_SLAVE_SQL_THREAD_TIMEOUT);
   (1876, ER_STOP_SLAVE_IO_THREAD_TIMEOUT); (1877, ER_TABLE_CORRUPT);
   (1878, ER_TEMP_FILE_WRITE_FAILURE); (1879, ER_INNODB_FT_AUX_NOT_HEX_ID);
   (1880, ER_OLD_TEMPORALS_UPGRADED); (1881, ER_INNODB_FORCED_RECOVERY);
   (1882, ER_AES_INVALID_IV); (1883, ER_PLUGIN_CANNOT_BE_UNINSTALLED);
   (1884, ER_GTID_UNSAFE_BINLOG_SPLITTABLE_STATEMENT_AND_GTID_GROUP);
   (1885, ER_SLAVE_HAS_MORE_GTIDS_THAN_MASTER)].

Definition from_arms : list (Z * ErrorKind) :=
  from_1000 ++ from_1100 ++ from_1200 ++ from_1300 ++ from_1400 ++
  from_1500 ++ from_1600 ++ from_1700 ++ from_1800.

(** [ErrorKind::from]: the first arm whose literal is [x], else the panicking arm. *)
Definition error_from_u16 {E} (x : Z) : outcome E ErrorKind :=
  match List.find (fun arm => fst arm =? x) from_arms with
  | Some (_, e) => Ok e
  | None => Panic
  end.

(** The arms of [sqlstate]. *)
Definition sqlstate_arms_1 (e : ErrorKind) : option string :=
  match e with
  | ER_BAD_HOST_ERROR | ER_HANDSHAKE_ERROR | ER_UNKNOWN_COM_ERROR | ER_SERVER_SHUTDOWN
  | ER_FORCING_CLOSE | ER_IPSOCK_ERROR | ER_ABORTING_CONNECTION | ER_NET_PACKET_TOO_LARGE
  | ER_NET_READ_ERROR_FROM_PIPE | ER_NET_FCNTL_ERROR | ER_NET_PACKETS_OUT_OF_ORDER
  | ER_NET_UNCOMPRESS_ERROR | ER_NET_READ_ERROR | ER_NET_READ_INTERRUPTED
  | ER_NET_ERROR_ON_WRITE | ER_NET_WRITE_INTERRUPTED | ER_NEW_ABORTING_CONNECTION
  | ER_MASTER_NET_READ | ER_MASTER_NET_WRITE | ER_CONNECT_TO_MASTER
    => Some "08S01"%string
  | ER_NO_DB_ERROR
    => Some "3D000"%string
  | ER_DA_INVALID_CONDITION_NUMBER
    => Some "35000"%string
  | ER_TABLE_EXISTS_ERROR
    => Some "42S01"%string
  | ER_SP_FETCH_NO_DATA | ER_SIGNAL_NOT_FOUND
    => Some "02000"%string
  | ER_BAD_TABLE_ERROR | ER_UNKNOWN_TABLE | ER_NO_SUCH_TABLE
    => Some "42S02"%string
  | ER_TRUNCATED_WRONG_VALUE | ER_ILLEGAL_VALUE_FOR_TYPE
    => Some "22007"%string
  | ER_XA_RBTIMEOUT
    => Some "XA106"%string
  | ER_XAER_DUPID
    => Some "XAE08"%string
  | ER_XA_RBDEADLOCK
    => Some "XA102"%string
  | ER_XAER_OUTSIDE
    => Some "XAE09"%string
  | ER_DATETIME_FUNCTION_OVERFLOW
    => Some "22008"%string
  | ER_WARN_DATA_OUT_OF_RANGE | ER_CANT_CREATE_GEOMETRY_OBJECT | ER_DATA_OUT_OF_RANGE
    => Some "22003"%string
  | ER_CANT_DO_THIS_DURING_AN_TRANSACTION | ER_READ_ONLY_TRANSACTION
    => Some "25000"%string
  | ER_OUTOFMEMORY | ER_OUT_OF_SORTMEMORY
    => Some "HY001"%string
  | ER_SP_NO_RECURSIVE_CREATE
    => Some "2F003"%string
  | ER_DUP_KEY | ER_BAD_NULL_ERROR | ER_NON_UNIQ_ERROR | ER_DUP_ENTRY | ER_DUP_UNIQUE
  | ER_NO_REFERENCED_ROW | ER_ROW_IS_REFERENCED | ER_ROW_IS_REFERENCED_2
  | ER_NO_REFERENCED_ROW_2 | ER_FOREIGN_DUPLICATE_KEY | ER_DUP_ENTRY_WITH_KEY_NAME
  | ER_FOREIGN_DUPLICATE_KEY_WITH_CHILD_INFO | ER_FOREIGN_DUPLICATE_KEY_WITHOUT_CHILD_INFO
  | ER_DUP_UNKNOWN_IN_INDEX
    => Some "23000"%string
  | ER_DUP_FIELDNAME
    => Some "42S21"%string
  | ER_SELECT_REDUCED | ER_WARN_TOO_FEW_RECORDS | ER_WARN_TOO_MANY_RECORDS
  | WARN_DATA_TRUNCATED | ER_SP_UNINIT_VAR | ER_SIGNAL_WARN
    => Some "01000"%string
  | ER_XAER_RMERR
    => Some "XAE03"%string
  | ER_XAER_RMFAIL
    => Some "XAE07"%string
  | ER_NO_SUCH_INDEX
    => Some "42S12"%string
  | ER_CANT_EXECUTE_IN_READ_ONLY_TRANSACTION
    => Some "25006"%string
  | ER_SP_BADSELECT | ER_SP_BADSTATEMENT | ER_SP_SUBSELECT_NYI
  | ER_STMT_NOT_ALLOWED_IN_SF_OR_TRG | ER_SP_NO_RETSET | ER_ALTER_OPERATION_NOT_SUPPORTED
  | ER_ALTER_OPERATION_NOT_SUPPORTED_REASON
    => Some "0A000"%string
  | ER_WRONG_VALUE_COUNT | ER_WRONG_VALUE_COUNT_ON_ROW
    => Some "21S01"%string
  | ER_ACCESS_DENIED_ERROR | ER_ACCESS_DENIED_NO_PASSWORD_ERROR
  | ER_ACCESS_DENIED_CHANGE_USER_ERROR
    => Some "28000"%string
  | ER_SP_CURSOR_ALREADY_OPEN | ER_SP_CURSOR_NOT_OPEN
    => Some "24000"%string
  | ER_QUERY_INTERRUPTED
    => Some "70100"%string
  | ER_SP_NORETURNEND
    => Some "2F005"%string
  | ER_CON_COUNT_ERROR | ER_NOT_SUPPORTED_AUTH_MODE
    => Some "08004"%string
  | ER_DBACCESS_DENIED_ERROR | ER_BAD_DB_ERROR | ER_WRONG_FIELD_WITH_GROUP
  | ER_WRONG_GROUP_FIELD | ER_WRONG_SUM_SELECT | ER_TOO_LONG_IDENT | ER_DUP_KEYNAME
  | ER_WRONG_FIELD_SPEC | ER_PARSE_ERROR | ER_EMPTY_QUERY | ER_NONUNIQ_TABLE
  | ER_INVALID_DEFAULT | ER_MULTIPLE_PRI_KEY | ER_TOO_MANY_KEYS | ER_TOO_MANY_KEY_PARTS
  | ER_TOO_LONG_KEY | ER_KEY_COLUMN_DOES_NOT_EXITS | ER_BLOB_USED_AS_KEY
  | ER_TOO_BIG_FIELDLENGTH | ER_WRONG_AUTO_KEY | ER_WRONG_FIELD_TERMINATORS
  | ER_BLOBS_AND_NO_TERMINATED | ER_CANT_REMOVE_ALL_FIELDS | ER_CANT_DROP_FIELD_OR_KEY
  | ER_BLOB_CANT_HAVE_DEFAULT | ER_WRONG_DB_NAME | ER_WRONG_TABLE_NAME | ER_TOO_BIG_SELECT
  | ER_UNKNOWN_PROCEDURE | ER_WRONG_PARAMCOUNT_TO_PROCEDURE | ER_FIELD_SPECIFIED_TWICE
  | ER_UNSUPPORTED_EXTENSION | ER_TABLE_MUST_HAVE_COLUMNS | ER_UNKNOWN_CHARACTER_SET
  | ER_TOO_BIG_ROWSIZE | ER_WRONG_OUTER_JOIN | ER_NULL_COLUMN_IN_INDEX
  | ER_PASSWORD_ANONYMOUS_USER | ER_PASSWORD_NOT_ALLOWED
    => Some "42000"%string
  | _ => None
  end.

Definition sqlstate_arms_2 (e : ErrorKind) : option string :=
  match e with
  | ER_PASSWORD_NO_MATCH | ER_REGEXP_ERROR | ER_MIX_OF_GROUP_FUNC_AND_FIELDS
  | ER_NONEXISTING_GRANT | ER_TABLEACCESS_DENIED_ERROR | ER_COLUMNACCESS_DENIED_ERROR
  | ER_ILLEGAL_GRANT_FOR_TABLE | ER_GRANT_WRONG_HOST_OR_USER | ER_NONEXISTING_TABLE_GRANT
  | ER_NOT_ALLOWED_COMMAND | ER_SYNTAX_ERROR | ER_TOO_LONG_STRING | ER_TABLE_CANT_HANDLE_BLOB
  | ER_TABLE_CANT_HANDLE_AUTO_INCREMENT | ER_WRONG_COLUMN_NAME | ER_WRONG_KEY_COLUMN
  | ER_BLOB_KEY_WITHOUT_LENGTH | ER_PRIMARY_CANT_HAVE_NULL | ER_TOO_MANY_ROWS
  | ER_REQUIRES_PRIMARY_KEY | ER_KEY_DOES_NOT_EXITS | ER_CHECK_NO_SUCH_TABLE
  | ER_CHECK_NOT_IMPLEMENTED | ER_TOO_MANY_USER_CONNECTIONS | ER_NO_PERMISSION_TO_CREATE_USER
  | ER_USER_LIMIT_REACHED | ER_SPECIFIC_ACCESS_DENIED_ERROR | ER_NO_DEFAULT
  | ER_WRONG_VALUE_FOR_VAR | ER_WRONG_TYPE_FOR_VAR | ER_CANT_USE_OPTION_HERE
  | ER_NOT_SUPPORTED_YET | ER_WRONG_FK_DEF | ER_DERIVED_MUST_HAVE_ALIAS
  | ER_TABLENAME_NOT_ALLOWED_HERE | ER_SPATIAL_CANT_HAVE_NULL | ER_COLLATION_CHARSET_MISMATCH
  | ER_WRONG_NAME_FOR_INDEX | ER_WRONG_NAME_FOR_CATALOG | ER_UNKNOWN_STORAGE_ENGINE
  | ER_SP_ALREADY_EXISTS | ER_SP_DOES_NOT_EXIST | ER_SP_LILABEL_MISMATCH | ER_SP_LABEL_REDEFINE
  | ER_SP_LABEL_MISMATCH | ER_SP_BADRETURN | ER_UPDATE_LOG_DEPRECATED_IGNORED
  | ER_UPDATE_LOG_DEPRECATED_TRANSLATED | ER_SP_WRONG_NO_OF_ARGS | ER_SP_COND_MISMATCH
  | ER_SP_NORETURN | ER_SP_BAD_CURSOR_QUERY | ER_SP_BAD_CURSOR_SELECT | ER_SP_CURSOR_MISMATCH
  | ER_SP_UNDECLARED_VAR | ER_SP_DUP_PARAM | ER_SP_DUP_VAR | ER_SP_DUP_COND | ER_SP_DUP_CURS
  | ER_SP_VARCOND_AFTER_CURSHNDLR | ER_SP_CURSOR_AFTER_HANDLER | ER_PROCACCESS_DENIED_ERROR
  | ER_NONEXISTING_PROC_GRANT | ER_SP_BAD_SQLSTATE | ER_CANT_CREATE_USER_WITH_GRANT
  | ER_SP_DUP_HANDLER | ER_SP_NOT_VAR_ARG | ER_TOO_BIG_SCALE | ER_TOO_BIG_PRECISION
  | ER_M_BIGGER_THAN_D | ER_TOO_LONG_BODY | ER_TOO_BIG_DISPLAYWIDTH | ER_SP_BAD_VAR_SHADOW
  | ER_SP_WRONG_NAME | ER_SP_NO_AGGREGATE | ER_MAX_PREPARED_STMT_COUNT_REACHED
  | ER_NON_GROUPING_FIELD_USED | ER_WRONG_PARAMCOUNT_TO_NATIVE_FCT
  | ER_WRONG_PARAMETERS_TO_NATIVE_FCT | ER_WRONG_PARAMETERS_TO_STORED_FCT
  | ER_FUNC_INEXISTENT_NAME_COLLISION | ER_DUP_SIGNAL_SET | ER_SPATIAL_MUST_HAVE_GEOM_COL
  | ER_TRUNCATE_ILLEGAL_FK
    => Some "42000"%string
  | ER_RESIGNAL_WITHOUT_ACTIVE_HANDLER
    => Some "0K000"%string
  | ER_CANT_CHANGE_TX_ISOLATION
    => Some "25001"%string
  | ER_INVALID_USE_OF_NULL | ER_WARN_NULL_TO_NOTNULL
    => Some "22004"%string
  | ER_SP_CASE_NOT_FOUND
    => Some "20000"%string
  | ER_DIVISION_BY_ZER
    => Some "22012"%string
  | ER_BAD_FIELD_ERROR | ER_ILLEGAL_REFERENCE
    => Some "42S22"%string
  | ER_XAER_INVAL
    => Some "XAE05"%string
  | ER_HASHCHK | ER_NISAMCHK | ER_NO | ER_YES | ER_CANT_CREATE_FILE | ER_CANT_CREATE_TABLE
  | ER_CANT_CREATE_DB | ER_DB_CREATE_EXISTS | ER_DB_DROP_EXISTS | ER_DB_DROP_DELETE
  | ER_DB_DROP_RMDIR | ER_CANT_DELETE_FILE | ER_CANT_FIND_SYSTEM_REC | ER_CANT_GET_STAT
  | ER_CANT_GET_WD | ER_CANT_LOCK | ER_CANT_OPEN_FILE | ER_FILE_NOT_FOUND | ER_CANT_READ_DIR
  | ER_CANT_SET_WD | ER_CHECKREAD | ER_DISK_FULL | ER_ERROR_ON_CLOSE | ER_ERROR_ON_READ
  | ER_ERROR_ON_RENAME | ER_ERROR_ON_WRITE | ER_FILE_USED | ER_FILSORT_ABORT
  | ER_FORM_NOT_FOUND | ER_GET_ERRN | ER_ILLEGAL_HA | ER_KEY_NOT_FOUND
    => Some "HY000"%string
  | _ => None
  end.

Definition sqlstate_arms_3 (e : ErrorKind) : option string :=
  match e with
  | ER_NOT_FORM_FILE | ER_NOT_KEYFILE | ER_OLD_KEYFILE | ER_OPEN_AS_READONLY
  | ER_UNEXPECTED_EOF | ER_OUT_OF_RESOURCES | ER_READY | ER_NORMAL_SHUTDOWN | ER_GOT_SIGNAL
  | ER_SHUTDOWN_COMPLETE | ER_TEXTFILE_NOT_READABLE | ER_FILE_EXISTS_ERROR | ER_LOAD_INF
  | ER_ALTER_INF | ER_WRONG_SUB_KEY | ER_INSERT_INF | ER_UPDATE_TABLE_USED | ER_NO_SUCH_THREAD
  | ER_KILL_DENIED_ERROR | ER_NO_TABLES_USED | ER_TOO_BIG_SET | ER_NO_UNIQUE_LOGFILE
  | ER_TABLE_NOT_LOCKED_FOR_WRITE | ER_TABLE_NOT_LOCKED | ER_UNKNOWN_ERROR
  | ER_WRONG_PARAMETERS_TO_PROCEDURE | ER_INVALID_GROUP_FUNC_USE | ER_RECORD_FILE_FULL
  | ER_TOO_MANY_TABLES | ER_TOO_MANY_FIELDS | ER_STACK_OVERRUN | ER_CANT_FIND_UDF
  | ER_CANT_INITIALIZE_UDF | ER_UDF_NO_PATHS | ER_UDF_EXISTS | ER_CANT_OPEN_LIBRARY
  | ER_CANT_FIND_DL_ENTRY | ER_FUNCTION_NOT_DEFINED | ER_HOST_IS_BLOCKED
  | ER_HOST_NOT_PRIVILEGED | ER_UPDATE_INF | ER_CANT_CREATE_THREAD | ER_CANT_REOPEN_TABLE
  | ER_DELAYED_CANT_CHANGE_LOCK | ER_TOO_MANY_DELAYED_THREADS | ER_DELAYED_INSERT_TABLE_LOCKED
  | ER_WRONG_MRG_TABLE | ER_NO_RAID_COMPILED | ER_UPDATE_WITHOUT_KEY_IN_SAFE_MODE
  | ER_ERROR_DURING_COMMIT | ER_ERROR_DURING_ROLLBACK | ER_ERROR_DURING_FLUSH_LOGS
  | ER_ERROR_DURING_CHECKPOINT | ER_DUMP_NOT_IMPLEMENTED | ER_FLUSH_MASTER_BINLOG_CLOSED
  | ER_INDEX_REBUILD | ER_MASTER | ER_FT_MATCHING_KEY_NOT_FOUND | ER_LOCK_OR_ACTIVE_TRANSACTION
  | ER_UNKNOWN_SYSTEM_VARIABLE | ER_CRASHED_ON_USAGE | ER_CRASHED_ON_REPAIR
  | ER_WARNING_NOT_COMPLETE_ROLLBACK | ER_TRANS_CACHE_FULL | ER_SLAVE_MUST_STOP
  | ER_SLAVE_NOT_RUNNING | ER_BAD_SLAVE | ER_MASTER_INF | ER_SLAVE_THREAD
  | ER_SET_CONSTANTS_ONLY | ER_LOCK_WAIT_TIMEOUT | ER_LOCK_TABLE_FULL
  | ER_DROP_DB_WITH_READ_LOCK | ER_CREATE_DB_WITH_READ_LOCK | ER_WRONG_ARGUMENTS
  | ER_UNION_TABLES_IN_DIFFERENT_DIR | ER_TABLE_CANT_HANDLE_FT | ER_CANNOT_ADD_FOREIGN
  | ER_QUERY_ON_MASTER | ER_ERROR_WHEN_EXECUTING_COMMAND | ER_WRONG_USAGE
  | ER_CANT_UPDATE_WITH_READLOCK | ER_MIXING_NOT_ALLOWED | ER_DUP_ARGUMENT | ER_LOCAL_VARIABLE
  | ER_GLOBAL_VARIABLE | ER_VAR_CANT_BE_READ | ER_MASTER_FATAL_ERROR_READING_BINLOG
  | ER_SLAVE_IGNORED_TABLE | ER_INCORRECT_GLOBAL_LOCAL_VAR | ER_KEY_REF_DO_NOT_MATCH_TABLE_REF
  | ER_UNKNOWN_STMT_HANDLER | ER_CORRUPT_HELP_DB | ER_CYCLIC_REFERENCE | ER_AUTO_CONVERT
  | ER_SLAVE_WAS_RUNNING | ER_SLAVE_WAS_NOT_RUNNING | ER_TOO_BIG_FOR_UNCOMPRESS
  | ER_ZLIB_Z_MEM_ERROR | ER_ZLIB_Z_BUF_ERROR | ER_ZLIB_Z_DATA_ERROR
  | ER_CUT_VALUE_GROUP_CONCAT | ER_WARN_USING_OTHER_HANDLER | ER_CANT_AGGREGATE_2COLLATIONS
  | ER_DROP_USER | ER_REVOKE_GRANTS | ER_CANT_AGGREGATE_3COLLATIONS
  | ER_CANT_AGGREGATE_NCOLLATIONS | ER_VARIABLE_IS_NOT_STRUCT | ER_UNKNOWN_COLLATION
  | ER_SLAVE_IGNORED_SSL_PARAMS | ER_SERVER_IS_IN_SECURE_AUTH_MODE | ER_WARN_FIELD_RESOLVED
  | ER_BAD_SLAVE_UNTIL_COND | ER_MISSING_SKIP_SLAVE | ER_UNTIL_COND_IGNORED | ER_WARN_QC_RESIZE
  | ER_BAD_FT_COLUMN | ER_UNKNOWN_KEY_CACHE | ER_WARN_HOSTNAME_WONT_WORK
  | ER_WARN_DEPRECATED_SYNTAX | ER_NON_UPDATABLE_TABLE | ER_FEATURE_DISABLED
  | ER_OPTION_PREVENTS_STATEMENT | ER_DUPLICATED_VALUE_IN_TYPE
    => Some "HY000"%string
  | _ => None
  end.

Definition sqlstate_arms_4 (e : ErrorKind) : option string :=
  match e with
  | ER_TOO_MUCH_AUTO_TIMESTAMP_COLS | ER_INVALID_ON_UPDATE | ER_UNSUPPORTED_PS | ER_GET_ERRMSG
  | ER_GET_TEMPORARY_ERRMSG | ER_UNKNOWN_TIME_ZONE | ER_WARN_INVALID_TIMESTAMP
  | ER_INVALID_CHARACTER_STRING | ER_WARN_ALLOWED_PACKET_OVERFLOWED
  | ER_CONFLICTING_DECLARATIONS | ER_SP_DROP_FAILED | ER_SP_STORE_FAILED
  | ER_SP_WRONG_NO_OF_FETCH_ARGS | ER_SP_CANT_ALTER | ER_FPARSER_TOO_BIG_FILE
  | ER_FPARSER_BAD_HEADER | ER_FPARSER_EOF_IN_COMMENT | ER_FPARSER_ERROR_IN_PARAMETER
  | ER_FPARSER_EOF_IN_UNKNOWN_PARAMETER | ER_VIEW_NO_EXPLAIN | ER_FRM_UNKNOWN_TYPE
  | ER_WRONG_OBJECT | ER_NONUPDATEABLE_COLUMN | ER_VIEW_SELECT_DERIVED | ER_VIEW_SELECT_CLAUSE
  | ER_VIEW_SELECT_VARIABLE | ER_VIEW_SELECT_TMPTABLE | ER_VIEW_WRONG_LIST | ER_WARN_VIEW_MERGE
  | ER_WARN_VIEW_WITHOUT_KEY | ER_VIEW_INVALID | ER_SP_NO_DROP_SP | ER_SP_GOTO_IN_HNDLR
  | ER_TRG_ALREADY_EXISTS | ER_TRG_DOES_NOT_EXIST | ER_TRG_ON_VIEW_OR_TEMP_TABLE
  | ER_TRG_CANT_CHANGE_ROW | ER_TRG_NO_SUCH_ROW_IN_TRG | ER_NO_DEFAULT_FOR_FIELD
  | ER_TRUNCATED_WRONG_VALUE_FOR_FIELD | ER_VIEW_NONUPD_CHECK | ER_VIEW_CHECK_FAILED
  | ER_RELAY_LOG_FAIL | ER_PASSWD_LENGTH | ER_UNKNOWN_TARGET_BINLOG | ER_IO_ERR_LOG_INDEX_READ
  | ER_BINLOG_PURGE_PROHIBITED | ER_FSEEK_FAIL | ER_BINLOG_PURGE_FATAL_ERR | ER_LOG_IN_USE
  | ER_LOG_PURGE_UNKNOWN_ERR | ER_RELAY_LOG_INIT | ER_NO_BINARY_LOGGING | ER_RESERVED_SYNTAX
  | ER_WSAS_FAILED | ER_DIFF_GROUPS_PROC | ER_NO_GROUP_FOR_PROC | ER_ORDER_WITH_PROC
  | ER_LOGGING_PROHIBIT_CHANGING_OF | ER_NO_FILE_MAPPING | ER_WRONG_MAGIC | ER_PS_MANY_PARAM
  | ER_KEY_PART_0 | ER_VIEW_CHECKSUM | ER_VIEW_MULTIUPDATE | ER_VIEW_NO_INSERT_FIELD_LIST
  | ER_VIEW_DELETE_MERGE_VIEW | ER_CANNOT_USER | ER_PROC_AUTO_GRANT_FAIL
  | ER_PROC_AUTO_REVOKE_FAIL | ER_STARTUP | ER_LOAD_FROM_FIXED_SIZE_ROWS_TO_VAR
  | ER_WRONG_VALUE_FOR_TYPE | ER_TABLE_DEF_CHANGED | ER_FAILED_ROUTINE_BREAK_BINLOG
  | ER_BINLOG_UNSAFE_ROUTINE | ER_BINLOG_CREATE_ROUTINE_NEED_SUPER
  | ER_EXEC_STMT_WITH_OPEN_CURSOR | ER_STMT_HAS_NO_OPEN_CURSOR
  | ER_COMMIT_NOT_ALLOWED_IN_SF_OR_TRG | ER_NO_DEFAULT_FOR_VIEW_FIELD | ER_SP_NO_RECURSION
  | ER_WRONG_LOCK_OF_SYSTEM_TABLE | ER_CONNECT_TO_FOREIGN_DATA_SOURCE
  | ER_QUERY_ON_FOREIGN_DATA_SOURCE | ER_FOREIGN_DATA_SOURCE_DOESNT_EXIST
  | ER_FOREIGN_DATA_STRING_INVALID_CANT_CREATE | ER_FOREIGN_DATA_STRING_INVALID
  | ER_CANT_CREATE_FEDERATED_TABLE | ER_TRG_IN_WRONG_SCHEMA | ER_STACK_OVERRUN_NEED_MORE
  | ER_WARN_CANT_DROP_DEFAULT_KEYCACHE | ER_CANT_UPDATE_USED_TABLE_IN_SF_OR_TRG
  | ER_VIEW_PREVENT_UPDATE | ER_PS_NO_RECURSION | ER_SP_CANT_SET_AUTOCOMMIT
  | ER_MALFORMED_DEFINER | ER_VIEW_FRM_NO_USER | ER_VIEW_OTHER_USER | ER_NO_SUCH_USER
  | ER_FORBID_SCHEMA_CHANGE | ER_TRG_NO_DEFINER | ER_OLD_FILE_FORMAT | ER_SP_RECURSION_LIMIT
  | ER_SP_PROC_TABLE_CORRUPT | ER_TABLE_NEEDS_UPGRADE | ER_VIEW_RECURSIVE
  | ER_TABLE_CANT_HANDLE_SPKEYS | ER_NO_TRIGGERS_ON_SYSTEM_SCHEMA | ER_REMOVED_SPACES
  | ER_AUTOINC_READ_FAILED | ER_USERNAME | ER_HOSTNAME | ER_WRONG_STRING_LENGTH
  | ER_NON_INSERTABLE_TABLE | ER_ADMIN_WRONG_MRG_TABLE
  | ER_TOO_HIGH_LEVEL_OF_NESTING_FOR_SELECT | ER_NAME_BECOMES_EMPTY | ER_AMBIGUOUS_FIELD_TERM
  | ER_FOREIGN_SERVER_EXISTS | ER_FOREIGN_SERVER_DOESNT_EXIST | ER_ILLEGAL_HA_CREATE_OPTION
  | ER_PARTITION_REQUIRES_VALUES_ERROR | ER_PARTITION_WRONG_VALUES_ERROR
  | ER_PARTITION_MAXVALUE_ERROR
    => Some "HY000"%string
  | _ => None
  end.

Definition sqlstate_arms_5 (e : ErrorKind) : option string :=
  match e with
  | ER_PARTITION_SUBPARTITION_ERROR | ER_PARTITION_SUBPART_MIX_ERROR
  | ER_PARTITION_WRONG_NO_PART_ERROR | ER_PARTITION_WRONG_NO_SUBPART_ERROR
  | ER_WRONG_EXPR_IN_PARTITION_FUNC_ERROR | ER_NO_CONST_EXPR_IN_RANGE_OR_LIST_ERROR
  | ER_FIELD_NOT_FOUND_PART_ERROR | ER_LIST_OF_FIELDS_ONLY_IN_HASH_ERROR
  | ER_INCONSISTENT_PARTITION_INFO_ERROR | ER_PARTITION_FUNC_NOT_ALLOWED_ERROR
  | ER_PARTITIONS_MUST_BE_DEFINED_ERROR | ER_RANGE_NOT_INCREASING_ERROR
  | ER_INCONSISTENT_TYPE_OF_FUNCTIONS_ERROR | ER_MULTIPLE_DEF_CONST_IN_LIST_PART_ERROR
  | ER_PARTITION_ENTRY_ERROR | ER_MIX_HANDLER_ERROR | ER_PARTITION_NOT_DEFINED_ERROR
  | ER_TOO_MANY_PARTITIONS_ERROR | ER_SUBPARTITION_ERROR | ER_CANT_CREATE_HANDLER_FILE
  | ER_BLOB_FIELD_IN_PART_FUNC_ERROR | ER_UNIQUE_KEY_NEED_ALL_FIELDS_IN_PF | ER_NO_PARTS_ERROR
  | ER_PARTITION_MGMT_ON_NONPARTITIONED | ER_FOREIGN_KEY_ON_PARTITIONED
  | ER_DROP_PARTITION_NON_EXISTENT | ER_DROP_LAST_PARTITION
  | ER_COALESCE_ONLY_ON_HASH_PARTITION | ER_REORG_HASH_ONLY_ON_SAME_N | ER_REORG_NO_PARAM_ERROR
  | ER_ONLY_ON_RANGE_LIST_PARTITION | ER_ADD_PARTITION_SUBPART_ERROR
  | ER_ADD_PARTITION_NO_NEW_PARTITION | ER_COALESCE_PARTITION_NO_PARTITION
  | ER_REORG_PARTITION_NOT_EXIST | ER_SAME_NAME_PARTITION | ER_NO_BINLOG_ERROR
  | ER_CONSECUTIVE_REORG_PARTITIONS | ER_REORG_OUTSIDE_RANGE | ER_PARTITION_FUNCTION_FAILURE
  | ER_PART_STATE_ERROR | ER_LIMITED_PART_RANGE | ER_PLUGIN_IS_NOT_LOADED | ER_WRONG_VALUE
  | ER_NO_PARTITION_FOR_GIVEN_VALUE | ER_FILEGROUP_OPTION_ONLY_ONCE
  | ER_CREATE_FILEGROUP_FAILED | ER_DROP_FILEGROUP_FAILED | ER_TABLESPACE_AUTO_EXTEND_ERROR
  | ER_WRONG_SIZE_NUMBER | ER_SIZE_OVERFLOW_ERROR | ER_ALTER_FILEGROUP_FAILED
  | ER_BINLOG_ROW_LOGGING_FAILED | ER_BINLOG_ROW_WRONG_TABLE_DEF | ER_BINLOG_ROW_RBR_TO_SBR
  | ER_EVENT_ALREADY_EXISTS | ER_EVENT_STORE_FAILED | ER_EVENT_DOES_NOT_EXIST
  | ER_EVENT_CANT_ALTER | ER_EVENT_DROP_FAILED | ER_EVENT_INTERVAL_NOT_POSITIVE_OR_TOO_BIG
  | ER_EVENT_ENDS_BEFORE_STARTS | ER_EVENT_EXEC_TIME_IN_THE_PAST | ER_EVENT_OPEN_TABLE_FAILED
  | ER_EVENT_NEITHER_M_EXPR_NOR_M_AT | ER_COL_COUNT_DOESNT_MATCH_CORRUPTED
  | ER_CANNOT_LOAD_FROM_TABLE | ER_EVENT_CANNOT_DELETE | ER_EVENT_COMPILE_ERROR
  | ER_EVENT_SAME_NAME | ER_EVENT_DATA_TOO_LONG | ER_DROP_INDEX_FK
  | ER_WARN_DEPRECATED_SYNTAX_WITH_VER | ER_CANT_WRITE_LOCK_LOG_TABLE | ER_CANT_LOCK_LOG_TABLE
  | ER_COL_COUNT_DOESNT_MATCH_PLEASE_UPDATE | ER_TEMP_TABLE_PREVENTS_SWITCH_OUT_OF_RBR
  | ER_STORED_FUNCTION_PREVENTS_SWITCH_BINLOG_FORMAT | ER_NDB_CANT_SWITCH_BINLOG_FORMAT
  | ER_PARTITION_NO_TEMPORARY | ER_PARTITION_CONST_DOMAIN_ERROR
  | ER_PARTITION_FUNCTION_IS_NOT_ALLOWED | ER_DDL_LOG_ERROR | ER_NULL_IN_VALUES_LESS_THAN
  | ER_WRONG_PARTITION_NAME | ER_DUP_ENTRY_AUTOINCREMENT_CASE | ER_EVENT_MODIFY_QUEUE_ERROR
  | ER_EVENT_SET_VAR_ERROR | ER_PARTITION_MERGE_ERROR | ER_CANT_ACTIVATE_LOG
  | ER_RBR_NOT_AVAILABLE | ER_BASE64_DECODE_ERROR | ER_EVENT_RECURSION_FORBIDDEN
  | ER_EVENTS_DB_ERROR | ER_ONLY_INTEGERS_ALLOWED | ER_UNSUPORTED_LOG_ENGINE
  | ER_BAD_LOG_STATEMENT | ER_CANT_RENAME_LOG_TABLE | ER_NATIVE_FCT_NAME_COLLISION
  | ER_BINLOG_PURGE_EMFILE | ER_EVENT_CANNOT_CREATE_IN_THE_PAST
  | ER_EVENT_CANNOT_ALTER_IN_THE_PAST | ER_SLAVE_INCIDENT
  | ER_NO_PARTITION_FOR_GIVEN_VALUE_SILENT | ER_BINLOG_UNSAFE_STATEMENT | ER_SLAVE_FATAL_ERROR
  | ER_SLAVE_RELAY_LOG_READ_FAILURE | ER_SLAVE_RELAY_LOG_WRITE_FAILURE
  | ER_SLAVE_CREATE_EVENT_FAILURE | ER_SLAVE_MASTER_COM_FAILURE | ER_BINLOG_LOGGING_IMPOSSIBLE
  | ER_VIEW_NO_CREATION_CTX | ER_VIEW_INVALID_CREATION_CTX | ER_SR_INVALID_CREATION_CTX
  | ER_TRG_CORRUPTED_FILE | ER_TRG_NO_CREATION_CTX | ER_TRG_INVALID_CREATION_CTX
  | ER_EVENT_INVALID_CREATION_CTX | ER_TRG_CANT_OPEN_TABLE | ER_CANT_CREATE_SROUTINE
  | ER_UNUSED_11 | ER_NO_FORMAT_DESCRIPTION_EVENT_BEFORE_BINLOG_STATEMENT
  | ER_SLAVE_CORRUPT_EVENT | ER_LOAD_DATA_INVALID_COLUMN | ER_LOG_PURGE_NO_FILE
    => Some "HY000"%string
  | _ => None
  end.

Definition sqlstate_arms_6 (e : ErrorKind) : option string :=
  match e with
  | ER_NEED_REPREPARE | ER_DELAYED_NOT_SUPPORTED | WARN_NO_MASTER_INF | WARN_OPTION_IGNORED
  | WARN_PLUGIN_DELETE_BUILTIN | WARN_PLUGIN_BUSY | ER_VARIABLE_IS_READONLY
  | ER_WARN_ENGINE_TRANSACTION_ROLLBACK | ER_SLAVE_HEARTBEAT_FAILURE
  | ER_SLAVE_HEARTBEAT_VALUE_OUT_OF_RANGE | ER_NDB_REPLICATION_SCHEMA_ERROR
  | ER_CONFLICT_FN_PARSE_ERROR | ER_EXCEPTIONS_WRITE_ERROR | ER_TOO_LONG_TABLE_COMMENT
  | ER_TOO_LONG_FIELD_COMMENT | ER_DATABASE_NAME | ER_TABLE_NAME | ER_PARTITION_NAME
  | ER_SUBPARTITION_NAME | ER_TEMPORARY_NAME | ER_RENAMED_NAME | ER_TOO_MANY_CONCURRENT_TRXS
  | WARN_NON_ASCII_SEPARATOR_NOT_IMPLEMENTED | ER_DEBUG_SYNC_TIMEOUT | ER_DEBUG_SYNC_HIT_LIMIT
  | ER_SIGNAL_EXCEPTION | ER_SIGNAL_BAD_CONDITION_TYPE | WARN_COND_ITEM_TRUNCATED
  | ER_COND_ITEM_TOO_LONG | ER_UNKNOWN_LOCALE | ER_SLAVE_IGNORE_SERVER_IDS
  | ER_QUERY_CACHE_DISABLED | ER_SAME_NAME_PARTITION_FIELD | ER_PARTITION_COLUMN_LIST_ERROR
  | ER_WRONG_TYPE_COLUMN_VALUE_ERROR | ER_TOO_MANY_PARTITION_FUNC_FIELDS_ERROR
  | ER_MAXVALUE_IN_VALUES_IN | ER_TOO_MANY_VALUES_ERROR | ER_ROW_SINGLE_PARTITION_FIELD_ERROR
  | ER_FIELD_TYPE_NOT_ALLOWED_AS_PARTITION_FIELD | ER_PARTITION_FIELDS_TOO_LONG
  | ER_BINLOG_ROW_ENGINE_AND_STMT_ENGINE | ER_BINLOG_ROW_MODE_AND_STMT_ENGINE
  | ER_BINLOG_UNSAFE_AND_STMT_ENGINE | ER_BINLOG_ROW_INJECTION_AND_STMT_ENGINE
  | ER_BINLOG_STMT_MODE_AND_ROW_ENGINE | ER_BINLOG_ROW_INJECTION_AND_STMT_MODE
  | ER_BINLOG_MULTIPLE_ENGINES_AND_SELF_LOGGING_ENGINE | ER_BINLOG_UNSAFE_LIMIT
  | ER_BINLOG_UNSAFE_INSERT_DELAYED | ER_BINLOG_UNSAFE_SYSTEM_TABLE
  | ER_BINLOG_UNSAFE_AUTOINC_COLUMNS | ER_BINLOG_UNSAFE_UDF | ER_BINLOG_UNSAFE_SYSTEM_VARIABLE
  | ER_BINLOG_UNSAFE_SYSTEM_FUNCTION | ER_BINLOG_UNSAFE_NONTRANS_AFTER_TRANS
  | ER_MESSAGE_AND_STATEMENT | ER_SLAVE_CONVERSION_FAILED | ER_SLAVE_CANT_CREATE_CONVERSION
  | ER_INSIDE_TRANSACTION_PREVENTS_SWITCH_BINLOG_FORMAT | ER_PATH_LENGTH
  | ER_WARN_DEPRECATED_SYNTAX_NO_REPLACEMENT | ER_WRONG_NATIVE_TABLE_STRUCTURE
  | ER_WRONG_PERFSCHEMA_USAGE | ER_WARN_I_S_SKIPPED_TABLE
  | ER_INSIDE_TRANSACTION_PREVENTS_SWITCH_BINLOG_DIRECT
  | ER_STORED_FUNCTION_PREVENTS_SWITCH_BINLOG_DIRECT | ER_TOO_LONG_INDEX_COMMENT
  | ER_LOCK_ABORTED | ER_WRONG_SPVAR_TYPE_IN_LIMIT
  | ER_BINLOG_UNSAFE_MULTIPLE_ENGINES_AND_SELF_LOGGING_ENGINE
  | ER_BINLOG_UNSAFE_MIXED_STATEMENT | ER_INSIDE_TRANSACTION_PREVENTS_SWITCH_SQL_LOG_BIN
  | ER_STORED_FUNCTION_PREVENTS_SWITCH_SQL_LOG_BIN | ER_FAILED_READ_FROM_PAR_FILE
  | ER_VALUES_IS_NOT_INT_TYPE_ERROR | ER_SET_PASSWORD_AUTH_PLUGIN | ER_GRANT_PLUGIN_USER_EXISTS
  | ER_PLUGIN_IS_PERMANENT | ER_SLAVE_HEARTBEAT_VALUE_OUT_OF_RANGE_MIN
  | ER_SLAVE_HEARTBEAT_VALUE_OUT_OF_RANGE_MAX | ER_STMT_CACHE_FULL
  | ER_MULTI_UPDATE_KEY_CONFLICT | ER_TABLE_NEEDS_REBUILD | WARN_OPTION_BELOW_LIMIT
  | ER_INDEX_COLUMN_TOO_LONG | ER_ERROR_IN_TRIGGER_BODY | ER_ERROR_IN_UNKNOWN_TRIGGER_BODY
  | ER_INDEX_CORRUPT | ER_UNDO_RECORD_TOO_BIG | ER_BINLOG_UNSAFE_INSERT_IGNORE_SELECT
  | ER_BINLOG_UNSAFE_INSERT_SELECT_UPDATE | ER_BINLOG_UNSAFE_REPLACE_SELECT
  | ER_BINLOG_UNSAFE_CREATE_IGNORE_SELECT | ER_BINLOG_UNSAFE_CREATE_REPLACE_SELECT
  | ER_BINLOG_UNSAFE_UPDATE_IGNORE | ER_PLUGIN_NO_UNINSTALL | ER_PLUGIN_NO_INSTALL
  | ER_BINLOG_UNSAFE_WRITE_AUTOINC_SELECT | ER_BINLOG_UNSAFE_CREATE_SELECT_AUTOINC
  | ER_BINLOG_UNSAFE_INSERT_TWO_KEYS | ER_TABLE_IN_FK_CHECK | ER_UNSUPPORTED_ENGINE
  | ER_BINLOG_UNSAFE_AUTOINC_NOT_FIRST | ER_CANNOT_LOAD_FROM_TABLE_V2
  | ER_MASTER_DELAY_VALUE_OUT_OF_RANGE | ER_ONLY_FD_AND_RBR_EVENTS_ALLOWED_IN_BINLOG_STATEMENT
  | ER_PARTITION_EXCHANGE_DIFFERENT_OPTION | ER_PARTITION_EXCHANGE_PART_TABLE
  | ER_PARTITION_EXCHANGE_TEMP_TABLE | ER_PARTITION_INSTEAD_OF_SUBPARTITION
  | ER_UNKNOWN_PARTITION | ER_TABLES_DIFFERENT_METADATA | ER_ROW_DOES_NOT_MATCH_PARTITION
  | ER_BINLOG_CACHE_SIZE_GREATER_THAN_MAX | ER_WARN_INDEX_NOT_APPLICABLE
  | ER_PARTITION_EXCHANGE_FOREIGN_KEY | ER_NO_SUCH_KEY_VALUE | ER_RPL_INFO_DATA_TOO_LONG
  | ER_NETWORK_READ_EVENT_CHECKSUM_FAILURE | ER_BINLOG_READ_EVENT_CHECKSUM_FAILURE
  | ER_BINLOG_STMT_CACHE_SIZE_GREATER_THAN_MAX | ER_CANT_UPDATE_TABLE_IN_CREATE_TABLE_SELECT
  | ER_PARTITION_CLAUSE_ON_NONPARTITIONED | ER_ROW_DOES_NOT_MATCH_GIVEN_PARTITION_SET
    => Some "HY000"%string
  | _ => None
  end.

Definition sqlstate_arms_7 (e : ErrorKind) : option string :=
  match e with
  | ER_NO_SUCH_PARTITION_UNUSED | ER_CHANGE_RPL_INFO_REPOSITORY_FAILURE
  | ER_WARNING_NOT_COMPLETE_ROLLBACK_WITH_CREATED_TEMP_TABLE
  | ER_WARNING_NOT_COMPLETE_ROLLBACK_WITH_DROPPED_TEMP_TABLE | ER_MTS_FEATURE_IS_NOT_SUPPORTED
  | ER_MTS_UPDATED_DBS_GREATER_MAX | ER_MTS_CANT_PARALLEL | ER_MTS_INCONSISTENT_DATA
  | ER_FULLTEXT_NOT_SUPPORTED_WITH_PARTITIONING | ER_INSECURE_PLAIN_TEXT
  | ER_INSECURE_CHANGE_MASTER | ER_SQLTHREAD_WITH_SECURE_SLAVE | ER_TABLE_HAS_NO_FT
  | ER_VARIABLE_NOT_SETTABLE_IN_SF_OR_TRIGGER | ER_VARIABLE_NOT_SETTABLE_IN_TRANSACTION
  | ER_GTID_NEXT_IS_NOT_IN_GTID_NEXT_LIST
  | ER_CANT_CHANGE_GTID_NEXT_IN_TRANSACTION_WHEN_GTID_NEXT_LIST_IS_NULL
  | ER_SET_STATEMENT_CANNOT_INVOKE_FUNCTION
  | ER_GTID_NEXT_CANT_BE_AUTOMATIC_IF_GTID_NEXT_LIST_IS_NON_NULL
  | ER_SKIPPING_LOGGED_TRANSACTION | ER_MALFORMED_GTID_SET_SPECIFICATION
  | ER_MALFORMED_GTID_SET_ENCODING | ER_MALFORMED_GTID_SPECIFICATION | ER_GNO_EXHAUSTED
  | ER_BAD_SLAVE_AUTO_POSITION | ER_AUTO_POSITION_REQUIRES_GTID_MODE_ON
  | ER_CANT_DO_IMPLICIT_COMMIT_IN_TRX_WHEN_GTID_NEXT_IS_SET
  | ER_GTID_MODE_2_OR_3_REQUIRES_DISABLE_GTID_UNSAFE_STATEMENTS_ON
  | ER_GTID_MODE_REQUIRES_BINLOG | ER_CANT_SET_GTID_NEXT_TO_GTID_WHEN_GTID_MODE_IS_OFF
  | ER_CANT_SET_GTID_NEXT_TO_ANONYMOUS_WHEN_GTID_MODE_IS_ON
  | ER_CANT_SET_GTID_NEXT_LIST_TO_NON_NULL_WHEN_GTID_MODE_IS_OFF
  | ER_FOUND_GTID_EVENT_WHEN_GTID_MODE_IS_OFF | ER_GTID_UNSAFE_NON_TRANSACTIONAL_TABLE
  | ER_GTID_UNSAFE_CREATE_SELECT | ER_GTID_UNSAFE_CREATE_DROP_TEMPORARY_TABLE_IN_TRANSACTION
  | ER_GTID_MODE_CAN_ONLY_CHANGE_ONE_STEP_AT_A_TIME | ER_MASTER_HAS_PURGED_REQUIRED_GTIDS
  | ER_CANT_SET_GTID_NEXT_WHEN_OWNING_GTID | ER_UNKNOWN_EXPLAIN_FORMAT
  | ER_TOO_LONG_TABLE_PARTITION_COMMENT | ER_SLAVE_CONFIGURATION | ER_INNODB_FT_LIMIT
  | ER_INNODB_NO_FT_TEMP_TABLE | ER_INNODB_FT_WRONG_DOCID_COLUMN
  | ER_INNODB_FT_WRONG_DOCID_INDEX | ER_INNODB_ONLINE_LOG_TOO_BIG | ER_UNKNOWN_ALTER_ALGORITHM
  | ER_UNKNOWN_ALTER_LOCK | ER_MTS_CHANGE_MASTER_CANT_RUN_WITH_GAPS | ER_MTS_RECOVERY_FAILURE
  | ER_MTS_RESET_WORKERS | ER_COL_COUNT_DOESNT_MATCH_CORRUPTED_V2
  | ER_SLAVE_SILENT_RETRY_TRANSACTION | ER_DISCARD_FK_CHECKS_RUNNING | ER_TABLE_SCHEMA_MISMATCH
  | ER_TABLE_IN_SYSTEM_TABLESPACE | ER_IO_READ_ERROR | ER_IO_WRITE_ERROR
  | ER_TABLESPACE_MISSING | ER_TABLESPACE_EXISTS | ER_TABLESPACE_DISCARDED | ER_INTERNAL_ERROR
  | ER_INNODB_IMPORT_ERROR | ER_INNODB_INDEX_CORRUPT | ER_INVALID_YEAR_COLUMN_LENGTH
  | ER_NOT_VALID_PASSWORD | ER_MUST_CHANGE_PASSWORD | ER_FK_NO_INDEX_CHILD
  | ER_FK_NO_INDEX_PARENT | ER_FK_FAIL_ADD_SYSTEM | ER_FK_CANNOT_OPEN_PARENT
  | ER_FK_INCORRECT_OPTION | ER_FK_DUP_NAME | ER_PASSWORD_FORMAT | ER_FK_COLUMN_CANNOT_DROP
  | ER_FK_COLUMN_CANNOT_DROP_CHILD | ER_FK_COLUMN_NOT_NULL | ER_DUP_INDEX
  | ER_FK_COLUMN_CANNOT_CHANGE | ER_FK_COLUMN_CANNOT_CHANGE_CHILD | ER_FK_CANNOT_DELETE_PARENT
  | ER_MALFORMED_PACKET | ER_READ_ONLY_MODE | ER_GTID_NEXT_TYPE_UNDEFINED_GROUP
  | ER_VARIABLE_NOT_SETTABLE_IN_SP | ER_CANT_SET_GTID_PURGED_WHEN_GTID_MODE_IS_OFF
  | ER_CANT_SET_GTID_PURGED_WHEN_GTID_EXECUTED_IS_NOT_EMPTY
  | ER_CANT_SET_GTID_PURGED_WHEN_OWNED_GTIDS_IS_NOT_EMPTY | ER_GTID_PURGED_WAS_CHANGED
  | ER_GTID_EXECUTED_WAS_CHANGED | ER_BINLOG_STMT_MODE_AND_NO_REPL_TABLES
  | ER_ALTER_OPERATION_NOT_SUPPORTED_REASON_COPY
  | ER_ALTER_OPERATION_NOT_SUPPORTED_REASON_PARTITION
  | ER_ALTER_OPERATION_NOT_SUPPORTED_REASON_FK_RENAME
  | ER_ALTER_OPERATION_NOT_SUPPORTED_REASON_COLUMN_TYPE
  | ER_ALTER_OPERATION_NOT_SUPPORTED_REASON_FK_CHECK
  | ER_ALTER_OPERATION_NOT_SUPPORTED_REASON_IGNORE
  | ER_ALTER_OPERATION_NOT_SUPPORTED_REASON_NOPK
  | ER_ALTER_OPERATION_NOT_SUPPORTED_REASON_AUTOINC
  | ER_ALTER_OPERATION_NOT_SUPPORTED_REASON_HIDDEN_FTS
  | ER_ALTER_OPERATION_NOT_SUPPORTED_REASON_CHANGE_FTS
  | ER_ALTER_OPERATION_NOT_SUPPORTED_REASON_FTS
  | ER_SQL_SLAVE_SKIP_COUNTER_NOT_SETTABLE_IN_GTID_MODE | ER_IDENT_CAUSES_TOO_LONG_PATH
  | ER_ALTER_OPERATION_NOT_SUPPORTED_REASON_NOT_NULL | ER_MUST_CHANGE_PASSWORD_LOGIN
  | ER_ROW_IN_WRONG_PARTITION | ER_MTS_EVENT_BIGGER_PENDING_JOBS_SIZE_MAX
  | ER_INNODB_NO_FT_USES_PARSER | ER_BINLOG_LOGICAL_CORRUPTION | ER_WARN_PURGE_LOG_IN_USE
  | ER_WARN_PURGE_LOG_IS_ACTIVE | ER_AUTO_INCREMENT_CONFLICT | WARN_ON_BLOCKHOLE_IN_RBR
  | ER_SLAVE_MI_INIT_REPOSITORY | ER_SLAVE_RLI_INIT_REPOSITORY | ER_INNODB_READ_ONLY
  | ER_STOP_SLAVE_SQL_THREAD_TIMEOUT | ER_STOP_SLAVE_IO_THREAD_TIMEOUT | ER_TABLE_CORRUPT
  | ER_TEMP_FILE_WRITE_FAILURE | ER_INNODB_FT_AUX_NOT_HEX_ID | ER_OLD_TEMPORALS_UPGRADED
  | ER_INNODB_FORCED_RECOVERY
    => Some "HY000"%string
  | _ => None
  end.

Definition sqlstate_arms_8 (e : ErrorKind) : option string :=
  match e with
  | ER_AES_INVALID_IV | ER_PLUGIN_CANNOT_BE_UNINSTALLED
  | ER_GTID_UNSAFE_BINLOG_SPLITTABLE_STATEMENT_AND_GTID_GROUP
  | ER_SLAVE_HAS_MORE_GTIDS_THAN_MASTER
    => Some "HY000"%string
  | ER_XAER_NOTA
    => Some "XAE04"%string
  | ER_XA_RBROLLBACK
    => Some "XA100"%string
  | ER_DATA_TOO_LONG
    => Some "22001"%string
  | ER_LOCK_DEADLOCK
    => Some "40001"%string
  | ER_WRONG_NUMBER_OF_COLUMNS_IN_SELECT | ER_OPERAND_COLUMNS | ER_SUBQUERY_NO_1_ROW
    => Some "21000"%string
  | _ => None
  end.

Definition sqlstate (e : ErrorKind) : bytes :=
  str (default EmptyString (
    sqlstate_arms_1 e <|> sqlstate_arms_2 e <|> sqlstate_arms_3 e <|> sqlstate_arms_4 e
    <|> sqlstate_arms_5 e <|> sqlstate_arms_6 e <|> sqlstate_arms_7 e <|> sqlstate_arms_8 e)).

(** ** Lemmas and theorems *)

Lemma from_arms_codes : map fst from_arms = map Z.of_nat (seq 1000 886).
Proof. vm_compute. reflexivity. Qed.

Lemma from_arms_repr : Forall (fun arm => error_u16 (snd arm) = fst arm) from_arms.
Proof. apply (bool_decide_eq_true_1 _). vm_compute. reflexivity. Qed.

Lemma find_arm x : match List.find (fun arm => fst arm =? x) from_arms with
                   | Some (c, e) => c = x /\ error_u16 e = x
                   | None => x ∉ map fst from_arms
                   end.
Proof.
  destruct (List.find _ _) as [[c e]|] eqn:E.
  - apply List.find_some in E as [Hin Hc]. apply Z.eqb_eq in Hc. simpl in Hc. subst c.
    split; [done|]. apply list_elem_of_In in Hin.
    by apply (proj1 (Forall_forall _ _) from_arms_repr) in Hin.
  - intros Hin. apply list_elem_of_fmap in Hin as ([c e] & -> & Hin).
    apply list_elem_of_In in Hin. apply (List.find_none _ _ E) in Hin. simpl in Hin.
    by rewrite Z.eqb_refl in Hin.
Qed.

Lemma error_u16_range e : 1000 <= error_u16 e <= 1885.
Proof. destruct e; vm_compute; split; discriminate. Qed.

Lemma error_from_code {E} e : error_from_u16 (E := E) (error_u16 e) = Ok e.
Proof. destruct e; vm_compute; reflexivity. Qed.

(** [ErrorKind::from] on every [u16]: it inverts [e as u16]; between 1000 and 1885 it returns
    the variant with that discriminant, and on every other code it panics. *)
Theorem error_from_u16_cases x :
  (forall e, error_from_u16 (E := io_error) (error_u16 e) = Ok e) /\
  ((1000 <= x <= 1885 /\ exists e, error_from_u16 (E := io_error) x = Ok e /\ error_u16 e = x) \/
   (~ 1000 <= x <= 1885 /\ error_from_u16 (E := io_error) x = Panic)).
Proof.
  split; [apply error_from_code|].
  assert (x ∈ map fst from_arms <-> 1000 <= x <= 1885) as Hx.
  { rewrite from_arms_codes, list_elem_of_fmap. setoid_rewrite elem_of_seq. split.
    - intros (n & -> & ?). lia.
    - intros. exists (Z.to_nat x). lia. }
  unfold error_from_u16. pose proof (find_arm x) as Hf. destruct (List.find _ _) as [[c e]|] eqn:E.
  - left. destruct Hf as [-> He]. split; [|by exists e].
    apply Hx. apply List.find_some in E as [Hin _]. apply list_elem_of_fmap.
    exists (x, e). split; [done|]. by apply list_elem_of_In.
  - right. by rewrite <- Hx.
Qed.

Definition is_sqlstate_char (c : Z) : bool :=
  ((48 <=? c) && (c <=? 57)) || ((65 <=? c) && (c <=? 90)).

(** Every error has an SQLSTATE, of five characters that are digits or capital letters. *)
Lemma sqlstate_len e : len (sqlstate e) = 5 /\ forallb is_sqlstate_char (sqlstate e) = true.
Proof. destruct e; vm_compute; auto. Qed.

(** The states of a client that is refused, and of an unclassified error. *)
Example sqlstate_access_denied : sqlstate ER_ACCESS_DENIED_ERROR = str "28000".
Proof. reflexivity. Qed.
Example sqlstate_handshake : sqlstate ER_HANDSHAKE_ERROR = str "08S01".
Proof. reflexivity. Qed.
