(* ===== verification/Charset.v ===== *)
(** * Character sets and collations ([protocol/mysql/charset.rs])

    The four tables of the source, row by row, and the lookup of a default collation. *)
From S2P Require Import Prelude.

(** ** Definitions *)

Definition DEFAULT_CHARSET : bytes := str "utf8mb4".
Definition DEFAULT_COLLATION_NAME : bytes := str "utf8_general_ci".
Definition DEFAULT_COLLATION_ID : Z := 46.
Definition LATIN1DEFAULT_COLLATION_ID : Z := 47.
Definition ASCII_DEFAULT_COLLATION_ID : Z := 65.
Definition UTF8DEFAULT_COLLATION_ID : Z := 83.
Definition UTF8MB4_DEFAULT_COLLATION_ID : Z := 46.
Definition BINARY_DEFAULT_COLLATION_ID : Z := 63.
Definition OK_PACKET_HEADER_BIT : Z := 0x00.
Definition ERR_PACKET_HEADER_BIT : Z := 0xff.
Definition UTF8_MB4_GENERAL_CI : Z := 45.

(** A [HashMap] filled by a sequence of [insert]s. *)
Definition inserts `{Countable K} {V} (rows : list (K * V)) : gmap K V :=
  foldl (fun m row => <[fst row := snd row]> m) ∅ rows.

Definition collations_rows_1 : list (Z * bytes) :=
  [(1, str "big5_chinese_ci"); (2, str "latin2_czech_cs"); (3, str "dec8_swedish_ci");
   (4, str "cp850_general_ci"); (5, str "latin1_german1_ci"); (6, str "hp8_english_ci");
   (7, str "koi8r_general_ci"); (8, str "latin1_swedish_ci"); (9, str "latin2_general_ci");
   (10, str "swe7_swedish_ci"); (11, str "ascii_general_ci"); (12, str "ujis_japanese_ci");
   (13, str "sjis_japanese_ci"); (14, str "cp1251_bulgarian_ci"); (15, str "latin1_danish_ci");
   (16, str "hebrew_general_ci"); (18, str "tis620_thai_ci"); (19, str "euckr_korean_ci");
   (20, str "latin7_estonian_cs"); (21, str "latin2_hungarian_ci");
   (22, str "koi8u_general_ci"); (23, str "cp1251_ukrainian_ci");
   (24, str "gb2312_chinese_ci"); (25, str "greek_general_ci"); (26, str "cp1250_general_ci");
   (27, str "latin2_croatian_ci"); (28, str "gbk_chinese_ci");
   (29, str "cp1257_lithuanian_ci"); (30, str "latin5_turkish_ci");
   (31, str "latin1_german2_ci"); (32, str "armscii8_general_ci"); (33, str "utf8_general_ci");
   (34, str "cp1250_czech_cs"); (35, str "ucs2_general_ci"); (36, str "cp866_general_ci");
   (37, str "keybcs2_general_ci"); (38, str "macce_general_ci");
   (39, str "macroman_general_ci"); (40, str "cp852_general_ci");
   (41, str "latin7_general_ci"); (42, str "latin7_general_cs"); (43, str "macce_bin");
   (44, str "cp1250_croatian_ci"); (45, str "utf8mb4_general_ci"); (46, str "utf8mb4_bin");
   (47, str "latin1_bin"); (48, str "latin1_general_ci"); (49, str "latin1_general_cs");
   (50, str "cp1251_bin"); (51, str "cp1251_general_ci"); (52, str "cp1251_general_cs");
   (53, str "macroman_bin"); (54, str "utf16_general_ci"); (55, str "utf16_bin");
   (56, str "utf16le_general_ci"); (57, str "cp1256_general_ci"); (58, str "cp1257_bin");
   (59, str "cp1257_general_ci"); (60, str "utf32_general_ci"); (61, str "utf32_bin");
   (62, str "utf16le_bin"); (63, str "binary"); (64, str "armscii8_bin");
   (65, str "ascii_bin"); (66, str "cp1250_bin"); (67, str "cp1256_bin");
   (68, str "cp866_bin"); (69, str "dec8_bin"); (70, str "greek_bin"); (71, str "hebrew_bin");
   (72, str "hp8_bin"); (73, str "keybcs2_bin"); (74, str "koi8r_bin"); (75, str "koi8u_bin");
   (77, str "latin2_bin"); (78, str "latin5_bin"); (79, str "latin7_bin");
   (80, str "cp850_bin"); (81, str "cp852_bin"); (82, str "swe7_bin"); (83, str "utf8_bin");
   (84, str "big5_bin"); (85, str "euckr_bin"); (86, str "gb2312_bin"); (87, str "gbk_bin");
   (88, str "sjis_bin"); (89, str "tis620_bin"); (90, str "ucs2_bin"); (91, str "ujis_bin");
   (92, str "geostd8_general_ci"); (93, str "geostd8_bin"); (94, str "latin1_spanish_ci");
   (95, str "cp932_japanese_ci"); (96, str "cp932_bin"); (97, str "eucjpms_japanese_ci");
   (98, str "eucjpms_bin"); (99, str "cp1250_polish_ci"); (101, str "utf16_unicode_ci");
   (102, str "utf16_icelandic_ci"); (103, str "utf16_latvian_ci");
   (104, str "utf16_romanian_ci"); (105, str "utf16_slovenian_ci");
   (106, str "utf16_polish_ci"); (107, str "utf16_estonian_ci"); (108, str "utf16_spanish_ci");
   (109, str "utf16_swedish_ci"); (110, str "utf16_turkish_ci"); (111, str "utf16_czech_ci");
   (112, str "utf16_danish_ci"); (113, str "utf16_lithuanian_ci")].

Definition collations_rows_2 : list (Z * bytes) :=
  [(114, str "utf16_slovak_ci"); (115, str "utf16_spanish2_ci"); (116, str "utf16_roman_ci");
   (117, str "utf16_persian_ci"); (118, str "utf16_esperanto_ci");
   (119, str "utf16_hungarian_ci"); (120, str "utf16_sinhala_ci");
   (121, str "utf16_german2_ci"); (122, str "utf16_croatian_ci");
   (123, str "utf16_unicode_520_ci"); (124, str "utf16_vietnamese_ci");
   (128, str "ucs2_unicode_ci"); (129, str "ucs2_icelandic_ci"); (130, str "ucs2_latvian_ci");
   (131, str "ucs2_romanian_ci"); (132, str "ucs2_slovenian_ci"); (133, str "ucs2_polish_ci");
   (134, str "ucs2_estonian_ci"); (135, str "ucs2_spanish_ci"); (136, str "ucs2_swedish_ci");
   (137, str "ucs2_turkish_ci"); (138, str "ucs2_czech_ci"); (139, str "ucs2_danish_ci");
   (140, str "ucs2_lithuanian_ci"); (141, str "ucs2_slovak_ci"); (142, str "ucs2_spanish2_ci");
   (143, str "ucs2_roman_ci"); (144, str "ucs2_persian_ci"); (145, str "ucs2_esperanto_ci");
   (146, str "ucs2_hungarian_ci"); (147, str "ucs2_sinhala_ci"); (148, str "ucs2_german2_ci");
   (149, str "ucs2_croatian_ci"); (150, str "ucs2_unicode_520_ci");
   (151, str "ucs2_vietnamese_ci"); (159, str "ucs2_general_mysql500_ci");
   (160, str "utf32_unicode_ci"); (161, str "utf32_icelandic_ci");
   (162, str "utf32_latvian_ci"); (163, str "utf32_romanian_ci");
   (164, str "utf32_slovenian_ci"); (165, str "utf32_polish_ci");
   (166, str "utf32_estonian_ci"); (167, str "utf32_spanish_ci");
   (168, str "utf32_swedish_ci"); (169, str "utf32_turkish_ci"); (170, str "utf32_czech_ci");
   (171, str "utf32_danish_ci"); (172, str "utf32_lithuanian_ci");
   (173, str "utf32_slovak_ci"); (174, str "utf32_spanish2_ci"); (175, str "utf32_roman_ci");
   (176, str "utf32_persian_ci"); (177, str "utf32_esperanto_ci");
   (178, str "utf32_hungarian_ci"); (179, str "utf32_sinhala_ci");
   (180, str "utf32_german2_ci"); (181, str "utf32_croatian_ci");
   (182, str "utf32_unicode_520_ci"); (183, str "utf32_vietnamese_ci");
   (192, str "utf8_unicode_ci"); (193, str "utf8_icelandic_ci"); (194, str "utf8_latvian_ci");
   (195, str "utf8_romanian_ci"); (196, str "utf8_slovenian_ci"); (197, str "utf8_polish_ci");
   (198, str "utf8_estonian_ci"); (199, str "utf8_spanish_ci"); (200, str "utf8_swedish_ci");
   (201, str "utf8_turkish_ci"); (202, str "utf8_czech_ci"); (203, str "utf8_danish_ci");
   (204, str "utf8_lithuanian_ci"); (205, str "utf8_slovak_ci"); (206, str "utf8_spanish2_ci");
   (207, str "utf8_roman_ci"); (208, str "utf8_persian_ci"); (209, str "utf8_esperanto_ci");
   (210, str "utf8_hungarian_ci"); (211, str "utf8_sinhala_ci"); (212, str "utf8_german2_ci");
   (213, str "utf8_croatian_ci"); (214, str "utf8_unicode_520_ci");
   (215, str "utf8_vietnamese_ci"); (223, str "utf8_general_mysql500_ci");
   (224, str "utf8mb4_unicode_ci"); (225, str "utf8mb4_icelandic_ci");
   (226, str "utf8mb4_latvian_ci"); (227, str "utf8mb4_romanian_ci");
   (228, str "utf8mb4_slovenian_ci"); (229, str "utf8mb4_polish_ci");
   (230, str "utf8mb4_estonian_ci"); (231, str "utf8mb4_spanish_ci");
   (232, str "utf8mb4_swedish_ci"); (233, str "utf8mb4_turkish_ci");
   (234, str "utf8mb4_czech_ci"); (235, str "utf8mb4_danish_ci");
   (236, str "utf8mb4_lithuanian_ci"); (237, str "utf8mb4_slovak_ci");
   (238, str "utf8mb4_spanish2_ci"); (239, str "utf8mb4_roman_ci");
   (240, str "utf8mb4_persian_ci"); (241, str "utf8mb4_esperanto_ci");
   (242, str "utf8mb4_hungarian_ci"); (243, str "utf8mb4_sinhala_ci");
   (244, str "utf8mb4_german2_ci"); (245, str "utf8mb4_croatian_ci");
   (246, str "utf8mb4_unicode_520_ci"); (247, str "utf8mb4_vietnamese_ci");
   (255, str "utf8mb4_0900_ai_ci")].

Definition collations : gmap Z bytes := inserts (collations_rows_1 ++ collations_rows_2).

Definition collation_names_rows_1 : list (bytes * Z) :=
  [(str "big5_chinese_ci", 1); (str "latin2_czech_cs", 2); (str "dec8_swedish_ci", 3);
   (str "cp850_general_ci", 4); (str "latin1_german1_ci", 5); (str "hp8_english_ci", 6);
   (str "koi8r_general_ci", 7); (str "latin1_swedish_ci", 8); (str "latin2_general_ci", 9);
   (str "swe7_swedish_ci", 10); (str "ascii_general_ci", 11); (str "ujis_japanese_ci", 12);
   (str "sjis_japanese_ci", 13); (str "cp1251_bulgarian_ci", 14); (str "latin1_danish_ci", 15);
   (str "hebrew_general_ci", 16); (str "tis620_thai_ci", 18); (str "euckr_korean_ci", 19);
   (str "latin7_estonian_cs", 20); (str "latin2_hungarian_ci", 21);
   (str "koi8u_general_ci", 22); (str "cp1251_ukrainian_ci", 23);
   (str "gb2312_chinese_ci", 24); (str "greek_general_ci", 25); (str "cp1250_general_ci", 26);
   (str "latin2_croatian_ci", 27); (str "gbk_chinese_ci", 28);
   (str "cp1257_lithuanian_ci", 29); (str "latin5_turkish_ci", 30);
   (str "latin1_german2_ci", 31); (str "armscii8_general_ci", 32); (str "utf8_general_ci", 33);
   (str "cp1250_czech_cs", 34); (str "ucs2_general_ci", 35); (str "cp866_general_ci", 36);
   (str "keybcs2_general_ci", 37); (str "macce_general_ci", 38);
   (str "macroman_general_ci", 39); (str "cp852_general_ci", 40);
   (str "latin7_general_ci", 41); (str "latin7_general_cs", 42); (str "macce_bin", 43);
   (str "cp1250_croatian_ci", 44); (str "utf8mb4_general_ci", 45); (str "utf8mb4_bin", 46);
   (str "latin1_bin", 47); (str "latin1_general_ci", 48); (str "latin1_general_cs", 49);
   (str "cp1251_bin", 50); (str "cp1251_general_ci", 51); (str "cp1251_general_cs", 52);
   (str "macroman_bin", 53); (str "utf16_general_ci", 54); (str "utf16_bin", 55);
   (str "utf16le_general_ci", 56); (str "cp1256_general_ci", 57); (str "cp1257_bin", 58);
   (str "cp1257_general_ci", 59); (str "utf32_general_ci", 60); (str "utf32_bin", 61);
   (str "utf16le_bin", 62); (str "binary", 63); (str "armscii8_bin", 64);
   (str "ascii_bin", 65); (str "cp1250_bin", 66); (str "cp1256_bin", 67);
   (str "cp866_bin", 68); (str "dec8_bin", 69); (str "greek_bin", 70); (str "hebrew_bin", 71);
   (str "hp8_bin", 72); (str "keybcs2_bin", 73); (str "koi8r_bin", 74); (str "koi8u_bin", 75);
   (str "latin2_bin", 77); (str "latin5_bin", 78); (str "latin7_bin", 79);
   (str "cp850_bin", 80); (str "cp852_bin", 81); (str "swe7_bin", 82); (str "utf8_bin", 83);
   (str "big5_bin", 84); (str "euckr_bin", 85); (str "gb2312_bin", 86); (str "gbk_bin", 87);
   (str "sjis_bin", 88); (str "tis620_bin", 89); (str "ucs2_bin", 90); (str "ujis_bin", 91);
   (str "geostd8_general_ci", 92); (str "geostd8_bin", 93); (str "latin1_spanish_ci", 94);
   (str "cp932_japanese_ci", 95); (str "cp932_bin", 96); (str "eucjpms_japanese_ci", 97);
   (str "eucjpms_bin", 98); (str "cp1250_polish_ci", 99); (str "utf16_unicode_ci", 101);
   (str "utf16_icelandic_ci", 102); (str "utf16_latvian_ci", 103);
   (str "utf16_romanian_ci", 104); (str "utf16_slovenian_ci", 105);
   (str "utf16_polish_ci", 106); (str "utf16_estonian_ci", 107); (str "utf16_spanish_ci", 108);
   (str "utf16_swedish_ci", 109); (str "utf16_turkish_ci", 110); (str "utf16_czech_ci", 111);
   (str "utf16_danish_ci", 112); (str "utf16_lithuanian_ci", 113)].

Definition collation_names_rows_2 : list (bytes * Z) :=
  [(str "utf16_slovak_ci", 114); (str "utf16_spanish2_ci", 115); (str "utf16_roman_ci", 116);
   (str "utf16_persian_ci", 117); (str "utf16_esperanto_ci", 118);
   (str "utf16_hungarian_ci", 119); (str "utf16_sinhala_ci", 120);
   (str "utf16_german2_ci", 121); (str "utf16_croatian_ci", 122);
   (str "utf16_unicode_520_ci", 123); (str "utf16_vietnamese_ci", 124);
   (str "ucs2_unicode_ci", 128); (str "ucs2_icelandic_ci", 129); (str "ucs2_latvian_ci", 130);
   (str "ucs2_romanian_ci", 131); (str "ucs2_slovenian_ci", 132); (str "ucs2_polish_ci", 133);
   (str "ucs2_estonian_ci", 134); (str "ucs2_spanish_ci", 135); (str "ucs2_swedish_ci", 136);
   (str "ucs2_turkish_ci", 137); (str "ucs2_czech_ci", 138); (str "ucs2_danish_ci", 139);
   (str "ucs2_lithuanian_ci", 140); (str "ucs2_slovak_ci", 141); (str "ucs2_spanish2_ci", 142);
   (str "ucs2_roman_ci", 143); (str "ucs2_persian_ci", 144); (str "ucs2_esperanto_ci", 145);
   (str "ucs2_hungarian_ci", 146); (str "ucs2_sinhala_ci", 147); (str "ucs2_german2_ci", 148);
   (str "ucs2_croatian_ci", 149); (str "ucs2_unicode_520_ci", 150);
   (str "ucs2_vietnamese_ci", 151); (str "ucs2_general_mysql500_ci", 159);
   (str "utf32_unicode_ci", 160); (str "utf32_icelandic_ci", 161);
   (str "utf32_latvian_ci", 162); (str "utf32_romanian_ci", 163);
   (str "utf32_slovenian_ci", 164); (str "utf32_polish_ci", 165);
   (str "utf32_estonian_ci", 166); (str "utf32_spanish_ci", 167);
   (str "utf32_swedish_ci", 168); (str "utf32_turkish_ci", 169); (str "utf32_czech_ci", 170);
   (str "utf32_danish_ci", 171); (str "utf32_lithuanian_ci", 172);
   (str "utf32_slovak_ci", 173); (str "utf32_spanish2_ci", 174); (str "utf32_roman_ci", 175);
   (str "utf32_persian_ci", 176); (str "utf32_esperanto_ci", 177);
   (str "utf32_hungarian_ci", 178); (str "utf32_sinhala_ci", 179);
   (str "utf32_german2_ci", 180); (str "utf32_croatian_ci", 181);
   (str "utf32_unicode_520_ci", 182); (str "utf32_vietnamese_ci", 183);
   (str "utf8_unicode_ci", 192); (str "utf8_icelandic_ci", 193); (str "utf8_latvian_ci", 194);
   (str "utf8_romanian_ci", 195); (str "utf8_slovenian_ci", 196); (str "utf8_polish_ci", 197);
   (str "utf8_estonian_ci", 198); (str "utf8_spanish_ci", 199); (str "utf8_swedish_ci", 200);
   (str "utf8_turkish_ci", 201); (str "utf8_czech_ci", 202); (str "utf8_danish_ci", 203);
   (str "utf8_lithuanian_ci", 204); (str "utf8_slovak_ci", 205); (str "utf8_spanish2_ci", 206);
   (str "utf8_roman_ci", 207); (str "utf8_persian_ci", 208); (str "utf8_esperanto_ci", 209);
   (str "utf8_hungarian_ci", 210); (str "utf8_sinhala_ci", 211); (str "utf8_german2_ci", 212);
   (str "utf8_croatian_ci", 213); (str "utf8_unicode_520_ci", 214);
   (str "utf8_vietnamese_ci", 215); (str "utf8_general_mysql500_ci", 223);
   (str "utf8mb4_unicode_ci", 224); (str "utf8mb4_icelandic_ci", 225);
   (str "utf8mb4_latvian_ci", 226); (str "utf8mb4_romanian_ci", 227);
   (str "utf8mb4_slovenian_ci", 228); (str "utf8mb4_polish_ci", 229);
   (str "utf8mb4_estonian_ci", 230); (str "utf8mb4_spanish_ci", 231);
   (str "utf8mb4_swedish_ci", 232); (str "utf8mb4_turkish_ci", 233);
   (str "utf8mb4_czech_ci", 234); (str "utf8mb4_danish_ci", 235);
   (str "utf8mb4_lithuanian_ci", 236); (str "utf8mb4_slovak_ci", 237);
   (str "utf8mb4_spanish2_ci", 238); (str "utf8mb4_roman_ci", 239);
   (str "utf8mb4_persian_ci", 240); (str "utf8mb4_esperanto_ci", 241);
   (str "utf8mb4_hungarian_ci", 242); (str "utf8mb4_sinhala_ci", 243);
   (str "utf8mb4_german2_ci", 244); (str "utf8mb4_croatian_ci", 245);
   (str "utf8mb4_unicode_520_ci", 246); (str "utf8mb4_vietnamese_ci", 247);
   (str "utf8mb4_0900_ai_ci", 255)].

Definition collation_names : gmap bytes Z := inserts (collation_names_rows_1 ++ collation_names_rows_2).

Definition charsets_rows : list (bytes * bytes) :=
  [(str "big5", str "big5_chinese_ci"); (str "dec8", str "dec8_swedish_ci");
   (str "cp850", str "cp850_general_ci"); (str "hp8", str "hp8_english_ci");
   (str "koi8r", str "koi8r_general_ci)"); (str "latin1", str "latin1_swedish_ci");
   (str "latin2", str "latin2_general_ci)"); (str "swe7", str "swe7_swedish_ci)");
   (str "ascii", str "ascii_general_ci)"); (str "ujis", str "ujis_japanese_ci");
   (str "sjis", str "sjis_japanese_ci"); (str "hebrew", str "hebrew_general_ci");
   (str "tis620", str "tis620_thai_ci"); (str "euckr", str "euckr_korean_ci");
   (str "koi8u", str "koi8u_general_ci"); (str "gb2312", str "gb2312_chinese_ci");
   (str "greek", str "greek_general_ci"); (str "cp1250", str "cp1250_general_ci");
   (str "gbk", str "gbk_chinese_ci"); (str "latin5", str "latin5_turkish_ci");
   (str "armscii8", str "armscii8_general_ci"); (str "utf8", str "utf8_general_ci");
   (str "ucs2", str "ucs2_general_ci"); (str "cp866", str "cp866_general_ci");
   (str "keybcs2", str "keybcs2_general_ci"); (str "macce", str "macce_general_ci");
   (str "macroman", str "macroman_general_ci"); (str "cp852", str "cp852_general_ci");
   (str "latin7", str "latin7_general_ci"); (str "utf8mb4", str "utf8mb4_general_ci");
   (str "cp1251", str "cp1251_general_ci"); (str "utf16", str "utf16_general_ci");
   (str "utf16le", str "utf16le_general_ci"); (str "cp1256", str "cp1256_general_ci");
   (str "cp1257", str "cp1257_general_ci"); (str "utf32", str "utf32_general_ci");
   (str "binary", str "binary"); (str "geostd8", str "geostd8_general_ci");
   (str "cp932", str "cp932_japanese_ci"); (str "eucjpms", str "eucjpms_japanese_ci")].

Definition charsets : gmap bytes bytes := inserts (charsets_rows).

Definition charset_ids_rows : list (bytes * Z) :=
  [(str "big5", 1); (str "dec8", 3); (str "cp850", 4); (str "hp8", 6); (str "koi8r", 7);
   (str "latin1", 8); (str "latin2", 9); (str "swe7", 10); (str "ascii", 11); (str "ujis", 12);
   (str "sjis", 13); (str "hebrew", 16); (str "tis620", 18); (str "euckr", 19);
   (str "koi8u", 22); (str "gb2312", 24); (str "greek", 25); (str "cp1250", 26);
   (str "gbk", 28); (str "latin5", 30); (str "armscii8", 32); (str "utf8", 33);
   (str "ucs2", 35); (str "cp866", 36); (str "keybcs2", 37); (str "macce", 38);
   (str "macroman", 39); (str "cp852", 40); (str "latin7", 41); (str "utf8mb4", 45);
   (str "cp1251", 51); (str "utf16", 54); (str "utf16le", 56); (str "cp1256", 57);
   (str "cp1257", 59); (str "utf32", 60); (str "binary", 63); (str "geostd8", 92);
   (str "cp932", 95); (str "eucjpms", 97)].

Definition charset_ids : gmap bytes Z := inserts (charset_ids_rows).
(** [u16::try_into::<u8>] *)
Definition try_into_u8 (v : Z) : option Z := if v <? U8 then Some v else None.

Definition get_charset_id {E} (charset_name : bytes) : outcome E Z :=
  if decide (charset_name = str "utf8mb4") then Ok DEFAULT_COLLATION_ID
  else if decide (charset_name = str "binary") then Ok BINARY_DEFAULT_COLLATION_ID
  else if decide (charset_name = str "utf8") then Ok UTF8DEFAULT_COLLATION_ID
  else if decide (charset_name = str "ascii") then Ok ASCII_DEFAULT_COLLATION_ID
  else if decide (charset_name = str "latin1") then Ok LATIN1DEFAULT_COLLATION_ID
  else id ← unwrap_option (charset_ids !! charset_name); unwrap_option (try_into_u8 id).

(** ** Theorems *)

(** What a table holds is one of its rows, so a check of the rows is a check of the table. *)
Lemma inserts_rows `{Countable K} {V} (rows : list (K * V)) k v :
  inserts rows !! k = Some v -> In (k, v) rows.
Proof.
  unfold inserts. intros Hk.
  enough (forall m : gmap K V, foldl (fun m row => <[fst row := snd row]> m) m rows !! k = Some v ->
    In (k, v) rows \/ m !! k = Some v) as Hin.
  { destruct (Hin _ Hk) as [|He]; [done|]. by rewrite lookup_empty in He. }
  clear Hk. induction rows as [|[k' v'] rows IH]; simpl; [by right|].
  intros m Hk. destruct (IH _ Hk) as [|Hm]; [by left; right|].
  apply lookup_insert_Some in Hm as [[-> ->]|[_ Hm]]; [by left; left|by right].
Qed.

Lemma rows_check `{Countable K} {V} (f : K * V -> bool) (rows : list (K * V)) k v :
  forallb f rows = true -> inserts rows !! k = Some v -> f (k, v) = true.
Proof. intros Hf Hk. apply inserts_rows in Hk. by apply (proj1 (forallb_forall _ _) Hf). Qed.

(** [collations] and [collation_names] are inverse: a collation id has a name exactly
    when the name has that id, so no id or name is lost to a duplicate row. *)
Theorem collations_inverse id name :
  collations !! id = Some name <-> collation_names !! name = Some id.
Proof.
  split; intros E.
  - apply (rows_check (fun row => bool_decide (collation_names !! snd row = Some (fst row)))) in E;
      [by apply bool_decide_eq_true in E|]. vm_compute. reflexivity.
  - apply (rows_check (fun row => bool_decide (collations !! snd row = Some (fst row)))) in E;
      [by apply bool_decide_eq_true in E|]. vm_compute. reflexivity.
Qed.

(** The charsets whose collation name in [charsets] ends in a stray parenthesis, and the ones
    [get_charset_id] answers with another id than [charset_ids]. *)
Definition misspelt : list bytes := [str "koi8r"; str "latin2"; str "swe7"; str "ascii"].
Definition overridden : list bytes := [str "utf8mb4"; str "utf8"; str "ascii"; str "latin1"].

(** [charset_ids] is "charset name to its default collation ID" and [charsets] to its
    name: the two agree through [collation_names] on every charset but the four whose name in
    [charsets] has a stray parenthesis, which is the name of no collation. *)
Theorem charsets_ids_agree c n : charsets !! c = Some n ->
  (c ∉ misspelt -> is_Some (charset_ids !! c) /\ collation_names !! n = charset_ids !! c) /\
  (c ∈ misspelt -> collation_names !! n = None).
Proof.
  intros E. apply (rows_check (fun row =>
    if bool_decide (fst row ∈ misspelt) then bool_decide (collation_names !! snd row = None)
    else bool_decide (is_Some (charset_ids !! fst row))
         && bool_decide (collation_names !! snd row = charset_ids !! fst row))) in E;
    [|vm_compute; reflexivity].
  cbn [fst snd] in E. destruct (bool_decide_reflect (c ∈ misspelt)).
  - apply bool_decide_eq_true in E. split; intros; [contradiction|exact E].
  - apply andb_true_iff in E as [E1%bool_decide_eq_true E2%bool_decide_eq_true].
    split; intros; [exact (conj E1 E2)|contradiction].
Qed.

Lemma charsets_ids_agree_witness :
  collation_names !! str "utf8_general_ci" = charset_ids !! str "utf8".
Proof.
  destruct (charsets_ids_agree (str "utf8") (str "utf8_general_ci")) as [H _]; [by vm_compute|].
  apply H. by apply (bool_decide_unpack _).
Defined.

(** [get_charset_id]: for every charset of [charset_ids] it returns the id of the table,
    except for the four it answers from its fast path, where it returns another collation of
    the same charset (the binary one); for a name it does not know it panics. *)
Theorem get_charset_id_cases c :
  match charset_ids !! c with
  | Some id => exists id', get_charset_id (E := io_error) c = Ok id' /\ (c ∉ overridden <-> id' = id)
  | None => get_charset_id (E := io_error) c = Panic
  end.
Proof.
  destruct (charset_ids !! c) as [id|] eqn:E.
  - apply (rows_check (fun row => match get_charset_id (E := io_error) (fst row) with
      | Ok id' => Bool.eqb (bool_decide (fst row ∉ overridden)) (id' =? snd row) | _ => false end)) in E;
      [|vm_compute; reflexivity].
    cbn [fst snd] in E. destruct (get_charset_id c) as [id'| | |]; try done.
    exists id'. split; [done|]. apply Bool.eqb_prop in E.
    by rewrite <- Z.eqb_eq, <- E, bool_decide_eq_true.
  - unfold get_charset_id. repeat (destruct (decide _) as [->|_]; [by vm_compute in E|]).
    by rewrite E.
Qed.

(** The ids of the fast path are the binary collations. *)
Example fast_path_collations :
  map (fun id => collations !! id) [DEFAULT_COLLATION_ID; UTF8DEFAULT_COLLATION_ID;
    ASCII_DEFAULT_COLLATION_ID; LATIN1DEFAULT_COLLATION_ID]
  = map (fun n => Some (str n)) ["utf8mb4_bin"; "utf8_bin"; "ascii_bin"; "latin1_bin"]%string.
Proof. vm_compute. reflexivity. Qed.
