(* ===== verification/Basic.v ===== *)
(** * Parsing of client packets ([protocol/mysql/basic.rs])

    The commands, the handshake response in its 4.1 and pre-4.1 forms, OK and EOF packets and
    length-encoded data, over the [winnow] parsers of [External]. *)
From S2P Require Import Prelude External Reference Utf8 Constants.

(** ** Data *)

Inductive Command : Type :=
  | Query (q : bytes)
  | ListFields (q : bytes)
  | Close (stmt : Z)
  | Prepare (q : bytes)
  | Init (db : bytes)
  | Execute (stmt : Z) (params : bytes)
  | SendLongData (stmt : Z) (param : Z) (data : bytes)
  | Ping
  | Quit.

(** [ColumnType] and [ColumnFlags] by their numbers. *)
Record Column : Type := MkColumn {
  col_table : bytes; col_column : bytes; col_type : Z; col_flags : Z }.

Record OkPacket : Type := MkOkPacket {
  ok_header : Z; affected_rows : Z; last_insert_id : Z; status_flags : Z; warnings : Z;
  info : bytes; session_state_info : bytes }.

Record HandshakeResponse : Type := MkHandshakeResponse {
  client_flag : Z; max_packet_len : Z; collation : Z; tenant_key : option bytes;
  username : option bytes; auth_response : bytes; auth_plugin : bytes;
  database : option bytes; connect_attributes : option (gmap bytes bytes) }.

(** ** The tenant in the user name *)

Definition full_tenant_name {E} (h : HandshakeResponse) : outcome E bytes :=
  tenant ← match tenant_key h with
           | Some t => unwrap_option (from_utf8 t)
           | None => Ok (str "NONE")
           end;
  user ← match username h with
         | Some u => unwrap_option (from_utf8 u)
         | None => Ok (str "NONE")
         end;
  Ok (tenant ++ str "." ++ user).

Definition db_user_string (h : HandshakeResponse) : bytes :=
  match username h with
  | Some u => from_utf8_lossy u
  | None => str "_NONE"
  end.

(** [iter().rposition(|&c| c == b)]. *)
Fixpoint rposition (b : Z) (l : bytes) : option Z :=
  match l with
  | [] => None
  | x :: l => match rposition b l with
              | Some p => Some (p + 1)
              | None => if x =? b then Some 0 else None
              end
  end.

(** [env] is the value of the environment variable [PROXY_ENV_SYNC_ROUTER]. *)
Definition change_tenant_if_need (env : option bytes) (h : HandshakeResponse) : HandshakeResponse :=
  let is_not_static := bool_decide (default (str "false") env = str "true") in
  if is_not_static then
    match username h with
    | Some conn_user =>
        match rposition 46 conn_user with
        | Some pos =>
            MkHandshakeResponse (client_flag h) (max_packet_len h) (collation h)
              (Some (ztake pos conn_user)) (Some (zdrop (pos + 1) conn_user))
              (auth_response h) (auth_plugin h) (database h) (connect_attributes h)
        | None => h
        end
    | None => h
    end
  else h.

(** ** Parsers *)

Section parsers.
Context `{Winnow} `{MysqlFlags}.

Definition read_length_encoded_number (i : bytes) : presult Z :=
  '(i, b) ← le_u8 i;
  let sized (r_size : Z) : presult Z :=
    '(i, b) ← wtake r_size i;
    if len b =? r_size then Ok (i, le_value b) else Panic in
  if b =? 0xfb then Ok (i, 0)
  else if b =? 0xfc then sized 2
  else if b =? 0xfd then sized 3
  else if b =? 0xfe then sized 8
  else Ok (i, b).

Definition read_length_encoded_string (i : bytes) : presult bytes :=
  '(input, n) ← read_length_encoded_number i;
  wtake n input.

Definition eof_server_status (i : bytes) : presult Z :=
  if len i <? 3 then Panic
  else '(i, code) ← le_u16 (zdrop 3 i); Ok (i, from_bits_truncate STATUS_ALL code).

Definition ok_packet (i : bytes) (capabilities : Z) : presult OkPacket :=
  '(i, header) ← le_u8 i;
  '(i, rows) ← read_length_encoded_number i;
  '(i, insert_id) ← read_length_encoded_number i;
  '(i, flags) ← le_u16 i;
  '(i, warn) ← le_u16 i;
  '(info, state) ←
    (if negb (bool_decide (i = [])) && contains capabilities CLIENT_SESSION_TRACK then
       '(i, info_size) ← read_length_encoded_number i;
       '(i, info) ← wtake info_size i;
       state ← (if contains flags SERVER_SESSION_STATE_CHANGED then
                  '(i, s_t_size) ← read_length_encoded_number i;
                  '(_, s) ← wtake s_t_size i;
                  Ok (default [] (from_utf8 s))
                else Ok []);
       Ok (default [] (from_utf8 info), state)
     else Ok ([], []));
  Ok (i, MkOkPacket header rows insert_id flags warn info state).

(** The [while] over the connection attributes; each round consumes at least two bytes, so
    the length of the data is enough fuel. *)
Fixpoint connect_attrs_loop (fuel : nat) (input : bytes) (attrs : gmap bytes bytes)
  : outcome err_mode (gmap bytes bytes) :=
  match input with
  | [] => Ok attrs
  | _ =>
      match fuel with
      | O => OutOfFuel
      | S fuel =>
          '(remaining, k) ← read_length_encoded_string input;
          '(remaining, v) ← read_length_encoded_string remaining;
          key ← unwrap_option (from_utf8 k);
          val ← unwrap_option (from_utf8 v);
          connect_attrs_loop fuel remaining (<[key := val]> attrs)
      end
  end.

(** A NUL-terminated string of at least one byte, with its terminator. *)
Definition nul_string (i : bytes) : presult bytes :=
  '(i, s) ← wtake_until1 [0] i;
  '(i, _) ← wliteral [0] i;
  Ok (i, s).

(** What follows the fixed part of a 4.1 response. *)
Definition handshake_body41 (i : bytes) (capabilities max_len : Z) (coll : bytes)
    (is_after_tls : bool) : presult HandshakeResponse :=
  if negb is_after_tls && contains capabilities CLIENT_SSL then
    coll0 ← unwrap_option (head coll);
    Ok (i, MkHandshakeResponse capabilities max_len coll0 None None [] [] None None)
  else
    '(i, user) ← (if is_after_tls || negb (contains capabilities CLIENT_SSL) then
                    '(i, u) ← nul_string i; Ok (i, Some u)
                  else Ok (i, None));
    '(i, auth) ← (if contains capabilities CLIENT_PLUGIN_AUTH_LENENC_CLIENT_DATA then
                    '(i, size) ← read_length_encoded_number i; wtake size i
                  else if contains capabilities CLIENT_SECURE_CONNECTION then
                    '(i, size) ← le_u8 i; wtake size i
                  else wtake_until1 [0] i);
    '(i, db) ← (if contains capabilities CLIENT_CONNECT_WITH_DB && negb (bool_decide (i = [])) then
                  '(i, d) ← nul_string i; Ok (i, Some d)
                else Ok (i, None));
    '(i, plugin) ← (if contains capabilities CLIENT_PLUGIN_AUTH && negb (bool_decide (i = [])) then
                      nul_string i
                    else Ok (i, []));
    '(i, attrs) ← (if contains capabilities CLIENT_CONNECT_ATTRS && negb (bool_decide (i = [])) then
                     '(i, data_len) ← read_length_encoded_number i;
                     '(i, data) ← wtake data_len i;
                     attrs ← connect_attrs_loop (length data) data ∅;
                     Ok (i, Some attrs)
                   else Ok (i, None));
    coll0 ← unwrap_option (head coll);
    Ok (i, MkHandshakeResponse capabilities max_len coll0 None user auth plugin db attrs).

Definition handshake_response41 (i : bytes) (capability_flags : Z) (is_after_tls : bool)
  : presult HandshakeResponse :=
  '(i, cap2) ← le_u16 i;
  let cap := Z.lor (Z.shiftl cap2 16) capability_flags in
  let capabilities := from_bits_truncate CAPABILITY_ALL cap in
  '(i, max_len) ← le_u32 i;
  '(i, coll) ← wtake 1 i;
  '(i, _) ← wtake 23 i;
  handshake_body41 i capabilities max_len coll is_after_tls.

Definition handshake_response320 (i : bytes) (capabilities : Z) : presult HandshakeResponse :=
  '(i, v1) ← le_u16 i;
  '(i, v2) ← le_u8 i;
  let max_len := Z.lor (Z.shiftl v2 16) v1 in
  '(i, user) ← nul_string i;
  '(i, auth, db) ← (if contains capabilities CLIENT_CONNECT_WITH_DB then
                      '(i, auth) ← wliteral [0] i;
                      '(i, _) ← wliteral [0] i;
                      '(i, db) ← wliteral [0] i;
                      '(i, _) ← wliteral [0] i;
                      Ok (i, auth, Some db)
                    else Ok ([], i, None));
  Ok (i, MkHandshakeResponse capabilities max_len 0 None (Some user) auth [] db None).

Definition client_handshake_response (i : bytes) (is_after_tls : bool) : presult HandshakeResponse :=
  '(i, capability_flags) ← le_u16 i;
  let capabilities := from_bits_truncate CAPABILITY_ALL capability_flags in
  if contains capabilities CLIENT_PROTOCOL_41
  then handshake_response41 i capability_flags is_after_tls
  else handshake_response320 i capabilities.

Definition send_long_data (i : bytes) : presult Command :=
  '(remaining, stmt) ← ple_u32 i;
  '(remaining, param) ← ple_u16 remaining;
  Ok (remaining, SendLongData stmt param remaining).

Definition execute (i : bytes) : presult Command :=
  '(remaining, stmt) ← ple_u32 i;
  '(remaining, _) ← ptake 1 remaining;
  '(remaining, _) ← ple_u32 remaining;
  Ok (remaining, Execute stmt remaining).

(** The alternatives of [from_packet], in order. *)
Definition from_packet (pkt : bytes) : presult Command :=
  let com c := pliteral [command_u8 c] in
  alt [pmap (preceded (com ComQuery) prest) Query;
       pmap (preceded (com ComFieldList) prest) ListFields;
       pmap (preceded (com ComInitDB) prest) Init;
       pmap (preceded (com ComStmtPrepare) prest) Prepare;
       preceded (com ComStmtExecute) execute;
       preceded (com ComStmtSendLongData) send_long_data;
       pmap (preceded (com ComStmtClose) ple_u32) Close;
       pmap (com ComQuit) (fun _ => Quit);
       pmap (com ComPing) (fun _ => Ping)] pkt.

End parsers.

(** ** Lemmas on the parsers *)

Lemma not_empty_cons (b : Z) i : negb (bool_decide (b :: i = [])) = true.
Proof. by rewrite bool_decide_eq_false_2. Qed.

Lemma not_empty_app (s : bytes) b i : negb (bool_decide (s ++ b :: i = [])) = true.
Proof. rewrite bool_decide_eq_false_2; [done|]. by destruct s. Qed.

Section parser_laws.
Context {W : Winnow} {WL : WinnowLaws W}.

Lemma reads_le_app n p s i : reads_le n p -> len s = n -> p (s ++ i) = Ok (i, le_value s).
Proof.
  intros [Hp _] <-. rewrite Hp by (rewrite len_app; pose proof (len_nonneg i); lia).
  by rewrite zdrop_app, ztake_app.
Qed.

Lemma le_u8_cons b i : le_u8 (b :: i) = Ok (i, b).
Proof.
  rewrite (reads_le_app 1 le_u8 [b] i le_u8_law eq_refl). simpl. repeat f_equal. lia.
Qed.

Lemma le_u16_bytes v i : 0 <= v < U16 -> le_u16 (le_bytes 2 v ++ i) = Ok (i, v).
Proof.
  intros. rewrite (reads_le_app 2 le_u16 _ _ le_u16_law) by apply len_le_bytes.
  by rewrite le_value_bytes.
Qed.

Lemma le_u32_bytes v i : 0 <= v < U32 -> le_u32 (le_bytes 4 v ++ i) = Ok (i, v).
Proof.
  intros. rewrite (reads_le_app 4 le_u32 _ _ le_u32_law) by apply len_le_bytes.
  by rewrite le_value_bytes.
Qed.

Lemma wtake_app n s i : n = len s -> wtake n (s ++ i) = Ok (i, s).
Proof.
  intros ->. rewrite wtake_ok by (rewrite len_app; pose proof (len_nonneg i); pose proof (len_nonneg s); lia).
  by rewrite zdrop_app, ztake_app.
Qed.

Lemma nul_string_app s i : s <> [] -> 0 ∉ s -> nul_string (s ++ 0 :: i) = Ok (i, s).
Proof.
  intros Hs H0. unfold nul_string. rewrite wtake_until1_ok by done. ostep.
  change (0 :: i) with ([0] ++ i). by rewrite wliteral_ok.
Qed.

Lemma lenenc_sized n v i : n = 2 \/ n = 3 \/ n = 8 -> 0 <= v < 256 ^ n ->
  ('(i, b) ← wtake n (le_bytes (Z.to_nat n) v ++ i);
   if len b =? n then Ok (i, le_value b) else Panic) = Ok (E := err_mode) (i, v).
Proof.
  intros Hn Hv. assert (len (le_bytes (Z.to_nat n) v) = n) as Hl by (rewrite len_le_bytes; lia).
  rewrite wtake_app by done. ostep. rewrite Hl, Z.eqb_refl, le_value_bytes; [done|].
  by rewrite Z2Nat.id by lia.
Qed.

(** Length-encoded integers: the reader inverts the documented encoding on every
    64-bit value. *)
Lemma read_lenenc v i : 0 <= v < U64 -> read_length_encoded_number (lenenc_int v ++ i) = Ok (i, v).
Proof.
  intros Hv. unfold lenenc_int, read_length_encoded_number.
  destruct (Z.ltb_spec v 251); [|destruct (Z.ltb_spec v 65536); [|destruct (Z.ltb_spec v 16777216)]];
    cbn [app]; rewrite le_u8_cons; ostep; zbool.
  - done.
  - apply (lenenc_sized 2); lia.
  - apply (lenenc_sized 3); lia.
  - apply (lenenc_sized 8); unfold U64 in *; lia.
Qed.

Definition lenenc_str (s : bytes) : bytes := lenenc_int (len s) ++ s.

Lemma read_lenenc_str s i : len s < U64 -> read_length_encoded_string (lenenc_str s ++ i) = Ok (i, s).
Proof.
  intros Hs. unfold read_length_encoded_string, lenenc_str. pose proof (len_nonneg s).
  rewrite <- app_assoc, read_lenenc by lia. ostep. by apply wtake_app.
Qed.

Lemma lenenc_int_nonempty v : exists b t, lenenc_int v = b :: t.
Proof. unfold lenenc_int. repeat case_match; eauto. Qed.

End parser_laws.

(** ** The handshake response *)

(** A well-formed [HandshakeResponse41], field by field as the protocol documentation lays
    it out. *)
Record response41 : Type := MkResponse41 {
  r_caps : Z; r_max : Z; r_coll : Z; r_filler : bytes; r_user : bytes; r_auth : bytes;
  r_db : option bytes; r_plugin : option bytes; r_attrs : option (list (bytes * bytes)) }.

Definition attrs_bytes (l : list (bytes * bytes)) : bytes :=
  concat (map (fun kv => lenenc_str (fst kv) ++ lenenc_str (snd kv)) l).

Definition opt_part {A} (f : A -> bytes) (o : option A) : bytes :=
  match o with Some a => f a | None => [] end.

Section handshake.
Context {W : Winnow} {WL : WinnowLaws W} {F : MysqlFlags} {FL : MysqlFlagsLaws F}.

Definition response_head (r : response41) : bytes :=
  le_bytes 4 (r_caps r) ++ le_bytes 4 (r_max r) ++ [r_coll r] ++ r_filler r.

Definition auth_part (r : response41) : bytes :=
  if contains (r_caps r) CLIENT_PLUGIN_AUTH_LENENC_CLIENT_DATA then lenenc_str (r_auth r)
  else len (r_auth r) :: r_auth r.

Definition encode_response41 (r : response41) : bytes :=
  response_head r ++ (r_user r ++ [0]) ++ auth_part r ++
  opt_part (fun d => d ++ [0]) (r_db r) ++ opt_part (fun p => p ++ [0]) (r_plugin r) ++
  opt_part (fun l => lenenc_str (attrs_bytes l)) (r_attrs r).

(** A NUL-terminated string the parser accepts. *)
Definition nul_ok (s : bytes) : Prop := s <> [] /\ 0 ∉ s.

Definition attr_ok (kv : bytes * bytes) : Prop :=
  is_str (fst kv) /\ is_str (snd kv) /\ len (fst kv) < U64 /\ len (snd kv) < U64.

Definition head_ok (r : response41) : Prop :=
  0 <= r_caps r < U32 /\ contains (r_caps r) CLIENT_PROTOCOL_41 = true /\
  0 <= r_max r < U32 /\ is_u8 (r_coll r) /\ len (r_filler r) = 23.

(** The optional fields are there exactly when their capability is. *)
Definition response41_ok (r : response41) : Prop :=
  head_ok r /\ nul_ok (r_user r) /\
  (if contains (r_caps r) CLIENT_PLUGIN_AUTH_LENENC_CLIENT_DATA then len (r_auth r) < U64
   else contains (r_caps r) CLIENT_SECURE_CONNECTION = true /\ len (r_auth r) < U8) /\
  contains (r_caps r) CLIENT_CONNECT_WITH_DB = bool_decide (is_Some (r_db r)) /\
  contains (r_caps r) CLIENT_PLUGIN_AUTH = bool_decide (is_Some (r_plugin r)) /\
  contains (r_caps r) CLIENT_CONNECT_ATTRS = bool_decide (is_Some (r_attrs r)) /\
  (forall d, r_db r = Some d -> nul_ok d) /\ (forall p, r_plugin r = Some p -> nul_ok p) /\
  (forall l, r_attrs r = Some l -> Forall attr_ok l /\ len (attrs_bytes l) < U64).

Definition capabilities_of (caps : Z) : Z := Z.land caps CAPABILITY_ALL.

(** What the parser should make of it: later attributes override earlier ones. *)
Definition response_of (r : response41) : HandshakeResponse :=
  MkHandshakeResponse (capabilities_of (r_caps r)) (r_max r) (r_coll r) None (Some (r_user r))
    (r_auth r) (default [] (r_plugin r)) (r_db r)
    ((fun l => foldl (fun m kv => <[fst kv := snd kv]> m) ∅ l) <$> r_attrs r).

Lemma protocol_41_value : CLIENT_PROTOCOL_41 = 512.
Proof. pose proof (capability_values (F := F)) as H. by injection H. Qed.

(** Truncation to the known bits keeps the flags the parser looks at. *)
Lemma contains_known caps f : Z.land CAPABILITY_ALL f = f ->
  contains (capabilities_of caps) f = contains caps f.
Proof.
  intros Hf. rewrite !contains_law. unfold capabilities_of.
  by rewrite <- Z.land_assoc, Hf.
Qed.

Lemma contains_low16 caps : 0 <= caps ->
  contains (capabilities_of (caps mod U16)) CLIENT_PROTOCOL_41 = contains caps CLIENT_PROTOCOL_41.
Proof.
  intros. rewrite contains_known by (apply capability_all_law; simpl; tauto).
  rewrite !contains_law, protocol_41_value. change U16 with (2 ^ 16).
  rewrite <- Z.land_ones, <- Z.land_assoc by lia. done.
Qed.

Lemma le_bytes_4_split v : 0 <= v < U32 ->
  le_bytes 4 v = le_bytes 2 (v mod U16) ++ le_bytes 2 (v / U16).
Proof.
  intros Hv. pose proof (Z.mod_pos_bound v U16 ltac:(done)).
  assert (0 <= v / U16 < U16).
  { split; [apply Z.div_pos|apply Z.div_lt_upper_bound]; unfold U16, U32 in *; lia. }
  symmetry. rewrite <- le_bytes_value at 1 by (apply is_bytes_app; auto with haentgl).
  rewrite le_value_app, !le_value_bytes, length_app, !length_le_bytes by done.
  f_equal. rewrite len_le_bytes. change (256 ^ Z.of_nat 2) with U16.
  pose proof (Z.div_mod v U16 ltac:(done)). lia.
Qed.

Lemma caps_recombine v : 0 <= v -> Z.lor (Z.shiftl (v / U16) 16) (v mod U16) = v.
Proof.
  intros. change U16 with (2 ^ 16).
  rewrite <- Z.shiftr_div_pow2, <- Z.land_ones by lia.
  rewrite <- Z.ldiff_ones_r by lia. apply Z.lor_ldiff_and.
Qed.

Lemma length_lenenc_str s : (1 <= length (lenenc_str s))%nat.
Proof.
  unfold lenenc_str. destruct (lenenc_int_nonempty (len s)) as (b & t & ->). simpl. lia.
Qed.

Lemma connect_attrs_loop_ok l fuel m : Forall attr_ok l -> (length (attrs_bytes l) <= fuel)%nat ->
  connect_attrs_loop fuel (attrs_bytes l) m = Ok (foldl (fun m kv => <[fst kv := snd kv]> m) m l).
Proof.
  intros Hl. revert fuel m. induction Hl as [|[k v] l (Hk & Hv & Lk & Lv) Hl IH]; intros fuel m Hf.
  { by destruct fuel. }
  assert (attrs_bytes ((k, v) :: l) = lenenc_str k ++ lenenc_str v ++ attrs_bytes l) as E.
  { unfold attrs_bytes. cbn [map concat fst snd]. by rewrite app_assoc. }
  rewrite E in *. rewrite !length_app in Hf.
  pose proof (length_lenenc_str k). pose proof (length_lenenc_str v).
  destruct fuel as [|fuel]; [lia|].
  destruct (lenenc_str k) as [|b t] eqn:Ek; [simpl in *; lia|]. rewrite <- Ek in *.
  assert (forall X : Type, forall (a b : X),
    match lenenc_str k ++ lenenc_str v ++ attrs_bytes l with [] => a | _ :: _ => b end = b) as Hm.
  { intros. by rewrite Ek. }
  cbn [connect_attrs_loop]. rewrite Hm.
  rewrite read_lenenc_str by done. ostep. rewrite read_lenenc_str by done. ostep.
  cbn [fst snd] in *. rewrite !from_utf8_str by done. ostep. cbn [unwrap_option foldl fst snd]. apply IH. lia.
Qed.

Ltac known_flags :=
  repeat match goal with
  | |- context [contains (capabilities_of ?c) ?f] =>
      rewrite (contains_known c f) by (apply capability_all_law; simpl; tauto)
  end.

(** The fixed part of the response. *)
Lemma parse_head r i tls : head_ok r ->
  client_handshake_response (response_head r ++ i) tls
  = handshake_body41 i (capabilities_of (r_caps r)) (r_max r) [r_coll r] tls.
Proof.
  intros (Hc & H41 & Hm & Hu & Hf). pose proof (Z.mod_pos_bound (r_caps r) U16 ltac:(done)).
  assert (0 <= r_caps r / U16 < U16).
  { split; [apply Z.div_pos|apply Z.div_lt_upper_bound]; unfold U16, U32 in *; lia. }
  unfold client_handshake_response, response_head.
  rewrite le_bytes_4_split, <- !app_assoc, le_u16_bytes by done. ostep.
  rewrite from_bits_truncate_law. fold (capabilities_of (r_caps r mod U16)).
  rewrite contains_low16, H41 by lia. unfold handshake_response41.
  rewrite le_u16_bytes by done. ostep.
  rewrite caps_recombine, from_bits_truncate_law by lia. fold (capabilities_of (r_caps r)).
  rewrite le_u32_bytes by done. ostep. rewrite wtake_app by done. ostep.
  by rewrite wtake_app by done.
Qed.

(** Past TLS, or without it, the user name comes next. *)
Lemma parse_user r (tls : bool) : tls = true \/ contains (r_caps r) CLIENT_SSL = false ->
  negb tls && contains (r_caps r) CLIENT_SSL = false /\
  tls || negb (contains (r_caps r) CLIENT_SSL) = true.
Proof. intros [->| ->]; [done|]. by rewrite andb_false_r, orb_true_r. Qed.

Lemma parse_auth r i : (if contains (r_caps r) CLIENT_PLUGIN_AUTH_LENENC_CLIENT_DATA then len (r_auth r) < U64
    else contains (r_caps r) CLIENT_SECURE_CONNECTION = true /\ len (r_auth r) < U8) ->
  (if contains (r_caps r) CLIENT_PLUGIN_AUTH_LENENC_CLIENT_DATA then
     '(i, size) ← read_length_encoded_number (auth_part r ++ i); wtake size i
   else if contains (r_caps r) CLIENT_SECURE_CONNECTION then
     '(i, size) ← le_u8 (auth_part r ++ i); wtake size i
   else wtake_until1 [0] (auth_part r ++ i)) = Ok (i, r_auth r).
Proof.
  unfold auth_part. destruct (contains _ CLIENT_PLUGIN_AUTH_LENENC_CLIENT_DATA).
  - intros. by apply read_lenenc_str.
  - intros [-> ?]. cbn [app]. rewrite le_u8_cons. ostep. by apply wtake_app.
Qed.

(** An optional NUL-terminated field, present when its capability is. *)
Lemma parse_opt_nul (o : option bytes) (b : bool) i :
  b = bool_decide (is_Some o) -> (forall d, o = Some d -> nul_ok d) ->
  let j := opt_part (fun d => d ++ [0]) o ++ i in
  (if b && negb (bool_decide (j = [])) then '(i, d) ← nul_string j; Ok (i, Some d)
   else Ok (j, None)) = Ok (E := err_mode) (i, o) /\
  (if b && negb (bool_decide (j = [])) then nul_string j else Ok (j, [])) = Ok (i, default [] o).
Proof.
  intros -> Ho. destruct o as [d|]; [|done]. destruct (Ho d eq_refl).
  cbn [opt_part]. rewrite <- app_assoc. cbn [app]. cbv zeta.
  rewrite not_empty_app, nul_string_app by done. done.
Qed.

Lemma parse_attrs o (b : bool) i : b = bool_decide (is_Some o) ->
  (forall l, o = Some l -> Forall attr_ok l /\ len (attrs_bytes l) < U64) ->
  let j := opt_part (fun l => lenenc_str (attrs_bytes l)) o ++ i in
  (if b && negb (bool_decide (j = [])) then
     '(i, data_len) ← read_length_encoded_number j;
     '(i, data) ← wtake data_len i;
     attrs ← connect_attrs_loop (length data) data ∅;
     Ok (i, Some attrs)
   else Ok (j, None))
  = Ok (E := err_mode) (i, (fun l => foldl (fun m kv => <[fst kv := snd kv]> m) ∅ l) <$> o).
Proof.
  intros -> Ho. destruct o as [l|]; [|done]. destruct (Ho l eq_refl) as [Hl Hn].
  cbn [opt_part]. pose proof (len_nonneg (attrs_bytes l)).
  unfold lenenc_str. destruct (lenenc_int_nonempty (len (attrs_bytes l))) as (c & t & E).
  rewrite (bool_decide_eq_false_2 (_ = [])) by (by rewrite E).
  rewrite <- app_assoc, read_lenenc by lia. cbn [andb negb]. rewrite bool_decide_eq_true_2 by eauto.
  ostep. rewrite wtake_app by done. ostep. rewrite connect_attrs_loop_ok by done. done.
Qed.

Lemma parse_response r i tls : response41_ok r ->
  tls = true \/ contains (r_caps r) CLIENT_SSL = false ->
  client_handshake_response (encode_response41 r ++ i) tls = Ok (i, response_of r).
Proof.
  intros (Hh & Hu & Ha & Bd & Bp & Bat & Hd & Hp & Hat) Htls.
  unfold encode_response41. rewrite <- app_assoc, parse_head by done.
  destruct Hu as [Hu H0]. destruct (parse_user r tls Htls) as [E1 E2].
  unfold handshake_body41. known_flags. rewrite E1, E2.
  rewrite <- !app_assoc. cbn [app].
  rewrite nul_string_app by done. ostep. rewrite parse_auth by done. ostep.
  rewrite (proj1 (parse_opt_nul (r_db r) _ _ Bd Hd)). ostep.
  rewrite (proj2 (parse_opt_nul (r_plugin r) _ _ Bp Hp)). ostep.
  rewrite (parse_attrs (r_attrs r) _ _ Bat Hat). ostep. done.
Qed.

(** (C8) The handshake response: from the bytes of any well-formed 4.1 response, with any bytes after
    it, the parser recovers every field, the connection attributes included, and leaves exactly
    the bytes after it.  With the SSL capability this holds once TLS is established. *)
Theorem handshake_response_parsed r i tls : response41_ok r ->
  tls = true \/ contains (r_caps r) CLIENT_SSL = false ->
  client_handshake_response (encode_response41 r ++ i) tls = Ok (i, response_of r).
Proof. apply parse_response. Qed.

Lemma parse_ssl_request r i : head_ok r -> contains (r_caps r) CLIENT_SSL = true ->
  client_handshake_response (response_head r ++ i) false
  = Ok (i, MkHandshakeResponse (capabilities_of (r_caps r)) (r_max r) (r_coll r) None None [] [] None None).
Proof.
  intros Hh Hssl. rewrite parse_head by done.
  unfold handshake_body41. known_flags. by rewrite Hssl.
Qed.

Lemma parse_empty_user r i tls : head_ok r ->
  tls = true \/ contains (r_caps r) CLIENT_SSL = false ->
  exists k, client_handshake_response (response_head r ++ 0 :: i) tls = Err (Backtrack k).
Proof.
  intros Hh Htls. rewrite parse_head by done. destruct (parse_user r tls Htls) as [E1 E2].
  unfold handshake_body41. known_flags. rewrite E1, E2.
  unfold nul_string. destruct (wtake_until1_empty 0 i) as [k ->]. by exists k.
Qed.

(** Totality.  [safe P r]: the parser ends, with an error, a panic, or a value that satisfies
    [P]; [goes P r] for a rest of bytes and a value. *)
Definition safe {A} (P : A -> Prop) (r : outcome err_mode A) : Prop :=
  match r with Ok a => P a | OutOfFuel => False | _ => True end.

Definition goes {A} (P : A -> Prop) (r : presult A) : Prop :=
  safe (fun ja => is_bytes (fst ja) /\ P (snd ja)) r.

Lemma safe_bind {A B} (P : A -> Prop) (Q : B -> Prop) r (f : A -> outcome err_mode B) :
  safe P r -> (forall a, P a -> safe Q (f a)) -> safe Q (r ≫= f).
Proof. destruct r; simpl; try done. intros ? Hf. by apply Hf. Qed.

Lemma goes_bind {A B} (P : A -> Prop) (Q : B -> Prop) (r : presult A) (f : bytes * A -> outcome err_mode B) :
  goes P r -> (forall j a, is_bytes j -> P a -> safe Q (f (j, a))) -> safe Q (r ≫= f).
Proof. intros Hr Hf. eapply safe_bind; [exact Hr|]. intros [j a] [? ?]. by apply Hf. Qed.

Lemma is_bytes_take n i : is_bytes i -> is_bytes (ztake n i) /\ is_bytes (zdrop n i).
Proof. intros H. apply is_bytes_app. by rewrite ztake_zdrop. Qed.

Lemma goes_reads_range n p i : 0 <= n -> reads_le n p -> is_bytes i -> goes (fun v => 0 <= v < 256 ^ n) (p i).
Proof.
  intros Hn [H1 H2] Hi. destruct (Z_lt_le_dec (len i) n) as [Hl|Hl].
  - destruct (H2 i Hl) as [k ->]. done.
  - rewrite H1 by done. destruct (is_bytes_take n i Hi) as [Ht Hd]. split; [done|].
    apply le_value_bound in Ht. by rewrite len_ztake, Z.min_l in Ht by lia.
Qed.

Lemma goes_weaken {A} (P Q : A -> Prop) (r : presult A) : (forall a, P a -> Q a) -> goes P r -> goes Q r.
Proof. intros H. destruct r as [[j a]| | |]; try done. intros [? ?]. split; auto. Qed.

Lemma goes_reads_le n p i : 0 <= n -> reads_le n p -> is_bytes i -> goes (fun v => 0 <= v) (p i).
Proof. intros. eapply goes_weaken; [|by eapply goes_reads_range]. simpl. lia. Qed.

Lemma goes_wtake n i : 0 <= n -> is_bytes i -> goes is_bytes (wtake n i).
Proof.
  intros Hn Hi. destruct (Z_lt_le_dec (len i) n) as [Hl|Hl].
  - destruct (wtake_short n i Hl) as [k ->]. done.
  - rewrite wtake_ok by lia. destruct (is_bytes_take n i Hi). by split.
Qed.

Lemma goes_wliteral p i : is_bytes i -> goes (fun a => a = p) (wliteral p i).
Proof.
  intros Hi. destruct (decide (ztake (len p) i = p)) as [E|E].
  - rewrite <- (ztake_zdrop (len p) i), E, wliteral_ok. by split; [apply is_bytes_take|].
  - destruct (wliteral_no p i E) as [k ->]. done.
Qed.

(** A string up to a terminator: bytes, at least one, without the terminator. *)
Definition run_of (c : Z) (s : bytes) : Prop := is_bytes s /\ s <> [] /\ c ∉ s.

Lemma goes_wtake_until1 c i : is_bytes i -> goes (run_of c) (wtake_until1 [c] i).
Proof.
  intros Hi. destruct (split_at c i) as [[u r]|] eqn:E.
  - destruct (split_at_spec c i u r E) as (t & -> & Hu & Ht). subst r.
    destruct u as [|x u].
    + destruct (wtake_until1_empty c t) as [k Hk]. cbn [app]. by rewrite Hk.
    + rewrite wtake_until1_ok by done. apply is_bytes_app in Hi as [Hx Hi]. by repeat split.
  - destruct (wtake_until1_none c i (split_at_none_inv c i E)) as [k ->]. done.
Qed.

Lemma goes_nul_string i : is_bytes i -> goes (run_of 0) (nul_string i).
Proof.
  intros. eapply goes_bind; [by apply goes_wtake_until1|]. intros j a Hj Ha.
  eapply goes_bind; [by apply goes_wliteral|]. by intros.
Qed.

Lemma goes_number i : is_bytes i -> goes (fun v => 0 <= v) (read_length_encoded_number i).
Proof.
  intros Hi. eapply goes_bind; [eapply goes_reads_le; [|apply le_u8_law|done]; lia|].
  intros j b Hj Hb. cbv zeta.
  assert (forall n, 0 <= n -> goes (fun v => 0 <= v)
    ('(i, b) ← wtake n j; if len b =? n then Ok (i, le_value b) else Panic)) as Hs.
  { intros n Hn. eapply goes_bind; [by apply goes_wtake|]. intros k a Hk Ha.
    case_match; [|done]. split; [done|]. by apply le_value_bound. }
  repeat case_match; try (by apply Hs); split; done || lia.
Qed.

(** Reading a number or a string shortens the input, which bounds the attribute loop. *)
Lemma read_number_shorter i j v : read_length_encoded_number i = Ok (j, v) -> len j < len i.
Proof.
  intros E. unfold read_length_encoded_number in E. destruct (Z_lt_le_dec (len i) 1) as [Hl|Hl].
  { destruct (proj2 le_u8_law i Hl) as [k Hk]. by rewrite Hk in E. }
  rewrite (proj1 le_u8_law) in E by lia. revert E. ostep.
  assert (len (zdrop 1 i) = len i - 1) as Hd by (rewrite len_zdrop; lia).
  assert (forall n, 0 <= n ->
    ('(i, b) ← wtake n (zdrop 1 i); if len b =? n then Ok (i, le_value b) else Panic)
    = Ok (E := err_mode) (j, v) -> len j < len i) as Hs.
  { intros n Hn. destruct (Z_lt_le_dec (len (zdrop 1 i)) n) as [Hl'|Hl'].
    - destruct (wtake_short n _ Hl') as [k ->]. done.
    - rewrite wtake_ok by lia. ostep. case_match; [|done]. intros [= <- _]. rewrite len_zdrop; lia. }
  repeat case_match; try (apply Hs; lia); intros [= <- _]; lia.
Qed.

Lemma read_string_cases i : is_bytes i ->
  goes is_bytes (read_length_encoded_string i) /\
  (forall j s, read_length_encoded_string i = Ok (j, s) -> len j < len i).
Proof.
  intros Hi. pose proof (goes_number i Hi) as Hg. unfold read_length_encoded_string. split.
  - eapply goes_bind; [exact Hg|]. intros. by apply goes_wtake.
  - intros j s E. destruct (read_length_encoded_number i) as [[k n]| | |] eqn:En; try done.
    destruct Hg as [Hk Hn]. cbn [fst snd] in *. apply read_number_shorter in En. revert E. ostep.
    destruct (Z_lt_le_dec (len k) n) as [Hl|Hl].
    + destruct (wtake_short n k Hl) as [m ->]. done.
    + rewrite wtake_ok by lia. intros [= <- _]. rewrite len_zdrop; lia.
Qed.

Lemma connect_attrs_total fuel i m : is_bytes i -> len i <= Z.of_nat fuel ->
  connect_attrs_loop fuel i m <> OutOfFuel.
Proof.
  revert i m. induction fuel as [|fuel IH]; intros [|b i] m Hi Hf; [discriminate| |discriminate|].
  { rewrite len_cons in Hf. pose proof (len_nonneg i). lia. }
  cbn [connect_attrs_loop].
  destruct (read_string_cases _ Hi) as [Hg Hs].
  destruct (read_length_encoded_string (b :: i)) as [[j k]| | |]; try (done || by destruct Hg). ostep.
  destruct Hg as [Hj _]. cbn [fst] in Hj. specialize (Hs j k eq_refl).
  destruct (read_string_cases _ Hj) as [Hg Hs2].
  destruct (read_length_encoded_string j) as [[j2 v]| | |]; try (done || by destruct Hg). ostep.
  destruct Hg as [Hj2 _]. cbn [fst] in Hj2. specialize (Hs2 j2 v eq_refl).
  destruct (from_utf8 k), (from_utf8 v); try done. ostep. cbn [unwrap_option]. apply IH; [done|lia].
Qed.

(** An optional string. *)
Definition opt_run (o : option bytes) : Prop := forall s, o = Some s -> run_of 0 s.

Lemma goes_opt_nul (b : bool) i : is_bytes i ->
  goes opt_run (if b && negb (bool_decide (i = [])) then '(i, d) ← nul_string i; Ok (i, Some d)
                        else Ok (i, None)) /\
  goes is_bytes (if b && negb (bool_decide (i = [])) then nul_string i else Ok (i, [])).
Proof.
  intros Hi. pose proof (goes_nul_string i Hi) as Hn. destruct (b && _).
  - split; [eapply goes_bind; [exact Hn|]|eapply goes_weaken; [|exact Hn]; by intros a [? _]].
    intros j a Hj Ha. split; [done|]. by intros s [= <-].
  - split; split; try done; constructor.
Qed.

Lemma goes_attrs (b : bool) i : is_bytes i ->
  goes (fun _ => True) (if b && negb (bool_decide (i = [])) then
     '(i, data_len) ← read_length_encoded_number i;
     '(i, data) ← wtake data_len i;
     attrs ← connect_attrs_loop (length data) data ∅;
     Ok (i, Some attrs)
   else Ok (i, None)).
Proof.
  intros Hi. destruct (b && _); [|done]. eapply goes_bind; [by apply goes_number|].
  intros j n Hj Hn. eapply goes_bind; [by apply goes_wtake|]. intros k data Hk Hd.
  pose proof (connect_attrs_total (length data) data ∅ Hd ltac:(done)).
  by destruct (connect_attrs_loop _ _ _).
Qed.

(** The values of a response are in the ranges of their Rust types: known flags, [u32] and [u8]
    numbers, strings of bytes, names without NUL. *)
Definition response_typed (h : HandshakeResponse) : Prop :=
  Z.land (client_flag h) CAPABILITY_ALL = client_flag h /\ 0 <= max_packet_len h < U32 /\ is_u8 (collation h) /\
  opt_run (username h) /\ is_bytes (auth_response h) /\ is_bytes (auth_plugin h) /\
  (forall d, database h = Some d -> is_bytes d) /\
  (contains (client_flag h) CLIENT_PROTOCOL_41 = true -> opt_run (database h)) /\ tenant_key h = None.

Lemma none_run : opt_run None.
Proof. done. Qed.

Lemma goes_body41 i caps m coll tls : is_bytes i -> Z.land caps CAPABILITY_ALL = caps -> 0 <= m < U32 -> is_bytes coll ->
  goes response_typed (handshake_body41 i caps m coll tls).
Proof.
  intros Hi Hcaps Hm Hcoll. unfold handshake_body41.
  destruct (negb tls && _).
  { destruct coll as [|c coll]; [done|]. apply Forall_cons in Hcoll as [Hc _]. split; [done|].
    split_and!; cbn; first [done | lia | apply Hc | by apply Forall_nil_2 | by intros ? ? | by intros ? ? ?]. }
  apply (goes_bind opt_run).
  { destruct (_ || _); [|done]. eapply goes_bind; [by apply goes_nul_string|]. intros j u Hj Hu.
    split; [done|]. by intros s [= <-]. }
  intros j user Hj Hu. apply (goes_bind is_bytes).
  { destruct (contains _ _); [|destruct (contains _ _)].
    - eapply goes_bind; [by apply goes_number|]. intros k n Hk Hn. by apply goes_wtake.
    - eapply goes_bind; [eapply goes_reads_le; [|apply le_u8_law|done]; lia|]. intros k n Hk Hn. by apply goes_wtake.
    - eapply goes_weaken; [|by apply goes_wtake_until1]. by intros a [? _]. }
  intros k auth Hk Ha. eapply goes_bind; [by apply goes_opt_nul|].
  intros l db Hl Hdb. eapply goes_bind; [by apply goes_opt_nul|].
  intros o plugin Ho Hp. eapply goes_bind; [by apply goes_attrs|].
  intros q attrs Hq _. destruct coll as [|c coll]; [done|]. apply Forall_cons in Hcoll as [Hc _].
  split; [done|]. split_and!; cbn; try first [done | lia | apply Hc]. by intros d Hd%Hdb; destruct Hd.
Qed.

Lemma lor_shift16 a b : 0 <= a < 256 -> 0 <= b < U16 -> 0 <= Z.lor (Z.shiftl a 16) b < U32.
Proof.
  intros Ha Hb. set (v := a * U16 + b).
  assert (v / U16 = a) as Ed by (subst v; rewrite Z.div_add_l, Z.div_small by (unfold U16 in *; lia); lia).
  assert (v mod U16 = b) as Em by (subst v; rewrite Z.add_comm, Z.mod_add, Z.mod_small by (unfold U16 in *; lia); done).
  pose proof (caps_recombine v ltac:(subst v; unfold U16 in *; lia)) as E. rewrite Ed, Em in E. rewrite E.
  subst v. unfold U16, U32 in *. lia.
Qed.

Lemma goes_320 i caps : is_bytes i -> Z.land caps CAPABILITY_ALL = caps ->
  contains caps CLIENT_PROTOCOL_41 = false -> goes response_typed (handshake_response320 i caps).
Proof.
  intros Hi Hcaps H41. eapply goes_bind; [eapply goes_reads_range; [|apply le_u16_law|done]; lia|].
  intros j v1 Hj H1. eapply goes_bind; [eapply goes_reads_range; [|apply le_u8_law|done]; lia|].
  intros k v2 Hk H2. eapply goes_bind; [by apply goes_nul_string|]. intros l user Hl Hu.
  change (256 ^ 2) with U16 in H1. change (256 ^ 1) with 256 in H2. pose proof (lor_shift16 v2 v1 H2 H1).
  apply (safe_bind (fun t => is_bytes (fst (fst t)) /\ is_bytes (snd (fst t)) /\
    forall d, snd t = Some d -> is_bytes d)).
  - destruct (contains _ CLIENT_CONNECT_WITH_DB); [|by repeat split; try constructor].
    eapply goes_bind; [by apply goes_wliteral|]. intros i1 a Hi1 ->. eapply goes_bind; [by apply goes_wliteral|].
    intros i2 ? Hi2 _. eapply goes_bind; [by apply goes_wliteral|]. intros i3 d Hi3 ->.
    eapply goes_bind; [by apply goes_wliteral|]. intros i4 ? Hi4 _. assert (is_bytes [0]) by by repeat constructor.
    split_and!; [done..|]. by intros d [= <-].
  - intros [[q a] d] (Hq & Ha & Hd). split; [done|]. cbn [fst snd] in *. split_and!; cbn; try first [done | lia].
    + by intros s [= <-].
    + constructor.
    + congruence.
Qed.

Lemma known_idempotent x : Z.land (Z.land x CAPABILITY_ALL) CAPABILITY_ALL = Z.land x CAPABILITY_ALL.
Proof. by rewrite <- Z.land_assoc, Z.land_diag. Qed.

Lemma goes_response i tls : is_bytes i -> goes response_typed (client_handshake_response i tls).
Proof.
  intros Hi. eapply goes_bind; [eapply goes_reads_le; [|apply le_u16_law|done]; lia|].
  intros j c Hj Hc. cbv zeta. destruct (contains _ CLIENT_PROTOCOL_41) eqn:E41.
  - eapply goes_bind; [eapply goes_reads_le; [|apply le_u16_law|done]; lia|].
    intros k c2 Hk _. cbv zeta. eapply goes_bind; [eapply goes_reads_range; [|apply le_u32_law|done]; lia|].
    intros l m Hl Hm. eapply goes_bind; [by apply goes_wtake|].
    intros n coll Hn Hcoll. eapply goes_bind; [by apply goes_wtake|].
    intros o f Ho _. apply goes_body41; [done| |done|done].
    rewrite from_bits_truncate_law. apply known_idempotent.
  - apply goes_320; [done| |done]. rewrite from_bits_truncate_law. apply known_idempotent.
Qed.

(** (C39) The parser is total and its results are well typed: on every byte string a client may
    send it ends (the loop over the attributes never runs out of the fuel it is given, the length of
    the data), and a response it returns has known capabilities only, a packet length and a
    collation in the range of their types, a non-empty user name without NUL, and byte strings. *)
Theorem handshake_response_total i tls : is_bytes i ->
  client_handshake_response i tls <> OutOfFuel /\
  forall j h, client_handshake_response i tls = Ok (j, h) -> is_bytes j /\ response_typed h.
Proof.
  intros Hi. pose proof (goes_response i tls Hi) as G. split; [by intros E; rewrite E in G|].
  intros j h E. by rewrite E in G.
Qed.

End handshake.

(** ** Commands *)

(** Results up to the kind of a recoverable error, which [winnow] does not document. *)
Definition same_result {A} (a b : outcome err_mode A) : Prop :=
  a = b \/ exists k l, a = Err (Backtrack k) /\ b = Err (Backtrack l).
#[local] Infix "≈" := same_result (at level 70).

#[export] Instance same_result_equiv A : Equivalence (@same_result A).
Proof.
  split; [by left|..].
  - intros x y [->|(k & l & -> & ->)]; [by left|]. right. eauto.
  - intros x y z [->|(k & l & -> & ->)]; [done|].
    intros [<-|(k' & l' & [= <-] & ->)]; right; eauto.
Qed.

(** What the first byte of a command says about the rest. *)
Definition command_spec (pkt : bytes) : presult Command :=
  match pkt with
  | [] => Err Incomplete
  | c :: i =>
      if c =? 0x03 then Ok ([], Query i)
      else if c =? 0x04 then Ok ([], ListFields i)
      else if c =? 0x02 then Ok ([], Init i)
      else if c =? 0x16 then Ok ([], Prepare i)
      else if c =? 0x17 then
        if len i <? 9 then Err Incomplete
        else Ok (zdrop 9 i, Execute (le_value (ztake 4 i)) (zdrop 9 i))
      else if c =? 0x18 then
        if len i <? 6 then Err Incomplete
        else Ok (zdrop 6 i, SendLongData (le_value (ztake 4 i)) (le_value (ztake 2 (zdrop 4 i))) (zdrop 6 i))
      else if c =? 0x19 then
        if len i <? 4 then Err Incomplete else Ok (zdrop 4 i, Close (le_value (ztake 4 i)))
      else if c =? 0x01 then Ok (i, Quit)
      else if c =? 0x0e then Ok (i, Ping)
      else Err (Backtrack KOther)
  end.

Section commands.
Context {W : Winnow} {WL : WinnowLaws W}.

Lemma zdrop_zdrop {A} n m (l : list A) : 0 <= n -> 0 <= m -> zdrop n (zdrop m l) = zdrop (m + n) l.
Proof. intros. rewrite !zdrop_drop, drop_drop. f_equal. lia. Qed.

Lemma execute_spec i :
  execute i = if len i <? 9 then Err Incomplete
              else Ok (zdrop 9 i, Execute (le_value (ztake 4 i)) (zdrop 9 i)).
Proof.
  unfold execute. pose proof (len_nonneg i).
  destruct (Z_lt_le_dec (len i) 4); [rewrite ple_u32_short by done; by zbool|].
  rewrite ple_u32_ok by done. ostep. pose proof (len_zdrop 4 i ltac:(lia)).
  destruct (Z_lt_le_dec (len i) 5); [rewrite ptake_short by lia; by zbool|].
  rewrite ptake_ok by lia. ostep. rewrite zdrop_zdrop by lia. pose proof (len_zdrop (4 + 1) i ltac:(lia)).
  destruct (Z_lt_le_dec (len i) 9); [rewrite ple_u32_short by lia; by zbool|].
  rewrite ple_u32_ok by lia. ostep. rewrite zdrop_zdrop by lia. by zbool.
Qed.

Lemma send_long_data_spec i :
  send_long_data i = if len i <? 6 then Err Incomplete
    else Ok (zdrop 6 i, SendLongData (le_value (ztake 4 i)) (le_value (ztake 2 (zdrop 4 i))) (zdrop 6 i)).
Proof.
  unfold send_long_data. pose proof (len_nonneg i).
  destruct (Z_lt_le_dec (len i) 4); [rewrite ple_u32_short by done; by zbool|].
  rewrite ple_u32_ok by done. ostep. pose proof (len_zdrop 4 i ltac:(lia)).
  destruct (Z_lt_le_dec (len i) 6); [rewrite ple_u16_short by lia; by zbool|].
  rewrite ple_u16_ok by lia. ostep. rewrite zdrop_zdrop by lia. by zbool.
Qed.

(** An alternative that starts with another command byte is skipped. *)
Lemma alt_skip {A} (p q : bytes -> presult A) ps c d i :
  (forall k, pliteral [d] (c :: i) = Err (Backtrack k) -> p (c :: i) = Err (Backtrack k)) ->
  c <> d -> alt (p :: q :: ps) (c :: i) ≈ alt (q :: ps) (c :: i).
Proof.
  intros Hp Hd. destruct (pliteral_no d c i ltac:(done)) as [k Hk].
  destruct (alt_next _ p q ps _ k (Hp k Hk)) as [->|(k1 & k2 & -> & ->)]; [done|]. right. eauto.
Qed.

Lemma alt_take {A} (p : bytes -> presult A) ps i r : p i = r ->
  (exists x, r = Ok x) \/ r = Err Incomplete -> alt (p :: ps) i ≈ r.
Proof. intros <- [[x E]|E]; rewrite E; left; [by apply alt_ok|by apply alt_stop]. Qed.

(** Skip an alternative, or take it. *)
Ltac skip_com := etransitivity; [eapply alt_skip; [|eassumption];
  let k := fresh in let Hk := fresh in
  intros k Hk; rewrite ?pmap_law, ?preceded_law, ?Hk; reflexivity|].
Ltac take_com := apply alt_take; [rewrite ?pmap_law, ?preceded_law, ?pliteral_ok; ostep; rewrite ?prest_law; ostep|].

(** (C38) [from_packet] parses every command packet as its first byte says: the whole rest for
    the text commands, fixed-width little-endian fields for the statement commands, too short
    a packet is incomplete, and any other first byte is refused. *)
Theorem from_packet_correct pkt : from_packet pkt ≈ command_spec pkt.
Proof.
  unfold from_packet, command_spec. cbn [command_u8]. destruct pkt as [|c i].
  { left. apply alt_stop. by rewrite pmap_law, preceded_law, pliteral_short. }
  destruct (Z.eqb_spec c 0x03) as [->|]; [take_com; eauto|skip_com].
  destruct (Z.eqb_spec c 0x04) as [->|]; [take_com; eauto|skip_com].
  destruct (Z.eqb_spec c 0x02) as [->|]; [take_com; eauto|skip_com].
  destruct (Z.eqb_spec c 0x16) as [->|]; [take_com; eauto|skip_com].
  destruct (Z.eqb_spec c 0x17) as [->|]; [take_com; [apply execute_spec|case_match; eauto]|skip_com].
  destruct (Z.eqb_spec c 0x18) as [->|]; [take_com; [apply send_long_data_spec|case_match; eauto]|skip_com].
  destruct (Z.eqb_spec c 0x19) as [->|].
  { take_com; [|case_match; eauto]. destruct (Z.ltb_spec (len i) 4).
    - by rewrite ple_u32_short.
    - by rewrite ple_u32_ok. }
  skip_com. destruct (Z.eqb_spec c 0x01) as [->|]; [take_com; eauto|skip_com].
  destruct (Z.eqb_spec c 0x0e) as [->|]; [take_com; eauto|].
  destruct (pliteral_no 0x0e c i ltac:(done)) as [k Hk].
  edestruct (alt_last Command) as [k' ->]; [by rewrite pmap_law, Hk|]. right. eauto.
Qed.

End commands.

(** ** The tenant in the user name *)

Lemma rposition_none b l : b ∉ l -> rposition b l = None.
Proof.
  induction l as [|x l IH]; [done|]. intros [H1 H2]%not_elem_of_cons. simpl.
  rewrite IH by done. by zbool.
Qed.

Lemma rposition_last b u v : b ∉ v -> rposition b (u ++ b :: v) = Some (len u).
Proof.
  intros Hv. induction u as [|x u IH]; simpl.
  - by rewrite rposition_none, Z.eqb_refl.
  - rewrite IH, len_cons. f_equal. lia.
Qed.

(** When the proxy routes by tenant, the user name the client sent is split at its last
    dot: the tenant key before it (dots included) and the user after it; nothing else of the
    response changes, and a name without a dot, or a static proxy, changes nothing. *)
Theorem change_tenant_splits h u :
  username h = Some u ->
  (forall t n, u = t ++ 46 :: n -> (46 ∉ n) ->
    let h' := change_tenant_if_need (Some (str "true")) h in
    tenant_key h' = Some t /\ username h' = Some n /\
    (client_flag h', auth_response h', auth_plugin h', database h')
    = (client_flag h, auth_response h, auth_plugin h, database h)) /\
  ((46 ∉ u) -> forall env, change_tenant_if_need env h = h) /\
  (forall env, env <> Some (str "true") -> change_tenant_if_need env h = h).
Proof.
  intros Hu. unfold change_tenant_if_need. rewrite Hu. split; [|split].
  - intros t n -> Hn. rewrite bool_decide_eq_true_2, rposition_last by done. cbv zeta. cbn.
    rewrite ztake_app by done. change (46 :: n) with ([46] ++ n). rewrite app_assoc, zdrop_app; [done|].
    rewrite len_app. done.
  - intros Hn env. rewrite rposition_none by done. by case_match.
  - intros env He. rewrite bool_decide_eq_false_2; [done|].
    destruct env as [e|]; [|discriminate]. intros E. apply He. f_equal. exact E.
Qed.

(** ** Witnesses, and the vectors of the repository's tests *)

(** A response with a database, a plugin and two attributes. *)
Definition sample_response : response41 :=
  MkResponse41 (512 + 8 + 32768 + 524288 + 1048576) 16777216 33 (replicate 23 0) (str "t.root")
    [1; 2; 3] (Some (str "db")) (Some (str "mysql_native_password"))
    (Some [(str "_os", str "linux"); (str "_pid", str "7")]).

Ltac not_nul := split; [discriminate|apply (bool_decide_unpack _); reflexivity].

Lemma sample_response_ok : response41_ok sample_response.
Proof.
  split; [by vm_compute|]. split; [not_nul|]. split; [by vm_compute|].
  do 3 (split; [by vm_compute|]).
  split; [intros d [= <-]; not_nul|]. split; [intros d [= <-]; not_nul|].
  intros l [= <-]. split; [|by vm_compute]. repeat constructor; by eexists.
Qed.

Lemma handshake_response_parsed_witness :
  client_handshake_response (encode_response41 sample_response ++ [9]) false
  = Ok ([9], response_of sample_response).
Proof.
  apply handshake_response_parsed; [exact sample_response_ok|right; reflexivity].
Defined.

Definition ssl_response : response41 :=
  MkResponse41 (512 + 2048) 16777216 33 (replicate 23 0) [] [] None None None.

Lemma handshake_response_total_witness : response_typed (response_of sample_response).
Proof.
  destruct (handshake_response_total (encode_response41 sample_response) false) as [_ H].
  - apply (bool_decide_unpack _). vm_compute. reflexivity.
  - destruct (H [] (response_of sample_response)) as [_ Ht]; [|exact Ht]. vm_compute. reflexivity.
Defined.

Lemma from_packet_correct_witness : same_result (from_packet (3 :: str "select 1")) (Ok ([], Query (str "select 1"))).
Proof. exact (from_packet_correct (3 :: str "select 1")). Defined.

Lemma change_tenant_splits_witness :
  username (change_tenant_if_need (Some (str "true")) (response_of sample_response)) = Some (str "root").
Proof.
  destruct (change_tenant_splits (response_of sample_response) (str "t.root") eq_refl) as [H _].
  apply (H (str "t") (str "root")); [reflexivity|]. by apply (bool_decide_unpack _).
Defined.

(** [test_handshake_parse] and [test_handshake_parse_with_ssl]. *)
Definition test_packet : bytes :=
  [0x8d; 0xa6; 0xff; 0x09; 0x00; 0x00; 0x00; 0x01; 0x21] ++ replicate 23 0 ++
  str "default" ++ [0; 0x14; 0xf7; 0xd1; 0x6c; 0xe9; 0x0d; 0x2f; 0x34; 0xb0; 0x2f; 0xd8; 0x1d;
  0x18; 0xc7; 0xa4; 0xe8; 0x98; 0x97; 0x67; 0xeb; 0xad] ++ str "default" ++ [0] ++
  str "mysql_native_password" ++ [0].

Example test_handshake_parse : exists h, client_handshake_response test_packet false = Ok ([], h) /\
  contains (client_flag h) CLIENT_LONG_PASSWORD && contains (client_flag h) CLIENT_MULTI_RESULTS &&
  contains (client_flag h) CLIENT_CONNECT_WITH_DB && contains (client_flag h) CLIENT_DEPRECATE_EOF = true /\
  collation h = 33 /\ username h = Some (str "default") /\ max_packet_len h = 16777216.
Proof. eexists. split; [vm_compute; reflexivity|]. by vm_compute. Qed.

Definition test_packet_ssl : bytes :=
  [0x85; 0xae; 0x3f; 0x20; 0x00; 0x00; 0x00; 0x01; 0x21] ++ replicate 23 0 ++
  [0x6a; 0x6f; 0x6e; 0x00; 0x00].

Example test_handshake_parse_with_ssl : exists i h,
  client_handshake_response test_packet_ssl true = Ok (i, h) /\
  contains (client_flag h) CLIENT_SSL = true /\ contains (client_flag h) CLIENT_CONNECT_WITH_DB = false /\
  collation h = 33 /\ username h = Some (str "jon") /\ max_packet_len h = 16777216.
Proof. eexists _, _. split; [vm_compute; reflexivity|]. by vm_compute. Qed.

(** A connection attribute that is not UTF-8 panics the connection's task. *)
Example invalid_attribute_panics :
  client_handshake_response
    (encode_response41 (MkResponse41 (512 + 32768 + 1048576) 0 33 (replicate 23 0) (str "u") [] None None
       (Some [(str "k", [0xff])]))) false = Panic.
Proof. vm_compute. reflexivity. Qed.

(** Without [CLIENT_SECURE_CONNECTION] the terminator of the password is not consumed, and the
    database that follows is refused. *)
Example old_password_with_database :
  client_handshake_response
    (response_head (MkResponse41 (512 + 8) 0 33 (replicate 23 0) [] [] None None None)
     ++ str "u" ++ [0] ++ str "pw" ++ [0] ++ str "db" ++ [0]) false = Err (Backtrack KOther).
Proof. vm_compute. reflexivity. Qed.

(** A pre-4.1 response that names a database is refused: its parser accepts only NUL bytes. *)
Example response320_with_database :
  client_handshake_response ([8; 0; 0; 0; 0] ++ str "u" ++ [0] ++ str "pw" ++ [0] ++ str "db" ++ [0]) false
  = Err (Backtrack KOther).
Proof. vm_compute. reflexivity. Qed.
