(* ===== verification/Writers.v ===== *)
(** * Packets the proxy writes ([protocol/mysql/packet/writers.rs])

    Each writer fills the buffer of a [PacketWriter] and ends the packet.  The section
    [triples] has the rule the proofs use: a writer sends a list of payloads, each as one
    frame, numbered from the writer's sequence number. *)
From S2P Require Import Prelude External Reference Constants Packet PacketWriter Utf8 ErrorCodes Charset Basic.

(** ** Definitions *)

(** [u32::from_le_bytes([0x08, 0x00, 0x00, 0x00])] *)
Definition CONN_ID : Z := 8.

(** [server/mod.rs]: the capabilities the proxy announces. *)
Definition default_capabilities `{MysqlFlags} : Z :=
  foldr Z.lor 0
    [CLIENT_CAN_HANDLE_EXPIRED_PASSWORDS; CLIENT_CONNECT_ATTRS; CLIENT_CONNECT_WITH_DB;
     CLIENT_DEPRECATE_EOF; CLIENT_FOUND_ROWS; CLIENT_IGNORE_SIGPIPE; CLIENT_IGNORE_SPACE;
     CLIENT_INTERACTIVE; CLIENT_LOCAL_FILES; CLIENT_LONG_FLAG; CLIENT_LONG_PASSWORD;
     CLIENT_MULTI_RESULTS; CLIENT_MULTI_STATEMENTS; CLIENT_NO_SCHEMA; CLIENT_ODBC;
     CLIENT_OPTIONAL_RESULTSET_METADATA; CLIENT_PLUGIN_AUTH;
     CLIENT_PLUGIN_AUTH_LENENC_CLIENT_DATA; CLIENT_PROTOCOL_41; CLIENT_PS_MULTI_RESULTS;
     CLIENT_REMEMBER_OPTIONS; CLIENT_RESERVED; CLIENT_SECURE_CONNECTION; CLIENT_SESSION_TRACK;
     CLIENT_TRANSACTIONS].

Section writers.
Context {W : Type} `{AsyncWrite W} `{MysqlIo} `{MysqlFlags}.

Abbreviation PW := (M (PacketWriter W) unit).

Definition write_err_packet (err : ErrorKind) (msg : bytes) : PW :=
  _ ← pw_write [0xff];
  _ ← pw_write (write_u16 (error_u16 err));
  _ ← pw_write (str "#");
  _ ← pw_write (sqlstate err);
  _ ← pw_write msg;
  end_packet.

Definition write_eof_packet (s : Z) : PW :=
  _ ← pw_write [0xfe; 0x00; 0x00];
  _ ← pw_write (write_u16 s);
  end_packet.

Definition write_ok_packet (rows last_insert_id s : Z) : PW :=
  _ ← pw_write [0x00];
  _ ← pw_write (write_lenenc_int rows);
  _ ← pw_write (write_lenenc_int last_insert_id);
  _ ← pw_write (write_u16 s);
  _ ← pw_write [0x00; 0x00];
  end_packet.

Definition write_ok_packet_with_client_flags (client_capabilities : Z) (p : OkPacket) : PW :=
  _ ← pw_write [ok_header p];
  _ ← pw_write (write_lenenc_int (affected_rows p));
  _ ← pw_write (write_lenenc_int (last_insert_id p));
  _ ← (if contains client_capabilities CLIENT_PROTOCOL_41 then
         _ ← pw_write (write_u16 (status_flags p)); pw_write [0x00; 0x00]
       else if contains client_capabilities CLIENT_TRANSACTIONS then
         pw_write (write_u16 (status_flags p))
       else mret tt);
  _ ← (if contains client_capabilities CLIENT_SESSION_TRACK then
         _ ← pw_write (write_lenenc_str (info p));
         if contains (status_flags p) SERVER_SESSION_STATE_CHANGED
         then pw_write (write_lenenc_str (session_state_info p)) else mret tt
       else pw_write (info p));
  end_packet.

(** One turn of the loop of [write_column_definitions_41]. *)
Definition write_column_definition (is_com_field_list : bool) (c : Column) : PW :=
  _ ← pw_write (write_lenenc_str (str "def"));
  _ ← pw_write (write_lenenc_str []);
  _ ← pw_write (write_lenenc_str (col_table c));
  _ ← pw_write (write_lenenc_str []);
  _ ← pw_write (write_lenenc_str (col_column c));
  _ ← pw_write (write_lenenc_str []);
  _ ← pw_write (write_lenenc_int 0xc);
  _ ← pw_write (write_u16 33);
  _ ← pw_write (write_u32 1024);
  _ ← pw_write [col_type c];
  _ ← pw_write (write_u16 (col_flags c));
  _ ← pw_write [0x00];
  _ ← pw_write [0x00; 0x00];
  _ ← (if is_com_field_list then pw_write [0xfb] else mret tt);
  end_packet.

Fixpoint write_columns (is_com_field_list : bool) (cs : list Column) : PW :=
  match cs with
  | [] => mret tt
  | c :: cs => _ ← write_column_definition is_com_field_list c; write_columns is_com_field_list cs
  end.

Definition write_column_definitions_41 (i : list Column) (client_capabilities : Z)
    (is_com_field_list : bool) : PW :=
  _ ← write_columns is_com_field_list i;
  if negb (contains client_capabilities CLIENT_DEPRECATE_EOF) then write_eof_packet 0 else mret tt.

Definition write_column_definitions (i : list Column) (client_capabilities : Z) : PW :=
  _ ← pw_write (write_lenenc_int (len i));
  _ ← end_packet;
  write_column_definitions_41 i client_capabilities false.

Definition write_prepare_ok (id : Z) (params columns : list Column) (client_capabilities : Z) : PW :=
  _ ← pw_write [0x00];
  _ ← pw_write (write_u32 id);
  _ ← pw_write (write_u16 (len columns mod U16));
  _ ← pw_write (write_u16 (len params mod U16));
  _ ← pw_write [0x00];
  _ ← pw_write (write_u16 0);
  _ ← end_packet;
  _ ← (if 0 <? len params then write_column_definitions_41 params client_capabilities false else mret tt);
  if 0 <? len columns then write_column_definitions_41 columns client_capabilities false else mret tt.

Definition write_err : ErrorKind -> bytes -> PW := write_err_packet.

(** [tls] says whether a TLS configuration is present (feature [tls]). *)
Definition write_initial_handshake (conn_id : Z) (scramble server_version : bytes) (tls : bool) : PW :=
  _ ← pw_write [10];
  _ ← pw_write server_version;
  _ ← pw_write [0x00];
  _ ← pw_write [conn_id mod U8; Z.shiftr conn_id 8 mod U8; Z.shiftr conn_id 16 mod U8;
                Z.shiftr conn_id 24 mod U8];
  let server_capabilities :=
    if tls then Z.lor default_capabilities CLIENT_SSL else default_capabilities in
  let server_capabilities_vec := le_bytes 4 server_capabilities in
  _ ← pw_write (ztake AUTH_PLUGIN_DATA_PART_1_LENGTH scramble);
  _ ← pw_write [0x00];
  _ ← pw_write (ztake 2 server_capabilities_vec);
  _ ← pw_write [DEFAULT_COLLATION_ID];
  _ ← pw_write (le_bytes 2 SERVER_STATUS_AUTOCOMMIT);
  _ ← pw_write (ztake 2 (zdrop 2 server_capabilities_vec));
  _ ← pw_write [(len scramble + 1) mod U8];
  _ ← pw_write (replicate 10 0x00);
  _ ← pw_write (zdrop AUTH_PLUGIN_DATA_PART_1_LENGTH scramble);
  _ ← pw_write [0x00];
  _ ← pw_write (plugin_as_ref AuthNativePassword);
  _ ← pw_write [0x00];
  _ ← end_packet;
  flush_all.

Definition write_query_request (data : bytes) : PW :=
  _ ← pw_write [command_u8 ComQuery];
  _ ← pw_write data;
  end_packet.

Definition write_reset_connection : PW :=
  _ ← pw_write [command_u8 ComResetConnection];
  _ ← pw_write (write_u32 CONN_ID);
  _ ← end_packet;
  flush_all.

End writers.

(** ** Triples *)

Section triples.
Context {W : Type} {Wops : AsyncWrite W} {WS : WriteStream W} {I : MysqlIo} {IL : MysqlIoLaws I}.

(** [m] only appends [b] to the buffer. *)
Definition fills (b : bytes) (m : M (PacketWriter W) unit) : Prop :=
  forall w, m w = (Ok tt, MkWriter (pw_buf w ++ b) (pw_seq w) (inner_writer w)).

(** From a buffer holding [acc], whenever [m] succeeds it has sent the payloads [ps], one frame
    each, numbered on from the sequence number, and left the buffer empty. *)
Definition sends (acc : bytes) (ps : list bytes) (m : M (PacketWriter W) unit) : Prop :=
  forall w w', pw_buf w = acc -> 0 <= pw_seq w < U8 -> m w = (Ok tt, w') ->
  pw_sent w' = pw_sent w ++ frames (number (pw_seq w) ps) /\
  pw_buf w' = [] /\ pw_seq w' = (pw_seq w + len ps) mod U8.

Lemma fills_write b : fills b (pw_write b).
Proof. done. Qed.

Lemma fills_ret : fills [] (mret tt).
Proof. intros []. unfold mret, M_ret. simpl. by rewrite app_nil_r. Qed.

Lemma fills_bind a b m k : fills a m -> fills b k -> fills (a ++ b) (_ ← m; k).
Proof.
  intros Hm Hk w. rewrite run_bind, Hm, Hk. cbn [pw_buf pw_seq inner_writer]. by rewrite app_assoc.
Qed.

Lemma sends_fill acc b ps m k : fills b m -> sends (acc ++ b) ps k -> sends acc ps (_ ← m; k).
Proof.
  intros Hm Hk w w' Hb Hs. rewrite run_bind, Hm. intros E.
  by apply Hk in E; [|cbn [pw_buf]; by rewrite Hb|].
Qed.

Lemma sends_write acc b ps k : sends (acc ++ b) ps k -> sends acc ps (_ ← pw_write b; k).
Proof. apply sends_fill, fills_write. Qed.

Lemma sends_end acc : 0 < len acc < MAX_PAYLOAD_LEN -> sends acc [acc] end_packet.
Proof.
  intros Hl w w' Hb Hs E. assert (acc <> []) as Ha by (intros ->; vm_compute in Hl; by destruct Hl).
  assert (chunks MAX_PAYLOAD_LEN acc = [acc]) as Hc.
  { destruct (chunks_split MAX_PAYLOAD_LEN acc eq_refl) as (cs & t & E' & Hcs & Ht).
    pose proof (chunks_concat MAX_PAYLOAD_LEN acc eq_refl) as Hcc. rewrite E' in *.
    destruct cs as [|c cs]; [|exfalso].
    - destruct Ht as [[_ ->]|(c & -> & _)]; [done|]. simpl in Hcc. by rewrite app_nil_r in Hcc; subst.
    - apply Forall_cons in Hcs as [Hc _]. apply (f_equal len) in Hcc. simpl in Hcc.
      rewrite !len_app in Hcc. pose proof (len_nonneg (concat (cs ++ t))). lia. }
  apply end_packet_spec in E as (E1 & E2 & E3); [|by rewrite Hb|done].
  rewrite Hb in *. unfold wire in E1. by rewrite Hc in *.
Qed.

Lemma frames_number_app s ps qs : 0 <= s < U8 ->
  frames (number s (ps ++ qs)) = frames (number s ps) ++ frames (number ((s + len ps) mod U8) qs).
Proof. intros. by rewrite number_app, frames_app. Qed.

Lemma sends_seq acc ps qs m k : sends acc ps m -> sends [] qs k -> sends acc (ps ++ qs) (_ ← m; k).
Proof.
  intros Hm Hk w w' Hb Hs E. inv_bind E. destruct a.
  apply Hm in E0 as (E1 & E2 & E3); [|done..].
  assert (0 <= pw_seq s < U8) as Hs' by (rewrite E3; by apply Z.mod_pos_bound).
  apply Hk in E as (F1 & F2 & F3); [|done..].
  rewrite F1, E1, frames_number_app, E3, F3, <- app_assoc by done. split_and!; [done..|].
  rewrite E3, Z.add_mod_idemp_l, len_app by done. f_equal. lia.
Qed.

Lemma sends_ret : sends [] [] (mret tt).
Proof.
  intros w w' Hb Hs [= <-]. rewrite Z.add_0_r, Z.mod_small by done.
  unfold frames. simpl. by rewrite app_nil_r.
Qed.

Lemma sends_flush : sends [] [] flush_all.
Proof.
  intros w w' Hb Hs E. unfold flush_all in E. rewrite run_on_inner in E.
  destruct (flush (inner_writer w)) as [o i] eqn:Ef. destruct o; try done. injection E as _ <-.
  apply flush_spec in Ef. unfold pw_sent. cbn [inner_writer pw_buf pw_seq].
  rewrite Ef, Z.add_0_r, Z.mod_small by done. unfold frames. simpl. by rewrite app_nil_r.
Qed.

Lemma sends_if acc (b : bool) ps qs m k : sends acc ps m -> sends acc qs k ->
  sends acc (if b then ps else qs) (if b then m else k).
Proof. by destruct b. Qed.

End triples.

(** [writes]: run a writer symbolically, collecting the buffer. *)
Ltac writes :=
  repeat (apply sends_write; rewrite <- ?app_assoc); cbn [app];
  rewrite ?app_nil_r.

(** ** Payloads *)

Definition err_payload (e : ErrorKind) (msg : bytes) : bytes :=
  [0xff] ++ le_bytes 2 (error_u16 e) ++ str "#" ++ sqlstate e ++ msg.

Definition eof_payload (s : Z) : bytes := [0xfe; 0x00; 0x00] ++ le_bytes 2 s.

Section payloads.
Context `{MysqlFlags}.

Definition ok_payload (caps : Z) (p : OkPacket) : bytes :=
  [ok_header p] ++ lenenc_int (affected_rows p) ++ lenenc_int (last_insert_id p) ++
  (if contains caps CLIENT_PROTOCOL_41 then le_bytes 2 (status_flags p) ++ [0x00; 0x00]
   else if contains caps CLIENT_TRANSACTIONS then le_bytes 2 (status_flags p) else []) ++
  (if contains caps CLIENT_SESSION_TRACK then
     lenenc_str (info p) ++
     (if contains (status_flags p) SERVER_SESSION_STATE_CHANGED then lenenc_str (session_state_info p) else [])
   else info p).

(** [Protocol::ColumnDefinition41]. *)
Definition column_payload (is_com_field_list : bool) (c : Column) : bytes :=
  lenenc_str (str "def") ++ lenenc_str [] ++ lenenc_str (col_table c) ++ lenenc_str [] ++
  lenenc_str (col_column c) ++ lenenc_str [] ++ lenenc_int 0xc ++ le_bytes 2 33 ++ le_bytes 4 1024 ++
  [col_type c] ++ le_bytes 2 (col_flags c) ++ [0x00] ++ [0x00; 0x00] ++
  (if is_com_field_list then [0xfb] else []).

(** The definitions of some columns, closed by an EOF packet for a client that expects one. *)
Definition columns_payloads (caps : Z) (fl : bool) (cs : list Column) : list bytes :=
  map (column_payload fl) cs ++ (if contains caps CLIENT_DEPRECATE_EOF then [] else [eof_payload 0]).

(** The response to [COM_STMT_PREPARE]. *)
Definition prepare_payloads (id : Z) (params columns : list Column) (caps : Z) : list bytes :=
  [[0x00] ++ le_bytes 4 id ++ le_bytes 2 (len columns mod U16) ++ le_bytes 2 (len params mod U16) ++
   [0x00] ++ le_bytes 2 0] ++
  (if 0 <? len params then columns_payloads caps false params else []) ++
  (if 0 <? len columns then columns_payloads caps false columns else []).

Definition handshake_payload (conn_id : Z) (scramble version : bytes) (tls : bool) : bytes :=
  let caps := if tls then Z.lor default_capabilities CLIENT_SSL else default_capabilities in
  [10] ++ version ++ [0x00] ++ le_bytes 4 conn_id ++ ztake 8 scramble ++ [0x00] ++
  ztake 2 (le_bytes 4 caps) ++ [46] ++ le_bytes 2 SERVER_STATUS_AUTOCOMMIT ++
  ztake 2 (zdrop 2 (le_bytes 4 caps)) ++ [(len scramble + 1) mod U8] ++ replicate 10 0x00 ++
  zdrop 8 scramble ++ [0x00] ++ str "mysql_native_password" ++ [0x00].

End payloads.

(** A client's reading of [Protocol::HandshakeV10]. *)
Record greeting : Type := MkGreeting {
  g_version : bytes; g_conn_id : Z; g_scramble : bytes; g_caps : Z; g_collation : Z;
  g_status : Z; g_plugin : bytes }.

Definition parse_greeting (b : bytes) : option greeting :=
  match b with
  | 10 :: t =>
      match split_at 0 t with
      | Some (version, _ :: t) =>
          let '(conn, t) := (ztake 4 t, zdrop 4 t) in
          let '(part1, t) := (ztake 8 t, zdrop 9 t) in
          let '(low, t) := (ztake 2 t, zdrop 2 t) in
          let '(coll, t) := (ztake 1 t, zdrop 1 t) in
          let '(status, t) := (ztake 2 t, zdrop 2 t) in
          let '(high, t) := (ztake 2 t, zdrop 2 t) in
          let '(auth_len, t) := (le_value (ztake 1 t), zdrop 11 t) in
          let n := Z.max 13 (auth_len - 8) in
          match split_at 0 (zdrop n t) with
          | Some (plugin, _) =>
              Some (MkGreeting version (le_value conn) (ztake (auth_len - 1) (part1 ++ ztake n t))
                      (le_value (low ++ high)) (le_value coll) (le_value status) plugin)
          | None => None
          end
      | _ => None
      end
  | _ => None
  end.

Section writer_specs.
Context {W : Type} {Wops : AsyncWrite W} {WS : WriteStream W} {WR : ReliableWrite W} {I : MysqlIo} {IL : MysqlIoLaws I}
  {F : MysqlFlags} {FL : MysqlFlagsLaws F}.

Definition fits (p : bytes) : Prop := 0 < len p < MAX_PAYLOAD_LEN.

Lemma error_u16_u16 e : 0 <= error_u16 e < U16.
Proof. pose proof (error_u16_range e). unfold U16. lia. Qed.

Lemma sends_err e msg : fits (err_payload e msg) -> sends [] [err_payload e msg] (write_err_packet e msg).
Proof.
  intros Hf. unfold write_err_packet. writes. rewrite write_u16_law by apply error_u16_u16.
  by apply sends_end.
Qed.

Lemma sends_eof s : 0 <= s < U16 -> sends [] [eof_payload s] (write_eof_packet s).
Proof.
  intros Hs. unfold write_eof_packet. writes. rewrite write_u16_law by done. apply sends_end.
  unfold eof_payload, MAX_PAYLOAD_LEN. len_lia.
Qed.

Lemma write_lenenc_str_eq s : len s < U64 -> write_lenenc_str s = lenenc_str s.
Proof.
  intros. pose proof (len_nonneg s).
  by rewrite write_lenenc_str_law, write_lenenc_int_law by lia.
Qed.

Definition column_ok (c : Column) : Prop :=
  fits (column_payload false c) /\ 0 <= col_flags c < U16 /\
  len (col_table c) < U64 /\ len (col_column c) < U64.

Lemma sends_column c : column_ok c -> sends [] [column_payload false c] (write_column_definition false c).
Proof.
  intros (Hf & Hfl & Ht & Hc). unfold write_column_definition. writes.
  apply (sends_fill _ [] _ _ _ fills_ret). rewrite <- ?app_assoc, app_nil_r.
  rewrite !write_lenenc_str_eq by done. rewrite write_lenenc_int_law by done.
  rewrite !write_u16_law, write_u32_law by done. cbn [app].
  unfold column_payload in *. rewrite <- ?app_assoc in *. rewrite app_nil_r in Hf |- *.
  cbn [app] in *. by apply sends_end.
Qed.

Lemma sends_columns caps cs : Forall column_ok cs ->
  sends [] (columns_payloads caps false cs) (write_column_definitions_41 cs caps false).
Proof.
  intros Hcs. unfold write_column_definitions_41, columns_payloads. apply sends_seq.
  - induction Hcs as [|c cs Hc Hcs IH]; cbn [write_columns map]; [apply sends_ret|].
    apply (sends_seq [] [_]); [by apply sends_column|done].
  - destruct (contains caps CLIENT_DEPRECATE_EOF); cbn [negb]; [apply sends_ret|by apply sends_eof].
Qed.

Lemma completes_err e msg : completes (W := W) (write_err_packet e msg).
Proof. unfold write_err_packet. auto 20 with completes. Qed.

Lemma completes_eof s : completes (W := W) (write_eof_packet s).
Proof. unfold write_eof_packet. auto 20 with completes. Qed.

Lemma completes_ok caps p : completes (W := W) (write_ok_packet_with_client_flags caps p).
Proof. unfold write_ok_packet_with_client_flags. auto 20 with completes. Qed.

Lemma completes_columns caps cs : completes (W := W) (write_column_definitions_41 cs caps false).
Proof.
  unfold write_column_definitions_41. apply completes_bind; [|auto using completes_eof with completes].
  induction cs as [|c cs IH]; cbn [write_columns]; [apply completes_ret|].
  apply completes_bind; [|done]. unfold write_column_definition. auto 40 with completes.
Qed.

Lemma completes_prepare id params columns caps : completes (W := W) (write_prepare_ok id params columns caps).
Proof. unfold write_prepare_ok. auto 40 using completes_columns with completes. Qed.

Lemma completes_handshake conn_id scramble version tls :
  completes (W := W) (write_initial_handshake conn_id scramble version tls).
Proof. unfold write_initial_handshake. cbv zeta. auto 60 with completes. Qed.

(** An error packet reaches the client as one frame that is recognised as an error packet and
    carries the code and the SQLSTATE of the error, followed by the message. *)
Theorem write_err_packet_sent e msg w : pw_buf w = [] -> 0 <= pw_seq w < U8 ->
  fits (err_payload e msg) -> exists w', write_err_packet e msg w = (Ok tt, w') /\
  pw_sent w' = pw_sent w ++ frame (pw_seq w) (err_payload e msg) /\
  is_err_packet (MkPacket (err_payload e msg)) = true /\
  error_from_u16 (E := io_error) (le_value (ztake 2 (zdrop 1 (err_payload e msg)))) = Ok e /\
  ztake 6 (zdrop 3 (err_payload e msg)) = str "#" ++ sqlstate e.
Proof.
  intros Hb Hs Hf. destruct (completes_err e msg w) as (w' & E). exists w'. split; [done|].
  apply sends_err in E as (E1 & _ & _); [|done..].
  assert (frames (number (pw_seq w) [err_payload e msg]) = frame (pw_seq w) (err_payload e msg)) as Hfr
    by (unfold frames; simpl; by rewrite app_nil_r).
  rewrite Hfr in E1. split; [done|]. split; [done|].
  unfold err_payload. split.
  - rewrite (zdrop_app 1 [0xff]) by done. rewrite ztake_app by (by rewrite len_le_bytes).
    rewrite le_value_bytes by apply error_u16_u16. apply error_from_code.
  - rewrite (app_assoc [0xff]), zdrop_app by (rewrite len_app, len_le_bytes; done).
    rewrite (app_assoc (str "#")), ztake_app; [done|].
    rewrite len_app. by rewrite (proj1 (sqlstate_len e)).
Qed.

Definition ok_fits (p : OkPacket) : Prop :=
  0 <= affected_rows p < U64 /\ 0 <= last_insert_id p < U64 /\ 0 <= status_flags p < U16 /\
  len (info p) < U64 /\ len (session_state_info p) < U64.

Lemma fills_if (b : bool) x y m k : fills x m -> fills y k -> fills (W := W) (if b then x else y) (if b then m else k).
Proof. by destruct b. Qed.

Lemma sends_ok caps p : ok_fits p -> fits (ok_payload caps p) ->
  sends [] [ok_payload caps p] (write_ok_packet_with_client_flags caps p).
Proof.
  intros (Hr & Hl & Hs & Hi & Hst) Hf. unfold write_ok_packet_with_client_flags. writes.
  rewrite !write_lenenc_int_law, !write_lenenc_str_eq, !write_u16_law by done.
  eapply sends_fill; [apply fills_if; [apply fills_bind; apply fills_write|apply fills_if; [apply fills_write|apply fills_ret]]|].
  eapply sends_fill; [apply fills_if; [apply fills_bind; [apply fills_write|apply fills_if; [apply fills_write|apply fills_ret]]|apply fills_write]|].
  cbn [app]. rewrite <- ?app_assoc. by apply sends_end.
Qed.

(** What a client reads back: the warnings are always 0, and the texts arrive only with session
    tracking. *)
Definition ok_received (caps : Z) (p : OkPacket) : OkPacket :=
  let track := contains caps CLIENT_SESSION_TRACK in
  MkOkPacket (ok_header p) (affected_rows p) (last_insert_id p) (status_flags p) 0
    (if track then info p else [])
    (if track && contains (status_flags p) SERVER_SESSION_STATE_CHANGED then session_state_info p else []).

(** (C37) OK packets: what [write_ok_packet_with_client_flags] sends to a 4.1 client is one frame,
    which [ok_packet] parses back into the packet it was given, up to the warnings, which are
    sent as 0, and the texts, which need session tracking. *)
Theorem ok_packet_roundtrip {P : Winnow} (PL : WinnowLaws P) caps p w :
  pw_buf w = [] -> 0 <= pw_seq w < U8 -> ok_fits p -> fits (ok_payload caps p) ->
  contains caps CLIENT_PROTOCOL_41 = true -> is_str (info p) -> is_str (session_state_info p) ->
  exists w', write_ok_packet_with_client_flags caps p w = (Ok tt, w') /\
  pw_sent w' = pw_sent w ++ frame (pw_seq w) (ok_payload caps p) /\
  exists i, ok_packet (ok_payload caps p) caps = Ok (i, ok_received caps p).
Proof.
  intros Hb Hs Hok Hf H41 Hi Hst. destruct (completes_ok caps p w) as (w' & E). exists w'. split; [done|].
  apply sends_ok in E as (E1 & _ & _); [|done..].
  unfold frames in E1. cbn [number map concat fst snd] in E1. rewrite app_nil_r in E1. split; [done|].
  destruct Hok as (Hr & Hl & Hsf & Hil & Hsl). unfold ok_packet, ok_payload, ok_received. rewrite H41.
  cbn [app]. rewrite le_u8_cons. ostep. rewrite !read_lenenc by done. ostep.
  rewrite read_lenenc by done. ostep. rewrite <- app_assoc, le_u16_bytes by done. ostep.
  change ([0; 0] ++ ?x) with (le_bytes 2 0 ++ x). rewrite le_u16_bytes by done. ostep.
  destruct (contains caps CLIENT_SESSION_TRACK); [|rewrite andb_false_r; ostep; by eexists].
  destruct (lenenc_int_nonempty (len (info p))) as (c & t & Ec). pose proof (len_nonneg (info p)).
  unfold lenenc_str. rewrite bool_decide_eq_false_2 by (by rewrite Ec). cbn [andb negb].
  rewrite <- !app_assoc, read_lenenc by lia. ostep. rewrite wtake_app by done. ostep.
  rewrite from_utf8_str by done. destruct (contains (status_flags p) _); ostep; [|by eexists].
  pose proof (len_nonneg (session_state_info p)).
  rewrite read_lenenc by lia. ostep.
  pose proof (wtake_app _ (session_state_info p) [] eq_refl) as Ew. rewrite app_nil_r in Ew.
  rewrite Ew. ostep.
  rewrite from_utf8_str by done. by eexists.
Qed.

(** The response to a prepare: the OK packet with the numbers of columns and parameters, then
    the definitions of the parameters and of the columns, each group closed by an EOF packet for
    a client without [CLIENT_DEPRECATE_EOF], as consecutively numbered frames. *)
Theorem write_prepare_ok_sent id params columns caps w :
  pw_buf w = [] -> 0 <= pw_seq w < U8 -> 0 <= id < U32 ->
  Forall column_ok params -> Forall column_ok columns ->
  exists w', write_prepare_ok id params columns caps w = (Ok tt, w') /\
  pw_sent w' = pw_sent w ++ frames (number (pw_seq w) (prepare_payloads id params columns caps)).
Proof.
  intros Hb Hs Hid Hp Hc. destruct (completes_prepare id params columns caps w) as (w' & E).
  exists w'. split; [done|].
  enough (sends [] (prepare_payloads id params columns caps) (write_prepare_ok id params columns caps)) as H
    by (by apply H in E as (? & _)).
  pose proof (Z.mod_pos_bound (len params) U16 ltac:(done)).
  pose proof (Z.mod_pos_bound (len columns) U16 ltac:(done)).
  unfold write_prepare_ok, prepare_payloads. writes.
  rewrite !write_u16_law, write_u32_law by done.
  apply (sends_seq _ [_]); [apply sends_end; unfold MAX_PAYLOAD_LEN; len_lia|].
  apply sends_seq; apply sends_if; apply sends_columns || apply sends_ret; done.
Qed.

Lemma conn_id_bytes c : 0 <= c ->
  [c mod U8; Z.shiftr c 8 mod U8; Z.shiftr c 16 mod U8; Z.shiftr c 24 mod U8] = le_bytes 4 c.
Proof.
  intros. rewrite !Z.shiftr_div_pow2 by lia. rewrite !le_bytes_S. change (le_bytes 0 _) with (@nil Z).
  by rewrite !Z.div_div by lia.
Qed.

Lemma sends_handshake conn_id scramble version tls : 0 <= conn_id ->
  fits (handshake_payload conn_id scramble version tls) ->
  sends [] [handshake_payload conn_id scramble version tls]
    (write_initial_handshake conn_id scramble version tls).
Proof.
  intros Hc Hf. unfold write_initial_handshake, handshake_payload in *. cbv zeta.
  rewrite conn_id_bytes by done. writes.
  apply (sends_seq _ [_] []); [|apply sends_flush]. by apply sends_end.
Qed.

(** The values of the flags give the announced capabilities. *)
Lemma default_capabilities_value : default_capabilities = 0x83ffffff - 0x800 - 0x20.
Proof.
  pose proof (capability_values (F := F)) as E. injection E as.
  unfold default_capabilities.
  repeat match goal with H : _ = Z.shiftl 1 _ |- _ => rewrite H; clear H end.
  vm_compute. reflexivity.
Qed.

Lemma zdrop_app2 {A} n (l k m : list A) : n = len l + len k -> zdrop n (l ++ k ++ m) = m.
Proof. intros. rewrite app_assoc. apply zdrop_app. by rewrite len_app. Qed.

Definition announced (tls : bool) : Z :=
  if tls then Z.lor default_capabilities CLIENT_SSL else default_capabilities.

Lemma announced_u32 tls : 0 <= announced tls < U32.
Proof.
  unfold announced. rewrite default_capabilities_value.
  assert (CLIENT_SSL = 2048) as ->.
  { pose proof (capability_values (F := F)) as E. injection E as. done. }
  by destruct tls.
Qed.

Lemma parse_handshake_payload conn_id scramble version tls : 0 ∉ version -> len scramble = 20 ->
  parse_greeting (handshake_payload conn_id scramble version tls)
  = Some (MkGreeting version (conn_id mod U32) scramble (announced tls) 46 2 (str "mysql_native_password")).
Proof.
  intros Hv Hs. unfold handshake_payload. fold (announced tls). pose proof (announced_u32 tls) as Ha.
  set (caps := announced tls) in *.
  change ([10] ++ version ++ [0] ++ ?x) with (10 :: version ++ 0 :: x). unfold parse_greeting.
  rewrite split_at_found by done. cbv iota beta zeta.
  assert (len (le_bytes 4 caps) = 4) as Hl by apply len_le_bytes.
  assert (len (ztake 8 scramble) = 8) as H8 by (rewrite len_ztake; lia).
  assert (len (zdrop 8 scramble) = 12) as H12 by (rewrite len_zdrop; lia).
  assert (len (ztake 2 (le_bytes 4 caps)) = 2) as L1 by (rewrite len_ztake; lia).
  assert (len (ztake 2 (zdrop 2 (le_bytes 4 caps))) = 2) as L2 by (rewrite len_ztake, len_zdrop; lia).
  set (low := ztake 2 (le_bytes 4 caps)) in *. set (high := ztake 2 (zdrop 2 (le_bytes 4 caps))) in *.
  assert (low ++ high = le_bytes 4 caps) as Hlh.
  { subst low high. rewrite (ztake_all 2 (zdrop 2 _)) by (rewrite len_zdrop; lia). apply ztake_zdrop. }
  set (part1 := ztake 8 scramble) in *. set (part2 := zdrop 8 scramble) in *.
  assert (part1 ++ part2 = scramble) as Hp by apply ztake_zdrop.
  rewrite (ztake_app 4 (le_bytes 4 conn_id)), (zdrop_app 4 (le_bytes 4 conn_id)) by (by rewrite len_le_bytes).
  rewrite (ztake_app 8 part1), (zdrop_app2 9 part1 [0]) by (done || by rewrite H8).
  rewrite (ztake_app 2 low), (zdrop_app 2 low), (ztake_app 1 [46]), (zdrop_app 1 [46]) by done.
  rewrite (ztake_app 2 (le_bytes 2 _)), (zdrop_app 2 (le_bytes 2 _)) by (by rewrite len_le_bytes).
  rewrite (ztake_app 2 high), (zdrop_app 2 high) by done.
  rewrite (ztake_app 1 [_]), (zdrop_app2 11 [_] (replicate 10 0)) by done.
  rewrite Hs. change (le_value [(20 + 1) mod U8]) with 21. change (Z.max 13 (21 - 8)) with 13.
  rewrite (zdrop_app2 13 part2 [0]), (app_assoc part2), (ztake_app 13) by (rewrite ?len_app, H12; done).
  change (str "mysql_native_password" ++ [0]) with (str "mysql_native_password" ++ 0 :: []).
  rewrite split_at_found by (by apply (bool_decide_unpack _)).
  rewrite app_assoc, Hp, ztake_app, Hlh by (by rewrite Hs).
  rewrite (le_value_bytes 4 caps), (le_value_bytes_mod 4 conn_id) by done.
  assert (SERVER_STATUS_AUTOCOMMIT = 2) as ->.
  { pose proof (status_values (F := F)) as E. by injection E. }
  done.
Qed.

(** (C36) The initial handshake: one frame, flushed, from which a client reads the version, the
    connection id, the capabilities, the collation and all twenty bytes of the scramble. *)
Theorem initial_handshake_roundtrip conn_id scramble version tls w :
  pw_buf w = [] -> 0 <= pw_seq w < U8 -> 0 <= conn_id -> (0 ∉ version) -> len scramble = 20 ->
  len version < 1000 ->
  exists w' p, write_initial_handshake conn_id scramble version tls w = (Ok tt, w') /\
  pw_sent w' = pw_sent w ++ frame (pw_seq w) p /\
  parse_greeting p
  = Some (MkGreeting version (conn_id mod U32) scramble (announced tls) 46 2 (str "mysql_native_password")).
Proof.
  intros Hb Hs Hc Hv Hsc Hl. destruct (completes_handshake conn_id scramble version tls w) as (w' & E).
  exists w', (handshake_payload conn_id scramble version tls). split; [done|].
  split; [|by apply parse_handshake_payload].
  apply sends_handshake in E as (E1 & _ & _); [|done| |done..].
  - unfold frames in E1. cbn [number map concat fst snd] in E1. by rewrite app_nil_r in E1.
  - unfold fits, handshake_payload, MAX_PAYLOAD_LEN. rewrite !len_app, !len_le_bytes, !len_ztake, !len_zdrop by lia.
    rewrite len_le_bytes, len_replicate. change (len (str "mysql_native_password")) with 21.
    pose proof (len_nonneg version). rewrite !len_cons. change (len (@nil Z)) with 0. lia.
Qed.

End writer_specs.

(** ** Witnesses *)

Definition fresh_writer : PacketWriter sink := MkWriter [] 1 (Sink [] [3] 0).

Lemma write_err_packet_sent_witness :
  got (inner_writer (write_err_packet ER_ACCESS_DENIED_ERROR (str "no") fresh_writer).2)
  = frame 1 (err_payload ER_ACCESS_DENIED_ERROR (str "no")).
Proof.
  destruct (write_err_packet_sent ER_ACCESS_DENIED_ERROR (str "no") fresh_writer) as (w' & E & E1 & _);
    [reflexivity|done|split; reflexivity|].
  rewrite E. exact E1.
Defined.

Definition sample_ok : OkPacket := MkOkPacket 0 3 70000 (2 + 16384) 1 (str "done") (str "db").

Lemma ok_packet_roundtrip_witness :
  exists i, ok_packet (ok_payload (512 + 8388608) sample_ok) (512 + 8388608)
  = Ok (i, MkOkPacket 0 3 70000 (2 + 16384) 0 (str "done") (str "db")).
Proof.
  destruct (ok_packet_roundtrip winnow_ref_laws (512 + 8388608) sample_ok fresh_writer) as (w' & _ & _ & E);
    [reflexivity|done|by vm_compute|split; reflexivity|reflexivity|by eexists|by eexists|exact E].
Defined.

Definition sample_column : Column := MkColumn (str "t") (str "c") 3 1.

Lemma sample_column_ok : column_ok sample_column.
Proof. unfold column_ok, fits. vm_compute. repeat split; discriminate. Qed.

Lemma write_prepare_ok_sent_witness :
  pw_sent (write_prepare_ok 1 [sample_column] [sample_column; sample_column] 0 fresh_writer).2
  = pw_sent fresh_writer ++ frames (number (pw_seq fresh_writer) (prepare_payloads 1 [sample_column] [sample_column; sample_column] 0)).
Proof.
  destruct (write_prepare_ok_sent 1 [sample_column] [sample_column; sample_column] 0 fresh_writer)
    as (w' & E & E1).
  - reflexivity.
  - done.
  - done.
  - constructor; [exact sample_column_ok|constructor].
  - constructor; [exact sample_column_ok|constructor; [exact sample_column_ok|constructor]].
  - rewrite E. exact E1.
Defined.

Lemma initial_handshake_roundtrip_witness :
  exists p, got (inner_writer (write_initial_handshake 7 (map Z.of_nat (seq 1 20)) (str "8.0") true fresh_writer).2)
            = frame 1 p /\ parse_greeting p
            = Some (MkGreeting (str "8.0") 7 (map Z.of_nat (seq 1 20)) (announced true) 46 2 (str "mysql_native_password")).
Proof.
  destruct (initial_handshake_roundtrip 7 (map Z.of_nat (seq 1 20)) (str "8.0") true fresh_writer)
    as (w' & p & E & E1 & E2);
    [reflexivity|done|done|by apply (bool_decide_unpack _)|reflexivity|reflexivity|].
  rewrite E. exists p. split; [exact E1|exact E2].
Defined.
