(* ===== verification/Forwarder.v ===== *)
(** * Forwarding of commands ([server/forwarder/])

    The trait [ComForwarder] with its default methods, and the five forwarders.  A connection
    is the pair of a client's and a backend's packet streams; the section [relay] has the
    triples in which the proofs are written. *)
From S2P Require Import Prelude External Reference Constants Packet PacketWriter PacketReader Utf8 Basic Writers.

(** ** The connection *)

(** The readers and writers every forwarder is handed. *)
Record Conn (R W BR BW : Type) : Type := MkConn {
  client_reader : PacketReader R;
  client_writer : PacketWriter W;
  backend_reader : PacketReader BR;
  backend_writer : PacketWriter BW;
}.
Arguments MkConn {R W BR BW} _ _ _ _.
Arguments client_reader {R W BR BW} _.
Arguments client_writer {R W BR BW} _.
Arguments backend_reader {R W BR BW} _.
Arguments backend_writer {R W BR BW} _.

Section forwarders.
Context {R W BR BW : Type} `{AsyncRead R} `{AsyncWrite W} `{AsyncRead BR} `{AsyncWrite BW}.
Context `{Profile} `{Winnow} `{MysqlIo} `{MysqlFlags} `{MysqlPackets}.

Abbreviation conn := (Conn R W BR BW).

Definition on_client_reader {A} : M (PacketReader R) A -> M conn A :=
  zoom client_reader (fun r s => MkConn r (client_writer s) (backend_reader s) (backend_writer s)).
Definition on_client_writer {A} : M (PacketWriter W) A -> M conn A :=
  zoom client_writer (fun w s => MkConn (client_reader s) w (backend_reader s) (backend_writer s)).
Definition on_backend_reader {A} : M (PacketReader BR) A -> M conn A :=
  zoom backend_reader (fun r s => MkConn (client_reader s) (client_writer s) r (backend_writer s)).
Definition on_backend_writer {A} : M (PacketWriter BW) A -> M conn A :=
  zoom backend_writer (fun w s => MkConn (client_reader s) (client_writer s) (backend_reader s) w).

(** The fuel of every read of a packet. *)
Variable rf : nat.

(** [parse_err_packet!]: the packet is only logged, but parsing it is unwrapped. *)
Definition parse_err_packet (capabilities : Z) (p : Packet) : M conn unit :=
  if err_packet_parses capabilities (payload p) then mret tt else panic.

(** ** The default methods of [ComForwarder] *)

(** [forward_one_packet(dest_writer, src_reader, is_flush)], once for each direction it is
    used in. *)
Definition to_client (is_flush : bool) : M conn Packet :=
  '(seq, src_rsp) ← on_backend_reader (async_packet_read rf);
  _ ← on_client_writer (set_seq seq);
  _ ← on_client_writer (pw_write (payload src_rsp));
  _ ← on_client_writer end_packet;
  _ ← (if is_flush : bool then on_client_writer flush_all else mret tt);
  mret src_rsp.

Definition to_backend (is_flush : bool) : M conn Packet :=
  '(seq, src_rsp) ← on_client_reader (async_packet_read rf);
  _ ← on_backend_writer (set_seq seq);
  _ ← on_backend_writer (pw_write (payload src_rsp));
  _ ← on_backend_writer end_packet;
  _ ← (if is_flush : bool then on_backend_writer flush_all else mret tt);
  mret src_rsp.

(** The [COM_CHANGE_USER] the backend is sent: no authentication data and an unknown plugin, so
    that it asks the client to authenticate again. *)
Definition rewrite_change_user (h : HandshakeResponse) (p : Packet) : outcome io_error Packet :=
  com_change_user ← unwrap_option (com_change_user_deserialize (client_flag h) (payload p));
  let more := change_user_more_data (collation h) (plugin_as_ref UnKnowPluginName) in
  Ok (from_vec (com_change_user_serialize
       (with_more_data more (with_auth_plugin_data_none com_change_user)))).

Definition write_to_backend (seq : Z) (com_code : CommandCode) (h : HandshakeResponse)
    (client_packet : Packet) : M conn unit :=
  pkt_option ← match com_code with
               | ComQuit => mret None
               | ComChangeUser => p ← lift (rewrite_change_user h client_packet); mret (Some p)
               | _ => mret (Some client_packet)
               end;
  match pkt_option with
  | Some pkt =>
      _ ← on_backend_writer (set_seq seq);
      _ ← on_backend_writer (pw_write (payload pkt));
      _ ← on_backend_writer end_packet;
      on_backend_writer flush_all
  | None => mret tt
  end.

(** ** query_forward.rs *)

(** A [u16] at an offset: the slice and [read_u16] panic when the packet is too short. *)
Definition u16_at (n : Z) (p : Packet) : outcome io_error Z :=
  if n <=? len (payload p) then unwrap_option (read_u16 (zdrop n (payload p))) else Panic.

Definition unwrap_parse {A} (r : presult A) : outcome io_error A :=
  '(_, a) ← unwrap r; Ok a.

Fixpoint forward_until_result_end (fuel : nat) (h : HandshakeResponse) : M conn Z :=
  match fuel with
  | O => lift OutOfFuel
  | S fuel =>
      let client_capability := client_flag h in
      let client_deprecate_eof := contains client_capability CLIENT_DEPRECATE_EOF in
      response_packet ← to_client false;
      if is_err_packet response_packet then
        _ ← parse_err_packet client_capability response_packet;
        _ ← on_client_writer flush_all;
        mret 0
      else if negb client_deprecate_eof then
        if is_eof_packet response_packet then
          _ ← on_client_writer flush_all;
          lift (unwrap_parse (eof_server_status (payload response_packet)))
        else forward_until_result_end fuel h
      else if is_result_set_eof_packet response_packet then
        ok_pkt ← lift (unwrap_parse (ok_packet (payload response_packet) client_capability));
        _ ← on_client_writer flush_all;
        mret (status_flags ok_pkt)
      else forward_until_result_end fuel h
  end.

(** The first loop of [forward_result]: the column definitions up to their EOF packet. *)
Fixpoint forward_until_eof (fuel : nat) : M conn Packet :=
  match fuel with
  | O => lift OutOfFuel
  | S fuel =>
      response_packet ← to_client false;
      if is_eof_packet response_packet then mret response_packet else forward_until_eof fuel
  end.

Definition forward_result (fuel : nat) (h : HandshakeResponse) : M conn Z :=
  let client_deprecate_eof := contains (client_flag h) CLIENT_DEPRECATE_EOF in
  early ← (if negb client_deprecate_eof then
             resp_packet ← forward_until_eof fuel;
             status_code ← lift (u16_at 3 resp_packet);
             match from_bits STATUS_ALL status_code with
             | Some flags =>
                 if contains flags SERVER_STATUS_CURSOR_EXISTS then
                   _ ← on_client_writer flush_all; mret (Some flags)
                 else mret None
             | None => mret None
             end
           else mret None);
  match early with
  | Some flags => mret flags
  | None => forward_until_result_end fuel h
  end.

Fixpoint forward_query (fuel : nat) (h : HandshakeResponse) : M conn unit :=
  match fuel with
  | O => lift OutOfFuel
  | S fuel =>
      response_packet ← to_client false;
      status_flag ←
        (if is_ok_packet response_packet then
           _ ← on_client_writer flush_all;
           ok_pkt ← lift (unwrap_parse (ok_packet (payload response_packet) (client_flag h)));
           mret (Some (status_flags ok_pkt))
         else if is_err_packet response_packet then
           _ ← parse_err_packet (client_flag h) response_packet;
           _ ← on_client_writer flush_all;
           mret None
         else if is_local_in_file_packet response_packet then panic
         else flags ← forward_result fuel h; mret (Some flags));
      match status_flag with
      | None => mret tt
      | Some flags =>
          if negb (contains flags SERVER_MORE_RESULTS_EXISTS) then mret tt
          else forward_query fuel h
      end
  end.

(** ** stmt_prepare_forward.rs *)

(** [for _idx in 0..expected_packets] *)
Fixpoint forward_n (n : nat) : M conn unit :=
  match n with
  | O => mret tt
  | S n => _ ← to_client false; forward_n n
  end.

(** The number of packets after the OK packet, in [u16]. *)
Definition expected_packets (column params : Z) (is_client_deprecate_eof : bool) : outcome io_error Z :=
  expected ← add_width U16 column params;
  if negb is_client_deprecate_eof then
    expected ← (if 0 <? column then add_width U16 expected 1 else Ok expected);
    if 0 <? params then add_width U16 expected 1 else Ok expected
  else Ok expected.

Definition forward_prepare_stmt (h : HandshakeResponse) : M conn (option Packet) :=
  packet ← to_client false;
  let is_client_deprecate_eof := contains (client_flag h) CLIENT_DEPRECATE_EOF in
  if is_err_packet packet then
    _ ← parse_err_packet (client_flag h) packet;
    _ ← on_client_writer flush_all;
    mret None
  else if is_ok_packet packet then
    column ← lift (u16_at 5 packet);
    params ← lift (u16_at 7 packet);
    expected ← lift (expected_packets column params is_client_deprecate_eof);
    _ ← forward_n (Z.to_nat expected);
    _ ← on_client_writer flush_all;
    mret None
  else panic.

(** [self.request[0]] and [read_u32(&self.request[1..5])] are read and dropped; both panic on a
    short request. *)
Definition forward_close_stmt (request : Packet) : M conn (option Packet) :=
  if len (payload request) <? 5 then panic
  else _ ← lift (unwrap_option (read_u32 (ztake 4 (zdrop 1 (payload request))))); mret None.

(** ** change_user_forward.rs *)

Fixpoint forward_change_user (fuel : nat) (h : HandshakeResponse) : M conn (option Packet) :=
  match fuel with
  | O => lift OutOfFuel
  | S fuel =>
      rsp_pkt ← to_client true;
      if is_err_packet rsp_pkt then
        _ ← parse_err_packet (client_flag h) rsp_pkt;
        throw PermissionDenied
      else if is_ok_packet rsp_pkt then mret (Some rsp_pkt)
      else
        pkt ← to_backend true;
        if is_err_packet pkt then
          _ ← parse_err_packet (client_flag h) pkt;
          throw PermissionDenied
        else forward_change_user fuel h
  end.

(** ** reset_conn_forward.rs *)

Definition forward_reset_conn : M conn (option Packet) :=
  _ ← on_backend_writer write_reset_connection;
  _ ← on_backend_reader (async_packet_read rf);
  mret None.

End forwarders.

(** ** The trait *)

Section forwarder_trait.
Context (R W BR BW : Type).

(** [ComForwarder::forward]; the fuels are those of the reads and of the loops. *)
Class ComForwarder (F : Type) : Type :=
  forward : F -> nat -> nat -> HandshakeResponse -> M (Conn R W BR BW) (option Packet).

End forwarder_trait.
Arguments forward {R W BR BW F _} _ _ _ _.

Record GenericComForwarder : Type := MkGeneric {}.
Record QueryForwarder : Type := MkQuery { qf_com_code : CommandCode }.
Record StmtPrepareForwarder : Type := MkStmtPrepare { sf_com_code : CommandCode; sf_request : Packet }.
Record ChangeUserForwarder : Type := MkChangeUser {}.
Record ResetConnForwarder : Type := MkResetConn {}.

Section forwarder_impls.
Context {R W BR BW : Type} `{AsyncRead R} `{AsyncWrite W} `{AsyncRead BR} `{AsyncWrite BW}.
Context `{Profile} `{Winnow} `{MysqlIo} `{MysqlFlags} `{MysqlPackets}.

#[export] Instance generic_forward : ComForwarder R W BR BW GenericComForwarder :=
  fun _ rf fuel h => p ← to_client rf true; mret (Some p).

#[export] Instance query_forward : ComForwarder R W BR BW QueryForwarder :=
  fun f rf fuel h =>
    match qf_com_code f with
    | ComQuery | ComStmtExecute | ComProcessInfo => _ ← forward_query rf fuel h; mret None
    | ComFieldList | ComStmtFetch => _ ← forward_until_result_end rf fuel h; mret None
    | _ => panic
    end.

#[export] Instance stmt_prepare_forward : ComForwarder R W BR BW StmtPrepareForwarder :=
  fun f rf fuel h =>
    match sf_com_code f with
    | ComStmtPrepare => forward_prepare_stmt rf h
    | ComStmtClose => forward_close_stmt (sf_request f)
    | _ => panic
    end.

#[export] Instance change_user_forward : ComForwarder R W BR BW ChangeUserForwarder :=
  fun _ rf fuel h => forward_change_user rf fuel h.

#[export] Instance reset_conn_forward : ComForwarder R W BR BW ResetConnForwarder :=
  fun _ rf fuel h => forward_reset_conn rf.

End forwarder_impls.

(** ** Triples for forwarding code *)

Section writer_total.
Context {W : Type} {Wops : AsyncWrite W} {WR : ReliableWrite W} {I : MysqlIo}.
Context {WS : WriteStream W} {IL : MysqlIoLaws I}.

(** One payload through a writer: exactly one frame, numbered as asked. *)
Lemma send_frame q p (w : PacketWriter W) : pw_buf w = [] -> fits p -> 0 <= q < U8 ->
  exists w', end_packet (MkWriter (pw_buf w ++ p) q (inner_writer w)) = (Ok tt, w') /\
    pw_sent w' = pw_sent w ++ frame q p /\ pw_buf w' = [] /\ pw_seq w' = (q + 1) mod U8.
Proof.
  intros Hb Hf Hq. rewrite Hb. cbn [app].
  destruct (end_packet_total (MkWriter p q (inner_writer w))) as (w' & E). exists w'. split; [done|].
  apply (sends_end p Hf) in E as (E1 & E2 & E3); [|done..].
  unfold frames in E1. cbn [number map concat fst snd pw_seq] in *. by rewrite app_nil_r in E1.
Qed.

Lemma flush_frame (w : PacketWriter W) : exists w', flush_all w = (Ok tt, w') /\
  pw_sent w' = pw_sent w /\ pw_buf w' = pw_buf w /\ pw_seq w' = pw_seq w.
Proof.
  unfold flush_all. rewrite run_on_inner. destruct (flush_total (inner_writer w)) as (i & E).
  rewrite E. eexists. split; [done|]. unfold pw_sent. cbn [inner_writer pw_buf pw_seq].
  by rewrite (flush_spec _ _ _ E).
Qed.

End writer_total.

Section relay.
Context {R W BR BW : Type} {Rops : AsyncRead R} {RS : ReadStream R} {Wops : AsyncWrite W}
  {WS : WriteStream W} {WR : ReliableWrite W} {BRops : AsyncRead BR} {BRS : ReadStream BR}
  {BWops : AsyncWrite BW} {BWS : WriteStream BW} {BWR : ReliableWrite BW}.
Context {Pr : Profile} {Wn : Winnow} {WL : WinnowLaws Wn} {I : MysqlIo} {IL : MysqlIoLaws I}.
Context (rf : nat).

Abbreviation conn := (Conn R W BR BW).

(** A side of the connection that is ready to be read. *)
Definition source_ok {X} {Xops : AsyncRead X} {XS : ReadStream X} (r : PacketReader X) : Prop :=
  reader_ok r /\ is_bytes (stream r) /\ (length (stream r) < rf)%nat.

Record conn_ok (s : conn) : Prop := {
  client_source : source_ok (client_reader s);
  backend_source : source_ok (backend_reader s);
  client_buf : pw_buf (client_writer s) = [];
  backend_buf : pw_buf (backend_writer s) = [];
  client_seq : 0 <= pw_seq (client_writer s) < U8;
  backend_seq : 0 <= pw_seq (backend_writer s) < U8;
}.

(** [m] reads [cin] from the client and [bin] from the backend, sends [cout] to the client and
    [bout] to the backend, takes the backend's sequence number from [n] to [n'] and returns
    [a]; it always terminates. *)
Definition relays {A} (n : Z) (cin bin cout bout : bytes) (n' : Z) (m : M conn A) (a : A) : Prop :=
  forall s crest brest, conn_ok s -> pw_seq (backend_writer s) = n ->
  stream (client_reader s) = cin ++ crest -> stream (backend_reader s) = bin ++ brest ->
  exists s', m s = (Ok a, s') /\ conn_ok s' /\ pw_seq (backend_writer s') = n' /\
    stream (client_reader s') = crest /\ stream (backend_reader s') = brest /\
    pw_sent (client_writer s') = pw_sent (client_writer s) ++ cout /\
    pw_sent (backend_writer s') = pw_sent (backend_writer s) ++ bout.

Lemma relays_ret {A} n (a : A) : relays n [] [] [] [] n (mret a) a.
Proof. intros s crest brest Hok Hn Hc Hb. exists s. rewrite !app_nil_r. done. Qed.

Lemma relays_lift {A} n (o : outcome io_error A) a : o = Ok a -> relays n [] [] [] [] n (lift o) a.
Proof. intros ->. apply relays_ret. Qed.

Lemma relays_bind {A B} n c1 b1 o1 p1 n1 c2 b2 o2 p2 n2 (m : M conn A) (k : A -> M conn B) a x :
  relays n c1 b1 o1 p1 n1 m a -> relays n1 c2 b2 o2 p2 n2 (k a) x ->
  relays n (c1 ++ c2) (b1 ++ b2) (o1 ++ o2) (p1 ++ p2) n2 (m ≫= k) x.
Proof.
  intros Hm Hk s crest brest Hok Hn Hc Hb. rewrite <- app_assoc in Hc, Hb.
  destruct (Hm s _ _ Hok Hn Hc Hb) as (s1 & E & Hok1 & Hn1 & Hc1 & Hb1 & So1 & Sp1).
  destruct (Hk s1 _ _ Hok1 Hn1 Hc1 Hb1) as (s2 & E2 & Hok2 & Hn2 & Hc2 & Hb2 & So2 & Sp2).
  exists s2. rewrite run_bind, E, E2, So2, So1, Sp2, Sp1, <- !app_assoc. done.
Qed.

(** A bind whose first part reads and writes nothing. *)
Lemma relays_pure {A B} n c b o p n' (m : M conn A) (k : A -> M conn B) a x :
  relays n [] [] [] [] n m a -> relays n c b o p n' (k a) x -> relays n c b o p n' (m ≫= k) x.
Proof. intros Hm Hk. apply (relays_bind n [] [] [] [] n c b o p n' m k a x Hm Hk). Qed.

Lemma relays_flush_client n : relays n [] [] [] [] n (on_client_writer flush_all) tt.
Proof.
  intros s crest brest [H1 H2 H3 H4 H5 H6] Hn Hc Hb.
  destruct (flush_frame (client_writer s)) as (w & E & E1 & E2 & E3).
  unfold on_client_writer, zoom. rewrite E. eexists. split; [done|].
  cbn [client_writer client_reader backend_reader backend_writer]. rewrite E1, !app_nil_r.
  split_and!; try done. constructor; cbn [client_writer client_reader backend_reader backend_writer]; congruence.
Qed.

Lemma is_bytes_frame q p r : is_bytes (frame q p ++ r) -> 0 <= q < U8.
Proof.
  intros [H _]%is_bytes_app. unfold frame in H. apply is_bytes_app in H as [_ H].
  by apply Forall_cons in H as [H _].
Qed.

(** Reading one frame. *)
Lemma next_frame {X} {Xops : AsyncRead X} {XS : ReadStream X} (r : PacketReader X) q p rest :
  source_ok r -> stream r = frame q p ++ rest -> fits p ->
  exists r', next_async rf r = (Ok (Some (q, MkPacket p)), r') /\ source_ok r' /\ stream r' = rest.
Proof.
  intros (Hok & Hb & Hf) Hs [Hp0 Hp].
  assert (length (avail (pr_r r)) < rf)%nat as Hf'.
  { unfold stream in Hf. rewrite length_app in Hf. lia. }
  pose proof (next_async_spec rf r Hok Hb Hf') as Hr. unfold reads_packet in Hr. rewrite Hs in *.
  pose proof (packet_frames [] q p rest (Forall_nil_2 _) Hp
    : packet (frame q p ++ rest) = Ok (rest, (q, MkPacket p))) as Ep. rewrite Ep in Hr.
  destruct Hr as (r' & -> & Hok' & Hs'). exists r'. split; [done|]. split; [|done]. split; [done|].
  rewrite Hs'. apply is_bytes_app in Hb as [_ Hb]. split; [done|]. rewrite length_app in Hf. lia.
Qed.

Lemma read_frame {X} {Xops : AsyncRead X} {XS : ReadStream X} (r : PacketReader X) q p rest :
  source_ok r -> stream r = frame q p ++ rest -> fits p ->
  exists r', async_packet_read rf r = (Ok (q, MkPacket p), r') /\ source_ok r' /\ stream r' = rest.
Proof.
  intros Hok Hs Hp. destruct (next_frame r q p rest Hok Hs Hp) as (r' & E & H).
  exists r'. unfold async_packet_read. rewrite run_bind, E. done.
Qed.

Ltac conn_fields := cbn [client_writer client_reader backend_reader backend_writer
  pw_buf pw_seq inner_writer payload] in *.

Lemma relays_read_backend n q p : fits p ->
  relays n [] (frame q p) [] [] n (on_backend_reader (async_packet_read rf)) (q, MkPacket p).
Proof.
  intros Hf s crest brest [H1 H2 H3 H4 H5 H6] Hn Hc Hb.
  destruct (read_frame _ q p brest H2 Hb Hf) as (r' & Er & Hr' & Sr').
  unfold on_backend_reader, zoom. rewrite Er. eexists. split; [done|]. conn_fields.
  rewrite !app_nil_r. split_and!; try done.
Qed.

Lemma relays_read_client n q p : fits p ->
  relays n (frame q p) [] [] [] n (on_client_reader (async_packet_read rf)) (q, MkPacket p).
Proof.
  intros Hf s crest brest [H1 H2 H3 H4 H5 H6] Hn Hc Hb.
  destruct (read_frame _ q p crest H1 Hc Hf) as (r' & Er & Hr' & Sr').
  unfold on_client_reader, zoom. rewrite Er. eexists. split; [done|]. conn_fields.
  rewrite !app_nil_r. split_and!; try done.
Qed.

Lemma relays_next_client n q p : fits p ->
  relays n (frame q p) [] [] [] n (on_client_reader (next_async rf)) (Some (q, MkPacket p)).
Proof.
  intros Hf s crest brest [H1 H2 H3 H4 H5 H6] Hn Hc Hb.
  destruct (next_frame _ q p crest H1 Hc Hf) as (r' & Er & Hr' & Sr').
  unfold on_client_reader, zoom. rewrite Er. eexists. split; [done|]. conn_fields.
  rewrite !app_nil_r. split_and!; try done.
Qed.

(** One payload to the client, and to the backend. *)
Lemma relays_send_client {A} n q p c b o p' n' (k : M conn A) a :
  fits p -> 0 <= q < U8 -> relays n c b o p' n' k a ->
  relays n c b (frame q p ++ o) p' n'
    (_ ← on_client_writer (set_seq q); _ ← on_client_writer (pw_write p);
     _ ← on_client_writer end_packet; k) a.
Proof.
  intros Hf Hq Hk s crest brest [H1 H2 H3 H4 H5 H6] Hn Hc Hb.
  destruct (send_frame q p (client_writer s) H3 Hf Hq) as (w & Ew & E1 & E2 & E3).
  unfold on_client_writer, zoom, set_seq, pw_write. mstep. conn_fields. rewrite Ew.
  destruct (Hk (MkConn (client_reader s) w (backend_reader s) (backend_writer s)) crest brest)
    as (s' & Es & Hok & Hn' & Hc' & Hb' & So & Sp); conn_fields; try done.
  { constructor; conn_fields; try done. rewrite E3. by apply Z.mod_pos_bound. }
  exists s'. by rewrite Es, So, E1, app_assoc.
Qed.

Lemma relays_send_backend {A} n q p c b o p' n' (k : M conn A) a :
  fits p -> 0 <= q < U8 -> relays ((q + 1) mod U8) c b o p' n' k a ->
  relays n c b o (frame q p ++ p') n'
    (_ ← on_backend_writer (set_seq q); _ ← on_backend_writer (pw_write p);
     _ ← on_backend_writer end_packet; k) a.
Proof.
  intros Hf Hq Hk s crest brest [H1 H2 H3 H4 H5 H6] Hn Hc Hb.
  destruct (send_frame q p (backend_writer s) H4 Hf Hq) as (w & Ew & E1 & E2 & E3).
  unfold on_backend_writer, zoom, set_seq, pw_write. mstep. conn_fields. rewrite Ew.
  destruct (Hk (MkConn (client_reader s) (client_writer s) (backend_reader s) w) crest brest)
    as (s' & Es & Hok & Hn' & Hc' & Hb' & So & Sp); conn_fields; try done.
  { constructor; conn_fields; try done. rewrite E3. by apply Z.mod_pos_bound. }
  exists s'. by rewrite Es, Sp, E1, app_assoc.
Qed.

(** The same with the number the writer has. *)
Lemma relays_write_backend {A} n p c b o p' n' (k : M conn A) a :
  fits p -> 0 <= n < U8 -> relays ((n + 1) mod U8) c b o p' n' k a ->
  relays n c b o (frame n p ++ p') n'
    (_ ← on_backend_writer (pw_write p); _ ← on_backend_writer end_packet; k) a.
Proof.
  intros Hf Hn Hk s crest brest Hok Hs Hc Hb.
  destruct (relays_send_backend n n p c b o p' n' k a Hf Hn Hk s crest brest Hok Hs Hc Hb) as (s' & E & H).
  exists s'. split; [|done]. rewrite <- E. destruct s as [r w br [buf q i]].
  cbn [backend_writer pw_seq] in Hs. by subst q.
Qed.

Lemma relays_flush_backend n : relays n [] [] [] [] n (on_backend_writer flush_all) tt.
Proof.
  intros s crest brest [H1 H2 H3 H4 H5 H6] Hn Hc Hb.
  destruct (flush_frame (backend_writer s)) as (w & E & E1 & E2 & E3).
  unfold on_backend_writer, zoom. rewrite E. eexists. split; [done|]. conn_fields.
  rewrite E1, E3, !app_nil_r. split_and!; try done. constructor; conn_fields; congruence.
Qed.

(** Any writer that is known to send [ps] and to succeed. *)
Lemma relays_sends_backend n ps (m : M (PacketWriter BW) unit) :
  sends [] ps m -> (forall w, exists w', m w = (Ok tt, w')) ->
  relays n [] [] [] (frames (number n ps)) ((n + len ps) mod U8) (on_backend_writer m) tt.
Proof.
  intros Hs Ht s crest brest [H1 H2 H3 H4 H5 H6] Hn Hc Hb. destruct (Ht (backend_writer s)) as (w & E).
  destruct (Hs _ _ H4 H6 E) as (E1 & E2 & E3). unfold on_backend_writer, zoom. rewrite E.
  eexists. split; [done|]. conn_fields. rewrite E1, E3, app_nil_r, Hn. split_and!; try done.
  constructor; conn_fields; try done. rewrite E3. by apply Z.mod_pos_bound.
Qed.

Lemma relays_sends_client n m0 ps (m : M (PacketWriter W) unit) (s : conn) crest brest :
  sends [] ps m -> (forall w, exists w', m w = (Ok tt, w')) ->
  conn_ok s -> pw_seq (client_writer s) = m0 -> pw_seq (backend_writer s) = n ->
  stream (client_reader s) = crest -> stream (backend_reader s) = brest ->
  exists s', on_client_writer m s = (Ok tt, s') /\ conn_ok s' /\ pw_seq (backend_writer s') = n /\
    stream (client_reader s') = crest /\ stream (backend_reader s') = brest /\
    pw_sent (client_writer s') = pw_sent (client_writer s) ++ frames (number m0 ps) /\
    pw_sent (backend_writer s') = pw_sent (backend_writer s).
Proof.
  intros Hs Ht [H1 H2 H3 H4 H5 H6] Hm Hn Hc Hb. destruct (Ht (client_writer s)) as (w & E).
  destruct (Hs _ _ H3 H5 E) as (E1 & E2 & E3). unfold on_client_writer, zoom. rewrite E.
  eexists. split; [done|]. conn_fields. rewrite E1, Hm. split_and!; try done.
  constructor; conn_fields; try done. rewrite E3. by apply Z.mod_pos_bound.
Qed.

Lemma relays_if {A} n (fl : bool) (m k : M conn A) a :
  relays n [] [] [] [] n m a -> relays n [] [] [] [] n k a ->
  relays n [] [] [] [] n (if fl then m else k) a.
Proof. by destruct fl. Qed.

Lemma relays_conv {A} n c b o p n' c' b' o' p' (m : M conn A) a :
  relays n c b o p n' m a -> c = c' -> b = b' -> o = o' -> p = p' -> relays n c' b' o' p' n' m a.
Proof. by intros ? <- <- <- <-. Qed.

Ltac conv_nil := rewrite ?app_nil_r; try reflexivity.

(** One packet, unchanged and in one frame, from the backend to the client, and back. *)
Lemma relays_to_client n q p fl : fits p -> 0 <= q < U8 ->
  relays n [] (frame q p) (frame q p) [] n (to_client rf fl) (MkPacket p).
Proof.
  intros Hf Hq. eapply relays_conv; [eapply relays_bind; [by apply relays_read_backend|]|..].
  - apply (relays_send_client n q p [] [] [] [] n); [done..|]. eapply relays_pure; [|apply relays_ret].
    apply relays_if; [apply relays_flush_client|apply relays_ret].
  - done.
  - conv_nil.
  - cbn [app]. conv_nil.
  - done.
Qed.

Lemma relays_to_backend n q p fl : fits p -> 0 <= q < U8 ->
  relays n (frame q p) [] [] (frame q p) ((q + 1) mod U8) (to_backend rf fl) (MkPacket p).
Proof.
  intros Hf Hq. eapply relays_conv; [eapply relays_bind; [by apply relays_read_client|]|..].
  - apply (relays_send_backend n q p [] [] [] []); [done..|]. eapply relays_pure; [|apply relays_ret].
    apply relays_if; [apply relays_flush_backend|apply relays_ret].
  - conv_nil.
  - done.
  - done.
  - cbn [app]. conv_nil.
Qed.

(** The same with errors as values. *)
Lemma relays_attempt_bind {A B} n c1 b1 o1 p1 n1 c2 b2 o2 p2 n2 (m : M conn A) (k : A -> M conn B) a x :
  relays n c1 b1 o1 p1 n1 m a -> relays n1 c2 b2 o2 p2 n2 (attempt (k a)) x ->
  relays n (c1 ++ c2) (b1 ++ b2) (o1 ++ o2) (p1 ++ p2) n2 (attempt (m ≫= k)) x.
Proof.
  intros Hm Hk s crest brest Hok Hn Hc Hb. rewrite <- app_assoc in Hc, Hb.
  destruct (Hm s _ _ Hok Hn Hc Hb) as (s1 & E & Hok1 & Hn1 & Hc1 & Hb1 & So1 & Sp1).
  destruct (Hk s1 _ _ Hok1 Hn1 Hc1 Hb1) as (s2 & E2 & Hok2 & Hn2 & Hc2 & Hb2 & So2 & Sp2).
  exists s2. unfold attempt in *. rewrite run_bind, E, E2, So2, So1, Sp2, Sp1, <- !app_assoc. done.
Qed.

Lemma relays_attempt_ok {A} n c b o p n' (m : M conn A) a :
  relays n c b o p n' (attempt m) (inr a) -> relays n c b o p n' m a.
Proof.
  intros Hm s crest brest Hok Hn Hc Hb. destruct (Hm s crest brest Hok Hn Hc Hb) as (s' & E & H).
  exists s'. split; [|done]. unfold attempt in E. destruct (m s) as [[]]; simplify_eq. done.
Qed.

(** The packets [fs] of the backend reach the client unchanged, the rest stays unread, and
    nothing is read from the client or sent to the backend. *)
Definition passes {A} (fs : list (Z * bytes)) (m : M conn A) (a : A) : Prop :=
  forall n, relays n [] (frames fs) (frames fs) [] n m a.

(** A packet of one frame. *)
Definition pkt_ok (f : Z * bytes) : Prop := 0 <= fst f < U8 /\ fits (snd f).

Lemma passes_ret {A} (a : A) : passes [] (mret a) a.
Proof. intros n. apply relays_ret. Qed.

Lemma passes_step {A} f fs fl (k : Packet -> M conn A) a :
  pkt_ok f -> passes fs (k (MkPacket (snd f))) a -> passes (f :: fs) (to_client rf fl ≫= k) a.
Proof.
  destruct f as [q p]. intros [Hq Hf] Hk n. rewrite frames_cons.
  eapply relays_conv; [eapply relays_bind; [by apply relays_to_client|apply Hk]|done..].
Qed.

Lemma passes_bind {A B} fs gs (m : M conn A) (k : A -> M conn B) a x :
  passes fs m a -> passes gs (k a) x -> passes (fs ++ gs) (m ≫= k) x.
Proof.
  intros Hm Hk n. rewrite frames_app.
  eapply relays_conv; [eapply relays_bind; [apply Hm|apply Hk]|done..].
Qed.

Lemma passes_pure {A B} fs (m : M conn A) (k : A -> M conn B) a x :
  passes [] m a -> passes fs (k a) x -> passes fs (m ≫= k) x.
Proof. intros Hm Hk. apply (passes_bind [] fs m k a x Hm Hk). Qed.

Lemma passes_tail {A B} fs (m : M conn A) (k : A -> M conn B) a x :
  passes fs m a -> passes [] (k a) x -> passes fs (m ≫= k) x.
Proof. intros Hm Hk. rewrite <- (app_nil_r fs). by eapply passes_bind. Qed.

Lemma passes_lift {A} (o : outcome io_error A) a : o = Ok a -> passes [] (lift o) a.
Proof. intros -> n. apply relays_ret. Qed.

Lemma passes_flush : passes [] (on_client_writer flush_all) tt.
Proof. intros n. apply relays_flush_client. Qed.

(** ** Packets of several frames *)

Lemma chunks_full cs p : Forall (fun c => len c = MAX_PAYLOAD_LEN) cs -> fits p ->
  chunks MAX_PAYLOAD_LEN (concat cs ++ p) = cs ++ [p].
Proof.
  intros Hcs [Hp0 Hp]. unfold chunks.
  assert (forall fuel, (length (concat cs ++ p) <= fuel)%nat ->
    chunks_fuel fuel MAX_PAYLOAD_LEN (concat cs ++ p) = cs ++ [p]) as H; [|by apply H].
  induction Hcs as [|c cs Hc Hcs IH]; intros fuel Hf.
  - cbn [concat app] in *. destruct p as [|x p]; [discriminate Hp0|].
    destruct fuel as [|fuel]; [simpl in Hf; lia|]. cbn [chunks_fuel].
    rewrite ztake_all, zdrop_all by lia. by destruct fuel.
  - cbn [concat]. rewrite <- app_assoc. cbn [concat] in Hf. rewrite <- app_assoc, length_app in Hf.
    destruct c as [|x c]; [vm_compute in Hc; discriminate|].
    destruct fuel as [|fuel]; [simpl in Hf; lia|]. cbn [chunks_fuel app].
    change (x :: c ++ concat cs ++ p) with ((x :: c) ++ concat cs ++ p).
    rewrite ztake_app, zdrop_app by done. rewrite IH by (simpl in Hf; lia). done.
Qed.

(** A packet of several frames is relayed with shifted sequence numbers: the reader returns the
    number of the last frame, and the writer starts from it.  When the backend sends frames
    numbered [q, q+1, ..., q+k], the client gets the same payloads numbered
    [q+k, q+k+1, ..., q+2k]. *)
Theorem to_client_multi_frame cs q p fl (s : conn) brest :
  Forall (fun c => len c = MAX_PAYLOAD_LEN) cs -> fits p -> 0 <= q -> q + len cs < U8 ->
  conn_ok s -> stream (backend_reader s) = frames (number q (cs ++ [p])) ++ brest ->
  exists s', to_client rf fl s = (Ok (MkPacket (concat cs ++ p)), s') /\
    stream (backend_reader s') = brest /\
    pw_sent (client_writer s') = pw_sent (client_writer s) ++ frames (number (q + len cs) (cs ++ [p])).
Proof.
  intros Hcs Hp Hq Hql [H1 H2 H3 H4 H5 H6] Hb. pose proof (len_nonneg cs).
  destruct Hp as [Hp0 Hpl].
  assert (0 <= q < U8) as Hq' by lia. rewrite number_app, frames_app in Hb by done.
  cbn [number] in Hb. rewrite Z.mod_small in Hb by lia.
  unfold frames at 2 in Hb. cbn [map concat fst snd] in Hb. rewrite app_nil_r, <- app_assoc in Hb.
  destruct H2 as (Hok & Hby & Hf). rewrite Hb in *.
  assert (length (avail (pr_r (backend_reader s))) < rf)%nat as Hf'.
  { rewrite <- Hb in Hf. unfold stream in Hf. rewrite length_app in Hf. lia. }
  rewrite <- Hb in Hby. pose proof (next_async_spec rf _ Hok Hby Hf') as Hr.
  unfold reads_packet in Hr.
  rewrite Hb, (packet_frames _ _ _ _ (number_full q cs Hcs) Hpl) in Hr.
  rewrite consecutive_number in Hr; [|right; unfold U8 in *; lia|done|done].
  destruct Hr as (r' & Er & Hok' & Hs'). rewrite number_snd in Er.
  unfold to_client, on_backend_reader, on_client_writer, zoom, async_packet_read.
  rewrite !run_bind, Er. unfold set_seq, pw_write. mstep. conn_fields. rewrite H3. cbn [app].
  set (w0 := MkWriter (concat cs ++ p) (q + len cs) (inner_writer (client_writer s))).
  destruct (end_packet_total w0) as (w1 & Ew). rewrite Ew.
  apply end_packet_spec in Ew as (Es & Eb & _); [| |split; [cbn; lia|cbn; lia]].
  - unfold wire in Es. cbn [pw_buf pw_seq w0] in Es. rewrite chunks_full in Es by done.
    destruct fl; mstep; conn_fields.
    + destruct (flush_frame w1) as (w2 & -> & F1 & _). eexists. split; [done|]. conn_fields.
      split; [done|]. by rewrite F1, Es.
    + eexists. split; [done|]. conn_fields. done.
  - cbn. intros E. apply app_eq_nil in E as [_ ->]. by vm_compute in Hp0.
Qed.

End relay.

(** ** Witness *)

Definition full_frame : bytes := replicate (Z.to_nat MAX_PAYLOAD_LEN) 0.

Lemma full_frame_len : len full_frame = MAX_PAYLOAD_LEN.
Proof. unfold full_frame. rewrite len_replicate. by rewrite Z2Nat.id. Qed.

Lemma is_bytes_full_frame : is_bytes full_frame.
Proof. apply Forall_replicate. split; [lia|reflexivity]. Qed.

(** A backend that sends one packet of a full frame and one byte. *)
Definition two_frames : bytes := frames (number 1 ([full_frame] ++ [[7]])).

Definition two_frame_conn : Conn chunked sink chunked sink :=
  MkConn (pr_new (Chunked [])) (MkWriter [] 0 (Sink [] [] 0)) (pr_new (Chunked [two_frames]))
    (MkWriter [] 0 (Sink [] [] 0)).

Lemma is_bytes_frames fs : Forall (fun f => is_u8 (fst f) /\ is_bytes (snd f)) fs -> is_bytes (frames fs).
Proof.
  induction 1 as [|[q p] fs [Hq Hp] Hfs IH]; [constructor|]. rewrite frames_cons.
  apply is_bytes_app. split; [|done]. unfold frame. apply is_bytes_app. split; [apply le_bytes_is_bytes|].
  by constructor.
Qed.

Lemma stream_new_chunked b : stream (pr_new (Chunked [b])) = b.
Proof. unfold stream, pr_new, unread. cbn [pr_bytes pr_remaining pr_r]. cbn. by rewrite app_nil_r. Qed.

Lemma two_frame_conn_ok : conn_ok (S (length two_frames)) two_frame_conn.
Proof.
  assert (is_bytes two_frames) as Hb.
  { apply is_bytes_frames. constructor; [split; [done|exact is_bytes_full_frame]|]. by repeat constructor. }
  unfold two_frame_conn. generalize dependent two_frames. intros b Hb.
  constructor; cbn [client_reader backend_reader client_writer backend_writer pw_buf pw_seq];
    [..|reflexivity|reflexivity|done|done]; (split; [by vm_compute|]).
  - split; [constructor|]. cbn. lia.
  - rewrite stream_new_chunked. split; [done|lia].
Qed.

Lemma to_client_multi_frame_witness :
  exists s', to_client (H3 := true) (S (length two_frames)) true two_frame_conn
             = (Ok (MkPacket (concat [full_frame] ++ [7])), s') /\
    pw_sent (client_writer s') = pw_sent (client_writer two_frame_conn)
      ++ frames (number (1 + len [full_frame]) ([full_frame] ++ [[7]])).
Proof.
  destruct (to_client_multi_frame (Pr := true)
    (S (length two_frames)) [full_frame] 1 [7] true two_frame_conn []) as (s' & E1 & _ & E2).
  - constructor; [exact full_frame_len|constructor].
  - done.
  - done.
  - done.
  - exact two_frame_conn_ok.
  - change (backend_reader two_frame_conn) with (pr_new (Chunked [two_frames])).
    rewrite stream_new_chunked, app_nil_r. reflexivity.
  - exists s'. split; [exact E1|exact E2].
Defined.
