(* ===== verification/Responses.v ===== *)
(** * What a backend answers, and that the forwarders relay it exactly

    The grammar of the responses to commands, as the MySQL protocol documentation gives it, in
    packets of one frame; and the theorem that each forwarder relays such a response to the
    client unchanged and stops exactly at its end. *)
From S2P Require Import Prelude External Reference Constants Packet PacketWriter PacketReader Utf8 Basic Writers Forwarder.

(** ** The grammar *)

Section grammar.
Context `{MysqlFlags} `{MysqlPackets} `{Winnow}.
Variable caps : Z.

Definition deprecate_eof : bool := contains caps CLIENT_DEPRECATE_EOF.
Definition more (flags : Z) : bool := contains flags SERVER_MORE_RESULTS_EXISTS.

(** The first byte is none of [hs]. *)
Definition starts_not (hs : list Z) (p : bytes) : Prop := exists b t, p = b :: t /\ (b ∉ hs).

Definition err_packet (p : bytes) : Prop := (exists t, p = 0xff :: t) /\ err_packet_parses caps p = true.

(** An EOF packet: a warning count and the status flags. *)
Definition eof_packet (p : bytes) (flags : Z) : Prop :=
  exists w, 0 <= w < U16 /\ 0 <= flags < U16 /\ p = [0xfe] ++ le_bytes 2 w ++ le_bytes 2 flags.

(** An OK packet with the given header that carries [flags]. *)
Definition ok_with (h : Z) (p : bytes) (flags : Z) : Prop :=
  (exists t, p = h :: t) /\ exists i ok, ok_packet p caps = Ok (i, ok) /\ status_flags ok = flags.

(** Definitions or rows, up to what ends them: an error, an EOF packet, or, for a client that
    deprecates EOF packets, an OK packet with the EOF header (at least seven bytes long). *)
Inductive rows_end : list (Z * bytes) -> Z -> Prop :=
  | Row f fs v : pkt_ok f -> starts_not [0xff; 0xfe] (snd f) -> rows_end fs v -> rows_end (f :: fs) v
  | RowsErr f : pkt_ok f -> err_packet (snd f) -> rows_end [f] 0
  | RowsEof f flags : pkt_ok f -> deprecate_eof = false -> eof_packet (snd f) flags ->
      rows_end [f] (from_bits_truncate STATUS_ALL flags)
  | RowsOk f flags : pkt_ok f -> deprecate_eof = true -> ok_with 0xfe (snd f) flags ->
      7 <= len (snd f) -> rows_end [f] flags.

(** Column definitions up to their EOF packet. *)
Inductive columns_end : list (Z * bytes) -> Z -> Prop :=
  | Col f fs v : pkt_ok f -> starts_not [0xfe] (snd f) -> columns_end fs v -> columns_end (f :: fs) v
  | ColsEof f flags : pkt_ok f -> eof_packet (snd f) flags -> columns_end [f] flags.

(** Whether the server opened a cursor, so that no rows follow. *)
Definition cursor (flags : Z) : bool :=
  match from_bits STATUS_ALL flags with
  | Some s => contains s SERVER_STATUS_CURSOR_EXISTS
  | None => false
  end.

Inductive result_body : list (Z * bytes) -> Z -> Prop :=
  | BodyNoEof fs v : deprecate_eof = true -> rows_end fs v -> result_body fs v
  | BodyCursor fs flags : deprecate_eof = false -> columns_end fs flags -> cursor flags = true ->
      result_body fs flags
  | BodyRows fs gs flags v : deprecate_eof = false -> columns_end fs flags -> cursor flags = false ->
      rows_end gs v -> result_body (fs ++ gs) v.

(** The response to a query: OK packets and result sets for as long as more results are
    announced, or an error. *)
Inductive query_response : list (Z * bytes) -> Prop :=
  | QErr f : pkt_ok f -> err_packet (snd f) -> query_response [f]
  | QOk f flags : pkt_ok f -> ok_with 0x00 (snd f) flags -> more flags = false -> query_response [f]
  | QOkMore f flags fs : pkt_ok f -> ok_with 0x00 (snd f) flags -> more flags = true ->
      query_response fs -> query_response (f :: fs)
  | QSet f fs flags : pkt_ok f -> starts_not [0x00; 0xff; 0xfb] (snd f) -> result_body fs flags ->
      more flags = false -> query_response (f :: fs)
  | QSetMore f fs flags gs : pkt_ok f -> starts_not [0x00; 0xff; 0xfb] (snd f) ->
      result_body fs flags -> more flags = true -> query_response gs -> query_response (f :: fs ++ gs).

(** The response to a prepare: an error, or an OK packet with the numbers of columns and
    parameters, and that many definitions, each group closed by an EOF packet. *)
Definition prepare_count (columns params : Z) : Z :=
  columns + params +
  (if deprecate_eof then 0 else (if 0 <? columns then 1 else 0) + (if 0 <? params then 1 else 0)).

Inductive prepare_response : list (Z * bytes) -> Prop :=
  | PErr f : pkt_ok f -> err_packet (snd f) -> prepare_response [f]
  | POk f fs id columns params t : pkt_ok f -> Forall pkt_ok fs ->
      0 <= columns < U16 -> 0 <= params < U16 ->
      snd f = [0x00] ++ le_bytes 4 id ++ le_bytes 2 columns ++ le_bytes 2 params ++ t ->
      prepare_count columns params < U16 -> len fs = prepare_count columns params ->
      prepare_response (f :: fs).

End grammar.

(** ** Classification of packets *)

Lemma first_is_not h hs p : starts_not hs p -> In (header_u8 h) hs -> first_is h (MkPacket p) = false.
Proof.
  intros (b & t & -> & Hb) Hin. unfold first_is. cbn [payload]. apply Z.eqb_neq. intros ->.
  by apply Hb, list_elem_of_In.
Qed.

Section transparent.
Context {R W BR BW : Type} {Rops : AsyncRead R} {RS : ReadStream R} {Wops : AsyncWrite W}
  {WS : WriteStream W} {WR : ReliableWrite W} {BRops : AsyncRead BR} {BRS : ReadStream BR}
  {BWops : AsyncWrite BW} {BWS : WriteStream BW} {BWR : ReliableWrite BW}.
Context {Pr : Profile} {Wn : Winnow} {WL : WinnowLaws Wn} {I : MysqlIo} {IL : MysqlIoLaws I}
  {F : MysqlFlags} {FL : MysqlFlagsLaws F} {MP : MysqlPackets}.
Context (rf : nat) (h : HandshakeResponse).

Let caps := client_flag h.
Abbreviation conn := (Conn R W BR BW).

Lemma row_class p : starts_not [0xff; 0xfe] p ->
  is_err_packet (MkPacket p) = false /\ is_eof_packet (MkPacket p) = false /\
  is_result_set_eof_packet (MkPacket p) = false.
Proof.
  intros Hp. unfold is_err_packet, is_eof_packet, is_result_set_eof_packet.
  rewrite !(first_is_not _ _ _ Hp) by (simpl; tauto). done.
Qed.

Lemma eof_class p flags : eof_packet p flags ->
  is_err_packet (MkPacket p) = false /\ is_eof_packet (MkPacket p) = true /\
  unwrap_parse (eof_server_status p) = Ok (from_bits_truncate STATUS_ALL flags) /\
  u16_at 3 (MkPacket p) = Ok flags.
Proof.
  intros (w & Hw & Hf & ->). split; [done|].
  assert (len ([0xfe] ++ le_bytes 2 w ++ le_bytes 2 flags) = 5) as Hl by (rewrite !len_app, !len_le_bytes; done).
  assert (zdrop 3 ([0xfe] ++ le_bytes 2 w ++ le_bytes 2 flags) = le_bytes 2 flags) as Hd.
  { rewrite app_assoc. apply zdrop_app. by rewrite len_app, len_le_bytes. }
  split; [unfold is_eof_packet; cbn [payload]; by rewrite Hl|]. split.
  - unfold eof_server_status. rewrite Hl, Hd. cbn [Z.ltb].
    pose proof (le_u16_bytes flags [] Hf) as E. rewrite app_nil_r in E. change (5 <? 3) with false.
    cbv iota. by rewrite E.
  - unfold u16_at. cbn [payload]. rewrite Hl, Hd, read_u16_law, len_le_bytes. cbv iota beta.
    change (3 <=? 5) with true. change (2 <=? Z.of_nat 2) with true. cbv iota. cbn [unwrap_option].
    by rewrite ztake_all, le_value_bytes by (done || by rewrite len_le_bytes).
Qed.

Lemma parse_err_ok p : err_packet caps p -> passes (W := W) (BW := BW) rf [] (parse_err_packet (R := R) (BR := BR) caps (MkPacket p)) tt.
Proof. intros [_ Hp]. unfold parse_err_packet. cbn [payload]. rewrite Hp. apply passes_ret. Qed.

Lemma err_class p : err_packet caps p -> is_err_packet (MkPacket p) = true /\ is_ok_packet (MkPacket p) = false.
Proof. by intros [[t ->] _]. Qed.

Lemma ok_parse hd p flags : ok_with caps hd p flags ->
  exists ok, unwrap_parse (ok_packet p caps) = Ok ok /\ status_flags ok = flags.
Proof. intros (_ & i & ok & E & Hf). exists ok. unfold unwrap_parse. by rewrite E. Qed.

(** ** The query forwarder *)

Lemma rows_transparent fs v : rows_end caps fs v -> forall fuel, (length fs <= fuel)%nat ->
  passes (R := R) (W := W) (BR := BR) (BW := BW) rf fs (forward_until_result_end rf fuel h) v.
Proof.
  induction 1 as [f fs v Hf Hs Hr IH|f Hf He|f flags Hf Hd He|f flags Hf Hd Ho Hl]; intros [|fuel] Hfu;
    try (simpl in Hfu; lia); cbn [forward_until_result_end]; (apply passes_step; [done|]); cbv beta zeta.
  - destruct (row_class _ Hs) as (-> & -> & ->). 
    destruct (negb _); apply IH; simpl in Hfu; lia.
  - destruct (err_class _ He) as [-> _]. eapply passes_pure; [by apply parse_err_ok|].
    eapply passes_pure; [apply passes_flush|apply passes_ret].
  - destruct (eof_class _ _ He) as (-> & -> & E & _). fold caps. unfold deprecate_eof in Hd. rewrite Hd. cbn [negb].
    eapply passes_pure; [apply passes_flush|]. by apply passes_lift.
  - destruct (ok_parse _ _ _ Ho) as (ok & E & <-). destruct Ho as [[t Et] _]. fold caps. unfold deprecate_eof in Hd.
    rewrite Hd. cbn [negb]. destruct f as [q p]. cbn [snd] in *. destruct Hf as [_ [_ Hlt]].
    assert (is_err_packet (MkPacket p) = false) as -> by (by rewrite Et).
    assert (is_result_set_eof_packet (MkPacket p) = true) as ->.
    { unfold is_result_set_eof_packet. cbn [payload snd] in *. unfold MAX_PAYLOAD_LEN in Hlt.
      rewrite Et in *. cbn [first_is payload header_u8]. unfold first_is. cbn [payload header_u8]. by zbool. }
    eapply passes_pure; [by apply passes_lift|]. eapply passes_pure; [apply passes_flush|apply passes_ret].
Qed.

Lemma columns_transparent fs flags : columns_end fs flags -> forall fuel, (length fs <= fuel)%nat ->
  exists p, passes (R := R) (W := W) (BR := BR) (BW := BW) rf fs (forward_until_eof rf fuel) p /\
            u16_at 3 p = Ok flags.
Proof.
  induction 1 as [f fs v Hf Hs Hr IH|f flags Hf He]; intros [|fuel] Hfu; try (simpl in Hfu; lia).
  - destruct (IH fuel) as (p & Hp & Hu); [simpl in Hfu; lia|]. exists p. split; [|done].
    cbn [forward_until_eof]. apply passes_step; [done|].
    unfold is_eof_packet. by rewrite (first_is_not _ _ _ Hs) by (simpl; tauto).
  - destruct (eof_class _ _ He) as (_ & E & _ & Hu). exists (MkPacket (snd f)). split; [|done].
    cbn [forward_until_eof]. apply passes_step; [done|]. rewrite E. apply passes_ret.
Qed.

Lemma result_transparent fs v : result_body caps fs v -> forall fuel, (length fs <= fuel)%nat ->
  passes (R := R) (W := W) (BR := BR) (BW := BW) rf fs (forward_result rf fuel h) v.
Proof.
  intros [gs w Hd Hr|gs flags Hd Hc Hcur|gs ks flags w Hd Hc Hcur Hr] fuel Hf;
    unfold forward_result; unfold deprecate_eof in Hd; fold caps; rewrite Hd; cbn [negb].
  - eapply passes_pure; [apply passes_ret|]. cbv iota beta. by apply rows_transparent.
  - destruct (columns_transparent _ _ Hc fuel Hf) as (p & Hp & Hu).
    eapply (passes_tail _ _ _ _ (Some flags)); [|apply passes_ret].
    eapply passes_tail; [exact Hp|]. eapply passes_pure; [by apply passes_lift|].
    unfold cursor in Hcur. rewrite from_bits_law in *. destruct (Z.land flags STATUS_ALL =? flags); [|done].
    rewrite Hcur. eapply passes_pure; [apply passes_flush|apply passes_ret].
  - rewrite length_app in Hf.
    destruct (columns_transparent _ _ Hc fuel) as (p & Hp & Hu); [lia|].
    eapply (passes_bind _ _ _ _ _ None); [|apply rows_transparent; [done|lia]].
    eapply passes_tail; [exact Hp|]. eapply passes_pure; [by apply passes_lift|].
    unfold cursor in Hcur. destruct (from_bits STATUS_ALL flags); [rewrite Hcur|]; apply passes_ret.
Qed.

Lemma header_class p : starts_not [0x00; 0xff; 0xfb] p ->
  is_ok_packet (MkPacket p) = false /\ is_err_packet (MkPacket p) = false /\
  is_local_in_file_packet (MkPacket p) = false.
Proof.
  intros Hp. unfold is_ok_packet, is_err_packet, is_local_in_file_packet.
  rewrite !(first_is_not _ _ _ Hp) by (simpl; tauto). done.
Qed.

Lemma query_passes fs : query_response caps fs -> forall fuel, (length fs <= fuel)%nat ->
  passes (R := R) (W := W) (BR := BR) (BW := BW) rf fs (forward_query rf fuel h) tt.
Proof.
  induction 1 as [f Hf He|f flags Hf Ho Hm|f flags fs Hf Ho Hm Hq IH|f fs flags Hf Hs Hb Hm|f fs flags gs Hf Hs Hb Hm Hq IH];
    intros [|fuel] Hfu; try (simpl in Hfu; lia); cbn [forward_query]; (apply passes_step; [done|]); cbv beta zeta.
  - destruct (err_class _ He) as [-> ->]. eapply passes_pure.
    { eapply passes_pure; [by apply parse_err_ok|]. eapply passes_pure; [apply passes_flush|apply passes_ret]. }
    apply passes_ret.
  - destruct (ok_parse _ _ _ Ho) as (ok & E & <-). destruct Ho as [[t Et] _].
    assert (is_ok_packet (MkPacket (snd f)) = true) as -> by (by rewrite Et).
    eapply passes_pure; [eapply passes_pure; [apply passes_flush|]; eapply passes_pure; [by apply passes_lift|apply passes_ret]|].
    unfold more in Hm. cbv beta iota. rewrite Hm. apply passes_ret.
  - destruct (ok_parse _ _ _ Ho) as (ok & E & <-). destruct Ho as [[t Et] _].
    assert (is_ok_packet (MkPacket (snd f)) = true) as -> by (by rewrite Et).
    eapply passes_pure; [eapply passes_pure; [apply passes_flush|]; eapply passes_pure; [by apply passes_lift|apply passes_ret]|].
    unfold more in Hm. cbv beta iota. rewrite Hm. apply IH. simpl in Hfu. lia.
  - destruct (header_class _ Hs) as (-> & -> & ->). eapply passes_tail.
    { eapply passes_tail; [apply result_transparent; [exact Hb|simpl in Hfu; lia]|apply passes_ret]. }
    cbv beta iota. unfold more in Hm. rewrite Hm. apply passes_ret.
  - destruct (header_class _ Hs) as (-> & -> & ->). simpl in Hfu. rewrite length_app in Hfu. eapply passes_bind.
    { eapply passes_tail; [apply result_transparent; [exact Hb|lia]|apply passes_ret]. }
    cbv beta iota. unfold more in Hm. rewrite Hm. apply IH. lia.
Qed.

(** ** The prepare forwarder *)

Lemma forward_n_passes fs : Forall pkt_ok fs ->
  passes (R := R) (W := W) (BR := BR) (BW := BW) rf fs (forward_n rf (length fs)) tt.
Proof.
  induction 1 as [|f fs Hf Hfs IH]; [apply passes_ret|]. cbn [length forward_n].
  by apply passes_step.
Qed.

Lemma u16_at_app n a v t : 0 <= v < U16 -> n = len a ->
  u16_at n (MkPacket (a ++ le_bytes 2 v ++ t)) = Ok v.
Proof.
  intros Hv ->. unfold u16_at. cbn [payload]. pose proof (len_nonneg a). pose proof (len_nonneg t).
  rewrite zdrop_app, read_u16_law, !len_app, len_le_bytes by done. zbool. cbn [unwrap_option].
  rewrite ztake_app by (by rewrite len_le_bytes). by rewrite le_value_bytes.
Qed.

Lemma expected_ok columns params : 0 <= columns < U16 -> 0 <= params < U16 ->
  prepare_count caps columns params < U16 ->
  expected_packets columns params (deprecate_eof caps) = Ok (prepare_count caps columns params).
Proof.
  intros Hc Hp Hl. unfold expected_packets, prepare_count in *.
  destruct (deprecate_eof caps), (Z.ltb_spec 0 columns), (Z.ltb_spec 0 params); cbn [negb] in *;
    unfold add_width; zbool; ostep; zbool; ostep; zbool; f_equal; lia.
Qed.

Lemma prepare_passes fs : prepare_response caps fs ->
  passes (R := R) (W := W) (BR := BR) (BW := BW) rf fs (forward_prepare_stmt rf h) None.
Proof.
  intros [f Hf He|f gs id columns params t Hf Hgs Hc Hp Ep Hl Hn]; unfold forward_prepare_stmt;
    (apply passes_step; [done|]); cbv beta zeta.
  - destruct (err_class _ He) as [-> _]. eapply passes_pure; [by apply parse_err_ok|].
    eapply passes_pure; [apply passes_flush|apply passes_ret].
  - assert (is_err_packet (MkPacket (snd f)) = false) as -> by (by rewrite Ep).
    assert (is_ok_packet (MkPacket (snd f)) = true) as -> by (by rewrite Ep).
    eapply passes_pure; [apply passes_lift; rewrite Ep, app_assoc; apply u16_at_app; [done|by rewrite len_app, len_le_bytes]|].
    eapply passes_pure; [apply passes_lift; rewrite Ep, 2!app_assoc; apply u16_at_app; [done|by rewrite !len_app, !len_le_bytes]|].
    fold caps. change (contains caps CLIENT_DEPRECATE_EOF) with (deprecate_eof caps).
    eapply passes_pure; [apply passes_lift; by apply expected_ok|].
    replace (Z.to_nat (prepare_count caps columns params)) with (length gs) by (unfold len in Hn; lia).
    eapply passes_tail; [by apply forward_n_passes|]. eapply passes_pure; [apply passes_flush|apply passes_ret].
Qed.

End transparent.
