(* ===== verification/Server.v ===== *)
(** * The command phase of a connection ([server/haentgl_server.rs])

    [on_com] reads commands from the client, picks a forwarder for each, writes the command to
    the backend and runs the forwarder, until [COM_QUIT].  The class [RelayingForwarder] is what
    a forwarder promises the server: it relays every response of its grammar exactly; the
    theorem on whole sessions uses nothing else of the forwarders. *)
From S2P Require Import Prelude External Reference Constants Packet PacketWriter PacketReader Utf8 Basic Writers Forwarder Responses.

(** ** Definitions *)

(** [Box<dyn ComForwarder>]: the forwarders [on_com] builds. *)
Inductive AnyForwarder : Type :=
  | AnyStmtPrepare (f : StmtPrepareForwarder)
  | AnyQuery (f : QueryForwarder)
  | AnyResetConn (f : ResetConnForwarder)
  | AnyChangeUser (f : ChangeUserForwarder)
  | AnyGeneric (f : GenericComForwarder).

Definition choose_forwarder (com_code : CommandCode) (client_packet : Packet) : AnyForwarder :=
  match com_code with
  | ComStmtPrepare | ComStmtClose => AnyStmtPrepare (MkStmtPrepare com_code client_packet)
  | ComQuery | ComStmtExecute | ComProcessInfo | ComFieldList | ComStmtFetch => AnyQuery (MkQuery com_code)
  | ComQuit => AnyResetConn MkResetConn
  | ComChangeUser => AnyChangeUser MkChangeUser
  | _ => AnyGeneric MkGeneric
  end.

Section on_com.
Context {R W BR BW : Type} `{AsyncRead R} `{AsyncWrite W} `{AsyncRead BR} `{AsyncWrite BW}.
Context `{Profile} `{Winnow} `{MysqlIo} `{MysqlFlags} `{MysqlPackets}.

Abbreviation conn := (Conn R W BR BW).

#[export] Instance any_forward : ComForwarder R W BR BW AnyForwarder :=
  fun f => match f with
           | AnyStmtPrepare f => forward f
           | AnyQuery f => forward f
           | AnyResetConn f => forward f
           | AnyChangeUser f => forward f
           | AnyGeneric f => forward f
           end.

(** The loop of [on_com]; [rf] and [ff] are the fuels of the reads and of the forwarders.  The
    latency labels are looked up, and unwrapped; [Latency] has the loop with what it measures. *)
Fixpoint on_com_loop (rf ff fuel : nat) (h : HandshakeResponse) : M conn unit :=
  match fuel with
  | O => lift OutOfFuel
  | S fuel =>
      pkt_opt ← on_client_reader (next_async rf);
      match pkt_opt with
      | None => throw InvalidData
      | Some (seq, client_packet) =>
          recv_com_code ← lift (unwrap_option (head (payload client_packet)));
          com_code ← lift (unwrap_option (command_from_u8 recv_com_code));
          let com_forwarder := choose_forwarder com_code client_packet in
          _ ← write_to_backend seq com_code h client_packet;
          _ ← lift (unwrap_option (all_sql_com !! recv_com_code));
          _ ← forward com_forwarder rf ff h;
          if decide (com_code = ComQuit) then mret tt else on_com_loop rf ff fuel h
      end
  end.

Definition on_com (rf ff fuel : nat) (h : HandshakeResponse) : M conn unit :=
  _ ← on_backend_writer reset_seq;
  on_com_loop rf ff fuel h.

End on_com.

(** ** The interface between the server and a forwarder *)

Section interface.
Context (R W BR BW : Type) {Rops : AsyncRead R} {RS : ReadStream R} {Wops : AsyncWrite W}
  {WS : WriteStream W} {WR : ReliableWrite W} {BRops : AsyncRead BR} {BRS : ReadStream BR}
  {BWops : AsyncWrite BW} {BWS : WriteStream BW} {BWR : ReliableWrite BW}.

(** [responses f h fs]: the packets [fs] are a complete response for [f]; the forwarder relays
    exactly them, whatever follows. *)
Class RelayingForwarder (F : Type) {FO : ComForwarder R W BR BW F} : Type := {
  responses : F -> HandshakeResponse -> list (Z * bytes) -> Prop;
  forward_relays : forall f h fs rf fuel, responses f h fs -> (length fs <= fuel)%nat ->
    exists a, passes rf fs (forward f rf fuel h) a;
}.

End interface.
Arguments responses {R W BR BW _ _ _ _ _ _ _ _ F FO _} _ _ _.

Section instances.
Context {R W BR BW : Type} {Rops : AsyncRead R} {RS : ReadStream R} {Wops : AsyncWrite W}
  {WS : WriteStream W} {WR : ReliableWrite W} {BRops : AsyncRead BR} {BRS : ReadStream BR}
  {BWops : AsyncWrite BW} {BWS : WriteStream BW} {BWR : ReliableWrite BW}.
Context {Pr : Profile} {Wn : Winnow} {WL : WinnowLaws Wn} {I : MysqlIo} {IL : MysqlIoLaws I}
  {F : MysqlFlags} {FL : MysqlFlagsLaws F} {MP : MysqlPackets}.

#[export] Instance generic_relays : RelayingForwarder R W BR BW GenericComForwarder.
Proof.
  refine {| responses := fun _ _ fs => exists f, fs = [f] /\ pkt_ok f |}.
  intros g h fs rf fuel (f & -> & Hf) _. eexists. apply passes_step; [done|apply passes_ret].
Defined.

#[export] Instance query_relays : RelayingForwarder R W BR BW QueryForwarder.
Proof.
  refine {| responses := fun f h fs =>
    match qf_com_code f with
    | ComQuery | ComStmtExecute | ComProcessInfo => query_response (client_flag h) fs
    | ComFieldList | ComStmtFetch => exists v, rows_end (client_flag h) fs v
    | _ => False
    end |}.
  intros [c] h fs rf fuel Hr Hf. exists None. unfold forward, query_forward. cbn [qf_com_code] in *.
  destruct c; try done; try (destruct Hr as [v Hr]);
    (eapply passes_tail; [|apply passes_ret]); by apply query_passes || by eapply rows_transparent.
Defined.

#[export] Instance stmt_prepare_relays : RelayingForwarder R W BR BW StmtPrepareForwarder.
Proof.
  refine {| responses := fun f h fs =>
    match sf_com_code f with
    | ComStmtPrepare => prepare_response (client_flag h) fs
    | ComStmtClose => fs = [] /\ 5 <= len (payload (sf_request f))
    | _ => False
    end |}.
  intros [c p] h fs rf fuel Hr Hf. exists None. unfold forward, stmt_prepare_forward.
  cbn [sf_com_code sf_request] in *. destruct c; try done.
  - by apply prepare_passes.
  - destruct Hr as [-> Hl]. unfold forward_close_stmt. zbool.
    eapply passes_pure; [|apply passes_ret]. apply passes_lift.
    rewrite read_u32_law, len_ztake, len_zdrop by lia. zbool. done.
Defined.

End instances.

(** ** Sessions *)

(** One command of a session: its sequence number, code and arguments, and the packets of the
    backend's response. *)
Record exchange : Type := MkExchange {
  x_seq : Z; x_com : CommandCode; x_args : bytes; x_response : list (Z * bytes) }.

Definition request (x : exchange) : Z * bytes := (x_seq x, command_u8 (x_com x) :: x_args x).

(** The number [COM_RESET_CONNECTION] is sent with: one more than the last command's. *)
Definition reset_number (n : Z) (xs : list exchange) : Z :=
  match last xs with Some x => (x_seq x + 1) mod U8 | None => n end.

Definition reset_payload : bytes := [command_u8 ComResetConnection] ++ le_bytes 4 CONN_ID.

Section session.
Context {R W BR BW : Type} {Rops : AsyncRead R} {RS : ReadStream R} {Wops : AsyncWrite W}
  {WS : WriteStream W} {WR : ReliableWrite W} {BRops : AsyncRead BR} {BRS : ReadStream BR}
  {BWops : AsyncWrite BW} {BWS : WriteStream BW} {BWR : ReliableWrite BW}.
Context {Pr : Profile} {Wn : Winnow} {WL : WinnowLaws Wn} {I : MysqlIo} {IL : MysqlIoLaws I}
  {F : MysqlFlags} {FL : MysqlFlagsLaws F} {MP : MysqlPackets}.
Context (h : HandshakeResponse) (rf ff : nat).

Abbreviation conn := (Conn R W BR BW).

(** The response is one for the forwarder the server picks ([COM_QUIT] ends a session, and
    [COM_CHANGE_USER] is a dialogue, so neither is an exchange). *)
Definition answers (f : AnyForwarder) (fs : list (Z * bytes)) : Prop :=
  match f with
  | AnyStmtPrepare f => responses (RelayingForwarder := stmt_prepare_relays (R := R) (W := W) (BR := BR) (BW := BW)) f h fs
  | AnyQuery f => responses (RelayingForwarder := query_relays (R := R) (W := W) (BR := BR) (BW := BW)) f h fs
  | AnyGeneric f => responses (RelayingForwarder := generic_relays (R := R) (W := W) (BR := BR) (BW := BW)) f h fs
  | AnyResetConn _ | AnyChangeUser _ => False
  end.

Definition exchange_ok (x : exchange) : Prop :=
  pkt_ok (request x) /\
  answers (choose_forwarder (x_com x) (MkPacket (snd (request x)))) (x_response x) /\
  (length (x_response x) <= ff)%nat.

Lemma answers_relayed f fs : answers f fs -> (length fs <= ff)%nat ->
  exists a, passes (R := R) (W := W) (BR := BR) (BW := BW) rf fs (forward f rf ff h) a.
Proof.
  destruct f as [f|f|f|f|f]; try done; intros Hr Hf; exact (forward_relays _ _ _ _ f h fs rf ff Hr Hf).
Qed.

(** An ordinary command goes to the backend unchanged. *)
Lemma relays_command n q c p f fs : fits p -> 0 <= q < U8 -> choose_forwarder c f = fs ->
  (exists rs, answers fs rs) ->
  relays (R := R) (W := W) (BR := BR) (BW := BW) rf n [] [] [] (frame q p) ((q + 1) mod U8) (write_to_backend q c h (MkPacket p)) tt.
Proof.
  intros Hf Hq Hc [rs Hr]. unfold write_to_backend.
  assert ((match c with ComQuit => mret None
           | ComChangeUser => p0 ← lift (rewrite_change_user h (MkPacket p)); mret (Some p0)
           | _ => mret (Some (MkPacket p)) end : M conn (option Packet)) = mret (Some (MkPacket p))) as ->
    by (subst fs; by destruct c).
  eapply relays_pure; [apply relays_ret|]. cbn [payload].
  eapply relays_conv; [apply (relays_send_backend rf n q p [] [] [] []); [done..|apply relays_flush_backend]|done..|].
  by rewrite app_nil_r.
Qed.

Lemma sends_reset : sends (W := BW) [] [reset_payload] write_reset_connection.
Proof.
  unfold write_reset_connection. writes. rewrite write_u32_law by done.
  apply (sends_seq _ [_] []); [|apply sends_flush]. apply sends_end. by vm_compute.
Qed.

Lemma completes_reset : completes (W := BW) write_reset_connection.
Proof. unfold write_reset_connection. auto 20 with completes. Qed.

(** [COM_QUIT] itself is not forwarded: the backend connection is reset for its next user, and
    the answer to the reset is read and dropped. *)
Lemma relays_reset n q2 p2 : 0 <= n < U8 -> fits p2 ->
  relays (R := R) (W := W) (BR := BR) (BW := BW) rf n [] (frame q2 p2) [] (frame n reset_payload) ((n + 1) mod U8)
    (forward (AnyResetConn MkResetConn) rf ff h) None.
Proof.
  intros Hn Hp2. unfold forward, any_forward, forward, reset_conn_forward, forward_reset_conn.
  eapply relays_conv.
  - eapply relays_bind; [apply (relays_sends_backend rf n [reset_payload]); [apply sends_reset|apply completes_reset]|].
    eapply relays_bind; [exact (relays_read_backend rf _ q2 p2 Hp2)|apply relays_ret].
  - done.
  - by rewrite !app_nil_r.
  - done.
  - unfold frames. cbn [number map concat fst snd]. by rewrite !app_nil_r.
Qed.

Lemma relays_quit n q p fuel q2 p2 : 0 <= n < U8 -> fits p2 -> fits (command_u8 ComQuit :: p) ->
  relays (R := R) (W := W) (BR := BR) (BW := BW) rf n (frame q (command_u8 ComQuit :: p)) (frame q2 p2) []
    (frame n reset_payload) ((n + 1) mod U8) (on_com_loop rf ff (S fuel) h) tt.
Proof.
  intros Hn Hp2 Hp. cbn [on_com_loop].
  eapply relays_conv; [eapply relays_bind; [by apply relays_next_client|]| |reflexivity..];
    [|by rewrite app_nil_r].
  cbv beta iota. cbn [payload head unwrap_option]. do 2 (eapply relays_pure; [by apply relays_lift|]).
  change (choose_forwarder ComQuit _) with (AnyResetConn MkResetConn).
  eapply relays_pure; [eapply relays_pure; [apply relays_ret|apply relays_ret]|].
  eapply relays_pure; [by apply relays_lift|].
  eapply relays_conv; [eapply relays_bind; [by apply (relays_reset n q2 p2)|apply relays_ret]|..]; by rewrite ?app_nil_r.
Qed.

Lemma reset_number_cons n x xs : reset_number n (x :: xs) = reset_number ((x_seq x + 1) mod U8) xs.
Proof. unfold reset_number. rewrite last_cons. by destruct (last xs). Qed.

Lemma choose_not_quit x : answers (choose_forwarder (x_com x) (MkPacket (snd (request x)))) (x_response x) ->
  x_com x <> ComQuit.
Proof. intros Ha E. by rewrite E in Ha. Qed.

Lemma relays_session xs : Forall exchange_ok xs -> forall n fuel q p q2 p2,
  (length xs < fuel)%nat -> 0 <= n < U8 -> fits p2 -> fits (command_u8 ComQuit :: p) ->
  relays (R := R) (W := W) (BR := BR) (BW := BW) rf n
    (frames (map request xs) ++ frame q (command_u8 ComQuit :: p))
    (frames (concat (map x_response xs)) ++ frame q2 p2) (frames (concat (map x_response xs)))
    (frames (map request xs) ++ frame (reset_number n xs) reset_payload)
    ((reset_number n xs + 1) mod U8) (on_com_loop rf ff fuel h) tt.
Proof.
  induction 1 as [|x xs (Hx & Ha & Hl) Hxs IH]; intros n fuel q p q2 p2 Hf Hn Hp2 Hp.
  { destruct fuel as [|fuel]; [simpl in Hf; lia|]. by apply relays_quit. }
  destruct fuel as [|fuel]; [simpl in Hf; lia|].
  destruct Hx as [Hq Hfit]. cbn [fst snd request] in Hq, Hfit.
  destruct (answers_relayed _ _ Ha Hl) as (a & Hpass).
  pose proof (choose_not_quit x Ha) as Hnq.
  cbn [on_com_loop map concat]. rewrite frames_cons, frames_app, reset_number_cons.
  eapply relays_conv; [eapply relays_bind; [exact (relays_next_client rf n (x_seq x) _ Hfit)|]|..].
  - cbv beta iota. cbn [payload head unwrap_option].
    eapply relays_pure; [by apply relays_lift|].
    eapply relays_pure; [apply relays_lift; by rewrite command_from_u8_code|].
    eapply relays_bind; [eapply relays_command; [done|done|reflexivity|by eexists]|].
    destruct (all_sql_com_total (x_com x)) as [lbl El]. rewrite El.
    eapply relays_pure; [by apply relays_lift|].
    eapply relays_bind; [apply Hpass|]. rewrite decide_False by done.
    apply (IH _ _ q p q2 p2); [simpl in Hf; lia|by apply Z.mod_pos_bound|done|done].
  - cbn [app]. by rewrite <- app_assoc.
  - cbn [app]. by rewrite <- app_assoc.
  - done.
  - cbn [app]. by rewrite <- app_assoc.
Qed.

Lemma relays_reset_seq n : relays (R := R) (W := W) (BR := BR) (BW := BW) rf n [] [] [] [] 0 (on_backend_writer reset_seq) tt.
Proof.
  intros s crest brest [H1 H2 H3 H4 H5 H6] Hn Hc Hb. eexists. split; [reflexivity|].
  rewrite !app_nil_r. split_and!; try done.
Qed.

Lemma relays_on_com n xs fuel q p q2 p2 : Forall exchange_ok xs -> (length xs < fuel)%nat -> fits p2 ->
  fits (command_u8 ComQuit :: p) ->
  relays (R := R) (W := W) (BR := BR) (BW := BW) rf n
    (frames (map request xs) ++ frame q (command_u8 ComQuit :: p))
    (frames (concat (map x_response xs)) ++ frame q2 p2) (frames (concat (map x_response xs)))
    (frames (map request xs) ++ frame (reset_number 0 xs) reset_payload)
    ((reset_number 0 xs + 1) mod U8) (on_com rf ff fuel h) tt.
Proof.
  intros Hxs Hf Hp2 Hp. eapply relays_conv; [eapply relays_bind; [apply relays_reset_seq|]|..].
  - apply (relays_session xs Hxs 0 fuel q p q2 p2); done.
  - done.
  - done.
  - done.
  - done.
Qed.

(** (C2) A session is relayed exactly.  On a connection without I/O errors, for any sequence of
    commands and complete responses, in packets of one frame and without a change of user, followed
    by [COM_QUIT], the command phase ends normally
    having sent the client exactly the bytes of the responses and the backend exactly the bytes
    of the commands, then [COM_RESET_CONNECTION], numbered one more than the last command and
    not 0 as a new command should be; the answer to the reset is consumed and not relayed.
    Whatever follows on either stream is left unread. *)
Theorem on_com_session xs fuel q p q2 p2 (s : conn) crest brest :
  Forall exchange_ok xs -> (length xs < fuel)%nat -> fits p2 -> fits (command_u8 ComQuit :: p) ->
  conn_ok rf s ->
  stream (client_reader s) = frames (map request xs) ++ frame q (command_u8 ComQuit :: p) ++ crest ->
  stream (backend_reader s) = frames (concat (map x_response xs)) ++ frame q2 p2 ++ brest ->
  exists s', on_com rf ff fuel h s = (Ok tt, s') /\
    stream (client_reader s') = crest /\ stream (backend_reader s') = brest /\
    pw_sent (client_writer s') = pw_sent (client_writer s) ++ frames (concat (map x_response xs)) /\
    pw_sent (backend_writer s')
    = pw_sent (backend_writer s) ++ frames (map request xs) ++ frame (reset_number 0 xs) reset_payload.
Proof.
  intros Hxs Hf Hp2 Hp Hok Hc Hb. rewrite app_assoc in Hc, Hb.
  destruct (relays_on_com (pw_seq (backend_writer s)) xs fuel q p q2 p2 Hxs Hf Hp2 Hp s crest brest Hok eq_refl Hc Hb)
    as (s' & E & _ & _ & ?). by exists s'.
Qed.

(** ** Change user *)

(** The dialogue of a change of user: authentication requests from the backend, each answered
    by the client, then an OK packet. *)
Definition auth_round (x : (Z * bytes) * (Z * bytes)) : Prop :=
  pkt_ok (fst x) /\ pkt_ok (snd x) /\ starts_not [0x00; 0xff] (snd (fst x)) /\
  starts_not [0xff] (snd (snd x)).

Lemma relays_change_user xs f : Forall auth_round xs -> pkt_ok f -> (exists t, snd f = 0x00 :: t) ->
  forall n fuel, (length xs < fuel)%nat -> exists n',
  relays (R := R) (W := W) (BR := BR) (BW := BW) rf n (frames (map snd xs)) (frames (map fst xs ++ [f]))
    (frames (map fst xs ++ [f])) (frames (map snd xs)) n'
    (forward_change_user rf fuel h) (Some (MkPacket (snd f))).
Proof.
  intros Hxs [Hfq Hff] [t Et]. induction Hxs as [|[a b] xs (Ha & Hb & Sa & Sb) Hxs IH]; intros n [|fuel] Hl;
    try (simpl in Hl; lia); cbn [forward_change_user map app].
  - exists n. destruct f as [q p]. cbn [fst snd] in *. rewrite frames_cons. change (frames []) with (@nil Z).
    rewrite app_nil_r. eapply relays_conv; [eapply relays_bind; [by apply relays_to_client|]|reflexivity|..|reflexivity];
      [|by rewrite app_nil_r..].
    rewrite Et. apply relays_ret.
  - destruct a as [qa pa], b as [qb pb]. destruct Ha as [Hqa Hfa], Hb as [Hqb Hfb]. cbn [fst snd] in *.
    destruct (IH ((qb + 1) mod U8) fuel) as (n' & Hr); [simpl in Hl; lia|]. exists n'. rewrite !frames_cons.
    eapply relays_conv; [eapply relays_bind; [exact (relays_to_client rf n qa pa true Hfa Hqa)|]|..].
    + unfold is_err_packet, is_ok_packet. rewrite !(first_is_not _ _ _ Sa) by (simpl; tauto). cbv iota.
      eapply relays_bind; [exact (relays_to_backend rf n qb pb true Hfb Hqb)|].
      unfold is_err_packet. rewrite (first_is_not _ _ _ Sb) by (simpl; tauto). exact Hr.
    + done.
    + done.
    + done.
    + done.
Qed.


(** ** Commands the server does not survive *)

(** The command phase on input it does not handle: a client that disconnects without [COM_QUIT]
    is an [InvalidData] error, with nothing sent to the backend (its connection is not reset);
    a command byte above 32 unwraps [None] and panics. *)
Theorem on_com_rejects fuel (s : conn) : conn_ok rf s ->
  (stream (client_reader s) = [] -> exists s', on_com rf ff (S fuel) h s = (Err InvalidData, s') /\
     pw_sent (backend_writer s') = pw_sent (backend_writer s)) /\
  (forall q c t crest, fits (c :: t) -> 32 < c < 256 ->
     stream (client_reader s) = frame q (c :: t) ++ crest -> (on_com rf ff (S fuel) h s).1 = Panic).
Proof.
  intros Hok. destruct Hok as [H1 H2 H3 H4 H5 H6].
  unfold on_com, on_backend_writer, zoom, reset_seq, set_seq. rewrite run_bind. cbv beta iota delta [modify].
  cbn [on_com_loop]. rewrite run_bind. unfold on_client_reader, zoom.
  cbn [client_reader client_writer backend_reader backend_writer]. split.
  - intros Hs. destruct H1 as (Hr & Hb & Hf).
    pose proof (next_async_spec rf (client_reader s) Hr Hb) as Hn. unfold reads_packet in Hn.
    destruct packet_nil as [k Hk]. rewrite Hs, Hk in Hn.
    destruct Hn as (r' & -> & _); [|by eexists].
    unfold stream in Hf. rewrite length_app in Hf. lia.
  - intros q c t crest Hf Hc Hs. destruct (next_frame rf _ q (c :: t) crest H1 Hs Hf) as (r' & -> & _).
    mstep. cbn [payload head unwrap_option]. mstep.
    enough (command_from_u8 c = None) as -> by done.
    destruct (command_from_u8 c) as [k|] eqn:Ek; [|done].
    apply command_from_u8_sound in Ek. pose proof (command_u8_range k). lia.
Qed.

End session.

(** ** Witnesses *)

(** A session of a query with one row, a ping and a quit, for a client that expects EOF
    packets. *)
Definition sample_handshake : HandshakeResponse :=
  MkHandshakeResponse 512 0 33 None (Some (str "root")) [] [] None None.

Definition eof_2 : bytes := [0xfe] ++ le_bytes 2 0 ++ le_bytes 2 2.

Definition sample_session : list exchange :=
  [MkExchange 0 ComQuery (str "select 1")
     [(1, [1]); (2, [3; 100; 101; 102]); (3, eof_2); (4, [1; 49]); (5, eof_2)];
   MkExchange 0 ComPing [] [(1, [0; 0; 0; 2; 0; 0; 0])]].

Definition client_bytes : bytes := frames (map request sample_session) ++ frame 0 [1] ++ [].
Definition backend_bytes : bytes :=
  frames (concat (map x_response sample_session)) ++ frame 2 [0; 0; 0; 2; 0; 0; 0] ++ [].

(** Everything arrives in two pieces, and every vectored write is cut short. *)
Definition sample_conn : Conn chunked sink chunked sink :=
  MkConn (pr_new (Chunked [ztake 9 client_bytes; zdrop 9 client_bytes])) (MkWriter [] 3 (Sink [] [2; 5] 0))
    (pr_new (Chunked [ztake 21 backend_bytes; zdrop 21 backend_bytes])) (MkWriter [] 7 (Sink [] [1] 0)).

Lemma sample_eof : eof_packet eof_2 2.
Proof. by exists 0. Qed.

Ltac concrete := by (split; [split|split]; vm_compute) || by vm_compute.
Ltac not_first := eexists _, _; split; [reflexivity|by apply (bool_decide_unpack _)].

Lemma sample_exchanges h : contains (client_flag h) CLIENT_DEPRECATE_EOF = false ->
  Forall (exchange_ok (Pr := true) (R := chunked) (W := sink) (BR := chunked) (BW := sink) h 8) sample_session.
Proof.
  intros Hh.
  constructor; [|constructor; [|constructor]]; (split; [concrete|split; [|simpl; lia]]).
  - apply QSet with (flags := from_bits_truncate STATUS_ALL 2); [concrete|not_first| |reflexivity].
    apply (BodyRows _ [_; _] [_; _] 2); [exact Hh| |reflexivity|].
    + apply Col; [concrete|not_first|]. apply ColsEof; [concrete|exact sample_eof].
    + apply Row; [concrete|not_first|]. apply RowsEof; [concrete|exact Hh|exact sample_eof].
  - eexists. split; [reflexivity|concrete].
Qed.

Lemma sample_conn_ok : conn_ok 200 sample_conn.
Proof.
  constructor; try (by vm_compute); (split; [by vm_compute|split; [repeat constructor; by vm_compute|vm_compute; lia]]).
Qed.

Lemma on_com_session_witness : exists s',
  on_com (H3 := true) 200 8 5 sample_handshake sample_conn = (Ok tt, s') /\
  got (inner_writer (client_writer s')) = frames (concat (map x_response sample_session)) /\
  got (inner_writer (backend_writer s')) = frames (map request sample_session) ++ frame 1 reset_payload.
Proof.
  destruct (on_com_session (Pr := true) sample_handshake 200 8 sample_session 5 0 [] 2 [0; 0; 0; 2; 0; 0; 0]
    sample_conn [] []) as (s' & E & _ & _ & Ec & Eb).
  - by apply sample_exchanges.
  - simpl. lia.
  - concrete.
  - concrete.
  - exact sample_conn_ok.
  - reflexivity.
  - reflexivity.
  - exists s'. split; [exact E|]. split; [exact Ec|exact Eb].
Defined.

(** An authentication switch, its answer, and the OK packet. *)
Definition switch_round : (Z * bytes) * (Z * bytes) := ((1, [0xfe; 1; 2]), (2, [5; 6])).

Definition change_user_conn : Conn chunked sink chunked sink :=
  MkConn (pr_new (Chunked [frames (map snd [switch_round]) ++ []])) (MkWriter [] 3 (Sink [] [] 0))
    (pr_new (Chunked [frames (map fst [switch_round] ++ [(3, [0; 0; 0; 2; 0; 0; 0])]) ++ []]))
    (MkWriter [] 7 (Sink [] [] 0)).


Definition unknown_command_conn : Conn chunked sink chunked sink :=
  MkConn (pr_new (Chunked [frame 0 [0x80] ++ []])) (MkWriter [] 0 (Sink [] [] 0))
    (pr_new (Chunked [])) (MkWriter [] 0 (Sink [] [] 0)).

Lemma on_com_rejects_witness :
  (on_com (H3 := true) 100 3 1 sample_handshake unknown_command_conn).1 = Panic.
Proof.
  destruct (on_com_rejects (Pr := true) sample_handshake 100 3 0 unknown_command_conn) as [_ H].
  - constructor; try (by vm_compute); (split; [by vm_compute|split; [repeat constructor; by vm_compute|vm_compute; lia]]).
  - apply (H 0 0x80 [] []); [concrete|lia|reflexivity].
Defined.

(** [COM_STMT_SEND_LONG_DATA] has no response in the protocol, but the server gives it to the
    generic forwarder, for which no response at all is not an answer. *)
Example send_long_data_waits :
  ~ answers (Pr := true) (R := chunked) (W := sink) (BR := chunked) (BW := sink) sample_handshake
      (choose_forwarder ComStmtSendLongData (MkPacket [24])) [].
Proof. by intros (f & E & _). Qed.
