(* ===== verification/Auth.v ===== *)
(** * Authentication ([server/auth/mod.rs], [server/auth/authenticator.rs])

    The hashing helpers and salts, and the three flows of [ProxyAuthenticator]: the initial
    handshake with the client, the first authentication on a backend connection, and the
    authentication of a new client on a pooled connection. *)
From S2P Require Import Prelude External Reference Constants Packet PacketWriter PacketReader Utf8 ErrorCodes Charset Basic Writers Forwarder.

(** ** Salts, hex and digests *)

Definition avoid_separator (b : Z) : Z := if (b =? 0) || (b =? 36) then b + 1 else b.

Definition default_salt : bytes := map avoid_separator (ztake SCRAMBLE_SIZE (str ";X,po_k}>o6^Wz!/kM}N")).

(** [rand] is what [r.gen_range(0..127)] yields, one number per byte of the salt. *)
Definition gen_user_salt (rand : nat -> Z) : bytes :=
  map (fun i => avoid_separator (rand i)) (seq 0 (Z.to_nat SCRAMBLE_SIZE)).

Definition val (c : Z) : outcome io_error Z :=
  if (65 <=? c) && (c <=? 70) then Ok (c - 65 + 10)
  else if (97 <=? c) && (c <=? 102) then Ok (c - 97 + 10)
  else if (48 <=? c) && (c <=? 57) then Ok (c - 48)
  else Err InvalidData.

(** [chunks(2)] of an even number of bytes, each pair decoded, up to the first error. *)
Fixpoint decode_pairs (data : bytes) : outcome io_error bytes :=
  match data with
  | a :: b :: t => h ← val a; l ← val b; r ← decode_pairs t; Ok (Z.lor (Z.shiftl h 4) l :: r)
  | _ => Ok []
  end.

Definition hex_string_decode (data : bytes) : outcome io_error bytes :=
  if negb (len data mod 2 =? 0) then Err InvalidData else decode_pairs data.

Section digests.
Context `{Digests}.

(** [copy_from_slice] panics unless the lengths agree. *)
Definition to_u8_32 (b : bytes) : outcome io_error bytes := if len b =? 32 then Ok b else Panic.

Definition sha256_1 (b : bytes) : outcome io_error bytes := to_u8_32 (sha256_digest b).
Definition sha256_2 (b1 b2 : bytes) : outcome io_error bytes := to_u8_32 (sha256_digest (b1 ++ b2)).
Definition sha1_1 (b : bytes) : bytes := sha1_digest b.
Definition sha1_2 (b1 b2 : bytes) : bytes := sha1_digest (b1 ++ b2).

(** [left] with the bytes of [right] xored in, as far as they go. *)
Fixpoint xor (lhs rhs : bytes) : bytes :=
  match lhs, rhs with
  | l :: ls, r :: rs => Z.lxor l r :: xor ls rs
  | _, _ => lhs
  end.

End digests.

(** ** The flows *)

Definition AUTH_SWITCH_REQUEST : Z := 0xfe.

(** [server/mod.rs] *)
Definition DEFAULT_BACKEND_VERSION : bytes := str "11.1.2-MariaDB-1:11.1.2+maria~ubu2204".

Section authenticator.
Context {R W BR BW : Type} `{AsyncRead R} `{AsyncWrite W} `{AsyncRead BR} `{AsyncWrite BW}.
Context `{Profile} `{Winnow} `{MysqlIo} `{MysqlFlags} `{MysqlPackets}.

Abbreviation conn := (Conn R W BR BW).

Variable rf : nat.

(** A payload, as one packet, flushed; with a sequence number of its own. *)
Definition client_send (seq : Z) (p : bytes) : M conn unit :=
  _ ← on_client_writer (set_seq seq);
  _ ← on_client_writer (pw_write p);
  _ ← on_client_writer end_packet;
  on_client_writer flush_all.

Definition backend_write (p : bytes) : M conn unit :=
  _ ← on_backend_writer (pw_write p);
  _ ← on_backend_writer end_packet;
  on_backend_writer flush_all.

Definition backend_send (seq : Z) (p : bytes) : M conn unit :=
  _ ← on_backend_writer (set_seq seq);
  backend_write p.

(** The backend's verdict, once relayed. *)
Definition auth_verdict (p : bytes) : M conn unit :=
  first ← lift (unwrap_option (head p));
  if first =? header_u8 ErrHeader then
    if err_packet_parses default_capabilities p then
      _ ← lift (unwrap_option (from_utf8 (err_packet_message default_capabilities p)));
      throw PermissionDenied
    else panic
  else mret tt.

Definition process_auth_switch_plugin (client_seq : Z) : M conn unit :=
  '(be_seq, pkt) ← on_backend_reader (async_packet_read rf);
  first ← lift (unwrap_option (head (payload pkt)));
  _ ← (if first =? AUTH_SWITCH_REQUEST then mret tt else panic);
  seq ← lift (add_width U8 client_seq 1);
  _ ← client_send seq (payload pkt);
  '(_, auth_response) ← on_client_reader (async_packet_read rf);
  seq ← lift (add_width U8 be_seq 1);
  _ ← backend_send seq (payload auth_response);
  '(l_seq, be_auth_pkt) ← on_backend_reader (async_packet_read rf);
  _ ← client_send l_seq (payload be_auth_pkt);
  auth_verdict (payload be_auth_pkt).

(** The client's response with the plugin replaced by an unknown one, so that the backend asks
    the client to authenticate against its own scramble. *)
Definition reset_handshake_plugin (packet : bytes) (h : HandshakeResponse) : outcome io_error bytes :=
  match hr_deserialize packet with
  | Some pkt =>
      Ok (hr_serialize (hr_new (Some (hr_scramble_buf pkt)) (8, 0, 36) (username h) (hr_db_name pkt)
            (Some (plugin_as_ref UnKnowPluginName)) (hr_capabilities pkt) (hr_connect_attributes pkt)
            (max_packet_len h)))
  | None => Err InvalidData
  end.

(** The [COM_CHANGE_USER] a pooled connection is taken over with. *)
Definition change_user_data (h : HandshakeResponse) : bytes :=
  com_change_user_serialize
    (with_more_data (change_user_more_data UTF8_MB4_GENERAL_CI (plugin_as_ref UnKnowPluginName))
      (with_database (database h) (with_user (username h) com_change_user_new))).

Definition continue_auth (client_seq : Z) (h : HandshakeResponse) : M conn unit :=
  _ ← backend_write (change_user_data h);
  process_auth_switch_plugin client_seq.

Definition reply_handshake_response (client_seq : Z) (packet_bytes : bytes) (h : HandshakeResponse)
  : M conn unit :=
  _ ← on_backend_reader (async_packet_read rf);
  new_packet ← lift (reset_handshake_plugin packet_bytes h);
  _ ← backend_send client_seq new_packet;
  process_auth_switch_plugin client_seq.

End authenticator.

(** ** The initial handshake, with the client alone *)

(** The reader and the writer [initial_handshake] is handed. *)
Record Client (R W : Type) : Type := MkClient {
  handshake_reader : PacketReader R;
  handshake_writer : PacketWriter W;
}.
Arguments MkClient {R W} _ _.
Arguments handshake_reader {R W} _.
Arguments handshake_writer {R W} _.

Section handshake_flow.
Context {R W : Type} `{AsyncRead R} `{AsyncWrite W} `{Profile} `{Winnow} `{MysqlIo} `{MysqlFlags}.

Definition on_reader {A} : M (PacketReader R) A -> M (Client R W) A :=
  zoom handshake_reader (fun r s => MkClient r (handshake_writer s)).
Definition on_writer {A} : M (PacketWriter W) A -> M (Client R W) A :=
  zoom handshake_writer (fun w s => MkClient (handshake_reader s) w).

(** [tls] says whether a TLS configuration is present and [env] is [PROXY_ENV_SYNC_ROUTER]. *)
Definition initial_handshake (rf : nat) (conn_id : Z) (scramble : bytes) (tls : bool) (env : option bytes)
  : M (Client R W) (Z * HandshakeResponse * Packet) :=
  _ ← on_writer (write_initial_handshake conn_id scramble DEFAULT_BACKEND_VERSION tls);
  o ← on_reader (next_async rf);
  match o with
  | Some (seq, pkt) =>
      '(_, h) ← lift (unwrap (client_handshake_response (payload pkt) false));
      mret (seq, change_tenant_if_need env h, pkt)
  | None =>
      _ ← on_writer (write_err_packet ER_ACCESS_DENIED_ERROR (str "peer terminated connection"));
      throw PermissionDenied
  end.

End handshake_flow.

(** ** The trait *)

(** What a server asks of an authenticator [A], for all streams [R], [W] of the client and [BR],
    [BW] of the backend.  The fuel of the reads and the environment are the process's. *)
Class Authenticator (R W BR BW A : Type) : Type := {
  auth_continue : A -> nat -> Z -> HandshakeResponse -> M (Conn R W BR BW) unit;
  auth_initial_handshake :
    A -> nat -> Z -> bytes -> bool -> option bytes -> M (Client R W) (Z * HandshakeResponse * Packet);
  auth_reply : A -> nat -> Z -> bytes -> HandshakeResponse -> M (Conn R W BR BW) unit;
}.

(** The authenticator of the proxy has no state. *)
Inductive ProxyAuthenticator : Type := MkProxyAuthenticator.

#[export] Instance proxy_authenticator {R W BR BW : Type} `{AsyncRead R} `{AsyncWrite W} `{AsyncRead BR} `{AsyncWrite BW}
  `{Profile} `{Winnow} `{MysqlIo} `{MysqlFlags} `{MysqlPackets} : Authenticator R W BR BW ProxyAuthenticator := {|
  auth_continue := fun _ => continue_auth;
  auth_initial_handshake := fun _ => initial_handshake;
  auth_reply := fun _ => reply_handshake_response;
|}.

(** ** Salts and hex *)

(** The salt sent to a client: twenty ASCII bytes without NUL and without the separator [$],
    whatever the random numbers. *)
Theorem gen_user_salt_ok rand : (forall i, 0 <= rand i < 127) ->
  len (gen_user_salt rand) = SCRAMBLE_SIZE /\
  Forall (fun b => 0 < b < 128 /\ b <> 36) (gen_user_salt rand).
Proof.
  intros Hr. unfold gen_user_salt. split; [by vm_compute|].
  apply Forall_map, Forall_true. intros i. specialize (Hr i). unfold avoid_separator.
  destruct (Z.eqb_spec (rand i) 0), (Z.eqb_spec (rand i) 36); cbn [orb]; lia.
Qed.

Lemma gen_user_salt_ok_witness : len (gen_user_salt (fun i => Z.of_nat i mod 127)) = SCRAMBLE_SIZE.
Proof.
  apply (gen_user_salt_ok (fun i => Z.of_nat i mod 127)). intros i. by apply Z.mod_pos_bound.
Defined.

Lemma val_digit n : 0 <= n < 16 -> val (hex_digit n) = Ok n.
Proof.
  intros. unfold hex_digit, val. destruct (Z.ltb_spec n 10); zbool; f_equal; lia.
Qed.

Lemma decode_pairs_encode b : is_bytes b -> decode_pairs (hex_encode_ref b) = Ok b.
Proof.
  induction 1 as [|x t Hx Ht IH]; [done|]. cbn [hex_encode_ref decode_pairs].
  destruct (nibbles x Hx) as [H1 H2]. rewrite !val_digit, IH by done. ostep. repeat f_equal.
  change 16 with (2 ^ 4). rewrite <- Z.shiftr_div_pow2, <- Z.land_ones by lia.
  rewrite <- Z.ldiff_ones_r by lia. apply Z.lor_ldiff_and.
Qed.

Lemma decode_pairs_invalid data : Exists (fun c => val c = Err InvalidData) data ->
  len data mod 2 = 0 -> decode_pairs data = Err InvalidData.
Proof.
  remember (length data) as n eqn:En. revert data En. induction (lt_wf n) as [n _ IH]; intros data ->.
  destruct data as [|a [|b t]]; intros He Hl; [by apply Exists_nil in He|by vm_compute in Hl|].
  assert (forall c, (exists v, val c = Ok v) \/ val c = Err InvalidData) as Hv.
  { intros c. unfold val. repeat case_match; eauto. }
  cbn [decode_pairs]. destruct (Hv a) as [[va Ea]|Ea]; rewrite Ea; ostep; [|done].
  destruct (Hv b) as [[vb Eb]|Eb]; rewrite Eb; ostep; [|done].
  apply Exists_cons in He as [He|[He|He]%Exists_cons]; [congruence..|].
  rewrite (IH (length t)); [done|simpl; lia|done|done|].
  rewrite !len_cons in Hl. replace (1 + (1 + len t)) with (len t + 1 * 2) in Hl by lia.
  by rewrite Z.mod_add in Hl by lia.
Qed.

(** [hex_string_decode] inverts hex encoding, and reports an odd length or a character that is
    not a hex digit as invalid data. *)
Theorem hex_string_decode_correct :
  (forall b, is_bytes b -> hex_string_decode (hex_encode_ref b) = Ok b) /\
  (forall data, len data mod 2 <> 0 \/ Exists (fun c => val c = Err InvalidData) data ->
    hex_string_decode data = Err InvalidData).
Proof.
  split.
  - intros b Hb. unfold hex_string_decode.
    assert (len (hex_encode_ref b) = 2 * len b) as -> by apply (hex_encode_len (X := hex_ref)).
    rewrite Z.mul_comm, Z.mod_mul by lia.
    by apply decode_pairs_encode.
  - intros data Hd. unfold hex_string_decode. destruct (Z.eqb_spec (len data mod 2) 0); [|done].
    destruct Hd as [Hd|Hd]; [done|]. by apply decode_pairs_invalid.
Qed.

(** ** The flows, on a connection without I/O errors *)

Section flows.
Context {R W BR BW : Type} {Rops : AsyncRead R} {RS : ReadStream R} {Wops : AsyncWrite W}
  {WS : WriteStream W} {WR : ReliableWrite W} {BRops : AsyncRead BR} {BRS : ReadStream BR}
  {BWops : AsyncWrite BW} {BWS : WriteStream BW} {BWR : ReliableWrite BW}.
Context {Pr : Profile} {Wn : Winnow} {WL : WinnowLaws Wn} {I : MysqlIo} {IL : MysqlIoLaws I}
  {F : MysqlFlags} {FL : MysqlFlagsLaws F} {MP : MysqlPackets}.
Context (rf : nat).

Abbreviation conn := (Conn R W BR BW).

Lemma relays_client_send n q p : fits p -> 0 <= q < U8 ->
  relays (R := R) (W := W) (BR := BR) (BW := BW) rf n [] [] (frame q p) [] n (client_send q p) tt.
Proof.
  intros Hf Hq. eapply relays_conv; [apply (relays_send_client rf n q p [] [] [] [] n); [done..|apply relays_flush_client]|done..| |done].
  by rewrite app_nil_r.
Qed.

Lemma relays_backend_write n p : fits p -> 0 <= n < U8 ->
  relays (R := R) (W := W) (BR := BR) (BW := BW) rf n [] [] [] (frame n p) ((n + 1) mod U8) (backend_write p) tt.
Proof.
  intros Hf Hn. eapply relays_conv; [apply (relays_write_backend rf n p [] [] [] []); [done..|apply relays_flush_backend]|done..|].
  by rewrite app_nil_r.
Qed.

Lemma relays_backend_send n q p : fits p -> 0 <= q < U8 ->
  relays (R := R) (W := W) (BR := BR) (BW := BW) rf n [] [] [] (frame q p) ((q + 1) mod U8) (backend_send q p) tt.
Proof.
  intros Hf Hq. eapply relays_conv; [apply (relays_send_backend rf n q p [] [] [] []); [done..|apply relays_flush_backend]|done..|].
  by rewrite app_nil_r.
Qed.

(** What is made of a verdict: an error packet whose message is text is a refusal, any other
    packet is an acceptance. *)
Definition verdict (fin : bytes) (r : io_error + unit) : Prop :=
  match r with
  | inr _ => exists b t, fin = b :: t /\ b <> header_u8 ErrHeader
  | inl e => (exists t, fin = header_u8 ErrHeader :: t) /\ err_packet_parses default_capabilities fin = true /\
             is_Some (from_utf8 (err_packet_message default_capabilities fin)) /\ e = PermissionDenied
  end.

Lemma relays_verdict n fin r : verdict fin r ->
  relays (R := R) (W := W) (BR := BR) (BW := BW) rf n [] [] [] [] n (attempt (auth_verdict fin)) r.
Proof.
  intros Hv s crest brest Hok Hn Hc Hb. exists s. rewrite !app_nil_r. unfold attempt, auth_verdict.
  split; [|done]. destruct r as [e|[]]; cbn [verdict] in Hv.
  - destruct Hv as ([t ->] & Hp & [m Hm] & ->). cbn [head unwrap_option]. mstep.
    rewrite Z.eqb_refl, Hp. mstep. rewrite Hm. done.
  - destruct Hv as (b & t & -> & Hb'). cbn [head unwrap_option]. mstep. by rewrite (proj2 (Z.eqb_neq _ _) Hb').
Qed.

(** The authentication switch: the backend's request [sw], numbered [bs], the client's answer
    [resp] and the backend's verdict [fin], numbered [ls]. *)
Lemma relays_switch n client_seq bs sw cq resp ls fin r :
  fits (AUTH_SWITCH_REQUEST :: sw) -> fits resp -> fits fin -> 0 <= ls < U8 ->
  0 <= client_seq < 255 -> 0 <= bs < 255 -> verdict fin r ->
  relays (R := R) (W := W) (BR := BR) (BW := BW) rf n
    (frame cq resp) (frame bs (AUTH_SWITCH_REQUEST :: sw) ++ frame ls fin)
    (frame (client_seq + 1) (AUTH_SWITCH_REQUEST :: sw) ++ frame ls fin) (frame (bs + 1) resp)
    ((bs + 1 + 1) mod U8) (attempt (process_auth_switch_plugin rf client_seq)) r.
Proof.
  intros Hsw Hr Hfin Hls Hcs Hbs Hv. unfold process_auth_switch_plugin.
  eapply relays_conv; [eapply relays_attempt_bind; [exact (relays_read_backend rf n bs _ Hsw)|]|..].
  - cbv beta iota. cbn [payload head unwrap_option].
    eapply relays_attempt_bind; [by apply relays_lift|]. rewrite Z.eqb_refl.
    eapply relays_attempt_bind; [apply relays_ret|].
    eapply relays_attempt_bind; [apply relays_lift, add_width_fits; unfold U8; lia|].
    eapply relays_attempt_bind; [apply relays_client_send; [done|unfold U8; lia]|].
    eapply relays_attempt_bind; [exact (relays_read_client rf n cq resp Hr)|]. cbv beta iota.
    eapply relays_attempt_bind; [apply relays_lift, add_width_fits; unfold U8; lia|]. cbn [payload].
    eapply relays_attempt_bind; [apply (relays_backend_send n (bs + 1) resp); [done|unfold U8; lia]|].
    eapply relays_attempt_bind; [exact (relays_read_backend rf _ ls _ Hfin)|]. cbv beta iota. cbn [payload].
    eapply relays_attempt_bind; [by apply relays_client_send|]. by apply relays_verdict.
  - cbn [app]. by rewrite !app_nil_r.
  - cbn [app]. by rewrite !app_nil_r.
  - cbn [app]. by rewrite !app_nil_r.
  - cbn [app]. by rewrite !app_nil_r.
Qed.

Lemma relays_reply n client_seq pkt h new q0 g sw cq resp fin r :
  0 <= client_seq < 253 -> reset_handshake_plugin pkt h = Ok new -> fits new -> fits g ->
  fits (AUTH_SWITCH_REQUEST :: sw) -> fits resp -> fits fin -> verdict fin r ->
  relays (R := R) (W := W) (BR := BR) (BW := BW) rf n (frame cq resp)
    (frame q0 g ++ frame (client_seq + 1) (AUTH_SWITCH_REQUEST :: sw) ++ frame (client_seq + 3) fin)
    (frame (client_seq + 1) (AUTH_SWITCH_REQUEST :: sw) ++ frame (client_seq + 3) fin)
    (frame client_seq new ++ frame (client_seq + 1 + 1) resp) ((client_seq + 1 + 1 + 1) mod U8)
    (attempt (reply_handshake_response rf client_seq pkt h)) r.
Proof.
  intros Hcs Hnew Fn Fg Fsw Fr Ff Hfin. unfold reply_handshake_response.
  eapply relays_conv; [eapply relays_attempt_bind; [exact (relays_read_backend rf _ q0 g Fg)|]|reflexivity..].
  eapply relays_conv; [eapply relays_attempt_bind; [by apply relays_lift|]|reflexivity..].
  eapply relays_conv; [eapply relays_attempt_bind; [apply relays_backend_send; [done|unfold U8; lia]|]|reflexivity..].
  apply relays_switch; try done; unfold U8; lia.
Qed.

Lemma relays_continue client_seq h sw cq resp fin r : 0 <= client_seq < 255 ->
  fits (change_user_data h) -> fits (AUTH_SWITCH_REQUEST :: sw) -> fits resp -> fits fin -> verdict fin r ->
  relays (R := R) (W := W) (BR := BR) (BW := BW) rf 0 (frame cq resp)
    (frame 1 (AUTH_SWITCH_REQUEST :: sw) ++ frame 3 fin)
    (frame (client_seq + 1) (AUTH_SWITCH_REQUEST :: sw) ++ frame 3 fin)
    (frame 0 (change_user_data h) ++ frame (1 + 1) resp) ((1 + 1 + 1) mod U8)
    (attempt (continue_auth rf client_seq h)) r.
Proof.
  intros Hcs Fd Fsw Fr Ff Hfin. unfold continue_auth.
  eapply relays_conv; [eapply relays_attempt_bind; [by apply relays_backend_write|]|reflexivity..].
  apply relays_switch; try done; lia.
Qed.

(** (C22) First authentication on a backend connection: the backend's greeting is consumed, its
    response is the client's with the unknown plugin, and the authentication switch, the
    client's answer and the verdict are relayed.  When the backend numbers its packets as the
    protocol asks, the client also sees consecutive numbers. *)
Theorem reply_handshake_relayed client_seq pkt h new q0 g sw cq resp fin (s : conn) crest brest :
  conn_ok rf s -> 0 <= client_seq < 253 ->
  reset_handshake_plugin pkt h = Ok new -> fits new -> fits g ->
  fits (AUTH_SWITCH_REQUEST :: sw) -> fits resp -> fits fin ->
  (exists b t, fin = b :: t /\ b <> header_u8 ErrHeader) ->
  stream (client_reader s) = frame cq resp ++ crest ->
  stream (backend_reader s) = frame q0 g ++ frame (client_seq + 1) (AUTH_SWITCH_REQUEST :: sw) ++
                              frame (client_seq + 3) fin ++ brest ->
  exists s', reply_handshake_response rf client_seq pkt h s = (Ok tt, s') /\
    stream (client_reader s') = crest /\ stream (backend_reader s') = brest /\
    pw_sent (client_writer s') = pw_sent (client_writer s) ++
      frame (client_seq + 1) (AUTH_SWITCH_REQUEST :: sw) ++ frame (client_seq + 3) fin /\
    pw_sent (backend_writer s') = pw_sent (backend_writer s) ++
      frame client_seq new ++ frame (client_seq + 2) resp.
Proof.
  intros Hok Hcs Hnew Fn Fg Fsw Fr Ff Hfin Hc Hb.
  pose proof (relays_reply (pw_seq (backend_writer s)) client_seq pkt h new q0 g sw cq resp fin (inr tt) Hcs Hnew Fn Fg Fsw Fr Ff Hfin) as Hr%relays_attempt_ok.
  rewrite 2!app_assoc, <- (app_assoc (frame q0 g)) in Hb.
  destruct (Hr s crest brest Hok eq_refl Hc Hb) as (s' & E & _ & _ & E1 & E2 & E3 & E4).
  exists s'. replace (client_seq + 2) with (client_seq + 1 + 1) by lia. done.
Qed.

(** (C23) A new client on a pooled connection: the backend is sent [COM_CHANGE_USER] (numbered 0,
    since the server resets the number first), and the authentication switch, the client's
    answer and the verdict are relayed.  The switch is numbered after the client's handshake
    response but the verdict keeps the backend's number, 3, where the client expects
    [client_seq + 3]. *)
Theorem continue_auth_relayed client_seq h sw cq resp fin (s : conn) crest brest :
  conn_ok rf s -> pw_seq (backend_writer s) = 0 -> 0 <= client_seq < 255 ->
  fits (change_user_data h) -> fits (AUTH_SWITCH_REQUEST :: sw) -> fits resp -> fits fin ->
  (exists b t, fin = b :: t /\ b <> header_u8 ErrHeader) ->
  stream (client_reader s) = frame cq resp ++ crest ->
  stream (backend_reader s) = frame 1 (AUTH_SWITCH_REQUEST :: sw) ++ frame 3 fin ++ brest ->
  exists s', continue_auth rf client_seq h s = (Ok tt, s') /\
    stream (client_reader s') = crest /\ stream (backend_reader s') = brest /\
    pw_sent (client_writer s') = pw_sent (client_writer s) ++
      frame (client_seq + 1) (AUTH_SWITCH_REQUEST :: sw) ++ frame 3 fin /\
    pw_sent (backend_writer s') = pw_sent (backend_writer s) ++
      frame 0 (change_user_data h) ++ frame 2 resp.
Proof.
  intros Hok Hn Hcs Fd Fsw Fr Ff Hfin Hc Hb. rewrite app_assoc in Hb.
  pose proof (relays_continue client_seq h sw cq resp fin (inr tt) Hcs Fd Fsw Fr Ff Hfin) as Hr%relays_attempt_ok.
  destruct (Hr s crest brest Hok Hn Hc Hb) as (s' & E & _ & _ & ?). by exists s'.
Qed.

(** Any other first answer of the backend (an error packet, or an OK packet) fails the
    assertion on the authentication switch: the task panics and nothing reaches the client. *)
Lemma switch_panics client_seq q b t (s : conn) brest : conn_ok rf s ->
  fits (b :: t) -> b <> AUTH_SWITCH_REQUEST -> stream (backend_reader s) = frame q (b :: t) ++ brest ->
  exists s', process_auth_switch_plugin rf client_seq s = (Panic, s') /\ client_writer s' = client_writer s /\
    backend_writer s' = backend_writer s /\ stream (backend_reader s') = brest /\ source_ok rf (backend_reader s').
Proof.
  intros Hok Hf Hb Hs. destruct Hok as [_ H2 _ _ _ _].
  destruct (read_frame rf _ q (b :: t) brest H2 Hs Hf) as (r' & E & Hr & Sr).
  unfold process_auth_switch_plugin, on_backend_reader, zoom. rewrite run_bind, E.
  mstep. cbn [payload head unwrap_option]. mstep. rewrite (proj2 (Z.eqb_neq _ _) Hb). mrun. by eexists.
Qed.

Lemma greeting_fits conn_id scramble tls : len scramble = 20 ->
  fits (handshake_payload conn_id scramble DEFAULT_BACKEND_VERSION tls).
Proof.
  intros Hs. unfold fits, handshake_payload, MAX_PAYLOAD_LEN.
  rewrite !len_app, !len_le_bytes, !len_ztake, !len_zdrop, len_le_bytes by lia. rewrite len_replicate.
  change (len (str "mysql_native_password")) with 21. change (len DEFAULT_BACKEND_VERSION) with 37.
  rewrite !len_cons. change (len (@nil Z)) with 0. lia.
Qed.

End flows.

Section handshake_props.
Context {R W : Type} {Rops : AsyncRead R} {RS : ReadStream R} {Wops : AsyncWrite W}
  {WS : WriteStream W} {WR : ReliableWrite W}.
Context {Pr : Profile} {Wn : Winnow} {WL : WinnowLaws Wn} {I : MysqlIo} {IL : MysqlIoLaws I}
  {F : MysqlFlags} {FL : MysqlFlagsLaws F}.
Context (rf : nat).

(** A client ready for the handshake. *)
Record client_ok (s : Client R W) : Prop := {
  handshake_source : source_ok rf (handshake_reader s);
  handshake_buf : pw_buf (handshake_writer s) = [];
  handshake_seq : 0 <= pw_seq (handshake_writer s) < U8;
}.

(** The greeting goes out, then the response is read. *)
Lemma initial_handshake_read conn_id scramble tls env q p (s : Client R W) crest :
  client_ok s -> 0 <= conn_id -> len scramble = 20 -> fits p ->
  stream (handshake_reader s) = frame q p ++ crest ->
  exists s', initial_handshake rf conn_id scramble tls env s
             = match client_handshake_response p false with
               | Ok (_, h) => (Ok (q, change_tenant_if_need env h, MkPacket p), s')
               | Err _ | Panic => (Panic, s')
               | OutOfFuel => (OutOfFuel, s')
               end /\ source_ok rf (handshake_reader s') /\ stream (handshake_reader s') = crest /\
    pw_sent (handshake_writer s') = pw_sent (handshake_writer s) ++
      frame (pw_seq (handshake_writer s)) (handshake_payload conn_id scramble DEFAULT_BACKEND_VERSION tls).
Proof.
  intros [Hr Hb Hq] Hid Hsc Hf Hc.
  destruct (completes_handshake conn_id scramble DEFAULT_BACKEND_VERSION tls (handshake_writer s)) as (w & E).
  destruct (sends_handshake _ _ _ _ Hid (greeting_fits _ _ _ Hsc) _ _ Hb Hq E) as (Es & _ & _).
  destruct (next_frame rf _ q p crest Hr Hc Hf) as (r & Er & Hr' & Sr').
  exists (MkClient r w). unfold initial_handshake, on_writer, on_reader, zoom. rewrite run_bind, E, run_bind.
  cbn [handshake_reader handshake_writer]. rewrite Er. split.
  - mstep. cbn [payload]. destruct (client_handshake_response p false) as [[i h]| | |]; reflexivity.
  - split; [done|]. split; [done|]. rewrite Es. unfold frames. cbn [number map concat fst snd].
    by rewrite app_nil_r.
Qed.

(** (C24) The initial handshake: the client is sent the greeting with the whole scramble; from any
    well-formed response the proxy gets the user, the tenant split off when it routes by
    tenant, and the rest of the response.  A response with the SSL capability, which the
    greeting announces when TLS is configured, ends the handshake with no user at all (TLS is
    never started), and one the parser refuses, such as that of an anonymous user, panics. *)
Theorem initial_handshake_cases conn_id scramble tls env q r p (s : Client R W) crest :
  client_ok s -> 0 <= conn_id -> len scramble = 20 -> fits p -> head_ok r ->
  stream (handshake_reader s) = frame q p ++ crest ->
  (p = encode_response41 r -> response41_ok r -> contains (r_caps r) CLIENT_SSL = false ->
   exists s', initial_handshake rf conn_id scramble tls env s
              = (Ok (q, change_tenant_if_need env (response_of r), MkPacket p), s') /\
     stream (handshake_reader s') = crest /\
     pw_sent (handshake_writer s') = pw_sent (handshake_writer s) ++
       frame (pw_seq (handshake_writer s)) (handshake_payload conn_id scramble DEFAULT_BACKEND_VERSION tls)) /\
  (forall i, p = response_head r ++ i -> contains (r_caps r) CLIENT_SSL = true ->
   exists s' h, initial_handshake rf conn_id scramble tls env s = (Ok (q, h, MkPacket p), s') /\
     username h = None) /\
  (forall i, p = response_head r ++ 0 :: i -> contains (r_caps r) CLIENT_SSL = false ->
   (initial_handshake rf conn_id scramble tls env s).1 = Panic).
Proof.
  intros Hok Hid Hsc Hf Hh Hc.
  destruct (initial_handshake_read conn_id scramble tls env q p s crest Hok Hid Hsc Hf Hc)
    as (s' & E & _ & Hc' & Hs'). rewrite E. split; [|split].
  - intros -> Hr Hssl. exists s'. pose proof (parse_response r [] false Hr (or_intror Hssl)) as Ep.
    rewrite app_nil_r in Ep. by rewrite Ep.
  - intros i -> Hssl. exists s'. eexists. rewrite parse_ssl_request by done. split; [reflexivity|].
    unfold change_tenant_if_need. cbn [username]. by destruct (bool_decide _).
  - intros i -> Hssl. destruct (parse_empty_user r i false Hh (or_intror Hssl)) as [k ->]. done.
Qed.

End handshake_props.

(** ** The flows at work: scripted connections *)

Definition scripted (from_client from_backend : bytes) (client_seq backend_seq : Z) : Conn chunked sink chunked sink :=
  MkConn (pr_new (Chunked [from_client])) (MkWriter [] client_seq (Sink [] [] 0))
    (pr_new (Chunked [from_backend])) (MkWriter [] backend_seq (Sink [] [] 0)).

Ltac scripted_ok :=
  constructor; try (by vm_compute); (split; [by vm_compute|split; [repeat constructor; by vm_compute|vm_compute; lia]]).

(** The server's OK packet. *)
Definition ok_reply : bytes := [0; 0; 0; 2; 0; 0; 0].

(** What the backend is sent for [sample_response]. *)
Definition sample_reset : bytes :=
  match reset_handshake_plugin (encode_response41 sample_response) (response_of sample_response) with
  | Ok b => b
  | _ => []
  end.

Lemma reply_handshake_relayed_witness : exists s',
  reply_handshake_response (H3 := true) 100 1 (encode_response41 sample_response) (response_of sample_response)
    (scripted (frame 3 [7; 8]) (frame 0 [10; 53] ++ frame 2 [0xfe; 1; 2] ++ frame 4 ok_reply) 2 0) = (Ok tt, s') /\
  got (inner_writer (client_writer s')) = frame 2 [0xfe; 1; 2] ++ frame 4 ok_reply.
Proof.
  destruct (reply_handshake_relayed (Pr := true) 100 1 (encode_response41 sample_response) (response_of sample_response)
    sample_reset 0 [10; 53] [1; 2] 3 [7; 8] ok_reply
    (scripted (frame 3 [7; 8]) (frame 0 [10; 53] ++ frame 2 [0xfe; 1; 2] ++ frame 4 ok_reply) 2 0) [] [])
    as (s' & E & _ & _ & Ec & _).
  - scripted_ok.
  - lia.
  - vm_compute. reflexivity.
  - by vm_compute.
  - by vm_compute.
  - by vm_compute.
  - by vm_compute.
  - by vm_compute.
  - exists 0, [0; 0; 2; 0; 0; 0]. split; [done|by vm_compute].
  - reflexivity.
  - reflexivity.
  - exists s'. split; [exact E|exact Ec].
Defined.

Lemma continue_auth_relayed_witness : exists s',
  continue_auth (H3 := true) 100 1 (response_of sample_response)
    (scripted (frame 3 [7; 8]) (frame 1 [0xfe; 1; 2] ++ frame 3 ok_reply) 2 0) = (Ok tt, s') /\
  got (inner_writer (client_writer s')) = frame 2 [0xfe; 1; 2] ++ frame 3 ok_reply.
Proof.
  destruct (continue_auth_relayed (Pr := true) 100 1 (response_of sample_response) [1; 2] 3 [7; 8] ok_reply
    (scripted (frame 3 [7; 8]) (frame 1 [0xfe; 1; 2] ++ frame 3 ok_reply) 2 0) [] [])
    as (s' & E & _ & _ & Ec & _).
  - scripted_ok.
  - reflexivity.
  - lia.
  - by vm_compute.
  - by vm_compute.
  - by vm_compute.
  - by vm_compute.
  - exists 0, [0; 0; 2; 0; 0; 0]. split; [done|by vm_compute].
  - reflexivity.
  - reflexivity.
  - exists s'. split; [exact E|exact Ec].
Defined.

Definition greeted (from_client : bytes) : Client chunked sink :=
  MkClient (pr_new (Chunked [from_client])) (pw_new (Sink [] [] 0)).

Lemma initial_handshake_cases_witness : exists s',
  initial_handshake (H1 := true) 100 7 default_salt false (Some (str "true"))
    (greeted (frame 1 (encode_response41 sample_response)))
  = (Ok (1, change_tenant_if_need (Some (str "true")) (response_of sample_response),
         MkPacket (encode_response41 sample_response)), s') /\
  got (inner_writer (handshake_writer s')) = frame 0 (handshake_payload 7 default_salt DEFAULT_BACKEND_VERSION false).
Proof.
  destruct (initial_handshake_cases (Pr := true) 100 7 default_salt false (Some (str "true")) 1 sample_response
    (encode_response41 sample_response) (greeted (frame 1 (encode_response41 sample_response))) [])
    as (H & _).
  - constructor; try (by vm_compute). split; [by vm_compute|split; [repeat constructor; by vm_compute|vm_compute; lia]].
  - lia.
  - by vm_compute.
  - by vm_compute.
  - by vm_compute.
  - reflexivity.
  - destruct H as (s' & E & _ & Es); [reflexivity|exact sample_response_ok|by vm_compute|].
    exists s'. split; [exact E|exact Es].
Defined.
