(* ===== verification/StaticProxy.v ===== *)
(** * The static proxy ([server/static_proxy.rs], [server/cmd_handler.rs])

    A server without backends: it greets the client, lets a [CmdHandler] (a class here)
    authenticate it, and hands every command to the handler or answers it itself.  The state of
    a session is its two packet streams, the reader being one that reads through the reader of
    the handshake, and the handler. *)
From S2P Require Import Prelude External Reference Constants Packet PacketWriter PacketReader NestedReader Utf8 Text ErrorCodes Basic Writers Forwarder Auth.

(** ** Definitions *)

(** The trait: authentication sees the credentials, the commands their argument and the writer of
    the session. *)
Class CmdHandler (H W : Type) : Type := {
  handler_auth : bytes -> bytes -> bytes -> bytes -> M H bool;
  on_init : bytes -> M (PacketWriter W * H) unit;
  on_prepare : bytes -> M (PacketWriter W * H) unit;
  on_query : bytes -> M (PacketWriter W * H) unit;
  on_execute : bytes -> M (PacketWriter W * H) unit;
}.

(** [client_handshake_err!] *)
Definition client_handshake_err (e : err_mode) : io_error :=
  match e with
  | Incomplete => UnexpectedEof
  | Backtrack KEof | Cut KEof => UnexpectedEof
  | Backtrack KOther | Cut KOther => InvalidData
  end.

(** [OkPacket::default()] with the header of the caller. *)
Definition ok_with_header (h : Z) : OkPacket := MkOkPacket h 0 0 0 0 [] [].

(** A byte string, the way [{:?}] prints a [Vec<u8>]. *)
Fixpoint debug_items (l : bytes) : bytes :=
  match l with
  | [] => []
  | [b] => decimal b
  | b :: l => decimal b ++ str ", " ++ debug_items l
  end.

Definition auth_failed_err (username : bytes) : bytes :=
  str "Authenticate failed, user [" ++ debug_items username ++ str "], auth_plugin: " ++
  [34] ++ plugin_as_ref AuthNativePassword ++ [34].

Section static_proxy.
Context {R W Hd : Type} `{AsyncRead R} `{AsyncWrite W} `{CmdHandler Hd W}.
Context `{Profile} `{Winnow} `{MysqlIo} `{MysqlFlags}.

(** The fuel of the reads, and whether the feature [tls] is enabled (the default). *)
Variable rf : nat.
Variable tls_feature : bool.

(** The writer and the handler of a session: what the commands work on. *)
Abbreviation out := (PacketWriter W * Hd)%type.

Definition on_out_writer {A} : M (PacketWriter W) A -> M out A := zoom fst (fun w s => (w, snd s)).
Definition on_handler {A} : M Hd A -> M out A := zoom snd (fun h s => (fst s, h)).

Record Session : Type := MkSession {
  session_reader : PacketReader (PacketReader R);
  session_out : out;
}.

Definition on_session_reader {A} : M (PacketReader (PacketReader R)) A -> M Session A :=
  zoom session_reader (fun r s => MkSession r (session_out s)).
Definition on_session_out {A} : M out A -> M Session A :=
  zoom session_out (fun o s => MkSession (session_reader s) o).

(** The body of the loop of [on_cmd]; [false] is the [break]. *)
Definition handle_packet (client_flags : Z) (pkt : Z * bytes) : M out bool :=
  let ok_packet h := on_out_writer (write_ok_packet_with_client_flags client_flags (ok_with_header h)) in
  let '(seq, packet) := pkt in
  q ← lift (add_width U8 seq 1);
  _ ← on_out_writer (set_seq q);
  match from_packet packet with
  | Ok (_, Query q) => _ ← on_query q; mret true
  | Ok (_, Prepare prepare) => _ ← on_prepare prepare; mret true
  | Ok (_, Execute _ params) => _ ← on_execute params; mret true
  | Ok (_, SendLongData _ _ _) => mret true
  | Ok (_, Close _) => _ ← ok_packet 0; mret true
  | Ok (_, ListFields _) => _ ← ok_packet 0xfe; mret true
  | Ok (_, Init schema) => _ ← on_init schema; mret true
  | Ok (_, Ping) => _ ← ok_packet 0; mret true
  | Ok (_, Quit) => mret false
  | Err _ => _ ← ok_packet 0; mret true
  | Panic => panic
  | OutOfFuel => lift OutOfFuel
  end.

Fixpoint on_cmd (fuel : nat) (client_flags : Z) : M Session unit :=
  match fuel with
  | O => lift OutOfFuel
  | S fuel =>
      o ← on_session_reader (next_async rf);
      match o with
      | None => mret tt
      | Some (seq, packet) =>
          go ← on_session_out (handle_packet client_flags (seq, payload packet));
          if (go : bool) then on_cmd fuel client_flags else mret tt
      end
  end.

Definition static_initial_handshake (conn_id : Z) : M (Client R W) (bool * (HandshakeResponse * Z * Z)) :=
  _ ← on_writer (write_initial_handshake conn_id default_salt DEFAULT_BACKEND_VERSION false);
  o ← on_reader (next_async rf);
  match o with
  | None => throw ConnectionAborted
  | Some (seq, handshake_pkt) =>
      '(_, h) ← lift (map_err client_handshake_err (client_handshake_response (payload handshake_pkt) false));
      q ← lift (add_width U8 seq 1);
      _ ← on_writer (set_seq q);
      let ssl := contains (client_flag h) CLIENT_SSL in
      if negb tls_feature && ssl then throw InvalidData
      else mret (tls_feature && ssl, (h, seq, default_capabilities))
  end.

(** [auth_pkt_reader!], whose error at end-of-file is [ConnectionAborted]. *)
Definition auth_pkt_reader : M Session (Z * bytes) :=
  '(seq, pkt) ← on_session_reader (async_packet_read rf);
  mret (seq, payload pkt).

(** The second response of a client that asked for TLS. *)
Definition second_response (h : HandshakeResponse) (seq : Z) : M Session (HandshakeResponse * Z) :=
  if tls_feature && contains (client_flag h) CLIENT_SSL then
    '(r_seq, pkt) ← auth_pkt_reader;
    '(_, h) ← lift (map_err client_handshake_err (client_handshake_response pkt true));
    q ← lift (add_width U8 r_seq 1);
    _ ← on_session_out (on_out_writer (set_seq q));
    mret (h, r_seq)
  else mret (h, seq).

Definition desired_plugin : bytes := plugin_as_ref AuthNativePassword.

(** The authentication switch: the data and the sequence number to go on with. *)
Definition switch_plugin (h : HandshakeResponse) (seq : Z) : M Session (bytes * Z) :=
  if negb (bool_decide (desired_plugin = [])) && bool_decide (auth_response h = []) &&
     negb (bool_decide (auth_plugin h = desired_plugin)) then
    q ← lift (add_width U8 seq 1);
    _ ← on_session_out (on_out_writer (
      _ ← set_seq q;
      _ ← pw_write [0xfe];
      _ ← pw_write desired_plugin;
      _ ← pw_write [0x00];
      _ ← pw_write default_salt;
      _ ← pw_write [0x00];
      _ ← end_packet;
      flush_all));
    '(rr_seq, auth_response_data) ← auth_pkt_reader;
    mret (auth_response_data, rr_seq)
  else mret (auth_response h, seq).

(** The handler's decision, and the packet that tells the client. *)
Definition authenticate (h : HandshakeResponse) (user auth_rsp : bytes) (seq : Z) : M out unit :=
  q ← lift (add_width U8 seq 1);
  _ ← on_out_writer (set_seq q);
  auth_rs ← on_handler (handler_auth desired_plugin user default_salt auth_rsp);
  if negb (auth_rs : bool) then
    _ ← on_out_writer (write_err_packet ER_ACCESS_DENIED_NO_PASSWORD_ERROR (auth_failed_err user));
    _ ← on_out_writer flush_all;
    throw PermissionDenied
  else
    match d ← database h; from_utf8 d with
    | Some curr_database => on_init curr_database
    | None => on_out_writer (write_ok_packet_with_client_flags (client_flag h) (ok_with_header 0))
    end.

Definition respond_client_handshake_rsp (client_handshake : HandshakeResponse) (seq : Z) : M Session unit :=
  '(h, seq) ← second_response client_handshake seq;
  if negb (contains (client_flag h) CLIENT_PROTOCOL_41) then throw ConnectionAborted else
  _ ← match username h with
      | Some user =>
          '(auth_rsp, seq) ← switch_plugin h seq;
          on_session_out (authenticate h user auth_rsp seq)
      | None => mret tt
      end;
  on_session_out (on_out_writer flush_all).

(** A connection served to its end, with the outbound stream and the handler afterwards: [run]
    for [conn_id] 0, and the body of the loop of [on_recv]. *)
Definition serve_connection (fuel : nat) (conn_id : Z) (inbound : R) (outbound : W) (cmd_handler : Hd)
  : outcome io_error unit * (W * Hd) :=
  match static_initial_handshake conn_id (MkClient (pr_new inbound) (pw_new outbound)) with
  | (Ok (_, (handshake, seq, client_flags)), c) =>
      let s := MkSession (pr_new (handshake_reader c))
                 (pw_new (inner_writer (handshake_writer c)), cmd_handler) in
      let '(o, s) := (_ ← respond_client_handshake_rsp handshake seq; on_cmd fuel client_flags) s in
      (o, (inner_writer (session_out s).1, (session_out s).2))
  | (Err e, c) => (Err e, (inner_writer (handshake_writer c), cmd_handler))
  | (Panic, c) => (Panic, (inner_writer (handshake_writer c), cmd_handler))
  | (OutOfFuel, c) => (OutOfFuel, (inner_writer (handshake_writer c), cmd_handler))
  end.

Definition run (fuel : nat) : R -> W -> Hd -> outcome io_error unit * (W * Hd) := serve_connection fuel 0.

(** What a turn of [on_recv] is woken by: the exit signal (or its sender gone) or a connection. *)
Inductive recv_event : Type :=
  | ExitChanged
  | Received (inbound : R) (outbound : W) (cmd_handler : Hd).

(** [Ok None]: still waiting.  The connections served so far are returned. *)
Fixpoint on_recv (fuel : nat) (conn_id : Z) (events : list recv_event)
  : outcome io_error (option unit) * list (W * Hd) :=
  match events with
  | [] => (Ok None, [])
  | ExitChanged :: _ => (Ok (Some tt), [])
  | Received inbound outbound cmd_handler :: events =>
      let '(o, d) := serve_connection fuel conn_id inbound outbound cmd_handler in
      match o with
      | Ok _ => let '(r, ds) := on_recv fuel ((conn_id + 1) mod U64) events in (r, d :: ds)
      | Err e => (Err e, [d])
      | Panic => (Panic, [d])
      | OutOfFuel => (OutOfFuel, [d])
      end
  end.

(** A list of packets handled in order, up to a [COM_QUIT] or an error. *)
Fixpoint serve_packets (client_flags : Z) (pkts : list (Z * bytes)) : M out unit :=
  match pkts with
  | [] => mret tt
  | p :: pkts => go ← handle_packet client_flags p; if (go : bool) then serve_packets client_flags pkts else mret tt
  end.

End static_proxy.
Arguments Session : clear implicits.
Arguments recv_event : clear implicits.

(** ** Lemmas *)

Section static_laws.
Context {R W Hd : Type} {Rops : AsyncRead R} {RS : ReadStream R} {Wops : AsyncWrite W} {WS : WriteStream W}
  {WR : ReliableWrite W} {CH : CmdHandler Hd W}.
Context {Pr : Profile} {Wn : Winnow} {WL : WinnowLaws Wn} {I : MysqlIo} {IL : MysqlIoLaws I}
  {F : MysqlFlags} {FL : MysqlFlagsLaws F}.
Context (rf : nat) (tls_feature : bool).

Abbreviation out := (PacketWriter W * Hd)%type.
Abbreviation session := (Session R W Hd).

Lemma run_session_out {A} (m : M out A) (s : session) :
  on_session_out m s = ((m (session_out s)).1, MkSession (session_reader s) (m (session_out s)).2).
Proof. unfold on_session_out, zoom. by destruct (m (session_out s)). Qed.

(** A packet that ends the session. *)
Definition quits (p : Z * bytes) : Prop := exists i, from_packet p.2 = Ok (i, Quit).

Lemma handle_quit flags q p (o : out) : quits (q, p) ->
  (exists o', handle_packet flags (q, p) o = (Ok false, o')) \/ (handle_packet flags (q, p) o).1 = Panic.
Proof.
  intros [i E]. unfold handle_packet. cbn [snd] in E. rewrite E. unfold add_width. mstep.
  destruct (q + 1 <? U8); [left|destruct overflow_checks; [by right|left]]; unfold on_out_writer, zoom; mstep;
    by eexists.
Qed.

(** The bytes that start with the packets [ps]: nothing else, or a [COM_QUIT] among them. *)
Definition holds_packets (x : bytes) (ps : list (Z * bytes)) : Prop :=
  Forall (fun p => len p.2 < MAX_PAYLOAD_LEN) ps /\
  (x = frames ps \/ exists rest, x = frames ps ++ rest /\ Exists quits ps).

Lemma on_cmd_serves flags ps fuel (s : session) : nested_ok rf (session_reader s) ->
  holds_packets (nested_stream (session_reader s)) ps -> (length ps < fuel)%nat ->
  exists s', on_cmd rf fuel flags s = ((serve_packets flags ps (session_out s)).1, s') /\
    session_out s' = (serve_packets flags ps (session_out s)).2.
Proof.
  revert fuel s. induction ps as [|[q p] ps IH]; intros fuel s Hok [Hps Hx] Hf;
    (destruct fuel as [|fuel]; [simpl in Hf; lia|]); cbn [on_cmd]; rewrite run_bind.
  - destruct Hx as [Hx|(rest & _ & Hq%Exists_nil)]; [|done].
    destruct (nested_end rf _ Hok Hx) as (r & E & _). unfold on_session_reader, zoom. rewrite E. by eexists.
  - apply Forall_cons in Hps as [Hp Hps].
    assert (exists rest, nested_stream (session_reader s) = frame q p ++ rest) as [rest Hs].
    { destruct Hx as [->|(rest & -> & _)]; rewrite frames_cons, <- ?app_assoc; by eexists. }
    destruct (nested_frame rf _ q p rest Hok Hs Hp) as (r & E & Hr & Sr).
    unfold on_session_reader, zoom. rewrite E. cbn [payload serve_packets]. rewrite !run_bind, run_session_out.
    cbn [session_reader session_out].
    assert (holds_packets rest ps \/ quits (q, p)) as Hrest.
    { rewrite Hs in Hx. destruct Hx as [Hx|(t & Hx & Hq)]; rewrite frames_cons in Hx; cbn [fst snd] in Hx.
      - left. split; [done|]. left. by apply app_inv_head in Hx.
      - rewrite <- app_assoc in Hx. apply app_inv_head in Hx. apply Exists_cons in Hq as [Hq|Hq]; [by right|].
        left. split; [done|]. right. by exists t. }
    destruct (handle_packet flags (q, p) (session_out s)) as [o o1] eqn:Eh. cbn [fst snd].
    destruct o as [[]|e| |]; try by eexists.
    destruct Hrest as [Hrest|Hq].
    + apply (IH fuel (MkSession r o1)); cbn [session_reader]; [done|by rewrite Sr|simpl in Hf; lia].
    + exfalso. destruct (handle_quit flags q p (session_out s) Hq) as [[o' E']|E']; rewrite Eh in E'; done.
Qed.

(** The credentials are judged, then the packets are served. *)
Definition judged (flags : Z) (h : HandshakeResponse) (user data : bytes) (seq : Z) (ps : list (Z * bytes))
  : M out unit :=
  _ ← authenticate h user data seq;
  _ ← on_out_writer flush_all;
  serve_packets flags ps.

Lemma after_switch flags h user data seq ps fuel (s : session) : nested_ok rf (session_reader s) ->
  holds_packets (nested_stream (session_reader s)) ps -> (length ps < fuel)%nat ->
  exists s', (_ ← (_ ← on_session_out (authenticate h user data seq); on_session_out (on_out_writer flush_all));
              on_cmd rf fuel flags) s
             = ((judged flags h user data seq ps (session_out s)).1, s') /\
    session_out s' = (judged flags h user data seq ps (session_out s)).2.
Proof.
  intros Hok Hps Hf. unfold judged. rewrite !run_bind, run_session_out.
  destruct (authenticate h user data seq (session_out s)) as [o o1]. cbn [fst snd].
  destruct o as [[]|e| |]; try by eexists. rewrite run_session_out, !run_bind. cbn [session_out session_reader].
  destruct (on_out_writer flush_all o1) as [o o2]. cbn [fst snd].
  destruct o as [[]|e| |]; try by eexists. by apply (on_cmd_serves flags ps fuel (MkSession (session_reader s) o2)).
Qed.

Lemma salt_len : len default_salt = 20.
Proof. by vm_compute. Qed.

(** The greeting goes out, then the response is read. *)
Lemma static_greets conn_id r w q p crest : 0 <= conn_id -> fits p -> 0 <= q < 255 ->
  avail r = frame q p ++ crest -> is_bytes (avail r) -> (length (avail r) < rf)%nat ->
  exists c, static_initial_handshake rf tls_feature conn_id (MkClient (pr_new r) (pw_new w))
            = (match client_handshake_response p false with
               | Ok (_, h) =>
                   if negb tls_feature && contains (client_flag h) CLIENT_SSL then Err InvalidData
                   else Ok (tls_feature && contains (client_flag h) CLIENT_SSL, (h, q, default_capabilities))
               | Err e => Err (client_handshake_err e)
               | Panic => Panic
               | OutOfFuel => OutOfFuel
               end, c) /\
    source_ok rf (handshake_reader c) /\ tidy (handshake_reader c) /\ stream (handshake_reader c) = crest /\
    sent (inner_writer (handshake_writer c))
    = sent w ++ frame 0 (handshake_payload conn_id default_salt DEFAULT_BACKEND_VERSION false).
Proof.
  intros Hc Hf Hq Ha Hb Hl.
  destruct (completes_handshake conn_id default_salt DEFAULT_BACKEND_VERSION false (pw_new w)) as (w' & E).
  destruct (sends_handshake _ _ _ _ Hc (greeting_fits _ _ _ salt_len) (pw_new w) w' eq_refl ltac:(done) E) as (Es & _ & _).
  assert (stream (pr_new r) = avail r) as Hst by done.
  assert (source_ok rf (pr_new r)) as Hsrc by (split; [by vm_compute|by rewrite Hst]).
  destruct (next_frame rf _ q p crest Hsrc ltac:(by rewrite Hst) Hf) as (r' & Er & Hr' & Sr').
  pose proof (next_async_tidy _ _ _ _ Er) as Ht.
  assert (sent (inner_writer w') = sent w ++ frame 0 (handshake_payload conn_id default_salt DEFAULT_BACKEND_VERSION false)) as Es'.
  { unfold pw_sent in Es. rewrite Es. unfold frames. cbn [number map concat fst snd pw_new pw_seq inner_writer].
    by rewrite app_nil_r. }
  unfold static_initial_handshake, on_writer, on_reader, zoom. rewrite run_bind.
  cbn [handshake_reader handshake_writer]. rewrite E, run_bind. cbn [handshake_reader handshake_writer]. rewrite Er. cbn [payload]. mstep.
  destruct (client_handshake_response p false) as [[i h]|e| |]; cbn [map_err]; try by eexists.
  mstep. rewrite add_width_fits by (unfold U8; lia). unfold set_seq. mstep.
  destruct (negb tls_feature && contains (client_flag h) CLIENT_SSL); by eexists.
Qed.

(** The packets of the authentication switch, if there is one: what the client sends and is sent,
    the data and the sequence number the handler's answer goes on with. *)
Definition switch_request : bytes := [0xfe] ++ desired_plugin ++ [0x00] ++ default_salt ++ [0x00].

Inductive dialogue (r : response41) (q : Z) : list (Z * bytes) -> bytes -> bytes -> Z -> Prop :=
  | Direct : r_auth r <> [] \/ r_plugin r = Some desired_plugin -> dialogue r q [] [] (r_auth r) q
  | Switched q2 data : r_auth r = [] -> r_plugin r <> Some desired_plugin -> len data < MAX_PAYLOAD_LEN ->
      dialogue r q [(q2, data)] (frame (q + 1) switch_request) data q2.

Lemma switch_request_sent (w : PacketWriter W) q : pw_buf w = [] -> 0 <= q < U8 ->
  exists w', (_ ← set_seq q; _ ← pw_write [0xfe]; _ ← pw_write desired_plugin; _ ← pw_write [0x00];
              _ ← pw_write default_salt; _ ← pw_write [0x00]; _ ← end_packet; flush_all) w = (Ok tt, w') /\
    pw_buf w' = [] /\ pw_sent w' = pw_sent w ++ frame q switch_request.
Proof.
  intros Hb Hq. rewrite run_bind. unfold set_seq at 1. mrun.
  set (w1 := MkWriter (pw_buf w) q (inner_writer w)).
  set (m := (_ ← pw_write [0xfe]; _ ← pw_write desired_plugin; _ ← pw_write [0x00];
              _ ← pw_write default_salt; _ ← pw_write [0x00]; _ ← end_packet; flush_all) : M (PacketWriter W) unit).
  assert (completes m) as Hm by (subst m; auto 20 with completes).
  assert (sends [] [switch_request] m) as Hs.
  { subst m. writes. apply (sends_seq _ [_] []); [|apply sends_flush]. by apply sends_end. }
  destruct (Hm w1) as (w' & E). exists w'. split; [exact E|].
  apply Hs in E as (E1 & E2 & _); [|done..]. split; [done|]. rewrite E1. unfold frames.
  cbn [number map concat fst snd]. by rewrite app_nil_r.
Qed.

Lemma plugin_choice r : response41_ok r ->
  bool_decide (auth_plugin (response_of r) = desired_plugin) = bool_decide (r_plugin r = Some desired_plugin).
Proof.
  intros _. cbn [response_of auth_plugin]. apply bool_decide_ext. destruct (r_plugin r); cbn [default]; naive_solver.
Qed.

(** The switch, from the point of view of the session. *)
Lemma switched r q dlg req data q' rest (s : session) : response41_ok r -> dialogue r q dlg req data q' ->
  0 <= q < 255 -> nested_ok rf (session_reader s) -> nested_stream (session_reader s) = frames dlg ++ rest ->
  pw_buf (session_out s).1 = [] ->
  exists s', switch_plugin rf (response_of r) q s = (Ok (data, q'), s') /\ nested_ok rf (session_reader s') /\
    nested_stream (session_reader s') = rest /\ pw_buf (session_out s').1 = [] /\
    pw_sent (session_out s').1 = pw_sent (session_out s).1 ++ req /\ (session_out s').2 = (session_out s).2.
Proof.
  intros Hr Hdl Hq Hok Hst Hb. unfold switch_plugin. rewrite (plugin_choice r Hr).
  rewrite (bool_decide_eq_false_2 (desired_plugin = [])) by done. cbn [negb andb response_of auth_response].
  destruct Hdl as [Hp|q2 data Ha Hp Hl].
  - assert (bool_decide (r_auth r = []) && negb (bool_decide (r_plugin r = Some desired_plugin)) = false) as ->.
    { destruct Hp as [Hp| ->]; [by rewrite bool_decide_eq_false_2|].
      by rewrite (bool_decide_eq_true_2 (Some _ = _)), andb_false_r. }
    exists s. rewrite app_nil_r. done.
  - rewrite bool_decide_eq_true_2, bool_decide_eq_false_2 by done. cbn [andb negb].
    rewrite add_width_fits by (unfold U8; lia). mstep. rewrite run_session_out. unfold on_out_writer, zoom.
    destruct (switch_request_sent (session_out s).1 (q + 1) Hb ltac:(unfold U8; lia)) as (w' & -> & Hb' & Hs').
    cbn [fst snd]. unfold auth_pkt_reader, async_packet_read, on_session_reader, zoom. rewrite !run_bind.
    cbn [session_reader]. rewrite frames_cons, <- app_assoc in Hst.
    destruct (nested_frame rf _ q2 data _ Hok Hst Hl) as (r' & -> & Hr' & Sr'). mrun.
    eexists. split; [done|]. cbn [session_reader session_out fst snd]. done.
Qed.

Definition finish (x : outcome io_error unit * out) : outcome io_error unit * (W * Hd) :=
  (x.1, (inner_writer x.2.1, x.2.2)).

Lemma response_41 r : response41_ok r -> contains (client_flag (response_of r)) CLIENT_PROTOCOL_41 = true.
Proof. intros ((_ & H41 & _) & _). cbn [response_of client_flag]. rewrite contains_known; [done|]. apply capability_all_law; simpl; tauto. Qed.

Lemma response_ssl r : contains (client_flag (response_of r)) CLIENT_SSL = contains (r_caps r) CLIENT_SSL.
Proof. cbn [response_of client_flag]. rewrite contains_known; [done|]. apply capability_all_law; simpl; tauto. Qed.

(** After the handshake: the switch, the handler's decision, the commands. *)
Lemma session_served r q dlg req data q' ps fuel (s : session) : response41_ok r ->
  contains (r_caps r) CLIENT_SSL = false -> dialogue r q dlg req data q' -> 0 <= q < 255 ->
  nested_ok rf (session_reader s) ->
  (exists rest, nested_stream (session_reader s) = frames dlg ++ rest /\ holds_packets rest ps) ->
  pw_buf (session_out s).1 = [] -> (length ps < fuel)%nat ->
  exists w0 s', pw_buf w0 = [] /\ pw_sent w0 = pw_sent (session_out s).1 ++ req /\
    (_ ← respond_client_handshake_rsp rf tls_feature (response_of r) q; on_cmd rf fuel default_capabilities) s
    = ((judged default_capabilities (response_of r) (r_user r) data q' ps (w0, (session_out s).2)).1, s') /\
    session_out s' = (judged default_capabilities (response_of r) (r_user r) data q' ps (w0, (session_out s).2)).2.
Proof.
  intros Hr Hssl Hdl Hq Hok (rest & Hst & Hps) Hb Hf.
  destruct (switched r q dlg req data q' rest s Hr Hdl Hq Hok Hst Hb) as (s1 & E & Hok1 & Hst1 & Hb1 & Hs1 & Hh1).
  exists (session_out s1).1. rewrite <- Hh1, <- surjective_pairing.
  destruct (after_switch default_capabilities (response_of r) (r_user r) data q' ps fuel s1 Hok1)
    as (s' & E' & Es'); [by rewrite Hst1|done|].
  exists s'. split; [done|]. split; [done|]. split; [|done]. rewrite <- E'.
  unfold respond_client_handshake_rsp, second_response. rewrite response_ssl, Hssl, andb_false_r.
  rewrite !run_bind. mrun. rewrite response_41 by done. cbn [negb response_of username]. rewrite !run_bind.
  fold (response_of r). rewrite E. done.
Qed.

(** What a connection with a client of this kind comes to: an abstract server that works on
    packets. *)
Lemma connection_judged conn_id fuel inbound outbound hd r q dlg req data q' ps x :
  response41_ok r -> contains (r_caps r) CLIENT_SSL = false -> fits (encode_response41 r) ->
  dialogue r q dlg req data q' -> 0 <= q < 255 -> 0 <= conn_id ->
  avail inbound = frame q (encode_response41 r) ++ frames dlg ++ x -> holds_packets x ps ->
  is_bytes (avail inbound) -> (length (avail inbound) < rf)%nat -> (length ps < fuel)%nat ->
  let c := (static_initial_handshake rf tls_feature conn_id (MkClient (pr_new inbound) (pw_new outbound))).2 in
  len (leftover (handshake_reader c)) <= PACKET_BUFFER_SIZE ->
  exists w0, pw_buf w0 = [] /\
    pw_sent w0 = sent outbound ++
      frame 0 (handshake_payload conn_id default_salt DEFAULT_BACKEND_VERSION false) ++ req /\
    serve_connection rf tls_feature fuel conn_id inbound outbound hd
    = finish (judged default_capabilities (response_of r) (r_user r) data q' ps (w0, hd)).
Proof.
  intros Hr Hssl Hfit Hdl Hq Hid Ha Hps Hb Hl Hf c.
  destruct (static_greets conn_id inbound outbound q _ _ Hid Hfit Hq Ha Hb Hl) as (c0 & E & Hsrc & Ht & Hst & Hsent).
  assert (client_handshake_response (encode_response41 r) false = Ok ([], response_of r)) as Hp.
  { rewrite <- (app_nil_r (encode_response41 r)). apply parse_response; [done|by right]. }
  rewrite Hp in E. rewrite response_ssl, Hssl, !andb_false_r in E. subst c. rewrite E. cbn [snd].
  destruct Hsrc as (Hok & Hb0 & Hl0).
  intros Hle. destruct (nested_fresh rf (handshake_reader c0) Ht Hok Hle Hb0 Hl0) as [Hn Hns].
  destruct (session_served r q dlg req data q' ps fuel
    (MkSession (pr_new (handshake_reader c0)) (pw_new (inner_writer (handshake_writer c0)), hd)))
    as (w0 & s' & Hb1 & Hs1 & Es & Eo); [done..| |done|done|].
  { exists x. split; [|done]. cbn [session_reader]. by rewrite Hns, Hst. }
  exists w0. split; [done|]. split.
  { rewrite Hs1. unfold pw_sent at 1. cbn [session_out fst pw_new inner_writer]. by rewrite Hsent, <- app_assoc. }
  unfold serve_connection. rewrite E, Es. unfold finish. by rewrite Eo.
Qed.

(** *** The handler's decision *)

Lemma ok_default_fits caps h : fits (ok_payload caps (ok_with_header h)).
Proof.
  unfold fits, ok_payload, ok_with_header. cbn [ok_header affected_rows last_insert_id status_flags info session_state_info].
  repeat case_match; split; by vm_compute.
Qed.

Lemma ok_packet_sent caps h (w : PacketWriter W) : pw_buf w = [] -> 0 <= pw_seq w < U8 ->
  exists w', write_ok_packet_with_client_flags caps (ok_with_header h) w = (Ok tt, w') /\ pw_buf w' = [] /\
    pw_sent w' = pw_sent w ++ frame (pw_seq w) (ok_payload caps (ok_with_header h)).
Proof.
  intros Hb Hq. destruct (completes_ok caps (ok_with_header h) w) as (w' & E). exists w'. split; [done|].
  apply sends_ok in E as (E1 & E2 & _); [|by repeat split; try by vm_compute|apply ok_default_fits|done|done].
  split; [done|]. rewrite E1. unfold frames. cbn [number map concat fst snd]. by rewrite app_nil_r.
Qed.

(** What the handler's answer leads to. *)
Lemma authenticate_spec h user data q (w : PacketWriter W) hd : pw_buf w = [] -> 0 <= q < 255 ->
  let '(o, hd1) := handler_auth desired_plugin user default_salt data hd in
  match o with
  | Ok true =>
      match d ← database h; from_utf8 d with
      | Some d => authenticate h user data q (w, hd) = on_init d (MkWriter [] (q + 1) (inner_writer w), hd1)
      | None => exists w', authenticate h user data q (w, hd) = (Ok tt, (w', hd1)) /\ pw_buf w' = [] /\
          pw_sent w' = pw_sent w ++ frame (q + 1) (ok_payload (client_flag h) (ok_with_header 0))
      end
  | Ok false => fits (err_payload ER_ACCESS_DENIED_NO_PASSWORD_ERROR (auth_failed_err user)) ->
      exists w', authenticate h user data q (w, hd) = (Err PermissionDenied, (w', hd1)) /\ pw_buf w' = [] /\
        pw_sent w' = pw_sent w ++
          frame (q + 1) (err_payload ER_ACCESS_DENIED_NO_PASSWORD_ERROR (auth_failed_err user))
  | Err e => authenticate h user data q (w, hd) = (Err e, (MkWriter [] (q + 1) (inner_writer w), hd1))
  | Panic => (authenticate h user data q (w, hd)).1 = Panic
  | OutOfFuel => (authenticate h user data q (w, hd)).1 = OutOfFuel
  end.
Proof.
  intros Hb Hq. unfold authenticate. rewrite add_width_fits by (unfold U8; lia).
  unfold on_out_writer, on_handler, set_seq, zoom. mstep. cbn [fst snd]. rewrite Hb.
  set (w1 := MkWriter [] (q + 1) (inner_writer w)).
  destruct (handler_auth desired_plugin user default_salt data hd) as [[[]|e| |] hd1]; [| |done..]; cbn [negb].
  - destruct (d ← database h; from_utf8 d) as [d|]; [done|]. cbn [fst snd].
    destruct (ok_packet_sent (client_flag h) 0 w1 eq_refl) as (w' & -> & Hb' & Hs'); [unfold U8; simpl; lia|].
    by exists w'.
  - intros Hf. mstep. cbn [fst snd].
    destruct (completes_err ER_ACCESS_DENIED_NO_PASSWORD_ERROR (auth_failed_err user) w1) as (w2 & E). rewrite E.
    apply sends_err in E as (E1 & E2 & _); [|done|done|unfold U8; simpl; lia]. cbv beta iota. mstep. cbn [fst snd].
    destruct (flush_frame w2) as (w3 & -> & F1 & F2 & _). exists w3. split; [done|]. split; [congruence|].
    rewrite F1, E1. unfold frames. cbn [number map concat fst snd]. by rewrite app_nil_r.
Qed.

(** *** The commands the proxy answers itself *)

Definition builtin_answer (flags : Z) (packet : bytes) : option (list bytes) :=
  match from_packet packet with
  | Ok (_, Ping) | Ok (_, Close _) | Err _ => Some [ok_payload flags (ok_with_header 0)]
  | Ok (_, ListFields _) => Some [ok_payload flags (ok_with_header 0xfe)]
  | Ok (_, SendLongData _ _ _) => Some []
  | _ => None
  end.

Lemma builtin_handled flags q p a (w : PacketWriter W) (hd : Hd) : pw_buf w = [] -> 0 <= q < 255 ->
  builtin_answer flags p = Some a ->
  exists w', handle_packet flags (q, p) (w, hd) = (Ok true, (w', hd)) /\ pw_buf w' = [] /\
    pw_sent w' = pw_sent w ++ frames (number (q + 1) a).
Proof.
  intros Hb Hq Ha. unfold handle_packet. rewrite add_width_fits by (unfold U8; lia).
  unfold on_out_writer, set_seq, zoom. mstep. cbn [fst snd]. rewrite Hb.
  set (w1 := MkWriter [] (q + 1) (inner_writer w)).
  assert (forall h, exists w', write_ok_packet_with_client_flags flags (ok_with_header h) w1 = (Ok tt, w') /\
    pw_buf w' = [] /\ pw_sent w' = pw_sent w ++ frames (number (q + 1) [ok_payload flags (ok_with_header h)])) as Hok.
  { intros h. destruct (ok_packet_sent flags h w1 eq_refl) as (w' & E & Hb' & Hs'); [unfold U8; simpl; lia|].
    exists w'. split; [done|]. split; [done|]. rewrite Hs'. unfold frames. cbn [number map concat fst snd].
    by rewrite app_nil_r. }
  destruct (Hok 0) as (wa & Ea & Hba & Hsa). destruct (Hok 0xfe) as (wb & Eb & Hbb & Hsb).
  unfold builtin_answer in Ha.
  destruct (from_packet p) as [[i c]|e| |]; [destruct c| | |]; try done; injection Ha as <-; mstep; cbn [fst snd];
    rewrite ?Ea, ?Eb; mstep; eexists; (split; [done|]); try done.
  split; [done|]. unfold frames. cbn [number map concat]. by rewrite app_nil_r.
Qed.

Lemma builtin_serve flags ps (w : PacketWriter W) (hd : Hd) : pw_buf w = [] ->
  Forall (fun p => 0 <= p.1 < 255 /\ is_Some (builtin_answer flags p.2)) ps ->
  exists w', serve_packets flags ps (w, hd) = (Ok tt, (w', hd)) /\ pw_buf w' = [] /\
    pw_sent w' = pw_sent w ++
      concat (map (fun p => frames (number (p.1 + 1) (default [] (builtin_answer flags p.2)))) ps).
Proof.
  intros Hb Hps. revert w Hb. induction Hps as [|[q p] ps [Hq [a Ha]] Hps IH]; intros w Hb; cbn [serve_packets map concat].
  - exists w. by rewrite app_nil_r.
  - destruct (builtin_handled flags q p a w hd Hb Hq Ha) as (w1 & E & Hb1 & Hs1). rewrite run_bind, E.
    destruct (IH w1 Hb1) as (w2 & E2 & Hb2 & Hs2). exists w2. split; [done|]. split; [done|].
    rewrite Hs2, Hs1. cbn [fst snd] in *. by rewrite Ha, <- app_assoc.
Qed.

(** *** Nobody gets past the handler *)

Lemma body_user i caps max_len coll after j h : handshake_body41 i caps max_len coll after = Ok (j, h) ->
  client_flag h = caps /\ (after = true \/ contains caps CLIENT_SSL = false -> is_Some (username h)).
Proof.
  unfold handshake_body41. intros E. destruct (negb after && contains caps CLIENT_SSL) eqn:Es.
  - inv_bind E. injection E as <- <-. split; [done|]. apply andb_true_iff in Es as [Ea Ec]. cbn [username].
    intros [->|Hc]; [done|congruence].
  - inv_bind E. destruct a as [i1 user]. repeat (inv_bind E; try (destruct a as [? ?])).
    injection E as <- <-. split; [done|]. intros Ha. cbn [username].
    destruct (after || negb (contains caps CLIENT_SSL)) eqn:Eo.
    + inv_bind E0. destruct a0 as [? u]. injection E0 as <- <-. by eexists.
    + apply orb_false_iff in Eo as [-> Ec]. apply negb_false_iff in Ec. destruct Ha; congruence.
Qed.

Lemma response_user i after j h : client_handshake_response i after = Ok (j, h) ->
  after = true \/ contains (client_flag h) CLIENT_SSL = false -> is_Some (username h).
Proof.
  unfold client_handshake_response. intros E Ha. inv_bind E. destruct a as [i1 fl].
  destruct (contains _ CLIENT_PROTOCOL_41).
  - unfold handshake_response41 in E. repeat (inv_bind E; destruct a as [? ?]).
    apply body_user in E as [<- Hu]. by apply Hu.
  - unfold handshake_response320 in E. repeat (inv_bind E; destruct a as [? ?]).
    destruct p as [? ?]. injection E as <- <-. by eexists.
Qed.

Lemma handshake_user conn_id c b h q fl c' :
  static_initial_handshake rf tls_feature conn_id c = (Ok (b, (h, q, fl)), c') ->
  tls_feature && contains (client_flag h) CLIENT_SSL = true \/ is_Some (username h).
Proof.
  unfold static_initial_handshake. intros E. inv_bind E. inv_bind E. destruct a0 as [[seq pkt]|]; [|done].
  inv_bind E. destruct a0 as [i h']. inv_bind E. inv_bind E.
  assert (exists j, client_handshake_response (payload pkt) false = Ok (j, h')) as [j Ep].
  { unfold lift in E2. destruct (client_handshake_response (payload pkt) false) as [[j h1]|e| |]; try done.
    cbn [map_err] in E2. injection E2 as -> -> _. by eexists. }
  pose proof (response_user _ _ _ _ Ep) as Hu. clear Ep. revert E Hu. mrun.
  destruct tls_feature, (contains (client_flag h') CLIENT_SSL) eqn:Es; cbn [negb andb]; try done;
    intros [= <- <- <- <- <-] Hu; rewrite ?Es; tauto.
Qed.

(** The steps before the handler's decision leave the handler alone. *)
Definition keeps_handler {A} (m : M session A) : Prop :=
  forall s, (session_out (m s).2).2 = (session_out s).2.

Lemma keeps_bind {A B} (m : M session A) (k : A -> M session B) :
  keeps_handler m -> (forall a, keeps_handler (k a)) -> keeps_handler (a ← m; k a).
Proof.
  intros Hm Hk s. unfold mbind, M_bind. specialize (Hm s). destruct (m s) as [[a|e| |] s1]; cbn [snd] in *; [|done..].
  by rewrite Hk.
Qed.

Lemma keeps_lift {A} (o : outcome io_error A) : keeps_handler (lift o).
Proof. done. Qed.

Lemma keeps_ret {A} (a : A) : keeps_handler (mret a).
Proof. done. Qed.

Lemma keeps_reader {A} (m : M _ A) : keeps_handler (on_session_reader m).
Proof. intros s. unfold on_session_reader, zoom. by destruct (m _). Qed.

Lemma keeps_writer {A} (m : M _ A) : keeps_handler (on_session_out (on_out_writer m)).
Proof. intros s. unfold on_session_out, on_out_writer, zoom. by destruct (m _). Qed.

Hint Resolve keeps_bind keeps_lift keeps_ret keeps_reader keeps_writer : core.

Lemma keeps_packet : keeps_handler (auth_pkt_reader (W := W) (Hd := Hd) rf).
Proof. unfold auth_pkt_reader. apply keeps_bind; [done|]. by intros []. Qed.

Hint Resolve keeps_packet : core.

Lemma keeps_second h q : keeps_handler (second_response (W := W) (Hd := Hd) rf tls_feature h q).
Proof.
  unfold second_response. destruct (tls_feature && _); [|done]. apply keeps_bind; [done|]. intros [rs pkt].
  apply keeps_bind; [done|]. intros [i h']. repeat (apply keeps_bind; [done|]; intros ?). done.
Qed.

Lemma keeps_switch h q : keeps_handler (switch_plugin (W := W) (Hd := Hd) rf h q).
Proof.
  unfold switch_plugin. case_match; [|done]. repeat (apply keeps_bind; [done|]; intros ?). by case_match.
Qed.

(** A response that ends the handshake names its user. *)
Lemma second_user h q (s : session) h1 q1 s1 : tls_feature && contains (client_flag h) CLIENT_SSL = true \/ is_Some (username h) ->
  second_response rf tls_feature h q s = (Ok (h1, q1), s1) -> is_Some (username h1).
Proof.
  unfold second_response. intros Hh E. destruct (tls_feature && contains (client_flag h) CLIENT_SSL).
  - inv_bind E. destruct a as [rs pkt]. inv_bind E. destruct a as [i h2]. inv_bind E. inv_bind E.
    injection E as <- <- <-. unfold lift in E1.
    destruct (client_handshake_response pkt true) as [[j h3]|e| |] eqn:Ep; try done.
    cbn [map_err] in E1. injection E1 as -> -> _. eapply response_user; [exact Ep|by left].
  - injection E as <- <- <-. by destruct Hh.
Qed.

Lemma authenticated h user data q (o o' : out) u : authenticate h user data q o = (Ok u, o') ->
  exists hd, handler_auth desired_plugin user default_salt data o.2 = (Ok true, hd).
Proof.
  unfold authenticate. intros E.
  apply run_bind_ok in E as (x & o1 & E1 & E). injection E1 as _ <-.
  apply run_bind_ok in E as (y & o2 & E2 & E).
  assert (o2.2 = o.2) as <- by (unfold on_out_writer, zoom in E2; destruct (set_seq x o.1); by injection E2 as _ <-).
  apply run_bind_ok in E as (ok & o3 & E3 & E). unfold on_handler, zoom in E3.
  destruct (handler_auth desired_plugin user default_salt data o2.2) as [oa hd]. injection E3 as -> _. exists hd.
  destruct ok; [done|]. cbn [negb] in E. inv_bind E. inv_bind E. done.
Qed.

(** Every session whose commands are served had its user accepted. *)
Lemma admitted_by_handler conn_id c b h q fl c' (s s' : session) :
  static_initial_handshake rf tls_feature conn_id c = (Ok (b, (h, q, fl)), c') ->
  respond_client_handshake_rsp rf tls_feature h q s = (Ok tt, s') ->
  exists h1 q1 s1 user data q2 s2 hd, second_response rf tls_feature h q s = (Ok (h1, q1), s1) /\
    username h1 = Some user /\ switch_plugin rf h1 q1 s1 = (Ok (data, q2), s2) /\
    handler_auth desired_plugin user default_salt data (session_out s).2 = (Ok true, hd).
Proof.
  intros Hh E. apply handshake_user in Hh. unfold respond_client_handshake_rsp in E. inv_bind E.
  destruct a as [h1 q1]. pose proof (keeps_second h q s) as K1. destruct (second_user _ _ _ _ _ _ Hh E0) as [user Hu].
  rewrite E0 in K1. cbn [snd] in K1.
  destruct (negb (contains (client_flag h1) CLIENT_PROTOCOL_41)); [done|]. rewrite Hu in E.
  inv_bind E. inv_bind E1. destruct a0 as [data q2].
  pose proof (keeps_switch h1 q1) as K2.
  rewrite run_session_out in E1.
  destruct (authenticate h1 user data q2 (session_out s2)) as [o x] eqn:Ea. cbn [fst snd] in E1.
  injection E1 as -> _. apply authenticated in Ea as [hd Ha].
  eexists h1, q1, _, user, data, q2, _, hd. split; [exact E0|]. split; [done|]. split; [eassumption|].
  specialize (K2 s0). rewrite E2 in K2. cbn [snd] in K2. by rewrite <- K1, <- K2.
Qed.

(** *** Several connections *)

Definition serve_received (fuel : nat) (conn_id : Z) (x : R * W * Hd) : outcome io_error unit * (W * Hd) :=
  let '(inbound, outbound, hd) := x in serve_connection rf tls_feature fuel conn_id inbound outbound hd.

Definition received (x : R * W * Hd) : recv_event R W Hd :=
  let '(inbound, outbound, hd) := x in Received inbound outbound hd.

(** Connections are numbered in order, and served one after the other. *)
Fixpoint numbered (conn_id : Z) (l : list (R * W * Hd)) : list (Z * (R * W * Hd)) :=
  match l with
  | [] => []
  | x :: l => (conn_id, x) :: numbered ((conn_id + 1) mod U64) l
  end.

Lemma on_recv_good fuel conn_id good events :
  Forall (fun x => (serve_received fuel x.1 x.2).1 = Ok tt) (numbered conn_id good) ->
  on_recv rf tls_feature fuel conn_id (map received good ++ events)
  = (let '(o, ds) := on_recv rf tls_feature fuel (foldl (fun i _ => (i + 1) mod U64) conn_id good) events in
     (o, map (fun x => (serve_received fuel x.1 x.2).2) (numbered conn_id good) ++ ds)).
Proof.
  revert conn_id. induction good as [|[[r w] h] good IH]; intros conn_id Hg.
  - cbn [map app numbered foldl]. by destruct (on_recv _ _ _ _ events).
  - cbn [numbered] in Hg. apply Forall_cons in Hg as [H1 Hg]. pose proof (IH _ Hg) as E.
    cbn [map app received on_recv numbered foldl fst snd] in H1 |- *.
    unfold serve_received at 1. unfold serve_received in H1. cbn [fst snd] in *.
    destruct (serve_connection rf tls_feature fuel conn_id r w h) as [o d] eqn:Es. cbn [fst snd] in *. subst o.
    rewrite E. by destruct (on_recv rf tls_feature fuel _ events) as [o ds].
Qed.

(** ** Properties *)

(** (C5) A session refines a server that works on packets.  For a client that answers the greeting
    with a well-formed response, goes through the authentication switch if the proxy asks for it,
    and then sends packets up to the end of its stream or a [COM_QUIT], the whole connection, over
    streams cut in any pieces and through the two nested readers, comes to: the greeting, the
    switch request if there is one, the handler's decision, and the packets handled in order;
    provided the first reader has read no more than 4096 bytes past the response. *)
Theorem static_connection_refines conn_id fuel inbound outbound hd r q dlg req data q' ps x :
  response41_ok r -> contains (r_caps r) CLIENT_SSL = false -> fits (encode_response41 r) ->
  dialogue r q dlg req data q' -> 0 <= q < 255 -> 0 <= conn_id ->
  avail inbound = frame q (encode_response41 r) ++ frames dlg ++ x -> holds_packets x ps ->
  is_bytes (avail inbound) -> (length (avail inbound) < rf)%nat -> (length ps < fuel)%nat ->
  let c := (static_initial_handshake rf tls_feature conn_id (MkClient (pr_new inbound) (pw_new outbound))).2 in
  len (leftover (handshake_reader c)) <= PACKET_BUFFER_SIZE ->
  exists w0, pw_buf w0 = [] /\
    pw_sent w0 = sent outbound ++
      frame 0 (handshake_payload conn_id default_salt DEFAULT_BACKEND_VERSION false) ++ req /\
    serve_connection rf tls_feature fuel conn_id inbound outbound hd
    = finish (judged default_capabilities (response_of r) (r_user r) data q' ps (w0, hd)).
Proof. apply connection_judged. Qed.

(** (C19) The handler's decision: an accepted user gets one OK packet, numbered after its last
    packet and written for its own capabilities, or, with a database in UTF-8, what [on_init]
    answers; a refused one gets one access-denied packet and the session ends with
    [PermissionDenied]; an error of the handler ends it with nothing sent. *)
Theorem authenticate_cases h user data q (w : PacketWriter W) hd : pw_buf w = [] -> 0 <= q < 255 ->
  let '(o, hd1) := handler_auth desired_plugin user default_salt data hd in
  match o with
  | Ok true =>
      match d ← database h; from_utf8 d with
      | Some d => authenticate h user data q (w, hd) = on_init d (MkWriter [] (q + 1) (inner_writer w), hd1)
      | None => exists w', authenticate h user data q (w, hd) = (Ok tt, (w', hd1)) /\ pw_buf w' = [] /\
          pw_sent w' = pw_sent w ++ frame (q + 1) (ok_payload (client_flag h) (ok_with_header 0))
      end
  | Ok false => fits (err_payload ER_ACCESS_DENIED_NO_PASSWORD_ERROR (auth_failed_err user)) ->
      exists w', authenticate h user data q (w, hd) = (Err PermissionDenied, (w', hd1)) /\ pw_buf w' = [] /\
        pw_sent w' = pw_sent w ++
          frame (q + 1) (err_payload ER_ACCESS_DENIED_NO_PASSWORD_ERROR (auth_failed_err user))
  | Err e => authenticate h user data q (w, hd) = (Err e, (MkWriter [] (q + 1) (inner_writer w), hd1))
  | Panic => (authenticate h user data q (w, hd)).1 = Panic
  | OutOfFuel => (authenticate h user data q (w, hd)).1 = OutOfFuel
  end.
Proof. apply authenticate_spec. Qed.

(** Commands that do not reach the handler: pings, the closing of a statement and every packet
    that does not parse are answered with one OK packet, field lists with one whose header is
    0xfe, long data with nothing, each numbered after its request; the handler is not called. *)
Theorem builtin_commands_answered flags ps (w : PacketWriter W) (hd : Hd) : pw_buf w = [] ->
  Forall (fun p => 0 <= p.1 < 255 /\ is_Some (builtin_answer flags p.2)) ps ->
  exists w', serve_packets flags ps (w, hd) = (Ok tt, (w', hd)) /\ pw_buf w' = [] /\
    pw_sent w' = pw_sent w ++
      concat (map (fun p => frames (number (p.1 + 1) (default [] (builtin_answer flags p.2)))) ps).
Proof. apply builtin_serve. Qed.

(** (C18) Nobody gets past the handler: whatever the client sends, over any streams, a session
    whose greeting and response both succeed had its user accepted by the handler in the state the
    session started with: the user the last response names, with the data of that response, or of
    the packet that answers the authentication switch, and the salt of the greeting.  A client that
    names no user, like one that stops after asking for TLS, never reaches the commands. *)
Theorem admitted_only_by_handler conn_id c b h q fl c' (s s' : session) :
  static_initial_handshake rf tls_feature conn_id c = (Ok (b, (h, q, fl)), c') ->
  respond_client_handshake_rsp rf tls_feature h q s = (Ok tt, s') ->
  exists h1 q1 s1 user data q2 s2 hd, second_response rf tls_feature h q s = (Ok (h1, q1), s1) /\
    username h1 = Some user /\ switch_plugin rf h1 q1 s1 = (Ok (data, q2), s2) /\
    handler_auth desired_plugin user default_salt data (session_out s).2 = (Ok true, hd).
Proof. apply admitted_by_handler. Qed.

(** (C34) [on_recv] serves connections one at a time, numbered from 0 up, and the first one that
    fails ends the whole server with its error: the connections after it are never served. *)
Theorem on_recv_stops fuel conn_id good bad later e :
  Forall (fun x => (serve_received fuel x.1 x.2).1 = Ok tt) (numbered conn_id good) ->
  (serve_received fuel (foldl (fun i _ => (i + 1) mod U64) conn_id good) bad).1 = Err e ->
  on_recv rf tls_feature fuel conn_id (map received good ++ received bad :: later)
  = (Err e, map (fun x => (serve_received fuel x.1 x.2).2) (numbered conn_id good) ++
            [(serve_received fuel (foldl (fun i _ => (i + 1) mod U64) conn_id good) bad).2]).
Proof.
  intros Hg He. rewrite (on_recv_good fuel conn_id good _ Hg). destruct bad as [[r w] h].
  cbn [received on_recv]. unfold serve_received in He |- * at 2. revert He.
  generalize (foldl (fun i _ => (i + 1) mod U64) conn_id good). intros n He. unfold serve_received.
  destruct (serve_connection rf tls_feature fuel n r w h) as [o d]. cbn [fst snd] in *. by subst o.
Qed.

End static_laws.

(** ** Witnesses *)

(** A handler that keeps the commands it is given, and accepts one user only. *)
#[export] Instance demo_handler {W} : CmdHandler (list bytes) W := {|
  handler_auth := fun _ user _ _ h => (Ok (bool_decide (user = str "t.root")), h);
  on_init := fun d => modify (fun s => (s.1, s.2 ++ [d]));
  on_prepare := fun q => modify (fun s => (s.1, s.2 ++ [q]));
  on_query := fun q => modify (fun s => (s.1, s.2 ++ [q]));
  on_execute := fun q => modify (fun s => (s.1, s.2 ++ [q]));
|}.

(** The client of [sample_response], which then sends a query, a ping and a quit. *)
Definition demo_packets : list (Z * bytes) := [(0, 3 :: str "select 1"); (0, [0x0e]); (0, [0x01])].

Definition demo_client : chunked :=
  Chunked [frame 1 (encode_response41 sample_response); frames demo_packets].

Definition demo_serve (client : chunked) : outcome io_error unit * (sink * list bytes) :=
  serve_connection (H1 := demo_handler) (H2 := true) 300 true 5 5 client (Sink [] [] 0) [].

Lemma static_connection_refines_witness : exists w0,
  pw_sent w0 = frame 0 (handshake_payload 5 default_salt DEFAULT_BACKEND_VERSION false) /\
  demo_serve demo_client
  = finish (judged (Pr := true) default_capabilities (response_of sample_response) (str "t.root") [1; 2; 3] 1
      demo_packets (w0, [])).
Proof.
  destruct (static_connection_refines (Pr := true) (CH := demo_handler) 300 true 5 5 demo_client (Sink [] [] 0) []
    sample_response 1 [] [] [1; 2; 3] 1 demo_packets (frames demo_packets)) as (w0 & _ & E1 & E2).
  - exact sample_response_ok.
  - reflexivity.
  - split; reflexivity.
  - apply Direct. by left.
  - done.
  - done.
  - reflexivity.
  - split; [repeat constructor|by left].
  - apply (bool_decide_unpack _). vm_compute. reflexivity.
  - vm_compute. lia.
  - simpl. lia.
  - vm_compute. discriminate.
  - exists w0. rewrite app_nil_r in E1. split; [exact E1|exact E2].
Defined.

Example demo_session : (demo_serve demo_client).1 = Ok tt /\ (demo_serve demo_client).2.2 = [str "db"; str "select 1"].
Proof. by vm_compute. Qed.

Definition started : PacketWriter sink := MkWriter [] 0 (Sink [] [] 0).

Definition no_database : HandshakeResponse :=
  MkHandshakeResponse 512 0 33 None (Some (str "t.root")) [1] [] None None.

Lemma authenticate_cases_witness : exists w',
  authenticate (H2 := true) no_database (str "t.root") [1] 1 (started, @nil bytes) = (Ok tt, (w', [])) /\
  pw_sent w' = frame 2 (ok_payload 512 (ok_with_header 0)).
Proof.
  pose proof (authenticate_cases (Pr := true) (CH := demo_handler) no_database (str "t.root") [1] 1 started []
    eq_refl ltac:(done)) as H.
  destruct H as (w' & E & _ & E1). exists w'. split; [exact E|exact E1].
Defined.

Lemma builtin_commands_answered_witness : exists w',
  serve_packets (H2 := true) 512 [(0, [0x0e]); (4, [0xee])] (started, @nil bytes) = (Ok tt, (w', [])) /\
  pw_sent w' = frame 1 (ok_payload 512 (ok_with_header 0)) ++ frame 5 (ok_payload 512 (ok_with_header 0)).
Proof.
  destruct (builtin_commands_answered (Pr := true) (CH := demo_handler) 512 [(0, [0x0e]); (4, [0xee])] started [])
    as (w' & E & _ & E1).
  - reflexivity.
  - repeat constructor; try done; vm_compute; by eexists.
  - exists w'. split; [exact E|exact E1].
Defined.

Definition demo_greeted := static_initial_handshake (H2 := true) 300 true 5 (MkClient (pr_new demo_client) (pw_new (Sink [] [] 0))).

Definition demo_state : Session chunked sink (list bytes) :=
  MkSession (pr_new (handshake_reader demo_greeted.2)) (started, []).

Lemma admitted_only_by_handler_witness : exists h1 q1 s1 user data q2 s2 hd,
  second_response (H2 := true) 300 true (response_of sample_response) 1 demo_state = (Ok (h1, q1), s1) /\
  username h1 = Some user /\ switch_plugin (H2 := true) 300 h1 q1 s1 = (Ok (data, q2), s2) /\
  handler_auth (W := sink) desired_plugin user default_salt data (session_out demo_state).2 = (Ok true, hd).
Proof.
  refine (admitted_only_by_handler (Pr := true) (CH := demo_handler) 300 true 5 (MkClient (pr_new demo_client) (pw_new (Sink [] [] 0)))
    false (response_of sample_response) 1 default_capabilities demo_greeted.2 demo_state
    (respond_client_handshake_rsp (H1 := demo_handler) (H2 := true) 300 true (response_of sample_response) 1 demo_state).2 _ _).
  - vm_compute. reflexivity.
  - vm_compute. reflexivity.
Defined.

(** A client that connects and leaves, and one that is never served for it. *)
Lemma on_recv_stops_witness :
  on_recv (H1 := demo_handler) (H2 := true) 300 true 5 0
    [Received demo_client (Sink [] [] 0) []; Received (Chunked []) (Sink [] [] 0) []; Received demo_client (Sink [] [] 0) []]
  = (Err ConnectionAborted,
     map (fun x => (serve_received (Pr := true) 300 true 5 x.1 x.2).2) (numbered 0 [(demo_client, Sink [] [] 0, [])]) ++
     [(serve_received (Pr := true) 300 true 5 1 (Chunked [], Sink [] [] 0, [])).2]).
Proof.
  apply (on_recv_stops (Pr := true) (CH := demo_handler) 300 true 5 0 [(demo_client, Sink [] [] 0, [])]
    (Chunked [], Sink [] [] 0, []) [Received demo_client (Sink [] [] 0) []] ConnectionAborted).
  - constructor; [vm_compute; reflexivity|constructor].
  - vm_compute. reflexivity.
Defined.

