(* ===== verification/Runtime.v ===== *)
(** * Channels, maps, random numbers and pools: third-party runtime code

    The interfaces of tokio's channels, dashmap, rand, deadpool, tonic's connections and the TCP
    stream, as operation classes and classes of documented laws, like those of [External], with
    reference instances. *)
From S2P Require Import Prelude External.

(** ** tokio::sync::mpsc *)

(** An unbounded channel with its receiver.  [mpsc_send] says whether the value was accepted;
    [mpsc_recv] is [None] while [recv] waits. *)
Class Mpsc (T C : Type) : Type := {
  mpsc_send : T -> C -> bool * C;
  mpsc_recv : C -> option (option T * C);
}.

(** Values are received in the order they were sent, as long as the receiver exists. *)
Class MpscLaws (T C : Type) {ops : Mpsc T C} : Type := {
  queued : C -> list T;
  receiving : C -> bool;
  mpsc_send_law : forall t c, receiving c = true ->
    exists c', mpsc_send t c = (true, c') /\ queued c' = queued c ++ [t] /\ receiving c' = true;
  mpsc_recv_law : forall t q c, queued c = t :: q ->
    exists c', mpsc_recv c = Some (Some t, c') /\ queued c' = q /\ receiving c' = receiving c;
}.

(** ** tokio::sync::watch *)

(** A watch channel with one receiver.  [watch_changed] is [None] while [changed] waits, and
    otherwise says whether the value changed or the sender is gone. *)
Class Watch (T C : Type) : Type := {
  watch_send : T -> C -> bool * C;
  watch_changed : C -> option (bool * C);
  watch_borrow_and_update : C -> T * C;
}.

(** The channel keeps the last value only; it is unseen until the receiver looks at it. *)
Class WatchLaws (T C : Type) {ops : Watch T C} : Type := {
  watch_value : C -> T;
  unseen : C -> bool;
  watch_send_law : forall t c, exists c',
    watch_send t c = (true, c') /\ watch_value c' = t /\ unseen c' = true;
  watch_changed_law : forall c,
    if unseen c then exists c', watch_changed c = Some (true, c') /\ watch_value c' = watch_value c
    else watch_changed c = None;
  watch_borrow_law : forall c, exists c',
    watch_borrow_and_update c = (watch_value c, c') /\ watch_value c' = watch_value c /\ unseen c' = false;
}.

(** ** rand *)

(** [gen_range(0..n)]: [None] where it panics. *)
Class StdRng (G : Type) : Type := gen_range : Z -> G -> option Z * G.

Class StdRngLaws (G : Type) {ops : StdRng G} : Prop := {
  gen_range_law : forall n g, 0 < n -> exists i g', gen_range n g = (Some i, g') /\ 0 <= i < n;
  gen_range_empty : forall g, fst (gen_range 0 g) = None;
}.

(** ** dashmap *)

(** The order in which a map is iterated over. *)
Class DashMapIter (K V : Type) `{Countable K} : Type := dm_iter : gmap K V -> list (K * V).

Class DashMapIterLaws (K V : Type) `{Countable K} {ops : DashMapIter K V} : Prop :=
  dm_iter_law : forall m : gmap K V, dm_iter m ≡ₚ map_to_list m.

(** ** deadpool *)

(** [Pool::builder(manager).max_size(n).build()] ([None]: a build error) and [close]. *)
Class Deadpool (Mgr P : Type) : Type := {
  pool_build : Mgr -> Z -> option P;
  pool_close : P -> P;
}.

(** Building fails only for a pool with timeouts and no runtime, which this one never is. *)
Class DeadpoolLaws (Mgr P : Type) {ops : Deadpool Mgr P} : Type := {
  pool_manager : P -> Mgr;
  pool_build_law : forall m n, exists p, pool_build m n = Some p /\ pool_manager p = m;
}.

(** ** TCP *)

(** [TcpStream::connect], split into its halves. *)
Class TcpStream (R W : Type) : Type := tcp_connect : bytes -> outcome io_error (R * W).

(** ** tonic, http and reqwest *)

(** [Channel::from_shared(uri)] and [connect]: [None] when either fails. *)
Class Tonic (Ch : Type) : Type := tonic_connect : bytes -> option Ch.

(** [Uri::try_from] ([None] when it fails) and [scheme_str]. *)
Class HttpUri : Type := uri_scheme : bytes -> option (option bytes).

(** ** Reference instances *)

Record queue (T : Type) : Type := MkQueue { items : list T }.
Arguments MkQueue {T} _.
Arguments items {T} _.

#[export] Instance queue_mpsc T : Mpsc T (queue T) := {|
  mpsc_send := fun t c => (true, MkQueue (items c ++ [t]));
  mpsc_recv := fun c => match items c with [] => None | t :: q => Some (Some t, MkQueue q) end;
|}.

#[export] Instance queue_mpsc_laws T : MpscLaws T (queue T).
Proof.
  refine {| queued := items; receiving := fun _ => true |}.
  - intros t c _. by eexists.
  - intros t q [i] E. cbn [items] in E. subst i. by eexists.
Defined.

Record cell (T : Type) : Type := MkCell { cell_value : T; cell_unseen : bool }.
Arguments MkCell {T} _ _.
Arguments cell_value {T} _.
Arguments cell_unseen {T} _.

#[export] Instance cell_watch T : Watch T (cell T) := {|
  watch_send := fun t c => (true, MkCell t true);
  watch_changed := fun c => if cell_unseen c then Some (true, MkCell (cell_value c) false) else None;
  watch_borrow_and_update := fun c => (cell_value c, MkCell (cell_value c) false);
|}.

#[export] Instance cell_watch_laws T : WatchLaws T (cell T).
Proof.
  refine {| watch_value := cell_value; unseen := cell_unseen |}.
  - intros t c. by eexists.
  - intros [v []]; [by eexists|done].
  - intros c. by eexists.
Defined.

(** A generator that counts. *)
#[export] Instance counter_rng : StdRng Z := fun n g =>
  if n <=? 0 then (None, g) else (Some (g mod n), g + 1).

#[export] Instance counter_rng_laws : StdRngLaws Z.
Proof.
  split; [|done]. intros n g Hn. exists (g mod n), (g + 1). split; [|by apply Z.mod_pos_bound].
  unfold gen_range, counter_rng. zbool. done.
Qed.

#[export] Instance gmap_iter K V `{Countable K} : DashMapIter K V := map_to_list.

#[export] Instance gmap_iter_laws K V `{Countable K} : DashMapIterLaws K V.
Proof. by intros m. Qed.

(** A pool is its manager and whether it is open. *)
#[export] Instance pair_pool Mgr : Deadpool Mgr (Mgr * bool) := {|
  pool_build := fun m _ => Some (m, true);
  pool_close := fun p => (fst p, false);
|}.

#[export] Instance pair_pool_laws Mgr : DeadpoolLaws Mgr (Mgr * bool).
Proof. refine {| pool_manager := fst |}. intros m n. by eexists. Defined.

(** Every address but the empty one can be connected to. *)
#[export] Instance address_channel : Tonic bytes := fun a =>
  if decide (a = str "http://") then None else Some a.

Fixpoint scheme_of (acc b : bytes) : option bytes :=
  match b with
  | 58 :: 47 :: 47 :: _ => Some acc
  | c :: t => scheme_of (acc ++ [c]) t
  | [] => None
  end.

#[export] Instance scheme_uri : HttpUri := fun b => if decide (b = []) then None else Some (scheme_of [] b).
