(* ===== verification/CpResolver.v ===== *)
(** * The control plane resolver ([backend/control_plane_resolver.rs])

    The resolver asks the control plane for its members every second, keeps a channel to each,
    and hands out an available one, round robin, to the discovery task. *)
From S2P Require Import Prelude External Runtime.

(** ** Definitions *)

Record CpBackend : Type := MkCpBackend {
  cb_name : bytes; cb_generation : Z; cb_role : Z; cb_gossip_addr : bytes;
  cb_service_addr : bytes; cb_address : bytes; cb_ready : Z }.

Inductive CpChannelStatus : Type := Unavailable | Available.

#[export] Instance CpChannelStatus_eq_dec : EqDecision CpChannelStatus.
Proof. solve_decision. Defined.

Record CpChannel (Ch : Type) : Type := MkCpChannel {
  cc_status : CpChannelStatus;
  cc_generation : Z;
  cc_channel : Ch;
  cc_backend_name : bytes;
  cc_service : bytes;
  cc_endpoint : bytes;
}.
Arguments MkCpChannel {Ch} _ _ _ _ _ _.
Arguments cc_status {Ch} _.
Arguments cc_generation {Ch} _.
Arguments cc_channel {Ch} _.
Arguments cc_backend_name {Ch} _.
Arguments cc_service {Ch} _.
Arguments cc_endpoint {Ch} _.

(** [interval] in seconds; [cr_started] is the flag under the condition variable. *)
Record CpResolver (Ch : Type) : Type := MkCpResolver {
  cr_cp_service : bytes;
  cr_interval : Z;
  cp_backends : gmap bytes (CpChannel Ch);
  cr_started : bool;
  pick_index : Z;
}.
Arguments MkCpResolver {Ch} _ _ _ _ _.
Arguments cr_cp_service {Ch} _.
Arguments cr_interval {Ch} _.
Arguments cp_backends {Ch} _.
Arguments cr_started {Ch} _.
Arguments pick_index {Ch} _.

Section resolver.
Context {Ch : Type} `{Tonic Ch} `{HttpUri} `{!DashMapIter bytes (CpChannel Ch)}.

Definition set_backends (m : gmap bytes (CpChannel Ch)) (s : CpResolver Ch) : CpResolver Ch :=
  MkCpResolver (cr_cp_service s) (cr_interval s) m (cr_started s) (pick_index s).
Definition set_pick (n : Z) (s : CpResolver Ch) : CpResolver Ch :=
  MkCpResolver (cr_cp_service s) (cr_interval s) (cp_backends s) (cr_started s) n.
Definition set_started (s : CpResolver Ch) : CpResolver Ch :=
  MkCpResolver (cr_cp_service s) (cr_interval s) (cp_backends s) true (pick_index s).

Definition cp_channel_new (b : CpBackend) : option (CpChannel Ch) :=
  match tonic_connect (str "http://" ++ cb_service_addr b) with
  | Some ch => Some (MkCpChannel Available (cb_generation b) ch (cb_name b) (cb_service_addr b) (cb_address b))
  | None => None
  end.

Definition cp_resolver_new (cp_service : bytes) (interval : option Z) : outcome io_error (CpResolver Ch) :=
  scheme ← unwrap_option (uri_scheme cp_service);
  let cp_addr := if bool_decide (scheme = Some (str "http")) then cp_service
                 else str "http://" ++ cp_service in
  Ok (MkCpResolver cp_addr (default 1 interval) ∅ false 0).

Definition available_channels (s : CpResolver Ch) : list (CpChannel Ch) :=
  filter (fun c => cc_status c = Available) (map snd (dm_iter (cp_backends s))).

(** [fetch_add] wraps at [usize]. *)
Definition get_cp_backend : M (CpResolver Ch) (CpChannel Ch) :=
  s ← get;
  let available := available_channels s in
  let pick := (pick_index s + 1) mod U64 in
  _ ← modify (set_pick pick);
  index ← (if len available <=? pick then _ ← modify (set_pick 0); mret 0 else mret pick);
  lift (unwrap_option (available !! Z.to_nat index)).

Definition set_status (st : CpChannelStatus) (c : CpChannel Ch) : CpChannel Ch :=
  MkCpChannel st (cc_generation c) (cc_channel c) (cc_backend_name c) (cc_service c) (cc_endpoint c).

Definition mark_backend_unavailable (name : bytes) : M (CpResolver Ch) unit :=
  modify (fun s => match cp_backends s !! name with
                   | Some c => set_backends (<[name := set_status Unavailable c]> (cp_backends s)) s
                   | None => s
                   end).

(** What becomes of a known channel when its member is listed again. *)
Definition renew (b : CpBackend) (new old : CpChannel Ch) : CpChannel Ch :=
  match cc_status old with
  | Unavailable =>
      MkCpChannel Available (cb_generation b) (cc_channel new) (cc_backend_name old)
        (cc_service old) (cc_endpoint old)
  | Available =>
      if cc_generation old <? cb_generation b then
        MkCpChannel Available (cb_generation b) (cc_channel new) (cc_backend_name old)
          (cc_service old) (cc_endpoint old)
      else old
  end.

(** The body of the [for_each] of [update_backends]. *)
Definition update_one (m : gmap bytes (CpChannel Ch)) (b : CpBackend) : gmap bytes (CpChannel Ch) :=
  match cp_channel_new b with
  | Some new =>
      match m !! cb_name b with
      | Some old => <[cb_name b := renew b new old]> m
      | None => <[cb_name b := new]> m
      end
  | None => delete (cb_name b) m
  end.

Definition update_backends (new : list CpBackend) : M (CpResolver Ch) unit :=
  modify (fun s =>
    let known := filter (fun kv => kv.1 ∈ map cb_name new) (cp_backends s) in
    set_backends (foldl update_one known new) s).

(** [answer] is what the request for the members gives: [None] for a failed request or a body
    that is not a list of members. *)
Definition refresh_backends (answer : option (list CpBackend)) : M (CpResolver Ch) unit :=
  match answer with
  | Some backends => update_backends backends
  | None => throw OtherIo
  end.

(** One turn of the ticker in [start]. *)
Definition resolver_tick (answer : option (list CpBackend)) : M (CpResolver Ch) unit :=
  _ ← refresh_backends answer;
  s ← get;
  if negb (bool_decide (cp_backends s = ∅)) && negb (cr_started s) then modify set_started else mret tt.

(** [None] while it waits on the condition variable. *)
Definition wait_for_backends_ready (s : CpResolver Ch) : option unit := if cr_started s then Some tt else None.

Inductive resolver_event : Type :=
  | Tick (answer : option (list CpBackend))
  | ResolverShutdown.

(** [start], driven by its events: [Some tt] once it has returned, [None] while it waits. *)
Fixpoint resolver_start (evs : list resolver_event) : M (CpResolver Ch) (option unit) :=
  match evs with
  | [] => mret None
  | Tick answer :: evs => _ ← resolver_tick answer; resolver_start evs
  | ResolverShutdown :: _ => mret (Some tt)
  end.

End resolver.

(** ** Picking a backend *)

Section picking.
Context {Ch : Type} `{!DashMapIter bytes (CpChannel Ch)}.

(** [k] picks in a row. *)
Fixpoint pick_many (k : nat) : M (CpResolver Ch) (list (CpChannel Ch)) :=
  match k with
  | O => mret []
  | S k => c ← get_cp_backend; cs ← pick_many k; mret (c :: cs)
  end.

Lemma set_pick_available n (s : CpResolver Ch) : available_channels (set_pick n s) = available_channels s.
Proof. done. Qed.

(** The next index, whatever the last one was. *)
Definition next_pick (n p : Z) : Z := if n <=? p + 1 then 0 else p + 1.

Lemma get_cp_backend_next (s : CpResolver Ch) : 0 <= pick_index s -> pick_index s + 1 < U64 ->
  get_cp_backend s
  = (unwrap_option (available_channels s !! Z.to_nat (next_pick (len (available_channels s)) (pick_index s))),
     set_pick (next_pick (len (available_channels s)) (pick_index s)) s).
Proof.
  intros Hp Hu. unfold get_cp_backend, next_pick. mstep. rewrite Z.mod_small by lia.
  destruct (Z.leb_spec (len (available_channels s)) (pick_index s + 1)); mstep; reflexivity.
Qed.

(** Picks that stay within the list. *)
Lemma pick_many_run k (s : CpResolver Ch) : 0 <= pick_index s ->
  pick_index s + Z.of_nat k < len (available_channels s) -> len (available_channels s) < U64 ->
  pick_many k s = (Ok (take k (drop (Z.to_nat (pick_index s + 1)) (available_channels s))),
                   set_pick (pick_index s + Z.of_nat k) s).
Proof.
  revert s. induction k as [|k IH]; intros s Hp Hk Hu.
  { cbn [pick_many take]. mstep. replace (pick_index s + Z.of_nat 0) with (pick_index s) by lia. by destruct s. }
  cbn [pick_many]. rewrite run_bind, get_cp_backend_next by lia. unfold next_pick. zbool.
  destruct (lookup_lt_is_Some_2 (available_channels s) (Z.to_nat (pick_index s + 1))) as [c Hc];
    [unfold len in *; lia|].
  rewrite Hc. cbn [unwrap_option]. rewrite run_bind, IH; rewrite ?set_pick_available; cbn [set_pick pick_index]; try lia.
  mstep. rewrite (drop_S _ c _ Hc). cbn [take].
  replace (S (Z.to_nat (pick_index s + 1))) with (Z.to_nat (pick_index s + 1 + 1)) by lia.
  by replace (pick_index s + Z.of_nat (S k)) with (pick_index s + 1 + Z.of_nat k) by lia.
Qed.

Lemma pick_many_app a b (s : CpResolver Ch) :
  pick_many (a + b) s = (xs ← pick_many a; ys ← pick_many b; mret (xs ++ ys)) s.
Proof.
  revert s. induction a as [|a IH]; intros s; cbn [Nat.add pick_many].
  - mstep. destruct (pick_many b s) as [[]]; reflexivity.
  - mstep. destruct (get_cp_backend s) as [[c| | |] s1]; [|reflexivity..]. mstep. rewrite IH. mstep.
    destruct (pick_many a s1) as [[xs| | |] s2]; [|reflexivity..]. mstep.
    destruct (pick_many b s2) as [[ys| | |] s3]; reflexivity.
Qed.

Lemma round_robin_order (s : CpResolver Ch) : 0 <= pick_index s < len (available_channels s) ->
  len (available_channels s) < U64 ->
  pick_many (length (available_channels s)) s
  = (Ok (drop (Z.to_nat (pick_index s + 1)) (available_channels s) ++
         take (Z.to_nat (pick_index s + 1)) (available_channels s)), s).
Proof.
  intros Hp Hu. set (l := available_channels s) in *. set (p := pick_index s) in *.
  pose (a := Z.to_nat (len l - 1 - p)). pose (b := Z.to_nat p).
  assert (length l = a + S b)%nat as Hl by (unfold a, b, len in *; lia). rewrite Hl.
  rewrite pick_many_app, run_bind, pick_many_run by (fold l p; unfold a, len in *; lia). fold l p.
  replace (p + Z.of_nat a) with (len l - 1) by (unfold a, len in *; lia).
  rewrite (take_ge (drop _ l)) by (rewrite length_drop; unfold a, len in *; lia).
  mstep. cbn [pick_many]. rewrite run_bind, get_cp_backend_next;
    rewrite ?set_pick_available; cbn [set_pick pick_index]; try (fold l; lia).
  fold l. unfold next_pick. zbool.
  destruct l as [|c t] eqn:El; [unfold len in Hp; simpl in Hp; lia|].
  change ((c :: t) !! Z.to_nat 0) with (Some c). cbn [unwrap_option].
  rewrite run_bind, pick_many_run; rewrite ?set_pick_available; cbn [set_pick pick_index];
    fold l; rewrite ?El; try (unfold b, len in *; simpl in *; lia).
  mstep. replace (Z.to_nat (0 + 1)) with 1%nat by lia.
  replace (Z.to_nat (p + 1)) with (S b) by (unfold b; lia). cbn [drop take].
  repeat f_equal. unfold b. replace (0 + Z.of_nat (Z.to_nat p)) with p by lia. unfold p. by destruct s.
Qed.

(** (C33) Round robin: as many picks in a row as there are available control plane backends return
    each of them exactly once, and leave the resolver as it was. *)
Theorem get_cp_backend_round_robin (s : CpResolver Ch) :
  0 <= pick_index s < len (available_channels s) -> len (available_channels s) < U64 ->
  exists cs, pick_many (length (available_channels s)) s = (Ok cs, s) /\ cs ≡ₚ available_channels s.
Proof.
  intros Hp Hu. eexists. split; [by apply round_robin_order|].
  rewrite Permutation_app_comm. by rewrite take_drop.
Qed.

(** When no backend is available the pick unwraps [None]. *)
Lemma get_cp_backend_none (s : CpResolver Ch) : available_channels s = [] -> fst (get_cp_backend s) = Panic.
Proof.
  intros Ha. unfold get_cp_backend. mstep. rewrite Ha. cbv zeta. change (len []) with 0.
  destruct (0 <=? _); mstep; by rewrite lookup_nil.
Qed.

End picking.

(** ** Refreshing the members *)

Section refreshing.
Context {Ch : Type} `{Tonic Ch}.

(** What the table should have for a listed member. *)
Definition resolved (old : option (CpChannel Ch)) (b : CpBackend) : option (CpChannel Ch) :=
  new ← cp_channel_new b; Some (match old with Some o => renew b new o | None => new end).

Lemma update_one_lookup (m : gmap bytes (CpChannel Ch)) b name :
  update_one m b !! name = if decide (name = cb_name b) then resolved (m !! name) b else m !! name.
Proof.
  unfold update_one, resolved. case_decide as E.
  - subst name. destruct (cp_channel_new b); cbn [mbind option_bind]; [|by rewrite lookup_delete_eq].
    destruct (m !! cb_name b); by rewrite lookup_insert_eq.
  - destruct (cp_channel_new b); [|by rewrite lookup_delete_ne by congruence].
    destruct (m !! cb_name b); by rewrite lookup_insert_ne by congruence.
Qed.

Lemma foldl_update_other (new : list CpBackend) (m : gmap bytes (CpChannel Ch)) (name : bytes) :
  (name ∉ map cb_name new) -> foldl update_one m new !! name = m !! name.
Proof.
  revert m. induction new as [|b new IH]; intros m Hn; [done|]. cbn [foldl map] in *.
  apply not_elem_of_cons in Hn as [Hb Hn]. rewrite IH, update_one_lookup by done. by rewrite decide_False.
Qed.

Lemma foldl_update_listed (new : list CpBackend) (m : gmap bytes (CpChannel Ch)) b : NoDup (map cb_name new) -> b ∈ new ->
  foldl update_one m new !! cb_name b = resolved (m !! cb_name b) b.
Proof.
  revert m. induction new as [|x new IH]; intros m Hd Hb; [by apply elem_of_nil in Hb|].
  cbn [foldl map] in *. apply NoDup_cons in Hd as [Hx Hd]. apply elem_of_cons in Hb as [->|Hb].
  - rewrite foldl_update_other, update_one_lookup by done. by rewrite decide_True.
  - rewrite IH, update_one_lookup by done. rewrite decide_False; [done|]. intros E. apply Hx.
    rewrite <- E. by apply (list_elem_of_fmap_2 cb_name).
Qed.

Lemma resolved_available old b c : (forall o, old = Some o -> cc_backend_name o = cb_name b) ->
  resolved old b = Some c ->
  cc_status c = Available /\ cc_backend_name c = cb_name b.
Proof.
  unfold resolved, cp_channel_new. intros Ho. destruct (tonic_connect _) as [ch|]; [|done].
  cbn [mbind option_bind]. destruct old as [o|]; intros [= <-]; [|done].
  specialize (Ho o eq_refl). unfold renew. destruct (cc_status o) eqn:E; [done|]. by case_match.
Qed.

(** Every channel is stored under the name of its backend. *)
Definition names_ok (m : gmap bytes (CpChannel Ch)) : Prop :=
  forall name c, m !! name = Some c -> cc_backend_name c = name.

(** (C32) A refresh, with a list of distinct names, makes the table follow the list exactly: a member that can be
    connected to is there, renewed from its old entry if it had one; every other name is gone;
    and every entry left is available and stored under its own name. *)
Theorem update_backends_spec (new : list CpBackend) (s : CpResolver Ch) :
  NoDup (map cb_name new) -> names_ok (cp_backends s) ->
  exists s', update_backends new s = (Ok tt, s') /\
    (forall b, b ∈ new -> cp_backends s' !! cb_name b = resolved (cp_backends s !! cb_name b) b) /\
    (forall name : bytes, (name ∉ map cb_name new) -> cp_backends s' !! name = None) /\
    names_ok (cp_backends s') /\
    (forall name c, cp_backends s' !! name = Some c -> cc_status c = Available) /\
    pick_index s' = pick_index s /\ cr_started s' = cr_started s.
Proof.
  intros Hd Hn. eexists. split; [reflexivity|]. cbn [cp_backends set_backends].
  set (known := filter _ _).
  assert (forall b, b ∈ new -> foldl update_one known new !! cb_name b = resolved (cp_backends s !! cb_name b) b) as H1.
  { intros b Hb. rewrite foldl_update_listed by done. f_equal. unfold known.
    assert (cb_name b ∈ map cb_name new) as Hin by by apply (list_elem_of_fmap_2 cb_name).
    destruct (cp_backends s !! cb_name b) as [c|] eqn:E.
    - apply map_lookup_filter_Some. done.
    - apply map_lookup_filter_None. by left. }
  assert (forall name : bytes, (name ∉ map cb_name new) -> foldl update_one known new !! name = None) as H2.
  { intros name Hne. rewrite foldl_update_other by done. apply map_lookup_filter_None. right. intros c _ Hc. by apply Hne. }
  assert (forall name c, foldl update_one known new !! name = Some c ->
            cc_status c = Available /\ cc_backend_name c = name) as H3.
  { intros name c Hc. destruct (decide (name ∈ map cb_name new)) as [Hin|Hin].
    - apply (list_elem_of_fmap_1 cb_name) in Hin as (b & -> & Hb). rewrite H1 in Hc by done.
      eapply resolved_available; [|done]. intros o Ho. by apply Hn.
    - by rewrite H2 in Hc. }
  split; [done|]. split; [done|]. split; [intros n c Hc; by destruct (H3 n c Hc)|].
  split; [intros n c Hc; by destruct (H3 n c Hc)|done].
Qed.

End refreshing.

(** One failed request for the members ends the resolver: [start] returns the error, and the
    table is never refreshed again. *)
Example resolver_stops_on_error (s : CpResolver bytes) evs :
  resolver_start (Tick None :: evs) s = (Err OtherIo, s).
Proof. reflexivity. Qed.

(** ** Witnesses *)

Definition member (n : String.string) (g : Z) : CpBackend :=
  MkCpBackend (str n) g 0 [] (str n) (str n) 1.

Definition three_members : list CpBackend := [member "a" 1; member "b" 1; member "c" 2].

Definition fresh_resolver : CpResolver bytes := MkCpResolver (str "http://cp") 1 ∅ false 0.

Definition refreshed : CpResolver bytes := snd (resolver_tick (Some three_members) fresh_resolver).

Lemma get_cp_backend_round_robin_witness :
  exists cs, pick_many (length (available_channels refreshed)) refreshed = (Ok cs, refreshed) /\ cs ≡ₚ available_channels refreshed.
Proof.
  apply (get_cp_backend_round_robin refreshed); [by split; vm_compute|by vm_compute].
Defined.

Lemma update_backends_spec_witness : exists s',
  update_backends [member "a" 0; member "d" 1] refreshed = (Ok tt, s') /\
  cp_backends s' !! str "b" = None.
Proof.
  destruct (update_backends_spec [member "a" 0; member "d" 1] refreshed) as (s' & E & _ & H & _).
  - apply (bool_decide_unpack _). by vm_compute.
  - intros name c. assert (map_Forall (fun n c => cc_backend_name c = n) (cp_backends refreshed)) as Hm
      by (apply (bool_decide_unpack _); by vm_compute). apply Hm.
  - exists s'. split; [exact E|]. apply H. apply (bool_decide_unpack _). by vm_compute.
Defined.
