(* ===== verification/Discovery.v ===== *)
(** * Backend discovery ([backend/backend_discovery.rs])

    The discovery task subscribes to the tenants' backends at the control plane and keeps, for
    each tenant, the list of its backends; each change is also sent on a watch channel, from
    which the router learns of it. *)
From stdpp Require Import pretty.
From S2P Require Import Prelude External Proto Runtime CpResolver.

(** ** Definitions *)

Definition SQL_PORT : bytes := str "sql-port".

(** The errors of the task, whose causes are texts, and how they print. *)
Inductive BackendDiscoveryError : Type :=
  | ConnectTopologyServiceError (addr cause : bytes)
  | SendSubscribeRequestError (addr request cause : bytes)
  | RetryTimeout (timeout : Z) (addr : bytes)
  | SubscribeError (addr cause : bytes).

Definition discovery_error_text (e : BackendDiscoveryError) : bytes :=
  match e with
  | ConnectTopologyServiceError addr cause =>
      str "Failed to connect to topology service. Address " ++ addr ++ str " cause by " ++ cause
  | SendSubscribeRequestError addr request cause =>
      str "Failed to send subscribe request to topology service. service addr is " ++ addr ++ str ", Request " ++
      request ++ str " cause by " ++ cause
  | RetryTimeout timeout addr => str "Retry failed timeout " ++ str (pretty timeout) ++ str " topology service is " ++ addr
  | SubscribeError addr cause =>
      str "Failed to subscribe topology service. service addr is " ++ addr ++ str ", cause by" ++ cause
  end.

(** [db_instance_chan] is the sender with the one receiver that is cloned and read. *)
Record BackendDiscovery (TC WC : Type) : Type := MkDiscovery {
  bd_node_id : bytes;
  bd_namespace : bytes;
  tenant_key_chan : TC;
  tenants : gmap TenantKey (list BackendInstance);
  db_instance_chan : WC;
}.
Arguments MkDiscovery {TC WC} _ _ _ _ _.
Arguments bd_node_id {TC WC} _.
Arguments bd_namespace {TC WC} _.
Arguments tenant_key_chan {TC WC} _.
Arguments tenants {TC WC} _.
Arguments db_instance_chan {TC WC} _.

(** [format!("{}:{}", address, port)] *)
Definition format_addr (e : Endpoint) : bytes := ep_address e ++ str ":" ++ str (pretty (ep_port e)).

(** The tenant and the backend of a change event; [unwrap] and [assert!] fail on an event
    without service, SQL endpoint or location. *)
Definition event_instance (event : ServiceChangeEvent) : outcome io_error (TenantKey * BackendInstance) :=
  db_service ← unwrap_option (ev_service event);
  endpoint ← unwrap_option (snd <$> list_find (fun e => ep_port_name e = SQL_PORT) (svc_endpoints db_service));
  location ← unwrap_option (svc_location db_service);
  let namespace := loc_namespace location in
  let cluster_name := svc_cluster db_service in
  Ok (MkTenantKey [] [] namespace cluster_name,
      MkBackendInstance location (format_addr endpoint) (service_status_of_i32 (svc_status db_service))
        (MkClusterName namespace cluster_name)).

(** [retain(|e| e.addr != addr)] and [push_back] *)
Definition replace_addr (b : BackendInstance) (l : list BackendInstance) : list BackendInstance :=
  filter (fun e => be_addr e <> be_addr b) l ++ [b].

Section discovery.
Context {TC WC : Type} `{!Mpsc TenantKey TC} `{!Watch BackendInstance WC}.

Abbreviation discovery := (BackendDiscovery TC WC).

Definition set_chan (c : TC) (d : discovery) : discovery :=
  MkDiscovery (bd_node_id d) (bd_namespace d) c (tenants d) (db_instance_chan d).
Definition set_tenants (t : gmap TenantKey (list BackendInstance)) (d : discovery) : discovery :=
  MkDiscovery (bd_node_id d) (bd_namespace d) (tenant_key_chan d) t (db_instance_chan d).
Definition set_watch (w : WC) (d : discovery) : discovery :=
  MkDiscovery (bd_node_id d) (bd_namespace d) (tenant_key_chan d) (tenants d) w.

(** [tc] and [wc] are the new channels. *)
Definition discovery_new (node_id namespace : bytes) (tc : TC) (wc : WC) : discovery :=
  MkDiscovery node_id namespace tc ∅ wc.

Definition unsubscribed_tenants (t : TenantKey) : M discovery unit :=
  modify (fun d => set_tenants (<[t := []]> (tenants d)) d).

Definition subscribe_for (t : TenantKey) : M discovery unit :=
  d ← get;
  let '(accepted, c) := mpsc_send t (tenant_key_chan d) in
  _ ← modify (set_chan c);
  if accepted : bool then mret tt else throw OtherIo.

Definition subscribe_request (d : discovery) (t : TenantKey) : SubscribeNamespaceRequest :=
  MkSubscribeNamespaceRequest
    (Some (MkDBLocation (tk_region t) (tk_available_zone t) (tk_namespace t) []))
    (Some (MkSubscribeId (bd_node_id d) (bd_namespace d) (bd_node_id d))) true ∅.

(** One turn of [send_stream]: [None] while it waits for a tenant, [Some None] at its end. *)
Definition send_stream_next (d : discovery) : option (option SubscribeNamespaceRequest * discovery) :=
  match mpsc_recv (tenant_key_chan d) with
  | Some (Some t, c) => Some (Some (subscribe_request d t), set_chan c d)
  | Some (None, c) => Some (None, set_chan c d)
  | None => None
  end.

(** One message of [recv_stream]. *)
Definition on_response (resp : Response) : M discovery unit :=
  match resp_payload resp with
  | Some (ChangeEvent event) =>
      '(tenant_key, backend_instance) ← lift (event_instance event);
      d ← get;
      l ← lift (unwrap_option (tenants d !! tenant_key));
      _ ← modify (set_tenants (<[tenant_key := replace_addr backend_instance l]> (tenants d)));
      let '(accepted, w) := watch_send backend_instance (db_instance_chan d) in
      _ ← modify (set_watch w);
      if accepted : bool then mret tt else throw OtherIo
  | None => throw OtherIo
  | Some _ => panic
  end.

(** The messages of the stream: [None] is a transport error, the end of the list its end. *)
Fixpoint recv_stream (msgs : list (option Response)) : M discovery unit :=
  match msgs with
  | [] => mret tt
  | None :: _ => throw OtherIo
  | Some resp :: msgs => _ ← on_response resp; recv_stream msgs
  end.

(** What [subscribe_namespace] gives: an error, or the messages received before the stream ends
    or the proxy shuts down ([select!] returns [Ok] in both cases). *)
Inductive subscription : Type :=
  | RpcError
  | RpcStream (msgs : list (option Response)).

Definition send_subscribe (sub : subscription) : M discovery unit :=
  match sub with
  | RpcError => throw OtherIo
  | RpcStream msgs => recv_stream msgs
  end.

End discovery.

Section discover.
Context {TC WC Ch : Type} `{!Mpsc TenantKey TC} `{!Watch BackendInstance WC}.
Context `{!DashMapIter bytes (CpChannel Ch)} `{!DashMapIter TenantKey (list BackendInstance)}.

(** The discovery task works on the discovery and on the resolver. *)
Abbreviation both := (BackendDiscovery TC WC * CpResolver Ch)%type.

Definition on_discovery {A} : M (BackendDiscovery TC WC) A -> M both A :=
  zoom fst (fun d s => (d, snd s)).
Definition on_resolver {A} : M (CpResolver Ch) A -> M both A :=
  zoom snd (fun r s => (fst s, r)).

(** [self.tenants.iter().for_each(... subscribe_for(...).unwrap())] *)
Fixpoint resubscribe (ts : list TenantKey) : M both unit :=
  match ts with
  | [] => mret tt
  | t :: ts =>
      _ ← (fun s => match on_discovery (subscribe_for t) s with
                    | (Err _, s') => (Panic, s')
                    | r => r
                    end);
      resubscribe ts
  end.

(** The loop of [discover_with_retry], on the subscriptions it gets: [Some tt] once it returns,
    [None] while it waits. *)
Fixpoint discover_loop (subs : list subscription) (ch : CpChannel Ch) : M both (option unit) :=
  match subs with
  | [] => mret None
  | sub :: subs => fun s =>
      match on_discovery (send_subscribe sub) s with
      | (Ok _, s') => (Ok (Some tt), s')
      | (Err _, s') =>
          (_ ← on_resolver (mark_backend_unavailable (cc_backend_name ch));
           ch' ← on_resolver get_cp_backend;
           d ← gets fst;
           _ ← resubscribe (map fst (dm_iter (tenants d)));
           discover_loop subs ch') s'
      | (Panic, s') => (Panic, s')
      | (OutOfFuel, s') => (OutOfFuel, s')
      end
  end.

Definition discover_with_retry (subs : list subscription) : M both (option unit) :=
  ready ← gets (fun s => wait_for_backends_ready (snd s));
  match ready with
  | Some _ => ch ← on_resolver get_cp_backend; discover_loop subs ch
  | None => mret None
  end.

End discover.

(** ** The backends of a tenant *)

(** What the list of a tenant says about an address. *)
Definition by_addr (a : bytes) (l : list BackendInstance) : option BackendInstance :=
  snd <$> list_find (fun e => be_addr e = a) l.

Lemma by_addr_cons a b l : by_addr a (b :: l) = if decide (be_addr b = a) then Some b else by_addr a l.
Proof.
  unfold by_addr. cbn [list_find]. case_decide; [done|]. by destruct (list_find _ l) as [[]|].
Qed.

Lemma by_addr_replace a b l :
  by_addr a (replace_addr b l) = if decide (be_addr b = a) then Some b else by_addr a l.
Proof.
  unfold replace_addr. induction l as [|e l IH]; [by rewrite filter_nil; cbn [app]; rewrite by_addr_cons|].
  rewrite filter_cons, (by_addr_cons a e l). destruct (decide (be_addr e <> be_addr b)) as [E|E].
  - cbn [app]. rewrite by_addr_cons, IH. repeat case_decide; congruence.
  - rewrite IH. repeat case_decide; try congruence. exfalso. apply E. congruence.
Qed.

Definition addrs_distinct (l : list BackendInstance) : Prop := NoDup (map be_addr l).

Lemma replace_addr_distinct b l : addrs_distinct l -> addrs_distinct (replace_addr b l).
Proof.
  unfold addrs_distinct, replace_addr. intros Hd. rewrite map_app. apply NoDup_app. split; [|split].
  - induction l as [|e l IH]; [constructor|]. cbn [map] in Hd. apply NoDup_cons in Hd as [He Hd].
    rewrite filter_cons. case_decide; [|by apply IH]. cbn [map]. apply NoDup_cons. split; [|by apply IH].
    intros Hin. apply He. apply (list_elem_of_fmap_1 be_addr) in Hin as (x & -> & Hx).
    apply list_elem_of_filter in Hx as [_ Hx]. by apply (list_elem_of_fmap_2 be_addr).
  - intros a Ha. apply (list_elem_of_fmap_1 be_addr) in Ha as (x & -> & Hx).
    apply list_elem_of_filter in Hx as [Hx _]. cbn [map]. by rewrite list_elem_of_singleton.
  - cbn [map]. apply NoDup_singleton.
Qed.

Section properties.
Context {TC WC : Type} `{!Mpsc TenantKey TC} `{!Watch BackendInstance WC} `{!WatchLaws BackendInstance WC}.

Abbreviation discovery := (BackendDiscovery TC WC).

(** The abstract state: what is known of a tenant's backend at an address. *)
Definition known (d : discovery) (t : TenantKey) (a : bytes) : option BackendInstance :=
  tenants d !! t ≫= by_addr a.

(** Its update by an event: the last word about an address counts. *)
Definition learn (k : TenantKey -> bytes -> option BackendInstance) (e : TenantKey * BackendInstance)
  : TenantKey -> bytes -> option BackendInstance :=
  fun t a => if decide (t = fst e /\ a = be_addr (snd e)) then Some (snd e) else k t a.

(** A response that carries the event of [e]. *)
Definition carries (r : Response) (e : TenantKey * BackendInstance) : Prop :=
  exists ev, resp_payload r = Some (ChangeEvent ev) /\ event_instance ev = Ok e.

Lemma on_response_event r t b l (d : discovery) : carries r (t, b) -> tenants d !! t = Some l ->
  exists w, on_response r d = (Ok tt, set_watch w (set_tenants (<[t := replace_addr b l]> (tenants d)) d)) /\
    watch_value w = b /\ unseen w = true.
Proof.
  intros (ev & Ep & Ee) Hl. unfold on_response. rewrite Ep. mstep. rewrite Ee. mstep.
  rewrite Hl. cbn [unwrap_option]. mstep.
  destruct (watch_send_law b (db_instance_chan d)) as (w & Ew & Hv & Hu). rewrite Ew. mstep. by exists w.
Qed.

Lemma known_replace t b l (d : discovery) w t' a : tenants d !! t = Some l ->
  known (set_watch w (set_tenants (<[t := replace_addr b l]> (tenants d)) d)) t' a
  = learn (known d) (t, b) t' a.
Proof.
  intros Hl. unfold known, learn. cbn [tenants set_watch set_tenants fst snd].
  destruct (decide (t' = t)) as [->|Ht].
  - rewrite lookup_insert_eq, Hl. cbn [mbind option_bind]. rewrite by_addr_replace.
    destruct (decide (be_addr b = a)) as [<-|Ha]; [by rewrite decide_True|].
    rewrite decide_False; [done|]. by intros [_ ->].
  - rewrite lookup_insert_ne by congruence. rewrite decide_False by tauto. done.
Qed.

Lemma learn_ext k k' e : (forall t a, k t a = k' t a) -> forall t a, learn k e t a = learn k' e t a.
Proof. intros H t a. unfold learn. by case_decide. Qed.

Lemma foldl_learn_ext es : forall k k', (forall t a, k t a = k' t a) ->
  forall t a, foldl learn k es t a = foldl learn k' es t a.
Proof.
  induction es as [|e es IH]; intros k k' H t a; [apply H|]. cbn [foldl]. apply IH. by apply learn_ext.
Qed.

(** The events that are handled when the tenants [D] have a list: those before the first of
    another tenant. *)
Fixpoint before_unknown (D : gset TenantKey) (es : list (TenantKey * BackendInstance)) : list (TenantKey * BackendInstance) :=
  match es with
  | [] => []
  | e :: es => if decide (fst e ∈ D) then e :: before_unknown D es else []
  end.

Lemma on_response_unknown r t b (d : discovery) : carries r (t, b) -> tenants d !! t = None -> on_response r d = (Panic, d).
Proof. intros (ev & Ep & Ee) Ht. unfold on_response. rewrite Ep. mstep. rewrite Ee. mstep. by rewrite Ht. Qed.

Lemma recv_events rs es : Forall2 carries rs es -> forall d : discovery,
  map_Forall (fun _ l => addrs_distinct l) (tenants d) ->
  exists d', recv_stream (map Some rs) d
    = (if decide (Forall (fun e => fst e ∈ dom (tenants d)) es) then Ok tt else Panic, d') /\
    (forall t a, known d' t a = foldl learn (known d) (before_unknown (dom (tenants d)) es) t a) /\
    dom (tenants d') = dom (tenants d) /\
    map_Forall (fun _ l => addrs_distinct l) (tenants d').
Proof.
  induction 1 as [|r [t b] rs es Hr Hrs IH]; intros d Hd; [by exists d|].
  cbn [map recv_stream before_unknown fst]. rewrite run_bind. destruct (decide (t ∈ dom (tenants d))) as [Ht|Ht].
  - pose proof Ht as [l Hl]%elem_of_dom. destruct (on_response_event r t b l d Hr Hl) as (w & E & _). rewrite E.
    set (d1 := set_watch w (set_tenants (<[t := replace_addr b l]> (tenants d)) d)).
    assert (dom (tenants d1) = dom (tenants d)) as Hdom by (apply dom_insert_lookup_L; by exists l).
    destruct (IH d1) as (d' & E' & Hk & Hdom' & Hd').
    { cbn [tenants d1 set_watch set_tenants]. apply map_Forall_insert_2; [|done].
      apply replace_addr_distinct. exact (Hd t l Hl). }
    rewrite Hdom in E', Hk, Hdom'. exists d'. split; [|split; [|done]].
    + rewrite E'. f_equal. apply decide_ext. rewrite Forall_cons. tauto.
    + intros t' a. rewrite Hk. cbn [foldl]. apply foldl_learn_ext. intros t1 a1. by apply known_replace.
  - exists d. rewrite (on_response_unknown r t b) by (done || by apply not_elem_of_dom).
    rewrite decide_False by (rewrite Forall_cons; tauto). done.
Qed.


(** ** Tenants that are never learned of *)

(** What happens to the discovery outside [recv_stream]. *)
Inductive discovery_step : discovery -> discovery -> Prop :=
  | StepSubscribe t d : discovery_step d (snd (subscribe_for t d))
  | StepSend d o d' : send_stream_next d = Some (o, d') -> discovery_step d d'.

Lemma discovery_step_tenants d d' : discovery_step d d' -> tenants d' = tenants d.
Proof.
  destruct 1 as [t d|d o d' E].
  - unfold subscribe_for. mstep. destruct (mpsc_send _ _) as [[] c]; mstep; reflexivity.
  - unfold send_stream_next in E. by destruct (mpsc_recv _) as [[[]]|]; [injection E as <- <-..|].
Qed.

(** Subscribing to a tenant does not make a list for it: however often tenants are subscribed
    to and requested, the first well-formed change event unwraps a missing entry and panics the
    discovery task. *)
Theorem first_event_panics node ns tc wc (d : discovery) r e msgs :
  rtc discovery_step (discovery_new node ns tc wc) d -> carries r e ->
  fst (recv_stream (Some r :: msgs) d) = Panic.
Proof.
  intros Hsteps (ev & Ep & Ee).
  assert (tenants d = ∅) as Ht.
  { remember (discovery_new node ns tc wc) as d0 eqn:E0.
    assert (tenants d0 = ∅) as H0 by by subst. clear E0. induction Hsteps as [|d0 d1 d2 H1 H2 IH]; [done|].
    apply IH. by rewrite (discovery_step_tenants _ _ H1). }
  cbn [recv_stream]. unfold on_response. rewrite Ep. mstep. rewrite Ee. destruct e as [t b]. mstep.
  rewrite Ht, lookup_empty. done.
Qed.

Lemma event_tenant_bare ev t b : event_instance ev = Ok (t, b) -> tk_region t = [] /\ tk_available_zone t = [].
Proof. unfold event_instance. intros H. repeat inv_bind H. by injection H as <- <-. Qed.

(** Events are filed under a tenant without region and zone: the list of any other tenant never
    changes, whatever is received. *)
Lemma recv_keeps_located msgs (d : discovery) t : tk_region t <> [] \/ tk_available_zone t <> [] ->
  tenants (snd (recv_stream msgs d)) !! t = tenants d !! t.
Proof.
  intros Ht. revert d. induction msgs as [|[r|] msgs IH]; intros d; [done| |done].
  cbn [recv_stream]. rewrite run_bind.
  assert (tenants (snd (on_response r d)) !! t = tenants d !! t) as Hr.
  { unfold on_response. destruct (resp_payload r) as [[l|ev|]|]; [done| |done|done]. mstep.
    destruct (event_instance ev) as [[t' b]| | |] eqn:Ee; [|done..]. mstep.
    destruct (event_tenant_bare ev t' b Ee). destruct (tenants d !! t') as [l|]; [|done]. cbn [unwrap_option]. mstep.
    destruct (watch_send b _) as [[] w]; mstep; cbn [snd tenants set_watch set_tenants];
      rewrite lookup_insert_ne by (intros ->; tauto); done. }
  destruct (on_response r d) as [[]]; cbn [snd] in *; [by rewrite IH|done..].
Qed.

End properties.

(** ** Losing the control plane *)

Section retry.
Context {TC WC Ch : Type} `{!Mpsc TenantKey TC} `{!Watch BackendInstance WC}.
Context `{!DashMapIter bytes (CpChannel Ch)} `{!DashMapIterLaws bytes (CpChannel Ch)}
  `{!DashMapIter TenantKey (list BackendInstance)}.

Lemma available_iff (s : CpResolver Ch) c :
  c ∈ available_channels s <-> cc_status c = Available /\ exists n, cp_backends s !! n = Some c.
Proof.
  unfold available_channels. rewrite list_elem_of_filter. split; intros [Hs H]; (split; [done|]).
  - apply (list_elem_of_fmap_1 snd) in H as ([n c'] & -> & H). exists n.
    rewrite dm_iter_law in H. by apply elem_of_map_to_list.
  - destruct H as [n H]. apply elem_of_map_to_list in H. rewrite <- dm_iter_law in H.
    exact (list_elem_of_fmap_2 snd _ _ H).
Qed.

Lemma mark_unavailable_last (s : CpResolver Ch) c : available_channels s = [c] -> names_ok (cp_backends s) ->
  available_channels (snd (mark_backend_unavailable (cc_backend_name c) s)) = [].
Proof.
  intros Ha Hn. assert (c ∈ available_channels s) as Hc by (rewrite Ha; by apply list_elem_of_singleton).
  apply available_iff in Hc as [Hs [n Hc]]. pose proof (Hn _ _ Hc) as En.
  unfold mark_backend_unavailable, modify. cbn [snd]. rewrite En, Hc.
  match goal with |- ?a = _ => destruct a as [|c' l] eqn:E end; [done|]. exfalso.
  assert (c' ∈ c' :: l) as Hin by by left. rewrite <- E in Hin.
  apply available_iff in Hin as [Hs' [m Hm]]. cbn [cp_backends set_backends] in Hm.
  destruct (decide (m = n)) as [->|Hmn]; [rewrite lookup_insert_eq in Hm; by injection Hm as <-|].
  rewrite lookup_insert_ne in Hm by congruence.
  assert (c' ∈ available_channels s) as Hin by (apply available_iff; eauto).
  rewrite Ha in Hin. apply list_elem_of_singleton in Hin as ->. apply Hmn. by rewrite <- (Hn _ _ Hm).
Qed.

(** With one control plane backend available, the first subscription that fails (an RPC error,
    a transport error or an empty response) panics the discovery task: the backend is marked
    unavailable and the pick of the next one unwraps [None]. *)
Theorem discover_single_backend (d : BackendDiscovery TC WC) (r : CpResolver Ch) c sub subs :
  cr_started r = true -> names_ok (cp_backends r) -> available_channels r = [c] -> 0 <= pick_index r < U64 ->
  (exists e, fst (send_subscribe sub d) = Err e) ->
  fst (discover_with_retry (sub :: subs) (d, r)) = Panic.
Proof.
  intros Hst Hn Ha Hp [e He]. unfold discover_with_retry, wait_for_backends_ready. mstep. cbn [snd]. rewrite Hst. rewrite run_bind.
  assert (exists p, get_cp_backend r = (Ok c, set_pick p r)) as [p Eg].
  { unfold get_cp_backend. mstep. rewrite Ha. change (len [c]) with 1.
    pose proof (Z.mod_pos_bound (pick_index r + 1) U64 ltac:(done)).
    destruct (Z.leb_spec 1 ((pick_index r + 1) mod U64)); mstep.
    - eexists. split_and?; reflexivity.
    - replace ((pick_index r + 1) mod U64) with 0 by lia. by eexists. }
  unfold on_resolver at 1, zoom. cbn [fst snd]. rewrite Eg. cbn [discover_loop].
  unfold on_discovery at 1, zoom. cbn [fst snd].
  destruct (send_subscribe sub d) as [o d1] eqn:Es. cbn [fst] in He. subst o. mstep.
  unfold on_resolver at 1, zoom. cbn [fst snd].
  pose proof (mark_unavailable_last (set_pick p r) c Ha Hn) as Hm.
  destruct (mark_backend_unavailable (cc_backend_name c) (set_pick p r)) as [o r1] eqn:Em.
  assert (o = Ok tt) as -> by (unfold mark_backend_unavailable, modify in Em; by injection Em as <- _).
  mstep. unfold on_resolver, zoom. cbn [fst snd] in *. pose proof (get_cp_backend_none r1 Hm) as Hg.
  destruct (get_cp_backend r1) as [o r2]. cbn [fst] in Hg. by subst o.
Qed.

End retry.

(** ** Witnesses *)

Definition sample_tenant : TenantKey := MkTenantKey [] [] (str "ns") (str "db").

Definition sample_event (port status : Z) : Response :=
  MkResponse 0 [] (Some (ChangeEvent (MkServiceChangeEvent
    (Some (MkDBService (Some (MkDBLocation (str "r") (str "z") (str "ns") (str "node"))) (str "db") (str "svc")
      status None None [MkEndpoint (str "10.0.0.1") (str "metrics") 1; MkEndpoint (str "10.0.0.1") (str "sql-port") port] ∅)) None))).

Definition sample_instance (port status : Z) : BackendInstance :=
  MkBackendInstance (MkDBLocation (str "r") (str "z") (str "ns") (str "node"))
    (str "10.0.0.1:" ++ str (pretty port)) (service_status_of_i32 status) (MkClusterName (str "ns") (str "db")).

Lemma sample_carries port status :
  carries (sample_event port status) (sample_tenant, sample_instance port status).
Proof. by eexists. Qed.

Abbreviation sample_discovery_t := (BackendDiscovery (queue TenantKey) (cell BackendInstance)).

Definition sample_new : sample_discovery_t :=
  discovery_new (str "node-1") (str "ns") (MkQueue []) (MkCell default_instance false).

Definition sample_discovery : sample_discovery_t := snd (unsubscribed_tenants sample_tenant sample_new).


Lemma first_event_panics_witness :
  fst (recv_stream [Some (sample_event 3306 2)] (snd (subscribe_for sample_tenant sample_new))) = Panic.
Proof.
  apply (first_event_panics (str "node-1") (str "ns") (MkQueue []) (MkCell default_instance false)
    (snd (subscribe_for sample_tenant sample_new)) (sample_event 3306 2) (sample_tenant, sample_instance 3306 2) []).
  - eapply rtc_once. exact (StepSubscribe sample_tenant sample_new).
  - apply sample_carries.
Defined.

Definition one_member : CpResolver bytes := snd (resolver_tick (Some [member "a" 1]) fresh_resolver).

Lemma discover_single_backend_witness :
  fst (discover_with_retry [RpcError] (sample_discovery, one_member)) = Panic.
Proof.
  apply (discover_single_backend sample_discovery one_member
    (MkCpChannel Available 1 (str "http://a") (str "a") (str "a") (str "a")) RpcError []).
  - by vm_compute.
  - intros name c. assert (map_Forall (fun n c => cc_backend_name c = n) (cp_backends one_member)) as Hm
      by (apply (bool_decide_unpack _); by vm_compute). apply Hm.
  - by vm_compute.
  - by vm_compute.
  - by exists OtherIo.
Defined.
