(* ===== verification/Pool.v ===== *)
(** * Pooled backend connections ([backend/pool/mod.rs], [backend/pool/pooled_conn_mgr.rs])

    A pooled connection is a pair of packet streams to a backend with a life cycle: which user
    last authenticated on it and whether that succeeded.  [PooledConnMgr] tells deadpool how to
    create a connection, whether to reuse a returned one, and how to get rid of one. *)
From S2P Require Import Prelude External Proto Packet PacketWriter PacketReader Runtime.

(** ** Definitions *)

(** [time_to_idle] in seconds. *)
Record BackendPoolConfig : Type := MkPoolConfig {
  initial_size : Z; max_size : Z; time_to_idle : Z }.

Definition BACKEND_CLIENT_DEFAULT_IDLE : Z := 60 * 10.

Definition default_pool_config : BackendPoolConfig := MkPoolConfig 5 50 BACKEND_CLIENT_DEFAULT_IDLE.

(** The connection and its life cycle are each under a mutex; the holder of the pooled object is
    the only one to take them. *)
Record PooledConn (BR BW : Type) : Type := MkPooled {
  pc_id : bytes;
  inner_conn : PacketReader BR * PacketWriter BW;
  conn_life_cycle : DbUserConnLifeCycle;
}.
Arguments MkPooled {BR BW} _ _ _.
Arguments pc_id {BR BW} _.
Arguments inner_conn {BR BW} _.
Arguments conn_life_cycle {BR BW} _.

Record BackendIO (BR BW : Type) : Type := MkBackendIO {
  backend_client : PacketReader BR * PacketWriter BW;
  io_backend_addr : bytes;
}.
Arguments MkBackendIO {BR BW} _ _.
Arguments backend_client {BR BW} _.
Arguments io_backend_addr {BR BW} _.

Record PooledConnMgr : Type := MkPooledConnMgr { mgr_backend : BackendInstance }.

Section pool.
Context {BR BW : Type} `{!TcpStream BR BW} `{!AsyncWrite BW}.

Definition get_conn_life_cycle : M (PooledConn BR BW) DbUserConnLifeCycle := gets conn_life_cycle.

Definition update_conn_life_cycle (l : DbUserConnLifeCycle) : M (PooledConn BR BW) unit :=
  modify (fun p => MkPooled (pc_id p) (inner_conn p) l).

Definition pooled_close : M (PooledConn BR BW) unit :=
  zoom (fun p => snd (inner_conn p)) (fun w p => MkPooled (pc_id p) (fst (inner_conn p), w) (conn_life_cycle p))
    pw_shutdown.

Definition backend_io_new (addr : bytes) : outcome io_error (BackendIO BR BW) :=
  '(r, w) ← tcp_connect addr;
  Ok (MkBackendIO (pr_new r, pw_new w) addr).

Definition get_addr (m : PooledConnMgr) : bytes := be_addr (mgr_backend m).

Definition get_backend_instance (m : PooledConnMgr) : BackendInstance := mgr_backend m.

(** [id] is the fresh [nanoid!()]. *)
Definition create (m : PooledConnMgr) (id : bytes) : outcome io_error (PooledConn BR BW) :=
  backend_io ← unwrap (backend_io_new (get_addr m));
  Ok (MkPooled id (backend_client backend_io) default_life_cycle).

Definition recycle (p : PooledConn BR BW) : outcome io_error unit :=
  if life_cycle_is_none (conn_life_cycle p) then Ok tt
  else
    phase ← unwrap_option (lc_conn_phase (conn_life_cycle p));
    match phase with
    | PhaseConnection => Err PermissionDenied
    | _ => Ok tt
    end.

(** The result of the shutdown is only logged. *)
Definition detach (p : PooledConn BR BW) : PooledConn BR BW := snd (pooled_close p).

End pool.

(** ** Life cycles *)

(** The life cycles the proxy stores: that of a new connection, or of an authentication. *)
Definition life_cycle_ok (l : DbUserConnLifeCycle) : Prop :=
  l = default_life_cycle \/ exists u p, l = new_conn_life_cycle u p.

(** A connection may be used again unless the last authentication on it failed. *)
Lemma recycle_cases {BR BW} (p : PooledConn BR BW) : life_cycle_ok (conn_life_cycle p) ->
  recycle p = if decide (lc_conn_phase (conn_life_cycle p) = Some PhaseConnection)
              then Err PermissionDenied else Ok tt.
Proof.
  unfold recycle. intros [E|(u & ph & E)]; rewrite E; [done|]. by destruct ph.
Qed.

(** [create] unwraps the connection error: a backend that cannot be reached panics the task of
    the client that asked for it. *)
Lemma create_unreachable {BR BW} `{!TcpStream BR BW} m id e :
  tcp_connect (R := BR) (W := BW) (get_addr m) = Err e ->
  create (BR := BR) (BW := BW) m id = Panic.
Proof. unfold create, backend_io_new. by intros ->. Qed.

Lemma create_fresh {BR BW} `{!TcpStream BR BW} m id (p : PooledConn BR BW) :
  create m id = Ok p -> conn_life_cycle p = default_life_cycle /\ pc_id p = id /\
  exists r w, tcp_connect (get_addr m) = Ok (r, w) /\ inner_conn p = (pr_new r, pw_new w).
Proof.
  unfold create, backend_io_new. destruct (tcp_connect _) as [[r w]| | |]; [|done..].
  ostep. intros [= <-]. split; [done|]. split; [done|]. by exists r, w.
Qed.
