(* ===== verification/Router.v ===== *)
(** * Routers ([backend/router/])

    A router chooses a backend for a tenant: the static router among a fixed list, the
    synchronising router among the tenant's backends that discovery has learned of.  The class
    [BackendRouter] is the trait; [BackendRouterLaws] is what it promises the backend manager. *)
From S2P Require Import Prelude External Proto Runtime CpResolver Discovery.

(** ** Definitions *)

Inductive BackendRouterType : Type := RouterStatic | RouterSyncWithCp.

(** [EnumString] with the [serialize] attributes. *)
Definition router_type_from_str (s : bytes) : option BackendRouterType :=
  if decide (s = str "static") then Some RouterStatic
  else if decide (s = str "sync-with-cp") then Some RouterSyncWithCp
  else None.

Inductive BackendLoadBalancerType : Type := Random | P2C.

Definition balancer_type_from_str (s : bytes) : option BackendLoadBalancerType :=
  if decide (s = str "random") then Some Random
  else if decide (s = str "p2c") then Some P2C
  else None.

Record RandomBalancer (G : Type) : Type := MkRandomBalancer { rb_rand : G }.
Arguments MkRandomBalancer {G} _.
Arguments rb_rand {G} _.

Definition balance {G} `{StdRng G} (backends : Z) : M (RandomBalancer G) Z :=
  fun b => let '(i, g) := gen_range backends (rb_rand b) in (unwrap_option i, MkRandomBalancer g).

(** [seed] is what [StdRng::seed_from_u64] makes of the clock. *)
Definition random_balancer_new {G} (seed : G) : RandomBalancer G := MkRandomBalancer seed.

Definition new_balancer {G} (t : option BackendLoadBalancerType) (seed : G) : outcome io_error (RandomBalancer G) :=
  match t with
  | Some Random | None => Ok (random_balancer_new seed)
  | Some P2C => Panic
  end.

(** The trait.  [status_change_notify f n] calls [f] on each change, [f] working on a state [T]
    of its own; it is given [n] turns and returns [None] while it waits for the next change. *)
Class BackendRouter (Rt : Type) : Type := {
  selector : TenantKey -> BackendLoadBalancerType -> M Rt BackendInstance;
  load_backends : option TenantKey -> Rt -> outcome io_error (list BackendInstance);
  status_change_notify : forall {T}, (BackendInstance -> M T unit) -> nat -> M (Rt * T) (option unit);
}.

(** *** static_router.rs *)

Record StaticRouter (G : Type) : Type := MkStaticRouter {
  backend_addrs : list BackendInstance;
  sr_balancer : RandomBalancer G;
}.
Arguments MkStaticRouter {G} _ _.
Arguments backend_addrs {G} _.
Arguments sr_balancer {G} _.

Section static.
Context {G : Type} `{StdRng G}.

Definition static_selector : M (StaticRouter G) BackendInstance :=
  s ← get;
  selected_idx ← zoom sr_balancer (fun b s => MkStaticRouter (backend_addrs s) b) (balance (len (backend_addrs s)));
  lift (unwrap_option (backend_addrs s !! Z.to_nat selected_idx)).

(** [f(backend).await.unwrap()] for each backend. *)
Fixpoint notify_all {T} (f : BackendInstance -> M T unit) (l : list BackendInstance) : M T unit :=
  match l with
  | [] => mret tt
  | b :: l =>
      _ ← (fun t => match f b t with (Err _, t') => (Panic, t') | r => r end);
      notify_all f l
  end.

#[export] Instance static_router : BackendRouter (StaticRouter G) := {|
  selector := fun _ _ => static_selector;
  load_backends := fun _ s => Ok (backend_addrs s);
  status_change_notify := fun T f _ =>
    s ← gets fst;
    _ ← zoom snd (fun t s => (fst s, t)) (notify_all f (backend_addrs s));
    mret (Some tt);
|}.

End static.

(** *** sync_router.rs *)

Record SyncRouter (TC WC G : Type) : Type := MkSyncRouter {
  be_discovery : BackendDiscovery TC WC;
  sy_balancer : RandomBalancer G;
}.
Arguments MkSyncRouter {TC WC G} _ _.
Arguments be_discovery {TC WC G} _.
Arguments sy_balancer {TC WC G} _.

Section sync.
Context {TC WC G : Type} `{!Watch BackendInstance WC} `{StdRng G}.
Context `{!DashMapIter TenantKey (list BackendInstance)}.

Abbreviation router := (SyncRouter TC WC G).

Definition on_balancer {A} : M (RandomBalancer G) A -> M router A :=
  zoom sy_balancer (fun b s => MkSyncRouter (be_discovery s) b).

Definition sync_selector (tenant_key : TenantKey) (lb : BackendLoadBalancerType) : M router BackendInstance :=
  s ← get;
  match tenants (be_discovery s) !! tenant_key with
  | Some [] => throw NotFound
  | Some [b] => mret b
  | Some l =>
      match lb with
      | Random =>
          selected_idx ← on_balancer (balance (len l));
          lift (unwrap_option (l !! Z.to_nat selected_idx))
      | P2C => panic
      end
  | None => throw NotFound
  end.

Definition sync_load_backends (tenant_key : option TenantKey) (s : router) : outcome io_error (list BackendInstance) :=
  let all_be_list := tenants (be_discovery s) in
  match tenant_key with
  | Some t => match all_be_list !! t with Some l => Ok l | None => Err NotFound end
  | None => Ok (concat (map snd (dm_iter all_be_list)))
  end.

Definition set_router_watch (w : WC) (s : router) : router :=
  MkSyncRouter (set_watch w (be_discovery s)) (sy_balancer s).

(** The loop of [status_change_notify]; an error of [f] is only logged. *)
Fixpoint sync_notify {T} (f : BackendInstance -> M T unit) (turns : nat) : M (router * T) (option unit) :=
  match turns with
  | O => lift OutOfFuel
  | S turns => fun s =>
      match watch_changed (db_instance_chan (be_discovery (fst s))) with
      | None => (Ok None, s)
      | Some (false, w) => (Err NotFound, (set_router_watch w (fst s), snd s))
      | Some (true, w) =>
          let '(db_instance, w) := watch_borrow_and_update w in
          let s := (set_router_watch w (fst s), snd s) in
          match f db_instance (snd s) with
          | (Ok _, t) | (Err _, t) => sync_notify f turns (fst s, t)
          | (Panic, t) => (Panic, (fst s, t))
          | (OutOfFuel, t) => (OutOfFuel, (fst s, t))
          end
      end
  end.

#[export] Instance sync_router : BackendRouter router := {|
  selector := sync_selector;
  load_backends := sync_load_backends;
  status_change_notify := fun T f n => sync_notify f n;
|}.

End sync.

(** *** router/mod.rs: the two behind one type *)

Inductive BackendRouterTrait (A B : Type) : Type :=
  | StaticR (r : A)
  | SyncR (r : B).
Arguments StaticR {A B} r.
Arguments SyncR {A B} r.

Definition is_static {A B} (r : BackendRouterTrait A B) : bool :=
  match r with StaticR _ => true | SyncR _ => false end.

Section either.
Context {A B : Type} `{!BackendRouter A} `{!BackendRouter B}.

Definition either_selector (t : TenantKey) (lb : BackendLoadBalancerType)
  : M (BackendRouterTrait A B) BackendInstance :=
  fun r => match r with
           | StaticR a => let '(o, a) := selector t lb a in (o, StaticR a)
           | SyncR b => let '(o, b) := selector t lb b in (o, SyncR b)
           end.

#[export] Instance either_router : BackendRouter (BackendRouterTrait A B) := {|
  selector := either_selector;
  load_backends := fun t r => match r with StaticR a => load_backends t a | SyncR b => load_backends t b end;
  status_change_notify := fun T f n s =>
    match s with
    | (StaticR a, t) => let '(o, (a, t)) := status_change_notify f n (a, t) in (o, (StaticR a, t))
    | (SyncR b, t) => let '(o, (b, t)) := status_change_notify f n (b, t) in (o, (SyncR b, t))
    end;
|}.

End either.

(** ** What a router promises *)

(** The choice is one of the tenant's backends, and choosing changes no list. *)
Class BackendRouterLaws (Rt : Type) {ops : BackendRouter Rt} : Prop := {
  selector_member : forall t lb r b r', selector t lb r = (Ok b, r') ->
    exists l, load_backends (Some t) r = Ok l /\ b ∈ l;
  selector_pure : forall t lb r o r' k, selector t lb r = (o, r') -> load_backends k r' = load_backends k r;
}.

Lemma balance_spec {G} `{StdRng G} `{!StdRngLaws G} n (b : RandomBalancer G) : 0 < n ->
  exists i b', balance n b = (Ok i, b') /\ 0 <= i < n.
Proof.
  intros Hn. destruct (gen_range_law n (rb_rand b) Hn) as (i & g & E & Hi).
  exists i, (MkRandomBalancer g). unfold balance. by rewrite E.
Qed.

Lemma lookup_in_range {A} (l : list A) i : 0 <= i < len l -> exists x, l !! Z.to_nat i = Some x /\ x ∈ l.
Proof.
  intros Hi. destruct (lookup_lt_is_Some_2 l (Z.to_nat i)) as [x Hx]; [unfold len in *; lia|].
  exists x. split; [done|]. by eapply list_elem_of_lookup_2.
Qed.

#[export] Instance static_router_laws {G} `{StdRng G} : BackendRouterLaws (StaticRouter G).
Proof.
  split; cbn [selector load_backends static_router].
  - intros t lb r b r'. unfold static_selector. mstep. intros E. exists (backend_addrs r). split; [done|].
    destruct (zoom _ _ _ _) as [[i| | |] s]; try done. unfold lift in E.
    destruct (backend_addrs r !! Z.to_nat i) as [x|] eqn:Ex; [|done]. injection E as -> <-.
    by eapply list_elem_of_lookup_2.
  - intros t lb r o r' k. unfold static_selector. mstep. unfold zoom, balance.
    destruct (gen_range _ _) as [[i|] g]; intros [= <- <-]; done.
Qed.

#[export] Instance sync_router_laws {TC WC G} `{!Watch BackendInstance WC} `{StdRng G}
  `{!DashMapIter TenantKey (list BackendInstance)} : BackendRouterLaws (SyncRouter TC WC G).
Proof.
  split; cbn [selector load_backends sync_router].
  - intros t lb r b r'. unfold sync_selector, sync_load_backends. mstep.
    destruct (tenants (be_discovery r) !! t) as [l|]; [|done]. intros E. exists l. split; [done|].
    destruct l as [|x [|y l]]; [done|injection E as -> <-; by left|]. destruct lb; [|done].
    rewrite run_bind in E. destruct (on_balancer _ _) as [[i| | |] s]; try done. unfold lift in E.
    destruct ((x :: y :: l) !! Z.to_nat i) as [z|] eqn:Ez; [|done]. injection E as -> <-.
    by eapply list_elem_of_lookup_2.
  - intros t lb r o r' k. unfold sync_selector, sync_load_backends. mstep.
    destruct (tenants (be_discovery r) !! t) as [[|x [|y l]]|]; [by intros [= <- <-]..| |by intros [= <- <-]].
    destruct lb; [|by intros [= <- <-]]. rewrite run_bind. unfold on_balancer, zoom, balance.
    destruct (gen_range _ _) as [[i|] g]; intros [= <- <-]; done.
Qed.

#[export] Instance either_router_laws {A B} `{!BackendRouter A} `{!BackendRouter B}
  `{!BackendRouterLaws A} `{!BackendRouterLaws B} : BackendRouterLaws (BackendRouterTrait A B).
Proof.
  split; cbn [selector load_backends either_router]; unfold either_selector.
  - intros t lb [a|a] b r' E; destruct (selector t lb a) as [o a'] eqn:Ea; injection E as -> <-;
      by eapply selector_member.
  - intros t lb [a|a] o r' k E; destruct (selector t lb a) as [o' a'] eqn:Ea; injection E as <- <-;
      by eapply selector_pure.
Qed.

(** The synchronising router, on every branch: an unknown tenant, or one without backends, is
    [NotFound]; a single backend is chosen without the balancer; among several one is drawn, and
    asking for the unimplemented [P2C] policy panics. *)
Theorem sync_selector_cases {TC WC G} `{!Watch BackendInstance WC} `{StdRng G} `{!StdRngLaws G}
    `{!DashMapIter TenantKey (list BackendInstance)} (s : SyncRouter TC WC G) t lb :
  match tenants (be_discovery s) !! t with
  | None | Some [] => selector t lb s = (Err NotFound, s)
  | Some [b] => selector t lb s = (Ok b, s)
  | Some l =>
      match lb with
      | Random => exists b s', selector t lb s = (Ok b, s') /\ b ∈ l /\ be_discovery s' = be_discovery s
      | P2C => selector t lb s = (Panic, s)
      end
  end.
Proof.
  cbn [selector sync_router]. unfold sync_selector. mstep.
  destruct (tenants (be_discovery s) !! t) as [[|x [|y l]]|]; try done. destruct lb; [|done].
  rewrite run_bind. destruct (balance_spec (len (x :: y :: l)) (sy_balancer s)) as (i & b & E & Hi); [len_lia|].
  unfold on_balancer, zoom. rewrite E.
  destruct (lookup_in_range (x :: y :: l) i Hi) as (z & Ez & Hz). unfold lift. rewrite Ez. by eexists _, _.
Qed.

(** The static router with no backends panics on every client. *)
Lemma static_selector_empty {G} `{StdRng G} `{!StdRngLaws G} (s : StaticRouter G) t lb :
  backend_addrs s = [] -> fst (selector t lb s) = Panic.
Proof.
  intros E. cbn [selector static_router]. unfold static_selector. mstep. rewrite E. unfold zoom, balance.
  change (len []) with 0. pose proof (gen_range_empty (rb_rand (sr_balancer s))) as Hg.
  destruct (gen_range 0 _) as [o g]. cbn [fst] in Hg. by subst o.
Qed.

(** ** Witness *)

Lemma sync_selector_cases_witness : exists s',
  selector sample_tenant Random (MkSyncRouter
    (snd (recv_stream [Some (sample_event 3306 2); Some (sample_event 3307 2)] sample_discovery)) (MkRandomBalancer 1))
  = (Ok (sample_instance 3307 2), s').
Proof.
  pose (s := MkSyncRouter (snd (recv_stream [Some (sample_event 3306 2); Some (sample_event 3307 2)] sample_discovery))
    (MkRandomBalancer 1)). fold s.
  pose proof (sync_selector_cases s sample_tenant Random) as H.
  replace (tenants (be_discovery s) !! sample_tenant) with (Some [sample_instance 3306 2; sample_instance 3307 2]) in H
    by by vm_compute.
  destruct H as (b & s' & E & _). exists s'. rewrite E. f_equal. apply (f_equal fst) in E. by vm_compute in E.
Defined.
