(* ===== verification/BackendMgr.v ===== *)
(** * The backend manager ([backend/backend_mgr.rs])

    The manager keeps a connection pool for each backend it is told of by the router, and finds
    the pool for a client from the tenant in its handshake. *)
From S2P Require Import Prelude External Reference Utf8 Proto TenantKey Basic Runtime CpResolver Discovery Pool Router.

(** ** Definitions *)

Record BackendManagerOptions : Type := MkOptions {
  opt_tls : bool;
  opt_pool_size : Z;
  opt_static_router : bool;
  balance_type : BackendLoadBalancerType;
  pool_config : BackendPoolConfig;
}.

Definition default_options : BackendManagerOptions := MkOptions false 100 true Random default_pool_config.

(** The pools, and the pools that have been closed (a pool is a shared handle). *)
Record Pools (P : Type) : Type := MkPools {
  be_conn_pool : gmap BackendInstance P;
  closed_pools : list P;
}.
Arguments MkPools {P} _ _.
Arguments be_conn_pool {P} _.
Arguments closed_pools {P} _.

Record BackendMgr (Rt P : Type) : Type := MkMgr {
  mgr_options : BackendManagerOptions;
  mgr_router : Rt;
  mgr_pools : Pools P;
}.
Arguments MkMgr {Rt P} _ _ _.
Arguments mgr_options {Rt P} _.
Arguments mgr_router {Rt P} _.
Arguments mgr_pools {Rt P} _.

Section manager.
Context {Rt P : Type} `{!BackendRouter Rt} `{!Deadpool PooledConnMgr P}.
Context `{Profile} `{Hex} `{!DashMapIter BackendInstance P}.

Definition mgr_new (r : Rt) (o : BackendManagerOptions) : BackendMgr Rt P := MkMgr o r (MkPools ∅ []).

(** The manager of the process, made by the first call: [cell] is the [OnceLock]. *)
Definition get_or_init_backend_mgr (cell : option (BackendMgr Rt P)) (router : Rt) (mgr_options : BackendManagerOptions)
  : BackendMgr Rt P := default (mgr_new router mgr_options) cell.

Definition init_backend_pool (o : BackendManagerOptions) (b : BackendInstance) : M (Pools P) unit :=
  match be_status b with
  | Ready =>
      match pool_build (MkPooledConnMgr b) (max_size (pool_config o)) with
      | Some p => modify (fun s => MkPools (<[b := p]> (be_conn_pool s)) (closed_pools s))
      | None => throw ConnectionRefused
      end
  | Offline =>
      modify (fun s => MkPools (delete b (be_conn_pool s))
        (match be_conn_pool s !! b with Some p => pool_close p :: closed_pools s | None => closed_pools s end))
  | UnKnowStatus | NotReady => mret tt
  end.

(** [turns] as in [status_change_notify]. *)
Definition prepare_backend_conn_pool (turns : nat) : M (BackendMgr Rt P) (option unit) :=
  s ← get;
  zoom (fun s => (mgr_router s, mgr_pools s)) (fun rp s => MkMgr (mgr_options s) (fst rp) (snd rp))
    (status_change_notify (init_backend_pool (mgr_options s)) turns).

Definition client_tenant (h : HandshakeResponse) : outcome io_error TenantKey :=
  match tenant_key h with
  | Some key => s ← unwrap_option (from_utf8 key); decode_tenant_key s
  | None => Ok test_tenant_key
  end.

Definition connect_to_backend (h : HandshakeResponse) : M (BackendMgr Rt P) P :=
  s ← get;
  tenant ← lift (client_tenant h);
  backend_addr ← zoom mgr_router (fun r s => MkMgr (mgr_options s) r (mgr_pools s))
                   (selector tenant (balance_type (mgr_options s)));
  match be_conn_pool (mgr_pools s) !! backend_addr with
  | Some pool => mret pool
  | None => throw NotConnected
  end.

Definition tenant_status (s : BackendMgr Rt P) (tenant : TenantKey) : ServiceStatus :=
  let be_list := map fst (dm_iter (be_conn_pool (mgr_pools s))) in
  match list_find (fun be => cn_cluster_name (be_cluster be) = tk_cluster_name tenant /\
                             cn_namespace (be_cluster be) = tk_namespace tenant) be_list with
  | Some (_, be) => be_status be
  | None => UnKnowStatus
  end.

End manager.

(** ** The tenant of a client *)

Lemma client_tenant_encoded {X : Hex} {XL : HexLaws X} {Pr : Profile} t h : key_fits t -> last_offset t < U8 ->
  tenant_key h = Some (encode_tenant_key t) -> client_tenant h = Ok t.
Proof.
  intros Hk Ho E. unfold client_tenant. rewrite E. destruct (encode_is_str t Hk) as [cs Hcs].
  unfold from_utf8. rewrite Hcs. ostep. by apply decode_encode_key.
Qed.

(** ** The manager with a synchronising router *)

Section topology.
Context {TC WC G P : Type} `{!Watch BackendInstance WC} `{!WatchLaws BackendInstance WC}
  `{StdRng G} `{!StdRngLaws G} `{!Deadpool PooledConnMgr P} `{!DeadpoolLaws PooledConnMgr P}
  `{!DashMapIter TenantKey (list BackendInstance)} `{!DashMapIter BackendInstance P}
  {X : Hex} {XL : HexLaws X} {Pr : Profile}.

Abbreviation mgr := (BackendMgr (SyncRouter TC WC G) P).

Definition mgr_discovery (s : mgr) : BackendDiscovery TC WC := be_discovery (mgr_router s).
Definition mgr_table (s : mgr) : gmap BackendInstance P := be_conn_pool (mgr_pools s).

(** The discovery task, on the discovery the router shares with it. *)
Definition on_mgr_discovery {A} : M (BackendDiscovery TC WC) A -> M mgr A :=
  zoom mgr_discovery (fun d s => MkMgr (mgr_options s) (MkSyncRouter d (sy_balancer (mgr_router s))) (mgr_pools s)).

(** The tasks interleave: discovery handles a message or forgets the backends of a tenant, the
    notifier takes some turns, a client is connected. *)
Inductive mgr_step : mgr -> mgr -> Prop :=
  | MgrEvent r s o s' : on_mgr_discovery (on_response r) s = (o, s') -> mgr_step s s'
  | MgrTenant t s o s' : on_mgr_discovery (unsubscribed_tenants t) s = (o, s') -> mgr_step s s'
  | MgrNotify n s o s' : prepare_backend_conn_pool n s = (o, s') -> mgr_step s s'
  | MgrConnect h s o s' : connect_to_backend h s = (o, s') -> mgr_step s s'.

(** *** Pools are never removed *)

Definition pools_ready (s : Pools P) : Prop :=
  map_Forall (fun b _ => be_status b = Ready) (be_conn_pool s).

(** What init_backend_pool does to a table of ready backends. *)
Lemma init_backend_pool_grows o b s r s' : pools_ready s -> init_backend_pool o b s = (r, s') ->
  pools_ready s' /\ closed_pools s' = closed_pools s /\ dom (be_conn_pool s) ⊆ dom (be_conn_pool s').
Proof.
  intros Hr. unfold init_backend_pool. destruct (be_status b) eqn:Eb; mrun; try by intros [= <- <-].
  - destruct (pool_build _ _) as [p|]; intros [= <- <-]; [|done].
    split; [by apply map_Forall_insert_2|]. split; [done|]. cbn [be_conn_pool]. set_solver.
  - assert (be_conn_pool s !! b = None) as Hn.
    { destruct (be_conn_pool s !! b) as [p|] eqn:E; [|done]. pose proof (Hr b p E) as Hb. congruence. }
    intros [= <- <-]. rewrite Hn. unfold pools_ready. cbn [be_conn_pool closed_pools].
    by rewrite (delete_id _ _ Hn).
Qed.

(** An invariant of the callback's state survives the notifier's loop. *)
Lemma sync_notify_preserves {T} (I : T -> T -> Prop) (f : BackendInstance -> M T unit) :
  (forall t, I t t) -> (forall t1 t2 t3, I t1 t2 -> I t2 t3 -> I t1 t3) ->
  (forall b t o t', f b t = (o, t') -> I t t') ->
  forall n (r : SyncRouter TC WC G) t o r' t', sync_notify f n (r, t) = (o, (r', t')) -> I t t'.
Proof.
  intros Hrefl Htr Hf n. induction n as [|n IH]; intros r t o r' t' E.
  { injection E as _ _ <-. apply Hrefl. }
  cbn [sync_notify fst snd] in E. destruct (watch_changed _) as [[[] w]|]; [|by injection E as _ _ <-..].
  destruct (watch_borrow_and_update w) as [b w']. cbn [fst snd] in E.
  destruct (f b t) as [[] t1] eqn:Ef; apply Hf in Ef; [..|by injection E as _ _ <-|by injection E as _ _ <-];
    (eapply Htr; [exact Ef|by eapply IH]).
Qed.

Definition table_grows (s s' : Pools P) : Prop :=
  pools_ready s -> pools_ready s' /\ closed_pools s' = closed_pools s /\
  dom (be_conn_pool s) ⊆ dom (be_conn_pool s').

Lemma table_grows_trans s1 s2 s3 : table_grows s1 s2 -> table_grows s2 s3 -> table_grows s1 s3.
Proof.
  intros H1 H2 Hr. destruct (H1 Hr) as (Hr2 & E2 & D2). destruct (H2 Hr2) as (Hr3 & E3 & D3).
  split; [done|]. split; [congruence|]. by etransitivity.
Qed.

Lemma prepare_grows n (s : mgr) o s' : prepare_backend_conn_pool n s = (o, s') ->
  table_grows (mgr_pools s) (mgr_pools s').
Proof.
  unfold prepare_backend_conn_pool. mstep. unfold zoom. cbn [status_change_notify sync_router].
  destruct (sync_notify _ _ _) as [o' [r t]] eqn:E. intros [= <- <-]. cbn [mgr_pools snd].
  eapply (sync_notify_preserves table_grows); [by intros ? ?|apply table_grows_trans| |exact E].
  intros b t1 o1 t2 E1 Hr. by eapply init_backend_pool_grows.
Qed.

Lemma connect_keeps_pools h (s : mgr) o s' : connect_to_backend h s = (o, s') ->
  mgr_pools s' = mgr_pools s /\ mgr_options s' = mgr_options s /\
  mgr_discovery s' = mgr_discovery s.
Proof.
  unfold connect_to_backend. mstep. destruct (client_tenant h) as [t| | |]; try by intros [= <- <-].
  mstep. unfold zoom. cbn [selector sync_router].
  destruct (sync_selector t _ (mgr_router s)) as [o' r'] eqn:E.
  assert (be_discovery r' = be_discovery (mgr_router s)) as Hd.
  { unfold sync_selector in E. revert E. mstep.
    destruct (tenants _ !! t) as [[|x [|y l]]|]; [by intros [= <- <-]..| |by intros [= <- <-]].
    destruct (balance_type _); [|by intros [= <- <-]]. rewrite run_bind. unfold on_balancer, zoom, balance.
    destruct (gen_range _ _) as [[i|] g]; by intros [= <- <-]. }
  destruct o' as [b| | |]; try by intros [= <- <-]. cbn [mgr_pools mgr_options].
  destruct (be_conn_pool (mgr_pools s) !! b); by intros [= <- <-].
Qed.

Lemma mgr_step_grows (s s' : mgr) : mgr_step s s' -> table_grows (mgr_pools s) (mgr_pools s').
Proof.
  destruct 1 as [r s o s' E|t s o s' E|n s o s' E|h s o s' E].
  - unfold on_mgr_discovery, zoom in E. destruct (on_response r _) as [o' d]. injection E as _ <-. by intros ?.
  - unfold on_mgr_discovery, zoom in E. destruct (unsubscribed_tenants t _) as [o' d]. injection E as _ <-. by intros ?.
  - by eapply prepare_grows.
  - destruct (connect_keeps_pools h s o s' E) as (-> & _). by intros ?.
Qed.

(** (C17) A pool is never removed.  The table is keyed by whole instances, status included, and its
    keys are the instances that were ready; so the entry of a backend is not found when the
    backend goes offline.  In every run, however the tasks interleave, the table only grows, all
    its keys have status [Ready], and no pool is ever closed. *)
Theorem pools_never_removed (s s' : mgr) : rtc mgr_step s s' -> pools_ready (mgr_pools s) ->
  pools_ready (mgr_pools s') /\ closed_pools (mgr_pools s') = closed_pools (mgr_pools s) /\
  dom (mgr_table s) ⊆ dom (mgr_table s').
Proof.
  intros Hs. change (table_grows (mgr_pools s) (mgr_pools s')). induction Hs as [s|s1 s2 s3 H1 _ IH]; [by intros ?|].
  eapply table_grows_trans; [by apply mgr_step_grows|exact IH].
Qed.

Definition of_tenant (t : TenantKey) (b : BackendInstance) : Prop :=
  cn_cluster_name (be_cluster b) = tk_cluster_name t /\ cn_namespace (be_cluster b) = tk_namespace t.

(** The status of a tenant is read off the pools, so it is [Ready] when there is one for its
    cluster, and otherwise unknown: a tenant is never reported as offline or not ready. *)
Lemma tenant_status_cases `{!DashMapIterLaws BackendInstance P} (s : mgr) t : pools_ready (mgr_pools s) ->
  (tenant_status s t = Ready /\ exists b, b ∈ dom (mgr_table s) /\ of_tenant t b) \/
  (tenant_status s t = UnKnowStatus /\ forall b, b ∈ dom (mgr_table s) -> ~ of_tenant t b).
Proof.
  intros Hr. unfold tenant_status.
  assert (forall b, b ∈ map fst (dm_iter (be_conn_pool (mgr_pools s))) <-> b ∈ dom (mgr_table s)) as Hin.
  { intros b. rewrite elem_of_dom. split.
    - intros Hb. apply (list_elem_of_fmap_1 fst) in Hb as ([b' p] & -> & Hb). rewrite dm_iter_law in Hb.
      apply elem_of_map_to_list in Hb. by exists p.
    - intros [p Hb]. apply elem_of_map_to_list in Hb. rewrite <- dm_iter_law in Hb.
      exact (list_elem_of_fmap_2 fst _ _ Hb). }
  destruct (list_find _ _) as [[i b]|] eqn:E.
  - left. apply list_find_Some in E as (Hb & Hc & _). apply list_elem_of_lookup_2, Hin in Hb.
    split; [|by exists b]. apply elem_of_dom in Hb as [p Hp]. exact (Hr b p Hp).
  - right. split; [done|]. intros b Hb. apply list_find_None in E. rewrite Forall_forall in E. by apply E, Hin.
Qed.

(** *** Following one backend *)

(** The manager knows of a change once the notifier has had its turns. *)
Lemma notify_pending (s : mgr) b : watch_value (db_instance_chan (mgr_discovery s)) = b ->
  unseen (db_instance_chan (mgr_discovery s)) = true -> forall n,
  exists w, prepare_backend_conn_pool (S (S n)) s
    = (Ok None, MkMgr (mgr_options s) (set_router_watch w (mgr_router s))
                  (snd (init_backend_pool (mgr_options s) b (mgr_pools s)))) /\ unseen w = false.
Proof.
  intros Hv Hu n. unfold prepare_backend_conn_pool. mstep. unfold zoom. cbn [status_change_notify sync_router].
  cbn [sync_notify fst snd]. unfold mgr_discovery in *.
  pose proof (watch_changed_law (db_instance_chan (be_discovery (mgr_router s)))) as Hc. rewrite Hu in Hc.
  destruct Hc as (w & Ew & Hw). rewrite Ew.
  destruct (watch_borrow_law w) as (w' & Ew' & _ & Hw'). rewrite Ew', Hw, Hv. exists w'.
  assert (forall t, sync_notify (init_backend_pool (mgr_options s)) (S n)
     (set_router_watch w' (mgr_router s), t) = (Ok None, (set_router_watch w' (mgr_router s), t))) as Hwait.
  { intros t. cbn [sync_notify fst snd set_router_watch set_watch be_discovery db_instance_chan].
    pose proof (watch_changed_law w') as Hc. rewrite Hw' in Hc. by rewrite Hc. }
  cbn [sync_notify fst snd] in Hwait |- *. cbn [snd fst].
  assert (exists o, init_backend_pool (mgr_options s) b (mgr_pools s)
    = (o, snd (init_backend_pool (mgr_options s) b (mgr_pools s))) /\ o <> Panic /\ o <> OutOfFuel) as (o & Ei & H1 & H2).
  { unfold init_backend_pool. destruct (be_status b); mrun; try (by eexists).
    destruct (pool_build _ _); by eexists. }
  rewrite Ei. cbn [snd]. destruct o; try done; rewrite Hwait; done.
Qed.

Lemma event_handled r t b l (s : mgr) : carries r (t, b) -> tenants (mgr_discovery s) !! t = Some l ->
  exists s', on_mgr_discovery (on_response r) s = (Ok tt, s') /\
    tenants (mgr_discovery s') = <[t := replace_addr b l]> (tenants (mgr_discovery s)) /\
    watch_value (db_instance_chan (mgr_discovery s')) = b /\
    unseen (db_instance_chan (mgr_discovery s')) = true /\
    mgr_options s' = mgr_options s /\ mgr_pools s' = mgr_pools s.
Proof.
  intros Hr Hl. destruct (on_response_event r t b l _ Hr Hl) as (w & E & Hv & Hu).
  unfold on_mgr_discovery, zoom. rewrite E. by eexists.
Qed.

Lemma connect_one (s : mgr) t b h : client_tenant h = Ok t -> tenants (mgr_discovery s) !! t = Some [b] ->
  fst (connect_to_backend h s) = match mgr_table s !! b with Some p => Ok p | None => Err NotConnected end.
Proof.
  intros Ht Hl. unfold connect_to_backend. mstep. rewrite Ht. mstep. unfold zoom.
  cbn [selector sync_router]. unfold sync_selector. mstep. unfold mgr_discovery in Hl. rewrite Hl.
  mrun. cbn [mgr_pools]. unfold mgr_table. by destruct (be_conn_pool (mgr_pools s) !! b).
Qed.

Lemma replace_addr_same b l : Forall (fun e => be_addr e = be_addr b) l -> replace_addr b l = [b].
Proof.
  intros Hl. unfold replace_addr. replace (filter _ l) with (@nil BackendInstance); [done|].
  induction Hl as [|e l He Hl IH]; [done|]. rewrite filter_cons, decide_False by tauto. done.
Qed.

Lemma ready_pooled o b (s : Pools P) : be_status b = Ready ->
  exists p, snd (init_backend_pool o b s) = MkPools (<[b := p]> (be_conn_pool s)) (closed_pools s) /\
    pool_manager p = MkPooledConnMgr b.
Proof.
  intros Hb. unfold init_backend_pool. rewrite Hb.
  destruct (pool_build_law (MkPooledConnMgr b) (max_size (pool_config o))) as (p & -> & Hp). by exists p.
Qed.

(** A backend whose pool is in the table. *)
Definition pooled (s : mgr) (b : BackendInstance) : Prop :=
  exists p, mgr_table s !! b = Some p /\ pool_manager p = MkPooledConnMgr b.

(** The tenant has the backends [l], all with pools, and one of them can be chosen. *)
Record routable (t : TenantKey) (l : list BackendInstance) (s : mgr) : Prop := {
  routable_list : tenants (mgr_discovery s) !! t = Some l;
  routable_nonempty : l <> [];
  routable_pooled : Forall (pooled s) l;
  routable_balance : balance_type (mgr_options s) = Random \/ exists b, l = [b];
}.

Lemma routable_served t l (s : mgr) h : routable t l s -> client_tenant h = Ok t ->
  exists b p, fst (connect_to_backend h s) = Ok p /\ pool_manager p = MkPooledConnMgr b /\ b ∈ l.
Proof.
  intros [Hl Hn Hp Hb] Ht. unfold mgr_discovery in Hl.
  assert (exists b r', selector t (balance_type (mgr_options s)) (mgr_router s) = (Ok b, r') /\ b ∈ l) as (b & r' & E & Hin).
  { pose proof (sync_selector_cases (mgr_router s) t (balance_type (mgr_options s))) as Hc. rewrite Hl in Hc.
    destruct l as [|b1 [|b2 l]]; [done|by exists b1, (mgr_router s); split; [|left]|].
    destruct Hb as [Hb|[? ?]]; [|done]. rewrite Hb in *. destruct Hc as (b & r' & E & Hin & _). by exists b, r'. }
  rewrite Forall_forall in Hp. destruct (Hp b Hin) as (p & Ep & Hm). exists b, p. split; [|done].
  unfold connect_to_backend. mstep. rewrite Ht. mstep. unfold zoom. rewrite E. cbn [mgr_pools].
  unfold mgr_table in Ep. by rewrite Ep.
Qed.

(** A client comes, whoever it is and whatever it gets. *)
Definition client_comes (s s' : mgr) : Prop := exists h, s' = snd (connect_to_backend h s).

Lemma routable_kept t l (s s' : mgr) : rtc client_comes s s' -> routable t l s -> routable t l s'.
Proof.
  induction 1 as [s|s1 s2 s3 [h ->] _ IH]; [done|]. intros [Hl Hn Hp Hb]. apply IH.
  destruct (connect_keeps_pools h s1 _ _ (surjective_pairing _)) as (E1 & E2 & E3).
  split; [by rewrite E3|done| |by rewrite E2].
  eapply Forall_impl; [exact Hp|]. intros b. unfold pooled, mgr_table. by rewrite E1.
Qed.

(** (C10) A tenant is routed to its backends.  Take a tenant that has an entry, whose backends at other
    addresses have their pools, under the random balancer unless there is one address only.  Once
    discovery has handled the event that its backend at some address is ready, and the notifier
    has had its turns, every client whose user name carries the tenant's encoded key, after any
    other clients, gets the pool of one of the tenant's backends, as discovery now lists them; and
    if they all have the address of the event, the pool of that backend. *)
Theorem tenant_routed (s : mgr) r t b l h n :
  tenants (mgr_discovery s) !! t = Some l ->
  Forall (fun e => be_addr e <> be_addr b -> pooled s e) l ->
  balance_type (mgr_options s) = Random \/ Forall (fun e => be_addr e = be_addr b) l ->
  carries r (t, b) -> be_status b = Ready ->
  key_fits t -> last_offset t < U8 -> tenant_key h = Some (encode_tenant_key t) ->
  exists s1 s2, on_mgr_discovery (on_response r) s = (Ok tt, s1) /\
    prepare_backend_conn_pool (S (S n)) s1 = (Ok None, s2) /\
    tenants (mgr_discovery s2) !! t = Some (replace_addr b l) /\
    forall s3, rtc client_comes s2 s3 ->
      exists b' p, fst (connect_to_backend h s3) = Ok p /\ pool_manager p = MkPooledConnMgr b' /\ b' ∈ replace_addr b l /\
        (Forall (fun e => be_addr e = be_addr b) l -> b' = b).
Proof.
  intros Hl Ha Hbal Hr Hb Hk Ho Hh. destruct (event_handled r t b l s Hr Hl) as (s1 & E1 & Ht1 & Hv & Hu & Ho1 & Hp1).
  destruct (notify_pending s1 b Hv Hu n) as (w & E2 & _).
  destruct (ready_pooled (mgr_options s1) b (mgr_pools s1) Hb) as (p & Ep & Hp). rewrite Ep in E2.
  set (s2 := MkMgr _ _ _) in E2.
  assert (tenants (mgr_discovery s2) !! t = Some (replace_addr b l)) as Hl2.
  { unfold mgr_discovery in *. cbn [s2 mgr_router set_router_watch be_discovery set_watch tenants].
    by rewrite Ht1, lookup_insert_eq. }
  assert (routable t (replace_addr b l) s2) as Hrt.
  { split; [done|unfold replace_addr; by intros []%app_nil| |].
    - unfold replace_addr. apply Forall_app. split.
      + apply Forall_forall. intros e [He Hin]%list_elem_of_filter. rewrite Forall_forall in Ha.
        destruct (Ha e Hin He) as (q & Eq & Hq). exists q. split; [|done]. unfold mgr_table in *.
        cbn [s2 mgr_pools be_conn_pool]. rewrite lookup_insert_ne by congruence. by rewrite Hp1.
      + constructor; [|constructor]. exists p. split; [|done]. unfold mgr_table. cbn [s2 mgr_pools be_conn_pool].
        by rewrite lookup_insert_eq.
    - cbn [s2 mgr_options]. rewrite Ho1. destruct Hbal as [?|Hs]; [by left|]. right. exists b. by apply replace_addr_same. }
  exists s1, s2. split; [done|]. split; [done|]. split; [done|]. intros s3 Hs3.
  destruct (routable_served t _ s3 h (routable_kept _ _ _ _ Hs3 Hrt)) as (b' & q & E & Hq & Hin); [by apply client_tenant_encoded|].
  exists b', q. split; [done|]. split; [done|]. split; [done|]. intros Hs.
  rewrite (replace_addr_same b l Hs) in Hin. by apply list_elem_of_singleton in Hin.
Qed.


(** A backend that goes offline keeps its pool and its clients: the pool of the ready instance
    stays in the table, open, while discovery hands out the offline instance, for which there is
    no pool, so that every client of the tenant is refused. *)
Theorem offline_keeps_pool (s : mgr) r t b p h n :
  tenants (mgr_discovery s) !! t = Some [b] -> be_status b = Ready -> mgr_table s !! b = Some p ->
  pools_ready (mgr_pools s) ->
  let off := MkBackendInstance (be_location b) (be_addr b) Offline (be_cluster b) in
  carries r (t, off) -> client_tenant h = Ok t ->
  exists s1 s2, on_mgr_discovery (on_response r) s = (Ok tt, s1) /\
    prepare_backend_conn_pool (S (S n)) s1 = (Ok None, s2) /\
    mgr_table s2 !! b = Some p /\ closed_pools (mgr_pools s2) = closed_pools (mgr_pools s) /\
    fst (connect_to_backend h s2) = Err NotConnected.
Proof.
  intros Hl Hb Hp Hr off Hc Hh. destruct (event_handled r t off [b] s Hc Hl) as (s1 & E1 & T1 & Hv & Hu & O1 & P1).
  destruct (notify_pending s1 off Hv Hu n) as (w & E2 & _).
  assert (mgr_table s !! off = None) as Hn.
  { destruct (mgr_table s !! off) as [p'|] eqn:E; [|done]. by pose proof (Hr off p' E). }
  assert (snd (init_backend_pool (mgr_options s1) off (mgr_pools s1)) = mgr_pools s) as Ei.
  { rewrite P1. unfold init_backend_pool. cbn [be_status off]. mrun. cbn [snd]. unfold mgr_table in Hn.
    rewrite Hn, (delete_id _ _ Hn). by destruct (mgr_pools s). }
  rewrite Ei in E2. eexists s1, _. split; [done|]. split; [exact E2|]. unfold mgr_table in *. cbn [mgr_pools].
  split; [done|]. split; [done|]. rewrite (connect_one _ t off); [|done|].
  - unfold mgr_table. cbn [mgr_pools]. by rewrite Hn.
  - unfold mgr_discovery in *. cbn [mgr_router set_router_watch be_discovery set_watch tenants].
    rewrite T1, lookup_insert_eq, replace_addr_same; [done|]. by repeat constructor.
Qed.

End topology.

(** ** Witnesses *)

Definition routed_tenant : TenantKey := sample_tenant.
Definition other_tenant : TenantKey := MkTenantKey [] [] (str "ns2") (str "db2").

(** Two tenants without backends. *)
Definition sample_mgr : BackendMgr (SyncRouter (queue TenantKey) (cell BackendInstance) Z) (PooledConnMgr * bool) :=
  mgr_new (MkSyncRouter (snd (unsubscribed_tenants other_tenant sample_discovery)) (MkRandomBalancer 0)) default_options.

Definition tenant_client : HandshakeResponse :=
  MkHandshakeResponse 0 0 33 (Some (encode_tenant_key sample_tenant)) (Some (str "root")) [] [] None None.

Lemma sample_key : key_fits sample_tenant /\ last_offset sample_tenant < U8.
Proof.
  split; [|by vm_compute]. split; repeat constructor; try by vm_compute; by eexists.
Qed.

(** The first tenant's backend is ready and has its pool. *)
Definition ready_mgr : BackendMgr (SyncRouter (queue TenantKey) (cell BackendInstance) Z) (PooledConnMgr * bool) :=
  snd (prepare_backend_conn_pool 2 (snd (on_mgr_discovery (on_response (sample_event 3306 2)) sample_mgr))).

(** The tenant has a backend at port 3306, with its pool, and a second one, at port 3307, becomes
    ready; a first client comes, and then another. *)
Lemma tenant_routed_witness : exists s1 s2,
  on_mgr_discovery (on_response (sample_event 3307 2)) ready_mgr = (Ok tt, s1) /\
  prepare_backend_conn_pool 2 s1 = (Ok None, s2) /\
  let s3 := snd (connect_to_backend (H := true) tenant_client s2) in
  exists b p, fst (connect_to_backend (H := true) tenant_client s3) = Ok p /\ pool_manager p = MkPooledConnMgr b /\
    b ∈ [sample_instance 3306 2; sample_instance 3307 2].
Proof.
  destruct (tenant_routed (Pr := true) ready_mgr (sample_event 3307 2) sample_tenant (sample_instance 3307 2) [sample_instance 3306 2]
    tenant_client 0) as (s1 & s2 & E1 & E2 & _ & Hs).
  - by vm_compute.
  - constructor; [|constructor]. intros _. exists (MkPooledConnMgr (sample_instance 3306 2), true). by vm_compute.
  - by left.
  - apply sample_carries.
  - by vm_compute.
  - apply sample_key.
  - apply sample_key.
  - reflexivity.
  - exists s1, s2. split; [exact E1|]. split; [exact E2|]. cbv zeta.
    destruct (Hs (snd (connect_to_backend (H := true) tenant_client s2))) as (b & p & E & Hp & Hin & _).
    + apply rtc_once. by exists tenant_client.
    + exists b, p. split; [exact E|]. split; [exact Hp|]. exact Hin.
Defined.

Definition other_event : Response :=
  MkResponse 0 [] (Some (ChangeEvent (MkServiceChangeEvent
    (Some (MkDBService (Some (MkDBLocation [] [] (str "ns2") [])) (str "db2") [] 2 None None
      [MkEndpoint (str "10.0.0.2") (str "sql-port") 3306] ∅)) None))).

Definition other_instance : BackendInstance :=
  MkBackendInstance (MkDBLocation [] [] (str "ns2") []) (str "10.0.0.2:3306") Ready (MkClusterName (str "ns2") (str "db2")).


Lemma ready_mgr_pools : pools_ready (mgr_pools ready_mgr).
Proof.
  change (be_conn_pool (mgr_pools ready_mgr)) with
    (<[sample_instance 3306 2 := (MkPooledConnMgr (sample_instance 3306 2), true)]> (∅ : gmap BackendInstance (PooledConnMgr * bool))).
  apply map_Forall_insert_2; [done|apply map_Forall_empty].
Qed.

Lemma offline_keeps_pool_witness : exists s1 s2,
  on_mgr_discovery (on_response (sample_event 3306 3)) ready_mgr = (Ok tt, s1) /\
  prepare_backend_conn_pool 2 s1 = (Ok None, s2) /\
  mgr_table s2 !! sample_instance 3306 2 = Some (MkPooledConnMgr (sample_instance 3306 2), true) /\
  fst (connect_to_backend (H := true) tenant_client s2) = Err NotConnected.
Proof.
  destruct (offline_keeps_pool (Pr := true) ready_mgr (sample_event 3306 3) sample_tenant (sample_instance 3306 2)
    (MkPooledConnMgr (sample_instance 3306 2), true) tenant_client 0) as (s1 & s2 & E1 & E2 & E3 & _ & E4).
  - by vm_compute.
  - by vm_compute.
  - by vm_compute.
  - exact ready_mgr_pools.
  - apply sample_carries.
  - by vm_compute.
  - exists s1, s2. split; [exact E1|]. split; [exact E2|]. split; [exact E3|exact E4].
Defined.

Lemma pools_never_removed_witness : exists s' (p : PooledConnMgr * bool),
  rtc (mgr_step (Pr := true)) ready_mgr s' /\ mgr_table s' !! sample_instance 3306 2 = Some p.
Proof.
  pose (s1 := snd (on_mgr_discovery (on_response (sample_event 3306 3)) ready_mgr)).
  pose (s2 := snd (prepare_backend_conn_pool 2 s1)).
  assert (rtc (mgr_step (Pr := true)) ready_mgr s2) as Hs.
  { eapply rtc_l; [eapply (MgrEvent (sample_event 3306 3) ready_mgr _ s1), surjective_pairing|].
    eapply rtc_once. eapply (MgrNotify 2 s1 _ s2), surjective_pairing. }
  destruct (pools_never_removed (Pr := true) ready_mgr s2 Hs ready_mgr_pools) as (_ & _ & Hd).
  assert (sample_instance 3306 2 ∈ dom (mgr_table s2)) as Hin.
  { apply Hd, elem_of_dom. exists (MkPooledConnMgr (sample_instance 3306 2), true). by vm_compute. }
  apply elem_of_dom in Hin as [p Hp]. exists s2, p. by split.
Defined.
