(* ===== verification/Startup.v ===== *)
(** * The command line and the start of the process

    [server/proxy_cli_args.rs], [new_backend_router] of [backend/router/mod.rs], the constructor of
    the synchronising router, and [cmd/src/main.rs]: from the parsed arguments to the router, the
    options of the manager, the HTTP servers and the loop that accepts clients.  The arguments
    come parsed from clap; log levels are the business of tracing. *)
From S2P Require Import Prelude External Text Proto Runtime CpResolver Discovery Pool Router BackendMgr.

(** ** Definitions *)

Inductive BackendConfigArgs : Type :=
  | Backend (backend_addr : bytes)
  | Cluster (namespace : bytes) (cluster_name : option bytes).

Record ControlPlaneArgs : Type := MkCpArgs {
  enable_cp : bool;
  cp_target_addr : option bytes;
}.

Record ProxyServerArgs : Type := MkArgs {
  works : Z;
  port : Z;
  http_port : Z;
  arg_tls : bool;
  enable_metrics : bool;
  enable_rest : bool;
  arg_router : option bytes;
  arg_balance : option bytes;
  log_level : option bytes;
  cp_addr : option bytes;
  curr_node : option bytes;
  arg_namespace : option bytes;
  arg_backend : option BackendConfigArgs;
  cp_args : ControlPlaneArgs;
}.

Definition TEST_BACKEND_ADDRS : list BackendInstance :=
  let none := str "_NONE_" in
  [MkBackendInstance (MkDBLocation none none none none) (str "127.0.0.1:3315") Ready default_cluster].

Definition cp_listen_addr (a : ControlPlaneArgs) : option bytes :=
  if enable_cp a then
    match cp_target_addr a with Some addr => Some addr | None => Some (str "0.0.0.0:19001") end
  else None.

(** [std::env::var] of a variable: [None] when it is not set. *)
Definition environment := bytes -> option bytes.

Definition get_namespace (env : environment) (a : ProxyServerArgs) : bytes :=
  match arg_namespace a with
  | Some n => n
  | None => match env (str "MY_NAMESPACE") with Some n => n | None => str "default" end
  end.

Definition get_node_id (env : environment) (a : ProxyServerArgs) : bytes :=
  match curr_node a with
  | Some n => n
  | None => match env (str "MY_POD_NAME") with Some n => n | None => str "local_node" end
  end.

(** [str::to_lowercase], which goes through the tables of Unicode outside ASCII. *)
Class Lowercase : Type := to_lowercase : bytes -> bytes.

Class LowercaseLaws (L : Lowercase) : Prop :=
  to_lowercase_ascii : forall s, Forall (fun c => 0 <= c < 128) s -> to_lowercase s = map ascii_lower s.

Definition balancer_type `{Lowercase} (a : ProxyServerArgs) : bytes :=
  match arg_balance a with
  | Some b => to_lowercase b
  | None => to_lowercase (str "random")
  end.

Definition router_type (a : ProxyServerArgs) : outcome io_error (option BackendRouterType) :=
  match arg_router a with
  | Some r => t ← unwrap_option (router_type_from_str r); Ok (Some t)
  | None => Ok None
  end.

Definition new_backend_opts `{Lowercase} (a : ProxyServerArgs) : outcome io_error BackendManagerOptions :=
  let static := match arg_router a with Some r => eq_ignore_ascii_case r (str "static") | None => true end in
  b ← unwrap_option (balancer_type_from_str (balancer_type a));
  Ok (MkOptions (opt_tls default_options) (opt_pool_size default_options) static b (pool_config default_options)).

Definition static_backend_list (a : ProxyServerArgs) : list BackendInstance :=
  match arg_backend a with
  | Some (Backend addrs) =>
      map (fun addr => MkBackendInstance default_location addr Ready default_cluster) (split_on 44 addrs)
  | Some (Cluster _ _) | None => TEST_BACKEND_ADDRS
  end.

Section router.
Context {TC WC G Ch : Type} `{!Mpsc TenantKey TC} `{!Watch BackendInstance WC} `{HttpUri}.

(** The new channels and the random generator. *)
Variables (env : environment) (tc : TC) (wc : WC) (seed : G).

(** [get_backend_discovery]: the first call makes the discovery, later ones return it. *)
Definition get_backend_discovery (once : option (BackendDiscovery TC WC)) (node_id namespace : bytes)
  : BackendDiscovery TC WC :=
  match once with
  | Some d => d
  | None => discovery_new node_id namespace tc wc
  end.

(** The discovery that is returned, and the resolver: two tasks are spawned, [resolver_start] on
    the one and [discover_with_retry] on both. *)
Definition start_backend_discovery (once : option (BackendDiscovery TC WC))
    (curr_node namespace topology_srv_addr : bytes) : outcome io_error (BackendDiscovery TC WC * CpResolver Ch) :=
  let backend_discovery := get_backend_discovery once curr_node namespace in
  cp_srv_resolver ← cp_resolver_new topology_srv_addr None;
  Ok (backend_discovery, cp_srv_resolver).

Definition sync_router_new (once : option (BackendDiscovery TC WC)) (a : ProxyServerArgs)
  : outcome io_error (SyncRouter TC WC G * CpResolver Ch) :=
  topology_srv_addr ← unwrap_option (cp_addr a);
  '(d, r) ← start_backend_discovery once (get_node_id env a) (get_namespace env a) topology_srv_addr;
  Ok (MkSyncRouter d (MkRandomBalancer seed), r).

(** The router, and the resolver of the tasks that go with it. *)
Definition new_backend_router (a : ProxyServerArgs)
  : outcome io_error (BackendRouterTrait (StaticRouter G) (SyncRouter TC WC G) * option (CpResolver Ch)) :=
  be_router ← router_type a;
  match be_router with
  | Some RouterStatic | None => Ok (StaticR (MkStaticRouter (static_backend_list a) (MkRandomBalancer seed)), None)
  | Some RouterSyncWithCp => '(r, c) ← sync_router_new None a; Ok (SyncR r, Some c)
  end.

(** An HTTP server: its port, and whether it has the metrics route.  [start_server] unwraps the
    bind, which fails on a port that is taken. *)
Record HttpServer : Type := MkHttpServer { srv_port : Z; srv_metrics : bool }.

Definition start_server (s : HttpServer) (bound : list Z) : outcome io_error unit * list Z :=
  if bool_decide (srv_port s ∈ bound) then (Panic, bound) else (Ok tt, srv_port s :: bound).

(** The servers that are spawned, in order. *)
Definition start_metrics_and_rest (a : ProxyServerArgs) : list HttpServer :=
  (if enable_metrics a then [MkHttpServer (http_port a) true] else []) ++
  (if enable_rest a then [MkHttpServer (http_port a) false] else []).

(** Each server is a task of its own: a panic ends that task only. *)
Fixpoint start_servers (l : list HttpServer) (bound : list Z) : list (outcome io_error unit) :=
  match l with
  | [] => []
  | s :: l => let '(o, bound) := start_server s bound in o :: start_servers l bound
  end.

Definition PROXY_ENV_SYNC_ROUTER : bytes := str "PROXY_SYNC_ROUTER".

(** What [main] has when it starts to accept: the manager (with the router and the options), the
    resolver, the variable [PROXY_ENV_SYNC_ROUTER] and the HTTP servers. *)
Record process (P : Type) : Type := MkProcess {
  process_mgr : BackendMgr (BackendRouterTrait (StaticRouter G) (SyncRouter TC WC G)) P;
  process_resolver : option (CpResolver Ch);
  process_env_sync : option bytes;
  process_servers : list HttpServer;
}.
Arguments MkProcess {P} _ _ _ _.

(** [level_ok]: whether tracing accepts the log level; [port_free]: whether a port can be bound.
    Tokio's [worker_threads] panics on zero. *)
Definition main_setup `{Lowercase} {P} (level_ok : bytes -> bool) (port_free : Z -> bool) (a : ProxyServerArgs)
  : outcome io_error (process P) :=
  if negb (level_ok (default (str "DEBUG") (log_level a))) then Err OtherIo else
  if works a =? 0 then Panic else
  backend_options ← new_backend_opts a;
  '(router, resolver) ← new_backend_router a;
  if negb (port_free (port a)) then Panic else
  Ok (MkProcess (get_or_init_backend_mgr None router backend_options) resolver
        (if negb (is_static router) then Some (str "true") else env PROXY_ENV_SYNC_ROUTER)
        (start_metrics_and_rest a)).

End router.
Arguments process : clear implicits.
Arguments MkProcess {TC WC G Ch P} _ _ _ _.
Arguments process_mgr {TC WC G Ch P} _.
Arguments process_resolver {TC WC G Ch P} _.
Arguments process_env_sync {TC WC G Ch P} _.
Arguments process_servers {TC WC G Ch P} _.

(** The control plane server: [is_socket_addr] says whether [parse] takes the address for a socket
    address, which is unwrapped; the task that is spawned is tonic's.  [main] does not call it. *)
Definition start_cp_target_reporter (is_socket_addr : bytes -> bool) (cp_addr : bytes) : outcome io_error bytes :=
  if is_socket_addr cp_addr then Ok cp_addr else Panic.

(** The address the control plane is served at, if it is enabled. *)
Definition start_cp_target (is_socket_addr : bytes -> bool) (a : ProxyServerArgs) : outcome io_error (option bytes) :=
  if enable_cp (cp_args a) then
    rpc_server_addr ← unwrap_option (cp_listen_addr (cp_args a));
    addr ← start_cp_target_reporter is_socket_addr rpc_server_addr;
    Ok (Some addr)
  else Ok None.

(** What wakes the loop of [main]: a signal, a client, or a failed accept. *)
Inductive main_event (C : Type) : Type :=
  | ShutdownSignal
  | Accepted (stream : C)
  | AcceptFailed.
Arguments ShutdownSignal {C}.
Arguments Accepted {C} _.
Arguments AcceptFailed {C}.

(** The clients whose task is spawned, and whether the loop has ended. *)
Fixpoint main_loop {C} (events : list (main_event C)) : list C * bool :=
  match events with
  | [] => ([], false)
  | ShutdownSignal :: _ => ([], true)
  | Accepted c :: events => let '(cs, stopped) := main_loop events in (c :: cs, stopped)
  | AcceptFailed :: events => main_loop events
  end.

(** ** Lemmas *)

#[export] Instance lowercase_ref : Lowercase := map ascii_lower.

#[export] Instance lowercase_ref_laws : LowercaseLaws lowercase_ref.
Proof. done. Qed.

Lemma router_names r : eq_ignore_ascii_case r (str "static") = true -> router_type_from_str r <> Some RouterSyncWithCp.
Proof.
  unfold eq_ignore_ascii_case, router_type_from_str. intros H%bool_decide_eq_true.
  repeat case_decide; try done. subst r. by vm_compute in H.
Qed.

Section startup.
Context {TC WC G Ch P : Type} {MO : Mpsc TenantKey TC} {WO : Watch BackendInstance WC} {L : Lowercase} {HU : HttpUri}.
Context (env : environment) (tc : TC) (wc : WC) (seed : G) (level_ok : bytes -> bool) (port_free : Z -> bool).

Abbreviation setup := (main_setup (P := P) (TC := TC) (WC := WC) (Ch := Ch) env tc wc seed level_ok port_free).

Definition level_accepted (a : ProxyServerArgs) : Prop := level_ok (default (str "DEBUG") (log_level a)) = true.

(** The arguments a process can start with, and whether it then routes by tenant. *)
Inductive startable (a : ProxyServerArgs) : bool -> Prop :=
  | StartStatic : arg_router a = None \/ arg_router a = Some (str "static") -> startable a false
  | StartSync addr : arg_router a = Some (str "sync-with-cp") -> cp_addr a = Some addr -> is_Some (uri_scheme addr) ->
      startable a true.

Definition balance_accepted (a : ProxyServerArgs) : Prop :=
  balancer_type a = str "random" \/ balancer_type a = str "p2c".

Lemma opts_cases a : (balance_accepted a /\ exists o, new_backend_opts a = Ok o /\
    opt_static_router o = match arg_router a with Some r => eq_ignore_ascii_case r (str "static") | None => true end /\
    pool_config o = default_pool_config /\ balancer_type_from_str (balancer_type a) = Some (balance_type o)) \/
  (~ balance_accepted a /\ new_backend_opts a = Panic).
Proof.
  unfold balance_accepted, new_backend_opts, balancer_type_from_str. repeat case_decide; [left|left|right].
  - split; [by left|]. by eexists.
  - split; [by right|]. by eexists.
  - split; [|done]. by intros [?|?].
Qed.

Lemma router_cases a :
  (exists b r c, startable a b /\ new_backend_router (Ch := Ch) env tc wc seed a = Ok (r, c) /\ is_static r = negb b) \/
  ((forall b, ~ startable a b) /\ new_backend_router (Ch := Ch) env tc wc seed a = Panic).
Proof.
  unfold new_backend_router, router_type, router_type_from_str.
  destruct (arg_router a) as [r|] eqn:Er.
  - repeat case_decide; subst; ostep.
    + left. eexists _, _, _. split; [apply StartStatic; by right|]. done.
    + unfold sync_router_new, start_backend_discovery, cp_resolver_new. destruct (cp_addr a) as [addr|] eqn:Ec;
      cbn [unwrap_option]; ostep.
      * destruct (uri_scheme addr) eqn:Eu; cbn [unwrap_option]; ostep.
        -- left. eexists _, _, _. split; [eapply StartSync; [done|done|by eexists]|]. done.
        -- right. split; [|done]. intros b [[?|?]|addr' ? ? []]; congruence.
      * right. split; [|done]. intros b [[?|?]|addr ? ? ?]; congruence.
    + right. split; [|done]. intros b [[?|?]|addr ? ? ?]; congruence.
  - left. eexists _, _, _. split; [apply StartStatic; by left|]. done.
Qed.

(** (C20) The start of the process, on every command line.  It ends with an error exactly when tracing
    refuses the log level.  Otherwise it starts exactly when there are worker threads, the port is
    free, the balancer is random or p2c, and the router is absent, static, or sync-with-cp with a
    control plane address that is a URI; and it panics on all other arguments.  The option
    [static_router] agrees with the router that is built.  The variable that makes user names
    carry a tenant is set when the router synchronises with the control plane, and is left as the
    process inherits it when the router is static: it is not cleared. *)
Theorem main_setup_cases a :
  match setup a with
  | Ok p => level_accepted a /\ works a <> 0 /\ port_free (port a) = true /\ balance_accepted a /\ exists b, startable a b /\
      is_static (mgr_router (process_mgr p)) = negb b /\
      opt_static_router (mgr_options (process_mgr p)) = negb b /\
      process_env_sync p = (if b then Some (str "true") else env PROXY_ENV_SYNC_ROUTER) /\
      be_conn_pool (mgr_pools (process_mgr p)) = ∅
  | Err _ => ~ level_accepted a
  | Panic => level_accepted a /\
      (works a = 0 \/ port_free (port a) = false \/ ~ balance_accepted a \/ forall b, ~ startable a b)
  | OutOfFuel => False
  end.
Proof.
  unfold main_setup, level_accepted. destruct (level_ok _) eqn:Hl; cbn [negb]; [|done].
  destruct (Z.eqb_spec (works a) 0); [by split; [|left]|].
  destruct (opts_cases a) as [(Hb & o & -> & Ho & _)|(Hb & ->)]; ostep; [|by split; [|right; right; left]].
  destruct (router_cases a) as [(b & r & c & Hs & -> & Hr)|(Hs & ->)]; ostep; [|by split; [|right; right; right]].
  destruct (port_free (port a)); cbn [negb]; [|by split; [|right; left]].
  cbn [process_mgr process_env_sync process_servers get_or_init_backend_mgr default from_option id mgr_new mgr_router mgr_options mgr_pools be_conn_pool].
  split; [done|]. split; [done|]. split; [done|]. split; [done|]. exists b. split; [done|]. split; [done|]. split.
  { rewrite Ho. by destruct Hs as [[-> | ->]|addr -> _]. }
  rewrite Hr, negb_involutive. done.
Qed.

End startup.

(** The static list of backends: the addresses of the [Backend] command between its commas,
    each a ready backend, in order; every other command line, the [Cluster] command included, gets
    the one built-in test backend. *)
Theorem static_backends_cases a :
  (forall addrs, addrs <> [] -> Forall (fun p => 44 ∉ p) addrs -> arg_backend a = Some (Backend (join [44] addrs)) ->
    map be_addr (static_backend_list a) = addrs /\ Forall (fun b => be_status b = Ready) (static_backend_list a)) /\
  ((forall s, arg_backend a <> Some (Backend s)) -> static_backend_list a = TEST_BACKEND_ADDRS).
Proof.
  unfold static_backend_list. split.
  - intros addrs Hne Hc ->. rewrite split_on_join by done. split.
    + rewrite map_map. cbn [be_addr]. apply map_id.
    + by apply Forall_map, Forall_true.
  - intros Hs. destruct (arg_backend a) as [[s|n c]|]; [|done..]. by destruct (Hs s).
Qed.

(** With both the metrics and the REST interface enabled, two servers are started on the same
    port: the second cannot bind it and its task panics, so the REST interface is served by the
    server with metrics only; with one of them there is one server. *)
Theorem http_servers_clash a :
  start_servers (start_metrics_and_rest a) []
  = (if enable_metrics a && enable_rest a then [Ok tt; Panic]
     else if enable_metrics a || enable_rest a then [Ok tt] else []).
Proof.
  unfold start_metrics_and_rest, start_servers, start_server.
  destruct (enable_metrics a), (enable_rest a); try done. cbn [app srv_port andb].
  rewrite (bool_decide_eq_false_2 (_ ∈ [])) by set_solver. by rewrite bool_decide_eq_true_2 by set_solver.
Qed.

(** The balancer p2c passes the start of the process, and panics later: whenever the tenant of
    a client has two backends, the synchronising router's selection is unreachable code. *)
Theorem p2c_panics_later {TC WC G : Type} {WO : Watch BackendInstance WC} {RO : StdRng G} {L : Lowercase}
    (LL : LowercaseLaws L) a (s : SyncRouter TC WC G) t b1 b2 l :
  arg_balance a = Some (str "P2C") -> tenants (be_discovery s) !! t = Some (b1 :: b2 :: l) ->
  exists o, new_backend_opts a = Ok o /\ sync_selector t (balance_type o) s = (Panic, s).
Proof.
  intros Hb Ht. unfold new_backend_opts, balancer_type. rewrite Hb.
  rewrite to_lowercase_ascii by (repeat constructor; by vm_compute). eexists. split; [by vm_compute|].
  cbn [balance_type]. unfold sync_selector. mstep. by rewrite Ht.
Qed.

(** The loop serves every client accepted before the first signal, and no other. *)
Lemma main_loop_serves {C} (before after : list (main_event C)) : ShutdownSignal ∉ before ->
  main_loop (before ++ ShutdownSignal :: after) = (omap (fun e => match e with Accepted c => Some c | _ => None end) before, true).
Proof.
  induction before as [|[|c|] before IH]; [done|..]; intros [Hn Hb]%not_elem_of_cons; [done|..];
    cbn [app main_loop omap list_omap]; by rewrite IH.
Qed.

(** ** Witnesses *)

Definition no_args : ProxyServerArgs :=
  MkArgs 4 3310 9000 false false false None None None None None None None (MkCpArgs false None).

Definition sync_args : ProxyServerArgs :=
  MkArgs 4 3310 9000 false true true (Some (str "sync-with-cp")) (Some (str "P2C")) None
    (Some (str "cp:9001")) None None None (MkCpArgs false None).

Definition demo_setup : outcome io_error (process (queue TenantKey) (cell BackendInstance) Z bytes unit) :=
  main_setup (fun _ => None) (MkQueue []) (MkCell default_instance false) 0 (fun _ => true) (fun _ => true) sync_args.

Lemma main_setup_cases_witness : exists p, demo_setup = Ok p /\ process_env_sync p = Some (str "true").
Proof.
  pose proof (main_setup_cases (TC := queue TenantKey) (WC := cell BackendInstance) (G := Z) (Ch := bytes) (P := unit) (fun _ => None) (MkQueue []) (MkCell default_instance false) 0
    (fun _ => true) (fun _ => true) sync_args) as H.
  unfold demo_setup. destruct (main_setup _ _ _ _ _ _ sync_args) as [p|e| |] eqn:E.
  - destruct H as (_ & _ & _ & _ & b & Hb & _ & _ & Hs & _). exists p. split; [done|]. rewrite Hs.
    destruct Hb as [[?|?]|addr _ _ _]; done.
  - by vm_compute in E.
  - by vm_compute in E.
  - destruct H.
Defined.

Lemma static_backends_cases_witness :
  map be_addr (static_backend_list (MkArgs 4 3310 9000 false false false None None None None None None
    (Some (Backend (str "h1:1,h2:2"))) (MkCpArgs false None))) = [str "h1:1"; str "h2:2"].
Proof.
  apply (static_backends_cases (MkArgs 4 3310 9000 false false false None None None None None None
    (Some (Backend (str "h1:1,h2:2"))) (MkCpArgs false None))); [done| |done].
  repeat constructor; by apply (bool_decide_unpack _).
Defined.

Definition two_backends : SyncRouter (queue TenantKey) (cell BackendInstance) Z :=
  MkSyncRouter (set_tenants {[ default_tenant := [default_instance; default_instance] ]}
    (discovery_new [] [] (MkQueue []) (MkCell default_instance false))) (MkRandomBalancer 0).

Lemma p2c_panics_later_witness : exists o, new_backend_opts sync_args = Ok o /\
  sync_selector default_tenant (balance_type o) two_backends = (Panic, two_backends).
Proof.
  apply (p2c_panics_later lowercase_ref_laws sync_args two_backends default_tenant default_instance default_instance []);
    [reflexivity|vm_compute; reflexivity].
Defined.
