(* ===== verification/Shutdown.v ===== *)
(** * Shutting down ([cmd/src/main.rs], [common/src/lib.rs], [cp/mod.rs])

    A signal is turned into a message that [main] sends on a watch channel, and every task that
    holds a receiver ends the next time it looks: the HTTP servers, the collector of metrics, the
    control plane resolver and the server of the control plane.  The channel is tokio's, here with
    several receivers, each of which has seen some of the values. *)
From S2P Require Import Prelude Text SysUtils Metrics Runtime CpResolver.

(** ** The interface to the channel *)

(** [tokio::sync::watch]: the state its sender and receivers share, and what a receiver has of its
    own.  [changed] waits ([None]), or says whether the sender is still there; [has_changed] is
    [None] when it is gone; [send] says whether a receiver is left. *)
Class SharedWatch (T Ch Rx : Type) : Type := {
  sw_channel : T -> Ch * Rx;
  sw_clone : Rx -> Rx;
  sw_send : T -> Ch -> bool * Ch;
  sw_drop_sender : Ch -> Ch;
  sw_changed : Ch -> Rx -> option (bool * Rx);
  sw_has_changed : Ch -> Rx -> option bool;
  sw_borrow_and_update : Ch -> Rx -> T * Rx;
}.

(** Values are numbered; a receiver and its clones have seen the values up to a number.  The laws
    are for a channel one of whose receivers is kept, as [main] does. *)
Class SharedWatchLaws (T Ch Rx : Type) {ops : SharedWatch T Ch Rx} : Type := {
  sw_value : Ch -> T;
  sw_version : Ch -> nat;
  sw_closed : Ch -> bool;
  sw_seen : Rx -> nat;
  sw_channel_law : forall t, let '(c, r) := sw_channel t in
    sw_value c = t /\ sw_closed c = false /\ sw_seen r = sw_version c;
  sw_clone_law : forall r, sw_seen (sw_clone r) = sw_seen r;
  sw_send_law : forall t c, exists c', sw_send t c = (true, c') /\ sw_value c' = t /\
    sw_version c' = S (sw_version c) /\ sw_closed c' = sw_closed c;
  sw_drop_law : forall c, sw_closed (sw_drop_sender c) = true /\ sw_version (sw_drop_sender c) = sw_version c;
  sw_changed_law : forall c r,
    if decide (sw_seen r = sw_version c)
    then (if sw_closed c then exists r', sw_changed c r = Some (false, r') else sw_changed c r = None)
    else exists r', sw_changed c r = Some (true, r') /\ sw_seen r' = sw_version c;
  sw_has_changed_law : forall c r,
    sw_has_changed c r = if sw_closed c then None else Some (negb (bool_decide (sw_seen r = sw_version c)));
  sw_borrow_law : forall c r, exists r', sw_borrow_and_update c r = (sw_value c, r') /\ sw_seen r' = sw_version c;
}.

(** ** Definitions *)

Inductive ShutdownMessage : Type :=
  | Init
  | Cancel (msg : text).

Definition is_cancel (m : ShutdownMessage) : bool := match m with Cancel _ => true | Init => false end.

(** The signals, and what the message says of them: the blocks that wait return a unit. *)
Inductive os_signal : Type := CtrlC | Terminate.

(** [installed] says whether the handlers could be installed, which is expected of both. *)
Definition shutdown_signal (installed : os_signal -> bool) (s : os_signal) : outcome io_error ShutdownMessage :=
  if installed CtrlC && installed Terminate then
    Ok (Cancel match s with
               | CtrlC => str "ProxySrv receive ctrl_c signal  ()"
               | Terminate => str "ProxySrv receive terminate signal  ()"
               end)
  else Panic.

Section shutdown.
Context {Ch Rx : Type} `{!SharedWatch ShutdownMessage Ch Rx}.

(** The receiving end of a task: [Some tt] once it has returned, [None] while it waits.  What the
    message is only matters for the log. *)
Definition shutdown_await (c : Ch) : M Rx (option unit) := fun shutdown_rx =>
  match sw_changed c shutdown_rx with
  | None => (Ok None, shutdown_rx)
  | Some (true, r) => let '(_, r) := sw_borrow_and_update c r in (Ok (Some tt), r)
  | Some (false, r) => (Ok (Some tt), r)
  end.

(** [shutdown_tx.send(msg).unwrap()] *)
Definition send_shutdown (msg : ShutdownMessage) : M Ch unit := fun c =>
  let '(accepted, c) := sw_send msg c in (if accepted : bool then Ok tt else Panic, c).

(** The branch of the loop of [main] for a signal: the message is sent, and the loop left. *)
Definition main_shutdown (installed : os_signal -> bool) (s : os_signal) : M Ch unit :=
  msg ← lift (shutdown_signal installed s);
  send_shutdown msg.

(** The look at the channel in [start_auto_collect]: a clone of the receiver, made before the loop,
    is asked whether the value has changed; the value is read from the receiver itself, so the
    clone never counts it as seen. *)
Definition collector_look (c : Ch) (stop_rx_rc stop_rx : Rx) : collector_turn * Rx :=
  match sw_has_changed c stop_rx_rc with
  | None => (Looked None false, stop_rx)
  | Some false => (Looked (Some false) false, stop_rx)
  | Some true => let '(v, r) := sw_borrow_and_update c stop_rx in (Looked (Some true) (is_cancel v), r)
  end.

(** What the resolver's loop is woken by, when it is not the ticker. *)
Definition resolver_look (c : Ch) (shutdown_rx : Rx) : list resolver_event :=
  match sw_changed c shutdown_rx with Some _ => [ResolverShutdown] | None => [] end.

(** The future given to [serve_with_shutdown] by [start_cp_target_reporter]. *)
Definition cp_reporter_shutdown (c : Ch) (shutdown_rx : Rx) : option unit :=
  match sw_changed c shutdown_rx with Some _ => Some tt | None => None end.

(** ** Every task is told *)

Context {SL : SharedWatchLaws ShutdownMessage Ch Rx}.
Context {F : Float} {Gs : Type} {G : Gauges Gs} {Pr : Profile}.
Context {C : Type} `{Tonic C} `{HttpUri} `{!DashMapIter bytes (CpChannel C)}.

(** A look at [c] with the receiver [rx] wakes no task and leaves the receiver as it is; the
    collector also has the receiver [rc] it was cloned from. *)
Definition waits (c : Ch) (rc rx : Rx) : Prop :=
  shutdown_await c rx = (Ok None, rx) /\ collector_look c rc rx = (Looked (Some false) false, rx) /\
  resolver_look c rx = [] /\ cp_reporter_shutdown c rx = None.

(** The tasks end. *)
Definition ends (c : Ch) (rc rx : Rx) : Prop :=
  fst (shutdown_await c rx) = Ok (Some tt) /\
  (forall r page_size clock_tick m turns (s : Gs),
    auto_collect r page_size clock_tick m (fst (collector_look c rc rx) :: turns) s = (Ok true, s)) /\
  (forall evs (s : CpResolver C), resolver_start (resolver_look c rx ++ evs) s = (Ok (Some tt), s)) /\
  cp_reporter_shutdown c rx = Some tt.

(** What becomes of a receiver of [c]: it is cloned, or a task looks with it. *)
Inductive used (c : Ch) : Rx -> Rx -> Prop :=
  | UsedClone rx : used c rx (sw_clone rx)
  | UsedAwait rx : used c rx (snd (shutdown_await c rx))
  | UsedCollector rc rx : sw_has_changed c rc = Some false -> used c rx (snd (collector_look c rc rx))
  | UsedChanged rx b rx' : sw_changed c rx = Some (b, rx') -> used c rx rx'.

Lemma used_seen c rx rx' : sw_closed c = false -> used c rx rx' -> sw_seen rx = sw_version c -> sw_seen rx' = sw_version c.
Proof.
  intros Hc Hu Hs. pose proof (sw_changed_law c rx) as Hw. rewrite decide_True, Hc in Hw by done.
  destruct Hu as [rx|rx|rc rx Hf|rx b rx' Hb].
  - by rewrite sw_clone_law.
  - unfold shutdown_await. by rewrite Hw.
  - unfold collector_look. by rewrite Hf.
  - congruence.
Qed.

Lemma waits_unchanged c rc rx : sw_seen rc = sw_version c -> sw_seen rx = sw_version c -> sw_closed c = false -> waits c rc rx.
Proof.
  intros Hr Hs Hc. pose proof (sw_changed_law c rx) as Hw. rewrite decide_True, Hc in Hw by done.
  pose proof (sw_has_changed_law c rc) as Hh. rewrite Hc, bool_decide_eq_true_2 in Hh by done.
  unfold waits, shutdown_await, collector_look, resolver_look, cp_reporter_shutdown. by rewrite Hw, Hh.
Qed.

Lemma ends_cancelled c rc rx m : sw_seen rc <> sw_version c -> sw_seen rx <> sw_version c -> sw_closed c = false ->
  sw_value c = Cancel m -> ends c rc rx.
Proof.
  intros Hr Hs Hc Hv. pose proof (sw_changed_law c rx) as Hw. rewrite decide_False in Hw by done.
  destruct Hw as (r & Hw & _).
  pose proof (sw_has_changed_law c rc) as Hh. rewrite Hc, bool_decide_eq_false_2 in Hh by done.
  destruct (sw_borrow_law c rx) as (r' & Hb & _). destruct (sw_borrow_law c r) as (r2 & Hb2 & _).
  unfold ends, shutdown_await, collector_look, resolver_look, cp_reporter_shutdown.
  rewrite Hw, Hh, Hb, Hb2, Hv. done.
Qed.

(** (C15) A signal ends the tasks that watch the channel, and until then the channel ends none.  On the
    channel [main] makes, whatever clones are made of its receiver and however often tasks look
    with them, every look waits; the signal's message is sent without failure; and from then on
    the HTTP servers, the collector, the resolver and the control plane's server each end at
    their next look, whichever clones they hold.  (Tasks also end of themselves: the resolver,
    for one, on a failed request.) *)
Theorem shutdown_reaches installed s : (forall i, installed i = true) ->
  forall c rx rc rx', sw_channel Init = (c, rx) -> rtc (used c) rx rc -> rtc (used c) rx rx' ->
  waits c rc rx' /\ exists c', main_shutdown installed s c = (Ok tt, c') /\ ends c' rc rx'.
Proof.
  intros Hi c rx rc rx' Ec Hrc Hrx. pose proof (sw_channel_law Init) as Hc. rewrite Ec in Hc.
  destruct Hc as (Hv & Hcl & Hseen).
  assert (forall r, rtc (used c) rx r -> sw_seen r = sw_version c) as Hs.
  { intros r Hr. clear Ec Hrc Hrx. induction Hr as [|a b z Hab Hbz IH]; [done|]. by apply IH, (used_seen c a). }
  pose proof (Hs rc Hrc) as Hsc. pose proof (Hs rx' Hrx) as Hsx. split; [by apply waits_unchanged|].
  unfold main_shutdown, send_shutdown, shutdown_signal. rewrite !Hi. cbn [andb]. mstep.
  match goal with |- context [sw_send ?m c] => destruct (sw_send_law m c) as (c' & E & E1 & E2 & E3) end.
  rewrite E. exists c'. split; [done|]. eapply ends_cancelled; [lia|lia|congruence|exact E1].
Qed.

(** Without the message the tasks behave otherwise: a channel whose sender is gone ends all but the
    collector, which panics on it. *)
Lemma sender_dropped c rc rx : sw_seen rx = sw_version c ->
  let c' := sw_drop_sender c in
  fst (shutdown_await c' rx) = Ok (Some tt) /\ cp_reporter_shutdown c' rx = Some tt /\
  (forall r page_size clock_tick m turns (s : Gs),
    auto_collect r page_size clock_tick m (fst (collector_look c' rc rx) :: turns) s = (Panic, s)).
Proof.
  intros Hs. destruct (sw_drop_law c) as [Hc Hv]. cbv zeta. set (c' := sw_drop_sender c) in *.
  pose proof (sw_changed_law c' rx) as Hw. rewrite decide_True, Hc in Hw by congruence. destruct Hw as (r & Hw).
  pose proof (sw_has_changed_law c' rc) as Hh. rewrite Hc in Hh.
  unfold shutdown_await, collector_look, cp_reporter_shutdown. by rewrite Hw, Hh.
Qed.

End shutdown.

(** ** Reference instance and witness *)

(** A value, its number, and whether the sender is gone; a receiver is the number it has seen. *)
Record counted (T : Type) : Type := Counted { ct_value : T; ct_version : nat; ct_closed : bool }.
Arguments Counted {T} _ _ _.
Arguments ct_value {T} _.
Arguments ct_version {T} _.
Arguments ct_closed {T} _.

#[export] Instance counted_watch T : SharedWatch T (counted T) nat := {|
  sw_channel := fun t => (Counted t 0 false, 0%nat);
  sw_clone := fun r => r;
  sw_send := fun t c => (true, Counted t (S (ct_version c)) (ct_closed c));
  sw_drop_sender := fun c => Counted (ct_value c) (ct_version c) true;
  sw_changed := fun c r =>
    if decide (r = ct_version c) then (if ct_closed c then Some (false, r) else None) else Some (true, ct_version c);
  sw_has_changed := fun c r => if ct_closed c then None else Some (negb (bool_decide (r = ct_version c)));
  sw_borrow_and_update := fun c _ => (ct_value c, ct_version c);
|}.

#[export] Instance counted_watch_laws T : SharedWatchLaws T (counted T) nat.
Proof.
  refine {| sw_value := ct_value; sw_version := ct_version; sw_closed := ct_closed; sw_seen := fun r => r |}; try done.
  - intros t c. by eexists.
  - intros c r. cbn. destruct (decide _); [|by eexists]. destruct (ct_closed c); [by eexists|done].
  - intros c r. by eexists.
Defined.

Definition main_channel : counted ShutdownMessage * nat := sw_channel Init.

Definition server_rx : nat := sw_clone (SharedWatch := counted_watch ShutdownMessage) (snd main_channel).

Lemma shutdown_reaches_witness : exists c',
  main_shutdown (fun _ => true) Terminate (fst main_channel) = (Ok tt, c') /\
  fst (shutdown_await c' server_rx) = Ok (Some tt).
Proof.
  destruct (shutdown_reaches (Ch := counted ShutdownMessage) (Rx := nat) (Gs := gmap gauge_key Z) (C := bytes) (Pr := true)
    (fun _ => true) Terminate (fun _ => eq_refl) (fst main_channel) (snd main_channel) (snd main_channel) server_rx)
    as (_ & c' & E & He & _).
  - done.
  - done.
  - apply rtc_once, UsedClone.
  - by exists c'.
Defined.
