(* ===== verification/Rest.v ===== *)
(** * The web service ([web_service/src/])

    The handlers of the REST interface, on the state they share: the backend manager, the discovery
    of the process and the two profilers, each made at its first use.  Routing, JSON and the files
    themselves are axum's, serde's and the system's. *)
From S2P Require Import Prelude External Text Proto Runtime Discovery Pool Router BackendMgr Profiling Startup.

(** ** Definitions *)

(** [http_server.rs]; the body carries a code of its own, whatever the status of the response. *)
Record ApiResponse : Type := MkApiResponse {
  api_code : Z;
  api_message : text;
  api_data : bytes;
}.

Record RestState (TC WC Rt P : Type) : Type := MkRest {
  rest_mgr : BackendMgr Rt P;
  rest_discovery : option (BackendDiscovery TC WC);
  rest_cpu_prof : Prof;
  rest_heap_prof : option HeapProfileOpts;
}.
Arguments MkRest {TC WC Rt P} _ _ _ _.
Arguments rest_mgr {TC WC Rt P} _.
Arguments rest_discovery {TC WC Rt P} _.
Arguments rest_cpu_prof {TC WC Rt P} _.
Arguments rest_heap_prof {TC WC Rt P} _.

(** A response: the status and the body. *)
Inductive body : Type :=
  | Files (names : list text)
  | Svg (content : bytes)
  | Message (m : text).

(** A file the walk of a directory finds: whether it is a directory, if its metadata can be read,
    and its name, if it has one and that is UTF-8. *)
Record dir_entry : Type := MkEntry {
  entry_is_dir : option bool;
  entry_name : option (option text);
}.

(** [start_server]'s routes: a method, a pattern of axum's and the handler behind it. *)
Inductive http_method : Type := GET | POST.

Inductive rest_handler : Type :=
  | Greeting | DumpMemProfile | HeapAnalysis | StartCpuProf | StopCpuProf | ListCpuProfile | PrintCpuProf
  | AddTenant | TenantStatus | MetricsGet.

Definition route_metrics : list (http_method * text * rest_handler) := [(GET, str "/metrics", MetricsGet)].

Definition rest_routes (enable_metric : bool) : list (http_method * text * rest_handler) :=
  [(GET, str "/", Greeting);
   (GET, str "/mem_dump", DumpMemProfile);
   (GET, str "/mem_prof_analysis/:dump_path", HeapAnalysis);
   (GET, str "/start_cpu_prof", StartCpuProf);
   (GET, str "/stop_cpu_prof", StopCpuProf);
   (GET, str "/list_cpu_profile", ListCpuProfile);
   (GET, str "/print_cpu_prof", PrintCpuProf);
   (POST, str "/tenant", AddTenant);
   (GET, str "/tenant/:region/:az/:namespace/:cluster/status", TenantStatus)] ++
  (if enable_metric then route_metrics else []).

Section rest.
Context {TC WC Rt P : Type} `{!Mpsc TenantKey TC} `{!Watch BackendInstance WC} `{!DashMapIter BackendInstance P}.

(** How errors print. *)
Variables (error_text error_debug : io_error -> text).
Variables (env : environment) (tc : TC) (wc : WC).

Abbreviation rest := (RestState TC WC Rt P).

Definition set_rest_discovery (d : BackendDiscovery TC WC) (s : rest) : rest :=
  MkRest (rest_mgr s) (Some d) (rest_cpu_prof s) (rest_heap_prof s).
Definition set_cpu_prof (p : Prof) (s : rest) : rest :=
  MkRest (rest_mgr s) (rest_discovery s) p (rest_heap_prof s).
Definition set_heap_prof (o : HeapProfileOpts) (s : rest) : rest :=
  MkRest (rest_mgr s) (rest_discovery s) (rest_cpu_prof s) (Some o).

(** [backend_discovery_ref]: the identity it gives counts only when nothing made the discovery
    before. *)
Definition backend_discovery_ref (s : rest) : BackendDiscovery TC WC :=
  get_backend_discovery tc wc (rest_discovery s)
    (default (str "local_node") (env (str "NODE_ID"))) (default (str "default") (env (str "MY_NAMESPACE"))).

Definition on_rest_discovery {A} (m : M (BackendDiscovery TC WC) A) : M rest A :=
  zoom backend_discovery_ref set_rest_discovery m.

(** [proxy_handler.rs] *)
Definition add_tenant (payload : TenantKey) : M rest ApiResponse :=
  r ← attempt (on_rest_discovery (subscribe_for payload));
  match r with
  | inr _ => mret (MkApiResponse 201 (str "success") [])
  | inl e => mret (MkApiResponse 500 (str "failed to add tenant: " ++ error_debug e) [])
  end.

Definition rest_tenant_status (region az namespace cluster : bytes) : M rest ApiResponse :=
  s ← get;
  mret (MkApiResponse 200 (str "success")
    (as_str_name (BackendMgr.tenant_status (rest_mgr s) (MkTenantKey region az namespace cluster)))).

(** [metrics_handler.rs]: [handle] renders the metrics of the recorder, once it is installed. *)
Definition render (handle : option text) : text :=
  default (str "Please initialize the prometheus context first.") handle.

Definition bool_text (b : bool) : text := if b then str "true" else str "false".

Definition on_cpu_prof {A} : M Prof A -> M rest A := zoom rest_cpu_prof set_cpu_prof.

Definition stop_cpu_prof : M rest (text * text) :=
  r ← attempt (on_cpu_prof prof_stop);
  mret (str "cpu_prof_stop", match r with inr b => bool_text b | inl e => error_text e end).

(** The duration the threads sample for, the directory, and the answer. *)
Definition cpu_prof_params (params : gmap text text) : Z * text :=
  (default 60 (parse_usize (default (str "60") (params !! str "duration"))),
   default (str "/tmp/sql_proxy_cpu_prof/") (params !! str "profile_path")).

Definition start_cpu_prof (dir_ok : text -> bool) (spawned : bool) (params : gmap text text) : M rest (text * text) :=
  let '(_, profile_path) := cpu_prof_params params in
  r ← attempt (on_cpu_prof (prof_start (dir_ok profile_path) spawned));
  mret (str "cpu_prof_start", match r with inr b => bool_text b | inl e => error_text e end).

(** The loop over the files of [list_cpu_profile]. *)
Fixpoint profile_files (l : list dir_entry) : outcome io_error (list text) :=
  match l with
  | [] => Ok []
  | e :: l =>
      is_dir ← unwrap_option (entry_is_dir e);
      if (is_dir : bool) then profile_files l
      else
        match entry_name e with
        | Some name =>
            name ← unwrap_option name;
            files ← profile_files l;
            Ok (if starts_with (str "mp_cpu_") name then name :: files else files)
        | None => profile_files l
        end
  end.

Definition list_cpu_profile (walk : text -> list dir_entry) (params : gmap text text) : outcome io_error (Z * body) :=
  match params !! str "profile_path" with
  | Some profile_path => files ← profile_files (walk profile_path); Ok (200, Files files)
  | None => Ok (400, Message (str "Please set query string. For example list_cpu_profile?profile_path=XXX "))
  end.

(** [file]: [None] when the path does not exist, [Some None] when it cannot be opened, and the
    content, [None] when it cannot be read. *)
Definition print_cpu_prof (file : text -> option (option (option bytes))) (path_debug : text -> text)
    (params : gmap text text) : outcome io_error (Z * body) :=
  match params !! str "profile_file" with
  | Some path =>
      match file path with
      | Some (Some content) => c ← unwrap_option content; Ok (200, Svg c)
      | Some None => Ok (500, Message (str "Failed to open " ++ path_debug path ++ str " "))
      | None => Ok (400, Message (path_debug path ++ str " not exists."))
      end
  | None => Ok (400, Message (str "Please set query string. For example print_cpu_prof?profile_path=XXX "))
  end.

(** [memory_profile]: the profiler is kept when it could be made, and tried again otherwise. *)
Definition memory_profile (opt_prof : option bool) (dir_ok : bool) : M rest HeapProfileOpts :=
  s ← get;
  match rest_heap_prof s with
  | Some o => mret o
  | None =>
      o ← lift (new_with_opts opt_prof dir_ok heap_opts_default);
      _ ← modify (set_heap_prof o);
      mret o
  end.

Definition dump_mem_profile (opt_prof : option bool) (dir_ok : bool) (file_prefix : text) (dumped : bool)
  : M rest (text * text) :=
  r ← attempt (memory_profile opt_prof dir_ok);
  match r with
  | inr o =>
      match dump_profile file_prefix dumped o with
      | Ok dir => mret (str "mem_heap_dump", dir)
      | Err e => mret (str "mem_heap_dump_err", error_text e)
      | Panic => panic
      | OutOfFuel => lift OutOfFuel
      end
  | inl e => mret (str "mem_heap_dump_err", error_text e)
  end.

(** ** Lemmas *)

(** No pattern is given twice, which axum would panic on, and no handler has two routes; the metrics
    are served exactly by the server that has them enabled. *)
Lemma rest_routes_distinct b : NoDup (map (fun r => r.1.2) (rest_routes b)) /\
  ((GET, str "/metrics", MetricsGet) ∈ rest_routes b <-> b = true).
Proof.
  split; [destruct b; apply (bool_decide_unpack _); by vm_compute|].
  unfold rest_routes. rewrite elem_of_app. split.
  - intros [H|H]; [|by destruct b; [|apply not_elem_of_nil in H]].
    exfalso. repeat (apply elem_of_cons in H as [H|H]; [done|]). by apply not_elem_of_nil in H.
  - intros ->. right. by apply list_elem_of_here.
Qed.

(** Adding a tenant tells the discovery task to subscribe, and nothing else: in particular the
    tenant gets no entry in the table of tenants. *)
Lemma add_tenant_subscribes {ML : MpscLaws TenantKey TC} (s : rest) t :
  receiving (tenant_key_chan (backend_discovery_ref s)) = true ->
  exists s' d, add_tenant t s = (Ok (MkApiResponse 201 (str "success") []), s') /\ rest_discovery s' = Some d /\
    queued (tenant_key_chan d) = queued (tenant_key_chan (backend_discovery_ref s)) ++ [t] /\
    tenants d = tenants (backend_discovery_ref s) /\ rest_mgr s' = rest_mgr s.
Proof.
  intros Hr. destruct (mpsc_send_law t _ Hr) as (c & E & Hq & _).
  unfold add_tenant, on_rest_discovery, zoom, attempt, subscribe_for. mstep. rewrite E. mstep.
  eexists _, _. split; [done|]. split; [done|]. done.
Qed.

(** The files listed are exactly the regular files whose name has the prefix, when every file can
    be looked at. *)
Lemma profile_files_listed l : Forall (fun e => is_Some (entry_is_dir e) /\ entry_name e <> Some None) l ->
  profile_files l = Ok (omap (fun e =>
    match entry_is_dir e, entry_name e with
    | Some false, Some (Some n) => if starts_with (str "mp_cpu_") n then Some n else None
    | _, _ => None
    end) l).
Proof.
  induction 1 as [|[d n] l [[b Hd] Hn] _ IH]; [done|]. cbn [entry_is_dir entry_name] in *. subst d.
  cbn [profile_files entry_is_dir entry_name omap list_omap unwrap_option]. ostep. destruct b; [done|].
  destruct n as [[n|]|]; [|done..]. cbn [unwrap_option]. ostep. rewrite IH. ostep.
  by destruct (starts_with _ n).
Qed.

(** ** Properties *)

(** The CPU profiler through the REST interface: a start answers true exactly when no profile
    was running and the directory could be made, false when one was running; a start that fails
    makes every later start answer false, until a stop, which answers whether there was anything to
    stop and always leaves the profiler stopped. *)
Theorem cpu_profile_requests dir_ok spawned params (s : rest) :
  let on := starting (rest_cpu_prof s) in
  let '(r, s') := start_cpu_prof dir_ok spawned params s in
  r = Ok (str "cpu_prof_start",
          if on then str "false" else if dir_ok (cpu_prof_params params).2 then str "true" else error_text OtherIo) /\
  starting (rest_cpu_prof s') = true /\
  (forall dir_ok' spawned' params', (start_cpu_prof dir_ok' spawned' params' s').1 = Ok (str "cpu_prof_start", str "false")) /\
  (stop_cpu_prof s).1 = Ok (str "cpu_prof_stop", bool_text on) /\
  starting (rest_cpu_prof (stop_cpu_prof s).2) = false.
Proof.
  destruct s as [g d [[] n] h]; unfold start_cpu_prof, stop_cpu_prof, on_cpu_prof, zoom, attempt; cbv zeta;
    destruct (cpu_prof_params params) as [du pa]; cbn [snd]; mstep; cbn [rest_cpu_prof starting].
  - rewrite start_started, stop_cases. repeat split.
  - rewrite start_fresh, stop_cases. destruct (dir_ok pa); repeat split; intros; by destruct (cpu_prof_params _).
Qed.

End rest.
