(* ===== verification/Connect.v ===== *)
(** * A client's connection, from the handshake to the end ([server/haentgl_server.rs])

    [connect] composes the other components: the handshake with the client, the choice of a
    backend pool, a pooled connection, the authentication flow its life cycle asks for, and the
    command phase. *)
From S2P Require Import Prelude External Reference Constants Packet PacketWriter PacketReader Utf8 Proto TenantKey ErrorCodes Charset Basic Writers Forwarder Responses Server Auth Runtime CpResolver Discovery Pool Router BackendMgr.

(** ** Definitions *)

(** The streams of a client and a pooled connection, and the life cycle of the latter. *)
Record Served (R W BR BW : Type) : Type := MkServed {
  sv_streams : Conn R W BR BW;
  sv_life : DbUserConnLifeCycle;
}.
Arguments MkServed {R W BR BW} _ _.
Arguments sv_streams {R W BR BW} _.
Arguments sv_life {R W BR BW} _.

(** What a call of [connect] works on: the client's writer, the manager, and the pooled connection
    once it has one. *)
Record World (W Rt P BR BW : Type) : Type := MkWorld {
  wd_writer : W;
  wd_mgr : BackendMgr Rt P;
  wd_pooled : option (PooledConn BR BW);
}.
Arguments MkWorld {W Rt P BR BW} _ _ _.
Arguments wd_writer {W Rt P BR BW} _.
Arguments wd_mgr {W Rt P BR BW} _.
Arguments wd_pooled {W Rt P BR BW} _.

Section connect.
Context {R W BR BW Rt P : Type} `{AsyncRead R} `{AsyncWrite W} `{AsyncRead BR} `{AsyncWrite BW}.
Context `{Profile} `{Winnow} `{MysqlIo} `{MysqlFlags} `{MysqlPackets} `{Hex} `{!BackendRouter Rt}.

(** The server's authenticator. *)
Context {A : Type} `{!Authenticator R W BR BW A} (authenticator : A).

(** The fuels of the reads, of the forwarders and of the command loop. *)
Variables rf ff fuel : nat.

(** [conn_id] is the id of the thread; the packet writer borrows the client's writer. *)
Definition on_conn (conn_id : Z) (scramble : bytes) (tls : bool) (env : option bytes) (r : R)
  : M W (Z * HandshakeResponse * Packet * PacketReader R) :=
  fun w =>
    let '(o, c) := auth_initial_handshake (BR := BR) (BW := BW) authenticator rf conn_id scramble tls env (MkClient (pr_new r) (pw_new w)) in
    (match o with
     | Ok (seq, h, pkt) => Ok (seq, h, pkt, handshake_reader c)
     | Err e => Err e
     | Panic => Panic
     | OutOfFuel => OutOfFuel
     end, inner_writer (handshake_writer c)).

Definition on_streams {T} : M (Conn R W BR BW) T -> M (Served R W BR BW) T :=
  zoom sv_streams (fun c s => MkServed c (sv_life s)).

Definition set_life (l : DbUserConnLifeCycle) : M (Served R W BR BW) unit :=
  modify (fun s => MkServed (sv_streams s) l).

(** The part of [connect] that holds the pooled connection. *)
Definition serve (seq : Z) (h : HandshakeResponse) (pkt : Packet) : M (Served R W BR BW) unit :=
  conn_life_cycle ← gets sv_life;
  _ ← on_streams (on_backend_writer reset_seq);
  auth_result ← on_streams (attempt
    match conn_phase conn_life_cycle with
    | Some PhaseCommand => auth_continue authenticator rf seq h
    | Some _ => auth_reply authenticator rf seq (payload pkt) h
    | None => auth_reply authenticator rf seq (payload pkt) h
    end);
  let db_user := db_user_string h in
  match auth_result with
  | inr _ =>
      _ ← set_life (new_conn_life_cycle db_user PhaseCommand);
      on_streams (on_com rf ff fuel h)
  | inl _ => set_life (new_conn_life_cycle db_user PhaseConnection)
  end.

(** [serve] with the locked connection of the pooled object and a new packet writer on the client. *)
Definition serve_pooled (seq : Z) (h : HandshakeResponse) (pkt : Packet) (reader : PacketReader R)
    (pooled_conn : PooledConn BR BW) : M (World W Rt P BR BW) unit :=
  fun s =>
    let '(o, sv) := serve seq h pkt
      (MkServed (MkConn reader (pw_new (wd_writer s)) (fst (inner_conn pooled_conn)) (snd (inner_conn pooled_conn)))
        (conn_life_cycle pooled_conn)) in
    (o, MkWorld (inner_writer (client_writer (sv_streams sv))) (wd_mgr s)
          (Some (MkPooled (pc_id pooled_conn)
            (backend_reader (sv_streams sv), backend_writer (sv_streams sv)) (sv_life sv)))).

(** [pool_get] is what [get] gives for a pool, unwrapped; [rand] are the random numbers of the
    salt. *)
Definition connect (rand : nat -> Z) (conn_id : Z) (tls : bool) (env : option bytes)
    (pool_get : P -> outcome io_error (PooledConn BR BW)) (r : R) : M (World W Rt P BR BW) unit :=
  let salt := gen_user_salt rand in
  '(seq, handshake_response, handshake_pkt, reader) ←
    zoom wd_writer (fun w s => MkWorld w (wd_mgr s) (wd_pooled s)) (on_conn conn_id salt tls env r);
  pool_ref ← zoom wd_mgr (fun m s => MkWorld (wd_writer s) m (wd_pooled s)) (connect_to_backend handshake_response);
  pooled_conn ← lift (unwrap (pool_get pool_ref));
  serve_pooled seq handshake_response handshake_pkt reader pooled_conn.

End connect.

(** ** Serving a client on a pooled connection *)

Section serving.
Context {R W BR BW : Type} {Rops : AsyncRead R} {RS : ReadStream R} {Wops : AsyncWrite W}
  {WS : WriteStream W} {WR : ReliableWrite W} {BRops : AsyncRead BR} {BRS : ReadStream BR}
  {BWops : AsyncWrite BW} {BWS : WriteStream BW} {BWR : ReliableWrite BW}.
Context {Pr : Profile} {Wn : Winnow} {WL : WinnowLaws Wn} {I : MysqlIo} {IL : MysqlIoLaws I}
  {F : MysqlFlags} {FL : MysqlFlagsLaws F} {MP : MysqlPackets}.
Context {A : Type} `{!Authenticator R W BR BW A} (authenticator : A) (rf ff fuel : nat).

Abbreviation conn := (Conn R W BR BW).

(** The authentication flow of a life cycle. *)
Definition auth_flow (l : DbUserConnLifeCycle) (seq : Z) (h : HandshakeResponse) (p : bytes) : M conn unit :=
  match conn_phase l with
  | Some PhaseCommand => auth_continue authenticator rf seq h
  | Some _ | None => auth_reply authenticator rf seq p h
  end.

Lemma serve_unfold seq h p (c : conn) l :
  serve authenticator rf ff fuel seq h (MkPacket p) (MkServed c l)
  = match attempt (auth_flow l seq h p) (snd (on_backend_writer reset_seq c)) with
    | (Ok (inr _), c') =>
        let '(o, c2) := on_com rf ff fuel h c' in
        (o, MkServed c2 (new_conn_life_cycle (db_user_string h) PhaseCommand))
    | (Ok (inl _), c') => (Ok tt, MkServed c' (new_conn_life_cycle (db_user_string h) PhaseConnection))
    | (Err e, c') => (Err e, MkServed c' l)
    | (Panic, c') => (Panic, MkServed c' l)
    | (OutOfFuel, c') => (OutOfFuel, MkServed c' l)
    end.
Proof.
  unfold serve, auth_flow. mstep. unfold on_streams, zoom. cbn [sv_streams sv_life payload].
  change (on_backend_writer reset_seq c) with
    ((Ok tt, snd (on_backend_writer reset_seq c)) : outcome io_error unit * conn). cbn [snd].
  rewrite run_bind. cbn [sv_streams sv_life]. by destruct (attempt _ _) as [[[e|[]]| | |] c'].
Qed.

Lemma reset_conn_ok (c : conn) : conn_ok rf c -> conn_ok rf (snd (on_backend_writer reset_seq c)).
Proof. intros []. by constructor. Qed.

(** The client is accepted and served to the end. *)
Lemma serve_accepted (c : conn) l seq h p cin bin cout bout n' xs fq fp q2 p2 crest brest :
  conn_ok rf c -> relays rf 0 cin bin cout bout n' (attempt (auth_flow l seq h p)) (inr tt) ->
  Forall (exchange_ok (R := R) (W := W) (BR := BR) (BW := BW) h ff) xs -> (length xs < fuel)%nat -> fits p2 ->
  fits (command_u8 ComQuit :: fp) ->
  stream (client_reader c) = cin ++ (frames (map request xs) ++ frame fq (command_u8 ComQuit :: fp)) ++ crest ->
  stream (backend_reader c) = bin ++ (frames (concat (map x_response xs)) ++ frame q2 p2) ++ brest ->
  exists c', serve authenticator rf ff fuel seq h (MkPacket p) (MkServed c l)
             = (Ok tt, MkServed c' (new_conn_life_cycle (db_user_string h) PhaseCommand)) /\
    conn_ok rf c' /\ stream (client_reader c') = crest /\ stream (backend_reader c') = brest /\
    pw_sent (client_writer c') = pw_sent (client_writer c) ++ cout ++ frames (concat (map x_response xs)) /\
    pw_sent (backend_writer c')
    = pw_sent (backend_writer c) ++ bout ++ frames (map request xs) ++ frame (reset_number 0 xs) reset_payload.
Proof.
  intros Hok Hr Hxs Hf Hp2 Hq Hc Hb. rewrite serve_unfold.
  destruct (Hr (snd (on_backend_writer reset_seq c)) _ _ (reset_conn_ok c Hok) eq_refl Hc Hb)
    as (c1 & E1 & Hok1 & _ & Hc1 & Hb1 & So1 & Sp1). rewrite E1.
  destruct (relays_on_com h rf ff (pw_seq (backend_writer c1)) xs fuel fq fp q2 p2 Hxs Hf Hp2 Hq c1 crest brest
    Hok1 eq_refl Hc1 Hb1) as (c2 & E2 & Hok2 & _ & Hc2 & Hb2 & So2 & Sp2). rewrite E2.
  exists c2. split; [done|]. split; [done|]. split; [done|]. split; [done|].
  rewrite So2, So1, Sp2, Sp1, <- !app_assoc. done.
Qed.

(** The client is refused: nothing more is read or sent, and the connection is marked. *)
Lemma serve_refused (c : conn) l seq h p cin bin cout bout n' e crest brest :
  conn_ok rf c -> relays rf 0 cin bin cout bout n' (attempt (auth_flow l seq h p)) (inl e) ->
  stream (client_reader c) = cin ++ crest -> stream (backend_reader c) = bin ++ brest ->
  exists c', serve authenticator rf ff fuel seq h (MkPacket p) (MkServed c l)
             = (Ok tt, MkServed c' (new_conn_life_cycle (db_user_string h) PhaseConnection)) /\
    conn_ok rf c' /\ stream (client_reader c') = crest /\ stream (backend_reader c') = brest /\
    pw_sent (client_writer c') = pw_sent (client_writer c) ++ cout /\
    pw_sent (backend_writer c') = pw_sent (backend_writer c) ++ bout.
Proof.
  intros Hok Hr Hc Hb. rewrite serve_unfold.
  destruct (Hr (snd (on_backend_writer reset_seq c)) _ _ (reset_conn_ok c Hok) eq_refl Hc Hb)
    as (c1 & E1 & Hok1 & _ & Hc1 & Hb1 & So1 & Sp1). rewrite E1. by exists c1.
Qed.

End serving.

(** ** Connections *)

Section connections.
Context {R W BR BW Rt P : Type} {Rops : AsyncRead R} {RS : ReadStream R} {Wops : AsyncWrite W}
  {WS : WriteStream W} {WR : ReliableWrite W} {BRops : AsyncRead BR} {BRS : ReadStream BR}
  {BWops : AsyncWrite BW} {BWS : WriteStream BW} {BWR : ReliableWrite BW}.
Context {Pr : Profile} {Wn : Winnow} {WL : WinnowLaws Wn} {I : MysqlIo} {IL : MysqlIoLaws I}
  {F : MysqlFlags} {FL : MysqlFlagsLaws F} {MP : MysqlPackets} {X : Hex} `{!BackendRouter Rt}.
Context (rf ff fuel : nat) (rand : nat -> Z) (conn_id : Z) (tls : bool) (env : option bytes)
  (pool_get : P -> outcome io_error (PooledConn BR BW)).

Abbreviation world := (World W Rt P BR BW).

(** A pooled connection at rest. *)
Record pooled_ok (pc : PooledConn BR BW) : Prop := {
  pooled_source : source_ok rf (fst (inner_conn pc));
  pooled_buf : pw_buf (snd (inner_conn pc)) = [];
  pooled_seq : 0 <= pw_seq (snd (inner_conn pc)) < U8;
}.

(** The user, as the proxy sees it, of a handshake response. *)
Definition client_of (rr : response41) : HandshakeResponse := change_tenant_if_need env (response_of rr).

(** A client with a well-formed response [rr], numbered [q], whose later packets are [later],
    for whom the manager finds a pool, and the pool the connection [pc]. *)
Record arrives (s : world) (r : R) (q : Z) (rr : response41) (later : bytes) (pc : PooledConn BR BW) : Prop := {
  arr_rand : forall i, 0 <= rand i < 127;
  arr_id : 0 <= conn_id;
  arr_response : response41_ok rr /\ contains (r_caps rr) CLIENT_SSL = false /\ fits (encode_response41 rr);
  arr_bytes : avail r = frame q (encode_response41 rr) ++ later /\ is_bytes (avail r) /\ (length (avail r) < rf)%nat;
  arr_pool : exists p, fst (connect_to_backend (client_of rr) (wd_mgr s)) = Ok p /\ pool_get p = Ok pc;
  arr_conn : pooled_ok pc;
}.

Definition greeting : bytes := handshake_payload conn_id (gen_user_salt rand) DEFAULT_BACKEND_VERSION tls.

(** Such a client gets the greeting and is served on the connection. *)
Lemma connect_arrives (s : world) r q rr later pc : arrives s r q rr later pc ->
  exists (reader : PacketReader R) (w : W) m, connect MkProxyAuthenticator rf ff fuel rand conn_id tls env pool_get r s
    = serve_pooled MkProxyAuthenticator rf ff fuel q (client_of rr) (MkPacket (encode_response41 rr)) reader pc (MkWorld w m (wd_pooled s)) /\
    source_ok rf reader /\ stream reader = later /\ sent w = sent (wd_writer s) ++ frame 0 greeting.
Proof.
  intros [Hrand Hid (Hr & Hssl & Hfit) (Hav & Hby & Hlen) (p & Hp & Hpc) _].
  assert (client_ok rf (MkClient (pr_new r) (pw_new (wd_writer s)))) as Hok.
  { constructor; cbn [handshake_reader handshake_writer pw_new pw_buf pw_seq]; [|done|done].
    split; [by vm_compute|]. change (stream (pr_new r)) with (avail r). done. }
  assert (len (gen_user_salt rand) = 20) as Hsalt by by vm_compute.
  destruct (initial_handshake_read rf conn_id (gen_user_salt rand) tls env q (encode_response41 rr) _ later
    Hok Hid Hsalt Hfit Hav) as (c & E & Hsrc & Hst & Hse).
  pose proof (parse_response rr [] false Hr (or_intror Hssl)) as Ep. rewrite app_nil_r in Ep. rewrite Ep in E.
  unfold connect. cbv zeta. rewrite run_bind. unfold zoom at 1, on_conn. cbn [auth_initial_handshake proxy_authenticator]. rewrite E. cbv iota beta.
  rewrite run_bind. unfold zoom at 1. cbn [wd_mgr wd_writer wd_pooled].
  change (change_tenant_if_need env (response_of rr)) with (client_of rr).
  destruct (connect_to_backend (client_of rr) (wd_mgr s)) as [o m]. cbn [fst] in Hp. subst o. mstep. rewrite Hpc.
  exists (handshake_reader c), (inner_writer (handshake_writer c)), m. split; [done|]. split; [done|]. split; [done|].
  exact Hse.
Qed.

(** The state of a served client, as [serve] sees it at its start. *)
Lemma arrives_conn_ok (s : world) r q rr later pc (reader : PacketReader R) (w : W) : arrives s r q rr later pc -> source_ok rf reader ->
  conn_ok rf (MkConn reader (pw_new w) (fst (inner_conn pc)) (snd (inner_conn pc))).
Proof. intros [_ _ _ _ _ [H1 H2 H3]] Hr. by constructor. Qed.

(** The result of a call of [connect] that served its client: what the client and the backend
    were sent, and what is left of the pooled connection. *)
Definition served (s : world) (pc : PooledConn BR BW) (m : outcome io_error unit * world)
    (to_client to_backend : bytes) (brest : bytes) (life : DbUserConnLifeCycle) : Prop :=
  exists s' pc', m = (Ok tt, s') /\ wd_pooled s' = Some pc' /\ pc_id pc' = pc_id pc /\ pooled_ok pc' /\
    conn_life_cycle pc' = life /\
    recycle pc' = (if decide (lc_conn_phase life = Some PhaseConnection) then Err PermissionDenied else Ok tt) /\
    stream (fst (inner_conn pc')) = brest /\
    sent (wd_writer s') = sent (wd_writer s) ++ frame 0 greeting ++ to_client /\
    pw_sent (snd (inner_conn pc')) = pw_sent (snd (inner_conn pc)) ++ to_backend.

(** A whole visit, for the authentication flow that the life cycle of the connection asks for. *)
Lemma connect_session (s : world) r q rr pc cin bin cout bout n' xs fq fp q2 p2 crest brest :
  arrives s r q rr (cin ++ (frames (map request xs) ++ frame fq (command_u8 ComQuit :: fp)) ++ crest) pc ->
  relays rf 0 cin bin cout bout n'
    (attempt (auth_flow (R := R) (W := W) MkProxyAuthenticator rf (conn_life_cycle pc) q (client_of rr) (encode_response41 rr))) (inr tt) ->
  Forall (exchange_ok (R := R) (W := W) (BR := BR) (BW := BW) (client_of rr) ff) xs -> (length xs < fuel)%nat ->
  fits p2 -> fits (command_u8 ComQuit :: fp) ->
  stream (fst (inner_conn pc)) = bin ++ (frames (concat (map x_response xs)) ++ frame q2 p2) ++ brest ->
  served s pc (connect MkProxyAuthenticator rf ff fuel rand conn_id tls env pool_get r s)
    (cout ++ frames (concat (map x_response xs)))
    (bout ++ frames (map request xs) ++ frame (reset_number 0 xs) reset_payload) brest
    (new_conn_life_cycle (db_user_string (client_of rr)) PhaseCommand).
Proof.
  intros Ha Hr Hxs Hf Hp2 Hq Hb. destruct (connect_arrives s r q rr _ pc Ha) as (reader & w & m & E & Hsrc & Hst & Hse).
  rewrite E. unfold serve_pooled. cbn [wd_writer wd_mgr].
  destruct (serve_accepted MkProxyAuthenticator rf ff fuel _ (conn_life_cycle pc) q (client_of rr) (encode_response41 rr) cin bin cout bout n'
    xs fq fp q2 p2 crest brest (arrives_conn_ok s r q rr _ pc reader w Ha Hsrc) Hr Hxs Hf Hp2 Hq Hst Hb)
    as (c & Es & [K1 K2 K3 K4 K5 K6] & _ & Hb' & So & Sp). rewrite Es.
  eexists _, _. split; [reflexivity|]. split; [reflexivity|]. cbn [pc_id inner_conn conn_life_cycle sv_streams sv_life fst snd wd_writer].
  split; [done|]. split; [by constructor|]. split; [done|]. split; [done|]. split; [done|].
  split; [|exact Sp]. change (sent (inner_writer (client_writer c))) with (pw_sent (client_writer c)).
  rewrite So. change (pw_sent (client_writer _)) with (sent w). by rewrite Hse, <- app_assoc.
Qed.

Lemma connect_turned_away (s : world) r q rr pc cin bin cout bout n' e crest brest :
  arrives s r q rr (cin ++ crest) pc ->
  relays rf 0 cin bin cout bout n'
    (attempt (auth_flow (R := R) (W := W) MkProxyAuthenticator rf (conn_life_cycle pc) q (client_of rr) (encode_response41 rr))) (inl e) ->
  stream (fst (inner_conn pc)) = bin ++ brest ->
  served s pc (connect MkProxyAuthenticator rf ff fuel rand conn_id tls env pool_get r s) cout bout brest
    (new_conn_life_cycle (db_user_string (client_of rr)) PhaseConnection).
Proof.
  intros Ha Hr Hb. destruct (connect_arrives s r q rr _ pc Ha) as (reader & w & m & E & Hsrc & Hst & Hse).
  rewrite E. unfold serve_pooled. cbn [wd_writer wd_mgr].
  destruct (serve_refused MkProxyAuthenticator rf ff fuel _ (conn_life_cycle pc) q (client_of rr) (encode_response41 rr) cin bin cout bout n'
    e crest brest (arrives_conn_ok s r q rr _ pc reader w Ha Hsrc) Hr Hst Hb)
    as (c & Es & [K1 K2 K3 K4 K5 K6] & _ & Hb' & So & Sp). rewrite Es.
  eexists _, _. split; [reflexivity|]. split; [reflexivity|]. cbn [pc_id inner_conn conn_life_cycle sv_streams sv_life fst snd wd_writer].
  split; [done|]. split; [by constructor|]. split; [done|]. split; [done|]. split; [done|].
  split; [|exact Sp]. change (sent (inner_writer (client_writer c))) with (pw_sent (client_writer c)).
  rewrite So. change (pw_sent (client_writer _)) with (sent w). by rewrite Hse, <- app_assoc.
Qed.

(** What the backend and the client say to each other while the client is authenticated, with the
    response [p] numbered [q], on a connection with life cycle [l]: what the proxy reads from the
    client and from the backend, what it sends them, and the verdict. *)
Inductive auth_exchange (l : DbUserConnLifeCycle) (q : Z) (h : HandshakeResponse) (p : bytes)
  : bytes -> bytes -> bytes -> bytes -> io_error + unit -> Prop :=
  | FirstUse new q0 g sw cq resp fin v :
      l = default_life_cycle -> 0 <= q < 253 -> reset_handshake_plugin p h = Ok new -> fits new -> fits g ->
      fits (AUTH_SWITCH_REQUEST :: sw) -> fits resp -> fits fin -> verdict fin v ->
      auth_exchange l q h p (frame cq resp)
        (frame q0 g ++ frame (q + 1) (AUTH_SWITCH_REQUEST :: sw) ++ frame (q + 3) fin)
        (frame (q + 1) (AUTH_SWITCH_REQUEST :: sw) ++ frame (q + 3) fin)
        (frame q new ++ frame (q + 1 + 1) resp) v
  | NextUse u sw cq resp fin v :
      l = new_conn_life_cycle u PhaseCommand -> 0 <= q < 255 -> fits (change_user_data h) ->
      fits (AUTH_SWITCH_REQUEST :: sw) -> fits resp -> fits fin -> verdict fin v ->
      auth_exchange l q h p (frame cq resp)
        (frame 1 (AUTH_SWITCH_REQUEST :: sw) ++ frame 3 fin)
        (frame (q + 1) (AUTH_SWITCH_REQUEST :: sw) ++ frame 3 fin)
        (frame 0 (change_user_data h) ++ frame 2 resp) v.

Lemma auth_exchange_relays l q h p cin bin cout bout v : auth_exchange l q h p cin bin cout bout v ->
  exists n', relays rf 0 cin bin cout bout n' (attempt (auth_flow (R := R) (W := W) (BR := BR) (BW := BW) MkProxyAuthenticator rf l q h p)) v.
Proof.
  destruct 1 as [new q0 g sw cq resp fin v -> Hq Hn Fn Fg Fsw Fr Ff Hv|u sw cq resp fin v -> Hq Fd Fsw Fr Ff Hv]; eexists.
  - exact (relays_reply rf 0 q p h new q0 g sw cq resp fin v Hq Hn Fn Fg Fsw Fr Ff Hv).
  - exact (relays_continue rf q h sw cq resp fin v Hq Fd Fsw Fr Ff Hv).
Qed.

(** (C1) A whole visit of a client.  A client with a well-formed response, for whom there is a
    pooled connection, new or used before, whom the backend accepts, and who sends any sequence
    of single-frame commands, none a change of user, with complete responses and then quits: [connect] ends normally; the client was
    sent the greeting, the backend's authentication switch and verdict, and every response, byte
    for byte; the backend was sent the response with the unknown plugin (or a change of user, on
    a used connection), the client's answer, every command, and a reset; and the connection,
    marked with the client's user, goes back to the pool. *)
Theorem connect_served (s : world) r q rr pc cin bin cout bout xs fq fp q2 p2 crest brest :
  arrives s r q rr (cin ++ (frames (map request xs) ++ frame fq (command_u8 ComQuit :: fp)) ++ crest) pc ->
  auth_exchange (conn_life_cycle pc) q (client_of rr) (encode_response41 rr) cin bin cout bout (inr tt) ->
  Forall (exchange_ok (R := R) (W := W) (BR := BR) (BW := BW) (client_of rr) ff) xs -> (length xs < fuel)%nat ->
  fits p2 -> fits (command_u8 ComQuit :: fp) ->
  stream (fst (inner_conn pc)) = bin ++ (frames (concat (map x_response xs)) ++ frame q2 p2) ++ brest ->
  served s pc (connect MkProxyAuthenticator rf ff fuel rand conn_id tls env pool_get r s)
    (cout ++ frames (concat (map x_response xs)))
    (bout ++ frames (map request xs) ++ frame (reset_number 0 xs) reset_payload) brest
    (new_conn_life_cycle (db_user_string (client_of rr)) PhaseCommand).
Proof.
  intros Ha Hx Hxs Hf Hp2 Hq Hb. destruct (auth_exchange_relays _ _ _ _ _ _ _ _ _ Hx) as (n' & Hr).
  exact (connect_session s r q rr pc cin bin cout bout n' xs fq fp q2 p2 crest brest Ha Hr Hxs Hf Hp2 Hq Hb).
Qed.

(** (C21) A client the backend refuses: it gets the backend's error packet, [connect] returns
    normally without a command phase, and the connection is marked so that the pool does not
    take it back. *)
Theorem connect_refused (s : world) r q rr pc cin bin cout bout e crest brest :
  arrives s r q rr (cin ++ crest) pc ->
  auth_exchange (conn_life_cycle pc) q (client_of rr) (encode_response41 rr) cin bin cout bout (inl e) ->
  stream (fst (inner_conn pc)) = bin ++ brest ->
  served s pc (connect MkProxyAuthenticator rf ff fuel rand conn_id tls env pool_get r s) cout bout brest
    (new_conn_life_cycle (db_user_string (client_of rr)) PhaseConnection).
Proof.
  intros Ha Hx Hb. destruct (auth_exchange_relays _ _ _ _ _ _ _ _ _ Hx) as (n' & Hr).
  exact (connect_turned_away s r q rr pc cin bin cout bout n' e crest brest Ha Hr Hb).
Qed.

(** (C30) A connection that is not new can be handed out as new.  When the backend's answer to the
    first response is not an authentication switch, the task panics before the life cycle is
    written: the connection, its greeting and that answer consumed, still counts as new and is
    accepted back, and its next user will wait for a greeting that does not come. *)
Theorem panic_returns_connection (s : world) r q rr later pc new q0 g q1 b t brest :
  arrives s r q rr later pc -> conn_life_cycle pc = default_life_cycle -> 0 <= q < 253 ->
  reset_handshake_plugin (encode_response41 rr) (client_of rr) = Ok new -> fits new -> fits g ->
  fits (b :: t) -> b <> AUTH_SWITCH_REQUEST ->
  stream (fst (inner_conn pc)) = frame q0 g ++ frame q1 (b :: t) ++ brest ->
  exists s' pc', connect MkProxyAuthenticator rf ff fuel rand conn_id tls env pool_get r s = (Panic, s') /\
    wd_pooled s' = Some pc' /\ conn_life_cycle pc' = default_life_cycle /\ recycle pc' = Ok tt /\
    stream (fst (inner_conn pc')) = brest.
Proof.
  intros Ha Hl Hq Hn Fn Fg Fb Hb Hs. destruct (connect_arrives s r q rr _ pc Ha) as (reader & w & m & E & Hsrc & Hst & _).
  rewrite E. unfold serve_pooled. cbn [wd_writer wd_mgr].
  pose proof (reset_conn_ok rf _ (arrives_conn_ok s r q rr _ pc reader w Ha Hsrc)) as Hok.
  rewrite serve_unfold, Hl. unfold auth_flow. cbn [auth_reply proxy_authenticator conn_phase lc_conn_phase default_life_cycle].
  set (c0 := snd (on_backend_writer reset_seq _)) in *.
  assert (relays (R := R) (W := W) (BR := BR) (BW := BW) rf 0 [] (frame q0 g ++ []) [] ([] ++ frame q new) ((q + 1) mod U8)
    (_ ← on_backend_reader (async_packet_read rf); backend_send q new) tt) as Hr.
  { eapply relays_conv; [eapply relays_bind; [exact (relays_read_backend rf 0 q0 g Fg)|]|reflexivity..].
    apply relays_backend_send; [done|unfold U8; lia]. }
  destruct (Hr c0 later (frame q1 (b :: t) ++ brest) Hok eq_refl) as (c1 & E1 & Hok1 & _ & _ & Hb1 & _ & _);
    [exact Hst|rewrite app_nil_r; exact Hs|].
  destruct (switch_panics rf q q1 b t c1 brest Hok1 Fb Hb Hb1) as (c2 & E2 & _ & _ & Hb2 & _).
  assert (attempt (reply_handshake_response rf q (encode_response41 rr) (client_of rr)) c0 = (Panic, c2)) as E3.
  { unfold attempt, reply_handshake_response. revert E1. rewrite !run_bind.
    destruct (on_backend_reader _ c0) as [[[q' p']| | |] c']; try done. intros E1. mstep. rewrite Hn. mstep.
    rewrite E1, E2. done. }
  rewrite E3. eexists _, _. split; [reflexivity|]. split; [reflexivity|]. cbn [conn_life_cycle inner_conn fst sv_streams sv_life].
  done.
Qed.

End connections.

(** ** The life of a pooled connection *)

Section life.
Context {R W BR BW Rt P : Type} `{AsyncRead R} `{AsyncWrite W} `{AsyncRead BR} `{AsyncWrite BW}.
Context `{Profile} `{Winnow} `{MysqlIo} `{MysqlFlags} `{MysqlPackets}.
Context {A : Type} `{!Authenticator R W BR BW A}.

Abbreviation world := (World W Rt P BR BW).

(** How the authentication of a visit went: the flow of the life cycle of [pc], on the client's
    streams and those of [pc], numbered from 0. *)
Definition visit_auth (authenticator : A) (rf : nat) (seq : Z) (h : HandshakeResponse) (pkt : Packet)
    (reader : PacketReader R) (pc : PooledConn BR BW) (s : world) : outcome io_error unit :=
  fst (auth_flow authenticator rf (conn_life_cycle pc) seq h (payload pkt)
    (snd (on_backend_writer reset_seq (MkConn reader (pw_new (wd_writer s)) (fst (inner_conn pc)) (snd (inner_conn pc)))))).

(** A client [h] served on [pc] leaves [pc'], however the visit goes, I/O errors and panics
    included; its authentication gives [o]. *)
Definition visit (h : HandshakeResponse) (o : outcome io_error unit) (pc pc' : PooledConn BR BW) : Prop :=
  exists (authenticator : A) rf ff fuel seq pkt (reader : PacketReader R) (s : world),
  visit_auth authenticator rf seq h pkt reader pc s = o /\
  wd_pooled (snd (serve_pooled authenticator rf ff fuel seq h pkt reader pc s)) = Some pc'.

(** The clients of a connection with the outcomes of their authentications, the last one first. *)
Definition visits : Type := list (HandshakeResponse * outcome io_error unit).

(** The connections a pool hands out, each with its visits: deadpool creates them, or reuses one
    that was returned if the manager accepts it. *)
Inductive handed_out `{!TcpStream BR BW} : PooledConn BR BW -> visits -> Prop :=
  | HandedNew m id pc : create m id = Ok pc -> handed_out pc []
  | HandedAgain pc vs h o pc' : handed_out pc vs -> visit h o pc pc' -> recycle pc' = Ok tt ->
      handed_out pc' ((h, o) :: vs).

(** The last client whose authentication succeeded. *)
Fixpoint last_authenticated (vs : visits) : option HandshakeResponse :=
  match vs with
  | [] => None
  | (h, Ok _) :: _ => Some h
  | _ :: vs => last_authenticated vs
  end.

(** What a visit does to the life cycle, by its authentication. *)
Lemma visit_life h o pc pc' : visit h o pc pc' ->
  conn_life_cycle pc' =
    match o with
    | Ok _ => new_conn_life_cycle (db_user_string h) PhaseCommand
    | Err _ => new_conn_life_cycle (db_user_string h) PhaseConnection
    | _ => conn_life_cycle pc
    end.
Proof.
  intros (au & rf' & ff' & fuel' & seq & [p] & reader & s & <- & E). unfold visit_auth.
  unfold serve_pooled in E. rewrite serve_unfold in E. unfold attempt in E. cbn [payload].
  destruct (auth_flow _ _ _ _ _ _ _) as [[[]|e| |] c]; cbn [fst snd wd_pooled sv_life] in *;
    [destruct (on_com rf' ff' fuel' h c) as [o c2]; cbn [snd wd_pooled sv_life] in E|..];
    by injection E as <-.
Qed.

(** (C16) The mark of a connection tells who used it.  Whatever clients and authenticators do, and
    however the visits end, a connection that a pool hands out is marked as new exactly when no
    authentication on it has succeeded, and otherwise as authenticated by the last client whose
    authentication did; and none of its authentications, the last one included, has failed with
    an error: such a connection is never handed out again. *)
Theorem handed_out_phase `{!TcpStream BR BW} pc vs : handed_out pc vs ->
  conn_life_cycle pc =
    match last_authenticated vs with
    | None => default_life_cycle
    | Some h => new_conn_life_cycle (db_user_string h) PhaseCommand
    end /\
  Forall (fun v => forall e, snd v <> Err e) vs.
Proof.
  induction 1 as [m id pc Hc|pc vs h o pc' _ [IH Hf] Hv Hr]; [by apply create_fresh in Hc as [Hc _]|].
  apply visit_life in Hv. unfold recycle in Hr. rewrite Hv in *. destruct o; by (split; [|constructor]).
Qed.

End life.

(** ** Witnesses *)

(** A build that checks overflow. *)
#[local] Instance debug_build : Profile := true.

(** A static router with one backend, whose pool is there. *)
Definition static_instance : BackendInstance :=
  MkBackendInstance default_location (str "127.0.0.1:3306") Ready default_cluster.

Definition static_mgr : BackendMgr (StaticRouter Z) (PooledConnMgr * bool) :=
  snd (prepare_backend_conn_pool 1
    (mgr_new (MkStaticRouter [static_instance] (MkRandomBalancer 0)) default_options)).

Definition empty_sink : sink := Sink [] [] 0.

Definition static_world : World sink (StaticRouter Z) (PooledConnMgr * bool) chunked sink :=
  MkWorld (Sink [] [3] 0) static_mgr None.

(** A connection with the given bytes still to come. *)
Definition pooled_with (b : bytes) (l : DbUserConnLifeCycle) : PooledConn chunked sink :=
  MkPooled (str "id") (pr_new (Chunked [b]), pw_new empty_sink) l.

Definition zero_rand : nat -> Z := fun _ => 0.

Definition sample_client : HandshakeResponse := client_of None sample_response.

(** The client answers the authentication switch with [[7; 8]]. *)
Definition client_says (more : bytes) : bytes :=
  frame 1 (encode_response41 sample_response) ++ frame 3 [7; 8] ++ more.

Definition first_auth (fin : bytes) : bytes := frame 0 [10; 53] ++ frame (1 + 1) [0xfe; 1; 2] ++ frame (1 + 3) fin.

Lemma sample_arrives more (pc : PooledConn chunked sink) : pooled_ok 400 pc -> is_bytes more -> (length more < 200)%nat ->
  arrives (Pr := true) 400 zero_rand 7 None (fun _ => Ok pc) static_world (Chunked [client_says more]) 1 sample_response
    (frame 3 [7; 8] ++ more) pc.
Proof.
  intros Hpc Hm Hl. constructor.
  - done.
  - lia.
  - split; [exact sample_response_ok|]. split; by vm_compute.
  - unfold avail, chunked_stream. cbn [pieces concat]. rewrite app_nil_r. split; [done|].
    unfold client_says. rewrite app_assoc. set (hd := _ ++ frame 3 [7; 8]).
    assert (is_bytes hd) as Hhd by (repeat constructor; by vm_compute).
    split; [by apply is_bytes_app|]. rewrite length_app.
    assert (length hd < 200)%nat by (vm_compute; lia). lia.
  - exists (MkPooledConnMgr static_instance, true). split; [by vm_compute|done].
  - done.
Qed.

Lemma pooled_with_ok b l : is_bytes b -> (length b < 400)%nat -> pooled_ok 400 (pooled_with b l).
Proof.
  intros Hb Hl. constructor; [|done|done]. cbn [inner_conn pooled_with fst]. split; [by vm_compute|].
  rewrite stream_new_chunked. done.
Qed.

Lemma sample_first_auth fin v : fits fin -> verdict fin v ->
  auth_exchange default_life_cycle 1 sample_client (encode_response41 sample_response)
    (frame 3 [7; 8]) (first_auth fin) (frame (1 + 1) [0xfe; 1; 2] ++ frame (1 + 3) fin)
    (frame 1 sample_reset ++ frame (1 + 1 + 1) [7; 8]) v.
Proof.
  intros Hf Hv. apply (FirstUse _ 1 _ _ sample_reset 0 [10; 53] [1; 2] 3 [7; 8] fin v); try done; by vm_compute.
Qed.

Definition session_bytes : bytes := (frames (map request sample_session) ++ frame 0 (command_u8 ComQuit :: [])) ++ [].
Definition first_backend : bytes :=
  first_auth ok_reply ++ (frames (concat (map x_response sample_session)) ++ frame 2 ok_reply) ++ [].

Lemma connect_served_witness :
  served 400 zero_rand 7 false static_world (pooled_with first_backend default_life_cycle)
    (connect (H3 := true) MkProxyAuthenticator 400 8 5 zero_rand 7 false None (fun _ => Ok (pooled_with first_backend default_life_cycle))
      (Chunked [client_says session_bytes]) static_world)
    ((frame (1 + 1) [0xfe; 1; 2] ++ frame (1 + 3) ok_reply) ++ frames (concat (map x_response sample_session)))
    ((frame 1 sample_reset ++ frame (1 + 1 + 1) [7; 8]) ++
      frames (map request sample_session) ++ frame (reset_number 0 sample_session) reset_payload) []
    (new_conn_life_cycle (db_user_string sample_client) PhaseCommand).
Proof.
  apply (connect_served (Pr := true) 400 8 5 zero_rand 7 false None (fun _ => Ok (pooled_with first_backend default_life_cycle))
    static_world (Chunked [client_says session_bytes]) 1 sample_response (pooled_with first_backend default_life_cycle)
    (frame 3 [7; 8]) (first_auth ok_reply) _ _ sample_session 0 [] 2 ok_reply [] []).
  - apply sample_arrives; [apply pooled_with_ok|..]; try (vm_compute; lia); repeat constructor; by vm_compute.
  - apply sample_first_auth; [by vm_compute|]. exists 0, [0; 0; 2; 0; 0; 0]. split; [done|by vm_compute].
  - by apply sample_exchanges.
  - simpl. lia.
  - by vm_compute.
  - by vm_compute.
  - cbn [pooled_with inner_conn fst]. by rewrite stream_new_chunked.
Defined.

(** The backend refuses the user. *)
Definition refusal : bytes := [0xff; 21; 4; 35; 50; 56; 48; 48; 48; 110; 111].

Lemma refusal_verdict : verdict refusal (inl PermissionDenied).
Proof.
  split; [by eexists|]. split; [by vm_compute|]. split; [|done]. vm_compute. by eexists.
Qed.

Lemma connect_refused_witness :
  served 400 zero_rand 7 false static_world (pooled_with (first_auth refusal ++ []) default_life_cycle)
    (connect (H3 := true) MkProxyAuthenticator 400 8 5 zero_rand 7 false None (fun _ => Ok (pooled_with (first_auth refusal ++ []) default_life_cycle))
      (Chunked [client_says []]) static_world)
    (frame (1 + 1) [0xfe; 1; 2] ++ frame (1 + 3) refusal)
    (frame 1 sample_reset ++ frame (1 + 1 + 1) [7; 8]) []
    (new_conn_life_cycle (db_user_string sample_client) PhaseConnection).
Proof.
  apply (connect_refused (Pr := true) 400 8 5 zero_rand 7 false None
    (fun _ => Ok (pooled_with (first_auth refusal ++ []) default_life_cycle))
    static_world (Chunked [client_says []]) 1 sample_response (pooled_with (first_auth refusal ++ []) default_life_cycle)
    (frame 3 [7; 8]) (first_auth refusal) _ _ PermissionDenied [] []).
  - apply sample_arrives; [apply pooled_with_ok|..]; try (vm_compute; lia); repeat constructor; by vm_compute.
  - apply sample_first_auth; [by vm_compute|exact refusal_verdict].
  - cbn [pooled_with inner_conn fst]. by rewrite stream_new_chunked.
Defined.

(** An error packet in place of the authentication switch: too many connections. *)
Definition busy_backend : bytes := frame 0 [10; 53] ++ frame 2 (0xff :: [16; 4; 35]) ++ [1; 0; 0].

Lemma panic_returns_connection_witness : exists s' pc',
  connect (H3 := true) MkProxyAuthenticator 400 8 5 zero_rand 7 false None (fun _ => Ok (pooled_with busy_backend default_life_cycle))
    (Chunked [client_says []]) static_world = (Panic, s') /\
  wd_pooled s' = Some pc' /\ conn_life_cycle pc' = default_life_cycle /\ recycle pc' = Ok tt /\
  stream (fst (inner_conn pc')) = [1; 0; 0].
Proof.
  apply (panic_returns_connection (Pr := true) 400 8 5 zero_rand 7 false None
    (fun _ => Ok (pooled_with busy_backend default_life_cycle)) static_world (Chunked [client_says []]) 1 sample_response
    (frame 3 [7; 8] ++ []) (pooled_with busy_backend default_life_cycle) sample_reset 0 [10; 53] 2 0xff [16; 4; 35] [1; 0; 0]).
  - apply sample_arrives; [apply pooled_with_ok|..]; try (vm_compute; lia); repeat constructor; by vm_compute.
  - done.
  - lia.
  - by vm_compute.
  - by vm_compute.
  - by vm_compute.
  - by vm_compute.
  - by vm_compute.
  - cbn [pooled_with inner_conn fst]. by rewrite stream_new_chunked.
Defined.

(** A backend reached by TCP. *)
#[export] Instance sample_tcp : TcpStream chunked sink := fun _ => Ok (Chunked [first_backend], empty_sink).

(** A new connection serves a session, and is handed out again. *)
Definition visited_conn : PooledConn chunked sink :=
  default (pooled_with [] default_life_cycle)
    (wd_pooled (snd (serve_pooled MkProxyAuthenticator 400 8 5 1 sample_client (MkPacket (encode_response41 sample_response))
      (pr_new (Chunked [frame 3 [7; 8] ++ session_bytes])) (pooled_with first_backend default_life_cycle) static_world))).

Lemma handed_out_phase_witness :
  conn_life_cycle visited_conn = new_conn_life_cycle (db_user_string sample_client) PhaseCommand /\
  Forall (fun v : HandshakeResponse * outcome io_error unit => forall e, snd v <> Err e) [(sample_client, Ok tt)].
Proof.
  apply (handed_out_phase (R := chunked) (W := sink) (Rt := StaticRouter Z) (P := PooledConnMgr * bool) (A := ProxyAuthenticator)
    visited_conn [(sample_client, Ok tt)]).
  apply (HandedAgain (pooled_with first_backend default_life_cycle) [] sample_client (Ok tt) visited_conn).
  - apply (HandedNew (MkPooledConnMgr static_instance) (str "id")). reflexivity.
  - exists MkProxyAuthenticator, 400%nat, 8%nat, 5%nat, 1, (MkPacket (encode_response41 sample_response)),
      (pr_new (Chunked [frame 3 [7; 8] ++ session_bytes])), static_world. split; by vm_compute.
  - by vm_compute.
Defined.
