(* ===== verification/Termination.v ===== *)
(** * Every connection ends ([server/], [packet/])

    Whatever finite streams of bytes a client and a backend send, malformed or cut off at any
    point, and whichever of its writes fail, [connect] ends: with a value, an error or a panic,
    never by running for ever.  [halts c b m] says so of a computation on a connection whose
    client has fewer than [c] bytes to send and whose backend has fewer than [b]; it is closed
    under the constructs of the code, and every packet read makes a bound smaller.  The
    measures of the loops are therefore the lengths of the two streams. *)
From S2P Require Import Prelude External Reference Constants Packet PacketWriter PacketReader Utf8 Proto TenantKey ErrorCodes Charset Basic Writers Forwarder Responses Server Auth Runtime CpResolver Discovery Pool Router BackendMgr Connect.

(** ** Writers *)

Section writers_return.
Context {W : Type} {Wops : AsyncWrite W} {WR : WriteReturns W} {I : MysqlIo} {F : MysqlFlags}.

Lemma returns_on_inner {A} (m : M W A) : returns m -> returns (on_inner m).
Proof. apply returns_zoom. Qed.

Lemma returns_pw_write b : returns (S := PacketWriter W) (pw_write b).
Proof. apply returns_modify. Qed.

Lemma returns_set_seq n : returns (S := PacketWriter W) (set_seq n).
Proof. apply returns_modify. Qed.

Lemma returns_write_chunk c : returns (S := PacketWriter W) (write_chunk c).
Proof.
  unfold write_chunk, increase_seq. repeat (apply returns_bind; intros); auto with returns;
    [apply returns_on_inner, write_vectored_returns|].
  apply returns_if; [apply returns_ret|apply returns_on_inner, write_all_returns].
Qed.

Lemma returns_write_chunks cs : returns (S := PacketWriter W) (write_chunks cs).
Proof.
  induction cs as [|c cs IH]; cbn [write_chunks]; [apply returns_ret|].
  apply returns_bind; [apply returns_write_chunk|done].
Qed.

Lemma returns_end_packet : returns (S := PacketWriter W) end_packet.
Proof.
  unfold end_packet. apply returns_bind; [apply returns_gets|]. intros []; cbn [negb].
  - apply returns_bind; [apply returns_gets|]. intros s.
    apply returns_bind; [apply returns_on_inner, write_vectored_returns|]. intros. apply returns_ret.
  - apply returns_bind; [by intros w|]. intros. apply returns_write_chunks.
Qed.

Lemma returns_flush_all : returns (S := PacketWriter W) flush_all.
Proof. apply returns_on_inner, flush_returns. Qed.

End writers_return.

#[export] Hint Resolve returns_pw_write returns_set_seq returns_end_packet returns_flush_all : returns.
#[export] Hint Extern 1 (returns (_ ≫= _)) => apply returns_bind; [|intros] : returns.

Section packets_return.
Context {W : Type} {Wops : AsyncWrite W} {WR : WriteReturns W} {I : MysqlIo} {F : MysqlFlags}.

Lemma returns_reset_connection : returns (S := PacketWriter W) write_reset_connection.
Proof. unfold write_reset_connection. auto 20 with returns. Qed.

Lemma returns_err_packet e msg : returns (S := PacketWriter W) (write_err_packet e msg).
Proof. unfold write_err_packet. auto 20 with returns. Qed.

Lemma returns_initial_handshake conn_id scramble version tls :
  returns (S := PacketWriter W) (write_initial_handshake conn_id scramble version tls).
Proof. unfold write_initial_handshake. cbv zeta. auto 60 with returns. Qed.

End packets_return.

#[export] Hint Resolve returns_reset_connection returns_err_packet returns_initial_handshake : returns.

(** ** Parsers *)

Section parsers_return.
Context {Wn : Winnow} {WL : WinnowLaws Wn} {F : MysqlFlags}.

Lemma goes_ends {A} (P : A -> Prop) (r : presult A) : goes P r -> unwrap_parse r <> OutOfFuel.
Proof. by destruct r as [[]| | |]. Qed.

Lemma eof_server_status_ends p : is_bytes p -> unwrap_parse (eof_server_status p) <> OutOfFuel.
Proof.
  intros Hp. apply (goes_ends (fun _ => True)). unfold eof_server_status. destruct (len p <? 3); [done|].
  eapply goes_bind; [eapply goes_reads_le; [|apply le_u16_law|]; [lia|by apply is_bytes_take]|]. by intros.
Qed.

Lemma goes_session_info p caps flags : is_bytes p ->
  safe (fun _ => True)
    (if negb (bool_decide (p = [])) && contains caps CLIENT_SESSION_TRACK then
       '(i, info_size) ← read_length_encoded_number p;
       '(i, info) ← wtake info_size i;
       state ← (if contains flags SERVER_SESSION_STATE_CHANGED then
                  '(i, s_t_size) ← read_length_encoded_number i;
                  '(_, s) ← wtake s_t_size i;
                  Ok (default [] (from_utf8 s))
                else Ok []);
       Ok (default [] (from_utf8 info), state)
     else Ok ([], [])).
Proof.
  intros Hp. destruct (_ && _); [|done].
  eapply goes_bind; [by apply goes_number|]. intros i n Hi Hn.
  eapply goes_bind; [by apply goes_wtake|]. intros j s Hj _.
  eapply (safe_bind (fun _ => True)); [|done]. destruct (contains flags _); [|done].
  eapply goes_bind; [by apply goes_number|]. intros k m Hk Hm.
  eapply goes_bind; [by apply goes_wtake|]. done.
Qed.

Lemma ok_packet_ends p caps : is_bytes p -> unwrap_parse (ok_packet p caps) <> OutOfFuel.
Proof.
  intros Hp. apply (goes_ends (fun _ => True)). unfold ok_packet.
  eapply goes_bind; [eapply goes_reads_le; [|apply le_u8_law|done]; lia|]. intros i1 header H1 _.
  do 2 (eapply goes_bind; [by apply goes_number|]; intros ? ? ? _).
  eapply goes_bind; [eapply goes_reads_le; [|apply le_u16_law|done]; lia|]. intros i4 flags H4 _.
  eapply goes_bind; [eapply goes_reads_le; [|apply le_u16_law|done]; lia|]. intros i5 warn H5 _.
  eapply safe_bind; [by apply goes_session_info|]. by intros [info state] _.
Qed.

End parsers_return.

Lemma u16_at_ends {I : MysqlIo} n p : u16_at n p <> OutOfFuel.
Proof. unfold u16_at. destruct (_ <=? _); [apply unwrap_option_ends|done]. Qed.

Lemma add_width_ends {Pr : Profile} {E} w a b : add_width (E := E) w a b <> OutOfFuel.
Proof. unfold add_width. by repeat case_match. Qed.

#[export] Hint Resolve eof_server_status_ends ok_packet_ends u16_at_ends add_width_ends : returns.

(** ** Computations on a connection *)

Section halting.
Context {R W BR BW : Type} {Rops : AsyncRead R} {RS : ReadStream R} {Wops : AsyncWrite W}
  {WR : WriteReturns W} {BRops : AsyncRead BR} {BRS : ReadStream BR}
  {BWops : AsyncWrite BW} {BWR : WriteReturns BW}.
Context {Pr : Profile} {Wn : Winnow} {WL : WinnowLaws Wn} {I : MysqlIo} {F : MysqlFlags} {FL : MysqlFlagsLaws F} {MP : MysqlPackets}.
Context (rf : nat).

Abbreviation conn := (Conn R W BR BW).

(** Two streams that can be read, and how much each has left. *)
Definition live (s : conn) : Prop := source_ok rf (client_reader s) /\ source_ok rf (backend_reader s).
Definition clen (s : conn) : nat := length (stream (client_reader s)).
Definition blen (s : conn) : nat := length (stream (backend_reader s)).

Definition halts {A} (c b : nat) (P : A -> Prop) (m : M conn A) : Prop :=
  forall s, live s -> (clen s < c)%nat -> (blen s < b)%nat ->
  match m s with
  | (Ok a, s') => P a /\ live s' /\ (clen s' <= clen s)%nat /\ (blen s' <= blen s)%nat
  | (OutOfFuel, _) => False
  | _ => True
  end.

Lemma halts_weaken {A} c b c' b' (P Q : A -> Prop) m :
  halts c b P m -> (c' <= c)%nat -> (b' <= b)%nat -> (forall a, P a -> Q a) -> halts c' b' Q m.
Proof.
  intros Hm Hc Hb HQ s Hl Hcl Hbl. specialize (Hm s Hl ltac:(lia) ltac:(lia)).
  destruct (m s) as [[a|e| |] s']; try done. destruct Hm. split; [by apply HQ|done].
Qed.

Lemma halts_ret {A} c b (P : A -> Prop) a : P a -> halts c b P (mret a).
Proof. intros Ha s Hl _ _. done. Qed.

Lemma halts_throw {A} c b (P : A -> Prop) e : halts c b P (throw e).
Proof. by intros s. Qed.

Lemma halts_panic {A} c b (P : A -> Prop) : halts c b P panic.
Proof. by intros s. Qed.

Lemma halts_lift {A} c b (o : outcome io_error A) : o <> OutOfFuel -> halts c b (fun a => o = Ok a) (lift o).
Proof. intros Ho s Hl _ _. by destruct o. Qed.

Lemma halts_bind {A B} c b (P : A -> Prop) (Q : B -> Prop) (m : M conn A) (k : A -> M conn B) :
  halts c b P m -> (forall a, P a -> halts c b Q (k a)) -> halts c b Q (m ≫= k).
Proof.
  intros Hm Hk s Hl Hc Hb. rewrite run_bind. specialize (Hm s Hl Hc Hb).
  destruct (m s) as [[a|e| |] s']; try done. destruct Hm as (Ha & Hl' & Hc' & Hb').
  specialize (Hk a Ha s' Hl' ltac:(lia) ltac:(lia)). destruct (k a s') as [[x|e| |] s2]; try done.
  destruct Hk as (? & ? & ? & ?). split_and!; done || lia.
Qed.

Lemma halts_if {A} c b (t : bool) (P : A -> Prop) m k :
  (t = true -> halts c b P m) -> (t = false -> halts c b P k) -> halts c b P (if t then m else k).
Proof. destruct t; auto. Qed.

Lemma halts_client_writer {A} c b (m : M (PacketWriter W) A) :
  returns m -> halts c b (fun _ => True) (on_client_writer (R := R) (BR := BR) (BW := BW) m).
Proof.
  intros Hm s Hl _ _. unfold on_client_writer, zoom. specialize (Hm (client_writer s)).
  by destruct (m (client_writer s)) as [[]].
Qed.

Lemma halts_backend_writer {A} c b (m : M (PacketWriter BW) A) :
  returns m -> halts c b (fun _ => True) (on_backend_writer (R := R) (W := W) (BR := BR) m).
Proof.
  intros Hm s Hl _ _. unfold on_backend_writer, zoom. specialize (Hm (backend_writer s)).
  by destruct (m (backend_writer s)) as [[]].
Qed.

(** [m] ends on every stream, and leaves [n a] bytes fewer when it returns [a]. *)
Definition consumes {X A} {Xops : AsyncRead X} {XS : ReadStream X} (n : A -> nat) (P : A -> Prop)
    (m : M (PacketReader X) A) : Prop :=
  forall r, source_ok rf r ->
  match m r with
  | (Ok a, r') => source_ok rf r' /\ P a /\ (length (stream r') + n a <= length (stream r))%nat
  | (OutOfFuel, _) => False
  | _ => True
  end.

Definition numbered (x : Z * Packet) : Prop := is_u8 (fst x) /\ is_bytes (payload (snd x)).

Lemma frame_bytes_inv q p : is_bytes (frame q p) -> is_u8 q /\ is_bytes p.
Proof.
  unfold frame. intros H. apply is_bytes_app in H as [_ H]. cbn [app] in H. by apply Forall_cons in H.
Qed.

Lemma is_bytes_payloads fs : is_bytes (frames fs) -> is_bytes (concat (map snd fs)).
Proof.
  induction fs as [|[q p] fs IH]; [done|]. rewrite frames_cons. intros H.
  apply is_bytes_app in H as [H1 H2]. cbn [map concat]. apply is_bytes_app. split; [|by apply IH].
  by apply frame_bytes_inv in H1 as [_ H1].
Qed.

(** Reading a packet ends, and a packet is at least one byte. *)
Lemma next_async_consumes {X} {Xops : AsyncRead X} {XS : ReadStream X} :
  consumes (X := X) (fun o => match o with Some _ => 1 | None => 0 end)%nat (from_option numbered True) (next_async rf).
Proof.
  intros r (Hok & Hb & Hf). assert (length (avail (pr_r r)) < rf)%nat as Hf'.
  { unfold stream in Hf. rewrite length_app in Hf. lia. }
  pose proof (next_async_spec rf r Hok Hb Hf') as Hr. unfold reads_packet in Hr.
  destruct (packet_cases _ Hb) as [(fs & q & p & rest & E & Hfs & Hp)|[k Hk]].
  - rewrite E, packet_frames in Hr by done.
    destruct (consecutive None fs); [|by destruct (next_async rf r) as [[]]].
    destruct Hr as (r' & -> & Hok' & Es). unfold source_ok. rewrite E in Hb, Hf |- *. rewrite Es.
    apply is_bytes_app in Hb as [Hbf Hb]. apply is_bytes_app in Hb as [Hbp Hbr].
    rewrite !length_app in *. split; [split_and!; [done..|lia]|].
    apply frame_bytes_inv in Hbp as [Hq Hbp]. split.
    + split; [done|]. apply is_bytes_app. split; [by apply is_bytes_payloads|done].
    + unfold frame. rewrite !length_app. simpl. lia.
  - rewrite Hk in Hr. destruct (stream r) as [|x u] eqn:E; destruct Hr as (r' & -> & Hok' & Es); [|done].
    unfold source_ok. rewrite Es. cbn [length] in *. split_and!; done || lia.
Qed.

Lemma async_packet_read_consumes {X} {Xops : AsyncRead X} {XS : ReadStream X} :
  consumes (X := X) (fun _ => 1%nat) numbered (async_packet_read rf).
Proof.
  intros r Hr. pose proof (next_async_consumes r Hr) as H. unfold async_packet_read. rewrite run_bind.
  by destruct (next_async rf r) as [[[x|]|e| |] r'].
Qed.

Lemma halts_client_read {A B} c b (n : A -> nat) (P : A -> Prop) (Q : B -> Prop) m (k : A -> M conn B) :
  consumes n P m -> (forall a, P a -> halts (c - n a) b Q (k a)) -> halts c b Q (on_client_reader m ≫= k).
Proof.
  intros Hm Hk s [Hc Hb] Hcl Hbl. rewrite run_bind. unfold on_client_reader, zoom.
  specialize (Hm _ Hc). destruct (m (client_reader s)) as [[a|e| |] r']; try done.
  destruct Hm as (Hok & Ha & Hle).
  specialize (Hk a Ha (MkConn r' (client_writer s) (backend_reader s) (backend_writer s)) (conj Hok Hb)).
  unfold clen, blen in *. cbn [client_reader backend_reader] in *.
  specialize (Hk ltac:(lia) ltac:(lia)). destruct (k _ _) as [[]]; try done.
  destruct Hk as (? & ? & ? & ?). split_and!; done || lia.
Qed.

Lemma halts_backend_read {A B} c b (n : A -> nat) (P : A -> Prop) (Q : B -> Prop) m (k : A -> M conn B) :
  consumes n P m -> (forall a, P a -> halts c (b - n a) Q (k a)) -> halts c b Q (on_backend_reader m ≫= k).
Proof.
  intros Hm Hk s [Hc Hb] Hcl Hbl. rewrite run_bind. unfold on_backend_reader, zoom.
  specialize (Hm _ Hb). destruct (m (backend_reader s)) as [[a|e| |] r']; try done.
  destruct Hm as (Hok & Ha & Hle).
  specialize (Hk a Ha (MkConn (client_reader s) (client_writer s) r' (backend_writer s)) (conj Hc Hok)).
  unfold clen, blen in *. cbn [client_reader backend_reader] in *.
  specialize (Hk ltac:(lia) ltac:(lia)). destruct (k _ _) as [[]]; try done.
  destruct Hk as (? & ? & ? & ?). split_and!; done || lia.
Qed.

Abbreviation any := (fun _ => True).

Lemma halts_any {A} c b (P : A -> Prop) m : halts c b P m -> halts c b any m.
Proof. intros Hm. by eapply halts_weaken. Qed.

Lemma halts_assoc {A B D} c b (P : D -> Prop) (m : M conn A) (f : A -> M conn B) (k : B -> M conn D) :
  halts c b P (m ≫= (fun a => f a ≫= k)) -> halts c b P ((m ≫= f) ≫= k).
Proof.
  intros Hm s Hl Hc Hb. specialize (Hm s Hl Hc Hb). rewrite !run_bind in *.
  by destruct (m s) as [[]].
Qed.

Lemma halts_seq {A B} c b (Q : B -> Prop) (m : M conn A) (k : M conn B) :
  halts c b any m -> halts c b Q k -> halts c b Q (_ ← m; k).
Proof. intros Hm Hk. by eapply halts_bind. Qed.

(** A packet written to a side. *)
Lemma halts_flush_client c b (fl : bool) :
  halts c b any (if fl then on_client_writer (R := R) (BR := BR) (BW := BW) flush_all else mret tt).
Proof. destruct fl; [apply halts_client_writer; auto with returns|by apply halts_ret]. Qed.

Lemma halts_flush_backend c b (fl : bool) :
  halts c b any (if fl then on_backend_writer (R := R) (W := W) (BR := BR) flush_all else mret tt).
Proof. destruct fl; [apply halts_backend_writer; auto with returns|by apply halts_ret]. Qed.

(** A packet relayed in either direction is one byte less to read. *)
Lemma halts_to_client {A} c b fl (Q : A -> Prop) (k : Packet -> M conn A) :
  (forall p, is_bytes (payload p) -> halts c (b - 1) Q (k p)) -> halts c b Q (to_client rf fl ≫= k).
Proof.
  intros Hk. unfold to_client. apply halts_assoc.
  eapply halts_backend_read; [apply async_packet_read_consumes|]. intros [q p] [_ Hp]. cbn [fst snd] in *.
  do 3 (apply halts_assoc, halts_seq; [apply halts_client_writer; auto with returns|]).
  apply halts_assoc, halts_seq; [apply halts_flush_client|]. by apply Hk.
Qed.

Lemma halts_to_backend {A} c b fl (Q : A -> Prop) (k : Packet -> M conn A) :
  (forall p, is_bytes (payload p) -> halts (c - 1) b Q (k p)) -> halts c b Q (to_backend rf fl ≫= k).
Proof.
  intros Hk. unfold to_backend. apply halts_assoc.
  eapply halts_client_read; [apply async_packet_read_consumes|]. intros [q p] [_ Hp]. cbn [fst snd] in *.
  do 3 (apply halts_assoc, halts_seq; [apply halts_backend_writer; auto with returns|]).
  apply halts_assoc, halts_seq; [apply halts_flush_backend|]. by apply Hk.
Qed.

Lemma halts_parse_err c b caps p : halts c b any (parse_err_packet (R := R) (W := W) (BR := BR) (BW := BW) caps p).
Proof. unfold parse_err_packet. apply halts_if; intros _; [by apply halts_ret|apply halts_panic]. Qed.

Lemma halts_lift_any {A} c b (o : outcome io_error A) : o <> OutOfFuel -> halts c b any (lift o).
Proof. intros H. by eapply halts_any, halts_lift. Qed.

Lemma halts_true {A} c b (P : A -> Prop) m : (forall a, P a) -> halts c b any m -> halts c b P m.
Proof. intros HP Hm. eapply halts_weaken; eauto. Qed.

Lemma halts_read_client c b : halts c b any (on_client_reader (W := W) (BR := BR) (BW := BW) (async_packet_read rf)).
Proof.
  intros s Hl Hc Hb. pose proof (halts_client_read c b _ _ any _ mret async_packet_read_consumes
    ltac:(intros; by apply halts_ret) s Hl Hc Hb) as H. rewrite run_bind in H. by destruct (on_client_reader _ s) as [[]].
Qed.

Lemma halts_read_backend c b : halts c b any (on_backend_reader (R := R) (W := W) (BW := BW) (async_packet_read rf)).
Proof.
  intros s Hl Hc Hb. pose proof (halts_backend_read c b _ _ any _ mret async_packet_read_consumes
    ltac:(intros; by apply halts_ret) s Hl Hc Hb) as H. rewrite run_bind in H. by destruct (on_backend_reader _ s) as [[]].
Qed.

(** [halt]: one step through the constructs of the code. *)
Ltac halt :=
  cbv zeta;
  match goal with
  | |- halts _ _ _ (to_client _ _ ≫= _) => apply halts_to_client; intros ? ?
  | |- halts _ _ _ (to_backend _ _ ≫= _) => apply halts_to_backend; intros ? ?
  | |- halts _ _ _ (_ ≫= _) => apply halts_seq || (eapply (halts_bind _ _ any); [|intros ? _])
  | |- halts _ _ _ (mret _) => by apply halts_ret
  | |- halts _ _ _ (throw _) => apply halts_throw
  | |- halts _ _ _ panic => apply halts_panic
  | |- halts _ _ _ (lift _) => apply halts_lift_any; by auto with returns
  | |- halts _ _ _ (on_client_writer _) => apply halts_client_writer; by auto with returns
  | |- halts _ _ _ (on_backend_writer _) => apply halts_backend_writer; by auto with returns
  | |- halts _ _ _ (on_client_reader (async_packet_read _)) => apply halts_read_client
  | |- halts _ _ _ (on_backend_reader (async_packet_read _)) => apply halts_read_backend
  | |- halts _ _ _ (parse_err_packet _ _) => apply halts_parse_err
  | |- halts _ _ _ (if _ then _ else _) => apply halts_if; intros _
  | |- halts _ _ _ (match ?x with _ => _ end) => destruct x
  end.

(** ** The forwarders *)

Lemma halts_none {A} c (P : A -> Prop) m : halts c 0 P m.
Proof. intros s _ _ H. lia. Qed.

Lemma halts_until_result_end fuel h : forall c,
  halts c fuel any (forward_until_result_end (R := R) (W := W) (BR := BR) (BW := BW) rf fuel h).
Proof.
  induction fuel as [|fuel IH]; intros c; [apply halts_none|]. cbn [forward_until_result_end].
  repeat halt; eapply halts_weaken; try apply IH; done || lia.
Qed.

Lemma halts_until_eof fuel : forall c,
  halts c fuel (fun p => is_bytes (payload p)) (forward_until_eof (R := R) (W := W) (BR := BR) (BW := BW) rf fuel).
Proof.
  induction fuel as [|fuel IH]; intros c; [apply halts_none|]. cbn [forward_until_eof].
  repeat halt; eapply halts_weaken; try apply IH; done || lia.
Qed.

Lemma halts_result fuel h c :
  halts c fuel any (forward_result (R := R) (W := W) (BR := BR) (BW := BW) rf fuel h).
Proof.
  unfold forward_result. cbv zeta. eapply (halts_bind _ _ any); [|intros early _; destruct early; [by halt|apply halts_until_result_end]].
  apply halts_if; intros _; [|by halt].
  eapply halts_bind; [apply halts_until_eof|]. intros p _. repeat halt.
Qed.

Lemma halts_query fuel h : forall c,
  halts c fuel any (forward_query (R := R) (W := W) (BR := BR) (BW := BW) rf fuel h).
Proof.
  induction fuel as [|fuel IH]; intros c; [apply halts_none|]. cbn [forward_query]. halt.
  replace (S fuel - 1)%nat with fuel by lia. eapply (halts_bind _ _ any).
  - repeat (halt || apply halts_result).
  - intros flags _. repeat halt. apply IH.
Qed.

Lemma halts_n n c b : halts c b any (forward_n (R := R) (W := W) (BR := BR) (BW := BW) rf n).
Proof.
  revert b. induction n as [|n IH]; intros b; cbn [forward_n]; repeat halt. apply IH.
Qed.

Lemma expected_packets_ends column params eof : expected_packets column params eof <> OutOfFuel.
Proof.
  unfold expected_packets. apply outcome_bind_ends; [apply add_width_ends|]. intros e.
  destruct (negb eof); [|done]. apply outcome_bind_ends; [by destruct (0 <? column); [apply add_width_ends|]|].
  intros e2. destruct (0 <? params); [apply add_width_ends|done].
Qed.

Lemma halts_prepare h c b : halts c b any (forward_prepare_stmt (R := R) (W := W) (BR := BR) (BW := BW) rf h).
Proof.
  pose proof expected_packets_ends. unfold forward_prepare_stmt. repeat (halt || apply halts_n).
Qed.

Lemma halts_change_user fuel h : forall c,
  halts c fuel any (forward_change_user (R := R) (W := W) (BR := BR) (BW := BW) rf fuel h).
Proof.
  induction fuel as [|fuel IH]; intros c; [apply halts_none|]. cbn [forward_change_user].
  repeat halt. replace (S fuel - 1)%nat with fuel by lia. apply IH.
Qed.

Lemma halts_reset_conn c b : halts c b any (forward_reset_conn (R := R) (W := W) (BR := BR) (BW := BW) rf).
Proof. unfold forward_reset_conn. repeat halt. Qed.

(** Every forwarder ends when its fuel exceeds what the backend has to send. *)
Lemma halts_forward (f : AnyForwarder) ff h c :
  halts c ff any (forward (R := R) (W := W) (BR := BR) (BW := BW) f rf ff h).
Proof.
  destruct f as [f|f|f|f|f]; unfold forward, any_forward, forward.
  - unfold stmt_prepare_forward. destruct (sf_com_code f); try apply halts_panic; [apply halts_prepare|].
    unfold forward_close_stmt. repeat halt.
  - unfold query_forward. repeat (halt || apply halts_query || apply halts_until_result_end).
  - apply halts_reset_conn.
  - apply halts_change_user.
  - unfold generic_forward. repeat halt.
Qed.

(** ** The command phase *)

Lemma rewrite_change_user_ends h p : rewrite_change_user h p <> OutOfFuel.
Proof. unfold rewrite_change_user. apply outcome_bind_ends; [apply unwrap_option_ends|done]. Qed.

Lemma halts_write_to_backend seq com h p c b :
  halts c b any (write_to_backend (R := R) (W := W) (BR := BR) (BW := BW) seq com h p).
Proof. pose proof rewrite_change_user_ends. unfold write_to_backend. repeat halt. Qed.

Lemma halts_on_com_loop ff fuel h :
  halts fuel ff any (on_com_loop (R := R) (W := W) (BR := BR) (BW := BW) rf ff fuel h).
Proof.
  induction fuel as [|fuel IH]; [intros s _ H; lia|]. cbn [on_com_loop].
  eapply halts_client_read; [apply next_async_consumes|]. intros [[q p]|] Hp; [|halt].
  cbn [Nat.sub]. rewrite Nat.sub_0_r. repeat (halt || apply halts_write_to_backend || apply halts_forward). apply IH.
Qed.

Lemma halts_on_com ff fuel h :
  halts fuel ff any (on_com (R := R) (W := W) (BR := BR) (BW := BW) rf ff fuel h).
Proof. unfold on_com. halt; [halt; apply returns_set_seq|apply halts_on_com_loop]. Qed.

(** ** Authentication *)

Lemma halts_verdict p c b : halts c b any (auth_verdict (R := R) (W := W) (BR := BR) (BW := BW) p).
Proof. unfold auth_verdict. repeat halt. Qed.

Lemma halts_switch seq c b : halts c b any (process_auth_switch_plugin (R := R) (W := W) (BR := BR) (BW := BW) rf seq).
Proof.
  unfold process_auth_switch_plugin, client_send, backend_send, backend_write.
  repeat (halt || apply halts_verdict).
Qed.

Lemma reset_plugin_ends p h : reset_handshake_plugin p h <> OutOfFuel.
Proof. unfold reset_handshake_plugin. by case_match. Qed.

(** What [connect] needs of an authenticator: its flows end, and they read no byte twice. *)
Class AuthenticatorEnds (A : Type) `{!Authenticator R W BR BW A} : Prop := {
  continue_halts : forall (a : A) seq h c b, halts c b any (auth_continue a rf seq h);
  reply_halts : forall (a : A) seq p h c b, halts c b any (auth_reply a rf seq p h);
  handshake_ends : forall (a : A) conn_id scramble tls env (c : Client R W), source_ok rf (handshake_reader c) ->
    match auth_initial_handshake (BR := BR) (BW := BW) a rf conn_id scramble tls env c with
    | (Ok _, c') => source_ok rf (handshake_reader c') /\
        (length (stream (handshake_reader c')) <= length (stream (handshake_reader c)))%nat
    | (OutOfFuel, _) => False
    | _ => True
    end;
}.

Lemma halts_continue seq h c b : halts c b any (continue_auth (R := R) (W := W) (BR := BR) (BW := BW) rf seq h).
Proof. unfold continue_auth, backend_write. repeat (halt || apply halts_switch). Qed.

Lemma halts_reply seq p h c b :
  halts c b any (reply_handshake_response (R := R) (W := W) (BR := BR) (BW := BW) rf seq p h).
Proof.
  pose proof reset_plugin_ends. unfold reply_handshake_response, backend_send, backend_write.
  repeat (halt || apply halts_switch).
Qed.

(** The greeting is sent and a response is read, or not. *)
Lemma initial_handshake_ends conn_id scramble tls env (c : Client R W) : source_ok rf (handshake_reader c) ->
  match initial_handshake rf conn_id scramble tls env c with
  | (Ok _, c') => source_ok rf (handshake_reader c') /\
      (length (stream (handshake_reader c')) <= length (stream (handshake_reader c)))%nat
  | (OutOfFuel, _) => False
  | _ => True
  end.
Proof.
  intros Hr. unfold initial_handshake. rewrite run_bind. unfold on_writer at 1, zoom at 1.
  pose proof (returns_initial_handshake conn_id scramble DEFAULT_BACKEND_VERSION tls (handshake_writer c)) as Hw.
  destruct (write_initial_handshake _ _ _ _ (handshake_writer c)) as [[[]|e| |] w1]; try done.
  rewrite run_bind. unfold on_reader at 1, zoom at 1. cbn [handshake_reader handshake_writer].
  pose proof (next_async_consumes (handshake_reader c) Hr) as Hn.
  destruct (next_async rf (handshake_reader c)) as [[[[q p]|]|e| |] r1]; try done.
  - destruct Hn as (Hok & [_ Hp] & Hle). cbn [from_option fst snd] in Hp.
    pose proof (goes_response (payload p) false Hp) as Hg. mstep.
    destruct (client_handshake_response (payload p) false) as [[j h]|e| |]; cbn [unwrap]; mstep; try done.
    cbn [handshake_reader]. split; [done|]. lia.
  - rewrite run_bind. unfold on_writer, zoom. cbn [handshake_writer].
    pose proof (returns_err_packet ER_ACCESS_DENIED_ERROR (str "peer terminated connection") w1) as He.
    by destruct (write_err_packet _ _ w1) as [[[]|e| |] w2].
Qed.

#[export] Instance proxy_authenticator_ends : AuthenticatorEnds ProxyAuthenticator.
Proof. split; intros; [apply halts_continue|apply halts_reply|by apply initial_handshake_ends]. Qed.

Section authenticated.
Context {A : Type} `{!Authenticator R W BR BW A} `{!AuthenticatorEnds A} (authenticator : A).

Lemma halts_auth_flow l seq h p c b : halts c b any (auth_flow authenticator rf l seq h p).
Proof. unfold auth_flow. destruct (conn_phase l) as [[]|]; apply continue_halts || apply reply_halts. Qed.

(** ** A pooled connection *)

Lemma serve_ends ff fuel seq h p (c : conn) l : live c -> (blen c < ff)%nat -> (clen c < fuel)%nat ->
  fst (serve authenticator rf ff fuel seq h (MkPacket p) (MkServed c l)) <> OutOfFuel.
Proof.
  intros Hl Hb Hc. rewrite serve_unfold.
  change (snd (on_backend_writer reset_seq c)) with
    (MkConn (client_reader c) (client_writer c) (backend_reader c)
      (MkWriter (pw_buf (backend_writer c)) 0 (inner_writer (backend_writer c)))).
  set (c0 := MkConn _ _ _ _).
  pose proof (halts_auth_flow l seq h p fuel ff c0 Hl Hc Hb) as Ha. unfold attempt.
  destruct (auth_flow authenticator rf l seq h p c0) as [[[]|e| |] c1]; try done.
  destruct Ha as (_ & Hl1 & Hc1 & Hb1).
  change (clen c0) with (clen c) in Hc1. change (blen c0) with (blen c) in Hb1.
  pose proof (halts_on_com ff fuel h c1 Hl1 ltac:(lia) ltac:(lia)) as Ho.
  by destruct (on_com rf ff fuel h c1) as [[[]|e| |] c2].
Qed.

(** ** The whole of [connect] *)

Lemma on_conn_ends conn_id scramble tls env (r : R) (w : W) : is_bytes (avail r) -> (length (avail r) < rf)%nat ->
  match fst (on_conn (BR := BR) (BW := BW) authenticator rf conn_id scramble tls env r w) with
  | Ok (_, _, _, reader) => source_ok rf reader /\ (length (stream reader) <= length (avail r))%nat
  | OutOfFuel => False
  | _ => True
  end.
Proof.
  intros Hb Hf. assert (source_ok rf (pr_new r)) as Hr by (split; [by vm_compute|done]).
  pose proof (handshake_ends authenticator conn_id scramble tls env (MkClient (pr_new r) (pw_new w)) Hr) as H.
  unfold on_conn. by destruct (auth_initial_handshake _ _ _ _ _ _ _) as [[[[q h] p]|e| |] c].
Qed.

End authenticated.

End halting.

(** ** The tenant and the router *)

Section tenant_ends.
Context {Pr : Profile} {X : Hex}.

Lemma sum_u8_ends {E} l : forall acc, sum_u8 (E := E) acc l <> OutOfFuel.
Proof. induction l as [|x l IH]; intros acc; cbn [sum_u8]; [done|]. auto with returns. Qed.

Lemma str_slice_ends {E} s a b : str_slice (E := E) s a b <> OutOfFuel.
Proof. unfold str_slice. by case_match. Qed.

Lemma decode_fields_ends key all ls : forall idx t, decode_fields key all idx ls t <> OutOfFuel.
Proof.
  induction ls as [|l ls IH]; intros idx t; cbn [decode_fields]; [done|].
  apply outcome_bind_ends; [apply sum_u8_ends|]. intros n. cbv zeta.
  apply outcome_bind_ends; [apply str_slice_ends|]. intros s. apply IH.
Qed.

Lemma client_tenant_ends h : client_tenant h <> OutOfFuel.
Proof.
  unfold client_tenant. destruct (tenant_key h) as [key|]; [|done].
  apply outcome_bind_ends; [apply unwrap_option_ends|]. intros s. unfold decode_tenant_key.
  apply outcome_bind_ends; [apply str_slice_ends|]. intros hd.
  apply outcome_bind_ends; [apply unwrap_option_ends|]. intros l. apply decode_fields_ends.
Qed.

End tenant_ends.

(** A router whose selection ends. *)
Class SelectorEnds (Rt : Type) `{!BackendRouter Rt} : Prop :=
  selector_ends : forall t lb, returns (selector t lb).

Section routers_end.
Context {G : Type} `{StdRng G}.

Lemma returns_balance n : returns (balance (G := G) n).
Proof.
  intros b. unfold balance. destruct (gen_range n (rb_rand b)) as [i g]. apply unwrap_option_ends.
Qed.

#[export] Instance static_selector_ends : SelectorEnds (StaticRouter G).
Proof.
  intros t lb. cbn [selector static_router]. unfold static_selector.
  apply returns_bind; [by intros s|]. intros s. apply returns_bind; [apply returns_zoom, returns_balance|].
  intros i. apply returns_lift, unwrap_option_ends.
Qed.

#[export] Instance sync_selector_ends {TC WC} `{!Watch BackendInstance WC}
  `{!DashMapIter TenantKey (list BackendInstance)} : SelectorEnds (SyncRouter TC WC G).
Proof.
  intros t lb. cbn [selector sync_router]. unfold sync_selector.
  apply returns_bind; [by intros s|]. intros s. destruct (tenants _ !! t) as [[|x [|y l]]|]; auto with returns.
  destruct lb; [|by intros ?]. apply returns_bind; [apply returns_zoom, returns_balance|].
  intros i. apply returns_lift, unwrap_option_ends.
Qed.

#[export] Instance either_selector_ends {A B} `{!BackendRouter A} `{!BackendRouter B}
  `{!SelectorEnds A} `{!SelectorEnds B} : SelectorEnds (BackendRouterTrait A B).
Proof.
  intros t lb s. cbn [selector either_router]. unfold either_selector. destruct s as [a|b].
  - pose proof (selector_ends t lb a). by destruct (selector t lb a) as [[]].
  - pose proof (selector_ends t lb b). by destruct (selector t lb b) as [[]].
Qed.

End routers_end.

Section connection.
Context {R W BR BW Rt P : Type} {Rops : AsyncRead R} {RS : ReadStream R} {Wops : AsyncWrite W}
  {WR : WriteReturns W} {BRops : AsyncRead BR} {BRS : ReadStream BR}
  {BWops : AsyncWrite BW} {BWR : WriteReturns BW}.
Context {Pr : Profile} {Wn : Winnow} {WL : WinnowLaws Wn} {I : MysqlIo} {F : MysqlFlags} {FL : MysqlFlagsLaws F}
  {MP : MysqlPackets} {X : Hex} `{!BackendRouter Rt} `{!SelectorEnds Rt}.
Context (rf ff fuel : nat).
Context {A : Type} `{!Authenticator R W BR BW A} `{!AuthenticatorEnds (R := R) (W := W) (BR := BR) (BW := BW) rf A}.
Context (authenticator : A) (rand : nat -> Z) (conn_id : Z) (tls : bool) (env : option bytes)
  (pool_get : P -> outcome io_error (PooledConn BR BW)).

(** A pool hands out a connection that can be read to its end with the fuel of the forwarders, or
    fails. *)
Definition pools_end : Prop := forall p,
  match pool_get p with
  | Ok pc => source_ok rf (fst (inner_conn pc)) /\ (length (stream (fst (inner_conn pc))) < ff)%nat
  | OutOfFuel => False
  | _ => True
  end.

Lemma returns_connect_to_backend h : returns (connect_to_backend (P := P) h).
Proof.
  unfold connect_to_backend. apply returns_bind; [by intros s|]. intros s.
  apply returns_bind; [apply returns_lift, client_tenant_ends|]. intros t.
  apply returns_bind; [apply returns_zoom, selector_ends|]. intros b.
  case_match; [apply returns_ret|apply returns_throw].
Qed.

(** (C3) A visit always ends.  Whatever bytes the client and the backend send and wherever they stop,
    whichever of their writes fail, whatever pool is found or not, and with the proxy's authenticator
    or any whose flows end, [connect] returns, fails or panics; it does not loop.  The fuels need only exceed the lengths of the two streams: of the
    client's for the command phase, of the backend's for the forwarders. *)
Theorem connect_ends (r : R) (s : World W Rt P BR BW) :
  is_bytes (avail r) -> (length (avail r) < rf)%nat -> (length (avail r) < fuel)%nat -> pools_end ->
  fst (connect authenticator rf ff fuel rand conn_id tls env pool_get r s) <> OutOfFuel.
Proof.
  intros Hb Hf Hfuel Hp. unfold connect. cbv zeta. rewrite run_bind. unfold zoom at 1.
  pose proof (on_conn_ends rf authenticator conn_id (gen_user_salt rand) tls env r (wd_writer s) Hb Hf) as Hc.
  destruct (on_conn (BR := BR) (BW := BW) authenticator rf conn_id (gen_user_salt rand) tls env r (wd_writer s)) as [[[[[q h] p] rd]|e| |] w]; try done.
  cbn [fst] in Hc. destruct Hc as [Hrd Hle]. rewrite run_bind. unfold zoom at 1. cbn [wd_mgr wd_writer wd_pooled].
  pose proof (returns_connect_to_backend h (wd_mgr s)) as Hm.
  destruct (connect_to_backend h (wd_mgr s)) as [[pl|e| |] m]; try done.
  mstep. specialize (Hp pl). destruct (pool_get pl) as [pc|e| |]; try done. destruct Hp as [Hs Hl]. cbn [unwrap].
  unfold serve_pooled. cbn [wd_writer]. destruct p as [p].
  match goal with |- context [serve ?au ?a ?b ?c ?d ?e ?f (MkServed ?g ?l)] =>
    pose proof (serve_ends a au b c d e p g l (conj Hrd Hs) Hl ltac:(unfold clen; cbn [client_reader]; lia)) as He;
    destruct (serve au a b c d e f (MkServed g l)) as [o sv] end.
  exact He.
Qed.

End connection.

(** ** Witness *)

(** A peer that takes a number of calls and then resets the connection. *)
Record fading : Type := Fading { calls_left : nat }.

Definition fading_call {A} (a : A) : M fading A := fun w =>
  match calls_left w with
  | O => (Err ConnectionAborted, w)
  | S n => (Ok a, Fading n)
  end.

#[export] Instance fading_write : AsyncWrite fading := {|
  write_vectored := fun bs => fading_call (len (concat bs));
  write_all := fun _ => fading_call tt;
  flush := fading_call tt;
  shutdown := mret tt;
|}.

#[export] Instance fading_returns : WriteReturns fading.
Proof. split; intros; intros [[|n]]; discriminate. Qed.

(** A client that authenticates and then sends bytes that are no packet, on a backend that stops
    in the middle of one; the client's side takes six calls, the backend's nine. *)
Definition stray_client : chunked := Chunked [client_says (frame 0 [3; 49]); [255; 1; 2]].

Definition torn_backend : PooledConn chunked fading :=
  MkPooled (str "id") (pr_new (Chunked [first_auth [0; 0; 0; 2; 0; 0; 0]; [9; 0; 0; 1; 7]]), pw_new (Fading 9))
    default_life_cycle.

Definition fading_world : World fading (StaticRouter Z) (PooledConnMgr * bool) chunked fading :=
  MkWorld (Fading 6) static_mgr None.

#[local] Instance checked_build : Profile := true.

Lemma connect_ends_witness :
  fst (connect MkProxyAuthenticator 400 100 400 zero_rand 7 false None (fun _ => Ok torn_backend) stray_client fading_world)
  <> OutOfFuel.
Proof.
  apply (connect_ends (Pr := true) 400 100 400 MkProxyAuthenticator zero_rand 7 false None (fun _ => Ok torn_backend) stray_client fading_world).
  - repeat constructor; by vm_compute.
  - vm_compute. lia.
  - vm_compute. lia.
  - intros p. split; [|vm_compute; lia]. split; [by vm_compute|]. split; [repeat constructor; by vm_compute|vm_compute; lia].
Defined.
