(* ===== verification/Latency.v ===== *)
(** * The metrics of the command phase ([server/haentgl_server.rs], [server/mod.rs])

    [on_com] as it is written, with its metrics: a timer per command, which records the command's
    latency when it is dropped, on every way out of the turn; and the gauge of connections, which
    [COM_QUIT] decrements.  The metered program is the one of [Server] with meters added: it does
    the same to the connection, whatever the meters hold. *)
From S2P Require Import Prelude External Reference Constants Packet PacketWriter PacketReader Utf8 Basic Writers Forwarder Responses Server Text SysUtils Metrics Runtime Pool Router BackendMgr.

(** ** Definitions *)

Definition PROXY_COM_METRIC_LABEL_KEY : text := str "proxy_com".
Definition PROXY_CONN_METRIC_LABEL_KEY : text := str "proxy_conn".

(** A label of [common_labels] is a function of the host's name. *)
Definition init_sql_com_labels (hostname : text) : gmap Z (list (text * text)) :=
  (fun com_str => [(PROXY_COM_METRIC_LABEL_KEY, com_str)] ++ common_labels hostname) <$> all_sql_com.

(** The server: the labels of the commands, the manager of the backends and the authenticator,
    which has no state; [close] does nothing. *)
Record HaentglServer (Mgr A : Type) : Type := MkHaentglServer {
  sql_com_labels : gmap Z (list (text * text));
  srv_backend_mgr : Mgr;
  srv_authenticator : A;
}.
Arguments MkHaentglServer {Mgr A} _ _ _.
Arguments sql_com_labels {Mgr A} _.
Arguments srv_backend_mgr {Mgr A} _.
Arguments srv_authenticator {Mgr A} _.

Definition haentgl_server_new {Mgr A} (hostname : text) (backend_mgr : Mgr) (authenticator : A) : HaentglServer Mgr A :=
  MkHaentglServer (init_sql_com_labels hostname) backend_mgr authenticator.

Definition haentgl_server_close {Mgr A} : M (HaentglServer Mgr A) unit := mret tt.

(** The connection pools are made by a task of [main]; [turns] are the changes it is notified of. *)
Definition initialize_async {Rt P A} `{!BackendRouter Rt} `{!Deadpool PooledConnMgr P} (turns : nat) : M (HaentglServer (BackendMgr Rt P) A) (option unit) :=
  zoom srv_backend_mgr (fun m s => MkHaentglServer (sql_com_labels s) m (srv_authenticator s)) (prepare_backend_conn_pool turns).

(** What the commands record: the gauges, the samples of each histogram (named and labelled as a
    gauge is) and how often the clock has been read. *)
Record Meters (S : Type) : Type := MkMeters {
  mt_gauges : S;
  mt_histograms : gmap gauge_key (list Z);
  mt_clock : nat;
}.
Arguments MkMeters {S} _ _ _.
Arguments mt_gauges {S} _.
Arguments mt_histograms {S} _.
Arguments mt_clock {S} _.

Definition samples {S} (k : gauge_key) (m : Meters S) : list Z := default [] (mt_histograms m !! k).

Section metered.
Context {R W BR BW : Type} `{AsyncRead R} `{AsyncWrite W} `{AsyncRead BR} `{AsyncWrite BW}.
Context `{Profile} `{Winnow} `{MysqlIo} `{MysqlFlags} `{MysqlPackets}.
Context {F : Float} {S : Type} {G : Gauges S}.
(** The readings of the clock, and the host's name. *)
Context (clock : nat -> Z) (hostname : text).

Abbreviation conn := (Conn R W BR BW).

(** Code that does not touch the meters, and code that touches nothing else. *)
Definition on_connection {A} : M conn A -> M (conn * Meters S) A := zoom fst (fun c s => (c, snd s)).
Definition on_gauges (f : S -> S) : M (conn * Meters S) unit :=
  modify (fun s => (fst s, MkMeters (f (mt_gauges (snd s))) (mt_histograms (snd s)) (mt_clock (snd s)))).

Definition now : M (conn * Meters S) Z := fun s =>
  (Ok (clock (mt_clock (snd s))),
   (fst s, MkMeters (mt_gauges (snd s)) (mt_histograms (snd s)) (Datatypes.S (mt_clock (snd s))))).

Definition drop_timer (k : gauge_key) (t : MetricsTimer) : M (conn * Meters S) unit :=
  later ← now;
  modify (fun s => (fst s,
    MkMeters (mt_gauges (snd s)) (<[k := timer_drop later t (samples k (snd s))]> (mt_histograms (snd s)))
      (mt_clock (snd s)))).

(** [let _timer = MetricsTimer::new_with_labels(name, labels); m]: the timer is dropped when the
    scope is left, by a value, an error or a panic. *)
Definition with_timer {A} (name : text) (labels : list (text * text)) (m : M (conn * Meters S) A)
  : M (conn * Meters S) A :=
  start ← now;
  (fun s =>
    let '(o, s) := m s in
    (o, snd (drop_timer (name, labels) (timer_new start) s))) : M (conn * Meters S) A.

(** The turn of [on_com] after the forwarder is chosen: [true] when the loop is left. *)
Definition timed_forward (com_forwarder : AnyForwarder) (rf ff : nat) (h : HandshakeResponse) (com_code : CommandCode)
  : M (conn * Meters S) bool :=
  _ ← on_connection (forward com_forwarder rf ff h);
  if decide (com_code = ComQuit) then
    _ ← on_gauges (gauge_dec (get_name ProxyCurrentConnections) (f64_of_Z 1) (Some (common_labels hostname)));
    mret true
  else mret false.

Fixpoint metered_loop (com_labels : gmap Z (list (text * text))) (rf ff fuel : nat) (h : HandshakeResponse) : M (conn * Meters S) unit :=
  match fuel with
  | O => lift OutOfFuel
  | Datatypes.S fuel =>
      pkt_opt ← on_connection (on_client_reader (next_async rf));
      match pkt_opt with
      | None => throw InvalidData
      | Some (seq, client_packet) =>
          recv_com_code ← lift (unwrap_option (head (payload client_packet)));
          com_code ← lift (unwrap_option (command_from_u8 recv_com_code));
          let com_forwarder := choose_forwarder com_code client_packet in
          _ ← on_connection (write_to_backend seq com_code h client_packet);
          labels ← lift (unwrap_option (com_labels !! recv_com_code));
          quit ← with_timer (get_name ProxyComLatency) labels (timed_forward com_forwarder rf ff h com_code);
          if (quit : bool) then mret tt else metered_loop com_labels rf ff fuel h
      end
  end.

Definition on_com_metered {Mgr A} (srv : HaentglServer Mgr A) (rf ff fuel : nat) (h : HandshakeResponse) : M (conn * Meters S) unit :=
  _ ← on_connection (on_backend_writer reset_seq);
  metered_loop (sql_com_labels srv) rf ff fuel h.

End metered.

(** ** The meters change nothing else *)

Section erasure.
Context {R W BR BW : Type} {Rops : AsyncRead R} {Wops : AsyncWrite W} {BRops : AsyncRead BR} {BWops : AsyncWrite BW}.
Context {Pr : Profile} {Wn : Winnow} {I : MysqlIo} {F : MysqlFlags} {MP : MysqlPackets}.
Context {Fl : Float} {S : Type} {G : Gauges S}.
Context (clock : nat -> Z) (hostname : text) {Mgr Au : Type} (mgr : Mgr) (auth : Au).

Abbreviation conn := (Conn R W BR BW).

Definition current_connections : gauge_key := (get_name ProxyCurrentConnections, common_labels hostname).

(** The gauges are decremented once, or left alone. *)
Definition decrements (b : bool) (mt mt' : Meters S) : Prop :=
  mt_gauges mt' = if b then gauge_decrement current_connections (f64_of_Z 1) (mt_gauges mt) else mt_gauges mt.

Definition succeeds {A} (o : outcome io_error A) : bool := if o is Ok _ then true else false.

(** [mm] does to the connection what [m] does; it touches no gauge, or decrements one when it
    returns a value. *)
Definition metered {A} (dec : bool) (mm : M (conn * Meters S) A) (m : M conn A) : Prop :=
  forall c mt, fst (mm (c, mt)) = fst (m c) /\ fst (snd (mm (c, mt))) = snd (m c) /\
    decrements (dec && succeeds (fst (m c))) mt (snd (snd (mm (c, mt)))).

Lemma metered_connection {A} (m : M conn A) : metered false (on_connection m) m.
Proof. intros c mt. unfold on_connection, zoom. cbn [fst snd]. by destruct (m c). Qed.

Lemma metered_lift {A} (o : outcome io_error A) : metered false (lift o) (lift o).
Proof. done. Qed.

Lemma metered_bind {A B} dec (mm : M (conn * Meters S) A) (m : M conn A) kk (k : A -> M conn B) :
  metered false mm m -> (forall a, metered dec (kk a) (k a)) -> metered dec (mm ≫= kk) (m ≫= k).
Proof.
  intros Hm Hk c mt. rewrite !run_bind. destruct (Hm c mt) as (E1 & E2 & E3).
  destruct (mm (c, mt)) as [o [c1 mt1]], (m c) as [o' c1']. cbn [fst snd andb] in *. subst o' c1'.
  unfold decrements in *. destruct o as [a|e| |]; cbn [fst snd succeeds]; rewrite ?andb_false_r; [|done..].
  destruct (Hk a c1 mt1) as (F1 & F2 & F3). split_and!; [done..|]. by rewrite F3, E3.
Qed.

(** A turn of the loop, from the timer on. *)
Lemma metered_turn f rf ff h com name labels kk (k : M conn unit) : metered true kk k ->
  metered true
    (quit ← with_timer clock name labels (timed_forward hostname f rf ff h com);
     if (quit : bool) then mret tt else kk)
    (_ ← forward f rf ff h; if decide (com = ComQuit) then mret tt else k).
Proof.
  intros Hk c [g hs n]. unfold with_timer, timed_forward, now, on_connection, zoom. rewrite !run_bind.
  cbn [fst snd mt_gauges mt_histograms mt_clock].
  destruct (forward f rf ff h c) as [[p|e| |] c1]; cbn [fst snd]; try done.
  destruct (decide (com = ComQuit)); [done|]. mrun. apply Hk.
Qed.

Lemma labels_lookup c : init_sql_com_labels hostname !! c =
  (fun com_str => [(PROXY_COM_METRIC_LABEL_KEY, com_str)] ++ common_labels hostname) <$> (all_sql_com !! c).
Proof. unfold init_sql_com_labels. apply lookup_fmap. Qed.

Lemma metered_loop_erases rf ff fuel h :
  metered true (metered_loop clock hostname (init_sql_com_labels hostname) rf ff fuel h) (on_com_loop rf ff fuel h).
Proof.
  induction fuel as [|fuel IH]; [done|]. cbn [metered_loop on_com_loop].
  apply metered_bind; [apply metered_connection|]. intros [[q p]|]; [|done].
  apply metered_bind; [apply metered_lift|]. intros b. apply metered_bind; [apply metered_lift|]. intros com.
  cbv zeta. apply metered_bind; [apply metered_connection|]. intros _. rewrite labels_lookup.
  destruct (all_sql_com !! b) as [l|]; [|done]. apply metered_turn, IH.
Qed.

Lemma on_com_metered_erases rf ff fuel h :
  metered true (on_com_metered clock hostname (haentgl_server_new hostname mgr auth) rf ff fuel h) (on_com rf ff fuel h).
Proof. apply metered_bind; [apply metered_connection|]. intros _. apply metered_loop_erases. Qed.

(** (C29) The metrics of the command phase.  On every run, whatever the client and the backend do and
    whatever the meters hold, the program with meters gives the result of the program without them
    and leaves the connection in the same state.  It decrements the gauge of connections once when
    the command phase ends with [COM_QUIT], and never when it ends otherwise: by the client going
    away, an error or a panic. *)
Theorem on_com_meters rf ff fuel h (c : conn) mt :
  fst (on_com_metered clock hostname (haentgl_server_new hostname mgr auth) rf ff fuel h (c, mt)) = fst (on_com rf ff fuel h c) /\
  fst (snd (on_com_metered clock hostname (haentgl_server_new hostname mgr auth) rf ff fuel h (c, mt))) = snd (on_com rf ff fuel h c) /\
  mt_gauges (snd (snd (on_com_metered clock hostname (haentgl_server_new hostname mgr auth) rf ff fuel h (c, mt))))
  = (if fst (on_com rf ff fuel h c) is Ok _ then gauge_decrement current_connections (f64_of_Z 1) (mt_gauges mt)
     else mt_gauges mt).
Proof.
  destruct (on_com_metered_erases rf ff fuel h c mt) as (E1 & E2 & E3). split; [done|]. split; [done|].
  unfold decrements in E3. rewrite E3. by destruct (fst (on_com rf ff fuel h c)).
Qed.

End erasure.

(** ** Samples *)

Section session_samples.
Context {R W BR BW : Type} {Rops : AsyncRead R} {RS : ReadStream R} {Wops : AsyncWrite W}
  {WS : WriteStream W} {WR : ReliableWrite W} {BRops : AsyncRead BR} {BRS : ReadStream BR}
  {BWops : AsyncWrite BW} {BWS : WriteStream BW} {BWR : ReliableWrite BW}.
Context {Pr : Profile} {Wn : Winnow} {WL : WinnowLaws Wn} {I : MysqlIo} {IL : MysqlIoLaws I}
  {F : MysqlFlags} {FL : MysqlFlagsLaws F} {MP : MysqlPackets}.
Context {Fl : Float} {S : Type} {G : Gauges S}.
Context (clock : nat -> Z) (hostname : text) {Mgr Au : Type} (mgr : Mgr) (auth : Au) (h : HandshakeResponse) (rf ff : nat).

Abbreviation conn := (Conn R W BR BW).

(** The histogram of a command. *)
Definition latency_key (com : CommandCode) : gauge_key :=
  (get_name ProxyComLatency,
   (PROXY_COM_METRIC_LABEL_KEY, default [] (all_sql_com !! command_u8 com)) :: common_labels hostname).

(** One command's sample: what the clock says at its end, less what it said at its start. *)
Definition record_latency (k : gauge_key) (mt : Meters S) : Meters S :=
  let start := clock (mt_clock mt) in
  let later := clock (Datatypes.S (mt_clock mt)) in
  MkMeters (mt_gauges mt) (<[k := samples k mt ++ [later - start]]> (mt_histograms mt))
    (Datatypes.S (Datatypes.S (mt_clock mt))).

Definition record_quit (mt : Meters S) : Meters S :=
  let mt := record_latency (latency_key ComQuit) mt in
  MkMeters (gauge_decrement (current_connections hostname) (f64_of_Z 1) (mt_gauges mt)) (mt_histograms mt) (mt_clock mt).

(** A turn whose parts succeed. *)
Lemma metered_step fuel (c c1 c2 c3 : conn) mt q p com t a :
  on_client_reader (next_async rf) c = (Ok (Some (q, p)), c1) -> payload p = command_u8 com :: t ->
  write_to_backend q com h p c1 = (Ok tt, c2) -> forward (choose_forwarder com p) rf ff h c2 = (Ok a, c3) ->
  metered_loop clock hostname (init_sql_com_labels hostname) rf ff (Datatypes.S fuel) h (c, mt)
  = if decide (com = ComQuit) then (Ok tt, (c3, record_quit mt))
    else metered_loop clock hostname (init_sql_com_labels hostname) rf ff fuel h (c3, record_latency (latency_key com) mt).
Proof.
  intros E1 Ep E2 E3. cbn [metered_loop]. rewrite run_bind. unfold on_connection at 1, zoom at 1. cbn [fst snd].
  rewrite E1, Ep. cbn [head unwrap_option]. mstep. rewrite command_from_u8_code. cbn [unwrap_option]. mstep.
  unfold on_connection at 1, zoom at 1. cbn [fst snd]. rewrite E2, labels_lookup. mstep.
  destruct (all_sql_com_total com) as [l El].
  unfold latency_key, record_quit, record_latency, latency_key. rewrite El. cbn [fmap option_fmap option_map unwrap_option default app]. mstep.
  unfold with_timer, now, timed_forward, on_connection, zoom. rewrite !run_bind. cbn [fst snd mt_clock mt_gauges mt_histograms].
  rewrite E3. destruct mt as [g hs n]. cbn [fst snd mt_clock mt_gauges mt_histograms].
  destruct (decide (com = ComQuit)) as [->|Hq].
  - rewrite El. done.
  - done.
Qed.

(** The commands of a session whose samples go to [k]. *)
Definition commands_of (k : gauge_key) (cs : list CommandCode) : list CommandCode :=
  filter (fun c => latency_key c = k) cs.

Lemma samples_record k k' mt : exists l, samples k (record_latency k' mt) = samples k mt ++ l /\
  length l = if decide (k' = k) then 1%nat else 0%nat.
Proof.
  unfold record_latency, samples. cbn [mt_histograms]. destruct (decide (k' = k)) as [->|Hk].
  - rewrite lookup_insert_eq. by eexists.
  - rewrite lookup_insert_ne by done. exists []. by rewrite app_nil_r.
Qed.

Lemma samples_session k xs : forall mt, exists l,
  samples k (record_quit (foldl (fun mt x => record_latency (latency_key (x_com x)) mt) mt xs)) = samples k mt ++ l /\
  length l = length (commands_of k (map x_com xs ++ [ComQuit])).
Proof.
  unfold commands_of. induction xs as [|x xs IH]; intros mt; cbn [foldl map app].
  - destruct (samples_record k (latency_key ComQuit) mt) as (l & E & Hl). exists l.
    split; [exact E|]. rewrite filter_cons, filter_nil, Hl. by destruct (decide _).
  - destruct (IH (record_latency (latency_key (x_com x)) mt)) as (l & E & Hl). rewrite E.
    destruct (samples_record k (latency_key (x_com x)) mt) as (l1 & E1 & Hl1). rewrite E1.
    exists (l1 ++ l). rewrite app_assoc. split; [done|]. rewrite length_app, filter_cons, Hl1, Hl.
    by destruct (decide _).
Qed.

Lemma gauges_session xs : forall mt : Meters S,
  mt_gauges (record_quit (foldl (fun mt x => record_latency (latency_key (x_com x)) mt) mt xs))
  = gauge_decrement (current_connections hostname) (f64_of_Z 1) (mt_gauges mt).
Proof. induction xs as [|x xs IH]; intros mt; [done|]. cbn [foldl]. by rewrite IH. Qed.

Lemma metered_session xs : Forall (exchange_ok (R := R) (W := W) (BR := BR) (BW := BW) h ff) xs ->
  forall fuel (c : conn) mt q p q2 p2 crest brest,
  (length xs < fuel)%nat -> fits p2 -> fits (command_u8 ComQuit :: p) -> conn_ok rf c ->
  stream (client_reader c) = frames (map request xs) ++ frame q (command_u8 ComQuit :: p) ++ crest ->
  stream (backend_reader c) = frames (concat (map x_response xs)) ++ frame q2 p2 ++ brest ->
  exists c', metered_loop clock hostname (init_sql_com_labels hostname) rf ff fuel h (c, mt)
    = (Ok tt, (c', record_quit (foldl (fun mt x => record_latency (latency_key (x_com x)) mt) mt xs))).
Proof.
  induction 1 as [|x xs (Hx & Ha & Hl) Hxs IH]; intros fuel c mt q p q2 p2 crest brest Hf Hp2 Hp Hok Hc Hb;
    (destruct fuel as [|fuel]; [simpl in Hf; lia|]).
  - cbn [map concat app] in Hc, Hb. change (frames []) with (@nil Z) in Hc, Hb. cbn [app] in Hc, Hb.
    destruct (relays_next_client rf _ q _ Hp c crest _ Hok eq_refl Hc eq_refl) as (c1 & E1 & Hok1 & Hn1 & _ & Hb1 & _).
    rewrite Hb in Hb1. cbn [app] in Hb1.
    destruct (relays_reset (F := F) h rf ff _ q2 p2 (backend_seq _ _ Hok1) Hp2 c1 _ brest Hok1 eq_refl eq_refl Hb1)
      as (c2 & E2 & _).
    exists c2. rewrite (metered_step fuel c c1 c1 c2 mt q (MkPacket (command_u8 ComQuit :: p)) ComQuit p None E1 eq_refl eq_refl E2).
    by rewrite decide_True.
  - destruct Hx as [Hq Hfit]. cbn [fst snd request] in Hq, Hfit.
    destruct (answers_relayed h rf ff _ _ Ha Hl) as (a & Hpass). pose proof (choose_not_quit h x Ha) as Hnq.
    cbn [map concat] in Hc, Hb. rewrite frames_cons, <- app_assoc in Hc. rewrite frames_app, <- app_assoc in Hb.
    cbn [fst snd request] in Hc.
    destruct (relays_next_client rf _ (x_seq x) _ Hfit c _ _ Hok eq_refl Hc eq_refl) as (c1 & E1 & Hok1 & _ & Hc1 & Hb1 & _).
    destruct (relays_command h rf (pw_seq (backend_writer c1)) (x_seq x) (x_com x) _ _ _ Hfit Hq eq_refl (ex_intro _ _ Ha)
      c1 _ _ Hok1 eq_refl Hc1 eq_refl) as (c2 & E2 & Hok2 & _ & Hc2 & Hb2 & _).
    cbn [app] in Hb1, Hb2. rewrite Hb1, Hb in Hb2.
    destruct (Hpass _ c2 _ _ Hok2 eq_refl Hc2 Hb2) as (c3 & E3 & Hok3 & _ & Hc3 & Hb3 & _).
    rewrite (metered_step fuel c c1 c2 c3 mt (x_seq x) (MkPacket (snd (request x))) (x_com x) (x_args x) a E1 eq_refl E2 E3).
    rewrite decide_False by done. cbn [foldl].
    eapply (IH fuel c3 _ q p q2 p2 crest brest); try done. simpl in Hf. lia.
Qed.

(** The latencies of a session.  When the commands of a session are answered and [COM_QUIT] ends
    it, the histogram of each command gets one sample for each time the command was sent, the quit
    included, and no other histogram changes; and the gauge of connections, which nothing
    increments, is decremented. *)
Theorem session_latencies xs fuel q p q2 p2 (c : conn) (mt : Meters S) crest brest :
  Forall (exchange_ok (R := R) (W := W) (BR := BR) (BW := BW) h ff) xs -> (length xs < fuel)%nat -> fits p2 ->
  fits (command_u8 ComQuit :: p) -> conn_ok rf c ->
  stream (client_reader c) = frames (map request xs) ++ frame q (command_u8 ComQuit :: p) ++ crest ->
  stream (backend_reader c) = frames (concat (map x_response xs)) ++ frame q2 p2 ++ brest ->
  exists c' mt', on_com_metered clock hostname (haentgl_server_new hostname mgr auth) rf ff fuel h (c, mt) = (Ok tt, (c', mt')) /\
    mt_gauges mt' = gauge_decrement (current_connections hostname) (f64_of_Z 1) (mt_gauges mt) /\
    forall k, exists l, samples k mt' = samples k mt ++ l /\
      length l = length (commands_of k (map x_com xs ++ [ComQuit])).
Proof.
  intros Hxs Hf Hp2 Hp Hok Hc Hb.
  destruct (relays_reset_seq rf (pw_seq (backend_writer c)) c _ _ Hok eq_refl Hc Hb) as (c0 & E0 & Hok0 & _ & Hc0 & Hb0 & _).
  destruct (metered_session xs Hxs fuel c0 mt q p q2 p2 crest brest Hf Hp2 Hp Hok0 Hc0 Hb0) as (c' & E).
  exists c', (record_quit (foldl (fun mt x => record_latency (latency_key (x_com x)) mt) mt xs)).
  split; [|split; [apply gauges_session|intros k; apply samples_session]].
  unfold on_com_metered. rewrite run_bind. unfold on_connection at 1, zoom at 1. cbn [fst snd]. rewrite E0. exact E.
Qed.

End session_samples.

(** ** Witness *)

(** Two commands and the quit, on a clock that gains seven milliseconds between readings. *)
Lemma session_latencies_witness : exists c' mt',
  on_com_metered (H3 := true) (S := gmap gauge_key Z) (fun n => 7 * Z.of_nat n) (str "pod-1")
    (haentgl_server_new (str "pod-1") tt tt) 200 8 5 sample_handshake
    (sample_conn, MkMeters ∅ ∅ 0) = (Ok tt, (c', mt')) /\
  gauge_value (current_connections (str "pod-1")) (mt_gauges mt') = -1 /\
  length (samples (latency_key (str "pod-1") ComQuit) mt') = 1%nat.
Proof.
  destruct (session_latencies (Pr := true) (S := gmap gauge_key Z) (fun n => 7 * Z.of_nat n) (str "pod-1") tt tt sample_handshake 200 8
    sample_session 5 0 [] 2 [0; 0; 0; 2; 0; 0; 0] sample_conn (MkMeters ∅ ∅ 0) [] []) as (c' & mt' & E & Eg & Ek).
  - by apply sample_exchanges.
  - simpl. lia.
  - concrete.
  - concrete.
  - exact sample_conn_ok.
  - reflexivity.
  - reflexivity.
  - exists c', mt'. split; [exact E|]. rewrite Eg. split; [by vm_compute|].
    destruct (Ek (latency_key (str "pod-1") ComQuit)) as (l & -> & Hl). exact Hl.
Defined.
