(* ===== verification/ActiveUsers.v ===== *)
(** * Active users ([cp/active_users.rs], [cp/cp_target.rs])

    The users that were active since the control plane last asked are kept in one of two maps;
    when it asks, the maps are switched, the old one is read and cleared, and its users are sent
    in batches. *)
From S2P Require Import Prelude External Proto Packet PacketWriter Runtime.

(** ** Definitions *)

(** *** active_users.rs *)

(** The two tables; the index of the active one is [false] or [true] for 0 or 1. *)
Record SwitchableMaps : Type := MkMaps {
  table_0 : gmap Z UserCom;
  table_1 : gmap Z UserCom;
  active_idx : bool;
}.

Definition maps_new : SwitchableMaps := MkMaps ∅ ∅ false.

Definition table (i : bool) (m : SwitchableMaps) : gmap Z UserCom := if i then table_1 m else table_0 m.

Definition set_table (i : bool) (t : gmap Z UserCom) (m : SwitchableMaps) : SwitchableMaps :=
  if i then MkMaps (table_0 m) t (active_idx m) else MkMaps t (table_1 m) (active_idx m).

Definition active_len (m : SwitchableMaps) : Z := Z.of_nat (size (table (active_idx m) m)).

(** [switch] from the index [curr] it loaded: the exchange fails if the index has changed since.
    It returns the table to read, which the caller iterates over later. *)
Definition switch_from (curr : bool) (m : SwitchableMaps) : option bool * SwitchableMaps :=
  if eqb (active_idx m) curr then (Some curr, MkMaps (table_0 m) (table_1 m) (negb curr)) else (None, m).

Definition switch (m : SwitchableMaps) : option bool * SwitchableMaps := switch_from (active_idx m) m.

Definition clean_inactive (m : SwitchableMaps) : SwitchableMaps := set_table (negb (active_idx m)) ∅ m.

(** The second half of [put], once the index is loaded. *)
Definition put_at (i : bool) (k : Z) (v : UserCom) (m : SwitchableMaps) : SwitchableMaps :=
  set_table i (<[k := v]> (table i m)) m.

Definition maps_put (k : Z) (v : UserCom) (m : SwitchableMaps) : SwitchableMaps := put_at (active_idx m) k v m.

Definition maps_get (k : Z) (m : SwitchableMaps) : option UserCom := table (active_idx m) m !! k.

Section window.
Context `{!DashMapIter Z UserCom} {TC : Type} `{!Mpsc (TenantKey * bytes * Z * Z) TC}.

(** [hash] is [twox_hash::xxh3] over the strings, and [sizeof] the size of a [UserCom]. *)
Variable hash : list bytes -> Z.
Variable sizeof : Z.

Definition user_com_hash (u : UserCom) : outcome io_error Z :=
  c ← unwrap_option (uc_cluster u);
  Ok (hash [tk_region c; tk_available_zone c; tk_cluster_name c; tk_namespace c; uc_user u]).

Definition iter_active (m : SwitchableMaps) : list (Z * UserCom) := dm_iter (table (active_idx m) m).

Record UserActivityWindow : Type := MkWindow {
  aw_data : SwitchableMaps;
  aw_size : Z;
  aw_count : Z;
  aw_buf : TC;
}.

(** The state [UserActivityWindow::new] makes, [tc] being the new channel. *)
Definition window_new (tc : TC) : UserActivityWindow := MkWindow maps_new 0 0 tc.

Definition window_count (w : UserActivityWindow) : Z := aw_count w.
Definition window_size (w : UserActivityWindow) : Z := aw_size w.

Definition add_active_users (cluster : TenantKey) (user : bytes) (com_code com_ts : Z) (w : UserActivityWindow)
  : UserActivityWindow :=
  MkWindow (aw_data w) (aw_size w) (aw_count w) (snd (mpsc_send (cluster, user, com_code, com_ts) (aw_buf w))).

(** One turn of the task of [UserActivityWindow::new]; nothing happens while the channel is
    empty, and a closed channel is polled again. *)
Definition record_active : M UserActivityWindow unit := fun w =>
  match mpsc_recv (aw_buf w) with
  | Some (Some (cluster, user, com_code, ts), c) =>
      let user_com := MkUserCom (Some cluster) user [com_code] ts in
      match user_com_hash user_com with
      | Ok user_key =>
          (Ok tt, MkWindow (maps_put user_key user_com (aw_data w)) ((aw_size w + sizeof) mod U64)
                    ((aw_count w + 1) mod U64) c)
      | Err e => (Err e, w)
      | Panic => (Panic, w)
      | OutOfFuel => (OutOfFuel, w)
      end
  | Some (None, c) => (Ok tt, MkWindow (aw_data w) (aw_size w) (aw_count w) c)
  | None => (Ok tt, w)
  end.

Definition freeze (w : UserActivityWindow) : list UserCom * UserActivityWindow :=
  match switch (aw_data w) with
  | (Some i, m) => (map snd (dm_iter (table i m)), MkWindow (clean_inactive m) 0 (aw_count w) (aw_buf w))
  | (None, m) => ([], MkWindow m (aw_size w) (aw_count w) (aw_buf w))
  end.

End window.
Arguments aw_data {TC} _.
Arguments aw_size {TC} _.
Arguments aw_count {TC} _.
Arguments aw_buf {TC} _.
Arguments MkWindow {TC} _ _ _ _.

(** *** cp_target.rs *)

Definition DEFAULT_CHUNK_SIZE : Z := 15.

Definition batch_header (total size : Z) : PacketHeader :=
  MkPacketHeader (packet_type_i32 ActiveUser) (total mod U32) DEFAULT_CHUNK_SIZE (size mod U32).

(** The responses to one request of the control plane, for the frozen users. *)
Definition active_user_responses (users : list UserCom) : list ControlPlaneResponse :=
  if decide (users = []) then
    [MkControlPlaneResponse (Some (MkPacketHeader (packet_type_i32 ActiveUser) 0 0 0)) None]
  else
    map (fun batch => MkControlPlaneResponse (Some (batch_header (len users) (len batch))) (Some batch))
      (chunks DEFAULT_CHUNK_SIZE users).

(** One turn of the task of [active_users]. *)
Definition on_active_users_request `{!DashMapIter Z UserCom} {TC} (w : UserActivityWindow (TC := TC))
  : list ControlPlaneResponse * UserActivityWindow :=
  let '(users, w) := freeze w in (active_user_responses users, w).

(** The same with the channel of the responses: [room] is the number of responses its receiver
    still takes before it is gone.  The first component says whether the loop over the requests
    goes on: the [break] of a failed send leaves the inner loop only, except for the response
    without users. *)
Definition active_users_turn `{!DashMapIter Z UserCom} {TC} (room : nat) (w : UserActivityWindow (TC := TC))
  : bool * list ControlPlaneResponse * nat * UserActivityWindow :=
  let '(users, w) := freeze w in
  let rs := active_user_responses users in
  if decide (users = []) then
    match room with
    | O => (false, [], O, w)
    | S room => (true, rs, room, w)
    end
  else (true, take room rs, (room - length rs)%nat, w).

(** ** Batches *)

Lemma chunks_fuel_sizes {A} n fuel (l : list A) : 0 < n -> Forall (fun c => 0 < len c <= n) (chunks_fuel fuel n l).
Proof.
  intros Hn. revert l. induction fuel as [|fuel IH]; intros l; [constructor|].
  destruct l as [|x l]; [constructor|]. cbn [chunks_fuel]. constructor; [|apply IH].
  rewrite len_ztake by lia. len_lia.
Qed.

(** The users a response carries. *)
Definition response_users (r : ControlPlaneResponse) : list UserCom := default [] (packet_data r).

Lemma concat_responses users : concat (map response_users (active_user_responses users)) = users.
Proof.
  unfold active_user_responses. case_decide as E; [by subst|]. rewrite map_map.
  cbn [response_users packet_data default]. rewrite map_id. by apply chunks_concat.
Qed.

(** The control plane gets every frozen user exactly once, in batches of at most fifteen, each
    with its own size in the header; [package_count] is the number of users and not of packages;
    and a request without users is answered by one empty response. *)
Theorem active_user_batches users : len users < U32 ->
  concat (map response_users (active_user_responses users)) = users /\
  Forall (fun r => exists h, cp_header r = Some h /\ hdr_size h = len (response_users r) /\
                             package_count h = len users /\ 0 <= hdr_size h <= DEFAULT_CHUNK_SIZE)
    (active_user_responses users) /\
  (users = [] -> exists r, active_user_responses users = [r] /\ packet_data r = None).
Proof.
  intros Hu. split; [apply concat_responses|]. unfold active_user_responses. case_decide as E.
  { subst users. split; [|by eexists]. repeat constructor. by eexists. }
  split; [|done]. apply Forall_map.
  eapply Forall_impl; [exact (chunks_fuel_sizes DEFAULT_CHUNK_SIZE (length users) users ltac:(done))|].
  intros b Hb. eexists. split; [done|].
  cbn [response_users packet_data default hdr_size package_count batch_header compose].
  unfold U32, DEFAULT_CHUNK_SIZE in *. pose proof (len_nonneg users).
  rewrite (Z.mod_small (len users)), (Z.mod_small (len b)) by lia. split; [done|]. split; [done|lia].
Qed.

Lemma active_user_batches_witness :
  concat (map response_users (active_user_responses (replicate 31 (MkUserCom None [] [] 0))))
  = replicate 31 (MkUserCom None [] [] 0).
Proof. apply (active_user_batches (replicate 31 (MkUserCom None [] [] 0))). by vm_compute. Defined.

(** ** The window, one operation at a time *)

Section window_props.
Context `{!DashMapIter Z UserCom} `{!DashMapIterLaws Z UserCom} {TC : Type} `{!Mpsc (TenantKey * bytes * Z * Z) TC}.

(** The operations of the recorder and of the control plane. *)
Inductive window_op : Type :=
  | OpPut (k : Z) (v : UserCom)
  | OpAsk.

Abbreviation window := (UserActivityWindow (TC := TC)).

Definition put_window (k : Z) (v : UserCom) (w : window) : window :=
  MkWindow (maps_put k v (aw_data w)) (aw_size w) (aw_count w) (aw_buf w).

Fixpoint run_window (ops : list window_op) (w : window) : list (list ControlPlaneResponse) * window :=
  match ops with
  | [] => ([], w)
  | OpPut k v :: ops => run_window ops (put_window k v w)
  | OpAsk :: ops =>
      let '(rs, w) := on_active_users_request w in
      let '(rss, w) := run_window ops w in (rs :: rss, w)
  end.

(** The task of [active_users] among recordings: whether it still runs, and what was sent.  A stream
    error is a request too: [is_some()] does not look at the [Result]. *)
Fixpoint active_users_task (room : nat) (ops : list window_op) (w : window) : bool * list ControlPlaneResponse * window :=
  match ops with
  | [] => (true, [], w)
  | OpPut k v :: ops => active_users_task room ops (put_window k v w)
  | OpAsk :: ops =>
      let '(go, sent, room, w) := active_users_turn room w in
      if go : bool then let '(running, sent', w) := active_users_task room ops w in (running, sent ++ sent', w)
      else (false, sent, w)
  end.

(** The specification: one map, emptied by each request, which gets its values. *)
Fixpoint run_spec (ops : list window_op) (a : gmap Z UserCom) : list (list UserCom) * gmap Z UserCom :=
  match ops with
  | [] => ([], a)
  | OpPut k v :: ops => run_spec ops (<[k := v]> a)
  | OpAsk :: ops => let '(us, a') := run_spec ops ∅ in (map snd (map_to_list a) :: us, a')
  end.

(** Between operations the inactive table is empty. *)
Definition shows (m : SwitchableMaps) (a : gmap Z UserCom) : Prop :=
  table (active_idx m) m = a /\ table (negb (active_idx m)) m = ∅.

Lemma shows_put k v m a : shows m a -> shows (maps_put k v m) (<[k := v]> a).
Proof. destruct m as [t0 t1 []]; intros [H1 H2]; simpl in *; by subst. Qed.

Lemma freeze_shows (w : window) a : shows (aw_data w) a ->
  fst (freeze w) ≡ₚ map snd (map_to_list a) /\ shows (aw_data (snd (freeze w))) ∅.
Proof.
  intros [H1 H2]. unfold freeze, switch, switch_from. rewrite eqb_reflx. cbn [fst snd aw_data].
  destruct (aw_data w) as [t0 t1 []]; simpl in *; subst; (split; [by rewrite dm_iter_law|done]).
Qed.

Lemma window_refined ops (w : window) a : shows (aw_data w) a ->
  Forall2 (fun rs us => concat (map response_users rs) ≡ₚ us) (fst (run_window ops w)) (fst (run_spec ops a)) /\
  shows (aw_data (snd (run_window ops w))) (snd (run_spec ops a)).
Proof.
  revert w a. induction ops as [|[k v|] ops IH]; intros w a Hs; cbn [run_window run_spec].
  - split; [constructor|done].
  - apply IH. by apply shows_put.
  - unfold on_active_users_request. destruct (freeze_shows w a Hs) as [Hf Hs'].
    destruct (freeze w) as [us w1]. cbn [fst snd] in *. destruct (IH w1 ∅ Hs') as [H1 H2].
    destruct (run_window ops w1) as [rss w2], (run_spec ops ∅) as [uss a2]. cbn [fst snd] in *.
    split; [|done]. constructor; [|done]. by rewrite concat_responses.
Qed.

(** (C26) As long as operations do not overlap, the pair of maps refines one map that each request of
    the control plane empties: for any sequence of recordings and requests, each request is sent
    the users recorded since the last one, each once with its last command, and none is lost or
    reported twice. *)
Theorem window_refines_map ops (w : window) a : shows (aw_data w) a ->
  Forall2 (fun rs us => concat (map response_users rs) ≡ₚ us) (fst (run_window ops w)) (fst (run_spec ops a)) /\
  shows (aw_data (snd (run_window ops w))) (snd (run_spec ops a)).
Proof. apply window_refined. Qed.

(** When they do overlap a user can be lost: a recording that has loaded the active index when
    the maps are switched, and inserts after the old map is read and before it is cleared, ends
    up neither in what the control plane is sent nor in either map. *)
Theorem put_lost_in_switch (m : SwitchableMaps) k v : (forall i, table i m !! k = None) ->
  let loaded := active_idx m in
  let '(_, m1) := switch m in
  let frozen := dm_iter (table loaded m1) in
  let m2 := put_at loaded k v m1 in
  let m3 := clean_inactive m2 in
  Forall (fun e => fst e <> k) frozen /\ forall i, table i m3 !! k = None.
Proof.
  intros Hk. unfold switch, switch_from. rewrite eqb_reflx. cbv zeta.
  assert (table (active_idx m) (MkMaps (table_0 m) (table_1 m) (negb (active_idx m))) = table (active_idx m) m) as ->
    by (by destruct m as [t0 t1 []]).
  split.
  - rewrite dm_iter_law. apply Forall_forall. intros [k' v'] Hin. apply elem_of_map_to_list in Hin. cbn [fst].
    intros ->. by rewrite Hk in Hin.
  - intros i. pose proof (Hk i). pose proof (Hk (negb i)).
    destruct m as [t0 t1 []], i; simpl in *; by rewrite ?lookup_empty.
Qed.

(** (C28) A control plane that leaves is not noticed: whatever number of responses its stream still
    takes, as long as each request finds users the task goes on freezing them; the responses that
    do not fit are in no table and are never sent.  Only a request that finds no user ends it. *)
Theorem closed_stream_discards room ops (w : window) a : shows (aw_data w) a ->
  (Forall (fun us => us <> []) (fst (run_spec ops a)) ->
   exists w', active_users_task room ops w = (true, take room (concat (fst (run_window ops w))), w') /\
     shows (aw_data w') (snd (run_spec ops a))) /\
  (a = ∅ -> exists w', active_users_task 0 (OpAsk :: ops) w = (false, [], w')).
Proof.
  intros Hs. split.
  - revert room w a Hs. induction ops as [|[k v|] ops IH]; intros room w a Hs Hb; cbn [active_users_task run_window run_spec fst snd].
    + exists w. by destruct room.
    + apply IH; [by apply shows_put|exact Hb].
    + cbn [run_spec] in Hb. unfold active_users_turn, on_active_users_request.
      destruct (freeze_shows w a Hs) as [Hf Hs']. destruct (freeze w) as [us w1]. cbn [fst snd] in Hf, Hs'.
      pose proof (IH (room - length (active_user_responses us))%nat w1 ∅ Hs') as Hi.
      destruct (run_spec ops ∅) as [uss a2]. cbn [fst snd] in *. apply Forall_cons in Hb as [Hu Hb].
      destruct (Hi Hb) as (w' & E & Hw'). destruct (run_window ops w1) as [rss w2]. cbn [fst snd] in *.
      rewrite decide_False by (intros ->; apply Hu; by apply Permutation_nil_l in Hf).
      exists w'. rewrite E. split; [|done]. cbn [concat]. by rewrite take_app.
  - intros ->. cbn [active_users_task]. unfold active_users_turn.
    destruct (freeze_shows w ∅ Hs) as [Hf _]. destruct (freeze w) as [us w1]. cbn [fst] in Hf.
    rewrite map_to_list_empty in Hf. apply Permutation_nil_r in Hf as ->. rewrite decide_True by done. by exists w1.
Qed.

End window_props.

Definition sample_window : UserActivityWindow (TC := queue (TenantKey * bytes * Z * Z)) :=
  MkWindow maps_new 0 0 (MkQueue []).

Definition com_of (u : String.string) (c : Z) : UserCom := MkUserCom (Some default_tenant) (str u) [c] 0.

Definition sample_ops : list window_op :=
  [OpPut 1 (com_of "a" 3); OpPut 2 (com_of "b" 3); OpPut 1 (com_of "a" 14); OpAsk; OpAsk; OpPut 3 (com_of "c" 3); OpAsk].

Lemma window_refines_map_witness :
  Forall2 (fun rs us => concat (map response_users rs) ≡ₚ us) (fst (run_window sample_ops sample_window))
    (fst (run_spec sample_ops ∅)).
Proof. apply (window_refines_map sample_ops sample_window ∅). by split. Defined.

Lemma put_lost_in_switch_witness :
  table false (clean_inactive (put_at false 1 (com_of "a" 3) (snd (switch maps_new)))) !! 1 = None /\
  table true (clean_inactive (put_at false 1 (com_of "a" 3) (snd (switch maps_new)))) !! 1 = None.
Proof. split; apply (put_lost_in_switch maps_new 1 (com_of "a" 3)); by intros []. Defined.

(** Two users are recorded, the control plane leaves, a third user is recorded and lost. *)
Lemma closed_stream_discards_witness : exists sent w',
  active_users_task 1 [OpPut 1 (com_of "a" 3); OpPut 2 (com_of "b" 3); OpAsk; OpPut 3 (com_of "c" 3); OpAsk] sample_window
    = (true, sent, w') /\ length sent = 1%nat /\ shows (aw_data w') ∅.
Proof.
  destruct (closed_stream_discards 1
    [OpPut 1 (com_of "a" 3); OpPut 2 (com_of "b" 3); OpAsk; OpPut 3 (com_of "c" 3); OpAsk] sample_window ∅) as [H _].
  - by split.
  - destruct H as (w' & E & Hw'); [by repeat constructor|]. eexists _, w'. split; [exact E|]. split; [reflexivity|exact Hw'].
Defined.
