(* ===== verification/Tonic.v ===== *)
(** * The interface to tonic, http and prost

    What the generated gRPC code calls: the messages' encoding, HTTP requests and responses, the
    generic client [tonic::client::Grpc] and the generic server [tonic::server::Grpc].  The laws
    are gRPC's contract: a call to a path that a service handles gives the result of the service's
    method, when the messages are within the limits and nothing is compressed.  The reference
    instances at the end carry encoded messages in lists. *)
From S2P Require Import Prelude.

(** ** Status codes *)

(** [tonic::Code], in the order of its numbers. *)
Inductive Code : Type :=
  | CodeOk | CodeCancelled | CodeUnknown | CodeInvalidArgument | CodeDeadlineExceeded | CodeNotFound
  | CodeAlreadyExists | CodePermissionDenied | CodeResourceExhausted | CodeFailedPrecondition | CodeAborted
  | CodeOutOfRange | CodeUnimplemented | CodeInternal | CodeUnavailable | CodeDataLoss | CodeUnauthenticated.

#[export] Instance Code_eq_dec : EqDecision Code.
Proof. solve_decision. Defined.

Definition codes : list Code :=
  [CodeOk; CodeCancelled; CodeUnknown; CodeInvalidArgument; CodeDeadlineExceeded; CodeNotFound; CodeAlreadyExists;
   CodePermissionDenied; CodeResourceExhausted; CodeFailedPrecondition; CodeAborted; CodeOutOfRange;
   CodeUnimplemented; CodeInternal; CodeUnavailable; CodeDataLoss; CodeUnauthenticated].

(** [code as i32] *)
Definition code_i32 (c : Code) : Z :=
  match list_find (fun d => d = c) codes with Some (i, _) => Z.of_nat i | None => 0 end.

(** [tonic::Status], as far as the code builds it. *)
Record Status : Type := MkStatus { status_code : Code; status_message : bytes }.

(** [Status::unknown] *)
Definition status_unknown (msg : bytes) : Status := MkStatus CodeUnknown msg.

(** [Result<A, Status>] *)
Abbreviation grpc_result A := (Status + A)%type.

(** ** Messages *)

(** [prost::Message]: the encoding is derived by prost. *)
Class Prost (A : Type) : Type := {
  prost_encode : A -> bytes;
  prost_decode : bytes -> option A;
}.

Class ProstLaws (A : Type) {ops : Prost A} : Prop :=
  prost_decode_encode : forall a : A, prost_decode (prost_encode a) = Some a.

(** ** HTTP *)

Class Http : Type := {
  http_request : Type;
  http_response : Type;
  box_body : Type;
  (** [req.uri().path()] *)
  uri_path : http_request -> bytes;
  (** [tonic::body::empty_body()], [http::Response::new] and [headers_mut().insert] of a header
      value made of bytes *)
  empty_body : box_body;
  response_new : box_body -> http_response;
  insert_header : bytes -> bytes -> http_response -> http_response;
  get_header : bytes -> http_response -> option bytes;
  (** [tonic::Status::GRPC_STATUS], [http::header::CONTENT_TYPE] and
      [tonic::metadata::GRPC_CONTENT_TYPE] *)
  GRPC_STATUS : bytes;
  CONTENT_TYPE : bytes;
  GRPC_CONTENT_TYPE : bytes;
  (** [HeaderValue::from(i32)] *)
  header_of_i32 : Z -> bytes;
}.

Class HttpLaws (H : Http) : Prop := {
  header_inserted : forall k v r, get_header k (insert_header k v r) = Some v;
  header_kept : forall k k' v r, k <> k' -> get_header k (insert_header k' v r) = get_header k r;
  header_names : GRPC_STATUS <> CONTENT_TYPE;
}.

(** ** Services *)

(** [tonic::client::GrpcService]: what a client calls through; an error as the text it displays. *)
Class GrpcService `{Http} (C : Type) : Type := {
  svc_ready : C -> (bytes + unit) * C;
  svc_call : http_request -> C -> (bytes + http_response) * C;
}.

(** Streams of messages, and the compression encodings. *)
Class TonicTypes : Type := {
  Stream : Type -> Type;
  stream_map : forall {A B}, (A -> B) -> Stream A -> Stream B;
  (** every item of the stream satisfies the predicate *)
  stream_all : forall {A}, (A -> Prop) -> Stream A -> Prop;
  CompressionEncoding : Type;
  (** [EnabledCompressionEncodings]: [default] and [enable] *)
  EnabledCompressionEncodings : Type;
  encodings_default : EnabledCompressionEncodings;
  enable : CompressionEncoding -> EnabledCompressionEncodings -> EnabledCompressionEncodings;
}.

(** What [apply_compression_config] and [apply_max_message_size_config] are given. *)
Record server_settings `{TonicTypes} : Type := MkServerSettings {
  accept_encodings : EnabledCompressionEncodings;
  send_encodings : EnabledCompressionEncodings;
  max_decoding : option Z;
  max_encoding : option Z;
}.

Arguments MkServerSettings {_} _ _ _ _.

(** [tonic::server::Grpc] with a [ProstCodec] and such settings: a unary method, and a method from
    a stream to a stream, applied to a request. *)
Class TonicServer `{Http} `{TonicTypes} : Type := {
  server_unary : forall {T Req Rsp} `{Prost Req} `{Prost Rsp}, server_settings ->
    (Req -> T -> grpc_result Rsp * T) -> http_request -> T -> http_response * T;
  server_streaming : forall {T Req Rsp} `{Prost Req} `{Prost Rsp}, server_settings ->
    (Stream (grpc_result Req) -> T -> grpc_result (Stream (grpc_result Rsp)) * T) -> http_request -> T -> http_response * T;
}.

(** [tonic::client::Grpc], over a service [C].  The calls are given the path, and the names of
    the service and the method, an extension of the request. *)
Class TonicClient `{Http} `{TonicTypes} (Grpc : Type -> Type) : Type := {
  grpc_new : forall {C}, C -> Grpc C;
  grpc_with_origin : forall {C}, C -> bytes -> Grpc C;
  grpc_send_compressed : forall {C}, CompressionEncoding -> Grpc C -> Grpc C;
  grpc_accept_compressed : forall {C}, CompressionEncoding -> Grpc C -> Grpc C;
  grpc_max_decoding : forall {C}, Z -> Grpc C -> Grpc C;
  grpc_max_encoding : forall {C}, Z -> Grpc C -> Grpc C;
  grpc_ready : forall {C} `{!GrpcService C}, Grpc C -> (bytes + unit) * Grpc C;
  grpc_unary : forall {C Req Rsp} `{!GrpcService C} `{Prost Req} `{Prost Rsp},
    Req -> bytes * bytes -> bytes -> Grpc C -> grpc_result Rsp * Grpc C;
  grpc_streaming : forall {C Req Rsp} `{!GrpcService C} `{Prost Req} `{Prost Rsp},
    Stream Req -> bytes * bytes -> bytes -> Grpc C -> grpc_result (Stream (grpc_result Rsp)) * Grpc C;
}.

(** [InterceptedService::new], for clients and servers alike. *)
Class Interceptors : Type := {
  Intercepted : Type -> Type -> Type;
  intercepted_new : forall {S F}, S -> F -> Intercepted S F;
}.

(** What a [client::Grpc] is set to. *)
Record client_settings `{TonicTypes} : Type := MkClientSettings {
  request_encoding : option CompressionEncoding;
  response_encodings : EnabledCompressionEncodings;
  client_max_decoding : option Z;
  client_max_encoding : option Z;
}.

Arguments MkClientSettings {_} _ _ _ _.

(** The documented defaults: 4 MB to decode, [usize::MAX] to encode. *)
Definition within (encoding decoding : option Z) (b : bytes) : Prop :=
  len b <= default (U64 - 1) encoding /\ len b <= default 4194304 decoding.

(** A request within the limits of both sides, and a response. *)
Definition request_within `{TonicTypes} {A} `{Prost A} (cs : client_settings) (ss : server_settings) (a : A) : Prop :=
  within (client_max_encoding cs) (max_decoding ss) (prost_encode a).
Definition response_within `{TonicTypes} {A} `{Prost A} (cs : client_settings) (ss : server_settings) (a : A) : Prop :=
  within (max_encoding ss) (client_max_decoding cs) (prost_encode a).

(** The result of a method that a client can be given: a message within the limits, or a status
    that is an error. *)
Definition result_within `{TonicTypes} {A} `{Prost A} (cs : client_settings) (ss : server_settings) (r : grpc_result A) : Prop :=
  match r with inr a => response_within cs ss a | inl st => status_code st <> CodeOk end.

(** A stream: messages within the limits. *)
Definition item_within `{TonicTypes} {A} `{Prost A} (cs : client_settings) (ss : server_settings) (r : grpc_result A) : Prop :=
  match r with inr a => response_within cs ss a | inl _ => False end.

Definition stream_within `{TonicTypes} {A} `{Prost A} (cs : client_settings) (ss : server_settings)
    (r : grpc_result (Stream (grpc_result A))) : Prop :=
  match r with inr s => stream_all (item_within cs ss) s | inl st => status_code st <> CodeOk end.

(** Nothing is compressed: the client does not compress, and the server is not asked to. *)
Definition uncompressed `{TonicTypes} (cs : client_settings) (ss : server_settings) : Prop :=
  request_encoding cs = None /\ send_encodings ss = encodings_default.

(** [C] handles [path] as [handle] does, on a state that [inj] embeds. *)
Definition handles `{Http} {C T} `{!GrpcService C} (inj : T -> C) (path : bytes)
    (handle : http_request -> T -> http_response * T) (t : T) : Prop :=
  forall r, uri_path r = path ->
    svc_call r (inj t) = (inr (fst (handle r t)), inj (snd (handle r t))).

Class TonicLaws {H : Http} {Ty : TonicTypes} (Srv : TonicServer) {Grpc : Type -> Type} (Cl : TonicClient Grpc) : Type := {
  grpc_service : forall {C}, Grpc C -> C;
  grpc_settings : forall {C}, Grpc C -> client_settings;
  grpc_new_law : forall C (c : C), grpc_service (grpc_new c) = c /\
    grpc_settings (grpc_new c) = MkClientSettings None encodings_default None None;
  grpc_ready_law : forall C (GS : GrpcService C) (g : Grpc C) o c', svc_ready (grpc_service g) = (o, c') ->
    exists g', grpc_ready g = (o, g') /\ grpc_service g' = c' /\ grpc_settings g' = grpc_settings g;
  (** a method that the service behind the path runs *)
  grpc_unary_law : forall C T (GS : GrpcService C) Req Rsp (P : Prost Req) (Q : Prost Rsp)
    (PL : ProstLaws Req) (QL : ProstLaws Rsp) (inj : T -> C) ss
    (f : Req -> T -> grpc_result Rsp * T) (g : Grpc C) (req : Req) ext path t,
    grpc_service g = inj t -> handles inj path (server_unary ss f) t -> uncompressed (grpc_settings g) ss ->
    request_within (grpc_settings g) ss req -> result_within (grpc_settings g) ss (fst (f req t)) ->
    exists g', grpc_unary req ext path g = (fst (f req t), g') /\ grpc_service g' = inj (snd (f req t)) /\
      grpc_settings g' = grpc_settings g;
  grpc_streaming_law : forall C T (GS : GrpcService C) Req Rsp (P : Prost Req) (Q : Prost Rsp)
    (PL : ProstLaws Req) (QL : ProstLaws Rsp) (inj : T -> C) ss
    (f : Stream (grpc_result Req) -> T -> grpc_result (Stream (grpc_result Rsp)) * T) (g : Grpc C) (reqs : Stream Req) ext path t,
    grpc_service g = inj t -> handles inj path (server_streaming ss f) t -> uncompressed (grpc_settings g) ss ->
    stream_all (request_within (grpc_settings g) ss) reqs ->
    stream_within (grpc_settings g) ss (fst (f (stream_map inr reqs) t)) ->
    exists g', grpc_streaming reqs ext path g = (fst (f (stream_map inr reqs) t), g') /\
      grpc_service g' = inj (snd (f (stream_map inr reqs) t)) /\ grpc_settings g' = grpc_settings g;
}.

(** ** Reference instances *)

(** An encoding of anything countable: the bits of its number. *)
Fixpoint bits (p : positive) : bytes :=
  match p with
  | xH => []
  | xO p => 0 :: bits p
  | xI p => 1 :: bits p
  end.

Fixpoint of_bits (b : bytes) : positive :=
  match b with
  | [] => xH
  | 0 :: b => xO (of_bits b)
  | _ :: b => xI (of_bits b)
  end.

Lemma of_bits_bits p : of_bits (bits p) = p.
Proof. induction p as [p IH|p IH|]; cbn [bits of_bits]; by rewrite ?IH. Qed.

Definition countable_prost (A : Type) `{Countable A} : Prost A := {|
  prost_encode := fun a => bits (encode a);
  prost_decode := fun b => decode (of_bits b);
|}.

Lemma countable_prost_laws (A : Type) `{Countable A} : ProstLaws A (ops := countable_prost A).
Proof. intros a. cbn. by rewrite of_bits_bits, decode_encode. Qed.

(** Streams are lists; the encodings are gzip and zstd. *)
#[export] Instance list_streams : TonicTypes := {|
  Stream := list;
  stream_map := @map;
  stream_all := @Forall;
  CompressionEncoding := bool;
  EnabledCompressionEncodings := list bool;
  encodings_default := [];
  enable := cons;
|}.

Record plain_request : Type := PlainRequest { rq_path : bytes; rq_messages : list bytes }.
Record plain_response : Type := PlainResponse { rs_headers : gmap bytes bytes; rs_messages : list bytes }.

#[export] Instance plain_http : Http := {|
  http_request := plain_request;
  http_response := plain_response;
  box_body := unit;
  uri_path := rq_path;
  empty_body := tt;
  response_new := fun _ => PlainResponse ∅ [];
  insert_header := fun k v r => PlainResponse (<[k := v]> (rs_headers r)) (rs_messages r);
  get_header := fun k r => rs_headers r !! k;
  GRPC_STATUS := str "grpc-status";
  CONTENT_TYPE := str "content-type";
  GRPC_CONTENT_TYPE := str "application/grpc";
  header_of_i32 := fun n => [n];
|}.

#[export] Instance plain_http_laws : HttpLaws plain_http.
Proof.
  split; cbn.
  - intros k v r. apply lookup_insert_eq.
  - intros k k' v r Hk. by apply lookup_insert_ne.
  - by vm_compute.
Qed.

Definition GRPC_MESSAGE : bytes := str "grpc-message".

Definition error_response (st : Status) : plain_response :=
  PlainResponse (<[GRPC_MESSAGE := status_message st]> {[GRPC_STATUS := [code_i32 (status_code st)]]}) [].

Definition messages_response (l : list bytes) : plain_response := PlainResponse ∅ l.

(** The messages of a stream up to its first error. *)
Fixpoint sent_items {A} `{Prost A} (l : list (grpc_result A)) : list bytes :=
  match l with
  | inr a :: l => prost_encode a :: sent_items l
  | _ => []
  end.

#[export] Instance plain_server : TonicServer := {|
  server_unary := fun T Req Rsp _ _ _ f r t =>
    match rq_messages r with
    | [m] =>
        match prost_decode m with
        | Some q => match f q t with
                    | (inr a, t) => (messages_response [prost_encode a], t)
                    | (inl st, t) => (error_response st, t)
                    end
        | None => (error_response (MkStatus CodeInternal []), t)
        end
    | _ => (error_response (MkStatus CodeInternal []), t)
    end;
  server_streaming := fun T Req Rsp _ _ _ f r t =>
    match f (map (fun m => match prost_decode m with Some q => inr q | None => inl (MkStatus CodeInternal []) end)
              (rq_messages r)) t with
    | (inr l, t) => (messages_response (sent_items l), t)
    | (inl st, t) => (error_response st, t)
    end;
|}.

Definition code_of_i32 (n : Z) : Code := default CodeUnknown (codes !! Z.to_nat n).

Lemma code_of_i32_code c : code_of_i32 (code_i32 c) = c.
Proof. by destruct c. Qed.

(** The status in a response's headers, if it is an error. *)
Definition response_status (r : plain_response) : option Status :=
  match rs_headers r !! GRPC_STATUS with
  | Some (n :: _) => if n =? 0 then None
                     else Some (MkStatus (code_of_i32 n) (default [] (rs_headers r !! GRPC_MESSAGE)))
  | _ => None
  end.

Lemma error_response_status st : status_code st <> CodeOk -> response_status (error_response st) = Some st.
Proof.
  intros Hc. unfold response_status, error_response. cbn [rs_headers].
  rewrite lookup_insert_ne by by vm_compute. rewrite lookup_singleton_eq, lookup_insert_eq. cbn [default].
  destruct (Z.eqb_spec (code_i32 (status_code st)) 0) as [E|E].
  - destruct st as [[] m]; by vm_compute in E.
  - rewrite code_of_i32_code. by destruct st.
Qed.

Record plain_grpc (C : Type) : Type := PlainGrpc { pg_service : C; pg_settings : client_settings }.
Arguments PlainGrpc {C} _ _.
Arguments pg_service {C} _.
Arguments pg_settings {C} _.

Definition decoded {A} `{Prost A} (m : bytes) : grpc_result A :=
  match prost_decode m with Some a => inr a | None => inl (MkStatus CodeInternal []) end.

Definition with_settings {C} (f : client_settings -> client_settings) (g : plain_grpc C) : plain_grpc C :=
  PlainGrpc (pg_service g) (f (pg_settings g)).

Definition plain_call {C A} `{!GrpcService C} (path : bytes) (msgs : list bytes)
    (read : list bytes -> grpc_result A) (g : plain_grpc C) : grpc_result A * plain_grpc C :=
  match svc_call (PlainRequest path msgs) (pg_service g) with
  | (inl e, c) => (inl (status_unknown e), PlainGrpc c (pg_settings g))
  | (inr r, c) => (match response_status r with Some st => inl st | None => read (rs_messages r) end,
                   PlainGrpc c (pg_settings g))
  end.

#[export] Instance plain_client : TonicClient plain_grpc := {|
  grpc_new := fun C c => PlainGrpc c (MkClientSettings None [] None None);
  grpc_with_origin := fun C c _ => PlainGrpc c (MkClientSettings None [] None None);
  grpc_send_compressed := fun C e => with_settings (fun s =>
    MkClientSettings (Some e) (response_encodings s) (client_max_decoding s) (client_max_encoding s));
  grpc_accept_compressed := fun C e => with_settings (fun s =>
    MkClientSettings (request_encoding s) (enable e (response_encodings s)) (client_max_decoding s) (client_max_encoding s));
  grpc_max_decoding := fun C n => with_settings (fun s =>
    MkClientSettings (request_encoding s) (response_encodings s) (Some n) (client_max_encoding s));
  grpc_max_encoding := fun C n => with_settings (fun s =>
    MkClientSettings (request_encoding s) (response_encodings s) (client_max_decoding s) (Some n));
  grpc_ready := fun C _ g => let '(o, c) := svc_ready (pg_service g) in (o, PlainGrpc c (pg_settings g));
  grpc_unary := fun C Req Rsp _ _ _ req _ path =>
    plain_call path [prost_encode req]
      (fun l => match l with [m] => decoded m | _ => inl (MkStatus CodeInternal []) end);
  grpc_streaming := fun C Req Rsp _ _ _ reqs _ path =>
    plain_call path (map prost_encode reqs) (fun l => inr (map decoded l));
|}.

Lemma decoded_encode {A} `{Prost A} `{!ProstLaws A} (a : A) : decoded (prost_encode a) = inr a.
Proof. unfold decoded. by rewrite prost_decode_encode. Qed.

Lemma sent_items_all {A} `{Prost A} `{!ProstLaws A} (P : A -> Prop) (l : list (grpc_result A)) :
  Forall (fun r => match r with inr a => P a | inl _ => False end) l -> map decoded (sent_items l) = l.
Proof.
  induction 1 as [|[st|a] l Ha Hl IH]; [done|done|]. cbn [sent_items map]. by rewrite IH, decoded_encode.
Qed.

#[export] Instance plain_laws : TonicLaws plain_server plain_client.
Proof.
  refine {| grpc_service := @pg_service; grpc_settings := @pg_settings |}.
  - done.
  - intros C GS g o c' E. cbn. rewrite E. by eexists.
  - intros C T GS Req Rsp P Q PL QL inj ss f g req ext path t Eg Hh Hu Hq Hr.
    cbn [grpc_unary plain_client]. unfold plain_call. rewrite Eg, (Hh (PlainRequest path _) eq_refl).
    cbn [server_unary plain_server rq_messages]. rewrite prost_decode_encode.
    destruct (f req t) as [[st|a] t']; cbn [fst snd].
    + rewrite error_response_status by done. by eexists.
    + cbn [response_status messages_response rs_headers rs_messages]. unfold response_status. cbn. rewrite decoded_encode. by eexists.
  - intros C T GS Req Rsp P Q PL QL inj ss f g reqs ext path t Eg Hh Hu Hq Hr.
    cbn [grpc_streaming plain_client]. unfold plain_call. rewrite Eg, (Hh (PlainRequest path _) eq_refl).
    cbn [server_streaming plain_server rq_messages]. rewrite map_map.
    rewrite (map_ext _ inr) by (intros q; by rewrite prost_decode_encode). cbn [stream_map list_streams] in *.
    destruct (f (map inr reqs) t) as [[st|l] t']; cbn [fst snd] in *.
    + rewrite error_response_status by done. by eexists.
    + cbn [response_status messages_response rs_headers rs_messages].
      rewrite (sent_items_all (response_within (pg_settings g) ss) l Hr). by eexists.
Defined.
