(* ===== verification/Grpc.v ===== *)
(** * The gRPC clients and servers ([prost/topology.rs], [prost/control_plane.rs])

    The generated code between the messages and tonic: a client per service, whose methods call a
    path, the trait that a service implements (a class), and a server, which dispatches on the
    path.  A stub called on a server of the same service gives the result of the trait's method. *)
From S2P Require Import Prelude Proto Runtime Tonic.

(** ** Shared shapes *)

Section stubs.
Context {H : Http} {Ty : TonicTypes} {Grpc : Type -> Type} {Cl : TonicClient Grpc}.

(** [Status::unknown(format!("Service was not ready: {}", e.into()))] *)
Definition not_ready (e : bytes) : Status := status_unknown (str "Service was not ready: " ++ e).

(** The start of every stub: [self.inner.ready().await.map_err(not_ready)?]. *)
Definition when_ready {C A} `{!GrpcService C} (k : Grpc C -> grpc_result A * Grpc C) (g : Grpc C)
  : grpc_result A * Grpc C :=
  match grpc_ready g with
  | (inl e, g) => (inl (not_ready e), g)
  | (inr _, g) => k g
  end.

End stubs.

(** ** topology_client *)

Record TopologyClient (G : Type) : Type := MkTopologyClient { tc_inner : G }.
Arguments MkTopologyClient {G} _.
Arguments tc_inner {G} _.

Section topology_client.
Context {H : Http} {Ty : TonicTypes} {Grpc : Type -> Type} {Cl : TonicClient Grpc}.
Context `{!Prost GetTopologyRequest} `{!Prost SubscribeRequest} `{!Prost SubscribeNamespaceRequest} `{!Prost Response}.

Definition topology_client_new {C} (inner : C) : TopologyClient (Grpc C) := MkTopologyClient (grpc_new inner).

Definition topology_client_connect {Ch} `{Tonic Ch} (dst : bytes) : option (TopologyClient (Grpc Ch)) :=
  conn ← tonic_connect dst; Some (topology_client_new conn).

Definition topology_client_with_origin {C} (inner : C) (origin : bytes) : TopologyClient (Grpc C) :=
  MkTopologyClient (grpc_with_origin inner origin).

Definition topology_client_with_interceptor {C F} `{Interceptors} (inner : C) (interceptor : F)
  : TopologyClient (Grpc (Intercepted C F)) :=
  topology_client_new (intercepted_new inner interceptor).

Section builders.
Context {C : Type}.

Abbreviation client := (TopologyClient (Grpc C)).

Definition topology_client_send_compressed (encoding : CompressionEncoding) (s : client) : client :=
  MkTopologyClient (grpc_send_compressed encoding (tc_inner s)).
Definition topology_client_accept_compressed (encoding : CompressionEncoding) (s : client) : client :=
  MkTopologyClient (grpc_accept_compressed encoding (tc_inner s)).
Definition topology_client_max_decoding (limit : Z) (s : client) : client :=
  MkTopologyClient (grpc_max_decoding limit (tc_inner s)).
Definition topology_client_max_encoding (limit : Z) (s : client) : client :=
  MkTopologyClient (grpc_max_encoding limit (tc_inner s)).

Context `{!GrpcService C}.

(** A stub works on the client's [inner]. *)
Definition on_tc_inner {A} (m : Grpc C -> grpc_result A * Grpc C) (s : client) : grpc_result A * client :=
  let '(r, g) := m (tc_inner s) in (r, MkTopologyClient g).

Definition get_topology_stub (request : GetTopologyRequest) : client -> grpc_result Response * client :=
  on_tc_inner (when_ready (grpc_unary request (str "topology.Topology", str "GetTopology")
    (str "/topology.Topology/GetTopology"))).

Definition subscribe_stub (request : Stream SubscribeRequest)
  : client -> grpc_result (Stream (grpc_result Response)) * client :=
  on_tc_inner (when_ready (grpc_streaming request (str "topology.Topology", str "Subscribe")
    (str "/topology.Topology/Subscribe"))).

Definition cancel_subscribe_stub (request : SubscribeRequest) : client -> grpc_result Response * client :=
  on_tc_inner (when_ready (grpc_unary request (str "topology.Topology", str "CancelSubscribe")
    (str "/topology.Topology/CancelSubscribe"))).

Definition subscribe_namespace_stub (request : Stream SubscribeNamespaceRequest)
  : client -> grpc_result (Stream (grpc_result Response)) * client :=
  on_tc_inner (when_ready (grpc_streaming request (str "topology.Topology", str "SubscribeNamespace")
    (str "/topology.Topology/SubscribeNamespace"))).

Definition cancel_subscribe_namespace_stub (request : SubscribeNamespaceRequest) : client -> grpc_result Response * client :=
  on_tc_inner (when_ready (grpc_unary request (str "topology.Topology", str "CancelSubscribeNamespace")
    (str "/topology.Topology/CancelSubscribeNamespace"))).

End builders.
End topology_client.

(** ** topology_server *)

(** The trait; [&self] is the state of the service before and after the call. *)
Class Topology `{TonicTypes} (T : Type) : Type := {
  get_topology : GetTopologyRequest -> T -> grpc_result Response * T;
  subscribe : Stream (grpc_result SubscribeRequest) -> T -> grpc_result (Stream (grpc_result Response)) * T;
  cancel_subscribe : SubscribeRequest -> T -> grpc_result Response * T;
  subscribe_namespace :
    Stream (grpc_result SubscribeNamespaceRequest) -> T -> grpc_result (Stream (grpc_result Response)) * T;
  cancel_subscribe_namespace : SubscribeNamespaceRequest -> T -> grpc_result Response * T;
}.

Record TopologyServer `{TonicTypes} (T : Type) : Type := MkTopologyServer {
  ts_inner : T;
  ts_accept_compression_encodings : EnabledCompressionEncodings;
  ts_send_compression_encodings : EnabledCompressionEncodings;
  ts_max_decoding_message_size : option Z;
  ts_max_encoding_message_size : option Z;
}.
Arguments MkTopologyServer {_ T} _ _ _ _ _.
Arguments ts_inner {_ T} _.
Arguments ts_accept_compression_encodings {_ T} _.
Arguments ts_send_compression_encodings {_ T} _.
Arguments ts_max_decoding_message_size {_ T} _.
Arguments ts_max_encoding_message_size {_ T} _.

Definition topology_service_name : bytes := str "topology.Topology".

Section unimplemented.
Context {H : Http}.

(** The answer to a path the service does not have. *)
Definition unimplemented_response : http_response :=
  insert_header CONTENT_TYPE GRPC_CONTENT_TYPE
    (insert_header GRPC_STATUS (header_of_i32 (code_i32 CodeUnimplemented)) (response_new empty_body)).

End unimplemented.

Section topology_server.
Context {H : Http} {Ty : TonicTypes} {Srv : TonicServer}.
Context `{!Prost GetTopologyRequest} `{!Prost SubscribeRequest} `{!Prost SubscribeNamespaceRequest} `{!Prost Response}.
Context {T : Type}.

Abbreviation server := (TopologyServer T).

Definition topology_server_from_arc (inner : T) : server :=
  MkTopologyServer inner encodings_default encodings_default None None.
Definition topology_server_new (inner : T) : server := topology_server_from_arc inner.

Definition topology_server_with_interceptor {F} `{Interceptors} (inner : T) (interceptor : F) : Intercepted server F :=
  intercepted_new (topology_server_new inner) interceptor.

Definition topology_server_accept_compressed (encoding : CompressionEncoding) (s : server) : server :=
  MkTopologyServer (ts_inner s) (enable encoding (ts_accept_compression_encodings s)) (ts_send_compression_encodings s)
    (ts_max_decoding_message_size s) (ts_max_encoding_message_size s).
Definition topology_server_send_compressed (encoding : CompressionEncoding) (s : server) : server :=
  MkTopologyServer (ts_inner s) (ts_accept_compression_encodings s) (enable encoding (ts_send_compression_encodings s))
    (ts_max_decoding_message_size s) (ts_max_encoding_message_size s).
Definition topology_server_max_decoding (limit : Z) (s : server) : server :=
  MkTopologyServer (ts_inner s) (ts_accept_compression_encodings s) (ts_send_compression_encodings s)
    (Some limit) (ts_max_encoding_message_size s).
Definition topology_server_max_encoding (limit : Z) (s : server) : server :=
  MkTopologyServer (ts_inner s) (ts_accept_compression_encodings s) (ts_send_compression_encodings s)
    (ts_max_decoding_message_size s) (Some limit).

(** What each arm of [call] hands to [server::Grpc]. *)
Definition ts_settings (s : server) : server_settings :=
  MkServerSettings (ts_accept_compression_encodings s) (ts_send_compression_encodings s)
    (ts_max_decoding_message_size s) (ts_max_encoding_message_size s).

(** The service is behind an [Arc]: the server and its clones share it. *)
Definition on_ts_inner (m : T -> http_response * T) (s : server) : http_response * server :=
  let '(res, inner) := m (ts_inner s) in
  (res, MkTopologyServer inner (ts_accept_compression_encodings s) (ts_send_compression_encodings s)
    (ts_max_decoding_message_size s) (ts_max_encoding_message_size s)).

Context `{!Topology T}.

Definition GetTopologySvc (req : http_request) (s : server) : http_response * server :=
  on_ts_inner (server_unary (ts_settings s) get_topology req) s.
Definition SubscribeSvc (req : http_request) (s : server) : http_response * server :=
  on_ts_inner (server_streaming (ts_settings s) subscribe req) s.
Definition CancelSubscribeSvc (req : http_request) (s : server) : http_response * server :=
  on_ts_inner (server_unary (ts_settings s) cancel_subscribe req) s.
Definition SubscribeNamespaceSvc (req : http_request) (s : server) : http_response * server :=
  on_ts_inner (server_streaming (ts_settings s) subscribe_namespace req) s.
Definition CancelSubscribeNamespaceSvc (req : http_request) (s : server) : http_response * server :=
  on_ts_inner (server_unary (ts_settings s) cancel_subscribe_namespace req) s.

Definition topology_call (req : http_request) (s : server) : http_response * server :=
  let path := uri_path req in
  if decide (path = str "/topology.Topology/GetTopology") then GetTopologySvc req s
  else if decide (path = str "/topology.Topology/Subscribe") then SubscribeSvc req s
  else if decide (path = str "/topology.Topology/CancelSubscribe") then CancelSubscribeSvc req s
  else if decide (path = str "/topology.Topology/SubscribeNamespace") then SubscribeNamespaceSvc req s
  else if decide (path = str "/topology.Topology/CancelSubscribeNamespace") then CancelSubscribeNamespaceSvc req s
  else (unimplemented_response, s).

(** [impl Service<http::Request<B>> for TopologyServer<T>]: always ready, and infallible. *)
#[export] Instance topology_service : GrpcService server := {|
  svc_ready := fun s => (inr tt, s);
  svc_call := fun req s => let '(res, s) := topology_call req s in (inr res, s);
|}.

End topology_server.

(** ** control_plane_service_client *)

Record ControlPlaneServiceClient (G : Type) : Type := MkControlPlaneServiceClient { cpc_inner : G }.
Arguments MkControlPlaneServiceClient {G} _.
Arguments cpc_inner {G} _.

Section control_plane_client.
Context {H : Http} {Ty : TonicTypes} {Grpc : Type -> Type} {Cl : TonicClient Grpc}.
Context `{!Prost unit} `{!Prost ControlPlaneResponse}.

Definition cp_client_new {C} (inner : C) : ControlPlaneServiceClient (Grpc C) :=
  MkControlPlaneServiceClient (grpc_new inner).

Definition cp_client_connect {Ch} `{Tonic Ch} (dst : bytes) : option (ControlPlaneServiceClient (Grpc Ch)) :=
  conn ← tonic_connect dst; Some (cp_client_new conn).

Definition cp_client_with_origin {C} (inner : C) (origin : bytes) : ControlPlaneServiceClient (Grpc C) :=
  MkControlPlaneServiceClient (grpc_with_origin inner origin).

Definition cp_client_with_interceptor {C F} `{Interceptors} (inner : C) (interceptor : F)
  : ControlPlaneServiceClient (Grpc (Intercepted C F)) :=
  cp_client_new (intercepted_new inner interceptor).

Section builders.
Context {C : Type}.

Abbreviation client := (ControlPlaneServiceClient (Grpc C)).

Definition cp_client_send_compressed (encoding : CompressionEncoding) (s : client) : client :=
  MkControlPlaneServiceClient (grpc_send_compressed encoding (cpc_inner s)).
Definition cp_client_accept_compressed (encoding : CompressionEncoding) (s : client) : client :=
  MkControlPlaneServiceClient (grpc_accept_compressed encoding (cpc_inner s)).
Definition cp_client_max_decoding (limit : Z) (s : client) : client :=
  MkControlPlaneServiceClient (grpc_max_decoding limit (cpc_inner s)).
Definition cp_client_max_encoding (limit : Z) (s : client) : client :=
  MkControlPlaneServiceClient (grpc_max_encoding limit (cpc_inner s)).

Context `{!GrpcService C}.

Definition active_users_stub (request : Stream unit) (s : client)
  : grpc_result (Stream (grpc_result ControlPlaneResponse)) * client :=
  let '(r, g) := when_ready (grpc_streaming request (str "control_plane.ControlPlaneService", str "ActiveUsers")
    (str "/control_plane.ControlPlaneService/ActiveUsers")) (cpc_inner s) in
  (r, MkControlPlaneServiceClient g).

End builders.
End control_plane_client.

(** ** control_plane_service_server *)

Class ControlPlaneService `{TonicTypes} (T : Type) : Type :=
  active_users : Stream (grpc_result unit) -> T -> grpc_result (Stream (grpc_result ControlPlaneResponse)) * T.

Record ControlPlaneServiceServer `{TonicTypes} (T : Type) : Type := MkControlPlaneServiceServer {
  cs_inner : T;
  cs_accept_compression_encodings : EnabledCompressionEncodings;
  cs_send_compression_encodings : EnabledCompressionEncodings;
  cs_max_decoding_message_size : option Z;
  cs_max_encoding_message_size : option Z;
}.
Arguments MkControlPlaneServiceServer {_ T} _ _ _ _ _.
Arguments cs_inner {_ T} _.
Arguments cs_accept_compression_encodings {_ T} _.
Arguments cs_send_compression_encodings {_ T} _.
Arguments cs_max_decoding_message_size {_ T} _.
Arguments cs_max_encoding_message_size {_ T} _.

Definition cp_service_name : bytes := str "control_plane.ControlPlaneService".

Section control_plane_server.
Context {H : Http} {Ty : TonicTypes} {Srv : TonicServer}.
Context `{!Prost unit} `{!Prost ControlPlaneResponse}.
Context {T : Type}.

Abbreviation server := (ControlPlaneServiceServer T).

Definition cp_server_from_arc (inner : T) : server :=
  MkControlPlaneServiceServer inner encodings_default encodings_default None None.
Definition cp_server_new (inner : T) : server := cp_server_from_arc inner.

Definition cp_server_with_interceptor {F} `{Interceptors} (inner : T) (interceptor : F) : Intercepted server F :=
  intercepted_new (cp_server_new inner) interceptor.

Definition cp_server_accept_compressed (encoding : CompressionEncoding) (s : server) : server :=
  MkControlPlaneServiceServer (cs_inner s) (enable encoding (cs_accept_compression_encodings s))
    (cs_send_compression_encodings s) (cs_max_decoding_message_size s) (cs_max_encoding_message_size s).
Definition cp_server_send_compressed (encoding : CompressionEncoding) (s : server) : server :=
  MkControlPlaneServiceServer (cs_inner s) (cs_accept_compression_encodings s)
    (enable encoding (cs_send_compression_encodings s)) (cs_max_decoding_message_size s) (cs_max_encoding_message_size s).
Definition cp_server_max_decoding (limit : Z) (s : server) : server :=
  MkControlPlaneServiceServer (cs_inner s) (cs_accept_compression_encodings s) (cs_send_compression_encodings s)
    (Some limit) (cs_max_encoding_message_size s).
Definition cp_server_max_encoding (limit : Z) (s : server) : server :=
  MkControlPlaneServiceServer (cs_inner s) (cs_accept_compression_encodings s) (cs_send_compression_encodings s)
    (cs_max_decoding_message_size s) (Some limit).

Definition cs_settings (s : server) : server_settings :=
  MkServerSettings (cs_accept_compression_encodings s) (cs_send_compression_encodings s)
    (cs_max_decoding_message_size s) (cs_max_encoding_message_size s).

Context `{!ControlPlaneService T}.

Definition ActiveUsersSvc (req : http_request) (s : server) : http_response * server :=
  let '(res, inner) := server_streaming (cs_settings s) active_users req (cs_inner s) in
  (res, MkControlPlaneServiceServer inner (cs_accept_compression_encodings s) (cs_send_compression_encodings s)
    (cs_max_decoding_message_size s) (cs_max_encoding_message_size s)).

Definition cp_call (req : http_request) (s : server) : http_response * server :=
  if decide (uri_path req = str "/control_plane.ControlPlaneService/ActiveUsers") then ActiveUsersSvc req s
  else (unimplemented_response, s).

#[export] Instance cp_service : GrpcService server := {|
  svc_ready := fun s => (inr tt, s);
  svc_call := fun req s => let '(res, s) := cp_call req s in (inr res, s);
|}.

End control_plane_server.

(** ** Calls through a stub *)

(** Decide which of the literal paths a path is. *)
Ltac path_cases := cbv zeta;
  repeat match goal with |- context [decide (?a = ?b)] =>
    first [rewrite (decide_True (P := a = b)) by reflexivity
          |rewrite (decide_False (P := a = b)) by (intros E; vm_compute in E; discriminate)] end.

Section calls.
Context {H : Http} {Ty : TonicTypes} {Srv : TonicServer} {Grpc : Type -> Type} {Cl : TonicClient Grpc}
  {TL : TonicLaws Srv Cl}.

Lemma when_ready_served {C A} (GS : GrpcService C) (k : Grpc C -> grpc_result A * Grpc C) (g : Grpc C) :
  svc_ready (grpc_service g) = (inr tt, grpc_service g) ->
  exists g', when_ready k g = k g' /\ grpc_service g' = grpc_service g /\ grpc_settings g' = grpc_settings g.
Proof.
  intros Hr. destruct (grpc_ready_law C GS g _ _ Hr) as (g' & E & E1 & E2). exists g'. unfold when_ready. by rewrite E.
Qed.

(** A client that is not ready reports it and calls nothing. *)
Lemma when_ready_refused {C A} (GS : GrpcService C) (k : Grpc C -> grpc_result A * Grpc C) (g : Grpc C) e c' :
  svc_ready (grpc_service g) = (inl e, c') ->
  exists g', when_ready k g = (inl (MkStatus CodeUnknown (str "Service was not ready: " ++ e)), g') /\ grpc_service g' = c'.
Proof.
  intros Hr. destruct (grpc_ready_law C GS g _ _ Hr) as (g' & E & E1 & E2). exists g'. unfold when_ready. by rewrite E.
Qed.

(** The headers of the refusal: gRPC's number for an unimplemented method, on gRPC's content type. *)
Lemma unimplemented_headers {HL : HttpLaws H} :
  get_header GRPC_STATUS unimplemented_response = Some (header_of_i32 12) /\
  get_header CONTENT_TYPE unimplemented_response = Some GRPC_CONTENT_TYPE.
Proof.
  unfold unimplemented_response. split; [|apply header_inserted].
  rewrite header_kept by apply header_names. apply header_inserted.
Qed.

Section topology_calls.
Context `{!Prost GetTopologyRequest} `{!Prost SubscribeRequest} `{!Prost SubscribeNamespaceRequest} `{!Prost Response}
  `{!ProstLaws GetTopologyRequest} `{!ProstLaws SubscribeRequest} `{!ProstLaws SubscribeNamespaceRequest} `{!ProstLaws Response}.
Context {T : Type} `{!Topology T}.

Abbreviation client := (TopologyClient (Grpc (TopologyServer T))).

(** A client of the server [s], with the settings [cs]. *)
Definition serves (c : client) (s : TopologyServer T) (cs : client_settings) : Prop :=
  grpc_service (tc_inner c) = s /\ grpc_settings (tc_inner c) = cs.

Definition with_service (t : T) (s : TopologyServer T) : TopologyServer T :=
  MkTopologyServer t (ts_accept_compression_encodings s) (ts_send_compression_encodings s)
    (ts_max_decoding_message_size s) (ts_max_encoding_message_size s).

(** [stub] on a client of [s] is [method] on the service. *)
Definition is_method {A} (s : TopologyServer T) (cs : client_settings) (stub : client -> grpc_result A * client)
    (method : T -> grpc_result A * T) : Prop :=
  forall c, serves c s cs ->
  exists c', stub c = (fst (method (ts_inner s)), c') /\ serves c' (with_service (snd (method (ts_inner s))) s) cs.

Lemma with_service_same s : with_service (ts_inner s) s = s.
Proof. by destruct s. Qed.

Lemma unary_method {Req} `{!Prost Req} `{!ProstLaws Req} s cs ext path (f : Req -> T -> grpc_result Response * T) req :
  (forall r, uri_path r = path -> topology_call r s = on_ts_inner (server_unary (ts_settings s) f r) s) ->
  uncompressed cs (ts_settings s) -> request_within cs (ts_settings s) req ->
  result_within cs (ts_settings s) (fst (f req (ts_inner s))) ->
  is_method s cs (on_tc_inner (when_ready (grpc_unary req ext path))) (f req).
Proof.
  intros Hp Hu Hq Hr c [Es Ec]. unfold on_tc_inner.
  destruct (when_ready_served (A := Response) _ (grpc_unary req ext path) (tc_inner c)) as (g & Eg & Es' & Ec'); [done|].
  rewrite Es in Es'. rewrite Ec in Ec'. rewrite Eg.
  destruct (grpc_unary_law _ T _ Req Response _ _ _ _ (fun t => with_service t s) (ts_settings s) f g req ext path (ts_inner s))
    as (g' & E & E1 & E2); rewrite ?Ec', ?with_service_same; try done.
  - intros r Er. cbn [svc_call topology_service]. rewrite with_service_same, (Hp r Er). unfold on_ts_inner.
    by destruct (server_unary (ts_settings s) f r (ts_inner s)).
  - rewrite E. eexists. split; [done|]. unfold serves. cbn [tc_inner]. rewrite E1, E2. done.
Qed.

Lemma streaming_method {Req} `{!Prost Req} `{!ProstLaws Req} s cs ext path
    (f : Stream (grpc_result Req) -> T -> grpc_result (Stream (grpc_result Response)) * T) (reqs : Stream Req) :
  (forall r, uri_path r = path -> topology_call r s = on_ts_inner (server_streaming (ts_settings s) f r) s) ->
  uncompressed cs (ts_settings s) -> stream_all (request_within cs (ts_settings s)) reqs ->
  stream_within cs (ts_settings s) (fst (f (stream_map inr reqs) (ts_inner s))) ->
  is_method s cs (on_tc_inner (when_ready (grpc_streaming reqs ext path))) (f (stream_map inr reqs)).
Proof.
  intros Hp Hu Hq Hr c [Es Ec]. unfold on_tc_inner.
  destruct (when_ready_served (A := Stream (grpc_result Response)) _ (grpc_streaming reqs ext path) (tc_inner c)) as (g & Eg & Es' & Ec'); [done|].
  rewrite Es in Es'. rewrite Ec in Ec'. rewrite Eg.
  destruct (grpc_streaming_law _ T _ Req Response _ _ _ _ (fun t => with_service t s) (ts_settings s) f g reqs ext path (ts_inner s))
    as (g' & E & E1 & E2); rewrite ?Ec', ?with_service_same; try done.
  - intros r Er. cbn [svc_call topology_service]. rewrite with_service_same, (Hp r Er). unfold on_ts_inner.
    by destruct (server_streaming (ts_settings s) f r (ts_inner s)).
  - rewrite E. eexists. split; [done|]. unfold serves. cbn [tc_inner]. rewrite E1, E2. done.
Qed.

(** (C12) The topology service, through its generated client and server, is the service itself.  A call
    of a stub gives the result of the trait's method of the same name on the service, and leaves
    the service as the method does, when nothing is compressed and the messages are within the
    limits that client and server are set to; and a path that is no method of the service is
    refused with the status 12, unimplemented, without reaching it. *)
Theorem topology_rpc {HL : HttpLaws H} s cs : uncompressed cs (ts_settings s) ->
  (forall q, request_within cs (ts_settings s) q -> result_within cs (ts_settings s) (fst (get_topology q (ts_inner s))) ->
    is_method s cs (get_topology_stub q) (get_topology q)) /\
  (forall q, stream_all (request_within cs (ts_settings s)) q ->
    stream_within cs (ts_settings s) (fst (subscribe (stream_map inr q) (ts_inner s))) ->
    is_method s cs (subscribe_stub q) (subscribe (stream_map inr q))) /\
  (forall q, request_within cs (ts_settings s) q -> result_within cs (ts_settings s) (fst (cancel_subscribe q (ts_inner s))) ->
    is_method s cs (cancel_subscribe_stub q) (cancel_subscribe q)) /\
  (forall q, stream_all (request_within cs (ts_settings s)) q ->
    stream_within cs (ts_settings s) (fst (subscribe_namespace (stream_map inr q) (ts_inner s))) ->
    is_method s cs (subscribe_namespace_stub q) (subscribe_namespace (stream_map inr q))) /\
  (forall q, request_within cs (ts_settings s) q ->
    result_within cs (ts_settings s) (fst (cancel_subscribe_namespace q (ts_inner s))) ->
    is_method s cs (cancel_subscribe_namespace_stub q) (cancel_subscribe_namespace q)) /\
  get_header GRPC_STATUS unimplemented_response = Some (header_of_i32 12) /\
  (forall r, uri_path r ∉ map (fun m => str "/" ++ topology_service_name ++ str "/" ++ m)
      [str "GetTopology"; str "Subscribe"; str "CancelSubscribe"; str "SubscribeNamespace"; str "CancelSubscribeNamespace"] ->
    topology_call r s = (unimplemented_response, s)).
Proof.
  intros Hu. split_and!.
  - intros q Hq Hr. apply unary_method; try done. intros r Er. unfold topology_call. rewrite Er. by path_cases.
  - intros q Hq Hr. apply streaming_method; try done. intros r Er. unfold topology_call. rewrite Er. by path_cases.
  - intros q Hq Hr. apply unary_method; try done. intros r Er. unfold topology_call. rewrite Er. by path_cases.
  - intros q Hq Hr. apply streaming_method; try done. intros r Er. unfold topology_call. rewrite Er. by path_cases.
  - intros q Hq Hr. apply unary_method; try done. intros r Er. unfold topology_call. rewrite Er. by path_cases.
  - apply unimplemented_headers.
  - intros r Hr. unfold topology_call. cbv zeta.
    repeat (case_decide as E; [destruct Hr; rewrite E; apply (bool_decide_unpack _); by vm_compute|clear E]). done.
Qed.

End topology_calls.

Section control_plane_calls.
Context `{!Prost unit} `{!Prost ControlPlaneResponse} `{!ProstLaws unit} `{!ProstLaws ControlPlaneResponse}.
Context {T : Type} `{!ControlPlaneService T}.

Definition with_cp_service (t : T) (s : ControlPlaneServiceServer T) : ControlPlaneServiceServer T :=
  MkControlPlaneServiceServer t (cs_accept_compression_encodings s) (cs_send_compression_encodings s)
    (cs_max_decoding_message_size s) (cs_max_encoding_message_size s).

(** The same for the control plane's service, with its one method. *)
Lemma control_plane_rpc (s : ControlPlaneServiceServer T) cs (reqs : Stream unit) c :
  uncompressed cs (cs_settings s) -> stream_all (request_within cs (cs_settings s)) reqs ->
  stream_within cs (cs_settings s) (fst (active_users (stream_map inr reqs) (cs_inner s))) ->
  grpc_service (cpc_inner c) = s -> grpc_settings (cpc_inner c) = cs ->
  exists c', active_users_stub reqs c = (fst (active_users (stream_map inr reqs) (cs_inner s)), c') /\
    grpc_service (cpc_inner c') = with_cp_service (snd (active_users (stream_map inr reqs) (cs_inner s))) s /\
    grpc_settings (cpc_inner c') = cs.
Proof.
  intros Hu Hq Hr Es Ec. unfold active_users_stub.
  assert (forall t, with_cp_service (cs_inner t) t = t) as Hid by by intros [].
  match goal with |- context [when_ready ?k (cpc_inner c)] =>
    destruct (when_ready_served _ k (cpc_inner c)) as (g & Eg & Es' & Ec'); [done|] end.
  rewrite Es in Es'. rewrite Ec in Ec'. rewrite Eg.
  destruct (grpc_streaming_law _ T _ unit ControlPlaneResponse _ _ _ _ (fun t => with_cp_service t s) (cs_settings s) active_users g reqs
    (str "control_plane.ControlPlaneService", str "ActiveUsers") (str "/control_plane.ControlPlaneService/ActiveUsers") (cs_inner s))
    as (g' & E & E1 & E2); rewrite ?Ec', ?Hid; try done.
  - intros r Er. cbn [svc_call cp_service]. unfold cp_call. rewrite Er, Hid. path_cases. unfold ActiveUsersSvc.
    by destruct (server_streaming (cs_settings s) active_users r (cs_inner s)).
  - rewrite E. eexists. split; [done|]. cbn [cpc_inner]. rewrite E1, E2. done.
Qed.

Lemma control_plane_unimplemented (s : ControlPlaneServiceServer T) r :
  uri_path r <> str "/" ++ cp_service_name ++ str "/ActiveUsers" -> cp_call r s = (unimplemented_response, s).
Proof. intros Hr. unfold cp_call. rewrite decide_False; [done|]. intros E. by apply Hr. Qed.

End control_plane_calls.

End calls.

(** ** Messages by number *)

#[export] Instance SubscribeId_eq_dec : EqDecision SubscribeId.
Proof. solve_decision. Defined.
#[export] Instance Endpoint_eq_dec : EqDecision Endpoint.
Proof. solve_decision. Defined.
#[export] Instance ServiceExpose_eq_dec : EqDecision ServiceExpose.
Proof. solve_decision. Defined.
#[export] Instance ServiceSecrets_eq_dec : EqDecision ServiceSecrets.
Proof. solve_decision. Defined.
#[export] Instance DBService_eq_dec : EqDecision DBService.
Proof. solve_decision. Defined.
#[export] Instance ServiceChangeEvent_eq_dec : EqDecision ServiceChangeEvent.
Proof. solve_decision. Defined.
#[export] Instance Payload_eq_dec : EqDecision Payload.
Proof. solve_decision. Defined.
#[export] Instance Response_eq_dec : EqDecision Response.
Proof. solve_decision. Defined.
#[export] Instance SubscribeRequest_eq_dec : EqDecision SubscribeRequest.
Proof. solve_decision. Defined.
#[export] Instance GetTopologyRequest_eq_dec : EqDecision GetTopologyRequest.
Proof. solve_decision. Defined.
#[export] Instance SubscribeNamespaceRequest_eq_dec : EqDecision SubscribeNamespaceRequest.
Proof. solve_decision. Defined.

#[export] Instance SubscribeId_countable : Countable SubscribeId.
Proof.
  by apply (inj_countable' (fun s => (sub_id s, sub_namespace s, sub_name s)) (fun '(a, b, c) => MkSubscribeId a b c)); intros [].
Defined.
#[export] Instance Endpoint_countable : Countable Endpoint.
Proof.
  by apply (inj_countable' (fun s => (ep_address s, ep_port_name s, ep_port s)) (fun '(a, b, c) => MkEndpoint a b c)); intros [].
Defined.
#[export] Instance ServiceExpose_countable : Countable ServiceExpose.
Proof. by apply (inj_countable' (fun s => (exp_addr s, exp_port s)) (fun '(a, b) => MkServiceExpose a b)); intros []. Defined.
#[export] Instance ServiceSecrets_countable : Countable ServiceSecrets.
Proof. by apply (inj_countable' (fun s => (sec_user s, sec_password s)) (fun '(a, b) => MkServiceSecrets a b)); intros []. Defined.
#[export] Instance DBService_countable : Countable DBService.
Proof.
  by apply (inj_countable'
    (fun s => (svc_location s, svc_cluster s, svc_service s, svc_status s, svc_expose s, svc_secrets s, svc_endpoints s, svc_payload s))
    (fun '(a, b, c, d, e, f, g, h) => MkDBService a b c d e f g h)); intros [].
Defined.
#[export] Instance ServiceChangeEvent_countable : Countable ServiceChangeEvent.
Proof. by apply (inj_countable' (fun s => (ev_service s, event_timestamp s)) (fun '(a, b) => MkServiceChangeEvent a b)); intros []. Defined.
#[export] Instance Payload_countable : Countable Payload.
Proof.
  by apply (inj_countable'
    (fun p => match p with ServiceList l => inl l | ChangeEvent e => inr (Some e) | NoData => inr None end)
    (fun s => match s with inl l => ServiceList l | inr (Some e) => ChangeEvent e | inr None => NoData end)); intros [].
Defined.
#[export] Instance Response_countable : Countable Response.
Proof.
  by apply (inj_countable' (fun s => (resp_status s, resp_message s, resp_payload s)) (fun '(a, b, c) => MkResponse a b c)); intros [].
Defined.
#[export] Instance SubscribeRequest_countable : Countable SubscribeRequest.
Proof.
  by apply (inj_countable' (fun s => (sreq_cluster_name s, sreq_subscribe_id s, sreq_force s))
    (fun '(a, b, c) => MkSubscribeRequest a b c)); intros [].
Defined.
#[export] Instance GetTopologyRequest_countable : Countable GetTopologyRequest.
Proof.
  by apply (inj_countable' (fun s => (topo_locations s, topo_label s)) (fun '(a, b) => MkGetTopologyRequest a b)); intros [].
Defined.
#[export] Instance SubscribeNamespaceRequest_countable : Countable SubscribeNamespaceRequest.
Proof.
  by apply (inj_countable' (fun s => (req_db_location s, req_subscribe_id s, req_force s, req_label s))
    (fun '(a, b, c, d) => MkSubscribeNamespaceRequest a b c d)); intros [].
Defined.

#[export] Instance numbered_prost (A : Type) `{Countable A} : Prost A := countable_prost A.
#[export] Instance numbered_prost_laws (A : Type) `{Countable A} : ProstLaws A := countable_prost_laws A.

(** ** Witness *)

(** A directory of the namespaces that are subscribed to, which it answers with. *)
#[export] Instance directory : Topology (list bytes) := {|
  get_topology := fun q t => (inr (MkResponse (len t) [] (Some NoData)), t);
  subscribe := fun l t => (inr (map (fun _ => inr (MkResponse 0 [] None)) l), t);
  cancel_subscribe := fun q t =>
    match sreq_cluster_name q with
    | Some c => (inr (MkResponse 0 [] None), filter (fun n => n <> cn_namespace c) t)
    | None => (inl (MkStatus CodeInvalidArgument (str "cluster")), t)
    end;
  subscribe_namespace := fun l t =>
    (inr (map (fun _ => inr (MkResponse 0 [] None)) l),
     t ++ concat (map (fun r => match r with
       | inr q => match req_db_location q with Some d => [loc_namespace d] | None => [] end
       | inl _ => [] end) l));
  cancel_subscribe_namespace := fun q t => (inr (MkResponse 0 [] None), t);
|}.

Definition directory_client : TopologyClient (plain_grpc (TopologyServer (list bytes))) :=
  topology_client_new (topology_server_new [str "db"]).

Definition cancel_db : SubscribeRequest := MkSubscribeRequest (Some (MkClusterName (str "db") (str "c"))) None false.

Lemma topology_rpc_witness : exists c',
  cancel_subscribe_stub cancel_db directory_client = (inr (MkResponse 0 [] None), c') /\
  ts_inner (pg_service (tc_inner c')) = [].
Proof.
  destruct (topology_rpc (topology_server_new [str "db"]) (MkClientSettings None encodings_default None None)) as (_ & _ & Hc & _); [done|].
  destruct (Hc cancel_db) with (c := directory_client) as (c' & E & Es & _).
  - split; by vm_compute.
  - split; by vm_compute.
  - done.
  - exists c'. split; [exact E|]. cbn [grpc_service plain_laws] in Es. rewrite Es. by vm_compute.
Defined.
