(* ===== verification/ControlPlane.v ===== *)
(** * The control plane's service ([cp/cp_target.rs] behind [prost/control_plane.rs])

    The window of active users as the implementation of the generated trait: a control plane that
    asks through the generated client gets the users recorded since it last asked. *)
From S2P Require Import Prelude External Proto Packet PacketWriter Runtime ActiveUsers Tonic Grpc.

(** ** Definitions *)

(** The service keeps the window, which the proxy also records into. *)
Record ControlPlaneServiceImpl (TC : Type) : Type := MkControlPlaneServiceImpl {
  cp_window : UserActivityWindow (TC := TC);
}.
Arguments MkControlPlaneServiceImpl {TC} _.
Arguments cp_window {TC} _.

Definition control_plane_service_new {TC} (active_users : UserActivityWindow (TC := TC)) : ControlPlaneServiceImpl TC :=
  MkControlPlaneServiceImpl active_users.

(** What the proxy records around the requests: [recorded i] between the requests [i - 1] and
    [i], and after the last one for its number. *)
Definition recordings : Type := nat -> list (Z * UserCom).

Definition puts (l : list (Z * UserCom)) : list window_op := map (fun r => OpPut (fst r) (snd r)) l.

(** The operations on the window, in order: the items of the stream of requests, which the task
    only counts, among the recordings. *)
Fixpoint interleaved {Q} (recorded : recordings) (request : list Q) : list window_op :=
  match request with
  | [] => puts (recorded 0%nat)
  | _ :: request => puts (recorded 0%nat) ++ OpAsk :: interleaved (fun i => recorded (S i)) request
  end.

(** The method spawns a task that answers every item of the stream of requests while the proxy
    goes on recording; [room] is how many responses the client takes before it goes away.  The
    stream is given as the list of its items, and the service as the task leaves it. *)
Definition control_plane_service (recorded : recordings) (room : nat) {TC} `{!DashMapIter Z UserCom}
  : ControlPlaneService (ControlPlaneServiceImpl TC) := fun request s =>
  let '(_, sent, w) := active_users_task room (interleaved recorded request) (cp_window s) in
  (inr (map inr sent), MkControlPlaneServiceImpl w).

(** ** The task *)

Section service.
Context `{!DashMapIter Z UserCom} `{!DashMapIterLaws Z UserCom} {TC : Type}.

Abbreviation window := (UserActivityWindow (TC := TC)).

(** The responses are those of the requests in order, as many as are taken. *)
Lemma task_sends ops : forall room (w : window),
  snd (fst (active_users_task room ops w)) = take room (concat (fst (run_window ops w))).
Proof.
  induction ops as [|[k v|] ops IH]; intros room w; cbn [active_users_task run_window]; [by destruct room|apply IH|].
  unfold active_users_turn, on_active_users_request. destruct (freeze w) as [us w1].
  pose proof (fun room => IH room w1) as IH1. destruct (run_window ops w1) as [rss w2]. cbn [fst snd concat] in *.
  case_decide as E.
  - subst us. destruct room as [|room]; [by rewrite take_0|].
    specialize (IH1 room). destruct (active_users_task room ops w1) as [[b sent] w3]. cbn [fst snd] in *. by rewrite IH1.
  - specialize (IH1 (room - length (active_user_responses us))%nat).
    destruct (active_users_task _ ops w1) as [[b sent] w3]. cbn [fst snd] in *. by rewrite IH1, take_app.
Qed.

(** A client that takes them all. *)
Lemma task_answers ops : forall room (w : window), (length (concat (fst (run_window ops w))) <= room)%nat ->
  snd (active_users_task room ops w) = snd (run_window ops w).
Proof.
  induction ops as [|[k v|] ops IH]; intros room w Hr; cbn [active_users_task run_window] in *; [done|by apply IH|].
  unfold active_users_turn, on_active_users_request in *. destruct (freeze w) as [us w1].
  pose proof (fun room => IH room w1) as IH1. destruct (run_window ops w1) as [rss w2]. cbn [fst snd concat] in *.
  rewrite length_app in Hr. case_decide as E.
  - subst us. change (length (active_user_responses [])) with 1%nat in *. destruct room as [|room]; [lia|].
    specialize (IH1 room ltac:(lia)). by destruct (active_users_task room ops w1) as [[b sent] w3].
  - specialize (IH1 (room - length (active_user_responses us))%nat ltac:(lia)).
    by destruct (active_users_task _ ops w1) as [[b sent] w3].
Qed.

(** The items of the stream do not matter, only how many there are. *)
Lemma interleaved_items {Q Q'} (f : Q -> Q') (l : list Q) : forall recorded, interleaved recorded (map f l) = interleaved recorded l.
Proof. induction l as [|q l IH]; intros recorded; [done|]. cbn [map interleaved]. by rewrite IH. Qed.

End service.

(** ** Through gRPC *)

Section rpc.
Context {H : Http} {Srv : TonicServer} {Grpc : Type -> Type} {Cl : TonicClient Grpc} {TL : TonicLaws Srv Cl}.
Context `{!Prost unit} `{!Prost ControlPlaneResponse} `{!ProstLaws unit} `{!ProstLaws ControlPlaneResponse}.
Context `{!DashMapIter Z UserCom} `{!DashMapIterLaws Z UserCom} {TC : Type} (recorded : recordings) (room : nat).

#[local] Instance the_service : ControlPlaneService (ControlPlaneServiceImpl TC) := control_plane_service recorded room.

Definition server_window (s : ControlPlaneServiceServer (ControlPlaneServiceImpl TC)) : UserActivityWindow (TC := TC) :=
  cp_window (cs_inner s).

(** (C27) The control plane asks [n] times in one call of the generated client, while the proxy records
    users before, between and after the requests, in any way in which no recording overlaps the
    switch of the maps; nothing is compressed, and the messages are within the limits.  The answer
    to each request carries the users recorded since the one before (for the first, those the
    window showed), each once.  The client is sent the responses of these answers in order, as
    many as it takes; and if it takes all of them, the window of the server is left with the users
    recorded since the last request. *)
Theorem active_users_rpc n s cs a (c : ControlPlaneServiceClient (Grpc (ControlPlaneServiceServer (ControlPlaneServiceImpl TC)))) :
  let ops := interleaved recorded (replicate n tt) in
  let answers := fst (run_window ops (server_window s)) in
  let sent := take room (concat answers) in
  grpc_service (cpc_inner c) = s -> grpc_settings (cpc_inner c) = cs -> shows (aw_data (server_window s)) a ->
  uncompressed cs (cs_settings s) -> request_within cs (cs_settings s) tt ->
  Forall (response_within cs (cs_settings s)) sent ->
  Forall2 (fun rs us => concat (map response_users rs) ≡ₚ us) answers (fst (run_spec ops a)) /\
  exists c', active_users_stub (replicate n tt) c = (inr (map inr sent), c') /\
    ((length (concat answers) <= room)%nat ->
     shows (aw_data (server_window (grpc_service (cpc_inner c')))) (snd (run_spec ops a))).
Proof.
  cbv zeta. set (ops := interleaved recorded (replicate n tt)). intros Es Ec Hs Hu Hq Hw.
  destruct (window_refined ops (server_window s) a Hs) as [H1 H2]. split; [done|].
  pose proof (task_sends ops room (server_window s)) as Ht. pose proof (task_answers ops room (server_window s)) as Hl.
  destruct (active_users_task room ops (server_window s)) as [[b sent] w] eqn:Et. cbn [fst snd] in Ht, Hl.
  assert (active_users (stream_map inr (replicate n tt : Stream unit)) (cs_inner s)
    = (inr (map inr sent), MkControlPlaneServiceImpl w)) as Ea.
  { unfold active_users, the_service, control_plane_service. cbn [stream_map list_streams].
    rewrite interleaved_items. fold ops. unfold server_window in Et. by rewrite Et. }
  destruct (control_plane_rpc (Ty := list_streams) s cs (replicate n tt) c) as (c' & E & E1 & _); try done.
  - by apply Forall_replicate.
  - rewrite Ea. cbn [fst stream_within stream_all list_streams]. apply Forall_map. by rewrite Ht.
  - rewrite Ea in E, E1. cbn [fst snd] in E, E1. exists c'. split; [by rewrite E, Ht|]. intros Hr.
    unfold server_window at 1. rewrite E1. cbn [with_cp_service cs_inner cp_window]. by rewrite (Hl Hr).
Qed.

End rpc.

(** ** Witness *)

#[export] Instance PacketHeader_eq_dec : EqDecision PacketHeader.
Proof. solve_decision. Defined.
#[export] Instance UserCom_eq_dec : EqDecision UserCom.
Proof. solve_decision. Defined.
#[export] Instance ControlPlaneResponse_eq_dec : EqDecision ControlPlaneResponse.
Proof. solve_decision. Defined.

#[export] Instance PacketHeader_countable : Countable PacketHeader.
Proof.
  by apply (inj_countable' (fun h => (packet_type h, package_count h, size_pre_package h, hdr_size h))
    (fun '(a, b, c, d) => MkPacketHeader a b c d)); intros [].
Defined.
#[export] Instance UserCom_countable : Countable UserCom.
Proof.
  by apply (inj_countable' (fun u => (uc_cluster u, uc_user u, uc_com u, uc_com_ts u)) (fun '(a, b, c, d) => MkUserCom a b c d));
    intros [].
Defined.
#[export] Instance ControlPlaneResponse_countable : Countable ControlPlaneResponse.
Proof.
  by apply (inj_countable' (fun r => (cp_header r, packet_data r)) (fun '(a, b) => MkControlPlaneResponse a b)); intros [].
Defined.

(** Two users were active; the control plane asks twice in one call, and a third user becomes active
    between the requests. *)
Definition two_users : gmap Z UserCom := {[1 := com_of "a" 3; 2 := com_of "b" 14]}.

Definition third_user : recordings := fun i => match i with 1%nat => [(3, com_of "c" 3)] | _ => [] end.

Definition window_server : ControlPlaneServiceServer (ControlPlaneServiceImpl (queue (TenantKey * bytes * Z * Z))) :=
  cp_server_new (control_plane_service_new (MkWindow (MkMaps two_users ∅ false) 0 0 (MkQueue []))).

#[local] Instance windows_service {TC} : ControlPlaneService (ControlPlaneServiceImpl TC) := control_plane_service third_user 15.

Lemma active_users_rpc_witness : exists answers c',
  active_users_stub (replicate 2 tt) (cp_client_new (Grpc := plain_grpc) window_server) = (inr (map inr (concat answers)), c') /\
  Forall2 (fun rs us => concat (map response_users rs) ≡ₚ us) answers [map snd (map_to_list two_users); [com_of "c" 3]] /\
  shows (aw_data (server_window (grpc_service (cpc_inner c')))) ∅.
Proof.
  destruct (active_users_rpc (Grpc := plain_grpc) third_user 15 2 window_server (MkClientSettings None encodings_default None None) two_users
    (cp_client_new window_server)) as (Hu & c' & E & Hl).
  - done.
  - done.
  - by split.
  - done.
  - split; by vm_compute.
  - repeat constructor; by vm_compute.
  - eexists _, c'. split; [|split; [exact Hu|]].
    + etransitivity; [exact E|]. by vm_compute.
    + apply Hl. vm_compute. lia.
Defined.
