(* ===== verification/System.v ===== *)
(** * The running process: the start of [main] composed with the manager, the routers and discovery

    What happens to the clients of a process, from its command line on: with the static router
    every client is served, by one of the listed backends, once the notifier has made the pools;
    with the synchronising router no client ever is, since nothing makes an entry for a tenant. *)
From S2P Require Import Prelude External Reference Text Proto TenantKey Basic Runtime CpResolver Discovery Pool Router BackendMgr Startup.

(** ** Definitions *)

Section system.
Context {TC WC G Ch P : Type} {MO : Mpsc TenantKey TC} {WO : Watch BackendInstance WC} {RO : StdRng G}
  {DO : Deadpool PooledConnMgr P} {TI : DashMapIter TenantKey (list BackendInstance)} {LO : Lowercase} {HU : HttpUri}
  {X : Hex} {Pr : Profile}.

Abbreviation mgr := (BackendMgr (BackendRouterTrait (StaticRouter G) (SyncRouter TC WC G)) P).

(** The process: its manager, and whether the discovery task still runs. *)
Record proxy : Type := MkProxy {
  px_mgr : mgr;
  px_discovering : bool;
}.

(** The discovery is shared by the router, the discovery task and the REST interface. *)
Definition set_discovery (d : BackendDiscovery TC WC) (r : SyncRouter TC WC G) (s : mgr) : mgr :=
  MkMgr (mgr_options s) (SyncR (MkSyncRouter d (sy_balancer r))) (mgr_pools s).

(** The steps of the tasks: the REST interface adds a tenant (a retry subscribes in the same way),
    the discovery task sends a subscription, handles a response (a panic ends it) or ends, the
    notifier takes some turns, a client looks for its backend. *)
Inductive proxy_step : proxy -> proxy -> Prop :=
  | PxSubscribe t s r b : mgr_router s = SyncR r ->
      proxy_step (MkProxy s b) (MkProxy (set_discovery (subscribe_for t (be_discovery r)).2 r s) b)
  | PxSend s r o d : mgr_router s = SyncR r -> send_stream_next (be_discovery r) = Some (o, d) ->
      proxy_step (MkProxy s true) (MkProxy (set_discovery d r s) true)
  | PxResponse resp s r o d : mgr_router s = SyncR r -> on_response resp (be_discovery r) = (o, d) ->
      proxy_step (MkProxy s true) (MkProxy (set_discovery d r s) (match o with Panic => false | _ => true end))
  | PxDiscoveryEnds s : proxy_step (MkProxy s true) (MkProxy s false)
  | PxNotify n s o s' b : prepare_backend_conn_pool n s = (o, s') -> proxy_step (MkProxy s b) (MkProxy s' b)
  | PxConnect h s o s' b : connect_to_backend h s = (o, s') -> proxy_step (MkProxy s b) (MkProxy s' b).

(** Clients only. *)
Definition client_step (s s' : mgr) : Prop := exists h o, connect_to_backend h s = (o, s').

(** ** The static router *)

Context {RL : StdRngLaws G} {DL : DeadpoolLaws PooledConnMgr P}.

(** Every pool is the pool of the backend it is filed under. *)
Definition managed (t : Pools P) : Prop :=
  map_Forall (fun b p => pool_manager p = MkPooledConnMgr b) (be_conn_pool t).

Lemma split_on_nonempty c s : split_on c s <> [].
Proof. destruct s as [|x s]; cbn [split_on]; [done|]. destruct (_ =? _); [done|]. by destruct (split_on c s). Qed.

Lemma static_list_ready a :
  static_backend_list a <> [] /\ Forall (fun b => be_status b = Ready) (static_backend_list a).
Proof.
  unfold static_backend_list. destruct (arg_backend a) as [[s|? ?]|]; [|split; [done|by repeat constructor]..].
  split; [|by apply Forall_map, Forall_true]. pose proof (split_on_nonempty 44 s). by destruct (split_on 44 s).
Qed.

Lemma notify_all_pools o l : Forall (fun b => be_status b = Ready) l -> forall t : Pools P, managed t ->
  exists t', notify_all (init_backend_pool o) l t = (Ok tt, t') /\ managed t' /\
    dom (be_conn_pool t') = dom (be_conn_pool t) ∪ list_to_set l.
Proof.
  induction 1 as [|b l Hb _ IH]; intros t Ht; [exists t; split; [done|]; split; [done|set_solver]|].
  destruct (pool_build_law (MkPooledConnMgr b) (max_size (pool_config o))) as (p & Ep & Hp).
  destruct (IH (MkPools (<[b := p]> (be_conn_pool t)) (closed_pools t))) as (t' & E & Hm & Hd).
  { by apply map_Forall_insert_2. }
  exists t'. split; [|split; [done|rewrite Hd; cbn [be_conn_pool list_to_set]; set_solver]].
  cbn [notify_all]. rewrite run_bind. unfold init_backend_pool at 1. rewrite Hb, Ep. mrun. exact E.
Qed.

Lemma static_draw r t lb : backend_addrs r <> [] -> exists b r',
  b ∈ backend_addrs r /\ backend_addrs r' = backend_addrs r /\ selector t lb r = (Ok b, r').
Proof.
  intros Hr. cbn [selector static_router]. unfold static_selector. mstep. unfold zoom.
  destruct (balance_spec (len (backend_addrs r)) (sr_balancer r)) as (i & g & -> & Hi).
  { destruct (backend_addrs r); [done|len_lia]. }
  destruct (lookup_in_range _ i Hi) as (b & Eb & Hb). unfold lift. rewrite Eb. exists b. eexists. split; [exact Hb|]. split; [|reflexivity]. reflexivity.
Qed.

(** A client of a process with the static router gets what the table has for one of the backends. *)
Lemma static_connect (s : mgr) r h t : mgr_router s = StaticR r -> backend_addrs r <> [] -> client_tenant h = Ok t ->
  exists b r', b ∈ backend_addrs r /\ backend_addrs r' = backend_addrs r /\
    connect_to_backend h s = (match be_conn_pool (mgr_pools s) !! b with Some p => Ok p | None => Err NotConnected end,
                              MkMgr (mgr_options s) (StaticR r') (mgr_pools s)).
Proof.
  intros Hr Hl Ht. destruct (static_draw r t (balance_type (mgr_options s)) Hl) as (b & r' & Hb & Hr' & E).
  exists b, r'. split; [done|]. split; [done|]. unfold connect_to_backend. mstep. rewrite Ht. mstep. unfold zoom.
  cbn [selector either_router]. unfold either_selector. rewrite Hr, E.
  by destruct (be_conn_pool (mgr_pools s) !! b).
Qed.

(** What clients leave alone. *)
Definition static_state (l : list BackendInstance) (pools : Pools P) (s : mgr) : Prop :=
  mgr_pools s = pools /\ exists r, mgr_router s = StaticR r /\ backend_addrs r = l.

Lemma static_state_step l pools s s' : l <> [] -> client_step s s' -> static_state l pools s -> static_state l pools s'.
Proof.
  intros Hl (h & o & E) (Hp & r & Hr & Ha). destruct (client_tenant h) as [t| | |] eqn:Et.
  - destruct (static_connect s r h t Hr) as (b & r' & _ & Hr' & E'); [by rewrite Ha|done|].
    rewrite E in E'. injection E' as _ ->. split; [done|]. exists r'. split; [done|]. by rewrite Hr'.
  - unfold connect_to_backend in E. revert E. mstep. rewrite Et. mstep. intros [= <- <-]. by split; [|exists r].
  - unfold connect_to_backend in E. revert E. mstep. rewrite Et. mstep. intros [= <- <-]. by split; [|exists r].
  - unfold connect_to_backend in E. revert E. mstep. rewrite Et. mstep. intros [= <- <-]. by split; [|exists r].
Qed.

Context (env : environment) (tc : TC) (wc : WC) (seed : G) (level_ok : bytes -> bool) (port_free : Z -> bool).

Abbreviation setup := (main_setup (P := P) (Ch := Ch) env tc wc seed level_ok port_free).

Lemma setup_inv a p : setup a = Ok p -> exists o r c, process_mgr p = mgr_new r o /\
  new_backend_router (Ch := Ch) env tc wc seed a = Ok (r, c).
Proof.
  unfold main_setup. destruct (level_ok _); [|done]. destruct (works a =? 0); [done|].
  destruct (new_backend_opts a) as [o| | |]; ostep; [|done..].
  destruct (new_backend_router _ _ _ _ a) as [[r c]| | |] eqn:E; ostep; [|done..].
  destruct (port_free (port a)); [|done]. intros [= <-]. by exists o, r, c.
Qed.

Lemma static_start a p : setup a = Ok p -> startable a false ->
  exists o, process_mgr p = mgr_new (StaticR (MkStaticRouter (static_backend_list a) (MkRandomBalancer seed))) o.
Proof.
  intros Hp Hs. apply setup_inv in Hp as (o & r & c & -> & E). exists o. f_equal. revert E.
  unfold new_backend_router, router_type. inversion Hs as [[Ha|Ha]|]; rewrite Ha; by intros [= <- _].
Qed.

Lemma sync_start a p : setup a = Ok p -> startable a true ->
  exists o r, process_mgr p = mgr_new (SyncR r) o /\ tenants (be_discovery r) = ∅.
Proof.
  intros Hp Hs. apply setup_inv in Hp as (o & r & c & -> & E). revert E. inversion Hs as [|addr Ha Hc Hu].
  unfold new_backend_router, router_type, sync_router_new, start_backend_discovery, cp_resolver_new.
  rewrite Ha, Hc. change (router_type_from_str (str "sync-with-cp")) with (Some RouterSyncWithCp).
  cbn [unwrap_option]. ostep. destruct (uri_scheme addr); cbn [unwrap_option]; ostep; [|done].
  intros [= <- _]. by eexists o, _.
Qed.

(** ** The synchronising router *)

(** No tenant has an entry. *)
Definition no_tenants (s : mgr) : Prop := exists r, mgr_router s = SyncR r /\ tenants (be_discovery r) = ∅.

Lemma set_no_tenants d r s : tenants d = ∅ -> no_tenants (set_discovery d r s).
Proof. intros Hd. eexists. split; [done|exact Hd]. Qed.

Lemma response_no_tenants resp (d : BackendDiscovery TC WC) : tenants d = ∅ -> tenants (on_response resp d).2 = ∅.
Proof.
  intros Hd. unfold on_response. destruct (resp_payload resp) as [[l|ev|]|]; mstep; try done.
  destruct (event_instance ev) as [[t b]| | |]; mstep; try done. by rewrite Hd, lookup_empty.
Qed.

Lemma notify_no_tenants {T} (f : BackendInstance -> M T unit) n : forall (r : SyncRouter TC WC G) t,
  tenants (be_discovery (sync_notify f n (r, t)).2.1) = tenants (be_discovery r).
Proof.
  induction n as [|n IH]; intros r t; [done|]. cbn [sync_notify fst snd].
  destruct (watch_changed _) as [[[] w]|]; [|done..]. destruct (watch_borrow_and_update w) as [b w'].
  cbn [fst snd]. destruct (f b t) as [[] t1]; [by rewrite IH..| |]; done.
Qed.

Lemma no_tenants_step x y : proxy_step x y -> no_tenants (px_mgr x) -> no_tenants (px_mgr y).
Proof.
  destruct 1 as [t s r b Hr|s r o d Hr E|resp s r o d Hr E|s|n s o s' b E|h s o s' b E]; intros (r' & Hr' & Ht); cbn [px_mgr] in *;
    try (rewrite Hr in Hr'; injection Hr' as <-).
  - apply set_no_tenants. by rewrite (discovery_step_tenants _ _ (StepSubscribe t (be_discovery r))).
  - apply set_no_tenants. by rewrite (discovery_step_tenants _ _ (StepSend _ _ _ E)).
  - apply set_no_tenants. pose proof (response_no_tenants resp _ Ht) as H. by rewrite E in H.
  - by exists r'.
  - unfold prepare_backend_conn_pool in E. revert E. mstep. unfold zoom. cbn [status_change_notify either_router].
    rewrite Hr'. cbn [status_change_notify sync_router].
    pose proof (notify_no_tenants (init_backend_pool (mgr_options s)) n r' (mgr_pools s)) as H.
    destruct (sync_notify _ n _) as [o' [r1 t1]]. cbn [fst snd] in H |- *. intros [= <- <-].
    exists r1. split; [done|]. by rewrite H.
  - unfold connect_to_backend in E. revert E. mstep. destruct (client_tenant h) as [t| | |]; [|by intros [= <- <-]; exists r'..].
    mstep. unfold zoom. cbn [selector either_router]. unfold either_selector. rewrite Hr'.
    cbn [selector sync_router]. unfold sync_selector. mstep. rewrite Ht, lookup_empty. mstep. intros [= <- <-].
    by exists r'.
Qed.

Lemma no_tenants_refuse (s : mgr) h t : no_tenants s -> client_tenant h = Ok t -> (connect_to_backend h s).1 = Err NotFound.
Proof.
  intros (r & Hr & Ht) Hh. unfold connect_to_backend. mstep. rewrite Hh. mstep. unfold zoom.
  cbn [selector either_router]. unfold either_selector. rewrite Hr.
  cbn [selector sync_router]. unfold sync_selector. mstep. by rewrite Ht, lookup_empty.
Qed.

(** ** Properties *)

(** (C13) A process with the static router serves its clients: once it has started, the notifier
    makes one pool for each backend of the list, and no other; from then on every client, whoever
    came before it and whatever is drawn, gets a pool, that of a backend of the list.  A client
    that comes before is refused. *)
Theorem static_process_serves a p : setup a = Ok p -> startable a false ->
  (forall h t, client_tenant h = Ok t -> (connect_to_backend h (process_mgr p)).1 = Err NotConnected) /\
  forall n, exists s1, prepare_backend_conn_pool n (process_mgr p) = (Ok (Some tt), s1) /\
    dom (be_conn_pool (mgr_pools s1)) = list_to_set (static_backend_list a) /\
    forall s h t, rtc client_step s1 s -> client_tenant h = Ok t ->
      exists b q s', b ∈ static_backend_list a /\ connect_to_backend h s = (Ok q, s') /\ pool_manager q = MkPooledConnMgr b.
Proof.
  intros Hp Hs. apply (static_start a p Hp) in Hs as [o ->]. destruct (static_list_ready a) as [Hl Hr]. split.
  { intros h t Ht. set (r := MkStaticRouter _ _).
    destruct (static_connect (mgr_new (StaticR r) o) r h t eq_refl Hl Ht) as (b & r' & _ & _ & ->). done. }
  intros n. destruct (notify_all_pools o _ Hr (MkPools ∅ [])) as (t1 & E & Hm & Hd); [apply map_Forall_empty|].
  eexists. split.
  { unfold prepare_backend_conn_pool. mstep. unfold zoom. cbn [status_change_notify either_router static_router mgr_new mgr_router mgr_pools mgr_options].
    mstep. unfold zoom. cbn [fst snd backend_addrs]. rewrite E. reflexivity. }
  cbn [mgr_pools snd]. split; [rewrite Hd; cbn [be_conn_pool]; set_solver|]. intros s h t Hsteps Ht.
  assert (static_state (static_backend_list a) t1 s) as (Hpools & r & Hr' & Ha).
  { remember (MkMgr _ _ _) as s1 eqn:E1 in Hsteps.
    assert (static_state (static_backend_list a) t1 s1) as H1 by (subst s1; split; [done|]; by eexists).
    clear E1. induction Hsteps as [|s1 s2 s3 Hst _ IH]; [done|]. apply IH. by eapply static_state_step. }
  destruct (static_connect s r h t Hr') as (b & r' & Hb & _ & Ec); [by rewrite Ha|done|].
  rewrite Ha in Hb. exists b. assert (is_Some (be_conn_pool t1 !! b)) as [q Hq].
  { apply elem_of_dom. rewrite Hd. apply elem_of_union_r. by apply elem_of_list_to_set. }
  exists q. rewrite Hpools, Hq in Ec. eexists. split; [done|]. split; [exact Ec|]. exact (Hm b q Hq).
Qed.

(** (C14) A process with the synchronising router never serves a client: whatever tenants are added
    through the REST interface, whatever the control plane sends, and however the tasks interleave,
    a client whose tenant is understood is told that there is no backend, because no task makes
    the entry of a tenant. *)
Theorem sync_process_refuses a p s h t : setup a = Ok p -> startable a true ->
  rtc proxy_step (MkProxy (process_mgr p) true) s -> client_tenant h = Ok t ->
  (connect_to_backend h (px_mgr s)).1 = Err NotFound.
Proof.
  intros Hp Hs Hsteps Ht. apply (no_tenants_refuse _ h t); [|done].
  apply (sync_start a p Hp) in Hs as (o & r & E & Hr).
  remember (MkProxy (process_mgr p) true) as x eqn:Ex. assert (no_tenants (px_mgr x)) as Hx.
  { subst x. cbn [px_mgr]. rewrite E. by exists r. }
  clear Ex. induction Hsteps as [|x y z Hxy _ IH]; [done|]. apply IH. by eapply no_tenants_step.
Qed.

End system.

(** ** Witnesses *)

Definition demo_process (a : ProxyServerArgs) : outcome io_error (process (queue TenantKey) (cell BackendInstance) Z bytes (PooledConnMgr * bool)) :=
  main_setup (fun _ => None) (MkQueue []) (MkCell default_instance false) 0 (fun _ => true) (fun _ => true) a.

Definition plain_client : HandshakeResponse := MkHandshakeResponse 0 0 33 None (Some (str "root")) [] [] None None.

Definition two_backend_args : ProxyServerArgs :=
  MkArgs 4 3310 9000 false false false None None None None None None (Some (Backend (str "h1:1,h2:2"))) (MkCpArgs false None).

Lemma static_process_serves_witness : exists p s1 b q s',
  demo_process two_backend_args = Ok p /\ prepare_backend_conn_pool 0 (process_mgr p) = (Ok (Some tt), s1) /\
  b ∈ static_backend_list two_backend_args /\ connect_to_backend (H := true) plain_client s1 = (Ok q, s') /\
  pool_manager q = MkPooledConnMgr b.
Proof.
  destruct (demo_process two_backend_args) as [p| | |] eqn:E; [|by vm_compute in E..].
  destruct (static_process_serves (Pr := true) (fun _ => None) (MkQueue []) (MkCell default_instance false) 0
    (fun _ => true) (fun _ => true) two_backend_args p) as [_ H]; [exact E|apply StartStatic; by left|].
  destruct (H 0%nat) as (s1 & E1 & _ & Hc).
  destruct (Hc s1 plain_client test_tenant_key) as (b & q & s' & Hb & Eq & Hq); [constructor|reflexivity|].
  exists p, s1, b, q, s'. split; [reflexivity|]. split; [exact E1|]. split; [exact Hb|]. split; [exact Eq|exact Hq].
Defined.

(** A tenant is added, its backend becomes ready, and its client is refused. *)
Lemma sync_process_refuses_witness : exists p s, demo_process sync_args = Ok p /\
  rtc (proxy_step (Pr := true)) (MkProxy (process_mgr p) true) s /\ px_discovering s = false /\
  (connect_to_backend (H := true) tenant_client (px_mgr s)).1 = Err NotFound.
Proof.
  destruct (demo_process sync_args) as [p| | |] eqn:E; [|by vm_compute in E..].
  destruct (mgr_router (process_mgr p)) as [r|r] eqn:Er; [vm_compute in E; injection E as <-; by vm_compute in Er|].
  pose (m1 := set_discovery (subscribe_for sample_tenant (be_discovery r)).2 r (process_mgr p)).
  pose (r1 := MkSyncRouter (subscribe_for sample_tenant (be_discovery r)).2 (sy_balancer r)).
  destruct (on_response (sample_event 3306 2) (be_discovery r1)) as [o d] eqn:Eo.
  assert (o = Panic) as -> by (vm_compute in E; injection E as <-; vm_compute in Er; injection Er as <-; by vm_compute in Eo; injection Eo as <-).
  assert (rtc (proxy_step (Pr := true)) (MkProxy (process_mgr p) true) (MkProxy (set_discovery d r1 m1) false)) as Hs.
  { eapply rtc_l; [by apply (PxSubscribe sample_tenant _ r true)|]. eapply rtc_once.
    exact (PxResponse (sample_event 3306 2) m1 r1 Panic d eq_refl Eo). }
  exists p, (MkProxy (set_discovery d r1 m1) false). split; [reflexivity|]. split; [exact Hs|]. split; [reflexivity|].
  apply (sync_process_refuses (Pr := true) (fun _ => None) (MkQueue []) (MkCell default_instance false) 0
    (fun _ => true) (fun _ => true) sync_args p _ tenant_client sample_tenant E).
  - eapply StartSync; [reflexivity|reflexivity|by vm_compute; eexists].
  - exact Hs.
  - by vm_compute.
Defined.
